(* ===== verification/_CoqProject ===== *)
-Q . S2P
Prelude.v
JsLib.v
Crypto.v
Json.v
Schema.v
Effects.v
Platform.v
Invariants.v
Messaging.v
Config.v
Tokens.v
Revocation.v
Users.v
Sessions.v
Access.v
Billing.v
Auth.v
AuthController.v
Instances.v
AuthSessions.v
AuthProps.v
AuthLifecycle.v
Guards.v
Subscriptions.v
LeadFinderBilling.v
Webhooks.v
BillingInvariants.v
BillingProps.v
Taxonomy.v
Apollo.v
Leads.v
ApolloSearch.v
ApolloSearchProps.v
LeadsProps.v
Dto.v
MailTemplate.v
MailWorkers.v
Campaign.v
ResendWebhook.v
CampaignProps.v
Outreach.v
Admin.v
AdminController.v
Controllers.v
Api.v
Service.v
Fixtures.v
Integrity.v
Lineage.v
Ledger.v
Gate.v
OptOut.v
Bounces.v
Answered.v
Pairing.v
Isolation.v
RenewalProps.v
Mailroom.v
Standing.v
Lockout.v
Scripts.v
Tools.v
Bootstrap.v
Workers.v
SessionCap.v
