(* ===== verification/Prelude.v ===== *)
(** * conference.contact: the back end, as executable definitions with theorems

    This library models the NestJS service under [src/src/]: accounts and
    logins, billing with Stripe, the Lead Directory and the AI lead search on
    Apollo, the cold-outreach campaign, the staff dashboard, and the workers of
    the job queues.  Paths below are relative to [src/src/].

    ** How the program is modelled

    An operation of a service is a value of [M A], a function from a [world]
    (Schema) to a result - a value or an exception - and the world after it.
    The world holds the database (one finite map per table of
    [prisma/schema.prisma]), Redis, the job queues in order of submission, the
    clock, the entropy source, and a log of what was asked of Stripe, Apollo and
    Resend.  An exception keeps the writes made before it, and
    only [transaction] rolls the database back, as in the source; [try_catch]
    is JavaScript's.  The database enforces the unique indexes and foreign keys
    of the migrations (Platform): a violation is the P2002, P2003 or P2025 the
    code catches or fails on.  Redis may be down in any world: reads and writes
    then throw, an enqueue under [withTimeout] times out, and one without it
    never settles ([NeverSettles]).

    Where operations of several requests interleave and the code depends on
    it, the operation is given twice, whole and as its awaited steps, with a
    step relation over the steps: creating a Stripe customer (Billing), the
    enrichment of search results (ApolloSearch), the drip (Campaign).

    ** Files and sources

    - Prelude, JsLib, Crypto, Json: generic lemmas and tactics; JavaScript's
      string functions; base64, hex, SHA-256 and HMAC; [JSON.parse] and
      [Number] on strings.  All executable.
    - Schema, Effects, Platform, Invariants: tables and world; the monad and
      its program logic [respects R m] (every run of [m] relates the world
      before to the world after by [R]); Prisma, Redis, BullMQ; invariants of
      tables under writes.
    - Config: [config/env.validation.ts].  Messaging: [audit/], the producers
      of [email/email.service.ts].
    - Tokens, Revocation: [common/tokens], [common/encryption],
      [common/token-revocation].  Users, Sessions: [users/], [sessions/],
      [common/device], [common/geoip].
    - Access, Guards: [subscriptions/subscription-access.util.ts],
      [subscriptions/guards/], [auth/guards/].
    - Auth, AuthController: [auth/auth.service.ts], [auth/auth.controller.ts]
      with its cookies.  AuthSessions, AuthProps, AuthLifecycle: their theorems.
    - Billing: [billing/stripe-customer.service.ts].  Subscriptions,
      LeadFinderBilling, Webhooks: [subscriptions/], [lead-finder-billing/].
      BillingInvariants, BillingProps: their theorems.
    - Apollo, Taxonomy: [leads/apollo.service.ts], [leads/claude.service.ts],
      [leads/apollo-taxonomy.ts].  Leads: [leads/leads.service.ts].
      ApolloSearch: [leads/apollo-search.processor.ts].  LeadsProps,
      ApolloSearchProps: their theorems.
    - MailTemplate, MailWorkers: [email/email-template.util.ts],
      [email/email.processor.ts], [email/bulk-email.processor.ts], the
      unsubscribe links.  Campaign: [prospect-campaign/].  ResendWebhook:
      [prospect-campaign/resend-webhook.controller.ts],
      [email/resend-webhook.util.ts].  CampaignProps, OptOut, Bounces: their
      theorems.
    - Outreach: [invites/], [contact/], [renewal-reminder/] (RenewalProps).
    - Admin, AdminController: [admin/].  Dto: the [dto/] classes.
    - Controllers, Api: the other controllers, and one request through
      guards, validation and handler.  Service: the running service - requests,
      jobs, time, outages - and what most of it leaves alone.
    - Instances, Fixtures: a concrete outside world, on which the theorems are
      evaluated.  Gate, Integrity, Isolation, Answered, Standing, Lockout,
      SessionCap, Lineage, Ledger, Pairing, Mailroom: theorems about the whole
      service; Answered also holds [common/filters/all-exceptions.filter.ts].
    - Scripts: the imports and seeds of [../scripts/].  Tools: its checks, the
      creation of products at Stripe and the smoke test.  Bootstrap: [main.ts],
      [common/dto/parse-query-boolean.decorator.ts].  Workers: the queues' attempts
      and retries, [queue/queue.module.ts].

    ** What the theorems show

    - The whole service: who reaches a handler (Gate); that unique indexes,
      foreign keys and keys hold in every reachable database (Integrity); that in
      every reachable state a request of one account changes no row of another
      (Pairing, Isolation); that sessions follow an abstract life cycle (Lineage) and
      that balances agree with the log of grants and spendings (Ledger); that every
      request is answered, with which statuses, and what an error shows of its
      cause (Answered); that roles never change and staff come only from a staff
      invitation (Standing); what a ban is worth (Lockout); that the cap on
      sessions holds for good (SessionCap); that an opt-out is final (OptOut);
      that every queued mail has a handler and the fields it reads (Mailroom).
    - Credentials: login, lockout, challenges and their caps, rotation and
      replay of refresh tokens, password reset, registration, erasure, the cap
      on sessions, instant revocation (AuthProps, AuthLifecycle, AuthSessions,
      Guards); the AES-GCM payload round trip (Tokens).
    - Money: the access policy (Access, Guards); one live subscription per
      account, exactness and idempotence of the synchronisation with Stripe,
      the grace clock, credits per delivery (Billing, BillingInvariants,
      BillingProps); no interleaving of searches overspends, and every
      search ends (ApolloSearchProps); daily allowances (LeadsProps).
    - Mail: one drip, an address at most once, two overlapping drips, draining
      of the queue (CampaignProps); who can report a bounce, and that it is
      obeyed (Bounces); the renewal scan (RenewalProps).
    - Queues: no accepted Stripe webhook is lost, and a retried one may be
      processed after its successors (Workers).
    - Operations: a list of attendees is imported at most once, seeding settles
      (Scripts); a signal ends the process within ten seconds (Bootstrap).
    Several theorems state what the code does where a comment promises
    something else; their comments say so.

    ** Third parties

    Code outside [src/] is a parameter: the classes [Entropy], [Argon2], [Jwt],
    [Totp], [Aead], [UAParser], [GeoipLite], [StripeApi], [StripeSignature],
    [ApolloApi], [ClaudeApi], [LocalTime], [Collation], [CsvStringify],
    [IsEmail], [IsUrl], [IsUUID], [Resend], [Nest] (its exception classes),
    [CsvFiles] (the disk and the CSV parser) and [Env].  What a theorem needs of them
    (an opened box is what was sealed, a signed token verifies to its
    payload) is a hypothesis of the theorem, true of the instances in Instances
    and Fixtures.

    ** Bounds and fuel

    Recursion is structural nearly everywhere.  [chunks] and the block
    splitting of SHA-256 take the length of their input as fuel, which is
    enough because every round consumes at least one element.  Loops of
    the source run over lists and are folds here.  The steps of searches, which
    interleave without fuel, decrease the measure [steps_left].

    ** Assumptions

    - JavaScript numbers are integers in [Z]: no value computed by the modelled
      code leaves the exactly representable range or has a fraction that the
      code does not floor.  Columns that PostgreSQL holds in 32 bits are
      unbounded.  Numbers in foreign text (Json) are exact decimals.
    - Strings are the bytes of their UTF-8 encoding: lengths count bytes where
      JavaScript counts UTF-16 units, and case mapping and trimming are ASCII.
    - The clock does not move while one operation runs; it moves between
      operations.  Days are UTC unless a class [LocalTime] says otherwise.
    - [Promise.all] runs its branches in order.  Operations without a step
      version run to completion.
    - Requests carry decoded and typed parameters; rate limiting
      ([ThrottlerGuard]) lets every request pass.  In [main.ts] a middleware
      currently answers 503 to everything (Bootstrap,
      [everything_is_paused]): Api is the service behind it.
    - BullMQ's retries are further steps of the same job; Workers has the queue
      that takes them.

    ** Not modelled

    - [prisma/prisma.service.ts], [billing/stripe.service.ts], the Nest modules:
      wiring of libraries, without logic of their own.  The cron
      registrations: the jobs they submit are steps.
    - Texts shown to people in Stripe's checkout ([custom_text]); an invoice's
      missing PDF is null where the source has undefined. *)
From stdpp Require Export base tactics gmap strings list fin_maps sorting pretty.
From Stdlib Require Export ZArith Lia Ascii.

#[global] Open Scope Z_scope.
#[export] Set Warnings "-clear-no-such-hyp".

(** ** Scope and notation of the development *)

Declare Scope api_scope.
Delimit Scope api_scope with api.

(** JavaScript's [a ?? b] on a nullable left operand. *)
Notation "a 'ifnull' b" := (default b a) (at level 60, right associativity) : api_scope.
#[global] Open Scope api_scope.

(** ** Hint databases

    [presh]: invariants preserved by effectful operations, [steph]:
    preorders every effectful operation respects, [apirw]: the equations
    that compute effectful operations. *)
Create HintDb presh.
Create HintDb steph.
Create HintDb apirw.

(** ** Tactics *)

(** Split every match of the goal or of a hypothesis and simplify. *)
Ltac split_matches :=
  repeat (case_match; simplify_eq/=; try done).

(** The same in a hypothesis that computes an outcome. *)
Ltac crush :=
  repeat first
    [ progress simplify_eq/=
    | match goal with
      | H : context [match ?x with _ => _ end] |- _ =>
          match type of H with _ => destruct x eqn:?; simplify_eq/=; try done end
      end ].

(** Booleans to propositions. *)
Ltac unbool :=
  repeat match goal with
  | H : andb _ _ = true |- _ => apply andb_true_iff in H as [? ?]
  | H : andb _ _ = false |- _ => apply andb_false_iff in H
  | H : orb _ _ = false |- _ => apply orb_false_iff in H as [? ?]
  | H : orb _ _ = true |- _ => apply orb_true_iff in H
  | H : negb _ = true |- _ => apply negb_true_iff in H
  | H : negb _ = false |- _ => apply negb_false_iff in H
  | H : bool_decide _ = true |- _ => apply bool_decide_eq_true in H
  | H : bool_decide _ = false |- _ => apply bool_decide_eq_false in H
  | H : (_ <? _) = true |- _ => apply Z.ltb_lt in H
  | H : (_ <? _) = false |- _ => apply Z.ltb_ge in H
  | H : (_ <=? _) = true |- _ => apply Z.leb_le in H
  | H : (_ <=? _) = false |- _ => apply Z.leb_gt in H
  end.

(** ** Generic lemmas on finite maps *)

Section map_lemmas.
Context {A : Type}.
Implicit Types (m : gmap string A) (k : string) (x : A).

(** [update_where P f m] rewrites with [f] the rows that satisfy [P]: the
    relational [UPDATE ... SET ... WHERE]. *)
Definition update_where (P : A → bool) (f : A → A) (m : gmap string A) : gmap string A :=
  (λ r, if P r then f r else r) <$> m.

Lemma lookup_update_where P f m k :
  update_where P f m !! k = (λ r, if P r then f r else r) <$> (m !! k).
Proof. apply lookup_fmap. Qed.

Lemma lookup_update_where_Some P f m k x :
  update_where P f m !! k = Some x →
  ∃ r, m !! k = Some r ∧ x = if P r then f r else r.
Proof.
  rewrite lookup_update_where. destruct (m !! k) as [r|]; [|done].
  intros [= <-]. eauto.
Qed.

Lemma lookup_update_where_None P f m k :
  update_where P f m !! k = None ↔ m !! k = None.
Proof. rewrite lookup_update_where. destruct (m !! k); naive_solver. Qed.

(** [rows P m] are the rows that satisfy [P], with their keys. *)
Definition rows (P : A → bool) (m : gmap string A) : gmap string A :=
  filter (λ kv, P kv.2 = true) m.

Lemma lookup_rows_Some P m k x :
  rows P m !! k = Some x ↔ m !! k = Some x ∧ P x = true.
Proof. apply map_lookup_filter_Some. Qed.

(** [count_rows P m] is [SELECT COUNT( * ) ... WHERE P]. *)
Definition count_rows (P : A → bool) (m : gmap string A) : Z :=
  Z.of_nat (size (rows P m)).

Lemma count_rows_nonneg P m : 0 ≤ count_rows P m.
Proof. unfold count_rows. lia. Qed.

Lemma size_rows_dom P m : size (rows P m) = size (dom (rows P m)).
Proof. by rewrite size_dom. Qed.

Lemma count_rows_mono P Q m1 m2 :
  (∀ k x, m2 !! k = Some x → Q x = true → ∃ y, m1 !! k = Some y ∧ P y = true) →
  count_rows Q m2 ≤ count_rows P m1.
Proof.
  intros H. unfold count_rows. rewrite !size_rows_dom.
  apply inj_le, subseteq_size. intros k.
  rewrite !elem_of_dom. intros [x Hx]. apply lookup_rows_Some in Hx as [Hx HQ].
  destruct (H k x Hx HQ) as (y & Hy & HP).
  exists y. by apply lookup_rows_Some.
Qed.

Lemma count_rows_ext P Q m1 m2 :
  (∀ k, (∃ x, m1 !! k = Some x ∧ P x = true) ↔ (∃ y, m2 !! k = Some y ∧ Q y = true)) →
  count_rows P m1 = count_rows Q m2.
Proof.
  intros H. apply Z.le_antisymm; apply count_rows_mono; intros k x Hx HP;
    apply H; eauto.
Qed.

Lemma count_rows_insert_le P m k x :
  count_rows P (<[k := x]> m) ≤ count_rows P m + 1.
Proof.
  unfold count_rows. rewrite !size_rows_dom.
  assert (dom (rows P (<[k := x]> m)) ⊆ {[k]} ∪ dom (rows P m)) as Hs.
  { intros j. rewrite elem_of_union, elem_of_singleton, !elem_of_dom.
    intros [y Hy]. apply lookup_rows_Some in Hy as [Hy HP].
    destruct (decide (j = k)) as [->|Hne]; [by left|right].
    rewrite lookup_insert_ne in Hy by done. exists y. by apply lookup_rows_Some. }
  apply subseteq_size in Hs. etrans; [apply inj_le, Hs|].
  pose proof (size_union_alt {[k]} (dom (rows P m))) as Hu.
  rewrite size_singleton in Hu.
  assert (size (dom (rows P m) ∖ {[k]}) ≤ size (dom (rows P m)))%nat.
  { apply subseteq_size, subseteq_difference_l; reflexivity. }
  lia.
Qed.

(** A row that stops satisfying the filter leaves the count. *)
Lemma count_rows_kill P m k x y :
  m !! k = Some x → P x = true → P y = false →
  count_rows P (<[k := y]> m) = count_rows P m - 1.
Proof.
  intros Hk Hx Hy. unfold count_rows.
  assert (rows P (<[k := y]> m) = delete k (rows P m)) as ->.
  { apply map_eq. intros j. apply option_eq. intros z.
    rewrite lookup_delete_Some, !lookup_rows_Some.
    destruct (decide (j = k)) as [->|Hne].
    - rewrite lookup_insert_eq. split; [|by intros [? _]]. intros [[= <-] ?]. congruence.
    - rewrite lookup_insert_ne by done. split; [by intros [? ?]|by intros (_ & ? & ?)]. }
  assert (rows P m !! k = Some x) as Hr by by apply lookup_rows_Some.
  assert (size (rows P m) ≠ 0)%nat.
  { intros E. apply map_size_empty_inv in E. by rewrite E in Hr. }
  rewrite (map_size_delete_Some k (rows P m)) by by eexists. lia.
Qed.
End map_lemmas.

#[global] Arguments update_where {A} P f m : simpl never.
#[global] Arguments rows {A} P m : simpl never.
#[global] Arguments count_rows {A} P m : simpl never.

(** ** Reflexive-transitive closure of a step relation *)
Section star.
Context {S : Type} (step : S → S → Prop).

Inductive star : S → S → Prop :=
| star_here s : star s s
| star_next s1 s2 s3 : step s1 s2 → star s2 s3 → star s1 s3.

Lemma star_snoc s1 s2 s3 : star s1 s2 → step s2 s3 → star s1 s3.
Proof. induction 1; eauto using star. Qed.

(** Invariants hold on every reachable state. *)
Lemma star_invariant (I : S → Prop) :
  (∀ s s', I s → step s s' → I s') → ∀ s s', star s s' → I s → I s'.
Proof. intros Hstep. induction 1; eauto. Qed.
End star.

#[global] Arguments Ascii.eqb : simpl never.
#[global] Arguments Z.mul : simpl never.
#[global] Arguments Z.add : simpl never.
#[global] Arguments Z.sub : simpl never.
