(* ===== verification/JsLib.v ===== *)
(** The fragment of the JavaScript and Node standard library the service
    uses: string functions, base64 and hex encodings, SHA-256 and HMAC.
    Strings are the byte sequences of their UTF-8 encoding; case mapping and
    trimming are the ASCII ones, lengths count bytes. *)
From S2P Require Import Prelude.

Module Str.
Definition code (c : ascii) : Z := Z.of_N (N_of_ascii c).
Definition of_code (z : Z) : ascii := ascii_of_N (Z.to_N z).

Definition is_space (c : ascii) : bool :=
  (code c =? 32) || ((9 <=? code c) && (code c <=? 13)).
Definition lower_char (c : ascii) : ascii :=
  if (65 <=? code c) && (code c <=? 90) then of_code (code c + 32) else c.

Fixpoint smap (f : ascii → ascii) (s : string) : string :=
  match s with EmptyString => EmptyString | String c s => String (f c) (smap f s) end.
(** Concatenation of the images of the characters. *)
Fixpoint sbind (f : ascii → string) (s : string) : string :=
  match s with EmptyString => EmptyString | String c s => f c +:+ sbind f s end.
Fixpoint sall (p : ascii → bool) (s : string) : bool :=
  match s with EmptyString => true | String c s => p c && sall p s end.

(** A literal with a backquote for each double quote. *)
Definition quoted : string → string := smap (λ c, if Ascii.eqb c "`" then of_code 34 else c).
Definition toLowerCase : string → string := smap lower_char.

Fixpoint trimStart (s : string) : string :=
  match s with
  | EmptyString => EmptyString
  | String c s' => if is_space c then trimStart s' else s
  end.
Fixpoint trimEnd (s : string) : string :=
  match s with
  | EmptyString => EmptyString
  | String c s' =>
      match trimEnd s' with
      | EmptyString => if is_space c then EmptyString else String c EmptyString
      | s'' => String c s''
      end
  end.
Definition trim (s : string) : string := trimEnd (trimStart s).

Definition nonempty (s : string) : bool :=
  match s with EmptyString => false | _ => true end.
(** A string is truthy when it is not empty. *)
Definition opt_truthy (o : option string) : bool :=
  match o with Some s => nonempty s | None => false end.

Fixpoint startsWith (p s : string) : bool :=
  match p, s with
  | EmptyString, _ => true
  | String a p, String b s => Ascii.eqb a b && startsWith p s
  | _, _ => false
  end.
Fixpoint drop (n : nat) (s : string) : string :=
  match n, s with O, _ => s | S n, String _ s => drop n s | S _, EmptyString => EmptyString end.
Fixpoint take (n : nat) (s : string) : string :=
  match n, s with
  | S n, String c s => String c (take n s) | _, _ => EmptyString end.
(** [replace(/^p/, '')]: removes one leading occurrence of [p]. *)
Definition strip_prefix (p s : string) : string :=
  if startsWith p s then drop (String.length p) s else s.
Fixpoint includes (p s : string) : bool :=
  startsWith p s || match s with EmptyString => false | String _ s => includes p s end.

(** [s.split(sep)] for a one-character separator: never empty. *)
Fixpoint split (sep : ascii) (s : string) : list string :=
  match s with
  | EmptyString => [EmptyString]
  | String c s' =>
      if Ascii.eqb c sep then EmptyString :: split sep s'
      else match split sep s' with
           | [] => [String c EmptyString]
           | h :: t => String c h :: t
           end
  end.
Fixpoint join (sep : string) (l : list string) : string :=
  match l with
  | [] => EmptyString
  | [x] => x
  | x :: l => x +:+ sep +:+ join sep l
  end.
Fixpoint srepeat (c : ascii) (n : nat) : string :=
  match n with O => EmptyString | S n => String c (srepeat c n) end.
Definition padStart (n : nat) (c : ascii) (s : string) : string :=
  srepeat c (n - String.length s) +:+ s.

Definition bytes (s : string) : list Z := code <$> String.list_ascii_of_string s.
Definition of_bytes (l : list Z) : string := String.string_of_list_ascii (of_code <$> l).

(** [parseInt(s, 10)]: optional blanks and sign, then the longest run of
    digits; [None] is NaN. *)
Definition digit (c : ascii) : option Z :=
  if (48 <=? code c) && (code c <=? 57) then Some (code c - 48) else None.
Fixpoint digits (s : string) (acc : Z) : Z :=
  match s with
  | EmptyString => acc
  | String c s => match digit c with Some d => digits s (acc * 10 + d) | None => acc end
  end.
Definition starts_digit (s : string) : bool :=
  match s with String c _ => bool_decide (is_Some (digit c)) | _ => false end.
Definition parse_unsigned (s : string) : option Z :=
  if starts_digit s then Some (digits s 0) else None.
Definition parseInt (s : string) : option Z :=
  match trimStart s with
  | String "-" s' => Z.opp <$> parse_unsigned s'
  | String "+" s' => parse_unsigned s'
  | s' => parse_unsigned s'
  end.
End Str.

Lemma append_assoc (a b c : string) : (a +:+ b) +:+ c = a +:+ (b +:+ c).
Proof.
  induction a as [|x a IH]; [done|].
  change (String x ((a +:+ b) +:+ c) = String x (a +:+ (b +:+ c))). by rewrite IH.
Qed.

(** Dates: milliseconds since the epoch, proleptic Gregorian calendar, UTC. *)
Module Date.
Definition second : Z := 1000.
Definition minute : Z := 60 * 1000.
Definition hour : Z := 60 * minute.
Definition day : Z := 24 * hour.

(** Year, month, day of a day number. *)
Definition civil (days : Z) : Z * Z * Z :=
  let z := days + 719468 in
  let era := z / 146097 in
  let doe := z mod 146097 in
  let yoe := (doe - doe / 1460 + doe / 36524 - doe / 146096) / 365 in
  let doy := doe - (365 * yoe + yoe / 4 - yoe / 100) in
  let mp := (5 * doy + 2) / 153 in
  let d := doy - (153 * mp + 2) / 5 + 1 in
  let m := if mp <? 10 then mp + 3 else mp - 9 in
  let y := yoe + era * 400 + (if m <=? 2 then 1 else 0) in
  (y, m, d).
Definition pad (n : nat) (z : Z) : string := Str.padStart n "0" (pretty z).
Definition iso_year (y : Z) : string :=
  if (0 <=? y) && (y <=? 9999) then pad 4 y
  else (if y <? 0 then "-" else "+") +:+ pad 6 (Z.abs y).
(** [toISOString()]. *)
Definition toISOString (ms : Z) : string :=
  let '(y, m, d) := civil (ms / day) in
  let t := ms mod day in
  iso_year y +:+ "-" +:+ pad 2 m +:+ "-" +:+ pad 2 d +:+ "T" +:+
  pad 2 (t / hour) +:+ ":" +:+ pad 2 (t / minute mod 60) +:+ ":" +:+
  pad 2 (t / second mod 60) +:+ "." +:+ pad 3 (t mod second) +:+ "Z".
Example iso1 : toISOString 1786147056123 = "2026-08-07T23:57:36.123Z".
Proof. vm_compute. reflexivity. Qed.
End Date.
#[global] Arguments Date.toISOString : simpl never.
#[global] Arguments Str.trim : simpl never.
#[global] Arguments Str.toLowerCase : simpl never.

(** Consecutive slices of at most [n] elements:
    [for (let i = 0; i < l.length; i += n) l.slice(i, i + n)]. *)
Fixpoint chunks_fuel {A} (fuel n : nat) (l : list A) : list (list A) :=
  match fuel, l with
  | S fuel, _ :: _ => firstn n l :: chunks_fuel fuel n (skipn n l)
  | _, _ => []
  end.
Definition chunks {A} (n : nat) (l : list A) : list (list A) := chunks_fuel (length l) n l.

Lemma chunks_fuel_concat {A} fuel n (l : list A) :
  (0 < n)%nat → (length l ≤ fuel)%nat → concat (chunks_fuel fuel n l) = l.
Proof.
  intros Hn. revert l. induction fuel as [|fuel IH]; intros [|x l] Hl; simpl in Hl; try lia; [done..|].
  change (concat (chunks_fuel (S fuel) n (x :: l)))
    with (firstn n (x :: l) ++ concat (chunks_fuel fuel n (skipn n (x :: l)))).
  rewrite IH; [apply firstn_skipn|]. rewrite length_skipn. simpl. lia.
Qed.
(** The slices cover the list in order. *)
Lemma chunks_concat {A} n (l : list A) : (0 < n)%nat → concat (chunks n l) = l.
Proof. intros. by apply chunks_fuel_concat. Qed.
Lemma chunks_length {A} n (l c : list A) : c ∈ chunks n l → (length c ≤ n)%nat.
Proof.
  unfold chunks. generalize (length l) as fuel. intros fuel. revert l.
  induction fuel as [|fuel IH]; intros [|x l] Hc; cbn in Hc;
    try by apply elem_of_nil in Hc.
  apply elem_of_cons in Hc as [->|Hc]; [|by eapply IH].
  rewrite length_firstn. lia.
Qed.
