(* ===== verification/Crypto.v ===== *)
(** Node's [crypto] and [Buffer] encodings as the service uses them: hex,
    base64 and base64url, SHA-256 and HMAC-SHA256, all executable on byte
    lists, with the round trip of the encodings. *)
From S2P Require Import Prelude JsLib.

Ltac zdiv_lia := Z.to_euclidean_division_equations; lia.

(** A byte list proper: every element is an 8-bit value. *)
Definition is_byte (b : Z) : Prop := 0 ≤ b < 256.

(** ** Base64 *)
Module Base64.
Definition alphabet : string :=
  "ABCDEFGHIJKLMNOPQRSTUVWXYZabcdefghijklmnopqrstuvwxyz0123456789+/".
Definition alphabet_url : string :=
  "ABCDEFGHIJKLMNOPQRSTUVWXYZabcdefghijklmnopqrstuvwxyz0123456789-_".

Definition char_of (al : string) (v : Z) : ascii :=
  match String.get (Z.to_nat v) al with Some c => c | None => "A"%char end.

(** Both alphabets are accepted when decoding, as in Node. *)
Definition val_of (c : ascii) : option Z :=
  let n := Str.code c in
  if (65 <=? n) && (n <=? 90) then Some (n - 65)
  else if (97 <=? n) && (n <=? 122) then Some (n - 71)
  else if (48 <=? n) && (n <=? 57) then Some (n + 4)
  else if (n =? 43) || (n =? 45) then Some 62
  else if (n =? 47) || (n =? 95) then Some 63
  else None.

(** Sextets of a byte list. *)
Fixpoint sextets (l : list Z) : list Z :=
  match l with
  | a :: b :: c :: l =>
      a / 4 :: (a mod 4) * 16 + b / 16 :: (b mod 16) * 4 + c / 64 :: c mod 64 :: sextets l
  | [a; b] => [a / 4; (a mod 4) * 16 + b / 16; (b mod 16) * 4]
  | [a] => [a / 4; (a mod 4) * 16]
  | [] => []
  end.
Fixpoint unsextets (l : list Z) : list Z :=
  match l with
  | a :: b :: c :: d :: l =>
      a * 4 + b / 16 :: (b mod 16) * 16 + c / 4 :: (c mod 4) * 64 + d :: unsextets l
  | [a; b; c] => [a * 4 + b / 16; (b mod 16) * 16 + c / 4]
  | [a; b] => [a * 4 + b / 16]
  | _ => []
  end.

Definition chars (al : string) (l : list Z) : string :=
  String.string_of_list_ascii (char_of al <$> sextets l).
(** [buf.toString('base64url')]: no padding. *)
Definition encode_url (l : list Z) : string := chars alphabet_url l.
(** [buf.toString('base64')]: padded to a multiple of four. *)
Definition encode (l : list Z) : string :=
  chars alphabet l +:+
  match (Z.of_nat (length l) mod 3) with 1 => "==" | 2 => "=" | _ => "" end.

(** [Buffer.from(s, 'base64')]: characters outside the alphabet are
    skipped, decoding stops at the padding. *)
Fixpoint vals (s : string) : list Z :=
  match s with
  | EmptyString => []
  | String c s =>
      if Ascii.eqb c "=" then []
      else match val_of c with Some v => v :: vals s | None => vals s end
  end.
Definition decode (s : string) : list Z := unsextets (vals s).

Definition sextet_ok (v : Z) : bool :=
  (bool_decide (val_of (char_of alphabet v) = Some v)
   && bool_decide (val_of (char_of alphabet_url v) = Some v)
   && negb (Ascii.eqb (char_of alphabet v) "=")
   && negb (Ascii.eqb (char_of alphabet_url v) "=")
   && negb (Ascii.eqb (char_of alphabet v) ":")).
Lemma sextet_table : forallb sextet_ok (seqZ 0 64) = true.
Proof. vm_compute. reflexivity. Qed.

Lemma sextet_facts v : 0 ≤ v < 64 →
  val_of (char_of alphabet v) = Some v ∧ val_of (char_of alphabet_url v) = Some v ∧
  Ascii.eqb (char_of alphabet v) "=" = false ∧
  Ascii.eqb (char_of alphabet_url v) "=" = false ∧
  Ascii.eqb (char_of alphabet v) ":" = false.
Proof.
  intros Hv. pose proof sextet_table as H. rewrite forallb_forall in H.
  specialize (H v). rewrite <- list_elem_of_In, elem_of_seqZ in H.
  specialize (H ltac:(lia)). unfold sextet_ok in H.
  unbool. by repeat split.
Qed.

Lemma list_ind3 (P : list Z → Prop) :
  P [] → (∀ a, P [a]) → (∀ a b, P [a; b]) →
  (∀ a b c l, P l → P (a :: b :: c :: l)) → ∀ l, P l.
Proof.
  intros H0 H1 H2 H3.
  assert (∀ n l, (length l < n)%nat → P l) as H.
  { induction n as [|n IH]; intros l Hl; [lia|].
    destruct l as [|a [|b [|c l]]]; auto. apply H3, IH. simpl in Hl. lia. }
  intros l. apply (H (S (length l))). lia.
Qed.

Lemma sextets_range l : Forall is_byte l → Forall (λ v, 0 ≤ v < 64) (sextets l).
Proof.
  induction l as [|a|a b|a b c l IH] using list_ind3; intros H;
    repeat match goal with H : Forall _ (_ :: _) |- _ => apply Forall_cons in H as [? ?] end;
    unfold is_byte in *; cbn [sextets]; repeat constructor; auto; zdiv_lia.
Qed.

Lemma unsextets_sextets l : Forall is_byte l → unsextets (sextets l) = l.
Proof.
  induction l as [|a|a b|a b c l IH] using list_ind3; intros H;
    repeat match goal with H : Forall _ (_ :: _) |- _ => apply Forall_cons in H as [? ?] end;
    unfold is_byte in *; cbn [sextets unsextets]; [done| | |rewrite IH by done];
    repeat f_equal; zdiv_lia.
Qed.

Lemma vals_cons c s :
  vals (String c s) =
  if Ascii.eqb c "=" then []
  else match val_of c with Some v => v :: vals s | None => vals s end.
Proof. done. Qed.

Lemma vals_chars al (vs : list Z) (tail : string) :
  (∀ v, 0 ≤ v < 64 → val_of (char_of al v) = Some v ∧ Ascii.eqb (char_of al v) "=" = false) →
  Forall (λ v, 0 ≤ v < 64) vs → vals tail = [] →
  vals (String.string_of_list_ascii (char_of al <$> vs) +:+ tail) = vs.
Proof.
  intros Hal Hvs Ht. induction Hvs as [|v vs Hv Hvs IH]; [done|].
  destruct (Hal v Hv) as [H1 H2].
  change (vals (String (char_of al v)
    (String.string_of_list_ascii (char_of al <$> vs) +:+ tail)) = v :: vs).
  rewrite vals_cons, H2, H1, IH. done.
Qed.

Lemma str_app_nil s : s +:+ "" = s.
Proof. induction s as [|c s IH]; [done|]. exact (f_equal (String c) IH). Qed.

(** Decoding inverts both encodings. *)
Lemma decode_encode l : Forall is_byte l → decode (encode l) = l.
Proof.
  intros Hl. unfold decode, encode, chars. rewrite vals_chars.
  - by apply unsextets_sextets.
  - intros v Hv. split; apply sextet_facts in Hv; tauto.
  - by apply sextets_range.
  - by repeat case_match.
Qed.
Lemma decode_encode_url l : Forall is_byte l → decode (encode_url l) = l.
Proof.
  intros Hl. unfold decode, encode_url, chars.
  rewrite <- (str_app_nil (String.string_of_list_ascii _)), vals_chars.
  - by apply unsextets_sextets.
  - intros v Hv. split; apply sextet_facts in Hv; tauto.
  - by apply sextets_range.
  - done.
Qed.

Lemma encode_nonempty l : length l ≠ 0%nat → Str.nonempty (encode l) = true.
Proof. by destruct l as [|a [|b [|c l]]]. Qed.
Lemma encode_inj l1 l2 :
  Forall is_byte l1 → Forall is_byte l2 → encode l1 = encode l2 → l1 = l2.
Proof. intros H1 H2 E. rewrite <- (decode_encode l1), <- (decode_encode l2), E by done. done. Qed.
End Base64.

(** ** Hexadecimal digests *)
Module Hex.
Definition digit (v : Z) : ascii :=
  match String.get (Z.to_nat v) "0123456789abcdef" with Some c => c | None => "0"%char end.
Fixpoint encode (l : list Z) : string :=
  match l with
  | [] => ""
  | b :: l => String (digit (b / 16)) (String (digit (b mod 16)) (encode l))
  end.
Lemma length_encode l : String.length (encode l) = (2 * length l)%nat.
Proof. induction l as [|b l IH]; [done|]. cbn. rewrite IH. lia. Qed.
End Hex.

(** ** SHA-256 (FIPS 180-4) and HMAC *)
Module Sha256.
Definition wd (z : Z) : Z := z mod 4294967296.
Definition rotr (n x : Z) : Z := Z.lor (Z.shiftr x n) (wd (Z.shiftl x (32 - n))).
Definition add (x y : Z) : Z := wd (x + y).

Definition K : list Z :=
  [1116352408; 1899447441; 3049323471; 3921009573; 961987163; 1508970993; 2453635748; 2870763221;
   3624381080; 310598401; 607225278; 1426881987; 1925078388; 2162078206; 2614888103; 3248222580;
   3835390401; 4022224774; 264347078; 604807628; 770255983; 1249150122; 1555081692; 1996064986;
   2554220882; 2821834349; 2952996808; 3210313671; 3336571891; 3584528711; 113926993; 338241895;
   666307205; 773529912; 1294757372; 1396182291; 1695183700; 1986661051; 2177026350; 2456956037;
   2730485921; 2820302411; 3259730800; 3345764771; 3516065817; 3600352804; 4094571909; 275423344;
   430227734; 506948616; 659060556; 883997877; 958139571; 1322822218; 1537002063; 1747873779;
   1955562222; 2024104815; 2227730452; 2361852424; 2428436474; 2756734187; 3204031479; 3329325298].
Definition H0 : list Z :=
  [1779033703; 3144134277; 1013904242; 2773480762; 1359893119; 2600822924; 528734635; 1541459225].

Definition be (n : nat) (z : Z) : list Z :=
  (λ i : nat, (z / 2 ^ (8 * Z.of_nat i)) mod 256) <$> rev (seq 0 n).
Definition pad (l : list Z) : list Z :=
  let n := Z.of_nat (length l) in
  l ++ [128] ++ replicate (Z.to_nat ((55 - n) mod 64)) 0 ++ be 8 (8 * n).

Fixpoint words (l : list Z) : list Z :=
  match l with
  | a :: b :: c :: d :: l => a * 16777216 + b * 65536 + c * 256 + d :: words l
  | _ => []
  end.
(** The schedule, most recent word first. *)
Definition nth0 (n : nat) (l : list Z) : Z := nth n l 0.
Fixpoint extend (n : nat) (ws : list Z) : list Z :=
  match n with
  | O => ws
  | S n =>
      let x := nth0 14 ws in let y := nth0 1 ws in
      let s0 := Z.lxor (Z.lxor (rotr 7 x) (rotr 18 x)) (Z.shiftr x 3) in
      let s1 := Z.lxor (Z.lxor (rotr 17 y) (rotr 19 y)) (Z.shiftr y 10) in
      extend n (wd (nth0 15 ws + s0 + nth0 6 ws + s1) :: ws)
  end.
Definition schedule (block : list Z) : list Z := rev (extend 48 (rev (words block))).

Definition round (st : list Z) (kw : Z * Z) : list Z :=
  match st with
  | [a; b; c; d; e; f; g; h] =>
      let s1 := Z.lxor (Z.lxor (rotr 6 e) (rotr 11 e)) (rotr 25 e) in
      let ch := Z.lxor (Z.land e f) (Z.land (4294967295 - e) g) in
      let t1 := h + s1 + ch + fst kw + snd kw in
      let s0 := Z.lxor (Z.lxor (rotr 2 a) (rotr 13 a)) (rotr 22 a) in
      let maj := Z.lxor (Z.lxor (Z.land a b) (Z.land a c)) (Z.land b c) in
      [wd (t1 + s0 + maj); a; b; c; add d t1; e; f; g]
  | _ => st
  end.
Definition compress (st block : list Z) : list Z :=
  zip_with add st (foldl round st (zip K (schedule block))).
Fixpoint chunks (fuel : nat) (l : list Z) : list (list Z) :=
  match fuel, l with
  | S fuel, _ :: _ => take 64 l :: chunks fuel (drop 64 l)
  | _, _ => []
  end.
Definition digest (l : list Z) : list Z :=
  let p := pad l in
  foldl compress H0 (chunks (length p) p) ≫= be 4.

Definition hmac (key msg : list Z) : list Z :=
  let k0 := if decide (length key ≤ 64)%nat then key else digest key in
  let k := k0 ++ replicate (64 - length k0) 0 in
  let ipad := (λ b, Z.lxor b 54) <$> k in
  let opad := (λ b, Z.lxor b 92) <$> k in
  digest (opad ++ digest (ipad ++ msg)).

(** A digest has 32 bytes. *)
Lemma length_compress st block : length st = 8%nat → length (compress st block) = 8%nat.
Proof.
  intros Hst. unfold compress. rewrite length_zip_with.
  assert (∀ kws st', length st' = 8%nat → length (foldl round st' kws) = 8%nat) as ->; [|lia..].
  induction kws as [|kw kws IH]; intros st' H'; [done|]. apply IH.
  do 9 (destruct st' as [|? st']; [done || discriminate H'|]). discriminate H'.
Qed.
Lemma length_digest l : length (digest l) = 32%nat.
Proof.
  unfold digest. cbv zeta. generalize (chunks (length (pad l)) (pad l)). intros cs.
  assert (∀ st, length st = 8%nat → length (foldl compress st cs) = 8%nat) as Hc.
  { induction cs as [|c cs IH]; intros st Hst; [done|]. apply IH, length_compress, Hst. }
  specialize (Hc H0 eq_refl). generalize dependent (foldl compress H0 cs). intros st Hst.
  do 9 (destruct st as [|? st]; [done || discriminate Hst|]). discriminate Hst.
Qed.
Lemma length_hmac key msg : length (hmac key msg) = 32%nat.
Proof. apply length_digest. Qed.

(** The published test vectors. *)
Example digest_abc :
  Hex.encode (digest (Str.bytes "abc"))
  = "ba7816bf8f01cfea414140de5dae2223b00361a396177a9cb410ff61f20015ad"%string.
Proof. vm_compute. reflexivity. Qed.
Example hmac_rfc4231_2 :
  Hex.encode (hmac (Str.bytes "Jefe") (Str.bytes "what do ya want for nothing?"))
  = "5bdcc146bf60754e6a042426089575c75a003f089d2739839dec58b964ec3843"%string.
Proof. vm_compute. reflexivity. Qed.
End Sha256.

(** [createHash('sha256').update(s).digest('hex')]. *)
Definition sha256_hex (s : string) : string := Hex.encode (Sha256.digest (Str.bytes s)).
(** [createHmac('sha256', key).update(s).digest()]. *)
Definition hmac_sha256 (key msg : string) : list Z :=
  Sha256.hmac (Str.bytes key) (Str.bytes msg).

#[global] Arguments sha256_hex : simpl never.
#[global] Arguments hmac_sha256 : simpl never.
#[global] Opaque sha256_hex hmac_sha256.
