(* ===== verification/Json.v ===== *)
(** JavaScript's [Number] on strings and [JSON.parse], as far as the service
    uses them on foreign input: a lexer that reads a byte at a time and a
    stack machine on its tokens, both structural, and property access on the
    parsed values.

    Numbers are exact decimals where JavaScript rounds to a double; strings
    are UTF-8, a lone surrogate escape keeps the three bytes of its code. *)
From S2P Require Import Prelude JsLib Crypto.

(** ** Numbers *)
(** [Dec m e] is [m * 10 ^ e]. *)
Inductive number :=
| NaN
| Infinite
| Dec (m e : Z).
#[export] Instance number_eq_dec : EqDecision number.
Proof. solve_decision. Defined.

Module Num.
(** The leading digits of a string and what follows them. *)
Fixpoint span_digits (s : string) : string * string :=
  match s with
  | String c s' =>
      match Str.digit c with
      | Some _ => let p := span_digits s' in (String c p.1, p.2)
      | None => ("", s)
      end
  | "" => ("", "")
  end.
(** A non-empty run of digits to the end of the string. *)
Definition whole_digits (s : string) : option Z :=
  let p := span_digits s in
  if Str.nonempty p.1 && negb (Str.nonempty p.2) then Some (Str.digits p.1 0) else None.
Definition exponent (s : string) : option Z :=
  match s with
  | "" => Some 0
  | String c s' =>
      if Ascii.eqb c "e" || Ascii.eqb c "E" then
        match s' with
        | String "-" d => Z.opp <$> whole_digits d
        | String "+" d => whole_digits d
        | d => whole_digits d
        end
      else None
  end.
(** [strict] is JSON's grammar: an integer part without leading zeros, and
    digits after a point. *)
Definition shape (strict : bool) (ip : string) (fp : option string) : bool :=
  if strict then
    Str.nonempty ip && (negb (Str.startsWith "0" ip) || bool_decide (ip = "0")) &&
    match fp with Some f => Str.nonempty f | None => true end
  else Str.nonempty ip || Str.opt_truthy fp.
Definition decimal (strict : bool) (s : string) : option number :=
  let p := span_digits s in
  let '(fp, r) :=
    match p.2 with
    | String "." r => let q := span_digits r in (Some q.1, q.2)
    | r => (None, r)
    end in
  if shape strict p.1 fp then
    let f := from_option id "" fp in
    (λ x, Dec (Str.digits (p.1 +:+ f) 0) (x - Z.of_nat (String.length f))) <$> exponent r
  else None.
Definition negate (n : number) : number := match n with Dec m e => Dec (- m) e | n => n end.

Definition hex_digit (c : ascii) : option Z :=
  match Str.digit c with
  | Some d => Some d
  | None =>
      let v := Str.code (Str.lower_char c) in
      if (97 <=? v) && (v <=? 102) then Some (v - 87) else None
  end.
(** Digits of a base, to the end of the string. *)
Fixpoint radix_digits (base : Z) (s : string) (acc : Z) : option Z :=
  match s with
  | "" => Some acc
  | String c s =>
      match hex_digit c with
      | Some d => if d <? base then radix_digits base s (acc * base + d) else None
      | None => None
      end
  end.
Definition radix (base : Z) (s : string) : number :=
  match radix_digits base s 0 with
  | Some n => if Str.nonempty s then Dec n 0 else NaN
  | None => NaN
  end.
Definition unsigned (s : string) : number :=
  if bool_decide (s = "Infinity") then Infinite else from_option id NaN (decimal false s).
(** [Number(s)]. *)
Definition of_string (s : string) : number :=
  match Str.trim s with
  | "" => Dec 0 0
  | String "0" (String c r) as t =>
      let l := Str.lower_char c in
      if Ascii.eqb l "x" then radix 16 r
      else if Ascii.eqb l "o" then radix 8 r
      else if Ascii.eqb l "b" then radix 2 r
      else unsigned t
  | String "-" t => negate (unsigned t)
  | String "+" t => unsigned t
  | t => unsigned t
  end.
Definition isFinite (n : number) : bool := match n with Dec _ _ => true | _ => false end.
(** [n = 0]. *)
Definition is_zero (n : number) : bool := match n with Dec m _ => m =? 0 | _ => false end.
(** [Math.abs(ms / 1000 - n) <= s] for a finite [n]. *)
Definition within (ms : Z) (n : number) (s : Z) : bool :=
  match n with
  | Dec m e =>
      if 0 <=? e + 3 then Z.abs (ms - m * 10 ^ (e + 3)) <=? s * 1000
      else Z.abs (ms * 10 ^ (- (e + 3)) - m) <=? s * 1000 * 10 ^ (- (e + 3))
  | _ => false
  end.

Example number_int : of_string " 1786147056 " = Dec 1786147056 0.
Proof. reflexivity. Qed.
Example number_frac : of_string "-1.5e3" = Dec (-15) 2.
Proof. reflexivity. Qed.
Example number_hex : of_string "0x1F" = Dec 31 0.
Proof. reflexivity. Qed.
Example number_nan : (of_string "12px", of_string ".", of_string "1e") = (NaN, NaN, NaN).
Proof. reflexivity. Qed.
Example number_loose : (of_string "5.", of_string ".5", of_string "007") = (Dec 5 0, Dec 5 (-1), Dec 7 0).
Proof. reflexivity. Qed.
Example number_json : (decimal true "5.", decimal true "007", decimal true "0.5") = (None, None, Some (Dec 5 (-1))).
Proof. reflexivity. Qed.
End Num.

(** ** Values *)
Module Json.
Inductive value :=
| Null
| Bool (b : bool)
| Num (n : number)
| Str_ (s : string)
| Arr (l : list value)
| Obj (l : list (string * value)).

(** *** Tokens *)
Inductive token :=
| TOpen | TClose | TOpenList | TCloseList | TColon | TComma
| TStr (s : string)
| TLit (v : value).

(** The UTF-8 bytes of a code point below 2^21. *)
Definition utf8 (u : Z) : string :=
  Str.of_bytes
    (if u <? 128 then [u]
     else if u <? 2048 then [192 + u / 64; 128 + u mod 64]
     else if u <? 65536 then [224 + u / 4096; 128 + u / 64 mod 64; 128 + u mod 64]
     else [240 + u / 262144; 128 + u / 4096 mod 64; 128 + u / 64 mod 64; 128 + u mod 64]).
Definition is_high (u : Z) : bool := (55296 <=? u) && (u <? 56320).
Definition is_low (u : Z) : bool := (56320 <=? u) && (u <? 57344).
(** A string being read: its text so far, and a high surrogate that waits for
    the low one. *)
Definition partial : Type := string * option Z.
Definition flush (p : partial) : string :=
  p.1 +:+ match p.2 with Some h => utf8 h | None => "" end.
Definition add_text (p : partial) (t : string) : partial := (flush p +:+ t, None).
(** The code unit of an escape. *)
Definition add_unit (p : partial) (u : Z) : partial :=
  match p.2 with
  | Some h =>
      if is_low u then (p.1 +:+ utf8 (65536 + (h - 55296) * 1024 + (u - 56320)), None)
      else if is_high u then (flush p, Some u) else (flush p +:+ utf8 u, None)
  | None => if is_high u then (p.1, Some u) else (p.1 +:+ utf8 u, None)
  end.

Inductive lexer :=
| LStart
| LWord (w : string)
| LString (p : partial)
| LEscape (p : partial)
| LHex (p : partial) (todo : nat) (u : Z).

(** A number or a literal. *)
Definition number_of_word (w : string) : option number :=
  match w with
  | String "-" d => Num.negate <$> Num.decimal true d
  | d => Num.decimal true d
  end.
Definition literal (w : string) : option value :=
  if bool_decide (w = "null") then Some Null
  else if bool_decide (w = "true") then Some (Bool true)
  else if bool_decide (w = "false") then Some (Bool false)
  else Num <$> number_of_word w.
Definition is_blank (c : ascii) : bool := bool_decide (Str.code c ∈ [32; 9; 10; 13]).
Definition punctuation (c : ascii) : option token :=
  match c with
  | "{"%char => Some TOpen | "}"%char => Some TClose
  | "["%char => Some TOpenList | "]"%char => Some TCloseList
  | ":"%char => Some TColon | ","%char => Some TComma
  | _ => None
  end.
(** What [\c] stands for. *)
Definition escaped (c : ascii) : option string :=
  match c with
  | "034"%char => Some (String c "") | "\"%char => Some "\" | "/"%char => Some "/"
  | "b"%char => Some (String "008" "") | "f"%char => Some (String "012" "")
  | "n"%char => Some (String "010" "") | "r"%char => Some (String "013" "")
  | "t"%char => Some (String "009" "")
  | _ => None
  end.
(** One character outside strings and words. *)
Definition lex_start (c : ascii) (next : lexer → option (list token)) : option (list token) :=
  if Ascii.eqb c "034" then next (LString ("", None))
  else if is_blank c then next LStart
  else match punctuation c with
       | Some t => cons t <$> next LStart
       | None => next (LWord (String c ""))
       end.
Definition delimiter (c : ascii) : bool :=
  is_blank c || Ascii.eqb c "034" || bool_decide (is_Some (punctuation c)).
Fixpoint lex (st : lexer) (s : string) : option (list token) :=
  match s with
  | "" =>
      match st with
      | LStart => Some []
      | LWord w => (λ v, [TLit v]) <$> literal w
      | _ => None
      end
  | String c s =>
      match st with
      | LStart => lex_start c (λ st, lex st s)
      | LWord w =>
          if delimiter c then v ← literal w; cons (TLit v) <$> lex_start c (λ st, lex st s)
          else lex (LWord (w +:+ String c "")) s
      | LString p =>
          if Ascii.eqb c "034" then cons (TStr (flush p)) <$> lex LStart s
          else if Ascii.eqb c "\" then lex (LEscape p) s
          else if Str.code c <? 32 then None
          else lex (LString (add_text p (String c ""))) s
      | LEscape p =>
          if Ascii.eqb c "u" then lex (LHex p 3 0) s
          else t ← escaped c; lex (LString (add_text p t)) s
      | LHex p todo u =>
          d ← Num.hex_digit c;
          let u := u * 16 + d in
          match todo with
          | O => lex (LString (add_unit p u)) s
          | S todo => lex (LHex p todo u) s
          end
      end
  end.

(** *** The stack machine *)
(** An open list or object around the value being read. *)
Inductive frame :=
| FArr (done : list value)
| FObj (done : list (string * value)) (key : string).
Inductive mode :=
| MValue | MFirst | MKey (done : list (string * value)) (first : bool)
| MColon (done : list (string * value)) (key : string)
| MAfter (v : value).
Definition mstep (k : list frame) (m : mode) (t : token) : option (list frame * mode) :=
  match m, t with
  | (MValue | MFirst), TStr s => Some (k, MAfter (Str_ s))
  | (MValue | MFirst), TLit v => Some (k, MAfter v)
  | (MValue | MFirst), TOpen => Some (k, MKey [] true)
  | (MValue | MFirst), TOpenList => Some (FArr [] :: k, MFirst)
  | MFirst, TCloseList => match k with FArr _ :: k => Some (k, MAfter (Arr [])) | _ => None end
  | MKey done _, TStr s => Some (k, MColon done s)
  | MKey [] true, TClose => Some (k, MAfter (Obj []))
  | MColon done key, TColon => Some (FObj done key :: k, MValue)
  | MAfter v, TComma =>
      match k with
      | FArr done :: k => Some (FArr (done ++ [v]) :: k, MValue)
      | FObj done key :: k => Some (k, MKey (done ++ [(key, v)]) false)
      | [] => None
      end
  | MAfter v, TCloseList =>
      match k with FArr done :: k => Some (k, MAfter (Arr (done ++ [v]))) | _ => None end
  | MAfter v, TClose =>
      match k with FObj done key :: k => Some (k, MAfter (Obj (done ++ [(key, v)]))) | _ => None end
  | _, _ => None
  end.
Fixpoint mrun (k : list frame) (m : mode) (ts : list token) : option value :=
  match ts with
  | [] => match k, m with [], MAfter v => Some v | _, _ => None end
  | t :: ts => r ← mstep k m t; mrun r.1 r.2 ts
  end.
(** [JSON.parse(s)]; [None] is the SyntaxError. *)
Definition parse (s : string) : option value := ts ← lex LStart s; mrun [] MValue ts.

(** A text with its double quotes written as single ones. *)
Definition text (s : string) : string := Str.smap (λ c, if Ascii.eqb c "'" then "034"%char else c) s.
Example parse_nested :
  parse (text " { 'a' : [ 1, -2.50, true ] , 'b':{} ,'a':null } ") =
  Some (Obj [("a", Arr [Num (Dec 1 0); Num (Dec (-250) (-2)); Bool true]); ("b", Obj []); ("a", Null)]).
Proof. reflexivity. Qed.
Example parse_escapes :
  parse (text "'\u0041\n\ud83d\ude00'") = Some (Str_ ("A" +:+ Str.of_bytes [10; 240; 159; 152; 128])).
Proof. reflexivity. Qed.
Example parse_errors :
  (λ s, parse (text s)) <$> ["[1,]"; "{,}"; "{'a'}"; "[1 2]"; "01"; "a"; "nul"; ""; "[1]]"; "{'a':1,}"; "'a"; "1.e2"] =
  replicate 12 None.
Proof. reflexivity. Qed.

(** *** Property access *)
(** [v.key] and [v[0]] on a value that is not null; [None] is undefined. *)
Definition get (key : string) (v : value) : option value :=
  match v with Obj l => snd <$> last (filter (λ f, f.1 = key) l) | _ => None end.
(** The first character of a string, whole. *)
Fixpoint continuation (s : string) : string :=
  match s with
  | String c s => if (128 <=? Str.code c) && (Str.code c <? 192) then String c (continuation s) else ""
  | "" => ""
  end.
Definition first (v : value) : option value :=
  match v with
  | Arr l => head l
  | Str_ (String c s) => Some (Str_ (String c (continuation s)))
  | Obj _ => get "0" v
  | _ => None
  end.
(** [v?.key] and [v?.[0]]. *)
Definition chain (f : value → option value) (v : option value) : option value :=
  match v with Some Null | None => None | Some v => f v end.
Definition truthy (v : option value) : option value :=
  match v with
  | None | Some Null | Some (Bool false) | Some (Str_ "") => None
  | Some (Num n) => if Num.is_zero n then None else v
  | Some _ => v
  end.

(** *** Text *)
(** Four hexadecimal digits of a control character. *)
Definition hex4 (u : Z) : string :=
  "00" +:+ String (Str.of_code (48 + u / 16)) (String (Str.of_code (if u mod 16 <? 10 then 48 + u mod 16 else 87 + u mod 16)) "").
(** [JSON.stringify] of a string. *)
Definition escape (c : ascii) : string :=
  if Ascii.eqb c "034" then String "\" (String c "")
  else if Ascii.eqb c "\" then String "\" (String c "")
  else if Ascii.eqb c "008" then "\b" else if Ascii.eqb c "012" then "\f"
  else if Ascii.eqb c "010" then "\n" else if Ascii.eqb c "013" then "\r"
  else if Ascii.eqb c "009" then "\t"
  else if Str.code c <? 32 then "\u" +:+ hex4 (Str.code c)
  else String c "".
Definition quote (s : string) : string :=
  String "034" (Str.sbind escape s +:+ String "034" "").

(** ** Reading what was written *)
Lemma app_cons c a b : String c a +:+ b = String c (a +:+ b).
Proof. reflexivity. Qed.
Lemma app_empty b : "" +:+ b = b.
Proof. reflexivity. Qed.
Lemma lex_escape c t s : lex (LString (t, None)) (escape c +:+ s) = lex (LString (t +:+ String c "", None)) s.
Proof.
  assert (∀ u : string, flush (u, None) = u) as Hf.
  { intros u. apply Base64.str_app_nil. }
  destruct c as [[] [] [] [] [] [] [] []]; vm_compute escape; rewrite ?app_cons, app_empty;
    cbn [lex]; unfold add_text, add_unit; cbn; rewrite ?Hf; reflexivity.
Qed.
Lemma lex_punctuation c t s : punctuation c = Some t → lex LStart (String c s) = cons t <$> lex LStart s.
Proof. by destruct c as [[] [] [] [] [] [] [] []]; intros [= <-]. Qed.
(** A quoted string is read back as one token. *)
Lemma lex_quote s rest : lex LStart (quote s +:+ rest) = cons (TStr s) <$> lex LStart rest.
Proof.
  assert (∀ t, lex (LString (t, None)) (Str.sbind escape s +:+ String "034" rest) =
               cons (TStr (t +:+ s)) <$> lex LStart rest) as Hs.
  { induction s as [|c s IH]; intros t; cbn [Str.sbind].
    - reflexivity.
    - rewrite append_assoc, lex_escape, IH. by rewrite append_assoc. }
  unfold quote. rewrite app_cons, append_assoc. apply (Hs "").
Qed.
End Json.
