(* ===== verification/Schema.v ===== *)
(** The data model: the enums and tables of [prisma/schema.prisma] with the
    source's column names (a prefix per table), and the state of the whole
    service ([world]): database, Redis, queues, clock, entropy, remote calls.

    Rows hold every column except [updatedAt] (maintained by Prisma, read by
    no logic) and [Plan.features]; dates are milliseconds since the epoch; the
    audit log is the list of its rows in insertion order. Each [set_<column>]
    is the assignment of one column in a Prisma [data] object. *)
From S2P Require Import Prelude.
#[local] Set Warnings "-register-all".

(** ** Enums *)

Inductive role :=
  | USER
  | PREMIUM
  | ADMIN
  | SUPER_ADMIN.
#[export] Instance role_eq_dec : EqDecision role.
Proof. solve_decision. Defined.

Inductive account_status :=
  | UserActive
  | UserSuspended
  | UserDeleted.
#[export] Instance account_status_eq_dec : EqDecision account_status.
Proof. solve_decision. Defined.

Inductive billing_interval :=
  | MONTH
  | SIX_MONTHS
  | YEAR.
#[export] Instance billing_interval_eq_dec : EqDecision billing_interval.
Proof. solve_decision. Defined.

Inductive subscription_status :=
  | TRIALING
  | ACTIVE
  | PAST_DUE
  | CANCELED
  | EXPIRED.
#[export] Instance subscription_status_eq_dec : EqDecision subscription_status.
Proof. solve_decision. Defined.

Inductive invoice_status :=
  | InvPAID
  | InvOPEN
  | InvVOID
  | InvUNCOLLECTIBLE.
#[export] Instance invoice_status_eq_dec : EqDecision invoice_status.
Proof. solve_decision. Defined.

Inductive consent_document :=
  | TERMS
  | PRIVACY.
#[export] Instance consent_document_eq_dec : EqDecision consent_document.
Proof. solve_decision. Defined.

Inductive token_purpose :=
  | EMAIL_VERIFICATION
  | PASSWORD_RESET.
#[export] Instance token_purpose_eq_dec : EqDecision token_purpose.
Proof. solve_decision. Defined.

Inductive company_type :=
  | ADVERTISER
  | AD_NETWORK
  | AFFILIATE
  | AFFILIATE_NETWORK
  | AGENCY
  | SOLUTION_PROVIDER.
#[export] Instance company_type_eq_dec : EqDecision company_type.
Proof. solve_decision. Defined.

Inductive job_status :=
  | RUNNING
  | COMPLETED
  | FAILED
  | CANCELLED.
#[export] Instance job_status_eq_dec : EqDecision job_status.
Proof. solve_decision. Defined.

Inductive credit_source :=
  | CREDIT_PACK_PURCHASE
  | LEAD_FINDER_TIER_GRANT
  | ADMIN_ADJUSTMENT.
#[export] Instance credit_source_eq_dec : EqDecision credit_source.
Proof. solve_decision. Defined.

Inductive invite_status :=
  | InvitePENDING
  | InviteACCEPTED.
#[export] Instance invite_status_eq_dec : EqDecision invite_status.
Proof. solve_decision. Defined.

Inductive contact_reason :=
  | BILLING
  | ACCOUNT_ISSUE
  | REMOVE_RECORD
  | OTHER.
#[export] Instance contact_reason_eq_dec : EqDecision contact_reason.
Proof. solve_decision. Defined.

Inductive queue_status :=
  | QPENDING
  | QSENT
  | QSKIPPED_EXISTING_USER
  | QSKIPPED_UNSUBSCRIBED
  | QBOUNCED
  | QCOMPLAINED.
#[export] Instance queue_status_eq_dec : EqDecision queue_status.
Proof. solve_decision. Defined.

(** JSON values stored in audit metadata, risk signals and job payloads. *)
Inductive json :=
| JNull
| JBool (b : bool)
| JNum (z : Z)
| JStr (s : string)
| JArr (l : list json)
| JObj (l : list (string * json)).

(** ** Rows *)

(** [model User]. *)
Record user := Mk_user {
  u_id : string;
  u_email : string;
  u_fullName : string;
  u_passwordHash : string;
  u_phone : option string;
  u_role : role;
  u_status : account_status;
  u_adminGrantedDirectoryAccess : bool;
  u_adminGrantedLeadFinderAccess : bool;
  u_stripeCustomerId : option string;
  u_emailVerifiedAt : option Z;
  u_twoFactorEnabled : bool;
  u_twoFactorSecret : option string;
  u_failedLoginCount : Z;
  u_lockedUntil : option Z;
  u_lastLoginAt : option Z;
  u_createdAt : Z;
  u_deletedAt : option Z;
  u_leadFinderCredits : Z
}.
Definition set_u_email (v : string) (x : user) : user :=
  Mk_user (x.(u_id)) v (x.(u_fullName)) (x.(u_passwordHash)) (x.(u_phone)) (x.(u_role))
    (x.(u_status)) (x.(u_adminGrantedDirectoryAccess))
    (x.(u_adminGrantedLeadFinderAccess)) (x.(u_stripeCustomerId))
    (x.(u_emailVerifiedAt)) (x.(u_twoFactorEnabled)) (x.(u_twoFactorSecret))
    (x.(u_failedLoginCount)) (x.(u_lockedUntil)) (x.(u_lastLoginAt)) (x.(u_createdAt))
    (x.(u_deletedAt)) (x.(u_leadFinderCredits)).
Definition set_u_fullName (v : string) (x : user) : user :=
  Mk_user (x.(u_id)) (x.(u_email)) v (x.(u_passwordHash)) (x.(u_phone)) (x.(u_role))
    (x.(u_status)) (x.(u_adminGrantedDirectoryAccess))
    (x.(u_adminGrantedLeadFinderAccess)) (x.(u_stripeCustomerId))
    (x.(u_emailVerifiedAt)) (x.(u_twoFactorEnabled)) (x.(u_twoFactorSecret))
    (x.(u_failedLoginCount)) (x.(u_lockedUntil)) (x.(u_lastLoginAt)) (x.(u_createdAt))
    (x.(u_deletedAt)) (x.(u_leadFinderCredits)).
Definition set_u_passwordHash (v : string) (x : user) : user :=
  Mk_user (x.(u_id)) (x.(u_email)) (x.(u_fullName)) v (x.(u_phone)) (x.(u_role))
    (x.(u_status)) (x.(u_adminGrantedDirectoryAccess))
    (x.(u_adminGrantedLeadFinderAccess)) (x.(u_stripeCustomerId))
    (x.(u_emailVerifiedAt)) (x.(u_twoFactorEnabled)) (x.(u_twoFactorSecret))
    (x.(u_failedLoginCount)) (x.(u_lockedUntil)) (x.(u_lastLoginAt)) (x.(u_createdAt))
    (x.(u_deletedAt)) (x.(u_leadFinderCredits)).
Definition set_u_phone (v : option string) (x : user) : user :=
  Mk_user (x.(u_id)) (x.(u_email)) (x.(u_fullName)) (x.(u_passwordHash)) v (x.(u_role))
    (x.(u_status)) (x.(u_adminGrantedDirectoryAccess))
    (x.(u_adminGrantedLeadFinderAccess)) (x.(u_stripeCustomerId))
    (x.(u_emailVerifiedAt)) (x.(u_twoFactorEnabled)) (x.(u_twoFactorSecret))
    (x.(u_failedLoginCount)) (x.(u_lockedUntil)) (x.(u_lastLoginAt)) (x.(u_createdAt))
    (x.(u_deletedAt)) (x.(u_leadFinderCredits)).
Definition set_u_status (v : account_status) (x : user) : user :=
  Mk_user (x.(u_id)) (x.(u_email)) (x.(u_fullName)) (x.(u_passwordHash)) (x.(u_phone))
    (x.(u_role)) v (x.(u_adminGrantedDirectoryAccess))
    (x.(u_adminGrantedLeadFinderAccess)) (x.(u_stripeCustomerId))
    (x.(u_emailVerifiedAt)) (x.(u_twoFactorEnabled)) (x.(u_twoFactorSecret))
    (x.(u_failedLoginCount)) (x.(u_lockedUntil)) (x.(u_lastLoginAt)) (x.(u_createdAt))
    (x.(u_deletedAt)) (x.(u_leadFinderCredits)).
Definition set_u_adminGrantedDirectoryAccess (v : bool) (x : user) : user :=
  Mk_user (x.(u_id)) (x.(u_email)) (x.(u_fullName)) (x.(u_passwordHash)) (x.(u_phone))
    (x.(u_role)) (x.(u_status)) v (x.(u_adminGrantedLeadFinderAccess))
    (x.(u_stripeCustomerId)) (x.(u_emailVerifiedAt)) (x.(u_twoFactorEnabled))
    (x.(u_twoFactorSecret)) (x.(u_failedLoginCount)) (x.(u_lockedUntil))
    (x.(u_lastLoginAt)) (x.(u_createdAt)) (x.(u_deletedAt)) (x.(u_leadFinderCredits)).
Definition set_u_adminGrantedLeadFinderAccess (v : bool) (x : user) : user :=
  Mk_user (x.(u_id)) (x.(u_email)) (x.(u_fullName)) (x.(u_passwordHash)) (x.(u_phone))
    (x.(u_role)) (x.(u_status)) (x.(u_adminGrantedDirectoryAccess)) v
    (x.(u_stripeCustomerId)) (x.(u_emailVerifiedAt)) (x.(u_twoFactorEnabled))
    (x.(u_twoFactorSecret)) (x.(u_failedLoginCount)) (x.(u_lockedUntil))
    (x.(u_lastLoginAt)) (x.(u_createdAt)) (x.(u_deletedAt)) (x.(u_leadFinderCredits)).
Definition set_u_stripeCustomerId (v : option string) (x : user) : user :=
  Mk_user (x.(u_id)) (x.(u_email)) (x.(u_fullName)) (x.(u_passwordHash)) (x.(u_phone))
    (x.(u_role)) (x.(u_status)) (x.(u_adminGrantedDirectoryAccess))
    (x.(u_adminGrantedLeadFinderAccess)) v (x.(u_emailVerifiedAt))
    (x.(u_twoFactorEnabled)) (x.(u_twoFactorSecret)) (x.(u_failedLoginCount))
    (x.(u_lockedUntil)) (x.(u_lastLoginAt)) (x.(u_createdAt)) (x.(u_deletedAt))
    (x.(u_leadFinderCredits)).
Definition set_u_emailVerifiedAt (v : option Z) (x : user) : user :=
  Mk_user (x.(u_id)) (x.(u_email)) (x.(u_fullName)) (x.(u_passwordHash)) (x.(u_phone))
    (x.(u_role)) (x.(u_status)) (x.(u_adminGrantedDirectoryAccess))
    (x.(u_adminGrantedLeadFinderAccess)) (x.(u_stripeCustomerId)) v
    (x.(u_twoFactorEnabled)) (x.(u_twoFactorSecret)) (x.(u_failedLoginCount))
    (x.(u_lockedUntil)) (x.(u_lastLoginAt)) (x.(u_createdAt)) (x.(u_deletedAt))
    (x.(u_leadFinderCredits)).
Definition set_u_twoFactorEnabled (v : bool) (x : user) : user :=
  Mk_user (x.(u_id)) (x.(u_email)) (x.(u_fullName)) (x.(u_passwordHash)) (x.(u_phone))
    (x.(u_role)) (x.(u_status)) (x.(u_adminGrantedDirectoryAccess))
    (x.(u_adminGrantedLeadFinderAccess)) (x.(u_stripeCustomerId))
    (x.(u_emailVerifiedAt)) v (x.(u_twoFactorSecret)) (x.(u_failedLoginCount))
    (x.(u_lockedUntil)) (x.(u_lastLoginAt)) (x.(u_createdAt)) (x.(u_deletedAt))
    (x.(u_leadFinderCredits)).
Definition set_u_twoFactorSecret (v : option string) (x : user) : user :=
  Mk_user (x.(u_id)) (x.(u_email)) (x.(u_fullName)) (x.(u_passwordHash)) (x.(u_phone))
    (x.(u_role)) (x.(u_status)) (x.(u_adminGrantedDirectoryAccess))
    (x.(u_adminGrantedLeadFinderAccess)) (x.(u_stripeCustomerId))
    (x.(u_emailVerifiedAt)) (x.(u_twoFactorEnabled)) v (x.(u_failedLoginCount))
    (x.(u_lockedUntil)) (x.(u_lastLoginAt)) (x.(u_createdAt)) (x.(u_deletedAt))
    (x.(u_leadFinderCredits)).
Definition set_u_failedLoginCount (v : Z) (x : user) : user :=
  Mk_user (x.(u_id)) (x.(u_email)) (x.(u_fullName)) (x.(u_passwordHash)) (x.(u_phone))
    (x.(u_role)) (x.(u_status)) (x.(u_adminGrantedDirectoryAccess))
    (x.(u_adminGrantedLeadFinderAccess)) (x.(u_stripeCustomerId))
    (x.(u_emailVerifiedAt)) (x.(u_twoFactorEnabled)) (x.(u_twoFactorSecret)) v
    (x.(u_lockedUntil)) (x.(u_lastLoginAt)) (x.(u_createdAt)) (x.(u_deletedAt))
    (x.(u_leadFinderCredits)).
Definition set_u_lockedUntil (v : option Z) (x : user) : user :=
  Mk_user (x.(u_id)) (x.(u_email)) (x.(u_fullName)) (x.(u_passwordHash)) (x.(u_phone))
    (x.(u_role)) (x.(u_status)) (x.(u_adminGrantedDirectoryAccess))
    (x.(u_adminGrantedLeadFinderAccess)) (x.(u_stripeCustomerId))
    (x.(u_emailVerifiedAt)) (x.(u_twoFactorEnabled)) (x.(u_twoFactorSecret))
    (x.(u_failedLoginCount)) v (x.(u_lastLoginAt)) (x.(u_createdAt)) (x.(u_deletedAt))
    (x.(u_leadFinderCredits)).
Definition set_u_lastLoginAt (v : option Z) (x : user) : user :=
  Mk_user (x.(u_id)) (x.(u_email)) (x.(u_fullName)) (x.(u_passwordHash)) (x.(u_phone))
    (x.(u_role)) (x.(u_status)) (x.(u_adminGrantedDirectoryAccess))
    (x.(u_adminGrantedLeadFinderAccess)) (x.(u_stripeCustomerId))
    (x.(u_emailVerifiedAt)) (x.(u_twoFactorEnabled)) (x.(u_twoFactorSecret))
    (x.(u_failedLoginCount)) (x.(u_lockedUntil)) v (x.(u_createdAt)) (x.(u_deletedAt))
    (x.(u_leadFinderCredits)).
Definition set_u_deletedAt (v : option Z) (x : user) : user :=
  Mk_user (x.(u_id)) (x.(u_email)) (x.(u_fullName)) (x.(u_passwordHash)) (x.(u_phone))
    (x.(u_role)) (x.(u_status)) (x.(u_adminGrantedDirectoryAccess))
    (x.(u_adminGrantedLeadFinderAccess)) (x.(u_stripeCustomerId))
    (x.(u_emailVerifiedAt)) (x.(u_twoFactorEnabled)) (x.(u_twoFactorSecret))
    (x.(u_failedLoginCount)) (x.(u_lockedUntil)) (x.(u_lastLoginAt)) (x.(u_createdAt)) v
    (x.(u_leadFinderCredits)).
Definition set_u_leadFinderCredits (v : Z) (x : user) : user :=
  Mk_user (x.(u_id)) (x.(u_email)) (x.(u_fullName)) (x.(u_passwordHash)) (x.(u_phone))
    (x.(u_role)) (x.(u_status)) (x.(u_adminGrantedDirectoryAccess))
    (x.(u_adminGrantedLeadFinderAccess)) (x.(u_stripeCustomerId))
    (x.(u_emailVerifiedAt)) (x.(u_twoFactorEnabled)) (x.(u_twoFactorSecret))
    (x.(u_failedLoginCount)) (x.(u_lockedUntil)) (x.(u_lastLoginAt)) (x.(u_createdAt))
    (x.(u_deletedAt)) v.

(** [model Device]. *)
Record device := Mk_device {
  d_id : string;
  d_userId : string;
  d_fingerprint : string;
  d_browserName : option string;
  d_browserVersion : option string;
  d_os : option string;
  d_deviceType : option string;
  d_isTrusted : bool;
  d_trustedAt : option Z;
  d_firstSeenAt : Z;
  d_lastSeenAt : Z
}.
Definition set_d_isTrusted (v : bool) (x : device) : device :=
  Mk_device (x.(d_id)) (x.(d_userId)) (x.(d_fingerprint)) (x.(d_browserName))
    (x.(d_browserVersion)) (x.(d_os)) (x.(d_deviceType)) v (x.(d_trustedAt))
    (x.(d_firstSeenAt)) (x.(d_lastSeenAt)).
Definition set_d_trustedAt (v : option Z) (x : device) : device :=
  Mk_device (x.(d_id)) (x.(d_userId)) (x.(d_fingerprint)) (x.(d_browserName))
    (x.(d_browserVersion)) (x.(d_os)) (x.(d_deviceType)) (x.(d_isTrusted)) v
    (x.(d_firstSeenAt)) (x.(d_lastSeenAt)).
Definition set_d_lastSeenAt (v : Z) (x : device) : device :=
  Mk_device (x.(d_id)) (x.(d_userId)) (x.(d_fingerprint)) (x.(d_browserName))
    (x.(d_browserVersion)) (x.(d_os)) (x.(d_deviceType)) (x.(d_isTrusted))
    (x.(d_trustedAt)) (x.(d_firstSeenAt)) v.

(** [model Session]. *)
Record session := Mk_session {
  s_id : string;
  s_userId : string;
  s_deviceId : option string;
  s_tokenHash : string;
  s_ipAddress : option string;
  s_country : option string;
  s_city : option string;
  s_timezone : option string;
  s_riskScore : Z;
  s_riskSignals : option json;
  s_replacedByTokenId : option string;
  s_createdAt : Z;
  s_lastActivityAt : Z;
  s_expiresAt : Z;
  s_revokedAt : option Z
}.
Definition set_s_deviceId (v : option string) (x : session) : session :=
  Mk_session (x.(s_id)) (x.(s_userId)) v (x.(s_tokenHash)) (x.(s_ipAddress))
    (x.(s_country)) (x.(s_city)) (x.(s_timezone)) (x.(s_riskScore)) (x.(s_riskSignals))
    (x.(s_replacedByTokenId)) (x.(s_createdAt)) (x.(s_lastActivityAt)) (x.(s_expiresAt))
    (x.(s_revokedAt)).
Definition set_s_replacedByTokenId (v : option string) (x : session) : session :=
  Mk_session (x.(s_id)) (x.(s_userId)) (x.(s_deviceId)) (x.(s_tokenHash))
    (x.(s_ipAddress)) (x.(s_country)) (x.(s_city)) (x.(s_timezone)) (x.(s_riskScore))
    (x.(s_riskSignals)) v (x.(s_createdAt)) (x.(s_lastActivityAt)) (x.(s_expiresAt))
    (x.(s_revokedAt)).
Definition set_s_lastActivityAt (v : Z) (x : session) : session :=
  Mk_session (x.(s_id)) (x.(s_userId)) (x.(s_deviceId)) (x.(s_tokenHash))
    (x.(s_ipAddress)) (x.(s_country)) (x.(s_city)) (x.(s_timezone)) (x.(s_riskScore))
    (x.(s_riskSignals)) (x.(s_replacedByTokenId)) (x.(s_createdAt)) v (x.(s_expiresAt))
    (x.(s_revokedAt)).
Definition set_s_revokedAt (v : option Z) (x : session) : session :=
  Mk_session (x.(s_id)) (x.(s_userId)) (x.(s_deviceId)) (x.(s_tokenHash))
    (x.(s_ipAddress)) (x.(s_country)) (x.(s_city)) (x.(s_timezone)) (x.(s_riskScore))
    (x.(s_riskSignals)) (x.(s_replacedByTokenId)) (x.(s_createdAt))
    (x.(s_lastActivityAt)) (x.(s_expiresAt)) v.

(** [model VerificationToken]. *)
Record verification_token := Mk_verification_token {
  vt_id : string;
  vt_userId : string;
  vt_tokenHash : string;
  vt_purpose : token_purpose;
  vt_expiresAt : Z;
  vt_usedAt : option Z;
  vt_createdAt : Z
}.
Definition set_vt_usedAt (v : option Z) (x : verification_token) : verification_token :=
  Mk_verification_token (x.(vt_id)) (x.(vt_userId)) (x.(vt_tokenHash)) (x.(vt_purpose))
    (x.(vt_expiresAt)) v (x.(vt_createdAt)).

(** [model ConsentRecord]. *)
Record consent_record := Mk_consent_record {
  cr_id : string;
  cr_userId : string;
  cr_documentType : consent_document;
  cr_version : string;
  cr_ipAddress : option string;
  cr_acceptedAt : Z
}.

(** [model Invite]. *)
Record invite := Mk_invite {
  i_id : string;
  i_inviterId : string;
  i_email : string;
  i_status : invite_status;
  i_createdAt : Z;
  i_acceptedAt : option Z
}.
Definition set_i_status (v : invite_status) (x : invite) : invite :=
  Mk_invite (x.(i_id)) (x.(i_inviterId)) (x.(i_email)) v (x.(i_createdAt))
    (x.(i_acceptedAt)).
Definition set_i_acceptedAt (v : option Z) (x : invite) : invite :=
  Mk_invite (x.(i_id)) (x.(i_inviterId)) (x.(i_email)) (x.(i_status)) (x.(i_createdAt))
    v.

(** [model AdminAccessInvite]. *)
Record admin_invite := Mk_admin_invite {
  ai_id : string;
  ai_invitedByUserId : string;
  ai_email : string;
  ai_role : role;
  ai_grantDirectoryAccess : bool;
  ai_grantLeadFinderAccess : bool;
  ai_status : invite_status;
  ai_createdAt : Z;
  ai_acceptedAt : option Z
}.
Definition set_ai_invitedByUserId (v : string) (x : admin_invite) : admin_invite :=
  Mk_admin_invite (x.(ai_id)) v (x.(ai_email)) (x.(ai_role))
    (x.(ai_grantDirectoryAccess)) (x.(ai_grantLeadFinderAccess)) (x.(ai_status))
    (x.(ai_createdAt)) (x.(ai_acceptedAt)).
Definition set_ai_role (v : role) (x : admin_invite) : admin_invite :=
  Mk_admin_invite (x.(ai_id)) (x.(ai_invitedByUserId)) (x.(ai_email)) v
    (x.(ai_grantDirectoryAccess)) (x.(ai_grantLeadFinderAccess)) (x.(ai_status))
    (x.(ai_createdAt)) (x.(ai_acceptedAt)).
Definition set_ai_grantDirectoryAccess (v : bool) (x : admin_invite) : admin_invite :=
  Mk_admin_invite (x.(ai_id)) (x.(ai_invitedByUserId)) (x.(ai_email)) (x.(ai_role)) v
    (x.(ai_grantLeadFinderAccess)) (x.(ai_status)) (x.(ai_createdAt))
    (x.(ai_acceptedAt)).
Definition set_ai_grantLeadFinderAccess (v : bool) (x : admin_invite) : admin_invite :=
  Mk_admin_invite (x.(ai_id)) (x.(ai_invitedByUserId)) (x.(ai_email)) (x.(ai_role))
    (x.(ai_grantDirectoryAccess)) v (x.(ai_status)) (x.(ai_createdAt))
    (x.(ai_acceptedAt)).
Definition set_ai_status (v : invite_status) (x : admin_invite) : admin_invite :=
  Mk_admin_invite (x.(ai_id)) (x.(ai_invitedByUserId)) (x.(ai_email)) (x.(ai_role))
    (x.(ai_grantDirectoryAccess)) (x.(ai_grantLeadFinderAccess)) v (x.(ai_createdAt))
    (x.(ai_acceptedAt)).
Definition set_ai_acceptedAt (v : option Z) (x : admin_invite) : admin_invite :=
  Mk_admin_invite (x.(ai_id)) (x.(ai_invitedByUserId)) (x.(ai_email)) (x.(ai_role))
    (x.(ai_grantDirectoryAccess)) (x.(ai_grantLeadFinderAccess)) (x.(ai_status))
    (x.(ai_createdAt)) v.

(** [model Plan]. *)
Record plan := Mk_plan {
  pl_id : string;
  pl_name : string;
  pl_slug : string;
  pl_stripePriceId : string;
  pl_interval : billing_interval;
  pl_amountCents : Z;
  pl_currency : string;
  pl_isActive : bool
}.

(** [model CreditPack]. *)
Record credit_pack := Mk_credit_pack {
  cp_id : string;
  cp_name : string;
  cp_slug : string;
  cp_credits : Z;
  cp_stripePriceId : string;
  cp_amountCents : Z;
  cp_currency : string;
  cp_isActive : bool
}.

(** [model LeadFinderTier]. *)
Record lead_finder_tier := Mk_lead_finder_tier {
  lt_id : string;
  lt_name : string;
  lt_slug : string;
  lt_credits : Z;
  lt_stripePriceId : option string;
  lt_amountCents : Z;
  lt_currency : string;
  lt_recurring : bool;
  lt_isActive : bool
}.

(** [model Subscription]. *)
Record subscription := Mk_subscription {
  sub_id : string;
  sub_userId : string;
  sub_planId : string;
  sub_stripeCustomerId : string;
  sub_stripeSubscriptionId : string;
  sub_status : subscription_status;
  sub_currentPeriodStart : Z;
  sub_currentPeriodEnd : Z;
  sub_cancelAtPeriodEnd : bool;
  sub_trialEndsAt : option Z;
  sub_pastDueSince : option Z;
  sub_renewalReminderSentForPeriodEnd : option Z;
  sub_createdAt : Z
}.
Definition set_sub_status (v : subscription_status) (x : subscription) : subscription :=
  Mk_subscription (x.(sub_id)) (x.(sub_userId)) (x.(sub_planId))
    (x.(sub_stripeCustomerId)) (x.(sub_stripeSubscriptionId)) v
    (x.(sub_currentPeriodStart)) (x.(sub_currentPeriodEnd)) (x.(sub_cancelAtPeriodEnd))
    (x.(sub_trialEndsAt)) (x.(sub_pastDueSince))
    (x.(sub_renewalReminderSentForPeriodEnd)) (x.(sub_createdAt)).
Definition set_sub_currentPeriodStart (v : Z) (x : subscription) : subscription :=
  Mk_subscription (x.(sub_id)) (x.(sub_userId)) (x.(sub_planId))
    (x.(sub_stripeCustomerId)) (x.(sub_stripeSubscriptionId)) (x.(sub_status)) v
    (x.(sub_currentPeriodEnd)) (x.(sub_cancelAtPeriodEnd)) (x.(sub_trialEndsAt))
    (x.(sub_pastDueSince)) (x.(sub_renewalReminderSentForPeriodEnd))
    (x.(sub_createdAt)).
Definition set_sub_currentPeriodEnd (v : Z) (x : subscription) : subscription :=
  Mk_subscription (x.(sub_id)) (x.(sub_userId)) (x.(sub_planId))
    (x.(sub_stripeCustomerId)) (x.(sub_stripeSubscriptionId)) (x.(sub_status))
    (x.(sub_currentPeriodStart)) v (x.(sub_cancelAtPeriodEnd)) (x.(sub_trialEndsAt))
    (x.(sub_pastDueSince)) (x.(sub_renewalReminderSentForPeriodEnd))
    (x.(sub_createdAt)).
Definition set_sub_cancelAtPeriodEnd (v : bool) (x : subscription) : subscription :=
  Mk_subscription (x.(sub_id)) (x.(sub_userId)) (x.(sub_planId))
    (x.(sub_stripeCustomerId)) (x.(sub_stripeSubscriptionId)) (x.(sub_status))
    (x.(sub_currentPeriodStart)) (x.(sub_currentPeriodEnd)) v (x.(sub_trialEndsAt))
    (x.(sub_pastDueSince)) (x.(sub_renewalReminderSentForPeriodEnd))
    (x.(sub_createdAt)).
Definition set_sub_trialEndsAt (v : option Z) (x : subscription) : subscription :=
  Mk_subscription (x.(sub_id)) (x.(sub_userId)) (x.(sub_planId))
    (x.(sub_stripeCustomerId)) (x.(sub_stripeSubscriptionId)) (x.(sub_status))
    (x.(sub_currentPeriodStart)) (x.(sub_currentPeriodEnd)) (x.(sub_cancelAtPeriodEnd))
    v (x.(sub_pastDueSince)) (x.(sub_renewalReminderSentForPeriodEnd))
    (x.(sub_createdAt)).
Definition set_sub_pastDueSince (v : option Z) (x : subscription) : subscription :=
  Mk_subscription (x.(sub_id)) (x.(sub_userId)) (x.(sub_planId))
    (x.(sub_stripeCustomerId)) (x.(sub_stripeSubscriptionId)) (x.(sub_status))
    (x.(sub_currentPeriodStart)) (x.(sub_currentPeriodEnd)) (x.(sub_cancelAtPeriodEnd))
    (x.(sub_trialEndsAt)) v (x.(sub_renewalReminderSentForPeriodEnd))
    (x.(sub_createdAt)).
Definition set_sub_renewalReminderSentForPeriodEnd (v : option Z) (x : subscription) : subscription :=
  Mk_subscription (x.(sub_id)) (x.(sub_userId)) (x.(sub_planId))
    (x.(sub_stripeCustomerId)) (x.(sub_stripeSubscriptionId)) (x.(sub_status))
    (x.(sub_currentPeriodStart)) (x.(sub_currentPeriodEnd)) (x.(sub_cancelAtPeriodEnd))
    (x.(sub_trialEndsAt)) (x.(sub_pastDueSince)) v (x.(sub_createdAt)).

(** [model LeadFinderSubscription]. *)
Record lf_subscription := Mk_lf_subscription {
  lfs_id : string;
  lfs_userId : string;
  lfs_tierId : string;
  lfs_stripeCustomerId : string;
  lfs_stripeSubscriptionId : string;
  lfs_status : subscription_status;
  lfs_currentPeriodStart : Z;
  lfs_currentPeriodEnd : Z;
  lfs_cancelAtPeriodEnd : bool;
  lfs_pastDueSince : option Z;
  lfs_renewalReminderSentForPeriodEnd : option Z;
  lfs_createdAt : Z
}.
Definition set_lfs_status (v : subscription_status) (x : lf_subscription) : lf_subscription :=
  Mk_lf_subscription (x.(lfs_id)) (x.(lfs_userId)) (x.(lfs_tierId))
    (x.(lfs_stripeCustomerId)) (x.(lfs_stripeSubscriptionId)) v
    (x.(lfs_currentPeriodStart)) (x.(lfs_currentPeriodEnd)) (x.(lfs_cancelAtPeriodEnd))
    (x.(lfs_pastDueSince)) (x.(lfs_renewalReminderSentForPeriodEnd))
    (x.(lfs_createdAt)).
Definition set_lfs_currentPeriodStart (v : Z) (x : lf_subscription) : lf_subscription :=
  Mk_lf_subscription (x.(lfs_id)) (x.(lfs_userId)) (x.(lfs_tierId))
    (x.(lfs_stripeCustomerId)) (x.(lfs_stripeSubscriptionId)) (x.(lfs_status)) v
    (x.(lfs_currentPeriodEnd)) (x.(lfs_cancelAtPeriodEnd)) (x.(lfs_pastDueSince))
    (x.(lfs_renewalReminderSentForPeriodEnd)) (x.(lfs_createdAt)).
Definition set_lfs_currentPeriodEnd (v : Z) (x : lf_subscription) : lf_subscription :=
  Mk_lf_subscription (x.(lfs_id)) (x.(lfs_userId)) (x.(lfs_tierId))
    (x.(lfs_stripeCustomerId)) (x.(lfs_stripeSubscriptionId)) (x.(lfs_status))
    (x.(lfs_currentPeriodStart)) v (x.(lfs_cancelAtPeriodEnd)) (x.(lfs_pastDueSince))
    (x.(lfs_renewalReminderSentForPeriodEnd)) (x.(lfs_createdAt)).
Definition set_lfs_cancelAtPeriodEnd (v : bool) (x : lf_subscription) : lf_subscription :=
  Mk_lf_subscription (x.(lfs_id)) (x.(lfs_userId)) (x.(lfs_tierId))
    (x.(lfs_stripeCustomerId)) (x.(lfs_stripeSubscriptionId)) (x.(lfs_status))
    (x.(lfs_currentPeriodStart)) (x.(lfs_currentPeriodEnd)) v (x.(lfs_pastDueSince))
    (x.(lfs_renewalReminderSentForPeriodEnd)) (x.(lfs_createdAt)).
Definition set_lfs_pastDueSince (v : option Z) (x : lf_subscription) : lf_subscription :=
  Mk_lf_subscription (x.(lfs_id)) (x.(lfs_userId)) (x.(lfs_tierId))
    (x.(lfs_stripeCustomerId)) (x.(lfs_stripeSubscriptionId)) (x.(lfs_status))
    (x.(lfs_currentPeriodStart)) (x.(lfs_currentPeriodEnd)) (x.(lfs_cancelAtPeriodEnd))
    v (x.(lfs_renewalReminderSentForPeriodEnd)) (x.(lfs_createdAt)).
Definition set_lfs_renewalReminderSentForPeriodEnd (v : option Z) (x : lf_subscription) : lf_subscription :=
  Mk_lf_subscription (x.(lfs_id)) (x.(lfs_userId)) (x.(lfs_tierId))
    (x.(lfs_stripeCustomerId)) (x.(lfs_stripeSubscriptionId)) (x.(lfs_status))
    (x.(lfs_currentPeriodStart)) (x.(lfs_currentPeriodEnd)) (x.(lfs_cancelAtPeriodEnd))
    (x.(lfs_pastDueSince)) v (x.(lfs_createdAt)).

(** [model Invoice]. *)
Record invoice := Mk_invoice {
  inv_id : string;
  inv_subscriptionId : string;
  inv_stripeInvoiceId : string;
  inv_amountCents : Z;
  inv_currency : string;
  inv_status : invoice_status;
  inv_pdfUrl : option string;
  inv_paidAt : option Z;
  inv_createdAt : Z
}.
Definition set_inv_amountCents (v : Z) (x : invoice) : invoice :=
  Mk_invoice (x.(inv_id)) (x.(inv_subscriptionId)) (x.(inv_stripeInvoiceId)) v
    (x.(inv_currency)) (x.(inv_status)) (x.(inv_pdfUrl)) (x.(inv_paidAt))
    (x.(inv_createdAt)).
Definition set_inv_status (v : invoice_status) (x : invoice) : invoice :=
  Mk_invoice (x.(inv_id)) (x.(inv_subscriptionId)) (x.(inv_stripeInvoiceId))
    (x.(inv_amountCents)) (x.(inv_currency)) v (x.(inv_pdfUrl)) (x.(inv_paidAt))
    (x.(inv_createdAt)).
Definition set_inv_pdfUrl (v : option string) (x : invoice) : invoice :=
  Mk_invoice (x.(inv_id)) (x.(inv_subscriptionId)) (x.(inv_stripeInvoiceId))
    (x.(inv_amountCents)) (x.(inv_currency)) (x.(inv_status)) v (x.(inv_paidAt))
    (x.(inv_createdAt)).
Definition set_inv_paidAt (v : option Z) (x : invoice) : invoice :=
  Mk_invoice (x.(inv_id)) (x.(inv_subscriptionId)) (x.(inv_stripeInvoiceId))
    (x.(inv_amountCents)) (x.(inv_currency)) (x.(inv_status)) (x.(inv_pdfUrl)) v
    (x.(inv_createdAt)).

(** [model CreditGrant]. *)
Record credit_grant := Mk_credit_grant {
  g_id : string;
  g_userId : string;
  g_credits : Z;
  g_source : credit_source;
  g_amountPaidCents : option Z;
  g_stripeReference : option string;
  g_createdAt : Z
}.

(** [model Lead]. *)
Record lead := Mk_lead {
  l_id : string;
  l_name : string;
  l_title : option string;
  l_company : option string;
  l_website : option string;
  l_linkedin : option string;
  l_appLink : option string;
  l_email : option string;
  l_phone : option string;
  l_companyType : option company_type;
  l_likelyToAttend : string;
  l_approved : bool;
  l_submittedByUserId : option string;
  l_createdAt : Z
}.
Definition set_l_name (v : string) (x : lead) : lead :=
  Mk_lead (x.(l_id)) v (x.(l_title)) (x.(l_company)) (x.(l_website)) (x.(l_linkedin))
    (x.(l_appLink)) (x.(l_email)) (x.(l_phone)) (x.(l_companyType))
    (x.(l_likelyToAttend)) (x.(l_approved)) (x.(l_submittedByUserId)) (x.(l_createdAt)).
Definition set_l_title (v : option string) (x : lead) : lead :=
  Mk_lead (x.(l_id)) (x.(l_name)) v (x.(l_company)) (x.(l_website)) (x.(l_linkedin))
    (x.(l_appLink)) (x.(l_email)) (x.(l_phone)) (x.(l_companyType))
    (x.(l_likelyToAttend)) (x.(l_approved)) (x.(l_submittedByUserId)) (x.(l_createdAt)).
Definition set_l_company (v : option string) (x : lead) : lead :=
  Mk_lead (x.(l_id)) (x.(l_name)) (x.(l_title)) v (x.(l_website)) (x.(l_linkedin))
    (x.(l_appLink)) (x.(l_email)) (x.(l_phone)) (x.(l_companyType))
    (x.(l_likelyToAttend)) (x.(l_approved)) (x.(l_submittedByUserId)) (x.(l_createdAt)).
Definition set_l_website (v : option string) (x : lead) : lead :=
  Mk_lead (x.(l_id)) (x.(l_name)) (x.(l_title)) (x.(l_company)) v (x.(l_linkedin))
    (x.(l_appLink)) (x.(l_email)) (x.(l_phone)) (x.(l_companyType))
    (x.(l_likelyToAttend)) (x.(l_approved)) (x.(l_submittedByUserId)) (x.(l_createdAt)).
Definition set_l_linkedin (v : option string) (x : lead) : lead :=
  Mk_lead (x.(l_id)) (x.(l_name)) (x.(l_title)) (x.(l_company)) (x.(l_website)) v
    (x.(l_appLink)) (x.(l_email)) (x.(l_phone)) (x.(l_companyType))
    (x.(l_likelyToAttend)) (x.(l_approved)) (x.(l_submittedByUserId)) (x.(l_createdAt)).
Definition set_l_appLink (v : option string) (x : lead) : lead :=
  Mk_lead (x.(l_id)) (x.(l_name)) (x.(l_title)) (x.(l_company)) (x.(l_website))
    (x.(l_linkedin)) v (x.(l_email)) (x.(l_phone)) (x.(l_companyType))
    (x.(l_likelyToAttend)) (x.(l_approved)) (x.(l_submittedByUserId)) (x.(l_createdAt)).
Definition set_l_email (v : option string) (x : lead) : lead :=
  Mk_lead (x.(l_id)) (x.(l_name)) (x.(l_title)) (x.(l_company)) (x.(l_website))
    (x.(l_linkedin)) (x.(l_appLink)) v (x.(l_phone)) (x.(l_companyType))
    (x.(l_likelyToAttend)) (x.(l_approved)) (x.(l_submittedByUserId)) (x.(l_createdAt)).
Definition set_l_phone (v : option string) (x : lead) : lead :=
  Mk_lead (x.(l_id)) (x.(l_name)) (x.(l_title)) (x.(l_company)) (x.(l_website))
    (x.(l_linkedin)) (x.(l_appLink)) (x.(l_email)) v (x.(l_companyType))
    (x.(l_likelyToAttend)) (x.(l_approved)) (x.(l_submittedByUserId)) (x.(l_createdAt)).
Definition set_l_companyType (v : option company_type) (x : lead) : lead :=
  Mk_lead (x.(l_id)) (x.(l_name)) (x.(l_title)) (x.(l_company)) (x.(l_website))
    (x.(l_linkedin)) (x.(l_appLink)) (x.(l_email)) (x.(l_phone)) v
    (x.(l_likelyToAttend)) (x.(l_approved)) (x.(l_submittedByUserId)) (x.(l_createdAt)).
Definition set_l_likelyToAttend (v : string) (x : lead) : lead :=
  Mk_lead (x.(l_id)) (x.(l_name)) (x.(l_title)) (x.(l_company)) (x.(l_website))
    (x.(l_linkedin)) (x.(l_appLink)) (x.(l_email)) (x.(l_phone)) (x.(l_companyType)) v
    (x.(l_approved)) (x.(l_submittedByUserId)) (x.(l_createdAt)).
Definition set_l_approved (v : bool) (x : lead) : lead :=
  Mk_lead (x.(l_id)) (x.(l_name)) (x.(l_title)) (x.(l_company)) (x.(l_website))
    (x.(l_linkedin)) (x.(l_appLink)) (x.(l_email)) (x.(l_phone)) (x.(l_companyType))
    (x.(l_likelyToAttend)) v (x.(l_submittedByUserId)) (x.(l_createdAt)).

(** [ApolloSearchFilters] of leads/apollo.service.ts. *)
Record apollo_filters := Mk_apollo_filters {
  f_keywords : option string;
  f_organizationKeywordTags : option (list string);
  f_excludeOrganizationKeywordTags : option (list string);
  f_personTitles : option (list string);
  f_personSeniorities : option (list string);
  f_personFunctions : option (list string);
  f_personLocations : option (list string);
  f_organizationLocations : option (list string);
  f_organizationNumEmployeesRanges : option (list string);
  f_revenueMin : option Z;
  f_revenueMax : option Z;
  f_personName : option string;
  f_personOrganization : option string
}.

(** [model LeadSearchJob]. *)
Record search_job := Mk_search_job {
  j_id : string;
  j_userId : string;
  j_query : string;
  j_jobTitles : list string;
  j_filters : option apollo_filters;
  j_status : job_status;
  j_createdAt : Z
}.
Definition set_j_status (v : job_status) (x : search_job) : search_job :=
  Mk_search_job (x.(j_id)) (x.(j_userId)) (x.(j_query)) (x.(j_jobTitles))
    (x.(j_filters)) v (x.(j_createdAt)).

(** [model LeadSearchResult]. *)
Record search_result := Mk_search_result {
  r_id : string;
  r_jobId : string;
  r_apolloPersonId : string;
  r_name : option string;
  r_title : option string;
  r_company : option string;
  r_linkedin : option string;
  r_email : option string;
  r_status : string;
  r_reviewStatus : string;
  r_createdAt : Z
}.
Definition set_r_name (v : option string) (x : search_result) : search_result :=
  Mk_search_result (x.(r_id)) (x.(r_jobId)) (x.(r_apolloPersonId)) v (x.(r_title))
    (x.(r_company)) (x.(r_linkedin)) (x.(r_email)) (x.(r_status)) (x.(r_reviewStatus))
    (x.(r_createdAt)).
Definition set_r_title (v : option string) (x : search_result) : search_result :=
  Mk_search_result (x.(r_id)) (x.(r_jobId)) (x.(r_apolloPersonId)) (x.(r_name)) v
    (x.(r_company)) (x.(r_linkedin)) (x.(r_email)) (x.(r_status)) (x.(r_reviewStatus))
    (x.(r_createdAt)).
Definition set_r_company (v : option string) (x : search_result) : search_result :=
  Mk_search_result (x.(r_id)) (x.(r_jobId)) (x.(r_apolloPersonId)) (x.(r_name))
    (x.(r_title)) v (x.(r_linkedin)) (x.(r_email)) (x.(r_status)) (x.(r_reviewStatus))
    (x.(r_createdAt)).
Definition set_r_linkedin (v : option string) (x : search_result) : search_result :=
  Mk_search_result (x.(r_id)) (x.(r_jobId)) (x.(r_apolloPersonId)) (x.(r_name))
    (x.(r_title)) (x.(r_company)) v (x.(r_email)) (x.(r_status)) (x.(r_reviewStatus))
    (x.(r_createdAt)).
Definition set_r_email (v : option string) (x : search_result) : search_result :=
  Mk_search_result (x.(r_id)) (x.(r_jobId)) (x.(r_apolloPersonId)) (x.(r_name))
    (x.(r_title)) (x.(r_company)) (x.(r_linkedin)) v (x.(r_status)) (x.(r_reviewStatus))
    (x.(r_createdAt)).
Definition set_r_status (v : string) (x : search_result) : search_result :=
  Mk_search_result (x.(r_id)) (x.(r_jobId)) (x.(r_apolloPersonId)) (x.(r_name))
    (x.(r_title)) (x.(r_company)) (x.(r_linkedin)) (x.(r_email)) v (x.(r_reviewStatus))
    (x.(r_createdAt)).
Definition set_r_reviewStatus (v : string) (x : search_result) : search_result :=
  Mk_search_result (x.(r_id)) (x.(r_jobId)) (x.(r_apolloPersonId)) (x.(r_name))
    (x.(r_title)) (x.(r_company)) (x.(r_linkedin)) (x.(r_email)) (x.(r_status)) v
    (x.(r_createdAt)).

(** [model AuditLog]. *)
Record audit_log := Mk_audit_log {
  a_actorUserId : option string;
  a_action : string;
  a_targetType : option string;
  a_targetId : option string;
  a_metadata : option json;
  a_ipAddress : option string;
  a_createdAt : Z
}.

(** [model ContactMessage]. *)
Record contact_message := Mk_contact_message {
  cm_id : string;
  cm_name : string;
  cm_email : string;
  cm_reason : contact_reason;
  cm_message : string;
  cm_resolved : bool;
  cm_createdAt : Z
}.
Definition set_cm_resolved (v : bool) (x : contact_message) : contact_message :=
  Mk_contact_message (x.(cm_id)) (x.(cm_name)) (x.(cm_email)) (x.(cm_reason))
    (x.(cm_message)) v (x.(cm_createdAt)).

(** [model EmailSuppression]. *)
Record suppression := Mk_suppression {
  es_id : string;
  es_email : string;
  es_createdAt : Z
}.

(** [model ProspectInviteQueue]. *)
Record prospect := Mk_prospect {
  pq_id : string;
  pq_email : string;
  pq_status : queue_status;
  pq_uploadedByUserId : option string;
  pq_createdAt : Z;
  pq_sentAt : option Z
}.
Definition set_pq_status (v : queue_status) (x : prospect) : prospect :=
  Mk_prospect (x.(pq_id)) (x.(pq_email)) v (x.(pq_uploadedByUserId)) (x.(pq_createdAt))
    (x.(pq_sentAt)).
Definition set_pq_sentAt (v : option Z) (x : prospect) : prospect :=
  Mk_prospect (x.(pq_id)) (x.(pq_email)) (x.(pq_status)) (x.(pq_uploadedByUserId))
    (x.(pq_createdAt)) v.

(** [model ProspectInviteCampaignSettings]. *)
Record campaign_settings := Mk_campaign_settings {
  cs_id : string;
  cs_dailyCap : Z;
  cs_paused : bool;
  cs_emailSubject : option string;
  cs_emailHeading : option string;
  cs_emailBody : option string;
  cs_emailCtaLabel : option string;
  cs_emailFootnote : option string;
  cs_emailMailingAddress : option string
}.
Definition set_cs_dailyCap (v : Z) (x : campaign_settings) : campaign_settings :=
  Mk_campaign_settings (x.(cs_id)) v (x.(cs_paused)) (x.(cs_emailSubject))
    (x.(cs_emailHeading)) (x.(cs_emailBody)) (x.(cs_emailCtaLabel))
    (x.(cs_emailFootnote)) (x.(cs_emailMailingAddress)).
Definition set_cs_paused (v : bool) (x : campaign_settings) : campaign_settings :=
  Mk_campaign_settings (x.(cs_id)) (x.(cs_dailyCap)) v (x.(cs_emailSubject))
    (x.(cs_emailHeading)) (x.(cs_emailBody)) (x.(cs_emailCtaLabel))
    (x.(cs_emailFootnote)) (x.(cs_emailMailingAddress)).
Definition set_cs_emailSubject (v : option string) (x : campaign_settings) : campaign_settings :=
  Mk_campaign_settings (x.(cs_id)) (x.(cs_dailyCap)) (x.(cs_paused)) v
    (x.(cs_emailHeading)) (x.(cs_emailBody)) (x.(cs_emailCtaLabel))
    (x.(cs_emailFootnote)) (x.(cs_emailMailingAddress)).
Definition set_cs_emailHeading (v : option string) (x : campaign_settings) : campaign_settings :=
  Mk_campaign_settings (x.(cs_id)) (x.(cs_dailyCap)) (x.(cs_paused))
    (x.(cs_emailSubject)) v (x.(cs_emailBody)) (x.(cs_emailCtaLabel))
    (x.(cs_emailFootnote)) (x.(cs_emailMailingAddress)).
Definition set_cs_emailBody (v : option string) (x : campaign_settings) : campaign_settings :=
  Mk_campaign_settings (x.(cs_id)) (x.(cs_dailyCap)) (x.(cs_paused))
    (x.(cs_emailSubject)) (x.(cs_emailHeading)) v (x.(cs_emailCtaLabel))
    (x.(cs_emailFootnote)) (x.(cs_emailMailingAddress)).
Definition set_cs_emailCtaLabel (v : option string) (x : campaign_settings) : campaign_settings :=
  Mk_campaign_settings (x.(cs_id)) (x.(cs_dailyCap)) (x.(cs_paused))
    (x.(cs_emailSubject)) (x.(cs_emailHeading)) (x.(cs_emailBody)) v
    (x.(cs_emailFootnote)) (x.(cs_emailMailingAddress)).
Definition set_cs_emailFootnote (v : option string) (x : campaign_settings) : campaign_settings :=
  Mk_campaign_settings (x.(cs_id)) (x.(cs_dailyCap)) (x.(cs_paused))
    (x.(cs_emailSubject)) (x.(cs_emailHeading)) (x.(cs_emailBody))
    (x.(cs_emailCtaLabel)) v (x.(cs_emailMailingAddress)).
Definition set_cs_emailMailingAddress (v : option string) (x : campaign_settings) : campaign_settings :=
  Mk_campaign_settings (x.(cs_id)) (x.(cs_dailyCap)) (x.(cs_paused))
    (x.(cs_emailSubject)) (x.(cs_emailHeading)) (x.(cs_emailBody))
    (x.(cs_emailCtaLabel)) (x.(cs_emailFootnote)) v.

(** ** The database *)
Record db := Mk_db {
  db_users : gmap string user;
  db_devices : gmap string device;
  db_sessions : gmap string session;
  db_verificationTokens : gmap string verification_token;
  db_consentRecords : gmap string consent_record;
  db_invites : gmap string invite;
  db_adminAccessInvites : gmap string admin_invite;
  db_plans : gmap string plan;
  db_creditPacks : gmap string credit_pack;
  db_leadFinderTiers : gmap string lead_finder_tier;
  db_subscriptions : gmap string subscription;
  db_leadFinderSubscriptions : gmap string lf_subscription;
  db_invoices : gmap string invoice;
  db_creditGrants : gmap string credit_grant;
  db_leads : gmap string lead;
  db_leadSearchJobs : gmap string search_job;
  db_leadSearchResults : gmap string search_result;
  db_contactMessages : gmap string contact_message;
  db_emailSuppressions : gmap string suppression;
  db_prospectInviteQueue : gmap string prospect;
  db_campaignSettings : gmap string campaign_settings;
  db_auditLogs : list audit_log
}.
Definition set_db_users (v : gmap string user) (x : db) : db :=
  Mk_db v (x.(db_devices)) (x.(db_sessions)) (x.(db_verificationTokens))
    (x.(db_consentRecords)) (x.(db_invites)) (x.(db_adminAccessInvites)) (x.(db_plans))
    (x.(db_creditPacks)) (x.(db_leadFinderTiers)) (x.(db_subscriptions))
    (x.(db_leadFinderSubscriptions)) (x.(db_invoices)) (x.(db_creditGrants))
    (x.(db_leads)) (x.(db_leadSearchJobs)) (x.(db_leadSearchResults))
    (x.(db_contactMessages)) (x.(db_emailSuppressions)) (x.(db_prospectInviteQueue))
    (x.(db_campaignSettings)) (x.(db_auditLogs)).
Definition set_db_devices (v : gmap string device) (x : db) : db :=
  Mk_db (x.(db_users)) v (x.(db_sessions)) (x.(db_verificationTokens))
    (x.(db_consentRecords)) (x.(db_invites)) (x.(db_adminAccessInvites)) (x.(db_plans))
    (x.(db_creditPacks)) (x.(db_leadFinderTiers)) (x.(db_subscriptions))
    (x.(db_leadFinderSubscriptions)) (x.(db_invoices)) (x.(db_creditGrants))
    (x.(db_leads)) (x.(db_leadSearchJobs)) (x.(db_leadSearchResults))
    (x.(db_contactMessages)) (x.(db_emailSuppressions)) (x.(db_prospectInviteQueue))
    (x.(db_campaignSettings)) (x.(db_auditLogs)).
Definition set_db_sessions (v : gmap string session) (x : db) : db :=
  Mk_db (x.(db_users)) (x.(db_devices)) v (x.(db_verificationTokens))
    (x.(db_consentRecords)) (x.(db_invites)) (x.(db_adminAccessInvites)) (x.(db_plans))
    (x.(db_creditPacks)) (x.(db_leadFinderTiers)) (x.(db_subscriptions))
    (x.(db_leadFinderSubscriptions)) (x.(db_invoices)) (x.(db_creditGrants))
    (x.(db_leads)) (x.(db_leadSearchJobs)) (x.(db_leadSearchResults))
    (x.(db_contactMessages)) (x.(db_emailSuppressions)) (x.(db_prospectInviteQueue))
    (x.(db_campaignSettings)) (x.(db_auditLogs)).
Definition set_db_verificationTokens (v : gmap string verification_token) (x : db) : db :=
  Mk_db (x.(db_users)) (x.(db_devices)) (x.(db_sessions)) v (x.(db_consentRecords))
    (x.(db_invites)) (x.(db_adminAccessInvites)) (x.(db_plans)) (x.(db_creditPacks))
    (x.(db_leadFinderTiers)) (x.(db_subscriptions)) (x.(db_leadFinderSubscriptions))
    (x.(db_invoices)) (x.(db_creditGrants)) (x.(db_leads)) (x.(db_leadSearchJobs))
    (x.(db_leadSearchResults)) (x.(db_contactMessages)) (x.(db_emailSuppressions))
    (x.(db_prospectInviteQueue)) (x.(db_campaignSettings)) (x.(db_auditLogs)).
Definition set_db_consentRecords (v : gmap string consent_record) (x : db) : db :=
  Mk_db (x.(db_users)) (x.(db_devices)) (x.(db_sessions)) (x.(db_verificationTokens)) v
    (x.(db_invites)) (x.(db_adminAccessInvites)) (x.(db_plans)) (x.(db_creditPacks))
    (x.(db_leadFinderTiers)) (x.(db_subscriptions)) (x.(db_leadFinderSubscriptions))
    (x.(db_invoices)) (x.(db_creditGrants)) (x.(db_leads)) (x.(db_leadSearchJobs))
    (x.(db_leadSearchResults)) (x.(db_contactMessages)) (x.(db_emailSuppressions))
    (x.(db_prospectInviteQueue)) (x.(db_campaignSettings)) (x.(db_auditLogs)).
Definition set_db_invites (v : gmap string invite) (x : db) : db :=
  Mk_db (x.(db_users)) (x.(db_devices)) (x.(db_sessions)) (x.(db_verificationTokens))
    (x.(db_consentRecords)) v (x.(db_adminAccessInvites)) (x.(db_plans))
    (x.(db_creditPacks)) (x.(db_leadFinderTiers)) (x.(db_subscriptions))
    (x.(db_leadFinderSubscriptions)) (x.(db_invoices)) (x.(db_creditGrants))
    (x.(db_leads)) (x.(db_leadSearchJobs)) (x.(db_leadSearchResults))
    (x.(db_contactMessages)) (x.(db_emailSuppressions)) (x.(db_prospectInviteQueue))
    (x.(db_campaignSettings)) (x.(db_auditLogs)).
Definition set_db_adminAccessInvites (v : gmap string admin_invite) (x : db) : db :=
  Mk_db (x.(db_users)) (x.(db_devices)) (x.(db_sessions)) (x.(db_verificationTokens))
    (x.(db_consentRecords)) (x.(db_invites)) v (x.(db_plans)) (x.(db_creditPacks))
    (x.(db_leadFinderTiers)) (x.(db_subscriptions)) (x.(db_leadFinderSubscriptions))
    (x.(db_invoices)) (x.(db_creditGrants)) (x.(db_leads)) (x.(db_leadSearchJobs))
    (x.(db_leadSearchResults)) (x.(db_contactMessages)) (x.(db_emailSuppressions))
    (x.(db_prospectInviteQueue)) (x.(db_campaignSettings)) (x.(db_auditLogs)).
Definition set_db_plans (v : gmap string plan) (x : db) : db :=
  Mk_db (x.(db_users)) (x.(db_devices)) (x.(db_sessions)) (x.(db_verificationTokens))
    (x.(db_consentRecords)) (x.(db_invites)) (x.(db_adminAccessInvites)) v
    (x.(db_creditPacks)) (x.(db_leadFinderTiers)) (x.(db_subscriptions))
    (x.(db_leadFinderSubscriptions)) (x.(db_invoices)) (x.(db_creditGrants))
    (x.(db_leads)) (x.(db_leadSearchJobs)) (x.(db_leadSearchResults))
    (x.(db_contactMessages)) (x.(db_emailSuppressions)) (x.(db_prospectInviteQueue))
    (x.(db_campaignSettings)) (x.(db_auditLogs)).
Definition set_db_creditPacks (v : gmap string credit_pack) (x : db) : db :=
  Mk_db (x.(db_users)) (x.(db_devices)) (x.(db_sessions)) (x.(db_verificationTokens))
    (x.(db_consentRecords)) (x.(db_invites)) (x.(db_adminAccessInvites)) (x.(db_plans))
    v (x.(db_leadFinderTiers)) (x.(db_subscriptions)) (x.(db_leadFinderSubscriptions))
    (x.(db_invoices)) (x.(db_creditGrants)) (x.(db_leads)) (x.(db_leadSearchJobs))
    (x.(db_leadSearchResults)) (x.(db_contactMessages)) (x.(db_emailSuppressions))
    (x.(db_prospectInviteQueue)) (x.(db_campaignSettings)) (x.(db_auditLogs)).
Definition set_db_leadFinderTiers (v : gmap string lead_finder_tier) (x : db) : db :=
  Mk_db (x.(db_users)) (x.(db_devices)) (x.(db_sessions)) (x.(db_verificationTokens))
    (x.(db_consentRecords)) (x.(db_invites)) (x.(db_adminAccessInvites)) (x.(db_plans))
    (x.(db_creditPacks)) v (x.(db_subscriptions)) (x.(db_leadFinderSubscriptions))
    (x.(db_invoices)) (x.(db_creditGrants)) (x.(db_leads)) (x.(db_leadSearchJobs))
    (x.(db_leadSearchResults)) (x.(db_contactMessages)) (x.(db_emailSuppressions))
    (x.(db_prospectInviteQueue)) (x.(db_campaignSettings)) (x.(db_auditLogs)).
Definition set_db_subscriptions (v : gmap string subscription) (x : db) : db :=
  Mk_db (x.(db_users)) (x.(db_devices)) (x.(db_sessions)) (x.(db_verificationTokens))
    (x.(db_consentRecords)) (x.(db_invites)) (x.(db_adminAccessInvites)) (x.(db_plans))
    (x.(db_creditPacks)) (x.(db_leadFinderTiers)) v (x.(db_leadFinderSubscriptions))
    (x.(db_invoices)) (x.(db_creditGrants)) (x.(db_leads)) (x.(db_leadSearchJobs))
    (x.(db_leadSearchResults)) (x.(db_contactMessages)) (x.(db_emailSuppressions))
    (x.(db_prospectInviteQueue)) (x.(db_campaignSettings)) (x.(db_auditLogs)).
Definition set_db_leadFinderSubscriptions (v : gmap string lf_subscription) (x : db) : db :=
  Mk_db (x.(db_users)) (x.(db_devices)) (x.(db_sessions)) (x.(db_verificationTokens))
    (x.(db_consentRecords)) (x.(db_invites)) (x.(db_adminAccessInvites)) (x.(db_plans))
    (x.(db_creditPacks)) (x.(db_leadFinderTiers)) (x.(db_subscriptions)) v
    (x.(db_invoices)) (x.(db_creditGrants)) (x.(db_leads)) (x.(db_leadSearchJobs))
    (x.(db_leadSearchResults)) (x.(db_contactMessages)) (x.(db_emailSuppressions))
    (x.(db_prospectInviteQueue)) (x.(db_campaignSettings)) (x.(db_auditLogs)).
Definition set_db_invoices (v : gmap string invoice) (x : db) : db :=
  Mk_db (x.(db_users)) (x.(db_devices)) (x.(db_sessions)) (x.(db_verificationTokens))
    (x.(db_consentRecords)) (x.(db_invites)) (x.(db_adminAccessInvites)) (x.(db_plans))
    (x.(db_creditPacks)) (x.(db_leadFinderTiers)) (x.(db_subscriptions))
    (x.(db_leadFinderSubscriptions)) v (x.(db_creditGrants)) (x.(db_leads))
    (x.(db_leadSearchJobs)) (x.(db_leadSearchResults)) (x.(db_contactMessages))
    (x.(db_emailSuppressions)) (x.(db_prospectInviteQueue)) (x.(db_campaignSettings))
    (x.(db_auditLogs)).
Definition set_db_creditGrants (v : gmap string credit_grant) (x : db) : db :=
  Mk_db (x.(db_users)) (x.(db_devices)) (x.(db_sessions)) (x.(db_verificationTokens))
    (x.(db_consentRecords)) (x.(db_invites)) (x.(db_adminAccessInvites)) (x.(db_plans))
    (x.(db_creditPacks)) (x.(db_leadFinderTiers)) (x.(db_subscriptions))
    (x.(db_leadFinderSubscriptions)) (x.(db_invoices)) v (x.(db_leads))
    (x.(db_leadSearchJobs)) (x.(db_leadSearchResults)) (x.(db_contactMessages))
    (x.(db_emailSuppressions)) (x.(db_prospectInviteQueue)) (x.(db_campaignSettings))
    (x.(db_auditLogs)).
Definition set_db_leads (v : gmap string lead) (x : db) : db :=
  Mk_db (x.(db_users)) (x.(db_devices)) (x.(db_sessions)) (x.(db_verificationTokens))
    (x.(db_consentRecords)) (x.(db_invites)) (x.(db_adminAccessInvites)) (x.(db_plans))
    (x.(db_creditPacks)) (x.(db_leadFinderTiers)) (x.(db_subscriptions))
    (x.(db_leadFinderSubscriptions)) (x.(db_invoices)) (x.(db_creditGrants)) v
    (x.(db_leadSearchJobs)) (x.(db_leadSearchResults)) (x.(db_contactMessages))
    (x.(db_emailSuppressions)) (x.(db_prospectInviteQueue)) (x.(db_campaignSettings))
    (x.(db_auditLogs)).
Definition set_db_leadSearchJobs (v : gmap string search_job) (x : db) : db :=
  Mk_db (x.(db_users)) (x.(db_devices)) (x.(db_sessions)) (x.(db_verificationTokens))
    (x.(db_consentRecords)) (x.(db_invites)) (x.(db_adminAccessInvites)) (x.(db_plans))
    (x.(db_creditPacks)) (x.(db_leadFinderTiers)) (x.(db_subscriptions))
    (x.(db_leadFinderSubscriptions)) (x.(db_invoices)) (x.(db_creditGrants))
    (x.(db_leads)) v (x.(db_leadSearchResults)) (x.(db_contactMessages))
    (x.(db_emailSuppressions)) (x.(db_prospectInviteQueue)) (x.(db_campaignSettings))
    (x.(db_auditLogs)).
Definition set_db_leadSearchResults (v : gmap string search_result) (x : db) : db :=
  Mk_db (x.(db_users)) (x.(db_devices)) (x.(db_sessions)) (x.(db_verificationTokens))
    (x.(db_consentRecords)) (x.(db_invites)) (x.(db_adminAccessInvites)) (x.(db_plans))
    (x.(db_creditPacks)) (x.(db_leadFinderTiers)) (x.(db_subscriptions))
    (x.(db_leadFinderSubscriptions)) (x.(db_invoices)) (x.(db_creditGrants))
    (x.(db_leads)) (x.(db_leadSearchJobs)) v (x.(db_contactMessages))
    (x.(db_emailSuppressions)) (x.(db_prospectInviteQueue)) (x.(db_campaignSettings))
    (x.(db_auditLogs)).
Definition set_db_contactMessages (v : gmap string contact_message) (x : db) : db :=
  Mk_db (x.(db_users)) (x.(db_devices)) (x.(db_sessions)) (x.(db_verificationTokens))
    (x.(db_consentRecords)) (x.(db_invites)) (x.(db_adminAccessInvites)) (x.(db_plans))
    (x.(db_creditPacks)) (x.(db_leadFinderTiers)) (x.(db_subscriptions))
    (x.(db_leadFinderSubscriptions)) (x.(db_invoices)) (x.(db_creditGrants))
    (x.(db_leads)) (x.(db_leadSearchJobs)) (x.(db_leadSearchResults)) v
    (x.(db_emailSuppressions)) (x.(db_prospectInviteQueue)) (x.(db_campaignSettings))
    (x.(db_auditLogs)).
Definition set_db_emailSuppressions (v : gmap string suppression) (x : db) : db :=
  Mk_db (x.(db_users)) (x.(db_devices)) (x.(db_sessions)) (x.(db_verificationTokens))
    (x.(db_consentRecords)) (x.(db_invites)) (x.(db_adminAccessInvites)) (x.(db_plans))
    (x.(db_creditPacks)) (x.(db_leadFinderTiers)) (x.(db_subscriptions))
    (x.(db_leadFinderSubscriptions)) (x.(db_invoices)) (x.(db_creditGrants))
    (x.(db_leads)) (x.(db_leadSearchJobs)) (x.(db_leadSearchResults))
    (x.(db_contactMessages)) v (x.(db_prospectInviteQueue)) (x.(db_campaignSettings))
    (x.(db_auditLogs)).
Definition set_db_prospectInviteQueue (v : gmap string prospect) (x : db) : db :=
  Mk_db (x.(db_users)) (x.(db_devices)) (x.(db_sessions)) (x.(db_verificationTokens))
    (x.(db_consentRecords)) (x.(db_invites)) (x.(db_adminAccessInvites)) (x.(db_plans))
    (x.(db_creditPacks)) (x.(db_leadFinderTiers)) (x.(db_subscriptions))
    (x.(db_leadFinderSubscriptions)) (x.(db_invoices)) (x.(db_creditGrants))
    (x.(db_leads)) (x.(db_leadSearchJobs)) (x.(db_leadSearchResults))
    (x.(db_contactMessages)) (x.(db_emailSuppressions)) v (x.(db_campaignSettings))
    (x.(db_auditLogs)).
Definition set_db_campaignSettings (v : gmap string campaign_settings) (x : db) : db :=
  Mk_db (x.(db_users)) (x.(db_devices)) (x.(db_sessions)) (x.(db_verificationTokens))
    (x.(db_consentRecords)) (x.(db_invites)) (x.(db_adminAccessInvites)) (x.(db_plans))
    (x.(db_creditPacks)) (x.(db_leadFinderTiers)) (x.(db_subscriptions))
    (x.(db_leadFinderSubscriptions)) (x.(db_invoices)) (x.(db_creditGrants))
    (x.(db_leads)) (x.(db_leadSearchJobs)) (x.(db_leadSearchResults))
    (x.(db_contactMessages)) (x.(db_emailSuppressions)) (x.(db_prospectInviteQueue)) v
    (x.(db_auditLogs)).
Definition set_db_auditLogs (v : list audit_log) (x : db) : db :=
  Mk_db (x.(db_users)) (x.(db_devices)) (x.(db_sessions)) (x.(db_verificationTokens))
    (x.(db_consentRecords)) (x.(db_invites)) (x.(db_adminAccessInvites)) (x.(db_plans))
    (x.(db_creditPacks)) (x.(db_leadFinderTiers)) (x.(db_subscriptions))
    (x.(db_leadFinderSubscriptions)) (x.(db_invoices)) (x.(db_creditGrants))
    (x.(db_leads)) (x.(db_leadSearchJobs)) (x.(db_leadSearchResults))
    (x.(db_contactMessages)) (x.(db_emailSuppressions)) (x.(db_prospectInviteQueue))
    (x.(db_campaignSettings)) v.

Definition empty_db : db :=
  Mk_db ∅ ∅ ∅ ∅ ∅ ∅ ∅ ∅ ∅ ∅ ∅ ∅ ∅ ∅ ∅ ∅ ∅ ∅ ∅ ∅ ∅ [].

(** ** The world *)

(** A job of the [email] or [bulk-email] queue. *)
Record email_job := Mk_email_job { ej_name : string; ej_data : list (string * json) }.

(** [ApolloSearchJobData] of leads/leads.service.ts. *)
Record apollo_job := Mk_apollo_job {
  aj_jobId : string; aj_userId : string; aj_filters : apollo_filters; aj_cap : Z;
  aj_excludeApolloPersonIds : option (list string)
}.

(** [Stripe.Subscription.Status]. *)
Inductive stripe_status :=
| st_trialing | st_active | st_past_due | st_unpaid | st_paused | st_canceled
| st_incomplete | st_incomplete_expired.

(** [Stripe.Subscription]; [ss_items]: period start and end of [items.data],
    in seconds. *)
Record stripe_sub := StripeSub {
  ss_id : string; ss_customer : string; ss_status : stripe_status;
  ss_metadata : gmap string string; ss_items : list (Z * Z);
  ss_cancel_at_period_end : bool; ss_trial_end : option Z
}.
(** [Stripe.Checkout.Session]. *)
Record checkout_session := CheckoutSession {
  co_id : string; co_mode : string; co_subscription : option string;
  co_metadata : gmap string string; co_amount_total : option Z
}.
(** [Stripe.Invoice]; [si_subscription], [si_metadata]: of
    [parent.subscription_details]. *)
Record stripe_invoice := StripeInvoice {
  si_id : string; si_subscription : option string; si_metadata : gmap string string;
  si_amount_paid : Z; si_amount_due : Z; si_currency : string; si_invoice_pdf : option string
}.
(** [Stripe.Event]. *)
Inductive stripe_event_body :=
| ev_checkout_completed (s : checkout_session)
| ev_subscription_created (s : stripe_sub)
| ev_subscription_updated (s : stripe_sub)
| ev_subscription_resumed (s : stripe_sub)
| ev_subscription_deleted (s : stripe_sub)
| ev_invoice_paid (i : stripe_invoice)
| ev_invoice_payment_failed (i : stripe_invoice)
| ev_other (type : string).
Record stripe_event := StripeEvent { se_id : string; se_body : stripe_event_body }.

(** Calls to the Stripe API that change Stripe's state. *)
Inductive stripe_call :=
| StripeCreateCustomer (email name userId : string)
| StripeCreateCheckout (mode customer price : string) (quantity : Z)
    (metadata : list (string * string))
| StripeCreatePortal (customer : string)
| StripeUpdateCancelAtPeriodEnd (subscription : string) (flag : bool)
| StripeCancel (subscription : string).

(** Calls to Apollo, with their JSON bodies. *)
Inductive apollo_call :=
| ApolloSearch (body : list (string * json))
| ApolloMatch (body : list (string * json)).

(** A message handed to Resend. *)
Record sent_email := Mk_sent_email {
  sm_from : string; sm_to : string; sm_subject : string; sm_html : string; sm_replyTo : option string;
  sm_headers : list (string * string)
}.

(** [w_redis] maps a key to its integer value and optional expiry time; every
    value the service stores in Redis outside of its queues is an integer. *)

Record world := Mk_world {
  w_db : db;
  w_now : Z;
  w_tick : nat;
  w_redis_up : bool;
  w_redis : gmap string (Z * option Z);
  w_emailQueue : list email_job;
  w_bulkQueue : list email_job;
  w_apolloQueue : list apollo_job;
  w_webhookQueue : list stripe_event;
  w_stripe : list stripe_call;
  w_apollo : list apollo_call;
  w_sent : list sent_email
}.
Definition put_db (v : db) (x : world) : world :=
  Mk_world v (x.(w_now)) (x.(w_tick)) (x.(w_redis_up)) (x.(w_redis)) (x.(w_emailQueue))
    (x.(w_bulkQueue)) (x.(w_apolloQueue)) (x.(w_webhookQueue)) (x.(w_stripe))
    (x.(w_apollo)) (x.(w_sent)).
Definition put_now (v : Z) (x : world) : world :=
  Mk_world (x.(w_db)) v (x.(w_tick)) (x.(w_redis_up)) (x.(w_redis)) (x.(w_emailQueue))
    (x.(w_bulkQueue)) (x.(w_apolloQueue)) (x.(w_webhookQueue)) (x.(w_stripe))
    (x.(w_apollo)) (x.(w_sent)).
Definition put_tick (v : nat) (x : world) : world :=
  Mk_world (x.(w_db)) (x.(w_now)) v (x.(w_redis_up)) (x.(w_redis)) (x.(w_emailQueue))
    (x.(w_bulkQueue)) (x.(w_apolloQueue)) (x.(w_webhookQueue)) (x.(w_stripe))
    (x.(w_apollo)) (x.(w_sent)).
Definition put_redis_up (v : bool) (x : world) : world :=
  Mk_world (x.(w_db)) (x.(w_now)) (x.(w_tick)) v (x.(w_redis)) (x.(w_emailQueue))
    (x.(w_bulkQueue)) (x.(w_apolloQueue)) (x.(w_webhookQueue)) (x.(w_stripe))
    (x.(w_apollo)) (x.(w_sent)).
Definition put_redis (v : gmap string (Z * option Z)) (x : world) : world :=
  Mk_world (x.(w_db)) (x.(w_now)) (x.(w_tick)) (x.(w_redis_up)) v (x.(w_emailQueue))
    (x.(w_bulkQueue)) (x.(w_apolloQueue)) (x.(w_webhookQueue)) (x.(w_stripe))
    (x.(w_apollo)) (x.(w_sent)).
Definition put_emailQueue (v : list email_job) (x : world) : world :=
  Mk_world (x.(w_db)) (x.(w_now)) (x.(w_tick)) (x.(w_redis_up)) (x.(w_redis)) v
    (x.(w_bulkQueue)) (x.(w_apolloQueue)) (x.(w_webhookQueue)) (x.(w_stripe))
    (x.(w_apollo)) (x.(w_sent)).
Definition put_bulkQueue (v : list email_job) (x : world) : world :=
  Mk_world (x.(w_db)) (x.(w_now)) (x.(w_tick)) (x.(w_redis_up)) (x.(w_redis))
    (x.(w_emailQueue)) v (x.(w_apolloQueue)) (x.(w_webhookQueue)) (x.(w_stripe))
    (x.(w_apollo)) (x.(w_sent)).
Definition put_apolloQueue (v : list apollo_job) (x : world) : world :=
  Mk_world (x.(w_db)) (x.(w_now)) (x.(w_tick)) (x.(w_redis_up)) (x.(w_redis))
    (x.(w_emailQueue)) (x.(w_bulkQueue)) v (x.(w_webhookQueue)) (x.(w_stripe))
    (x.(w_apollo)) (x.(w_sent)).
Definition put_webhookQueue (v : list stripe_event) (x : world) : world :=
  Mk_world (x.(w_db)) (x.(w_now)) (x.(w_tick)) (x.(w_redis_up)) (x.(w_redis))
    (x.(w_emailQueue)) (x.(w_bulkQueue)) (x.(w_apolloQueue)) v (x.(w_stripe))
    (x.(w_apollo)) (x.(w_sent)).
Definition put_stripe (v : list stripe_call) (x : world) : world :=
  Mk_world (x.(w_db)) (x.(w_now)) (x.(w_tick)) (x.(w_redis_up)) (x.(w_redis))
    (x.(w_emailQueue)) (x.(w_bulkQueue)) (x.(w_apolloQueue)) (x.(w_webhookQueue)) v
    (x.(w_apollo)) (x.(w_sent)).
Definition put_apollo (v : list apollo_call) (x : world) : world :=
  Mk_world (x.(w_db)) (x.(w_now)) (x.(w_tick)) (x.(w_redis_up)) (x.(w_redis))
    (x.(w_emailQueue)) (x.(w_bulkQueue)) (x.(w_apolloQueue)) (x.(w_webhookQueue))
    (x.(w_stripe)) v (x.(w_sent)).
Definition put_sent (v : list sent_email) (x : world) : world :=
  Mk_world (x.(w_db)) (x.(w_now)) (x.(w_tick)) (x.(w_redis_up)) (x.(w_redis))
    (x.(w_emailQueue)) (x.(w_bulkQueue)) (x.(w_apolloQueue)) (x.(w_webhookQueue))
    (x.(w_stripe)) (x.(w_apollo)) v.

Definition initial_world (t : Z) : world :=
  Mk_world empty_db t 0 true ∅ [] [] [] [] [] [] [].
