(* ===== verification/Effects.v ===== *)
(** The effects of the service: exceptions, a state-and-exception monad on
    [world], its program logic ([respects]), and the operations of the
    platform the services call: Prisma on the tables, transactions, Redis,
    BullMQ queues and bounded waiting ([withTimeout]).

    An operation that throws keeps the writes made before the throw, as
    JavaScript does; only [transaction] rolls the database back.  Time is the
    field [w_now]: it is constant while one operation runs and advances
    between operations. *)
From S2P Require Import Prelude JsLib Schema.

(** ** Outcomes *)

(** [NeverSettles] is a promise that stays pending. *)
Inductive exn :=
| Http (status : Z) (message : string)
| PrismaKnown (code : string)
| JsError (message : string)
| NeverSettles.
#[export] Instance exn_eq_dec : EqDecision exn.
Proof. solve_decision. Defined.

Inductive res (A : Type) :=
| Ok (a : A)
| Err (e : exn).
Arguments Ok {A} a.
Arguments Err {A} e.

Definition M (A : Type) : Type := world → res A * world.

#[export] Instance M_ret : MRet M := λ A a w, (Ok a, w).
#[export] Instance M_bind : MBind M := λ A B k m w,
  match m w with
  | (Ok a, w') => k a w'
  | (Err e, w') => (Err e, w')
  end.

Definition throw {A} (e : exn) : M A := λ w, (Err e, w).
Definition gets {A} (f : world → A) : M A := λ w, (Ok (f w), w).
Definition modify (f : world → world) : M unit := λ w, (Ok tt, f w).
(** [try { m } catch (e) { h(e) }]. *)
Definition try_catch {A} (m : M A) (h : exn → M A) : M A := λ w,
  match m w with
  | (Ok a, w') => (Ok a, w')
  | (Err e, w') => h e w'
  end.
(** [prisma.$transaction]: all or nothing on the database. *)
Definition transaction {A} (m : M A) : M A := λ w,
  match m w with
  | (Ok a, w') => (Ok a, w')
  | (Err e, w') => (Err e, put_db (w_db w) w')
  end.
Definition when (b : bool) (m : M unit) : M unit := if b then m else mret tt.
(** [for (const x of l) await f(x)]. *)
Fixpoint for_each {A} (l : list A) (f : A → M unit) : M unit :=
  match l with
  | [] => mret tt
  | x :: l => _ ← f x; for_each l f
  end.
(** The same threading an accumulator through the body. *)
Fixpoint fold_each {A S} (l : list A) (f : S → A → M S) (s : S) : M S :=
  match l with
  | [] => mret s
  | x :: l => s' ← f s x; fold_each l f s'
  end.

(** Nest's exception classes. *)
Definition BadRequest {A} (m : string) : M A := throw (Http 400 m).
Definition Unauthorized {A} (m : string) : M A := throw (Http 401 m).
Definition Forbidden {A} (m : string) : M A := throw (Http 403 m).
Definition NotFound {A} (m : string) : M A := throw (Http 404 m).
Definition Conflict {A} (m : string) : M A := throw (Http 409 m).
Definition ServiceUnavailable {A} (m : string) : M A := throw (Http 503 m).

Definition date_now : M Z := gets w_now.

(** ** Computing an operation *)
Lemma run_bind {A B} (m : M A) (k : A → M B) w :
  (m ≫= k) w = match m w with (Ok a, w') => k a w' | (Err e, w') => (Err e, w') end.
Proof. done. Qed.
Lemma run_bind_ok {A B} (m : M A) (k : A → M B) w a w' :
  m w = (Ok a, w') → (m ≫= k) w = k a w'.
Proof. intros H. by rewrite run_bind, H. Qed.
Lemma run_bind_err {A B} (m : M A) (k : A → M B) w e w' :
  m w = (Err e, w') → (m ≫= k) w = (Err e, w').
Proof. intros H. by rewrite run_bind, H. Qed.
Lemma run_bind_inv {A B} (m : M A) (k : A → M B) w b w' :
  (m ≫= k) w = (Ok b, w') → ∃ a w1, m w = (Ok a, w1) ∧ k a w1 = (Ok b, w').
Proof. rewrite run_bind. destruct (m w) as [[a|e] w1]; [eauto|done]. Qed.

(** ** Program logic: what an operation may do to the world

    [respects R m]: on every outcome, errors included, [m] moves the world
    along the preorder [R]. *)
Definition respects {A} (R : world → world → Prop) (m : M A) : Prop :=
  ∀ w, R w (m w).2.

(** Preservation of a predicate as a preorder. *)
Definition keeps (I : world → Prop) (w w' : world) : Prop := I w → I w'.
#[export] Instance keeps_preorder I : PreOrder (keeps I).
Proof. split; unfold keeps; [by intros w|intros ???; auto]. Qed.

(** An observation that stays equal. *)
Definition same {T} (f : world → T) (w w' : world) : Prop := f w' = f w.
#[export] Instance same_preorder {T} (f : world → T) : PreOrder (same f).
Proof. split; unfold same; [by intros w|intros ??? H1 H2; congruence]. Qed.

Section respects.
Context (R : world → world → Prop) `{!PreOrder R}.

Lemma respects_ret {A} (a : A) : respects R (mret a).
Proof. intros w. cbn. reflexivity. Qed.
Lemma respects_throw {A} e : respects R (throw (A := A) e).
Proof. intros w. cbn. reflexivity. Qed.
Lemma respects_gets {A} (f : world → A) : respects R (gets f).
Proof. intros w. cbn. reflexivity. Qed.
Lemma respects_bind {A B} (m : M A) (k : A → M B) :
  respects R m → (∀ a, respects R (k a)) → respects R (m ≫= k).
Proof.
  intros Hm Hk w. rewrite run_bind. specialize (Hm w).
  destruct (m w) as [[a|e] w1]; cbn in *; [|done].
  etrans; [exact Hm|apply Hk].
Qed.
Lemma respects_try {A} (m : M A) h :
  respects R m → (∀ e, respects R (h e)) → respects R (try_catch m h).
Proof.
  intros Hm Hh w. unfold try_catch. specialize (Hm w).
  destruct (m w) as [[a|e] w1]; cbn in *; [done|].
  etrans; [exact Hm|apply Hh].
Qed.
Lemma respects_transaction {A} (m : M A) :
  (∀ w w', R w w' → R w (put_db (w_db w) w')) →
  respects R m → respects R (transaction m).
Proof.
  intros Hr Hm w. unfold transaction. specialize (Hm w).
  destruct (m w) as [[a|e] w1]; cbn in *; auto.
Qed.
Lemma respects_when b m : respects R m → respects R (when b m).
Proof. intros H. destruct b; [done|apply respects_ret]. Qed.
Lemma respects_for_each {A} (l : list A) f :
  (∀ x, respects R (f x)) → respects R (for_each l f).
Proof.
  intros Hf. induction l as [|x l IH]; cbn; [apply respects_ret|].
  apply respects_bind; auto.
Qed.
Lemma respects_fold_each {A S} (l : list A) (f : S → A → M S) s :
  (∀ s x, respects R (f s x)) → respects R (fold_each l f s).
Proof.
  intros Hf. revert s. induction l as [|x l IH]; intros s; cbn; [apply respects_ret|].
  apply respects_bind; auto.
Qed.
Lemma respects_modify f : (∀ w, R w (f w)) → respects R (modify f).
Proof. by intros H w. Qed.
End respects.

#[export] Hint Resolve respects_ret respects_throw respects_gets : steph.

(** Decompose an operation into its primitive steps. *)
Ltac respects_step :=
  match goal with
  | |- respects _ (mbind _ _) => apply respects_bind; [typeclasses eauto| |intros ?]
  | |- respects _ (try_catch _ _) => apply respects_try; [typeclasses eauto| |intros ?]
  | |- respects _ (when _ _) => apply respects_when; [typeclasses eauto|]
  | |- respects _ (for_each _ _) => apply respects_for_each; [typeclasses eauto|intros ?]
  | |- respects _ (fold_each _ _ _) => apply respects_fold_each; [typeclasses eauto|intros ? ?]
  | |- respects _ (mret _) => apply respects_ret; typeclasses eauto
  | |- respects _ (throw _) => apply respects_throw; typeclasses eauto
  | |- respects _ (gets _) => apply respects_gets; typeclasses eauto
  | |- respects _ (match ?x with _ => _ end) => destruct x eqn:?
  end.
Ltac respects_tac :=
  repeat first [ solve [eauto with steph] | respects_step ].

(** ** Triples

    [triple P m Q E]: from [P], an outcome satisfies [Q] and an error leaves
    a world that satisfies [E]. *)
Definition triple {A} (P : world → Prop) (m : M A) (Q : A → world → Prop) (E : world → Prop) : Prop :=
  ∀ w, P w → match m w with (Ok a, w') => Q a w' | (Err _, w') => E w' end.

Lemma triple_bind {A B} P (m : M A) (k : A → M B) R Q E :
  triple P m R E → (∀ a, triple (R a) (k a) Q E) → triple P (m ≫= k) Q E.
Proof.
  intros Hm Hk w Hw. rewrite run_bind. specialize (Hm w Hw).
  destruct (m w) as [[a|e] w1]; [by apply (Hk a)|done].
Qed.
Lemma triple_keeps {A} (I : world → Prop) (m : M A) :
  respects (keeps I) m → triple I m (λ _, I) I.
Proof. intros H w Hw. specialize (H w Hw). by destruct (m w) as [[a|e] w1]. Qed.
Lemma keeps_triple {A} (I : world → Prop) (m : M A) :
  triple I m (λ _, I) I → respects (keeps I) m.
Proof. intros H w Hw. specialize (H w Hw). by destruct (m w) as [[a|e] w1]. Qed.
Lemma triple_weaken {A} P P' (m : M A) Q Q' E E' :
  (∀ w, P' w → P w) → (∀ a w, Q a w → Q' a w) → (∀ w, E w → E' w) →
  triple P m Q E → triple P' m Q' E'.
Proof.
  intros HP HQ HE H w Hw. specialize (H w (HP w Hw)).
  destruct (m w) as [[a|e] w1]; auto.
Qed.
Lemma triple_same {A T} (f : world → T) (I : T → Prop) (m : M A) :
  respects (same f) m → triple (λ w, I (f w)) m (λ _ w, I (f w)) (λ w, I (f w)).
Proof.
  intros H w Hw. specialize (H w). unfold same in H.
  destruct (m w) as [[a|e] w1]; cbn in H; by rewrite H.
Qed.

(** Reading a completed run backwards, bind by bind. *)
Ltac inv_binds H :=
  repeat match type of H with
  | (_ ≫= _) _ = (Ok _, _) =>
      let x := fresh "x" in let w := fresh "wx" in let Hx := fresh "Hx" in
      apply run_bind_inv in H as (x & w & Hx & H)
  | mret _ _ = (Ok _, _) => unfold mret, M_ret in H; simplify_eq/=
  end.
