(* ===== verification/Platform.v ===== *)
(** The platform: Prisma on PostgreSQL (tables, unique indexes, foreign
    keys), Redis, BullMQ queues, bounded waiting and the entropy source.

    The database enforces what [schema.prisma] and the migrations declare: a
    write that violates a unique index (the partial index on live
    subscriptions included) fails with P2002, a missing foreign key with
    P2003, [update]/[delete] of a missing row with P2025.  [unique_ok] is the
    resulting invariant of a table and every write preserves it. *)
From S2P Require Import Prelude JsLib Crypto Schema Effects.

(** ** Entropy: [randomUUID], [randomBytes], [randomInt]

    The n-th draw of the process; the theorems hold for every source. *)
Class Entropy := {
  rand_uuid : nat → string;
  rand_byte : nat → nat → Z;
  rand_int : nat → Z
}.
(** A concrete source, for evaluating the model. *)
Definition counter_entropy : Entropy := {|
  rand_uuid := λ n, "id-" +:+ pretty n;
  rand_byte := λ n i, Z.of_nat (n + i);
  rand_int := Z.of_nat
|}.
Definition draw : M nat := λ w, (Ok (w_tick w), put_tick (S (w_tick w)) w).
Section entropy.
Context `{Entropy}.
(** [@default(uuid())]. *)
Definition random_uuid : M string := n ← draw; mret (rand_uuid n).
Definition randomBytes (k : nat) : M (list Z) :=
  n ← draw; mret ((λ i, rand_byte n i mod 256) <$> seq 0 k).
(** [randomInt(lo, hi)]: [lo] included, [hi] excluded. *)
Definition randomInt (lo hi : Z) : M Z := n ← draw; mret (lo + rand_int n mod (hi - lo)).
End entropy.

(** ** Tables *)
Record table (R : Type) := Table {
  t_get : db → gmap string R;
  t_set : gmap string R → db → db;
  (** Two rows that may not coexist (unique indexes). *)
  t_conflict : R → R → bool;
  (** The foreign keys of a row resolve. *)
  t_fk : db → R → bool
}.
Arguments Table {R} t_get t_set t_conflict t_fk.
Arguments t_get {R} _ _ /.
Arguments t_set {R} _ _ _ /.
Arguments t_conflict {R} _ _ _ /.
Arguments t_fk {R} _ _ _ /.

Definition seq_b (a b : string) : bool := bool_decide (a = b).
Definition no_conflict {R} (_ _ : R) : bool := false.
Definition no_fk {R} (_ : db) (_ : R) : bool := true.
Definition exists_in {R} (m : gmap string R) (k : string) : bool := bool_decide (is_Some (m !! k)).
Definition user_exists (d : db) (k : string) : bool := exists_in (db_users d) k.

(** The statuses of the partial index [..._one_active_per_user]. *)
Definition live_status (s : subscription_status) : bool :=
  match s with ACTIVE | TRIALING | PAST_DUE => true | _ => false end.

Definition T_users : table user :=
  Table db_users set_db_users
    (λ a b, seq_b (u_email a) (u_email b)
            || (bool_decide (is_Some (u_stripeCustomerId a))
                && bool_decide (u_stripeCustomerId a = u_stripeCustomerId b)))
    no_fk.
Definition T_devices : table device :=
  Table db_devices set_db_devices
    (λ a b, seq_b (d_userId a) (d_userId b) && seq_b (d_fingerprint a) (d_fingerprint b))
    (λ d r, user_exists d (d_userId r)).
Definition T_sessions : table session :=
  Table db_sessions set_db_sessions
    (λ a b, seq_b (s_tokenHash a) (s_tokenHash b))
    (λ d r, user_exists d (s_userId r)
            && match s_deviceId r with Some k => exists_in (db_devices d) k | None => true end).
Definition T_verificationTokens : table verification_token :=
  Table db_verificationTokens set_db_verificationTokens
    (λ a b, seq_b (vt_tokenHash a) (vt_tokenHash b)) (λ d r, user_exists d (vt_userId r)).
Definition T_consentRecords : table consent_record :=
  Table db_consentRecords set_db_consentRecords no_conflict (λ d r, user_exists d (cr_userId r)).
Definition T_invites : table invite :=
  Table db_invites set_db_invites no_conflict (λ d r, user_exists d (i_inviterId r)).
Definition T_adminAccessInvites : table admin_invite :=
  Table db_adminAccessInvites set_db_adminAccessInvites no_conflict
    (λ d r, user_exists d (ai_invitedByUserId r)).
Definition T_plans : table plan :=
  Table db_plans set_db_plans
    (λ a b, seq_b (pl_slug a) (pl_slug b) || seq_b (pl_stripePriceId a) (pl_stripePriceId b)) no_fk.
Definition T_creditPacks : table credit_pack :=
  Table db_creditPacks set_db_creditPacks
    (λ a b, seq_b (cp_slug a) (cp_slug b) || seq_b (cp_stripePriceId a) (cp_stripePriceId b)) no_fk.
Definition T_leadFinderTiers : table lead_finder_tier :=
  Table db_leadFinderTiers set_db_leadFinderTiers
    (λ a b, seq_b (lt_slug a) (lt_slug b)
            || (bool_decide (is_Some (lt_stripePriceId a))
                && bool_decide (lt_stripePriceId a = lt_stripePriceId b))) no_fk.
Definition T_subscriptions : table subscription :=
  Table db_subscriptions set_db_subscriptions
    (λ a b, seq_b (sub_stripeSubscriptionId a) (sub_stripeSubscriptionId b)
            || (seq_b (sub_userId a) (sub_userId b)
                && live_status (sub_status a) && live_status (sub_status b)))
    (λ d r, user_exists d (sub_userId r) && exists_in (db_plans d) (sub_planId r)).
Definition T_leadFinderSubscriptions : table lf_subscription :=
  Table db_leadFinderSubscriptions set_db_leadFinderSubscriptions
    (λ a b, seq_b (lfs_stripeSubscriptionId a) (lfs_stripeSubscriptionId b)
            || (seq_b (lfs_userId a) (lfs_userId b)
                && live_status (lfs_status a) && live_status (lfs_status b)))
    (λ d r, user_exists d (lfs_userId r) && exists_in (db_leadFinderTiers d) (lfs_tierId r)).
Definition T_invoices : table invoice :=
  Table db_invoices set_db_invoices
    (λ a b, seq_b (inv_stripeInvoiceId a) (inv_stripeInvoiceId b))
    (λ d r, exists_in (db_subscriptions d) (inv_subscriptionId r)).
Definition T_creditGrants : table credit_grant :=
  Table db_creditGrants set_db_creditGrants no_conflict (λ d r, user_exists d (g_userId r)).
Definition T_leads : table lead :=
  Table db_leads set_db_leads no_conflict
    (λ d r, match l_submittedByUserId r with Some k => user_exists d k | None => true end).
Definition T_leadSearchJobs : table search_job :=
  Table db_leadSearchJobs set_db_leadSearchJobs no_conflict (λ d r, user_exists d (j_userId r)).
Definition T_leadSearchResults : table search_result :=
  Table db_leadSearchResults set_db_leadSearchResults no_conflict
    (λ d r, exists_in (db_leadSearchJobs d) (r_jobId r)).
Definition T_contactMessages : table contact_message :=
  Table db_contactMessages set_db_contactMessages no_conflict no_fk.
Definition T_emailSuppressions : table suppression :=
  Table db_emailSuppressions set_db_emailSuppressions
    (λ a b, seq_b (es_email a) (es_email b)) no_fk.
Definition T_prospectInviteQueue : table prospect :=
  Table db_prospectInviteQueue set_db_prospectInviteQueue
    (λ a b, seq_b (pq_email a) (pq_email b))
    (λ d r, match pq_uploadedByUserId r with Some k => user_exists d k | None => true end).
Definition T_campaignSettings : table campaign_settings :=
  Table db_campaignSettings set_db_campaignSettings no_conflict no_fk.

(** ** Queries *)
Section queries.
Context {R : Type}.
Implicit Types (m : gmap string R) (P : R → bool) (key : R → Z).

Definition values m : list R := (map_to_list m).*2.
(** [findMany({ where })]. *)
Definition find_many P m : list R := filter (λ r, P r = true) (values m).
Definition asc_on key (a b : R) : Prop := key a ≤ key b.
Definition desc_on key (a b : R) : Prop := key b ≤ key a.
#[export] Instance asc_on_dec key : RelDecision (asc_on key).
Proof. intros a b. apply Z.le_dec. Defined.
#[export] Instance desc_on_dec key : RelDecision (desc_on key).
Proof. intros a b. apply Z.le_dec. Defined.
#[export] Instance asc_on_preorder key : PreOrder (asc_on key).
Proof. split; [intros a|intros a b c]; unfold asc_on; lia. Qed.
#[export] Instance desc_on_preorder key : PreOrder (desc_on key).
Proof. split; [intros a|intros a b c]; unfold desc_on; lia. Qed.
#[export] Instance asc_on_total key : Total (asc_on key).
Proof. intros a b. unfold asc_on. lia. Qed.
#[export] Instance desc_on_total key : Total (desc_on key).
Proof. intros a b. unfold desc_on. lia. Qed.

(** [orderBy: { key: 'asc' }]; rows with equal keys come in some order. *)
Definition order_asc key (l : list R) : list R := merge_sort (asc_on key) l.
Definition order_desc key (l : list R) : list R := merge_sort (desc_on key) l.
(** [findFirst] / [findUnique] by a column. *)
Definition find_row P m : option R := head (find_many P m).
(** [findFirst({ where, orderBy: { key: 'desc' } })]. *)
Definition find_latest key P m : option R := head (order_desc key (find_many P m)).
(** [skip]/[take]. *)
Definition page_of (page pageSize : Z) (l : list R) : list R :=
  firstn (Z.to_nat pageSize) (skipn (Z.to_nat ((page - 1) * pageSize)) l).

Lemma elem_of_values m r : r ∈ values m ↔ ∃ k, m !! k = Some r.
Proof.
  unfold values. rewrite list_elem_of_fmap. split.
  - intros ([k r'] & -> & H). apply elem_of_map_to_list in H. eauto.
  - intros [k H]. exists (k, r). split; [done|]. by apply elem_of_map_to_list.
Qed.
Lemma elem_of_find_many P m r : r ∈ find_many P m ↔ P r = true ∧ ∃ k, m !! k = Some r.
Proof. unfold find_many. by rewrite list_elem_of_filter, elem_of_values. Qed.
Lemma find_row_Some P m r : find_row P m = Some r → P r = true ∧ ∃ k, m !! k = Some r.
Proof.
  unfold find_row. intros H. apply elem_of_find_many.
  destruct (find_many P m); simplify_eq/=. set_solver.
Qed.
Lemma find_row_None P m : find_row P m = None ↔ ∀ k r, m !! k = Some r → P r = false.
Proof.
  unfold find_row. split.
  - destruct (find_many P m) as [|r l] eqn:E; [|done]. intros _ k r Hk.
    destruct (P r) eqn:HP; [|done].
    assert (r ∈ find_many P m) as Hr by (apply elem_of_find_many; eauto).
    rewrite E in Hr. by apply elem_of_nil in Hr.
  - intros H. destruct (find_many P m) as [|r l] eqn:E; [done|].
    assert (r ∈ find_many P m) as Hr by (rewrite E; set_solver).
    apply elem_of_find_many in Hr as [HP [k Hk]]. by rewrite (H k r Hk) in HP.
Qed.
(** The only row that satisfies the filter is the one found. *)
Lemma find_row_unique P m k r :
  m !! k = Some r → P r = true → (∀ k' r', m !! k' = Some r' → P r' = true → r' = r) →
  find_row P m = Some r.
Proof.
  intros Hk HP Hu. destruct (find_row P m) as [r'|] eqn:E.
  - apply find_row_Some in E as [HP' [k' Hk']]. by rewrite (Hu k' r').
  - rewrite find_row_None in E. by rewrite (E k r Hk) in HP.
Qed.

Lemma order_desc_perm key l : order_desc key l ≡ₚ l.
Proof. apply merge_sort_Permutation. Qed.
Lemma order_asc_perm key l : order_asc key l ≡ₚ l.
Proof. apply merge_sort_Permutation. Qed.
Lemma order_asc_sorted key l : StronglySorted (asc_on key) (order_asc key l).
Proof. apply StronglySorted_merge_sort; apply _. Qed.
Lemma order_desc_sorted key l : StronglySorted (desc_on key) (order_desc key l).
Proof. apply StronglySorted_merge_sort; apply _. Qed.
Lemma find_latest_Some key P m r : find_latest key P m = Some r →
  P r = true ∧ (∃ k, m !! k = Some r) ∧
  ∀ k r', m !! k = Some r' → P r' = true → key r' ≤ key r.
Proof.
  unfold find_latest. pose proof (order_desc_perm key (find_many P m)) as Hp.
  pose proof (order_desc_sorted key (find_many P m)) as Hs. intros H.
  destruct (order_desc key (find_many P m)) as [|r0 l] eqn:E; simplify_eq/=.
  assert (r ∈ find_many P m) as Hr by (rewrite <- Hp; set_solver).
  apply elem_of_find_many in Hr as [HP Hk]. split; [done|split; [done|]].
  intros k r' Hr' HP'.
  assert (r' ∈ r :: l) as Hin.
  { rewrite Hp. apply elem_of_find_many. eauto. }
  inversion Hs as [|?? _ Hall]; subst. apply elem_of_cons in Hin as [->|Hin]; [lia|].
  rewrite Forall_forall in Hall. by apply Hall.
Qed.
Lemma find_latest_None key P m :
  find_latest key P m = None ↔ ∀ k r, m !! k = Some r → P r = false.
Proof.
  rewrite <- find_row_None. unfold find_latest, find_row.
  pose proof (order_desc_perm key (find_many P m)) as Hp.
  destruct (find_many P m) as [|r l].
  - apply Permutation_nil_r in Hp. by rewrite Hp.
  - destruct (order_desc key (r :: l)) eqn:E; [|done].
    by apply Permutation_nil_cons in Hp.
Qed.
End queries.

(** ** Rows stored under their own id *)
Section keyed.
Context {R : Type} (id : R → string).
Implicit Types (m : gmap string R) (P : R → bool).

Definition keyed m : Prop := ∀ k r, m !! k = Some r → id r = k.

Lemma keyed_insert m k r : id r = k → keyed m → keyed (<[k := r]> m).
Proof.
  intros Hr Hm j x Hj. destruct (decide (j = k)) as [->|]; simplify_map_eq; [done|by apply Hm].
Qed.
Lemma keyed_update_where P f m :
  (∀ r, id (f r) = id r) → keyed m → keyed (update_where P f m).
Proof.
  intros Hf Hm k x Hk. destruct (lookup_update_where_Some _ _ _ _ _ Hk) as (r & Hr & ->).
  apply Hm in Hr. by destruct (P r); rewrite ?Hf.
Qed.
Lemma keyed_delete m k : keyed m → keyed (delete k m).
Proof. intros Hm j x Hj. apply lookup_delete_Some in Hj as [_ Hj]. by apply Hm. Qed.

Lemma NoDup_ids P m : keyed m → NoDup (id <$> find_many P m).
Proof.
  intros Hm. apply sublist_NoDup with (id <$> values m).
  - unfold values. rewrite <- list_fmap_compose.
    rewrite (list_fmap_ext _ fst); [apply NoDup_fst_map_to_list|].
    intros i [k x] Hi. apply list_elem_of_lookup_2, elem_of_map_to_list in Hi.
    by apply Hm.
  - apply fmap_sublist, sublist_filter.
Qed.
Lemma elem_of_ids P m k : keyed m → k ∈ id <$> find_many P m ↔ is_Some (rows P m !! k).
Proof.
  intros Hm. rewrite list_elem_of_fmap. split.
  - intros (x & -> & Hx). apply elem_of_find_many in Hx as [HP [j Hj]].
    rewrite (Hm j x Hj). exists x. by apply lookup_rows_Some.
  - intros [x Hx]. apply lookup_rows_Some in Hx as [Hx HP]. exists x.
    split; [symmetry; by apply Hm|]. apply elem_of_find_many. eauto.
Qed.
(** A query returns as many rows as the count says. *)
Lemma length_find_many P m : keyed m → Z.of_nat (length (find_many P m)) = count_rows P m.
Proof.
  intros Hm. unfold count_rows. rewrite size_rows_dom. f_equal.
  rewrite <- (length_fmap id), <- (size_list_to_set (C := gset string)) by by apply NoDup_ids.
  f_equal. apply set_eq. intros k. by rewrite elem_of_list_to_set, elem_of_ids, elem_of_dom.
Qed.

(** Taking the rows named by [ids] out of a selection. *)
Lemma count_update_ids P f m (ids : list string) :
  keyed m → (∀ r, P (f r) = false) → NoDup ids → (∀ k, k ∈ ids → is_Some (rows P m !! k)) →
  count_rows P (update_where (λ r, bool_decide (id r ∈ ids)) f m)
  = count_rows P m - Z.of_nat (length ids).
Proof.
  intros Hkey Hdead Hnd Hsub. unfold count_rows. rewrite !size_rows_dom.
  set (m' := update_where _ _ m).
  assert (dom (rows P m') = dom (rows P m) ∖ list_to_set ids) as ->.
  { apply set_eq. intros k. rewrite elem_of_difference, !elem_of_dom, elem_of_list_to_set.
    split.
    - intros [s Hs]. apply lookup_rows_Some in Hs as [Hs HP].
      destruct (lookup_update_where_Some _ _ _ _ _ Hs) as (r & Hr & ->).
      specialize (Hkey k r Hr). case_bool_decide as Hin; [by rewrite Hdead in HP|].
      split; [|by rewrite <- Hkey]. exists r. by apply lookup_rows_Some.
    - intros [[s Hs] Hk]. apply lookup_rows_Some in Hs as [Hs HP]. exists s.
      apply lookup_rows_Some. split; [|done]. unfold m'.
      rewrite lookup_update_where, Hs. cbn. rewrite bool_decide_eq_false_2; [done|].
      by rewrite (Hkey k s Hs). }
  assert (list_to_set (C := gset string) ids ⊆ dom (rows P m)) as Hs.
  { intros k. rewrite elem_of_list_to_set, elem_of_dom. apply Hsub. }
  rewrite size_difference by done. pose proof (subseteq_size _ _ Hs).
  rewrite size_list_to_set in * by done. lia.
Qed.
End keyed.
#[global] Arguments keyed {R} id m : simpl never.
#[global] Arguments find_row {R} P m : simpl never.
#[global] Arguments find_many {R} P m : simpl never.
#[global] Arguments find_latest {R} key P m : simpl never.
#[global] Arguments order_asc {R} key l : simpl never.
#[global] Arguments order_desc {R} key l : simpl never.
#[global] Arguments values {R} m : simpl never.

(** ** Writes *)
Section writes.
Context {R : Type} (T : table R).
Implicit Types (m : gmap string R).

(** Some other row of [m] conflicts with [r] stored under [k]. *)
Definition has_conflict m (k : string) (r : R) : bool :=
  existsb (λ kv, negb (seq_b kv.1 k) && t_conflict T r kv.2) (map_to_list m).
(** Some row selected by [P] conflicts with another row of [m]. *)
Definition any_conflict m (P : string → bool) : bool :=
  existsb (λ kv, P kv.1 && has_conflict m kv.1 kv.2) (map_to_list m).

Definition put_rows m (w : world) : world := put_db (t_set T m (w_db w)) w.

Definition db_all : M (gmap string R) := gets (λ w, t_get T (w_db w)).
Definition db_find (k : string) : M (option R) := gets (λ w, t_get T (w_db w) !! k).
Definition db_find_by (P : R → bool) : M (option R) := gets (λ w, find_row P (t_get T (w_db w))).
Definition db_find_latest (key : R → Z) (P : R → bool) : M (option R) :=
  gets (λ w, find_latest key P (t_get T (w_db w))).
Definition db_find_many (P : R → bool) : M (list R) := gets (λ w, find_many P (t_get T (w_db w))).
Definition db_count (P : R → bool) : M Z := gets (λ w, count_rows P (t_get T (w_db w))).

(** [create]: the new row under its primary key. *)
Definition db_create (k : string) (r : R) : M R := λ w,
  let m := t_get T (w_db w) in
  if exists_in m k || has_conflict m k r then (Err (PrismaKnown "P2002"), w)
  else if t_fk T (w_db w) r then (Ok r, put_rows (<[k := r]> m) w)
  else (Err (PrismaKnown "P2003"), w).
(** [update({ where: { id } })] of columns no unique index covers. *)
Definition db_update (k : string) (f : R → R) : M R := λ w,
  let m := t_get T (w_db w) in
  match m !! k with
  | None => (Err (PrismaKnown "P2025"), w)
  | Some r => (Ok (f r), put_rows (<[k := f r]> m) w)
  end.
(** The same when a foreign key changes. *)
Definition db_update_fk (k : string) (f : R → R) : M R := λ w,
  match t_get T (w_db w) !! k with
  | Some r => if t_fk T (w_db w) (f r) then db_update k f w else (Err (PrismaKnown "P2003"), w)
  | None => db_update k f w
  end.
(** The same when an indexed column changes. *)
Definition db_update_indexed (k : string) (f : R → R) : M R := λ w,
  let m := t_get T (w_db w) in
  match m !! k with
  | None => (Err (PrismaKnown "P2025"), w)
  | Some r =>
      if has_conflict m k (f r) then (Err (PrismaKnown "P2002"), w)
      else (Ok (f r), put_rows (<[k := f r]> m) w)
  end.
(** [updateMany({ where, data })]: the number of rows changed. *)
Definition db_update_many (P : R → bool) (f : R → R) : M Z := λ w,
  let m := t_get T (w_db w) in
  (Ok (count_rows P m), put_rows (update_where P f m) w).
Definition db_update_many_indexed (P : R → bool) (f : R → R) : M Z := λ w,
  let m := t_get T (w_db w) in
  let m' := update_where P f m in
  if any_conflict m' (λ k, match m !! k with Some r => P r | None => false end)
  then (Err (PrismaKnown "P2002"), w)
  else (Ok (count_rows P m), put_rows m' w).
(** [delete({ where: { id } })]. *)
Definition db_delete (k : string) : M R := λ w,
  let m := t_get T (w_db w) in
  match m !! k with
  | None => (Err (PrismaKnown "P2025"), w)
  | Some r => (Ok r, put_rows (delete k m) w)
  end.

(** The invariant the unique indexes maintain. *)
Definition unique_ok m : Prop :=
  ∀ k1 k2 r1 r2, m !! k1 = Some r1 → m !! k2 = Some r2 → k1 ≠ k2 →
    t_conflict T r1 r2 = false.

Lemma has_conflict_false m k r :
  has_conflict m k r = false ↔
  ∀ k' r', m !! k' = Some r' → k' ≠ k → t_conflict T r r' = false.
Proof.
  unfold has_conflict. rewrite <- not_true_iff_false, existsb_exists. split.
  - intros H k' r' Hk' Hne. destruct (t_conflict T r r') eqn:E; [|done].
    destruct H. exists (k', r'). rewrite <- list_elem_of_In, elem_of_map_to_list.
    split; [done|]. cbn. unfold seq_b. rewrite bool_decide_eq_false_2 by done. done.
  - intros H ([k' r'] & Hin & Hc). rewrite <- list_elem_of_In, elem_of_map_to_list in Hin.
    cbn in Hc. apply andb_true_iff in Hc as [Hne Hc]. unfold seq_b in Hne.
    apply negb_true_iff, bool_decide_eq_false in Hne.
    specialize (H k' r' Hin Hne). cbn in H. congruence.
Qed.

(** The index check of an update vanishes when no indexed column changes. *)
Lemma has_conflict_update m k r r' :
  unique_ok m → m !! k = Some r → (∀ x, t_conflict T r' x = t_conflict T r x) →
  has_conflict m k r' = false.
Proof.
  intros Hu Hk Hsame. apply has_conflict_false. intros k' x Hx Hne.
  rewrite Hsame. by apply (Hu k k').
Qed.

Section preservation.
Hypothesis conflict_sym : ∀ a b, t_conflict T a b = t_conflict T b a.

Lemma unique_ok_insert m k r :
  unique_ok m → has_conflict m k r = false → unique_ok (<[k := r]> m).
Proof using conflict_sym.
  intros Hu Hc k1 k2 r1 r2 H1 H2 Hne. rewrite has_conflict_false in Hc.
  destruct (decide (k1 = k)) as [->|H1k], (decide (k2 = k)) as [->|H2k];
    simplify_map_eq; try done.
  - by apply (Hc k2).
  - rewrite conflict_sym. by apply (Hc k1).
  - by apply (Hu k1 k2).
Qed.

Lemma unique_ok_delete m k : unique_ok m → unique_ok (delete k m).
Proof.
  intros Hu k1 k2 r1 r2 H1 H2. apply lookup_delete_Some in H1 as [_ H1].
  apply lookup_delete_Some in H2 as [_ H2]. by apply (Hu k1 k2).
Qed.

Lemma unique_ok_update_many m P f :
  unique_ok m →
  any_conflict (update_where P f m)
    (λ k, match m !! k with Some r => P r | None => false end) = false →
  unique_ok (update_where P f m).
Proof using conflict_sym.
  intros Hu Hc.
  assert (∀ k r, update_where P f m !! k = Some r →
    (match m !! k with Some r => P r | None => false end) = true →
    has_conflict (update_where P f m) k r = false) as Hall.
  { intros k r Hk HP. destruct (has_conflict _ k r) eqn:E; [|done].
    rewrite <- not_true_iff_false in Hc. destruct Hc. apply existsb_exists.
    exists (k, r). rewrite <- list_elem_of_In, elem_of_map_to_list.
    split; [done|]. cbn. by rewrite HP, E. }
  intros k1 k2 r1 r2 H1 H2 Hne.
  destruct (lookup_update_where_Some _ _ _ _ _ H1) as (x1 & Hx1 & E1).
  destruct (lookup_update_where_Some _ _ _ _ _ H2) as (x2 & Hx2 & E2).
  destruct (P x1) eqn:HP1; [|destruct (P x2) eqn:HP2].
  - specialize (Hall k1 r1 H1). rewrite Hx1 in Hall. specialize (Hall HP1).
    rewrite has_conflict_false in Hall. by apply (Hall k2).
  - specialize (Hall k2 r2 H2). rewrite Hx2 in Hall. specialize (Hall HP2).
    rewrite has_conflict_false in Hall. rewrite conflict_sym. by apply (Hall k1).
  - subst. by apply (Hu k1 k2).
Qed.
End preservation.
End writes.
#[global] Arguments has_conflict {R} T m k r : simpl never.
#[global] Arguments any_conflict {R} T m P : simpl never.
#[global] Arguments unique_ok {R} T m : simpl never.

(** Deciding the table invariants on a concrete table. *)
Lemma keyed_check {R} (id : R → string) (m : gmap string R) :
  forallb (λ kv, seq_b (id kv.2) kv.1) (map_to_list m) = true → keyed id m.
Proof.
  rewrite forallb_forall. intros Hall k r Hk. specialize (Hall (k, r)). cbn in Hall.
  rewrite <- list_elem_of_In, elem_of_map_to_list in Hall. specialize (Hall Hk).
  unfold seq_b in Hall. by apply bool_decide_eq_true in Hall.
Qed.
Lemma unique_check {R} (T : table R) (m : gmap string R) :
  forallb (λ kv, negb (has_conflict T m kv.1 kv.2)) (map_to_list m) = true → unique_ok T m.
Proof.
  rewrite forallb_forall. intros Hall k1 k2 r1 r2 H1 H2 Hne. specialize (Hall (k1, r1)).
  rewrite <- list_elem_of_In, elem_of_map_to_list in Hall. specialize (Hall H1).
  cbn in Hall. apply negb_true_iff in Hall. rewrite has_conflict_false in Hall. by apply (Hall k2).
Qed.

(** ** Program logic of the writes

    Every write of a table moves the world by [put_rows]; the premise says
    that the preorder allows it. *)
Section write_respects.
Context (R : world → world → Prop) `{!PreOrder R}.
Context {X : Type} (T : table X) (HT : ∀ m w, R w (put_rows T m w)).

Lemma respects_db_create k r : respects R (db_create T k r).
Proof using All. intros w. unfold db_create. repeat case_match; cbn; try reflexivity; apply HT. Qed.
Lemma respects_db_update k f : respects R (db_update T k f).
Proof using All. intros w. unfold db_update. repeat case_match; cbn; try reflexivity; apply HT. Qed.
Lemma respects_db_update_indexed k f : respects R (db_update_indexed T k f).
Proof using All. intros w. unfold db_update_indexed. repeat case_match; cbn; try reflexivity; apply HT. Qed.
Lemma respects_db_update_many P f : respects R (db_update_many T P f).
Proof using All. intros w. apply HT. Qed.
Lemma respects_db_update_many_indexed P f : respects R (db_update_many_indexed T P f).
Proof using All. intros w. unfold db_update_many_indexed. repeat case_match; cbn; try reflexivity; apply HT. Qed.
Lemma respects_db_delete k : respects R (db_delete T k).
Proof using All. intros w. unfold db_delete. repeat case_match; cbn; try reflexivity; apply HT. Qed.
End write_respects.
Lemma respects_db_update_fk (R : world → world → Prop) `{!PreOrder R} {X : Type} (T : table X) k f :
  respects R (db_update T k f) → respects R (db_update_fk T k f).
Proof. intros Hf w. unfold db_update_fk. repeat case_match; try apply Hf. cbn. reflexivity. Qed.

Section read_respects.
Context (R : world → world → Prop) `{!PreOrder R} {X : Type} (T : table X).
Lemma respects_db_all : respects R (db_all T).
Proof using All. by apply respects_gets. Qed.
Lemma respects_db_find k : respects R (db_find T k).
Proof using All. by apply respects_gets. Qed.
Lemma respects_db_find_by P : respects R (db_find_by T P).
Proof using All. by apply respects_gets. Qed.
Lemma respects_db_find_latest key P : respects R (db_find_latest T key P).
Proof using All. by apply respects_gets. Qed.
Lemma respects_db_find_many P : respects R (db_find_many T P).
Proof using All. by apply respects_gets. Qed.
Lemma respects_db_count P : respects R (db_count T P).
Proof using All. by apply respects_gets. Qed.
Lemma respects_date_now : respects R date_now.
Proof using All. by apply respects_gets. Qed.
End read_respects.
#[export] Hint Resolve respects_db_all respects_db_find respects_db_find_by respects_db_find_latest
  respects_db_find_many respects_db_count respects_date_now : steph.

Section entropy_respects.
Context (R : world → world → Prop) `{!PreOrder R, Entropy}.
Context (HR : ∀ w, R w (put_tick (S (w_tick w)) w)).
Lemma respects_draw : respects R draw.
Proof using HR PreOrder0. intros w. apply HR. Qed.
Lemma respects_random_uuid : respects R random_uuid.
Proof using All. apply respects_bind; [done|apply respects_draw|intros; by apply respects_ret]. Qed.
Lemma respects_randomBytes k : respects R (randomBytes k).
Proof using All. apply respects_bind; [done|apply respects_draw|intros; by apply respects_ret]. Qed.
Lemma respects_randomInt lo hi : respects R (randomInt lo hi).
Proof using All. apply respects_bind; [done|apply respects_draw|intros; by apply respects_ret]. Qed.
End entropy_respects.

(** An operation that keeps an observation keeps what depends on it. *)
Lemma respects_same_keeps {A T} (f : world → T) (I : T → Prop) (m : M A) :
  respects (same f) m → respects (keeps (λ w, I (f w))) m.
Proof. intros H w. unfold keeps. specialize (H w). unfold same in H. by rewrite H. Qed.
Lemma respects_same_fst {A T} (f : world → T) (m : M A) w :
  respects (same f) m → f (m w).2 = f w.
Proof. intros H. apply H. Qed.

(** ** Writes, read backwards *)
Section write_inversion.
Context {R : Type} (T : table R).
Implicit Types (w : world) (k : string) (r : R).

Lemma db_create_inv k r w r' w' :
  db_create T k r w = (Ok r', w') →
  r' = r ∧ t_get T (w_db w) !! k = None ∧ has_conflict T (t_get T (w_db w)) k r = false ∧
  t_fk T (w_db w) r = true ∧ w' = put_rows T (<[k := r]> (t_get T (w_db w))) w.
Proof.
  unfold db_create. cbv zeta. destruct (exists_in _ k) eqn:He; [by intros [=]|].
  destruct (has_conflict _ _ _ _) eqn:Hc; [by intros [=]|]. cbn [orb].
  destruct (t_fk _ _ _) eqn:Hf; [|by intros [=]]. intros [= <- <-].
  split_and!; try done. unfold exists_in in He. unbool. by apply eq_None_not_Some.
Qed.
Lemma db_create_err k r w e w' : db_create T k r w = (Err e, w') → w' = w.
Proof. unfold db_create. cbv zeta. repeat case_match; intros; by simplify_eq. Qed.
Lemma db_create_run k r w :
  t_get T (w_db w) !! k = None → has_conflict T (t_get T (w_db w)) k r = false →
  t_fk T (w_db w) r = true →
  db_create T k r w = (Ok r, put_rows T (<[k := r]> (t_get T (w_db w))) w).
Proof.
  intros Hk Hc Hf. unfold db_create. cbv zeta. unfold exists_in. rewrite Hk, Hc, Hf.
  by rewrite bool_decide_eq_false_2 by by intros [].
Qed.
Lemma db_update_inv k f w r' w' :
  db_update T k f w = (Ok r', w') →
  ∃ r, t_get T (w_db w) !! k = Some r ∧ r' = f r ∧
    w' = put_rows T (<[k := f r]> (t_get T (w_db w))) w.
Proof. unfold db_update. cbv zeta. case_match; intros; simplify_eq; eauto. Qed.
Lemma db_update_err k f w e w' :
  db_update T k f w = (Err e, w') → w' = w ∧ t_get T (w_db w) !! k = None.
Proof. unfold db_update. cbv zeta. case_match; intros; by simplify_eq. Qed.
Lemma db_update_run k f w r :
  t_get T (w_db w) !! k = Some r →
  db_update T k f w = (Ok (f r), put_rows T (<[k := f r]> (t_get T (w_db w))) w).
Proof. unfold db_update. cbv zeta. by intros ->. Qed.
Lemma db_update_indexed_inv k f w r' w' :
  db_update_indexed T k f w = (Ok r', w') →
  ∃ r, t_get T (w_db w) !! k = Some r ∧ r' = f r ∧
    has_conflict T (t_get T (w_db w)) k (f r) = false ∧
    w' = put_rows T (<[k := f r]> (t_get T (w_db w))) w.
Proof.
  unfold db_update_indexed. cbv zeta. destruct (_ !! k) as [r|]; [|by intros [=]].
  destruct (has_conflict _ _ _ _) eqn:E; [by intros [=]|]. intros [= <- <-]. eauto.
Qed.
Lemma db_update_indexed_err k f w e w' : db_update_indexed T k f w = (Err e, w') → w' = w.
Proof. unfold db_update_indexed. cbv zeta. repeat case_match; intros; by simplify_eq. Qed.
Lemma db_update_indexed_run k f w r :
  t_get T (w_db w) !! k = Some r → has_conflict T (t_get T (w_db w)) k (f r) = false →
  db_update_indexed T k f w = (Ok (f r), put_rows T (<[k := f r]> (t_get T (w_db w))) w).
Proof. unfold db_update_indexed. cbv zeta. by intros -> ->. Qed.
End write_inversion.

(** ** Redis *)

(** [w_redis_up] says whether the server answers; a command fails otherwise. *)
Definition redis_guard {A} (m : M A) : M A := λ w,
  if w_redis_up w then m w else (Err (JsError "Redis unavailable"), w).
(** The value of a key that has not expired. *)
Definition redis_live (w : world) (k : string) : option Z :=
  match w_redis w !! k with
  | Some (v, Some e) => if w_now w <? e then Some v else None
  | Some (v, None) => Some v
  | None => None
  end.
Definition redis_get (k : string) : M (option Z) := redis_guard (gets (λ w, redis_live w k)).
Definition redis_exists (k : string) : M Z :=
  redis_guard (gets (λ w, match redis_live w k with Some _ => 1 | None => 0 end)).
(** [SET k v EX ttl]. *)
Definition redis_set_ex (k : string) (v ttl : Z) : M unit :=
  redis_guard (modify (λ w, put_redis (<[k := (v, Some (w_now w + ttl * 1000))]> (w_redis w)) w)).
(** [INCR k]: a missing or expired key counts as 0 without expiry. *)
Definition redis_incr (k : string) : M Z := redis_guard (λ w,
  let v := match redis_live w k with Some v => v + 1 | None => 1 end in
  let e := match redis_live w k, w_redis w !! k with Some _, Some (_, e) => e | _, _ => None end in
  (Ok v, put_redis (<[k := (v, e)]> (w_redis w)) w)).
(** [EXPIRE k ttl]. *)
Definition redis_expire (k : string) (ttl : Z) : M unit := redis_guard (modify (λ w,
  match redis_live w k with
  | Some v => put_redis (<[k := (v, Some (w_now w + ttl * 1000))]> (w_redis w)) w
  | None => w
  end)).

Section redis_respects.
Context (R : world → world → Prop) `{!PreOrder R}.
Lemma respects_redis_guard {A} (m : M A) : respects R m → respects R (redis_guard m).
Proof using All. intros H w. unfold redis_guard. case_match; [apply H|cbn; reflexivity]. Qed.
Lemma respects_redis_get k : respects R (redis_get k).
Proof using All. apply respects_redis_guard. by apply respects_gets. Qed.
Lemma respects_redis_exists k : respects R (redis_exists k).
Proof using All. apply respects_redis_guard. by apply respects_gets. Qed.
Context (HR : ∀ r w, R w (put_redis r w)).
Lemma respects_redis_set_ex k v t : respects R (redis_set_ex k v t).
Proof using All. apply respects_redis_guard. apply respects_modify. intros w. apply HR. Qed.
Lemma respects_redis_incr k : respects R (redis_incr k).
Proof using All. apply respects_redis_guard. intros w. apply HR. Qed.
Lemma respects_redis_expire k t : respects R (redis_expire k t).
Proof using All.
  apply respects_redis_guard. apply respects_modify. intros w. case_match; [apply HR|reflexivity].
Qed.
End redis_respects.

(** ** BullMQ queues

    The shared connection retries forever, so [add] never settles while Redis
    does not answer (queue/queue.module.ts). *)
Definition queue_push (f : world → world) : M unit := λ w,
  if w_redis_up w then (Ok tt, f w) else (Err NeverSettles, w).
Definition emailQueue_add (j : email_job) : M unit :=
  queue_push (λ w, put_emailQueue (w_emailQueue w ++ [j]) w).
Definition bulkQueue_addBulk (js : list email_job) : M unit :=
  queue_push (λ w, put_bulkQueue (w_bulkQueue w ++ js) w).
Definition apolloQueue_add (j : apollo_job) : M unit :=
  queue_push (λ w, put_apolloQueue (w_apolloQueue w ++ [j]) w).

(** [withTimeout(promise, ms)] of queue/with-timeout.util.ts: a promise that
    would stay pending rejects after [ms]; a settled one is passed on. *)
Definition withTimeout {A} (m : M A) (ms : Z) : M A := λ w,
  match m w with
  | (Err NeverSettles, w') => (Err (JsError ("Timed out after " +:+ pretty ms +:+ "ms")), w')
  | r => r
  end.

Section queue_respects.
Context (R : world → world → Prop) `{!PreOrder R}.
Lemma respects_queue_push f : (∀ w, R w (f w)) → respects R (queue_push f).
Proof using All. intros H w. unfold queue_push. case_match; cbn; [apply H|reflexivity]. Qed.
Lemma respects_withTimeout {A} (m : M A) ms : respects R m → respects R (withTimeout m ms).
Proof using All. intros H w. specialize (H w). unfold withTimeout. by destruct (m w) as [[|[]] ?]. Qed.
End queue_respects.

(** The primitive steps, with the side conditions closed by computation: the
    last resort of [respects_tac]. *)
Ltac frame_side :=
  solve [intros; unfold put_rows, same; cbn; first [reflexivity | done | auto with presh]].
Ltac frame_step :=
  match goal with
  | |- respects _ (db_create _ _ _) => apply respects_db_create; [typeclasses eauto|frame_side]
  | |- respects _ (db_update _ _ _) => apply respects_db_update; [typeclasses eauto|frame_side]
  | |- respects _ (db_update_fk _ _ _) => apply respects_db_update_fk; [typeclasses eauto|]
  | |- respects _ (db_update_indexed _ _ _) => apply respects_db_update_indexed; [typeclasses eauto|frame_side]
  | |- respects _ (db_update_many _ _ _) => apply respects_db_update_many; [typeclasses eauto|frame_side]
  | |- respects _ (db_update_many_indexed _ _ _) => apply respects_db_update_many_indexed; [typeclasses eauto|frame_side]
  | |- respects _ (db_delete _ _) => apply respects_db_delete; [typeclasses eauto|frame_side]
  | |- respects _ draw => apply respects_draw; [typeclasses eauto|frame_side]
  | |- respects _ random_uuid => apply respects_random_uuid; [typeclasses eauto|frame_side]
  | |- respects _ (randomBytes _) => apply respects_randomBytes; [typeclasses eauto|frame_side]
  | |- respects _ (randomInt _ _) => apply respects_randomInt; [typeclasses eauto|frame_side]
  | |- respects _ (transaction _) => apply respects_transaction; [frame_side|]
  | |- respects _ (withTimeout _ _) => apply respects_withTimeout; [typeclasses eauto|]
  | |- respects _ (redis_set_ex _ _ _) => apply respects_redis_set_ex; [typeclasses eauto|frame_side]
  | |- respects _ (redis_incr _) => apply respects_redis_incr; [typeclasses eauto|frame_side]
  | |- respects _ (redis_expire _ _) => apply respects_redis_expire; [typeclasses eauto|frame_side]
  | |- respects _ (redis_get _) => apply respects_redis_get; typeclasses eauto
  | |- respects _ (redis_exists _) => apply respects_redis_exists; typeclasses eauto
  | |- respects _ (queue_push _) => apply respects_queue_push; [typeclasses eauto|frame_side]
  | |- respects _ (emailQueue_add _) => unfold emailQueue_add
  | |- respects _ (bulkQueue_addBulk _) => unfold bulkQueue_addBulk
  | |- respects _ (apolloQueue_add _) => unfold apolloQueue_add
  end.
Ltac frame_tac :=
  repeat first [ solve [eauto with steph typeclass_instances] | frame_step | respects_step ].
