(* ===== verification/Invariants.v ===== *)
(** Table invariants under the writes: rows stored under their own id, the
    unique indexes, and a property of every row. *)
From S2P Require Import Prelude JsLib Schema Effects Platform.

Section table_ok.
Context {R : Type} (T : table R) (id : R → string) (P : R → Prop).
Implicit Types (m : gmap string R).

Definition table_ok m : Prop :=
  keyed id m ∧ unique_ok T m ∧ ∀ k r, m !! k = Some r → P r.
Definition table_inv (w : world) : Prop := table_ok (t_get T (w_db w)).

Hypothesis conflict_sym : ∀ a b, t_conflict T a b = t_conflict T b a.
Hypothesis get_set : ∀ m d, t_get T (t_set T m d) = m.

Lemma table_ok_insert m k r :
  table_ok m → id r = k → has_conflict T m k r = false → P r → table_ok (<[k := r]> m).
Proof using conflict_sym.
  intros (Hk & Hu & HP) Hid Hc Hr. split_and!.
  - by apply keyed_insert.
  - by apply unique_ok_insert.
  - intros j x Hj. destruct (decide (j = k)) as [->|]; simplify_map_eq; eauto.
Qed.

Lemma create_keeps k r : id r = k → P r → respects (keeps table_inv) (db_create T k r).
Proof using conflict_sym get_set.
  intros Hid Hr w Hw. destruct (db_create T k r w) as [[r'|e] w'] eqn:E.
  - apply db_create_inv in E as (-> & _ & Hc & _ & ->). cbn. unfold table_inv, put_rows. cbn.
    rewrite get_set. by apply table_ok_insert.
  - by apply db_create_err in E as ->.
Qed.
Lemma update_indexed_keeps k f :
  (∀ r, id (f r) = id r) → (∀ r, P r → P (f r)) → respects (keeps table_inv) (db_update_indexed T k f).
Proof using conflict_sym get_set.
  intros Hid Hf w Hw. destruct (db_update_indexed T k f w) as [[r'|e] w'] eqn:E.
  - apply db_update_indexed_inv in E as (r & Hr & -> & Hc & ->). cbn. unfold table_inv, put_rows. cbn.
    rewrite get_set. destruct Hw as (Hk & Hu & HP).
    apply table_ok_insert; [done|rewrite Hid; by apply Hk|done|eauto].
  - by apply db_update_indexed_err in E as ->.
Qed.
(** An update that leaves the indexed columns alone. *)
Lemma update_keeps k f :
  (∀ r, id (f r) = id r) → (∀ r, P r → P (f r)) → (∀ r x, t_conflict T (f r) x = t_conflict T r x) →
  respects (keeps table_inv) (db_update T k f).
Proof using conflict_sym get_set.
  intros Hid Hf Hc w Hw. destruct (db_update T k f w) as [[r'|e] w'] eqn:E.
  - apply db_update_inv in E as (r & Hr & -> & ->). cbn. unfold table_inv, put_rows. cbn.
    rewrite get_set. destruct Hw as (Hk & Hu & HP).
    apply table_ok_insert; [done|rewrite Hid; by apply Hk| |eauto].
    eapply has_conflict_update; eauto.
  - by apply db_update_err in E as [-> _].
Qed.
Lemma update_many_indexed_keeps Q f :
  (∀ r, id (f r) = id r) → (∀ r, P r → P (f r)) → respects (keeps table_inv) (db_update_many_indexed T Q f).
Proof using conflict_sym get_set.
  intros Hid Hf w Hw. unfold db_update_many_indexed. cbv zeta.
  destruct (any_conflict _ _ _) eqn:E; cbn; [done|]. unfold table_inv, put_rows. cbn. rewrite get_set.
  destruct Hw as (Hk & Hu & HP). split_and!.
  - by apply keyed_update_where.
  - by apply unique_ok_update_many.
  - intros k x Hx. destruct (lookup_update_where_Some _ _ _ _ _ Hx) as (r & Hr & ->).
    destruct (Q r); eauto.
Qed.
End table_ok.

(** A step that leaves an invariant's table alone keeps the invariant. *)
#[export] Hint Extern 1 (keeps _ _ _) => (let H := fresh in intros H; exact H) : presh.

(** ** Rewriting a list of rows *)
Section rewriting.
Context {R : Type} `{EqDecision R} (id : R → string).
Implicit Types (cs : list R) (m : gmap string R).
(** The rows [cs] rewritten by [f]. *)
Definition rewrite_rows (f : R → R) cs m : gmap string R := (λ r, if bool_decide (r ∈ cs) then f r else r) <$> m.
Lemma rewrite_rows_nil f m : rewrite_rows f [] m = m.
Proof.
  unfold rewrite_rows. erewrite map_fmap_ext, map_fmap_id; [done|]. intros k x _. cbn.
  by rewrite bool_decide_eq_false_2 by set_solver.
Qed.
Lemma rewrite_rows_cons f c cs m :
  keyed id m → NoDup (id <$> (c :: cs)) → m !! id c = Some c → id (f c) = id c →
  rewrite_rows f cs (<[id c := f c]> m) = rewrite_rows f (c :: cs) m.
Proof.
  intros Hk Hnd Hc Hf. cbn in Hnd. apply NoDup_cons in Hnd as [Hnot _].
  unfold rewrite_rows. apply map_eq. intros k. rewrite !lookup_fmap.
  destruct (decide (k = id c)) as [->|Hne].
  - rewrite lookup_insert_eq, Hc. cbn. rewrite bool_decide_eq_false_2, bool_decide_eq_true_2; [done|set_solver|].
    intros Hin. apply Hnot. apply list_elem_of_fmap. by exists (f c).
  - rewrite lookup_insert_ne by done. destruct (m !! k) as [r|] eqn:Hr; [|done]. cbn.
    f_equal. assert (r ≠ c) by (intros ->; by apply Hk in Hr).
    rewrite (bool_decide_ext (r ∈ c :: cs) (r ∈ cs)); [done|]. set_solver.
Qed.
(** Rewriting the rows a query finds is the bulk update. *)
Lemma rewrite_rows_query f (P : R → bool) m : rewrite_rows f (find_many P m) m = update_where P f m.
Proof.
  apply map_eq. intros k. rewrite lookup_update_where. unfold rewrite_rows. rewrite lookup_fmap.
  destruct (m !! k) as [r|] eqn:Hr; [|done]. cbn. f_equal.
  rewrite (bool_decide_ext (r ∈ find_many P m) (P r = true)); [by destruct (P r)|].
  rewrite elem_of_find_many. split; [by intros []|eauto].
Qed.
End rewriting.
