(* ===== verification/Messaging.v ===== *)
(** Two services every other one calls: the append-only audit log
    (audit/audit.service.ts) and the e-mail producer
    (email/email.service.ts). *)
From S2P Require Import Prelude JsLib Crypto Schema Effects Platform.

(** ** AuditService *)
Module Audit.
(** [AuditEntry]. *)
Record entry := Entry {
  ae_actorUserId : option string;
  ae_action : string;
  ae_targetType : option string;
  ae_targetId : option string;
  ae_metadata : option json;
  ae_ipAddress : option string
}.
(** Entries by the fields they give. *)
Definition by_actor (actor action : string) : entry := Entry (Some actor) action None None None None.
Definition by_system (action : string) : entry := Entry None action None None None None.
Definition with_ip (ip : option string) (e : entry) : entry :=
  Entry (ae_actorUserId e) (ae_action e) (ae_targetType e) (ae_targetId e) (ae_metadata e) ip.
Definition with_meta (m : json) (e : entry) : entry :=
  Entry (ae_actorUserId e) (ae_action e) (ae_targetType e) (ae_targetId e) (Some m) (ae_ipAddress e).
Definition with_target_id (t : string) (e : entry) : entry :=
  Entry (ae_actorUserId e) (ae_action e) (ae_targetType e) (Some t) (ae_metadata e) (ae_ipAddress e).
Definition with_target (ty t : string) (e : entry) : entry :=
  Entry (ae_actorUserId e) (ae_action e) (Some ty) (Some t) (ae_metadata e) (ae_ipAddress e).

(** [record]: inserts one row; the actor is a foreign key. *)
Definition record (e : entry) : M unit := λ w,
  if match ae_actorUserId e with Some k => user_exists (w_db w) k | None => true end
  then
    let row := Mk_audit_log (ae_actorUserId e) (ae_action e) (ae_targetType e)
                 (ae_targetId e) (ae_metadata e) (ae_ipAddress e) (w_now w) in
    (Ok tt, put_db (set_db_auditLogs (db_auditLogs (w_db w) ++ [row]) (w_db w)) w)
  else (Err (PrismaKnown "P2003"), w).

(** The world with the entry appended. *)
Definition recorded (e : entry) (w : world) : world :=
  put_db (set_db_auditLogs
    (db_auditLogs (w_db w) ++
      [Mk_audit_log (ae_actorUserId e) (ae_action e) (ae_targetType e) (ae_targetId e)
         (ae_metadata e) (ae_ipAddress e) (w_now w)]) (w_db w)) w.
Lemma record_run e w :
  (∀ k, ae_actorUserId e = Some k → user_exists (w_db w) k = true) →
  record e w = (Ok tt, recorded e w).
Proof. intros Hk. unfold record, recorded.
  destruct (ae_actorUserId e) as [k|]; [by rewrite (Hk k eq_refl)|done]. Qed.
Lemma record_inv e w r w' :
  record e w = (r, w') → (r = Ok tt ∧ w' = recorded e w) ∨ (r = Err (PrismaKnown "P2003") ∧ w' = w).
Proof. unfold record. case_match; intros; simplify_eq; auto. Qed.
End Audit.
#[global] Arguments Audit.recorded : simpl never.

(** The log only grows: the earlier log is a prefix of the later one. *)
Definition audit_grows (w w' : world) : Prop :=
  db_auditLogs (w_db w) `prefix_of` db_auditLogs (w_db w').
#[export] Instance audit_grows_preorder : PreOrder audit_grows.
Proof. split; unfold audit_grows; [intros w; done|intros w1 w2 w3; apply PreOrder_Transitive]. Qed.

Lemma respects_record (R : world → world → Prop) `{!PreOrder R} e :
  (∀ l w, R w (put_db (set_db_auditLogs l (w_db w)) w)) → respects R (Audit.record e).
Proof. intros H w. unfold Audit.record. case_match; cbn; [apply H|reflexivity]. Qed.
Lemma record_grows e : respects audit_grows (Audit.record e).
Proof. intros w. unfold Audit.record, audit_grows. case_match; cbn; [by eexists|done]. Qed.
#[export] Hint Resolve record_grows : steph.
#[export] Hint Extern 1 (respects _ (Audit.record _)) =>
  apply respects_record; [typeclasses eauto|frame_side] : steph.

(** A step that leaves the log alone. *)
Lemma audit_grows_eq w w' :
  db_auditLogs (w_db w') = db_auditLogs (w_db w) → audit_grows w w'.
Proof. unfold audit_grows. by intros ->. Qed.
#[export] Hint Extern 1 (audit_grows _ _) => apply audit_grows_eq; reflexivity : presh.

(** ** EmailService *)
Module Email.
Definition ENQUEUE_TIMEOUT_MS : Z := 3000.
Definition BULK_ENQUEUE_TIMEOUT_MS : Z := 15000.

(** [enqueue]: a failure is logged, never passed to the caller. *)
Definition enqueue (name : string) (data : list (string * json)) : M unit :=
  try_catch (withTimeout (emailQueue_add (Mk_email_job name data)) ENQUEUE_TIMEOUT_MS)
    (λ _, mret tt).
(** [enqueueBulk]: chunks of 500, a failed chunk is skipped. *)
Definition BULK_CHUNK_SIZE : nat := 500.
Definition enqueueBulk (jobs : list email_job) : M unit :=
  for_each (chunks BULK_CHUNK_SIZE jobs) (λ chunk,
    try_catch (withTimeout (bulkQueue_addBulk chunk) BULK_ENQUEUE_TIMEOUT_MS)
      (λ _, mret tt)).

Definition sendWelcomeEmail (to fullName : string) : M unit :=
  enqueue "welcome" [("to", JStr to); ("fullName", JStr fullName)].
Definition sendVerificationEmail (to token : string) : M unit :=
  enqueue "verification" [("to", JStr to); ("token", JStr token)].
Definition sendPasswordResetEmail (to token : string) : M unit :=
  enqueue "password-reset" [("to", JStr to); ("token", JStr token)].
Definition sendDeviceVerificationCode (to code : string) : M unit :=
  enqueue "device-code" [("to", JStr to); ("code", JStr code)].
Definition sendContactFormMessage (name fromEmail reason message : string) : M unit :=
  enqueue "contact-form" [("name", JStr name); ("fromEmail", JStr fromEmail);
                          ("reason", JStr reason); ("message", JStr message)].
Definition sendContactMessageReply (to name originalMessage replyMessage : string) : M unit :=
  enqueue "contact-reply" [("to", JStr to); ("name", JStr name);
    ("originalMessage", JStr originalMessage); ("replyMessage", JStr replyMessage)].
Definition sendSubscriptionConfirmed (to productLabel : string) (amountCents renewsAt : Z) : M unit :=
  enqueue "subscription-confirmed" [("to", JStr to); ("productLabel", JStr productLabel);
    ("amountCents", JNum amountCents); ("renewsAt", JStr (Date.toISOString renewsAt))].
Definition sendAdminAccessInvite (to : string) (dir lf : bool) : M unit :=
  enqueue "admin-access-invite" [("to", JStr to);
    ("grantsDirectoryAccess", JStr (if dir then "true" else "false"));
    ("grantsLeadFinderAccess", JStr (if lf then "true" else "false"))].
Definition sendProspectPitch (to fullName template : string) : M unit :=
  enqueue ("prospect-pitch-" +:+ Str.toLowerCase template)
    [("to", JStr to); ("fullName", JStr fullName)].
Definition sendInviteEmail (to inviterName : string) : M unit :=
  enqueue "invite" [("to", JStr to); ("inviterName", JStr inviterName)].
Definition cold_invite (to : string) : email_job :=
  Mk_email_job "prospect-cold-invite" [("to", JStr to)].
Definition sendProspectInvite (to : string) : M unit := enqueueBulk [cold_invite to].
Definition sendProspectInviteBulk (emails : list string) : M unit :=
  enqueueBulk (cold_invite <$> emails).
Definition sendRenewalReminder (to productLabel : string) (renewalDate amountCents : Z) : M unit :=
  enqueue "renewal-reminder" [("to", JStr to); ("productLabel", JStr productLabel);
    ("renewalDate", JStr (Date.toISOString renewalDate)); ("amountCents", JNum amountCents)].
Definition sendPaymentFailed (to productLabel : string) (gracePeriodDays : Z) : M unit :=
  enqueue "payment-failed" [("to", JStr to); ("productLabel", JStr productLabel);
    ("gracePeriodDays", JNum gracePeriodDays)].
Definition sendCancellationScheduled (to productLabel : string) (accessUntil : Z) : M unit :=
  enqueue "cancellation-scheduled" [("to", JStr to); ("productLabel", JStr productLabel);
    ("accessUntil", JStr (Date.toISOString accessUntil))].

(** The world after an attempt to queue [j]. *)
Definition queued (j : email_job) (w : world) : world :=
  if w_redis_up w then put_emailQueue (w_emailQueue w ++ [j]) w else w.

Lemma enqueue_run name data w :
  enqueue name data w = (Ok tt, queued (Mk_email_job name data) w).
Proof.
  unfold enqueue, try_catch, withTimeout, emailQueue_add, queue_push, queued.
  by destruct (w_redis_up w).
Qed.

Definition bulk_queued (js : list email_job) (w : world) : world :=
  if w_redis_up w then put_bulkQueue (w_bulkQueue w ++ js) w else w.

Lemma bulk_queued_app js1 js2 w :
  bulk_queued js2 (bulk_queued js1 w) = bulk_queued (js1 ++ js2) w.
Proof.
  unfold bulk_queued. destruct w as [d n t up r eq bq aq wq st ap sm]. destruct up; cbn; [|done].
  by rewrite app_assoc.
Qed.
Lemma bulk_queued_nil w : bulk_queued [] w = w.
Proof. unfold bulk_queued. destruct w as [d n t [] r eq bq aq wq st ap sm]; cbn; by rewrite ?app_nil_r. Qed.

(** The chunked bulk producer queues exactly the given jobs, in order, or
    nothing at all when Redis is down; it never fails. *)
Lemma enqueueBulk_run jobs w : enqueueBulk jobs w = (Ok tt, bulk_queued jobs w).
Proof.
  unfold enqueueBulk.
  rewrite <- (chunks_concat BULK_CHUNK_SIZE jobs) at 2 by (unfold BULK_CHUNK_SIZE; lia).
  generalize (chunks BULK_CHUNK_SIZE jobs) as cs. intros cs. revert w.
  induction cs as [|c cs IH]; intros w; [cbn; by rewrite bulk_queued_nil|].
  cbn [for_each concat]. rewrite run_bind.
  assert (try_catch (withTimeout (bulkQueue_addBulk c) BULK_ENQUEUE_TIMEOUT_MS)
            (λ _, mret tt) w = (Ok tt, bulk_queued c w)) as ->.
  { unfold try_catch, withTimeout, bulkQueue_addBulk, queue_push, bulk_queued.
    by destruct (w_redis_up w). }
  by rewrite IH, bulk_queued_app.
Qed.

Section email_respects.
Context (R : world → world → Prop) `{!PreOrder R}.
Lemma respects_enqueue name data :
  (∀ q w, R w (put_emailQueue q w)) → respects R (enqueue name data).
Proof using All. intros H w. rewrite enqueue_run. cbn. unfold queued. case_match; [apply H|reflexivity]. Qed.
Lemma respects_enqueueBulk js :
  (∀ q w, R w (put_bulkQueue q w)) → respects R (enqueueBulk js).
Proof using All. intros H w. rewrite enqueueBulk_run. cbn. unfold bulk_queued. case_match; [apply H|reflexivity]. Qed.
End email_respects.
End Email.
#[export] Hint Extern 1 (respects _ (Email.enqueue _ _)) =>
  apply Email.respects_enqueue; [typeclasses eauto|frame_side] : steph.
#[export] Hint Extern 1 (respects _ (Email.enqueueBulk _)) =>
  apply Email.respects_enqueueBulk; [typeclasses eauto|frame_side] : steph.
#[export] Hint Unfold Email.sendWelcomeEmail Email.sendVerificationEmail Email.sendPasswordResetEmail
  Email.sendDeviceVerificationCode Email.sendContactFormMessage Email.sendContactMessageReply
  Email.sendSubscriptionConfirmed Email.sendAdminAccessInvite Email.sendProspectPitch
  Email.sendInviteEmail Email.sendProspectInvite Email.sendProspectInviteBulk
  Email.sendRenewalReminder Email.sendPaymentFailed Email.sendCancellationScheduled : steph.
#[global] Arguments Email.enqueue : simpl never.
#[global] Arguments Email.enqueueBulk : simpl never.
#[global] Arguments Email.queued : simpl never.
#[global] Arguments Email.bulk_queued : simpl never.
