(* ===== verification/Config.v ===== *)
(** The configuration: the environment variables the modelled code reads,
    with the bounds [config/env.validation.ts] enforces at boot. *)
From S2P Require Import Prelude JsLib.

Record config := Mk_config {
  FRONTEND_URL : string;
  JWT_ACCESS_EXPIRY_SECONDS : Z;
  REFRESH_TOKEN_EXPIRY_DAYS : Z;
  LOGIN_MAX_ATTEMPTS : Z;
  LOGIN_LOCKOUT_MINUTES : Z;
  MAX_TRUSTED_DEVICES : Z;
  RISK_HIGH_THRESHOLD : Z;
  PAYMENT_GRACE_PERIOD_DAYS : Z;
  LEAD_SEARCH_MAX_RESULTS : Z;
  UNSUBSCRIBE_SECRET : string;
  COMPANY_MAILING_ADDRESS : string;
  RESEND_WEBHOOK_SECRET : option string;
  RESEND_FROM_EMAIL : string;
  SUPPORT_EMAIL : string;
  NODE_ENV : string
}.
(** The running service has one configuration. *)
Existing Class config.

(** [envValidationSchema]: the numeric and length constraints. *)
Definition envValidation (c : config) : bool :=
  (60 <=? JWT_ACCESS_EXPIRY_SECONDS c)
  && (1 <=? REFRESH_TOKEN_EXPIRY_DAYS c)
  && (1 <=? LOGIN_MAX_ATTEMPTS c)
  && (1 <=? LOGIN_LOCKOUT_MINUTES c)
  && (1 <=? MAX_TRUSTED_DEVICES c)
  && (0 <=? RISK_HIGH_THRESHOLD c)
  && (0 <=? PAYMENT_GRACE_PERIOD_DAYS c)
  && (1 <=? LEAD_SEARCH_MAX_RESULTS c)
  && (32 <=? Z.of_nat (String.length (UNSUBSCRIBE_SECRET c)))
  && (10 <=? Z.of_nat (String.length (COMPANY_MAILING_ADDRESS c)))
  && bool_decide (NODE_ENV c ∈ ["development"; "production"; "test"]).

(** The defaults of the schema. *)
Definition default_config : config :=
  Mk_config "https://conference.contact" 900 30 5 15 3 50 7 50
    "0123456789abcdef0123456789abcdef" "1 Main Street, Springfield" None
    "conference.contact <onboarding@resend.dev>" "support@conference.contact" "development".

Lemma default_config_valid : envValidation default_config = true.
Proof. reflexivity. Qed.

Section bounds.
Context (c : config) (Hc : envValidation c = true).
Lemma cfg_access_expiry : 60 ≤ JWT_ACCESS_EXPIRY_SECONDS c.
Proof using Hc. unfold envValidation in Hc. unbool. lia. Qed.
Lemma cfg_max_devices : 1 ≤ MAX_TRUSTED_DEVICES c.
Proof using Hc. unfold envValidation in Hc. unbool. lia. Qed.
Lemma cfg_max_attempts : 1 ≤ LOGIN_MAX_ATTEMPTS c.
Proof using Hc. unfold envValidation in Hc. unbool. lia. Qed.
Lemma cfg_lockout : 1 ≤ LOGIN_LOCKOUT_MINUTES c.
Proof using Hc. unfold envValidation in Hc. unbool. lia. Qed.
Lemma cfg_refresh_days : 1 ≤ REFRESH_TOKEN_EXPIRY_DAYS c.
Proof using Hc. unfold envValidation in Hc. unbool. lia. Qed.
Lemma cfg_max_results : 1 ≤ LEAD_SEARCH_MAX_RESULTS c.
Proof using Hc. unfold envValidation in Hc. unbool. lia. Qed.
End bounds.
