(* ===== verification/Tokens.v ===== *)
(** Secrets: TokenService (common/tokens), EncryptionService
    (common/encryption) and TokenRevocationService
    (common/token-revocation). *)
From S2P Require Import Prelude JsLib Crypto Schema Effects Platform Config.

(** ** TokenService *)
Module Tokens.
Section tokens.
Context `{Entropy}.
Definition generateOpaqueToken : M string :=
  b ← randomBytes 32; mret (Base64.encode_url b).
Definition generateNumericCode : M string :=
  n ← randomInt 0 1000000; mret (Str.padStart 6 "0" (pretty n)).
Definition hash (rawToken : string) : string := sha256_hex rawToken.

Lemma random_bytes_ok n k : Forall is_byte ((λ i, rand_byte n i mod 256) <$> seq 0 k).
Proof. apply Forall_fmap, Forall_true. intros i. by apply Z.mod_pos_bound. Qed.

(** Two draws with different bytes give different tokens. *)
Lemma opaque_inj n1 n2 :
  Base64.encode_url ((λ i, rand_byte n1 i mod 256) <$> seq 0 32)
  = Base64.encode_url ((λ i, rand_byte n2 i mod 256) <$> seq 0 32) →
  (λ i, rand_byte n1 i mod 256) <$> seq 0 32 = (λ i, rand_byte n2 i mod 256) <$> seq 0 32.
Proof.
  intros E. rewrite <- (Base64.decode_encode_url _ (random_bytes_ok n1 32)), E.
  apply Base64.decode_encode_url, random_bytes_ok.
Qed.
End tokens.

Definition is_digit (c : ascii) : bool := bool_decide (is_Some (Str.digit c)).

Lemma pretty_go_length (k : nat) x s :
  (x < 10 ^ N.of_nat k)%N →
  (String.length (pretty_N_go x s) ≤ k + String.length s)%nat.
Proof.
  revert x s. induction k as [|k IH]; intros x s Hx.
  - replace x with 0%N by (cbn in Hx; lia). by rewrite pretty_N_go_0.
  - destruct (decide (0 < x)%N) as [Hpos|H0].
    + rewrite pretty_N_go_step by done. etrans; [apply IH|cbn; lia].
      apply N.Div0.div_lt_upper_bound. rewrite Nat2N.inj_succ, N.pow_succ_r' in Hx. lia.
    + replace x with 0%N by lia. rewrite pretty_N_go_0. lia.
Qed.

Lemma pretty_go_digits x s :
  Str.sall is_digit s = true → Str.sall is_digit (pretty_N_go x s) = true.
Proof.
  revert s. induction (N.lt_wf_0 x) as [x _ IH]. intros s Hs.
  destruct (decide (0 < x)%N) as [Hpos|H0].
  - rewrite pretty_N_go_step by done. apply IH; [apply N.div_lt; lia|].
    cbn. rewrite Hs, andb_true_r.
    assert (x mod 10 < 10)%N as Hm by (apply N.mod_lt; lia).
    unfold pretty_N_char. by repeat case_match.
  - replace x with 0%N by lia. by rewrite pretty_N_go_0.
Qed.

Lemma sall_app p s1 s2 : Str.sall p (s1 +:+ s2) = Str.sall p s1 && Str.sall p s2.
Proof.
  induction s1 as [|c s1 IH]; [done|].
  change (p c && Str.sall p (s1 +:+ s2) = p c && Str.sall p s1 && Str.sall p s2).
  by rewrite IH, andb_assoc.
Qed.
Lemma length_app_str s1 s2 : String.length (s1 +:+ s2) = (String.length s1 + String.length s2)%nat.
Proof. induction s1 as [|c s1 IH]; [done|]. exact (f_equal S IH). Qed.
Lemma srepeat_length c n : String.length (Str.srepeat c n) = n.
Proof. induction n; cbn; congruence. Qed.
Lemma srepeat_digits n : Str.sall is_digit (Str.srepeat "0" n) = true.
Proof. induction n; cbn; auto. Qed.

Lemma pretty_digits z : 0 ≤ z < 1000000 →
  (String.length (pretty z) ≤ 6)%nat ∧ Str.sall is_digit (pretty z) = true.
Proof.
  intros Hz. destruct z as [|p|p]; [by split; [cbn; lia|]| |lia].
  change (pretty (Z.pos p)) with (pretty (N.pos p)). unfold pretty, pretty_N.
  rewrite decide_False by done. split.
  - etrans; [apply (pretty_go_length 6)|cbn; lia].
    change (10 ^ N.of_nat 6)%N with 1000000%N. lia.
  - by apply pretty_go_digits.
Qed.

(** [generateNumericCode]: always exactly six decimal digits. *)
Lemma generateNumericCode_shape `{Entropy} w : ∃ code,
  generateNumericCode w = (Ok code, put_tick (S (w_tick w)) w) ∧
  String.length code = 6%nat ∧ Str.sall is_digit code = true.
Proof.
  eexists. split; [reflexivity|].
  destruct (pretty_digits (0 + rand_int (w_tick w) mod (1000000 - 0))) as [H1 H2].
  { rewrite Z.sub_0_r. pose proof (Z.mod_pos_bound (rand_int (w_tick w)) 1000000). lia. }
  unfold Str.padStart. rewrite length_app_str, srepeat_length, sall_app, srepeat_digits.
  split; [lia|done].
Qed.

(** A draw of the token generator. *)
Definition token_at `{Entropy} (n : nat) : string :=
  Base64.encode_url ((λ i, rand_byte n i mod 256) <$> seq 0 32).
Lemma generateOpaqueToken_run `{Entropy} w :
  generateOpaqueToken w = (Ok (token_at (w_tick w)), put_tick (S (w_tick w)) w).
Proof. done. Qed.
End Tokens.
#[global] Arguments Tokens.hash : simpl never.
#[global] Arguments Tokens.token_at : simpl never.

(** ** EncryptionService *)

(** AES-256-GCM: [seal key iv plaintext] is (ciphertext, tag), [open key iv
    tag ciphertext] fails when the tag does not match. *)
Class Aead := {
  gcm_seal : list Z → list Z → list Z → list Z * list Z;
  gcm_open : list Z → list Z → list Z → list Z → option (list Z)
}.
(** What GCM documents: opening undoes sealing, the ciphertext has the length
    of the plaintext, the tag has 16 bytes. *)
Definition gcm_correct (A : Aead) : Prop :=
  ∀ key iv pt, Forall is_byte pt →
    let '(ct, tag) := gcm_seal key iv pt in
    gcm_open key iv tag ct = Some pt ∧ length ct = length pt ∧ length tag = 16%nat ∧
    Forall is_byte ct ∧ Forall is_byte tag.

Module Encryption.
Definition IV_LENGTH : nat := 12.
(** The constructor: the key is 32 bytes or the service does not start. *)
Definition load_key (TWO_FACTOR_ENCRYPTION_KEY : string) : res (list Z) :=
  let key := Base64.decode TWO_FACTOR_ENCRYPTION_KEY in
  if decide (length key = 32%nat) then Ok key
  else Err (JsError "TWO_FACTOR_ENCRYPTION_KEY must decode to exactly 32 bytes (AES-256)").

Section encryption.
Context `{Entropy} {A : Aead} (key : list Z).

Definition encrypt (plaintext : string) : M string :=
  iv ← randomBytes IV_LENGTH;
  let '(ciphertext, authTag) := gcm_seal key iv (Str.bytes plaintext) in
  mret (Str.join ":" [Base64.encode iv; Base64.encode authTag; Base64.encode ciphertext]).

Definition decrypt (payload : string) : res string :=
  match Str.split ":" payload with
  | ivB64 :: authTagB64 :: ciphertextB64 :: _ =>
      if Str.nonempty ivB64 && Str.nonempty authTagB64 && Str.nonempty ciphertextB64 then
        match gcm_open key (Base64.decode ivB64) (Base64.decode authTagB64)
                (Base64.decode ciphertextB64) with
        | Some pt => Ok (Str.of_bytes pt)
        | None => Err (JsError "Unsupported state or unable to authenticate data")
        end
      else Err (JsError "Malformed encrypted payload")
  | _ => Err (JsError "Malformed encrypted payload")
  end.
End encryption.

Definition no_colon (s : string) : bool := Str.sall (λ c, negb (Ascii.eqb c ":")) s.

Lemma split_no_colon s : no_colon s = true → Str.split ":" s = [s].
Proof.
  induction s as [|c s IH]; [done|]. unfold no_colon. cbn. intros [Hc Hs]%andb_true_iff.
  apply negb_true_iff in Hc. rewrite Hc. unfold no_colon in IH. by rewrite (IH Hs).
Qed.
Lemma split_app s1 s2 : no_colon s1 = true →
  Str.split ":" (s1 +:+ ":" +:+ s2) = s1 :: Str.split ":" s2.
Proof.
  induction s1 as [|c s1 IH]; [done|]. unfold no_colon. cbn. intros [Hc Hs]%andb_true_iff.
  apply negb_true_iff in Hc. unfold no_colon in IH.
  change (String c s1 +:+ ":" +:+ s2) with (String c (s1 +:+ ":" +:+ s2)).
  cbn [Str.split]. by rewrite Hc, (IH Hs).
Qed.

Lemma encode_no_colon l : Forall is_byte l → no_colon (Base64.encode l) = true.
Proof.
  intros Hl. apply Base64.sextets_range in Hl. unfold no_colon, Base64.encode, Base64.chars.
  rewrite Tokens.sall_app. apply andb_true_iff. split; [|by repeat case_match].
  induction Hl as [|v vs Hv Hvs IH]; [done|]. cbn -[Base64.char_of]. rewrite IH, andb_true_r.
  destruct (Base64.sextet_facts v Hv) as (_&_&_&_&->). done.
Qed.
Lemma of_bytes_bytes s : Str.of_bytes (Str.bytes s) = s.
Proof.
  unfold Str.of_bytes, Str.bytes. rewrite <- list_fmap_compose.
  rewrite (list_fmap_ext _ id); [by rewrite list_fmap_id, String.string_of_list_ascii_of_string|].
  intros _ c _. unfold compose, Str.of_code, Str.code. by rewrite N2Z.id, ascii_N_embedding.
Qed.
Lemma bytes_ok s : Forall is_byte (Str.bytes s).
Proof.
  apply Forall_fmap, Forall_true. intros c. unfold is_byte, Str.code. cbn.
  pose proof (N_ascii_bounded c). lia.
Qed.
Lemma bytes_length s : length (Str.bytes s) = String.length s.
Proof. unfold Str.bytes. rewrite length_fmap. induction s; cbn; congruence. Qed.
End Encryption.

(** ** Round trip *)
Section encryption_properties.
Context `{Entropy}.

Lemma encrypt_run {A : Aead} key pt w :
  ∃ iv ct tag, Forall is_byte iv ∧ length iv = Encryption.IV_LENGTH ∧
    gcm_seal key iv (Str.bytes pt) = (ct, tag) ∧
    Encryption.encrypt key pt w =
      (Ok (Base64.encode iv +:+ ":" +:+ Base64.encode tag +:+ ":" +:+ Base64.encode ct),
       put_tick (S (w_tick w)) w).
Proof.
  set (iv := (λ i, rand_byte (w_tick w) i mod 256) <$> seq 0 Encryption.IV_LENGTH).
  destruct (gcm_seal key iv (Str.bytes pt)) as [ct tag] eqn:E. exists iv, ct, tag.
  split_and!; [apply Tokens.random_bytes_ok|done|done|].
  unfold Encryption.encrypt. rewrite (run_bind_ok _ _ w iv (put_tick (S (w_tick w)) w)) by done.
  by rewrite E.
Qed.

(** C8. For every AES-GCM implementation that opens what it seals, and for
    every entropy source, the payload [encrypt] writes for a non-empty
    plaintext (the base64 [iv:tag:ciphertext] format) decrypts to exactly
    that plaintext; encrypting changes nothing but the entropy stream. *)
Theorem decrypt_encrypt (A : Aead) key plaintext w :
  gcm_correct A → plaintext ≠ EmptyString →
  ∃ payload, Encryption.encrypt key plaintext w = (Ok payload, put_tick (S (w_tick w)) w) ∧
    Encryption.decrypt key payload = Ok plaintext.
Proof.
  intros HA Hne.
  destruct (encrypt_run key plaintext w) as (iv & ct & tag & Hiv & Hlen & Hs & ->).
  eexists; split; [done|].
  specialize (HA key iv _ (Encryption.bytes_ok plaintext)). rewrite Hs in HA.
  destruct HA as (Ho & Hct & Htag & Hbc & Hbt). unfold Encryption.decrypt.
  rewrite Encryption.split_app, Encryption.split_app, Encryption.split_no_colon
    by by apply Encryption.encode_no_colon.
  assert (length ct ≠ 0%nat) by (rewrite Hct, Encryption.bytes_length; by destruct plaintext).
  rewrite !Base64.encode_nonempty, !Base64.decode_encode by (by rewrite ?Hlen, ?Htag).
  cbn [andb]. by rewrite Ho, Encryption.of_bytes_bytes.
Qed.

(** The empty plaintext is accepted by [encrypt] but its payload is
    rejected by [decrypt] as malformed, whatever the key and the cipher. *)
Theorem decrypt_encrypt_empty (A : Aead) key w :
  gcm_correct A →
  ∃ payload w', Encryption.encrypt key "" w = (Ok payload, w') ∧
    Encryption.decrypt key payload = Err (JsError "Malformed encrypted payload").
Proof.
  intros HA. destruct (encrypt_run key "" w) as (iv & ct & tag & Hiv & Hlen & Hs & ->).
  do 2 eexists; split; [done|].
  specialize (HA key iv [] (Forall_nil_2 _)). cbn in Hs. rewrite Hs in HA.
  destruct HA as (_ & Hct & Htag & Hbc & Hbt). destruct ct; [|done]. unfold Encryption.decrypt.
  rewrite Encryption.split_app, Encryption.split_app, Encryption.split_no_colon
    by by apply Encryption.encode_no_colon.
  by rewrite andb_false_r.
Qed.
End encryption_properties.

(** A cipher that satisfies [gcm_correct]: addition modulo 256 of a key byte. *)
Definition toy_shift (k : Z) (l : list Z) : list Z := (λ b, (b + k) mod 256) <$> l.
Definition toy_gcm : Aead := {|
  gcm_seal key iv pt := (toy_shift (hd 0 key) pt, replicate 16 0);
  gcm_open key iv tag ct :=
    if decide (tag = replicate 16 0) then Some (toy_shift (- hd 0 key) ct) else None
|}.
Lemma toy_gcm_correct : gcm_correct toy_gcm.
Proof.
  intros key iv pt Hpt. cbn. rewrite decide_True by done. split_and!.
  - f_equal. unfold toy_shift. rewrite <- list_fmap_compose.
    etrans; [|apply list_fmap_id]. apply list_fmap_ext. intros i b Hb. unfold compose, id.
    pose proof (Forall_lookup_1 _ _ _ _ Hpt Hb) as Hr. unfold is_byte in Hr.
    rewrite Zplus_mod_idemp_l. replace (b + hd 0 key + - hd 0 key) with b by lia.
    apply Z.mod_small. lia.
  - unfold toy_shift. by rewrite length_fmap.
  - done.
  - apply Forall_fmap, Forall_true. intros b. unfold is_byte, compose.
    by apply Z.mod_pos_bound.
  - repeat constructor; unfold is_byte; lia.
Qed.
#[local] Existing Instance toy_gcm.
#[local] Existing Instance counter_entropy.
Lemma decrypt_encrypt_witness :
  gcm_correct toy_gcm ∧ "JBSWY3DP" ≠ EmptyString ∧
  ∃ payload, Encryption.encrypt [7] "JBSWY3DP" (initial_world 0)
             = (Ok payload, put_tick 1 (initial_world 0)) ∧
    Encryption.decrypt [7] payload = Ok "JBSWY3DP".
Proof.
  split; [exact toy_gcm_correct|split; [done|]].
  exact (decrypt_encrypt toy_gcm [7] "JBSWY3DP" (initial_world 0) toy_gcm_correct ltac:(done)).
Defined.
Lemma decrypt_encrypt_empty_witness :
  gcm_correct toy_gcm ∧
  ∃ payload w', Encryption.encrypt [7] "" (initial_world 0) = (Ok payload, w') ∧
    Encryption.decrypt [7] payload = Err (JsError "Malformed encrypted payload").
Proof.
  split; [exact toy_gcm_correct|].
  exact (decrypt_encrypt_empty toy_gcm [7] (initial_world 0) toy_gcm_correct).
Defined.
