(* ===== verification/Revocation.v ===== *)
(** TokenRevocationService (common/token-revocation): instant revocation of
    access tokens and the per-challenge attempt cap, both on Redis and both
    failing open, with the interface the guard and the login flow rely on. *)
From S2P Require Import Prelude JsLib Crypto Schema Effects Platform Config.

Module Revocation.
Definition KEY_PREFIX : string := "revoked:user:".
Definition CHALLENGE_ATTEMPT_PREFIX : string := "login-challenge-attempts:".
Definition MAX_CHALLENGE_ATTEMPTS : Z := 5.

Definition user_key (userId : string) : string := KEY_PREFIX +:+ userId.
Definition challenge_key (challengeToken : string) : string :=
  CHALLENGE_ATTEMPT_PREFIX +:+ sha256_hex challengeToken.

Section revocation.
Context {cfg : config}.

(** [revokeUser]: a Redis failure is logged and swallowed. *)
Definition revokeUser (userId : string) : M unit :=
  try_catch (redis_set_ex (user_key userId) 1 (JWT_ACCESS_EXPIRY_SECONDS cfg))
    (λ _, mret tt).

(** [isRevoked]: fails open. *)
Definition isRevoked (userId : string) : M bool :=
  try_catch (exists_ ← redis_exists (user_key userId); mret (exists_ =? 1))
    (λ _, mret false).

(** [registerChallengeAttempt]: counts the attempt, [true] while the count
    stays within the cap; fails open. *)
Definition registerChallengeAttempt (challengeToken : string) (ttlSeconds : Z) : M bool :=
  try_catch (
    let key := challenge_key challengeToken in
    count ← redis_incr key;
    _ ← when (count =? 1) (redis_expire key ttlSeconds);
    mret (count <=? MAX_CHALLENGE_ATTEMPTS))
    (λ _, mret true).

(** The world after [revokeUser]. *)
Definition revoked (userId : string) (w : world) : world :=
  if w_redis_up w then
    put_redis (<[user_key userId := (1, Some (w_now w + JWT_ACCESS_EXPIRY_SECONDS cfg * 1000))]>
                 (w_redis w)) w
  else w.
Lemma revokeUser_run userId w : revokeUser userId w = (Ok tt, revoked userId w).
Proof.
  unfold revokeUser, try_catch, redis_set_ex, redis_guard, revoked.
  by destruct (w_redis_up w).
Qed.

Lemma revoked_db userId w : w_db (revoked userId w) = w_db w.
Proof. unfold revoked. by destruct (w_redis_up w). Qed.

Lemma isRevoked_run userId w :
  isRevoked userId w =
  (Ok (w_redis_up w && bool_decide (is_Some (redis_live w (user_key userId)))), w).
Proof.
  unfold isRevoked, try_catch, redis_exists, redis_guard. rewrite run_bind.
  destruct (w_redis_up w); [|done]. cbn. by destruct (redis_live w (user_key userId)).
Qed.

(** Right after a revocation the user reads as revoked. *)
Lemma isRevoked_revoked u w w2 :
  w_redis w2 = w_redis (revoked u w) → w_redis_up w2 = w_redis_up w → w_now w2 = w_now w →
  w_redis_up w = true → 0 < JWT_ACCESS_EXPIRY_SECONDS cfg → (isRevoked u w2).1 = Ok true.
Proof.
  intros Hr Hu Hn Hup Httl. rewrite isRevoked_run. cbn [fst]. rewrite Hu, Hup. unfold redis_live.
  rewrite Hr, Hn. unfold revoked. rewrite Hup. cbn. rewrite lookup_insert_eq.
  by rewrite (proj2 (Z.ltb_lt _ _)) by lia.
Qed.

(** The count an attempt reads back. *)
Definition next_count (w : world) (key : string) : Z :=
  match redis_live w key with Some v => v + 1 | None => 1 end.

Lemma registerChallengeAttempt_result token ttl w :
  (registerChallengeAttempt token ttl w).1 =
  Ok (negb (w_redis_up w) || (next_count w (challenge_key token) <=? MAX_CHALLENGE_ATTEMPTS)).
Proof.
  unfold registerChallengeAttempt, try_catch, redis_incr, redis_guard, next_count.
  rewrite run_bind. destruct (w_redis_up w) eqn:Hup; [|done]. cbn.
  set (w' := put_redis _ w). rewrite run_bind.
  destruct (_ =? 1); unfold when.
  - unfold redis_expire, redis_guard. cbn. by rewrite Hup.
  - done.
Qed.

(** After a counted attempt the counter holds the count. *)
Lemma registerChallengeAttempt_count token ttl w :
  w_redis_up w = true → 0 < ttl →
  let w' := (registerChallengeAttempt token ttl w).2 in
  redis_live w' (challenge_key token) = Some (next_count w (challenge_key token)) ∧
  w_redis_up w' = true ∧ w_now w' = w_now w ∧ w_db w' = w_db w.
Proof.
  intros Hup Httl. unfold registerChallengeAttempt, try_catch, redis_incr, redis_guard.
  set (key := challenge_key token). rewrite run_bind, Hup. cbv zeta.
  set (v := next_count w key). fold (next_count w key) v.
  set (e := match redis_live w key with Some _ => _ | None => _ end).
  assert (He : match e with Some t => w_now w < t | None => True end).
  { unfold e. unfold redis_live at 1. destruct (w_redis w !! key) as [[x [t|]]|]; try done.
    destruct (w_now w <? t) eqn:E; [by apply Z.ltb_lt|done]. }
  set (w1 := put_redis (<[key := (v, e)]> (w_redis w)) w).
  assert (Hlive : redis_live w1 key = Some v).
  { unfold redis_live. cbn. rewrite lookup_insert_eq. destruct e as [t|]; [|done].
    by rewrite (proj2 (Z.ltb_lt _ _) He). }
  rewrite run_bind. destruct (v =? 1); unfold when.
  - unfold redis_expire, redis_guard. change (w_redis_up w1) with (w_redis_up w). rewrite Hup.
    unfold modify. cbn. rewrite Hlive. cbn. split; [|done]. unfold redis_live. cbn.
    rewrite lookup_insert_eq. by rewrite (proj2 (Z.ltb_lt _ _)) by lia.
  - cbn. by split_and!.
Qed.
End revocation.

(** The store while only time passes and other keys change. *)
Definition key_kept (key : string) (w w' : world) : Prop :=
  w_redis w' !! key = w_redis w !! key ∧ w_now w ≤ w_now w' ∧ w_redis_up w' = w_redis_up w.
#[export] Instance key_kept_preorder key : PreOrder (key_kept key).
Proof.
  split; unfold key_kept; [done|].
  intros ??? (?&?&?) (?&?&?). repeat split; try congruence; lia.
Qed.
End Revocation.
#[global] Arguments Revocation.revoked {cfg} userId w : simpl never.

(** ** The interface

    What the rest of the service needs from an access-token revocation
    store: asking twice changes nothing, and a revocation made while the
    store is reachable is visible for the whole lifetime of every token issued
    before it. *)
Class RevocationStore := {
  rs_ttl : Z;
  rs_up : world → bool;
  (** [w'] is later than [w] and the store's record of the user is the same. *)
  rs_later : string → world → world → Prop;
  rs_revoke : string → M unit;
  rs_isRevoked : string → M bool;
  rs_revoke_ok : ∀ u w, ∃ w', rs_revoke u w = (Ok tt, w') ∧ w_now w' = w_now w ∧ w_db w' = w_db w;
  rs_isRevoked_ok : ∀ u w, ∃ b, rs_isRevoked u w = (Ok b, w);
  rs_revoked : ∀ u w w' w2,
    rs_revoke u w = (Ok tt, w') → rs_up w = true → rs_later u w' w2 →
    w_now w2 < w_now w + rs_ttl → (rs_isRevoked u w2).1 = Ok true
}.

(** TokenRevocationService implements the interface. *)
#[export] Program Instance token_revocation_store {cfg : config} : RevocationStore := {|
  rs_ttl := JWT_ACCESS_EXPIRY_SECONDS cfg * 1000;
  rs_up := w_redis_up;
  rs_later u := Revocation.key_kept (Revocation.user_key u);
  rs_revoke := Revocation.revokeUser;
  rs_isRevoked := Revocation.isRevoked
|}.
Next Obligation.
  intros cfg u w. rewrite Revocation.revokeUser_run. eexists. split; [done|].
  unfold Revocation.revoked. by destruct (w_redis_up w).
Qed.
Next Obligation. intros cfg u w. rewrite Revocation.isRevoked_run. eauto. Qed.
Next Obligation.
  intros cfg u w w' w2 Hr Hup (Hk & Hn & Hu) Ht.
  rewrite Revocation.revokeUser_run in Hr. injection Hr as <-.
  rewrite Revocation.isRevoked_run. cbn in *.
  unfold Revocation.revoked in *. rewrite Hup in *. cbn in *.
  rewrite lookup_insert_eq in Hk. unfold redis_live. rewrite Hu, Hk, Hup.
  by rewrite (proj2 (Z.ltb_lt _ _) Ht).
Qed.
