(* ===== verification/Users.v ===== *)
(** UsersService (users/users.service.ts) and UsersController: accounts,
    e-mail normalisation, the failed-login counter and the lockout. *)
From S2P Require Import Prelude JsLib Crypto Schema Effects Platform Config.

Module Users.
Definition normalizeEmail (email : string) : string := Str.toLowerCase (Str.trim email).

(** The columns of [data] with the schema's defaults for the others. *)
Definition new_user (id email fullName passwordHash : string) (phone : option string)
    (role : role) (dir lf : bool) (now : Z) : user :=
  Mk_user id email fullName passwordHash phone role UserActive dir lf None None false None
    0 None None now None 100.

Section users.
Context {cfg : config} `{Entropy}.

Definition findByEmail (email : string) : M (option user) :=
  db_find_by T_users (λ u, seq_b (u_email u) (normalizeEmail email)).
Definition findById (id : string) : M (option user) := db_find T_users id.

Definition create (email fullName passwordHash : string) (phone : option string) : M user :=
  id ← random_uuid; now ← date_now;
  db_create T_users id
    (new_user id (normalizeEmail email) fullName passwordHash phone USER false false now).

(** A field left out of the body keeps its value. *)
Definition updateProfile (id : string) (fullName phone : option string) : M user :=
  db_update T_users id (λ u,
    set_u_phone (match phone with Some p => Some p | None => u_phone u end)
      (set_u_fullName (fullName ifnull u_fullName u) u)).
Definition markEmailVerified (id : string) : M user :=
  now ← date_now; db_update T_users id (set_u_emailVerifiedAt (Some now)).
Definition updatePasswordHash (id passwordHash : string) : M user :=
  db_update T_users id (set_u_passwordHash passwordHash).
Definition updateLastLogin (id : string) : M user :=
  now ← date_now; db_update T_users id (set_u_lastLoginAt (Some now)).

Definition isLocked (now : Z) (u : user) : bool :=
  match u_lockedUntil u with Some t => now <? t | None => false end.

(** The result is [locked]. *)
Definition registerFailedLogin (id : string) : M bool :=
  u ← db_update T_users id (λ u, set_u_failedLoginCount (u_failedLoginCount u + 1) u);
  if LOGIN_MAX_ATTEMPTS cfg <=? u_failedLoginCount u then
    now ← date_now;
    _ ← db_update T_users id (λ u,
          set_u_lockedUntil (Some (now + LOGIN_LOCKOUT_MINUTES cfg * 60000))
            (set_u_failedLoginCount 0 u));
    mret true
  else mret false.
Definition resetFailedLogins (id : string) : M unit :=
  _ ← db_update T_users id (λ u, set_u_lockedUntil None (set_u_failedLoginCount 0 u));
  mret tt.

Definition setTwoFactorSecret (id encryptedSecret : string) : M unit :=
  _ ← db_update T_users id (set_u_twoFactorSecret (Some encryptedSecret)); mret tt.
Definition enableTwoFactor (id : string) : M unit :=
  _ ← db_update T_users id (set_u_twoFactorEnabled true); mret tt.
Definition disableTwoFactor (id : string) : M unit :=
  _ ← db_update T_users id (λ u, set_u_twoFactorSecret None (set_u_twoFactorEnabled false u));
  mret tt.

(** The controller: [GET/PATCH /users/me]. *)
Record profile := Profile {
  p_id : string; p_email : string; p_fullName : string; p_phone : option string;
  p_emailVerified : bool
}.
Definition toProfile (u : user) : profile :=
  Profile (u_id u) (u_email u) (u_fullName u) (u_phone u)
    (bool_decide (u_emailVerifiedAt u ≠ None)).
Definition getMe (sub : string) : M profile :=
  r ← findById sub;
  match r with None => NotFound "User not found" | Some u => mret (toProfile u) end.
Definition patchMe (sub : string) (fullName phone : option string) : M profile :=
  u ← updateProfile sub fullName phone; mret (toProfile u).
End users.

(** ** The tables of a world with one user row replaced *)
Definition set_users (m : gmap string user) (w : world) : world :=
  put_db (set_db_users m (w_db w)) w.
Definition user_of (w : world) (id : string) : option user := db_users (w_db w) !! id.

Lemma update_run id f w u :
  user_of w id = Some u →
  db_update T_users id f w = (Ok (f u), set_users (<[id := f u]> (db_users (w_db w))) w).
Proof. unfold user_of, db_update. cbn. by intros ->. Qed.
Lemma user_of_set id u w :
  user_of (set_users (<[id := u]> (db_users (w_db w))) w) id = Some u.
Proof. unfold user_of, set_users. cbn. by rewrite lookup_insert_eq. Qed.
Lemma set_users_twice id u v w :
  set_users (<[id := v]> (db_users (w_db (set_users (<[id := u]> (db_users (w_db w))) w))))
    (set_users (<[id := u]> (db_users (w_db w))) w)
  = set_users (<[id := v]> (db_users (w_db w))) w.
Proof. unfold set_users. cbn. by rewrite insert_insert_eq. Qed.

Lemma user_exists_of w id u : user_of w id = Some u → user_exists (w_db w) id = true.
Proof. unfold user_of, user_exists, exists_in. intros ->. by apply bool_decide_eq_true_2. Qed.

(** The row after a failed password check. *)
Definition failed {cfg : config} (now : Z) (u : user) : user :=
  if LOGIN_MAX_ATTEMPTS cfg <=? u_failedLoginCount u + 1
  then set_u_lockedUntil (Some (now + LOGIN_LOCKOUT_MINUTES cfg * 60000))
         (set_u_failedLoginCount 0 u)
  else set_u_failedLoginCount (u_failedLoginCount u + 1) u.

Lemma registerFailedLogin_run {cfg : config} id w u :
  user_of w id = Some u →
  registerFailedLogin id w =
    (Ok (LOGIN_MAX_ATTEMPTS cfg <=? u_failedLoginCount u + 1),
     set_users (<[id := failed (w_now w) u]> (db_users (w_db w))) w).
Proof.
  intros Hu. unfold registerFailedLogin, failed. rewrite run_bind, (update_run _ _ _ _ Hu).
  cbn [u_failedLoginCount set_u_failedLoginCount]. case_match eqn:E; [|done].
  rewrite run_bind. unfold date_now, gets. rewrite run_bind.
  rewrite (update_run _ _ _ _ (user_of_set _ _ _)), set_users_twice. done.
Qed.

Lemma resetFailedLogins_run id w u :
  user_of w id = Some u →
  resetFailedLogins id w =
    (Ok tt, set_users (<[id := set_u_lockedUntil None (set_u_failedLoginCount 0 u)]>
                         (db_users (w_db w))) w).
Proof. intros Hu. unfold resetFailedLogins. by rewrite run_bind, (update_run _ _ _ _ Hu). Qed.

(** ** Normalisation *)
Lemma lower_char_idem c : Str.lower_char (Str.lower_char c) = Str.lower_char c.
Proof. by destruct c as [[] [] [] [] [] [] [] []]. Qed.
Lemma lower_char_space c : Str.is_space (Str.lower_char c) = Str.is_space c.
Proof. by destruct c as [[] [] [] [] [] [] [] []]. Qed.
Lemma smap_idem s : Str.smap Str.lower_char (Str.smap Str.lower_char s) = Str.smap Str.lower_char s.
Proof. induction s as [|c s IH]; cbn; [done|]. by rewrite lower_char_idem, IH. Qed.
Lemma trimStart_smap s :
  Str.trimStart (Str.smap Str.lower_char s) = Str.smap Str.lower_char (Str.trimStart s).
Proof. induction s as [|c s IH]; cbn; [done|]. rewrite lower_char_space. by destruct (Str.is_space c). Qed.
Lemma trimEnd_smap s :
  Str.trimEnd (Str.smap Str.lower_char s) = Str.smap Str.lower_char (Str.trimEnd s).
Proof.
  induction s as [|c s IH]; cbn; [done|]. rewrite IH.
  destruct (Str.trimEnd s); cbn; [|done]. rewrite lower_char_space.
  by destruct (Str.is_space c).
Qed.
Lemma trimEnd_idem s : Str.trimEnd (Str.trimEnd s) = Str.trimEnd s.
Proof.
  induction s as [|c s IH]; cbn; [done|].
  destruct (Str.trimEnd s) as [|d t] eqn:E; cbn in *.
  - destruct (Str.is_space c) eqn:Hc; cbn; by rewrite ?Hc.
  - by rewrite IH.
Qed.
Lemma trimStart_trimEnd s : Str.trimStart (Str.trimEnd (Str.trimStart s)) = Str.trimEnd (Str.trimStart s).
Proof.
  induction s as [|c s IH]; cbn; [done|].
  destruct (Str.is_space c) eqn:Hc; [done|]. cbn.
  destruct (Str.trimEnd s); cbn; rewrite ?Hc; cbn; by rewrite ?Hc.
Qed.
Lemma normalizeEmail_idem s : normalizeEmail (normalizeEmail s) = normalizeEmail s.
Proof.
  unfold normalizeEmail, Str.trim, Str.toLowerCase.
  by rewrite trimStart_smap, trimEnd_smap, trimStart_trimEnd, trimEnd_idem, smap_idem.
Qed.
End Users.
#[global] Arguments Users.set_users : simpl never.
#[global] Arguments Users.user_of : simpl never.

(** Accounts are never removed: the ids in use only grow. *)
Definition users_grow (w w' : world) : Prop :=
  ∀ id, is_Some (db_users (w_db w) !! id) → is_Some (db_users (w_db w') !! id).
#[export] Instance users_grow_preorder : PreOrder users_grow.
Proof. split; unfold users_grow; [by intros w id|intros w1 w2 w3; naive_solver]. Qed.
Lemma users_grow_eq w w' : db_users (w_db w') = db_users (w_db w) → users_grow w w'.
Proof. unfold users_grow. by intros ->. Qed.
#[export] Hint Extern 1 (users_grow _ _) => apply users_grow_eq; reflexivity : presh.
Lemma insert_users_grow k u w : users_grow w (put_rows T_users (<[k := u]> (db_users (w_db w))) w).
Proof.
  intros id Hid. cbn. destruct (decide (id = k)) as [->|];
    [rewrite lookup_insert_eq; by eexists|by rewrite lookup_insert_ne].
Qed.
Lemma update_users_grow k f : respects users_grow (db_update T_users k f).
Proof.
  intros w. destruct (db_update _ _ _ w) as [[r|e] w'] eqn:E.
  - apply db_update_inv in E as (r0 & _ & _ & ->). apply insert_users_grow.
  - by apply db_update_err in E as [-> _].
Qed.
Lemma update_indexed_users_grow k f : respects users_grow (db_update_indexed T_users k f).
Proof.
  intros w. destruct (db_update_indexed _ _ _ w) as [[r|e] w'] eqn:E.
  - apply db_update_indexed_inv in E as (r0 & _ & _ & _ & ->). apply insert_users_grow.
  - by apply db_update_indexed_err in E as ->.
Qed.
Lemma create_users_grow k u : respects users_grow (db_create T_users k u).
Proof.
  intros w. destruct (db_create _ _ _ w) as [[r|e] w'] eqn:E.
  - apply db_create_inv in E as (_ & _ & _ & _ & ->). apply insert_users_grow.
  - by apply db_create_err in E as ->.
Qed.
Lemma update_many_users_grow P f : respects users_grow (db_update_many T_users P f).
Proof. intros w id [u Hu]. cbn. rewrite lookup_update_where, Hu. by eexists. Qed.
#[export] Hint Resolve update_users_grow update_indexed_users_grow create_users_grow
  update_many_users_grow : steph.
