(* ===== verification/Sessions.v ===== *)
(** Sessions and devices (sessions/): refresh-token sessions and their cap,
    the device registry and the trusted-device cap, the login risk score,
    and the description of a request's client (common/device, common/geoip). *)
From S2P Require Import Prelude JsLib Crypto Schema Effects Platform Config Tokens.

(** ** Device description and geolocation *)

(** ua-parser-js: browser name and version, OS name, device type. *)
Class UAParser := {
  ua_parse : string → option string * option string * option string * option string
}.
(** geoip-lite: country, city, timezone. *)
Class GeoipLite := { geoip_lookup : string → option (string * string * string) }.

Module Client.
Record DeviceDescriptor := Descriptor {
  dd_browserName : option string; dd_browserVersion : option string;
  dd_os : option string; dd_deviceType : option string
}.
Definition describeUserAgent `{UAParser} (userAgent : option string) : DeviceDescriptor :=
  if Str.opt_truthy userAgent then
    let '(name, version, os, device) := ua_parse (userAgent ifnull EmptyString) in
    Descriptor name version os (Some (device ifnull "desktop"))
  else Descriptor None None None None.
Definition hashDeviceId (rawDeviceId : string) : string := sha256_hex rawDeviceId.

Record GeoLocation := Geo { geo_country : string; geo_city : option string; geo_timezone : option string }.
Definition or_null (s : string) : option string := if Str.nonempty s then Some s else None.
(** [GeoipService.lookup]. *)
Definition lookup `{GeoipLite} (ipAddress : option string) : option GeoLocation :=
  match ipAddress with
  | None => None
  | Some ip =>
      if Str.nonempty ip then
        let normalized :=
          if seq_b ip "::1" then "127.0.0.1" else Str.strip_prefix "::ffff:" ip in
        match geoip_lookup normalized with
        | None => None
        | Some (country, city, timezone) => Some (Geo country (or_null city) (or_null timezone))
        end
      else None
  end.
End Client.

(** ** SessionsService *)
Module Sessions.
(** [CreateSessionInput]. *)
Record input := Input {
  in_userId : string; in_deviceId : option string; in_ipAddress : option string;
  in_country : option string; in_city : option string; in_timezone : option string;
  in_riskScore : option Z; in_riskSignals : option json
}.
(** A session that still grants refreshes at time [now]. *)
Definition active (now : Z) (s : session) : bool :=
  bool_decide (s_revokedAt s = None) && (now <? s_expiresAt s).
Definition active_of (now : Z) (userId : string) (s : session) : bool :=
  seq_b (s_userId s) userId && active now s.
Definition unrevoked_of (userId : string) (s : session) : bool :=
  seq_b (s_userId s) userId && bool_decide (s_revokedAt s = None).

Section sessions.
Context {cfg : config} `{Entropy}.

Definition enforceLimit (userId : string) : M unit :=
  now ← date_now;
  rows ← db_find_many T_sessions (active_of now userId);
  let active := order_asc s_createdAt rows in
  let overBy := Z.of_nat (length active) - MAX_TRUSTED_DEVICES cfg + 1 in
  if overBy <=? 0 then mret tt
  else
    let ids := s_id <$> take (Z.to_nat overBy) active in
    _ ← db_update_many T_sessions (λ s, bool_decide (s_id s ∈ ids)) (set_s_revokedAt (Some now));
    mret tt.

Definition create (i : input) : M (string * session) :=
  rawToken ← Tokens.generateOpaqueToken;
  now ← date_now;
  id ← random_uuid;
  s ← db_create T_sessions id
    (Mk_session id (in_userId i) (in_deviceId i) (Tokens.hash rawToken) (in_ipAddress i)
       (in_country i) (in_city i) (in_timezone i) (in_riskScore i ifnull 0)
       (in_riskSignals i) None now now (now + REFRESH_TOKEN_EXPIRY_DAYS cfg * 86400000) None);
  mret (rawToken, s).

Definition findActiveByRawToken (rawToken : string) : M (option session) :=
  now ← date_now;
  db_find_by T_sessions (λ s, seq_b (s_tokenHash s) (Tokens.hash rawToken) && active now s).
Definition findAnyByRawToken (rawToken : string) : M (option session) :=
  db_find_by T_sessions (λ s, seq_b (s_tokenHash s) (Tokens.hash rawToken)).
Definition findById (id : string) : M (option session) := db_find T_sessions id.

Definition rotate (old : session) (ipAddress : option string) : M (string * session) :=
  rs ← create (Input (s_userId old) (s_deviceId old) ipAddress None None None None None);
  now ← date_now;
  _ ← db_update T_sessions (s_id old) (λ s,
        set_s_replacedByTokenId (Some (s_id rs.2)) (set_s_revokedAt (Some now) s));
  mret rs.
Definition revoke (sessionId : string) : M unit :=
  now ← date_now; _ ← db_update T_sessions sessionId (set_s_revokedAt (Some now)); mret tt.
Definition revokeAllForUser (userId : string) : M unit :=
  now ← date_now;
  _ ← db_update_many T_sessions (unrevoked_of userId) (set_s_revokedAt (Some now)); mret tt.
Definition touchActivity (sessionId : string) : M unit :=
  now ← date_now; _ ← db_update T_sessions sessionId (set_s_lastActivityAt now); mret tt.

(** What a session list shows: never the token hash. *)
Record session_view := SessionView {
  sv_id : string; sv_deviceId : option string; sv_ipAddress : option string;
  sv_country : option string; sv_city : option string; sv_timezone : option string;
  sv_createdAt : Z; sv_lastActivityAt : Z; sv_expiresAt : Z;
  sv_device : option (string * option string * bool)
}.
Definition view (devices : gmap string device) (s : session) : session_view :=
  SessionView (s_id s) (s_deviceId s) (s_ipAddress s) (s_country s) (s_city s) (s_timezone s)
    (s_createdAt s) (s_lastActivityAt s) (s_expiresAt s)
    (d ← (s_deviceId s ≫= λ k, devices !! k);
     Some (d_id d, d_browserName d, d_isTrusted d)).
Definition listActiveForUser (userId : string) : M (list session_view) :=
  rows ← db_find_many T_sessions (unrevoked_of userId);
  ds ← db_all T_devices;
  mret (view ds <$> order_desc s_lastActivityAt rows).
End sessions.

(** ** The sessions of a world *)
Definition table_of (w : world) : gmap string session := db_sessions (w_db w).
Definition set_sessions (m : gmap string session) (w : world) : world :=
  put_db (set_db_sessions m (w_db w)) w.
(** Sessions of [userId] that can still be refreshed. *)
Definition live_count (w : world) (userId : string) : Z :=
  count_rows (active_of (w_now w) userId) (table_of w).

Section cap.
Context {cfg : config} `{Entropy}.

Lemma revoked_inactive now t u s : active_of now u (set_s_revokedAt (Some t) s) = false.
Proof. unfold active_of, active. cbn. by rewrite andb_false_r. Qed.

(** [enforceLimit] leaves [cap - 1] live sessions, or all of them when
    there are fewer. *)
Lemma enforceLimit_run u w :
  keyed s_id (table_of w) →
  ∃ m, enforceLimit u w = (Ok tt, set_sessions m w) ∧ keyed s_id m ∧
    count_rows (active_of (w_now w) u) m
    = Z.min (live_count w u) (Z.max 0 (MAX_TRUSTED_DEVICES cfg - 1)) ∧
    (∀ k s, m !! k = Some s → ∃ s0, table_of w !! k = Some s0 ∧
       (s = s0 ∨ s_userId s0 = u ∧ s = set_s_revokedAt (Some (w_now w)) s0)).
Proof.
  intros Hkey. unfold enforceLimit. rewrite run_bind. unfold date_now, gets at 1.
  rewrite run_bind. unfold db_find_many, gets at 1. cbn [t_get T_sessions].
  change (db_sessions (w_db w)) with (table_of w).
  set (P := active_of (w_now w) u). set (l := order_asc s_createdAt _).
  assert (Hlen : Z.of_nat (length l) = live_count w u).
  { unfold l, live_count. by rewrite order_asc_perm, (length_find_many s_id). }
  pose proof (count_rows_nonneg P (table_of w)) as Hnn. fold P in Hnn.
  unfold live_count in *. fold P in Hlen |- *.
  case_match eqn:E; unbool.
  - exists (table_of w). split_and!; [by destruct w as [[]]|done|lia|eauto].
  - set (ids := s_id <$> take _ l). rewrite run_bind. cbn.
    exists (update_where (λ s, bool_decide (s_id s ∈ ids)) (set_s_revokedAt (Some (w_now w)))
              (table_of w)).
    assert (Hin : ∀ k, k ∈ ids → k ∈ s_id <$> find_many P (table_of w)).
    { intros k Hk. unfold ids in Hk. apply list_elem_of_fmap in Hk as (x & -> & Hx).
      apply list_elem_of_fmap. exists x. split; [done|].
      rewrite <- (order_asc_perm s_createdAt). eapply elem_of_sublist; [exact Hx|apply sublist_take]. }
    split_and!; [done|by apply keyed_update_where| |].
    + rewrite count_update_ids; [|done|intros r; apply revoked_inactive| |].
      * unfold ids. rewrite length_fmap, length_take. unfold P in *. lia.
      * unfold ids. rewrite fmap_take.
        eapply sublist_NoDup; [|apply sublist_take]. unfold l.
        rewrite order_asc_perm. by apply NoDup_ids.
      * intros k Hk. apply (elem_of_ids s_id); auto.
    + intros k s Hs. destruct (lookup_update_where_Some _ _ _ _ _ Hs) as (r & Hr & ->).
      exists r. split; [done|]. case_bool_decide as Hk; [right|by left]. split; [|done].
      apply Hin, (elem_of_ids s_id) in Hk as [r' Hr']; [|done].
      rewrite (Hkey k r Hr) in Hr'. apply lookup_rows_Some in Hr' as [Hr' HP].
      rewrite Hr in Hr'. injection Hr' as <-. unfold P, active_of, seq_b in HP. unbool. done.
Qed.
End cap.
(** *** Creating and rotating *)
Section creating.
Context {cfg : config} `{Entropy}.

Definition fresh_session (id raw : string) (i : input) (now : Z) : session :=
  Mk_session id (in_userId i) (in_deviceId i) (Tokens.hash raw) (in_ipAddress i)
    (in_country i) (in_city i) (in_timezone i) (in_riskScore i ifnull 0)
    (in_riskSignals i) None now now (now + REFRESH_TOKEN_EXPIRY_DAYS cfg * 86400000) None.

(** The create call as one database write. *)
Lemma create_unfold i w :
  create i w =
  match db_create T_sessions (rand_uuid (S (w_tick w)))
          (fresh_session (rand_uuid (S (w_tick w))) (Tokens.token_at (w_tick w)) i (w_now w))
          (put_tick (S (S (w_tick w))) w) with
  | (Ok s, w') => (Ok (Tokens.token_at (w_tick w), s), w')
  | (Err e, w') => (Err e, w')
  end.
Proof. done. Qed.

(** A created session, read backwards. *)
Lemma create_inv i w raw s w' :
  create i w = (Ok (raw, s), w') →
  ∃ id, s = fresh_session id raw i (w_now w) ∧ table_of w !! id = None ∧
    raw = Tokens.token_at (w_tick w) ∧
    w' = set_sessions (<[id := s]> (table_of w)) (put_tick (S (S (w_tick w))) w).
Proof.
  rewrite create_unfold. destruct (db_create _ _ _ _) as [[r|e] w1] eqn:E; [|by intros [=]].
  apply db_create_inv in E as (-> & Hid & _ & _ & ->). intros [= <- <- <-].
  eexists. by split_and!.
Qed.
Lemma create_err i w e w' :
  create i w = (Err e, w') → w_db w' = w_db w ∧ w_now w' = w_now w.
Proof.
  rewrite create_unfold. destruct (db_create _ _ _ _) as [[r|e'] w1] eqn:E; [by intros [=]|].
  apply db_create_err in E as ->. by intros [= <- <-].
Qed.

(** Rotation of a stored session: the successor is live, the old one names it
    and is revoked. *)
Lemma rotate_inv old ip w raw s w' :
  table_of w !! s_id old = Some old →
  rotate old ip w = (Ok (raw, s), w') →
  ∃ id, s = fresh_session id raw (Input (s_userId old) (s_deviceId old) ip None None None None None)
              (w_now w) ∧
    table_of w !! id = None ∧ raw = Tokens.token_at (w_tick w) ∧
    w' = set_sessions
           (<[s_id old := set_s_replacedByTokenId (Some id) (set_s_revokedAt (Some (w_now w)) old)]>
             (<[id := s]> (table_of w))) (put_tick (S (S (w_tick w))) w).
Proof.
  intros Hold Hr. unfold rotate in Hr. rewrite run_bind in Hr.
  destruct (create _ w) as [[[raw0 s0]|e] w1] eqn:Hc; [|done].
  apply create_inv in Hc as (id & -> & Hid & -> & ->).
  unfold date_now, gets in Hr. rewrite run_bind in Hr. cbn -[Tokens.token_at] in Hr.
  rewrite run_bind in Hr. unfold db_update in Hr. cbn -[Tokens.token_at] in Hr.
  rewrite lookup_insert_ne in Hr by (intros ->; by rewrite Hold in Hid).
  change (db_sessions (w_db w)) with (table_of w) in Hr. rewrite Hold in Hr. cbn -[Tokens.token_at] in Hr.
  injection Hr as <- <- <-. exists id. split_and!; try done.
Qed.
Lemma rotate_err old ip w e w' :
  table_of w !! s_id old = Some old →
  rotate old ip w = (Err e, w') → w_db w' = w_db w ∧ w_now w' = w_now w.
Proof.
  intros Hold Hr. unfold rotate in Hr. rewrite run_bind in Hr.
  destruct (create _ w) as [[[raw0 s0]|e0] w1] eqn:Hc; [|simplify_eq; by eapply create_err].
  apply create_inv in Hc as (id & -> & Hid & -> & ->).
  unfold date_now, gets in Hr. rewrite run_bind in Hr. cbn -[Tokens.token_at] in Hr.
  rewrite run_bind in Hr. unfold db_update in Hr. cbn -[Tokens.token_at] in Hr.
  rewrite lookup_insert_ne in Hr by (intros ->; by rewrite Hold in Hid).
  change (db_sessions (w_db w)) with (table_of w) in Hr. by rewrite Hold in Hr.
Qed.
End creating.
End Sessions.

(** ** DevicesService *)
Module Devices.
(** What a device list shows: never the fingerprint. *)
Record device_view := DeviceView {
  dv_id : string; dv_browserName : option string; dv_browserVersion : option string;
  dv_os : option string; dv_deviceType : option string; dv_isTrusted : bool;
  dv_trustedAt : option Z; dv_firstSeenAt : Z; dv_lastSeenAt : Z
}.
Definition view (d : device) : device_view :=
  DeviceView (d_id d) (d_browserName d) (d_browserVersion d) (d_os d) (d_deviceType d)
    (d_isTrusted d) (d_trustedAt d) (d_firstSeenAt d) (d_lastSeenAt d).
Definition of_user (userId : string) (d : device) : bool := seq_b (d_userId d) userId.
Definition trusted_of (userId : string) (d : device) : bool := of_user userId d && d_isTrusted d.

(** Deleting a device row: [Session.deviceId] is [onDelete: SetNull]. *)
Definition delete_device (id : string) : M unit :=
  _ ← db_delete T_devices id;
  _ ← db_update_many T_sessions (λ s, bool_decide (s_deviceId s = Some id)) (set_s_deviceId None);
  mret tt.

Section devices.
Context {cfg : config} `{Entropy}.

(** The second component is [isNew]. *)
Definition findOrCreateDevice (userId fingerprint : string) (d : Client.DeviceDescriptor)
    : M (device * bool) :=
  existing ← db_find_by T_devices (λ x, of_user userId x && seq_b (d_fingerprint x) fingerprint);
  now ← date_now;
  match existing with
  | Some e => x ← db_update T_devices (d_id e) (set_d_lastSeenAt now); mret (x, false)
  | None =>
      id ← random_uuid;
      x ← db_create T_devices id
        (Mk_device id userId fingerprint (Client.dd_browserName d) (Client.dd_browserVersion d)
           (Client.dd_os d) (Client.dd_deviceType d) false None now now);
      mret (x, true)
  end.
Definition listForUser (userId : string) : M (list device_view) :=
  rows ← db_find_many T_devices (of_user userId);
  mret (view <$> order_desc d_lastSeenAt rows).
Definition findById (id : string) : M (option device) := db_find T_devices id.
Definition countTrusted (userId : string) : M Z := db_count T_devices (trusted_of userId).

Definition trust (userId deviceId : string) : M device_view :=
  o ← db_find T_devices deviceId;
  match o with
  | None => NotFound "Device not found"
  | Some d =>
      if negb (of_user userId d) then NotFound "Device not found"
      else
        trustedCount ← db_count T_devices (trusted_of userId);
        if MAX_TRUSTED_DEVICES cfg <=? trustedCount then
          Forbidden ("You can have at most " +:+ pretty (MAX_TRUSTED_DEVICES cfg)
                     +:+ " trusted devices. Remove one first.")
        else
          now ← date_now;
          d ← db_update T_devices deviceId (λ d, set_d_trustedAt (Some now) (set_d_isTrusted true d));
          mret (view d)
  end.

Definition remove (userId deviceId : string) : M unit :=
  o ← db_find T_devices deviceId;
  match o with
  | None => NotFound "Device not found"
  | Some d =>
      if negb (of_user userId d) then NotFound "Device not found"
      else
        now ← date_now;
        transaction (
          _ ← db_update_many T_sessions
                (λ s, bool_decide (s_deviceId s = Some deviceId)
                      && bool_decide (s_revokedAt s = None))
                (set_s_revokedAt (Some now));
          delete_device deviceId)
  end.
End devices.
End Devices.

(** ** RiskService *)
Module Risk.
Definition RECENT_SESSIONS_LOOKBACK : nat := 5.
Definition IMPOSSIBLE_TRAVEL_WINDOW_MS : Z := 60 * 60 * 1000.

Record assessment := Assessment { ra_score : Z; ra_signals : list (string * json) }.

(** The distinct values in order of first appearance: [new Set(l)]. *)
Fixpoint distinct (l : list string) : list string :=
  match l with
  | [] => []
  | x :: l => x :: filter (λ y, y ≠ x) (distinct l)
  end.
(** [Math.round(ms / 60000)]. *)
Definition round_minutes (ms : Z) : Z := (2 * ms + 60000) / 120000.

Definition new_country (country : string) (recent : list session) : option (list string) :=
  let known := distinct (omap s_country recent) in
  if (0 <? length known)%nat && negb (bool_decide (country ∈ known)) then Some known else None.
Definition impossible_travel (now : Z) (country : string) (mostRecent : session) : option (string * Z) :=
  match s_country mostRecent with
  | Some from =>
      if Str.nonempty from && negb (seq_b from country)
         && (now - s_createdAt mostRecent <? IMPOSSIBLE_TRAVEL_WINDOW_MS)
      then Some (from, round_minutes (now - s_createdAt mostRecent)) else None
  | None => None
  end.

Section score.
Variables (isNewDevice : bool) (country : option string) (failedLoginCount now : Z).
(** [recent]: the latest sessions, newest first. *)
Variable recent : list session.

Definition device_part : Z * list (string * json) :=
  if isNewDevice then (30, [("newDevice", JBool true)]) else (0, []).
Definition country_part : Z * list (string * json) :=
  match country, recent with
  | Some c, mostRecent :: _ =>
      if Str.nonempty c then
        let '(s1, g1) :=
          match new_country c recent with
          | Some known => (25, [("newCountry", JObj [("country", JStr c);
                                   ("knownCountries", JArr (JStr <$> known))])])
          | None => (0, [])
          end in
        let '(s2, g2) :=
          match impossible_travel now c mostRecent with
          | Some (from, minutes) =>
              (50, [("impossibleTravel", JObj [("fromCountry", JStr from);
                      ("toCountry", JStr c); ("minutesSinceLastLogin", JNum minutes)])])
          | None => (0, [])
          end in
        (s1 + s2, g1 ++ g2)
      else (0, [])
  | _, _ => (0, [])
  end.
Definition failures_part : Z * list (string * json) :=
  if 0 <? failedLoginCount then
    (Z.min (failedLoginCount * 5) 20, [("recentFailedLogins", JNum failedLoginCount)])
  else (0, []).
Definition score : assessment :=
  Assessment (fst device_part + fst country_part + fst failures_part)
    (snd device_part ++ snd country_part ++ snd failures_part).

(** Without a failed login the score cannot pass 105, with failures 125. *)
Lemma score_bounds :
  0 ≤ ra_score score ≤ 105 + (if 0 <? failedLoginCount then 20 else 0).
Proof.
  unfold score, device_part, country_part, failures_part. cbn.
  destruct isNewDevice, country, recent; cbn; repeat (case_match; simplify_eq/=); unbool; lia.
Qed.
End score.

Definition assess (userId : string) (isNewDevice : bool) (country : option string)
    (failedLoginCount : Z) : M assessment :=
  now ← date_now;
  rows ← db_find_many T_sessions (λ s, seq_b (s_userId s) userId);
  mret (score isNewDevice country failedLoginCount now
          (take RECENT_SESSIONS_LOOKBACK (order_desc s_createdAt rows))).
End Risk.
