(* ===== verification/Access.v ===== *)
(** The access policy (subscriptions/subscription-access.util.ts): which
    subscription states grant the product and the Lead Directory. *)
From S2P Require Import Prelude JsLib Schema Effects Platform Config.

Module Access.
(** [AccessCheckSubscription]: the status and the start of the past-due
    streak. *)
Definition hasActiveAccess (now : Z) (status : subscription_status) (pastDueSince : option Z)
    (gracePeriodDays : Z) : bool :=
  match status with
  | ACTIVE | TRIALING => true
  | PAST_DUE =>
      match pastDueSince with
      | None => true
      | Some t => now <? t + gracePeriodDays * 24 * 60 * 60 * 1000
      end
  | _ => false
  end.

Definition daysPastDue (now : Z) (pastDueSince : option Z) : option Z :=
  (λ t, Z.max 0 ((now - t) / (24 * 60 * 60 * 1000))) <$> pastDueSince.

Definition hasDirectoryAccess (now : Z) (status : subscription_status) (pastDueSince : option Z)
    (gracePeriodDays : Z) : bool :=
  hasActiveAccess now status pastDueSince gracePeriodDays || bool_decide (status = CANCELED).

(** The policy as a predicate. *)
Inductive entitled (now grace : Z) : subscription_status → option Z → Prop :=
| entitled_active p : entitled now grace ACTIVE p
| entitled_trial p : entitled now grace TRIALING p
| entitled_untracked : entitled now grace PAST_DUE None
| entitled_grace t : now < t + grace * Date.day → entitled now grace PAST_DUE (Some t).

Lemma grace_ms grace : grace * 24 * 60 * 60 * 1000 = grace * Date.day.
Proof. unfold Date.day, Date.hour, Date.minute. lia. Qed.

Lemma hasActiveAccess_spec now st p grace :
  hasActiveAccess now st p grace = true ↔ entitled now grace st p.
Proof.
  unfold hasActiveAccess. rewrite grace_ms. split.
  - destruct st; try done; eauto using entitled.
    destruct p; eauto using entitled. intros H%Z.ltb_lt. by constructor.
  - destruct 1; try done. by apply Z.ltb_lt.
Qed.

(** Access never comes back by waiting: time alone only removes it. *)
Lemma hasActiveAccess_antitone now now' st p grace :
  now ≤ now' → hasActiveAccess now' st p grace = true → hasActiveAccess now st p grace = true.
Proof.
  rewrite !hasActiveAccess_spec. intros Hle. destruct 1; eauto using entitled.
  constructor. lia.
Qed.

(** The days shown to the user agree with the decision: inside the grace
    period exactly while fewer than [grace] whole days are past due. *)
Lemma grace_by_days now t grace :
  0 < grace → t ≤ now →
  hasActiveAccess now PAST_DUE (Some t) grace = true ↔
  ∃ d, daysPastDue now (Some t) = Some d ∧ d < grace.
Proof.
  intros Hg Ht. rewrite hasActiveAccess_spec. unfold daysPastDue. cbn.
  change (24 * 60 * 60 * 1000) with Date.day.
  assert (0 < Date.day) as Hday by done.
  assert (0 ≤ (now - t) / Date.day) as Hnn by (apply Z.div_pos; lia). split.
  - intros H. inversion H; subst. eexists; split; [done|].
    rewrite Z.max_r by lia. apply Z.div_lt_upper_bound; lia.
  - intros (d & [= <-] & Hd). constructor. rewrite Z.max_r in Hd by lia.
    assert (now - t < Date.day * grace); [|lia].
    pose proof (Z.mul_succ_div_gt (now - t) Date.day Hday). nia.
Qed.

(** ** The live subscription of an account *)

Definition live_of (userId : string) (s : subscription) : bool :=
  seq_b (sub_userId s) userId && live_status (sub_status s).
Definition live_or_canceled_of (userId : string) (s : subscription) : bool :=
  seq_b (sub_userId s) userId && (live_status (sub_status s) || bool_decide (sub_status s = CANCELED)).

(** A status that grants access is live. *)
Lemma entitled_live now g st p : entitled now g st p → live_status st = true.
Proof. by destruct 1. Qed.

(** Two live rows of one user are the same row. *)
Lemma live_unique w userId k1 k2 s1 s2 :
  unique_ok T_subscriptions (db_subscriptions (w_db w)) →
  db_subscriptions (w_db w) !! k1 = Some s1 → db_subscriptions (w_db w) !! k2 = Some s2 →
  live_of userId s1 = true → live_of userId s2 = true → s1 = s2.
Proof.
  intros Hu H1 H2 L1 L2. destruct (decide (k1 = k2)) as [->|Hne]; [congruence|].
  specialize (Hu k1 k2 s1 s2 H1 H2 Hne). cbn in Hu. unfold live_of, seq_b in *.
  apply andb_true_iff in L1 as [U1 L1], L2 as [U2 L2]. apply bool_decide_eq_true in U1, U2.
  assert (sub_userId s1 = sub_userId s2) as E by congruence.
  rewrite (bool_decide_eq_true_2 _ E), L1, L2, orb_true_r in Hu. done.
Qed.

(** The table of subscriptions replaced. *)
Definition set_subs (m : gmap string subscription) (w : world) : world :=
  put_db (set_db_subscriptions m (w_db w)) w.
End Access.

(** The access decision is exactly the published policy: ACTIVE and
    TRIALING grant, PAST_DUE grants for [gracePeriodDays] days of 24 hours
    from the first failure (and while no failure time is recorded), CANCELED
    and EXPIRED do not; the Directory adds CANCELED; and within the grace
    period is the same as fewer than [gracePeriodDays] whole days past due. *)
Lemma access_policy now st p grace :
  (Access.hasActiveAccess now st p grace = true ↔ Access.entitled now grace st p) ∧
  (Access.hasDirectoryAccess now st p grace = true ↔
     Access.entitled now grace st p ∨ st = CANCELED) ∧
  (∀ t, p = Some t → st = PAST_DUE → 0 < grace → t ≤ now →
     Access.hasActiveAccess now st p grace = true ↔
     ∃ d, Access.daysPastDue now p = Some d ∧ d < grace).
Proof.
  split_and!.
  - apply Access.hasActiveAccess_spec.
  - unfold Access.hasDirectoryAccess.
    by rewrite orb_true_iff, Access.hasActiveAccess_spec, bool_decide_eq_true.
  - intros t -> ->. apply Access.grace_by_days.
Qed.
