(* ===== verification/Billing.v ===== *)
(** Billing (billing/): the Stripe API as a remote service, how its
    metadata is read, and StripeCustomerService with the race its conditional write
    resolves. *)
From S2P Require Import Prelude JsLib Crypto Schema Effects Platform Config Messaging Tokens Users.

(** A string read for its truthiness, and a metadata field. *)
Definition truthy (o : option string) : option string :=
  match o with Some v => if Str.nonempty v then Some v else None | None => None end.
Definition meta (m : gmap string string) (k : string) : option string := truthy (m !! k).

(** The Stripe API: each answer depends on the calls made so far, the
    current one included; any of them may fail. *)
Class StripeApi := {
  stripe_customer_id : list stripe_call → res string;
  stripe_session_url : list stripe_call → res (option string);
  stripe_portal_url : list stripe_call → res string;
  stripe_ack : list stripe_call → res unit;
  stripe_retrieve : list stripe_call → string → res stripe_sub
}.
Definition stripe_do {A} (answer : list stripe_call → res A) (c : stripe_call) : M A := λ w,
  let h := w_stripe w ++ [c] in (answer h, put_stripe h w).

Lemma respects_stripe_do {A} (R : world → world → Prop) (answer : list stripe_call → res A) c :
  (∀ h w, R w (put_stripe h w)) → respects R (stripe_do answer c).
Proof. intros HR w. apply HR. Qed.
#[export] Hint Extern 1 (respects _ (stripe_do _ _)) => apply respects_stripe_do; frame_side : steph.

(** [stripe.subscriptions.retrieve]: changes nothing at Stripe. *)
Definition stripe_read `{StripeApi} (id : string) : M stripe_sub := λ w,
  (stripe_retrieve (w_stripe w) id, w).
Lemma respects_stripe_read `{StripeApi} (R : world → world → Prop) `{!PreOrder R} id :
  respects R (stripe_read id).
Proof. intros w. cbn. reflexivity. Qed.
#[export] Hint Resolve respects_stripe_read : steph.

(** ** StripeCustomerService *)
Module StripeCustomer.
Section customer.
Context `{StripeApi}.

(** The three awaited steps of [getOrCreateStripeCustomer]. *)
Definition read (userId : string) : M (option string) :=
  o ← Users.findById userId;
  mret (match o with
        | Some u => match u_stripeCustomerId u with
                    | Some c => if Str.nonempty c then Some c else None
                    | None => None
                    end
        | None => None
        end).
Definition create (userId email name : string) : M string :=
  stripe_do stripe_customer_id (StripeCreateCustomer email name userId).
(** The conditional write, then the reading of the winner. *)
Definition commit (userId customer : string) : M string :=
  count ← db_update_many_indexed T_users
    (λ u, seq_b (u_id u) userId && bool_decide (u_stripeCustomerId u = None))
    (set_u_stripeCustomerId (Some customer));
  if count =? 0 then
    o ← read userId; mret (o ifnull customer)
  else mret customer.

Definition getOrCreateStripeCustomer (userId email name : string) : M string :=
  o ← read userId;
  match o with
  | Some c => mret c
  | None => c ← create userId email name; commit userId c
  end.
End customer.

(** ** The race

    Requests of the same user interleave at their awaits: a request is at
    its first read, waits for Stripe, holds a fresh customer, has answered,
    or has failed; a request that has answered nothing may start anew. *)
Inductive request := Start | Calling | Holding (customer : string) | Answered (customer : string) | Failed.

Section race.
Context `{StripeApi} (userId email name : string).

Definition request_step (r : request) (w : world) : option (request * world) :=
  match r with
  | Start =>
      match read userId w with
      | (Ok (Some c), w') => Some (Answered c, w')
      | (Ok None, w') => Some (Calling, w')
      | (Err _, w') => Some (Failed, w')
      end
  | Calling =>
      match create userId email name w with
      | (Ok c, w') => Some (Holding c, w')
      | (Err _, w') => Some (Failed, w')
      end
  | Holding c =>
      match commit userId c w with
      | (Ok c, w') => Some (Answered c, w')
      | (Err _, w') => Some (Failed, w')
      end
  | Answered _ | Failed => None
  end.

(** One request of the pool takes its next step. *)
Inductive pool_step : list request * world → list request * world → Prop :=
| pool_one l1 r l2 w r' w' :
    request_step r w = Some (r', w') → pool_step (l1 ++ r :: l2, w) (l1 ++ r' :: l2, w').

(** The row of the user and the ids held are proper. *)
Definition stored (w : world) : option string :=
  db_users (w_db w) !! userId ≫= u_stripeCustomerId.
Definition pool_ok (s : list request * world) : Prop :=
  keyed u_id (db_users (w_db s.2)) ∧
  is_Some (db_users (w_db s.2) !! userId) ∧
  (∀ c, stored s.2 = Some c → Str.nonempty c = true) ∧
  (∀ c, Holding c ∈ s.1 → Str.nonempty c = true) ∧
  (∀ c, Answered c ∈ s.1 → stored s.2 = Some c).

(** Stripe never returns an empty id. *)
Context (Hid : ∀ h c, stripe_customer_id h = Ok c → Str.nonempty c = true).

Lemma read_run w : keyed u_id (db_users (w_db w)) → is_Some (db_users (w_db w) !! userId) →
  (∀ c, stored w = Some c → Str.nonempty c = true) → read userId w = (Ok (stored w), w).
Proof.
  intros _ [u Hu] Hne. unfold read, Users.findById, db_find. rewrite run_bind. cbn.
  unfold stored in *. rewrite Hu in *. cbn in *.
  destruct (u_stripeCustomerId u) as [c|] eqn:E; [|done]. by rewrite (Hne c eq_refl).
Qed.

Lemma commit_run c w w' r :
  keyed u_id (db_users (w_db w)) → is_Some (db_users (w_db w) !! userId) →
  (∀ c, stored w = Some c → Str.nonempty c = true) → Str.nonempty c = true →
  commit userId c w = (r, w') →
  keyed u_id (db_users (w_db w')) ∧ is_Some (db_users (w_db w') !! userId) ∧
  (stored w' = stored w ∨ stored w = None ∧ stored w' = Some c) ∧
  (∀ c', r = Ok c' → stored w' = Some c').
Proof.
  intros Hk Hu Hne Hc. unfold commit. rewrite run_bind. unfold db_update_many_indexed.
  cbn [t_get t_set T_users]. set (P := λ u, _ && _). set (f := set_u_stripeCustomerId _).
  destruct (any_conflict _ _ _) eqn:Econf; [intros [= <- <-]; split_and!; [done|done|by left|intros ? [=]]|].
  set (m' := update_where P f (db_users (w_db w))).
  assert (Hk' : keyed u_id m') by by apply keyed_update_where.
  assert (Hu' : is_Some (m' !! userId)).
  { destruct Hu as [u Hu]. unfold m'. rewrite lookup_update_where, Hu. by eexists. }
  destruct Hu as [u Hu]. pose proof (Hk _ _ Hu) as Hid'.
  assert (Hst : stored (put_rows T_users m' w) =
                match stored w with None => Some c | s => s end).
  { unfold stored. cbn. unfold m'. rewrite lookup_update_where, Hu. cbn. unfold P, seq_b.
    rewrite Hid', bool_decide_eq_true_2 by done. cbn.
    destruct (u_stripeCustomerId u) eqn:E; cbn; [by rewrite E|done]. }
  destruct (_ =? 0) eqn:Ecount.
  - (* another request won *)
    destruct (stored w) as [c0|] eqn:Es; last first.
    { exfalso. apply Z.eqb_eq in Ecount.
      assert (Hin : rows P (db_users (w_db w)) !! userId = Some u).
      { apply lookup_rows_Some. split; [done|]. unfold P, seq_b. rewrite Hid'.
        rewrite !bool_decide_eq_true_2; [done| |done]. unfold stored in Es. by rewrite Hu in Es. }
      unfold count_rows in Ecount. assert (size (rows P (db_users (w_db w))) = 0%nat) as Hz by lia.
      apply map_size_empty_inv in Hz. by rewrite Hz in Hin. }
    rewrite run_bind, read_run; [|done|done|].
    2:{ intros d. rewrite Hst. intros [= <-]. by apply Hne. }
    cbn. rewrite Hst. cbn. intros [= <- <-]. split_and!; try done; [by left|].
    intros c' [= <-]. done.
  - intros [= <- <-]. split_and!; try done.
    + rewrite Hst. destruct (stored w); [by left|right; done].
    + intros c' [= <-]. rewrite Hst. destruct (stored w) as [c0|] eqn:Es; [|done].
      exfalso. apply Z.eqb_neq in Ecount. apply Ecount.
      unfold count_rows. replace (rows P (db_users (w_db w))) with (∅ : gmap string user); [done|].
      symmetry. apply map_empty. intros k. apply eq_None_not_Some. intros [x Hx].
      apply lookup_rows_Some in Hx as [Hx HP]. unfold P, seq_b in HP. unbool.
      pose proof (Hk _ _ Hx) as Hxid. unfold stored in Es.
      assert (k = userId) as -> by congruence. rewrite Hu in Hx, Es. by simplify_eq/=.
Qed.

(** Replacing one request of the pool. *)
Lemma pool_ok_replace l1 r l2 w r' w' :
  pool_ok (l1 ++ r :: l2, w) →
  keyed u_id (db_users (w_db w')) → is_Some (db_users (w_db w') !! userId) →
  (∀ c, stored w' = Some c → Str.nonempty c = true) →
  (∀ c, stored w = Some c → stored w' = Some c) →
  (∀ c, r' = Holding c → Str.nonempty c = true) →
  (∀ c, r' = Answered c → stored w' = Some c) →
  pool_ok (l1 ++ r' :: l2, w').
Proof.
  intros (_ & _ & _ & Hh & Ha) Hk Hu Hne Hst Hh' Ha'. unfold pool_ok. cbn [fst snd] in *.
  assert (Hold : ∀ x, x ∈ l1 ++ r' :: l2 → x = r' ∨ x ∈ l1 ++ r :: l2) by set_solver.
  split_and!; try done.
  - intros c [Hc|Hc]%Hold; [by apply Hh'|by apply Hh].
  - intros c [Hc|Hc]%Hold; [by apply Ha'|by apply Hst, Ha].
Qed.

Lemma pool_ok_step s s' : pool_ok s → pool_step s s' → pool_ok s'.
Proof.
  intros Hok Hs. destruct Hs as [l1 r l2 w r' w' Hr].
  pose proof Hok as (Hk & Hu & Hne & Hh & Ha). cbn [fst snd] in *.
  destruct r as [| |c|c|]; cbn in Hr; try done.
  - rewrite (read_run w Hk Hu Hne) in Hr.
    destruct (stored w) as [c|] eqn:Es; simplify_eq; eapply pool_ok_replace; eauto; naive_solver.
  - unfold create, stripe_do in Hr. cbn in Hr.
    destruct (stripe_customer_id _) as [c|] eqn:Ec; simplify_eq; eapply pool_ok_replace; eauto;
      naive_solver.
  - destruct (commit userId c w) as [o w1] eqn:Ec.
    destruct (commit_run _ _ _ _ Hk Hu Hne (Hh c ltac:(set_solver)) Ec) as (Hk' & Hu' & Hst & Hans).
    assert (Hc : Str.nonempty c = true) by (apply Hh; set_solver).
    destruct o as [d|e]; simplify_eq; eapply pool_ok_replace; eauto; naive_solver congruence.
Qed.
End race.
End StripeCustomer.

(** C9. However many requests of one user race through
    [getOrCreateStripeCustomer], in whatever interleaving of their awaits and
    with whatever failures of Stripe or of the database, all requests that
    answer give the same customer, and it is the one stored on the account. *)
Theorem customer_race `{StripeApi} userId email name w0 (n : nat) rs w :
  (∀ h c, stripe_customer_id h = Ok c → Str.nonempty c = true) →
  keyed u_id (db_users (w_db w0)) → is_Some (db_users (w_db w0) !! userId) →
  (∀ c, StripeCustomer.stored userId w0 = Some c → Str.nonempty c = true) →
  star (StripeCustomer.pool_step userId email name) (replicate n StripeCustomer.Start, w0) (rs, w) →
  ∀ c1 c2, StripeCustomer.Answered c1 ∈ rs → StripeCustomer.Answered c2 ∈ rs →
    c1 = c2 ∧ StripeCustomer.stored userId w = Some c1.
Proof.
  intros Hid Hk Hu Hne Hstar c1 c2 H1 H2.
  assert (StripeCustomer.pool_ok userId (rs, w)) as (_ & _ & _ & _ & Ha).
  { eapply (star_invariant _ (StripeCustomer.pool_ok userId)); [|exact Hstar|].
    - intros s s'. by apply StripeCustomer.pool_ok_step.
    - unfold StripeCustomer.pool_ok. split_and!; cbn [fst snd]; auto;
        intros c Hc; apply elem_of_replicate in Hc as [Hc _]; done. }
  cbn in Ha. pose proof (Ha c1 H1) as E1. pose proof (Ha c2 H2) as E2.
  split; congruence.
Qed.

(** A Stripe that always answers, numbering its objects by the calls made. *)
Definition counting_stripe : StripeApi := {|
  stripe_customer_id h := Ok ("cus_" +:+ pretty (length h));
  stripe_session_url h := Ok (Some ("https://checkout/" +:+ pretty (length h)));
  stripe_portal_url h := Ok "https://portal";
  stripe_ack h := Ok tt;
  stripe_retrieve h id := Ok (StripeSub id "cus_1" st_active ∅ [(0, 0)] false None)
|}.

Section witness.
#[local] Existing Instance counting_stripe.
Definition race_user : user :=
  Users.new_user "u1" "ann@example.com" "Ann" "hash" None USER false false 0.
Definition race_world : world :=
  Users.set_users {[ "u1" := race_user ]} (initial_world 0).
Import StripeCustomer.
(** Two requests both read no customer, both create one, both commit. *)
Definition race_end : list request * world :=
  let run r w := match request_step "u1" "ann@example.com" "Ann" r w with Some x => x | None => (r, w) end in
  let '(a, w) := run Start race_world in
  let '(b, w) := run Start w in
  let '(a, w) := run a w in
  let '(b, w) := run b w in
  let '(b, w) := run b w in
  let '(a, w) := run a w in
  ([a; b], w).
Lemma race_run : star (pool_step "u1" "ann@example.com" "Ann") ([Start; Start], race_world) race_end.
Proof.
  eapply star_next; [apply (pool_one _ _ _ [] Start [Start]); reflexivity|].
  eapply star_next; [apply (pool_one _ _ _ [Calling] Start []); reflexivity|].
  eapply star_next; [apply (pool_one _ _ _ [] Calling [Calling]); reflexivity|].
  eapply star_next; [apply (pool_one _ _ _ [Holding _] Calling []); reflexivity|].
  eapply star_next; [apply (pool_one _ _ _ [Holding _] (Holding _) []); vm_compute; reflexivity|].
  eapply star_next; [apply (pool_one _ _ _ [] (Holding _) [Answered _]); vm_compute; reflexivity|].
  apply star_here.
Qed.
Lemma customer_race_witness :
  race_end.1 = [Answered "cus_2"; Answered "cus_2"] ∧
  stored "u1" race_end.2 = Some "cus_2".
Proof.
  assert (E : race_end.1 = [Answered "cus_2"; Answered "cus_2"]) by (vm_compute; reflexivity).
  split; [exact E|].
  refine (proj2 (customer_race "u1" "ann@example.com" "Ann" race_world 2 race_end.1 race_end.2
    _ _ _ _ _ "cus_2" "cus_2" _ _)).
  - intros h c [= <-]. reflexivity.
  - intros k s Hs. change (({[ "u1" := race_user ]} : gmap string user) !! k = Some s) in Hs.
    apply lookup_singleton_Some in Hs as [<- <-]. reflexivity.
  - exists race_user. reflexivity.
  - intros c Hc. discriminate Hc.
  - rewrite <- surjective_pairing. exact race_run.
  - rewrite E. by left.
  - rewrite E. by left.
Defined.
End witness.
