(* ===== verification/Auth.v ===== *)
(** AuthService (auth/auth.service.ts): registration, login with new-device
    challenges, refresh-token rotation with reuse detection, password reset,
    two-factor authentication, devices, data export and account erasure.
    Password hashing, JWTs, TOTP and QR codes are third-party parameters. *)
From S2P Require Import Prelude JsLib Crypto Schema Effects Platform Config Messaging Tokens Revocation Users Sessions Billing.

(** ** Third-party code *)

(** argon2: [hash] draws a salt; [verify] may reject (a malformed hash). *)
Class Argon2 := {
  argon2_hash : nat → string → string;
  argon2_verify : string → string → option bool
}.
(** otplib and qrcode. *)
Class Totp := {
  totp_secret : nat → string;
  totp_uri : string → string → string → string;
  totp_verify : string → string → Z → res bool;
  qr_dataURL : string → res string
}.

(** The two payloads the service signs (auth/types/jwt-payload.interface.ts). *)
Inductive challenge_method := EMAIL_CODE | TOTP.
#[export] Instance challenge_method_eq_dec : EqDecision challenge_method.
Proof. solve_decision. Defined.
Inductive jwt_payload :=
| AccessToken (sub email : string) (r : role) (impersonatedBy : option string)
| LoginChallenge (sub deviceId : string) (method : challenge_method) (codeHash : option string).
(** jsonwebtoken: [sign payload iat exp], [verify token now], in seconds. *)
Class Jwt := {
  jwt_sign : jwt_payload → Z → Z → string;
  jwt_verify : string → Z → option jwt_payload
}.
(** A signed token verifies to its payload until it expires. *)
Definition jwt_correct `(Jwt) : Prop :=
  ∀ p iat exp t, jwt_verify (jwt_sign p iat exp) t = if t <? exp then Some p else None.
(** The password that was hashed verifies. *)
Definition argon2_correct `(Argon2) : Prop :=
  ∀ n pw, argon2_verify (argon2_hash n pw) pw = Some true.

Definition lift {A} (r : res A) : M A := λ w, (r, w).
Lemma respects_lift {A} (R : world → world → Prop) `{!PreOrder R} (r : res A) : respects R (lift r).
Proof. intros w. cbn. reflexivity. Qed.
#[export] Hint Resolve respects_lift : steph.

Module Auth.
(** auth/constants.ts *)
Definition TERMS_VERSION : string := "2026-08-01".
Definition PRIVACY_VERSION : string := "2026-08-01".
Definition EMAIL_VERIFICATION_EXPIRY_HOURS : Z := 24.
Definition PASSWORD_RESET_EXPIRY_HOURS : Z := 1.
Definition LOGIN_CHALLENGE_EXPIRY_MINUTES : Z := 10.
Definition CONCURRENT_REFRESH_GRACE_SECONDS : Z := 15.

Record RequestMeta := Meta {
  rm_ipAddress : option string; rm_userAgent : option string; rm_rawDeviceId : string
}.
Record TokenPair := Pair { tp_accessToken : string; tp_refreshToken : string; tp_expiresAt : Z }.
(** The result of [login]. *)
Inductive login_result :=
| LoggedIn (p : TokenPair)
| RequiresVerification (method : challenge_method) (challengeToken : string).

Section auth.
Context {cfg : config} `{Entropy, Argon2, Jwt, Totp, Aead, UAParser, GeoipLite, StripeApi}.
(** The AES key EncryptionService holds. *)
Context (key : list Z).

(** *** Tokens *)
Definition now_seconds : M Z := n ← date_now; mret (n / 1000).
Definition sign (p : jwt_payload) (expiresIn : Z) : M string :=
  t ← now_seconds; mret (jwt_sign p t (t + expiresIn)).
Definition signAccessToken (sub email : string) (r : role) : M string :=
  sign (AccessToken sub email r None) (JWT_ACCESS_EXPIRY_SECONDS cfg).
Definition signImpersonationToken (targetUserId targetEmail : string) (targetRole : role)
    (adminUserId : string) : M string :=
  sign (AccessToken targetUserId targetEmail targetRole (Some adminUserId)) 600.
Definition signChallenge (p : jwt_payload) : M string :=
  sign p (LOGIN_CHALLENGE_EXPIRY_MINUTES * 60).

Definition issueVerificationToken (userId email : string) (purpose : token_purpose) : M unit :=
  now ← date_now;
  _ ← db_update_many T_verificationTokens
        (λ t, seq_b (vt_userId t) userId && bool_decide (vt_purpose t = purpose)
              && bool_decide (vt_usedAt t = None)) (set_vt_usedAt (Some now));
  rawToken ← Tokens.generateOpaqueToken;
  let hours := match purpose with
               | EMAIL_VERIFICATION => EMAIL_VERIFICATION_EXPIRY_HOURS
               | PASSWORD_RESET => PASSWORD_RESET_EXPIRY_HOURS
               end in
  id ← random_uuid;
  _ ← db_create T_verificationTokens id
        (Mk_verification_token id userId (Tokens.hash rawToken) purpose (now + hours * 3600000)
           None now);
  match purpose with
  | EMAIL_VERIFICATION => Email.sendVerificationEmail email rawToken
  | PASSWORD_RESET => Email.sendPasswordResetEmail email rawToken
  end.

Definition consumeVerificationToken (rawToken : string) (purpose : token_purpose) : M verification_token :=
  o ← db_find_by T_verificationTokens (λ t, seq_b (vt_tokenHash t) (Tokens.hash rawToken));
  now ← date_now;
  match o with
  | None => BadRequest "Invalid or expired link"
  | Some r =>
      if negb (bool_decide (vt_purpose r = purpose)) then BadRequest "Invalid or expired link"
      else if bool_decide (vt_usedAt r ≠ None) then BadRequest "This link has already been used"
      else if vt_expiresAt r <? now then BadRequest "This link has expired"
      else
        _ ← db_update T_verificationTokens (vt_id r) (set_vt_usedAt (Some now));
        mret r
  end.

(** *** Registration *)
Definition register (email fullName password : string) (phone : option string) (meta : RequestMeta)
    : M string :=
  existing ← Users.findByEmail email;
  match existing with
  | Some _ => Conflict "An account with this email already exists"
  | None =>
      salt ← draw;
      let passwordHash := argon2_hash salt password in
      let normalizedEmail := Users.normalizeEmail email in
      user ← transaction (
        accessInvite ← db_find_by T_adminAccessInvites
          (λ i, seq_b (ai_email i) normalizedEmail && bool_decide (ai_status i = InvitePENDING));
        now ← date_now;
        id ← random_uuid;
        created ← db_create T_users id
          match accessInvite with
          | Some i => Users.new_user id normalizedEmail fullName passwordHash phone (ai_role i)
                        (ai_grantDirectoryAccess i) (ai_grantLeadFinderAccess i) now
          | None => Users.new_user id normalizedEmail fullName passwordHash phone USER false false now
          end;
        _ ← match accessInvite with
            | Some i => _ ← db_update T_adminAccessInvites (ai_id i)
                              (λ i, set_ai_acceptedAt (Some now) (set_ai_status InviteACCEPTED i));
                        mret tt
            | None => mret tt
            end;
        c1 ← random_uuid;
        _ ← db_create T_consentRecords c1
              (Mk_consent_record c1 (u_id created) TERMS TERMS_VERSION (rm_ipAddress meta) now);
        c2 ← random_uuid;
        _ ← db_create T_consentRecords c2
              (Mk_consent_record c2 (u_id created) PRIVACY PRIVACY_VERSION (rm_ipAddress meta) now);
        _ ← db_update_many T_invites
              (λ i, seq_b (i_email i) (u_email created) && bool_decide (i_status i = InvitePENDING))
              (λ i, set_i_acceptedAt (Some now) (set_i_status InviteACCEPTED i));
        mret created);
      _ ← Audit.record (Audit.with_ip (rm_ipAddress meta) (Audit.by_actor (u_id user) "auth.register"));
      mret "Account created. Check your email to verify your address."
  end.

Definition verifyEmail (token : string) : M string :=
  record ← consumeVerificationToken token EMAIL_VERIFICATION;
  _ ← Users.markEmailVerified (vt_userId record);
  _ ← Audit.record (Audit.by_actor (vt_userId record) "auth.email_verified");
  mret "Email verified — you can now log in.".

(** *** Login *)
Definition genericError {A} : M A := Unauthorized "Invalid email or password".
(** [argon2.verify(..).catch(() => false)]. *)
Definition passwordValid (u : user) (password : string) : bool :=
  argon2_verify (u_passwordHash u) password ifnull false.

Definition login_metadata (deviceId : string) (method : challenge_method) : json :=
  JObj [("deviceId", JStr deviceId);
        ("method", JStr match method with TOTP => "TOTP" | EMAIL_CODE => "EMAIL_CODE" end)].

Definition issueTokenPair (userId deviceId : string) (meta : RequestMeta) (isNewDevice : bool)
    : M TokenPair :=
  o ← Users.findById userId;
  match o with
  | None => Unauthorized "Unauthorized"
  | Some user =>
      let isFirstLogin := bool_decide (u_lastLoginAt user = None) in
      let geo := Client.lookup (rm_ipAddress meta) in
      risk ← Risk.assess (u_id user) isNewDevice (Client.geo_country <$> geo) (u_failedLoginCount user);
      _ ← Sessions.enforceLimit (u_id user);
      accessToken ← signAccessToken (u_id user) (u_email user) (u_role user);
      rs ← Sessions.create (Sessions.Input (u_id user) (Some deviceId) (rm_ipAddress meta)
             (Client.geo_country <$> geo) (geo ≫= Client.geo_city) (geo ≫= Client.geo_timezone)
             (Some (Risk.ra_score risk)) (Some (JObj (Risk.ra_signals risk))));
      _ ← Users.updateLastLogin (u_id user);
      _ ← when isFirstLogin (Email.sendWelcomeEmail (u_email user) (u_fullName user));
      _ ← Audit.record (Audit.with_ip (rm_ipAddress meta)
            (Audit.with_meta (JObj [("deviceId", JStr deviceId); ("sessionId", JStr (s_id rs.2))])
               (Audit.by_actor (u_id user) "auth.login")));
      _ ← when (RISK_HIGH_THRESHOLD cfg <=? Risk.ra_score risk)
            (Audit.record (Audit.with_ip (rm_ipAddress meta)
              (Audit.with_meta (JObj [("score", JNum (Risk.ra_score risk));
                                      ("signals", JObj (Risk.ra_signals risk))])
                 (Audit.with_target "Session" (s_id rs.2)
                    (Audit.by_actor (u_id user) "auth.high_risk_login")))));
      mret (Pair accessToken rs.1 (s_expiresAt rs.2))
  end.

Definition login (email password : string) (meta : RequestMeta) : M login_result :=
  o ← Users.findByEmail email;
  now ← date_now;
  match o with
  | None => genericError
  | Some user =>
      if Users.isLocked now user then Unauthorized "Too many failed login attempts. Try again later."
      else if negb (bool_decide (u_status user = UserActive)) then
        Unauthorized "This account is not active. Contact us if you believe this is a mistake."
      else if negb (passwordValid user password) then
        locked ← Users.registerFailedLogin (u_id user);
        _ ← Audit.record (Audit.with_ip (rm_ipAddress meta)
              (Audit.by_actor (u_id user) "auth.login_failed"));
        if (locked : bool)
        then Unauthorized "Too many failed login attempts. This account is temporarily locked."
        else genericError
      else
        _ ← Users.resetFailedLogins (u_id user);
        dn ← Devices.findOrCreateDevice (u_id user) (Client.hashDeviceId (rm_rawDeviceId meta))
               (Client.describeUserAgent (rm_userAgent meta));
        let deviceId := d_id dn.1 in
        if (dn.2 : bool) then
          if u_twoFactorEnabled user then
            challengeToken ← signChallenge (LoginChallenge (u_id user) deviceId TOTP None);
            _ ← Audit.record (Audit.with_ip (rm_ipAddress meta)
                  (Audit.with_meta (login_metadata deviceId TOTP)
                     (Audit.by_actor (u_id user) "auth.new_device_challenge")));
            mret (RequiresVerification TOTP challengeToken)
          else
            code ← Tokens.generateNumericCode;
            challengeToken ← signChallenge
              (LoginChallenge (u_id user) deviceId EMAIL_CODE (Some (Tokens.hash code)));
            _ ← Email.sendDeviceVerificationCode (u_email user) code;
            _ ← Audit.record (Audit.with_ip (rm_ipAddress meta)
                  (Audit.with_meta (login_metadata deviceId EMAIL_CODE)
                     (Audit.by_actor (u_id user) "auth.new_device_challenge")));
            mret (RequiresVerification EMAIL_CODE challengeToken)
        else
          p ← issueTokenPair (u_id user) deviceId meta false;
          mret (LoggedIn p)
  end.

(** The check of the submitted code. *)
Definition checkCode (user : user) (method : challenge_method) (codeHash : option string)
    (code : string) : M bool :=
  match method with
  | TOTP =>
      match u_twoFactorSecret user with
      | Some enc =>
          if Str.nonempty enc then
            secret ← lift (Encryption.decrypt key enc);
            now ← date_now;
            lift (totp_verify secret code now)
          else Unauthorized "2FA is not set up on this account"
      | None => Unauthorized "2FA is not set up on this account"
      end
  | EMAIL_CODE =>
      match codeHash with
      | Some h => if Str.nonempty h then mret (seq_b (Tokens.hash code) h)
                  else Unauthorized "Invalid verification token"
      | None => Unauthorized "Invalid verification token"
      end
  end.

Definition verifyLogin (challengeToken code : string) (meta : RequestMeta) : M TokenPair :=
  t ← now_seconds;
  match jwt_verify challengeToken t with
  | None => Unauthorized "Verification expired — please log in again"
  | Some (AccessToken _ _ _ _) => Unauthorized "Invalid verification token"
  | Some (LoginChallenge sub deviceId method codeHash) =>
      o ← Users.findById sub;
      match o with
      | None => Unauthorized "Account not found"
      | Some user =>
          withinAttemptCap ← Revocation.registerChallengeAttempt challengeToken
                               (LOGIN_CHALLENGE_EXPIRY_MINUTES * 60);
          if negb withinAttemptCap then Unauthorized "Too many attempts — please log in again"
          else
            codeValid ← checkCode user method codeHash code;
            if negb codeValid then
              _ ← Audit.record (Audit.with_ip (rm_ipAddress meta)
                    (Audit.by_actor (u_id user) "auth.device_verification_failed"));
              Unauthorized "Invalid code"
            else
              _ ← when (bool_decide (method = EMAIL_CODE) && bool_decide (u_emailVerifiedAt user = None))
                    (_ ← Users.markEmailVerified (u_id user); mret tt);
              issueTokenPair (u_id user) deviceId meta true
      end
  end.

(** *** Session lifecycle *)

(** The successor of a session rotated within the grace window. *)
Definition graceSuccessor (anySession : option session) : M (option session) :=
  match anySession with
  | None => mret None
  | Some s =>
      match s_revokedAt s, s_replacedByTokenId s with
      | Some revokedAt, Some next =>
          now ← date_now;
          if Str.nonempty next && (now - revokedAt <=? CONCURRENT_REFRESH_GRACE_SECONDS * 1000) then
            o ← Sessions.findById next;
            mret (match o with
                  | Some succ => if Sessions.active now succ then Some succ else None
                  | None => None
                  end)
          else mret None
      | _, _ => mret None
      end
  end.

Definition reuseDetected (anySession : option session) (meta : RequestMeta) : M unit :=
  match anySession with
  | Some s =>
      if bool_decide (s_revokedAt s ≠ None) then
        _ ← Sessions.revokeAllForUser (s_userId s);
        Audit.record (Audit.with_ip (rm_ipAddress meta)
          (Audit.with_meta (JObj [("sessionId", JStr (s_id s))])
             (Audit.by_actor (s_userId s) "auth.refresh_token_reuse_detected")))
      else mret tt
  | None => mret tt
  end.

(** The part of [refresh] once a session is chosen. *)
Definition refreshFrom (session : session) (meta : RequestMeta) : M TokenPair :=
  o ← Users.findById (s_userId session);
  match o with
  | Some user =>
      if bool_decide (u_status user = UserActive) then
        rs ← Sessions.rotate session (rm_ipAddress meta);
        accessToken ← signAccessToken (u_id user) (u_email user) (u_role user);
        mret (Pair accessToken rs.1 (s_expiresAt rs.2))
      else
        _ ← Sessions.revoke (s_id session); Unauthorized "Account is not active"
  | None => _ ← Sessions.revoke (s_id session); Unauthorized "Account is not active"
  end.

Definition refresh (rawRefreshToken : string) (meta : RequestMeta) : M TokenPair :=
  active ← Sessions.findActiveByRawToken rawRefreshToken;
  match active with
  | Some s => refreshFrom s meta
  | None =>
      anySession ← Sessions.findAnyByRawToken rawRefreshToken;
      succ ← graceSuccessor anySession;
      match succ with
      | Some s => refreshFrom s meta
      | None =>
          _ ← reuseDetected anySession meta;
          Unauthorized "Session expired — please log in again"
      end
  end.

Definition logout (rawRefreshToken : string) : M unit :=
  o ← Sessions.findActiveByRawToken rawRefreshToken;
  match o with
  | Some s => _ ← Sessions.revoke (s_id s); Audit.record (Audit.by_actor (s_userId s) "auth.logout")
  | None => mret tt
  end.

Definition logoutAll (userId : string) : M unit :=
  _ ← Sessions.revokeAllForUser userId;
  _ ← Revocation.revokeUser userId;
  Audit.record (Audit.by_actor userId "auth.logout_all").

(** *** Password reset *)
Definition forgotPassword (email : string) : M string :=
  o ← Users.findByEmail email;
  _ ← match o with
      | Some user =>
          _ ← issueVerificationToken (u_id user) (u_email user) PASSWORD_RESET;
          Audit.record (Audit.by_actor (u_id user) "auth.password_reset_requested")
      | None => mret tt
      end;
  mret "If an account with that email exists, a reset link has been sent.".

Definition resetPassword (token newPassword : string) : M string :=
  record ← consumeVerificationToken token PASSWORD_RESET;
  salt ← draw;
  _ ← Users.updatePasswordHash (vt_userId record) (argon2_hash salt newPassword);
  _ ← Sessions.revokeAllForUser (vt_userId record);
  _ ← Revocation.revokeUser (vt_userId record);
  _ ← Audit.record (Audit.by_actor (vt_userId record) "auth.password_reset_completed");
  mret "Password updated. Please log in again.".

(** *** Two-factor authentication *)
Definition start2fa (userId : string) : M (string * string * string) :=
  o ← Users.findById userId;
  match o with
  | None => Unauthorized "Unauthorized"
  | Some user =>
      if u_twoFactorEnabled user then BadRequest "Two-factor authentication is already enabled"
      else
        n ← draw;
        let secret := totp_secret n in
        enc ← Encryption.encrypt key secret;
        _ ← Users.setTwoFactorSecret userId enc;
        let otpauthUrl := totp_uri "conference.contact" (u_email user) secret in
        qrCodeDataUrl ← lift (qr_dataURL otpauthUrl);
        mret (secret, otpauthUrl, qrCodeDataUrl)
  end.

Definition confirm2fa (userId code : string) : M string :=
  o ← Users.findById userId;
  match o ≫= u_twoFactorSecret with
  | None => BadRequest "Start 2FA setup before confirming it"
  | Some enc =>
      if negb (Str.nonempty enc) then BadRequest "Start 2FA setup before confirming it"
      else
        secret ← lift (Encryption.decrypt key enc);
        now ← date_now;
        valid ← lift (totp_verify secret code now);
        if negb valid then Unauthorized "Invalid code"
        else
          _ ← Users.enableTwoFactor userId;
          _ ← Audit.record (Audit.by_actor userId "auth.2fa_enabled");
          mret "Two-factor authentication enabled"
  end.

Definition disable2fa (userId password : string) : M string :=
  o ← Users.findById userId;
  match o with
  | None => Unauthorized "Unauthorized"
  | Some user =>
      if negb (passwordValid user password) then Unauthorized "Incorrect password"
      else
        _ ← Users.disableTwoFactor userId;
        _ ← Audit.record (Audit.by_actor userId "auth.2fa_disabled");
        mret "Two-factor authentication disabled"
  end.

(** *** Devices and sessions *)
Definition listDevices (userId : string) : M (list Devices.device_view) := Devices.listForUser userId.
Definition listSessions (userId : string) : M (list Sessions.session_view) :=
  Sessions.listActiveForUser userId.
Definition trustDevice (userId deviceId : string) : M Devices.device_view :=
  device ← Devices.trust userId deviceId;
  _ ← Audit.record (Audit.with_target_id deviceId (Audit.by_actor userId "auth.device_trusted"));
  mret device.
Definition removeDevice (userId deviceId : string) : M unit :=
  _ ← Devices.remove userId deviceId;
  Audit.record (Audit.with_target_id deviceId (Audit.by_actor userId "auth.device_removed")).

(** *** Data export and erasure *)

(** What an export holds: of the account, everything but the password hash,
    the 2FA secret and the login counters; of sessions and devices, never a
    token hash or a fingerprint. *)
Record export := Export {
  ex_generatedAt : string;
  ex_email : string; ex_fullName : string; ex_phone : option string; ex_role : role;
  ex_status : account_status; ex_stripeCustomerId : option string;
  ex_devices : list Devices.device_view;
  ex_sessions : list (Sessions.session_view * option Z);
  ex_subscriptions : list (string * subscription_status * option plan * list invoice);
  ex_consentRecords : list (consent_document * string * option string * Z);
  ex_auditLogs : list (string * option string * option string * option string * Z)
}.
Definition exportData (userId : string) : M export :=
  profile ← Users.findById userId;
  devices ← db_find_many T_devices (Devices.of_user userId);
  sessions ← db_find_many T_sessions (λ s, seq_b (s_userId s) userId);
  subscriptions ← db_find_many T_subscriptions (λ s, seq_b (sub_userId s) userId);
  plans ← db_all T_plans;
  invoices ← db_all T_invoices;
  consents ← db_find_many T_consentRecords (λ c, seq_b (cr_userId c) userId);
  logs ← gets (λ w, filter (λ a, a_actorUserId a = Some userId) (db_auditLogs (w_db w)));
  match profile with
  | None => Unauthorized "Unauthorized"
  | Some u =>
      _ ← Audit.record (Audit.by_actor userId "auth.data_export_requested");
      now ← date_now;
      mret (Export (Date.toISOString now) (u_email u) (u_fullName u) (u_phone u) (u_role u)
        (u_status u) (u_stripeCustomerId u)
        (Devices.view <$> devices)
        ((λ s, (Sessions.view ∅ s, s_revokedAt s)) <$> order_desc s_createdAt sessions)
        ((λ s, (sub_id s, sub_status s, plans !! sub_planId s,
                find_many (λ i, seq_b (inv_subscriptionId i) (sub_id s)) invoices))
           <$> order_desc sub_createdAt subscriptions)
        ((λ c, (cr_documentType c, cr_version c, cr_ipAddress c, cr_acceptedAt c)) <$> consents)
        ((λ a, (a_action a, a_targetType a, a_targetId a, a_ipAddress a, a_createdAt a))
           <$> order_desc a_createdAt logs))
  end.

Definition deleted_email (userId : string) : string :=
  "deleted-" +:+ userId +:+ "@deleted.invalid".
Definition deleteAccount (userId password : string) : M string :=
  o ← Users.findById userId;
  match o with
  | None => Unauthorized "Unauthorized"
  | Some user =>
      if negb (passwordValid user password) then Unauthorized "Incorrect password"
      else
        activeSubscription ← db_find_by T_subscriptions
          (λ s, seq_b (sub_userId s) userId && live_status (sub_status s));
        _ ← match activeSubscription with
            | Some s => stripe_do stripe_ack (StripeCancel (sub_stripeSubscriptionId s))
            | None => mret tt
            end;
        _ ← transaction (
          _ ← match activeSubscription with
              | Some s => _ ← db_update_indexed T_subscriptions (sub_id s)
                                (λ s, set_sub_cancelAtPeriodEnd false (set_sub_status CANCELED s));
                          mret tt
              | None => mret tt
              end;
          now ← date_now;
          _ ← db_update_many T_sessions (Sessions.unrevoked_of userId) (set_s_revokedAt (Some now));
          _ ← db_update_indexed T_users userId (λ u,
                set_u_email (deleted_email userId)
                  (set_u_deletedAt (Some now) (set_u_status UserDeleted u)));
          mret tt);
        _ ← Revocation.revokeUser userId;
        _ ← Audit.record (Audit.by_actor userId "auth.account_deletion_requested");
        mret "Your account has been deleted."
  end.
End auth.
End Auth.
