(* ===== verification/AuthController.v ===== *)
(** AuthController (auth/auth.controller.ts): how requests reach AuthService,
    and the two cookies it manages - the device id, which identifies a browser
    across logins, and the refresh token. A handler writes its cookies to the
    response whether it returns or throws. *)
From S2P Require Import Prelude JsLib Crypto Schema Effects Platform Config Messaging Tokens Revocation Users Sessions Billing Auth.

(** ** Requests and responses *)
Record request := Request {
  rq_authorization : option string; rq_cookies : gmap string string;
  rq_ip : option string; rq_userAgent : option string
}.
Inductive lifetime := MaxAge (ms : Z) | Expires (t : Z).
(** [res.cookie] (always [httpOnly] here) and [res.clearCookie]. *)
Inductive cookie_op :=
| SetCookie (name value : string) (secure : bool) (sameSite path : string) (l : lifetime)
| ClearCookie (name path : string).

(** A handler: the world and the cookies of the response. *)
Definition C (A : Type) : Type := list cookie_op → world → (res A * list cookie_op) * world.
Definition liftC {A} (m : M A) : C A := λ ck w, let '(r, w') := m w in ((r, ck), w').
Definition bindC {A B} (m : C A) (k : A → C B) : C B := λ ck w,
  match m ck w with
  | ((Ok a, ck'), w') => k a ck' w'
  | ((Err e, ck'), w') => ((Err e, ck'), w')
  end.
Definition retC {A} (a : A) : C A := λ ck w, ((Ok a, ck), w).
Definition cookie (c : cookie_op) : C unit := λ ck w, ((Ok tt, ck ++ [c]), w).
(** [try { m } catch (err) { h; throw err }]. *)
Definition on_error {A} (m : C A) (h : C unit) : C A := λ ck w,
  match m ck w with
  | ((Err e, ck'), w') => let '((_, ck''), w'') := h ck' w' in ((Err e, ck''), w'')
  | r => r
  end.
Notation "x <-- m ;; k" := (bindC m (λ x, k)) (at level 60, m at next level, right associativity) : api_scope.

(** What a handler does to the world, as [respects]. *)
Definition respectsC {A} (R : world → world → Prop) (m : C A) : Prop := ∀ ck w, R w (m ck w).2.
Section respectsC.
Context (R : world → world → Prop) `{!PreOrder R}.
Lemma respectsC_ret {A} (a : A) : respectsC R (retC a).
Proof using All. intros ck w. cbn. reflexivity. Qed.
Lemma respectsC_cookie c : respectsC R (cookie c).
Proof using All. intros ck w. cbn. reflexivity. Qed.
Lemma respectsC_lift {A} (m : M A) : respects R m → respectsC R (liftC m).
Proof using All. intros Hm ck w. specialize (Hm w). unfold liftC. by destruct (m w). Qed.
Lemma respectsC_bind {A B} (m : C A) (k : A → C B) :
  respectsC R m → (∀ a, respectsC R (k a)) → respectsC R (bindC m k).
Proof using All.
  intros Hm Hk ck w. specialize (Hm ck w). unfold bindC.
  destruct (m ck w) as [[[a|e] ck'] w']; cbn in *; [|done]. etrans; [exact Hm|apply Hk].
Qed.
Lemma respectsC_on_error {A} (m : C A) h : respectsC R m → respectsC R h → respectsC R (on_error m h).
Proof using All.
  intros Hm Hh ck w. specialize (Hm ck w). unfold on_error.
  destruct (m ck w) as [[[a|e] ck'] w']; cbn in *; [done|]. specialize (Hh ck' w').
  destruct (h ck' w') as [[r ck''] w'']; cbn in *. by etrans.
Qed.
End respectsC.
Ltac respectsC_step :=
  match goal with
  | |- respectsC _ (bindC _ _) => apply respectsC_bind; [typeclasses eauto| |intros ?]
  | |- respectsC _ (liftC _) => apply respectsC_lift; [typeclasses eauto|]
  | |- respectsC _ (on_error _ _) => apply respectsC_on_error; [typeclasses eauto| |]
  | |- respectsC _ (retC _) => apply respectsC_ret; typeclasses eauto
  | |- respectsC _ (cookie _) => apply respectsC_cookie; typeclasses eauto
  | |- respectsC _ (match ?x with _ => _ end) => destruct x eqn:?
  end.

Module AuthController.
Definition REFRESH_COOKIE : string := "cc_rt".
Definition REFRESH_COOKIE_PATH : string := "/api/v1/auth".
Definition DEVICE_ID_COOKIE : string := "ccdid".
Definition DEVICE_ID_MAX_AGE_MS : Z := 365 * 24 * 60 * 60 * 1000.

Section controller.
Context {cfg : config} `{Entropy, Argon2, Jwt, Totp, Aead, UAParser, GeoipLite, StripeApi}.
Context (key : list Z).

(** *** Cookie plumbing *)
Definition isProduction : bool := seq_b (NODE_ENV cfg) "production".
Definition getCookie (req : request) (name : string) : option string := rq_cookies req !! name.
Definition truthy_cookie (req : request) (name : string) : option string :=
  match getCookie req name with
  | Some v => if Str.nonempty v then Some v else None
  | None => None
  end.
Definition getOrCreateDeviceId (req : request) : C string :=
  match truthy_cookie req DEVICE_ID_COOKIE with
  | Some existing => retC existing
  | None =>
      fresh <-- liftC Tokens.generateOpaqueToken;;
      _ <-- cookie (SetCookie DEVICE_ID_COOKIE fresh isProduction "lax" "/" (MaxAge DEVICE_ID_MAX_AGE_MS));;
      retC fresh
  end.
Definition buildMeta (req : request) : C Auth.RequestMeta :=
  rawDeviceId <-- getOrCreateDeviceId req;;
  retC (Auth.Meta (rq_ip req) (rq_userAgent req) rawDeviceId).
Definition setRefreshCookie (token : string) (expiresAt : Z) : C unit :=
  cookie (SetCookie REFRESH_COOKIE token isProduction "strict" REFRESH_COOKIE_PATH (Expires expiresAt)).
Definition clearRefreshCookie : C unit := cookie (ClearCookie REFRESH_COOKIE REFRESH_COOKIE_PATH).
Definition store (p : Auth.TokenPair) : C string :=
  _ <-- setRefreshCookie (Auth.tp_refreshToken p) (Auth.tp_expiresAt p);;
  retC (Auth.tp_accessToken p).

(** *** Handlers *)
Definition register (req : request) (email fullName password : string) (phone : option string) : C string :=
  meta <-- buildMeta req;;
  liftC (Auth.register email fullName password phone meta).
Inductive login_body :=
| LoginOk (accessToken : string)
| LoginChallenged (method : challenge_method) (challengeToken : string).
Definition login (req : request) (email password : string) : C login_body :=
  meta <-- buildMeta req;;
  result <-- liftC (Auth.login email password meta);;
  match result with
  | Auth.LoggedIn p => accessToken <-- store p;; retC (LoginOk accessToken)
  | Auth.RequiresVerification m t => retC (LoginChallenged m t)
  end.
Definition verifyLogin (req : request) (challengeToken code : string) : C string :=
  meta <-- buildMeta req;;
  result <-- liftC (Auth.verifyLogin key challengeToken code meta);;
  store result.
(** The access token, or [null] without a refresh cookie. *)
Definition refresh (req : request) : C (option string) :=
  match truthy_cookie req REFRESH_COOKIE with
  | None => _ <-- clearRefreshCookie;; retC None
  | Some rawRefreshToken =>
      meta <-- buildMeta req;;
      result <-- on_error (liftC (Auth.refresh rawRefreshToken meta)) clearRefreshCookie;;
      accessToken <-- store result;;
      retC (Some accessToken)
  end.
Definition logout (req : request) : C string :=
  _ <-- match truthy_cookie req REFRESH_COOKIE with
        | Some rawRefreshToken => liftC (Auth.logout rawRefreshToken)
        | None => retC tt
        end;;
  _ <-- clearRefreshCookie;;
  retC "Logged out".
Definition logoutAll (sub : string) : C string :=
  _ <-- liftC (Auth.logoutAll sub);;
  _ <-- clearRefreshCookie;;
  retC "Logged out on all devices".
Definition deleteAccount (sub password : string) : C string :=
  result <-- liftC (Auth.deleteAccount sub password);;
  _ <-- clearRefreshCookie;;
  retC result.
End controller.
End AuthController.
