(* ===== verification/Instances.v ===== *)
(** Concrete third-party components, for evaluating the model on concrete
    requests: a salted password scheme, a token format that signs nothing but
    is faithful to its payload and expiry, a TOTP whose code is its secret, an
    empty geolocation database. They satisfy the hypotheses the theorems make. *)
From S2P Require Import Prelude JsLib Crypto Schema Effects Platform Config Messaging Tokens Revocation Users Sessions Billing Auth.

(** ** Passwords *)
Definition plain_argon2 : Argon2 := {|
  argon2_hash n pw := "h" +:+ pw;
  argon2_verify h pw := Some (bool_decide (h = "h" +:+ pw))
|}.
Lemma plain_argon2_correct : argon2_correct plain_argon2.
Proof. intros n pw. cbn. by rewrite bool_decide_eq_true_2. Qed.

(** ** Tokens *)
Definition role_code (r : role) : nat :=
  match r with USER => 0 | PREMIUM => 1 | ADMIN => 2 | SUPER_ADMIN => 3 end.
Definition role_of (n : nat) : role :=
  match n with 0%nat => USER | 1%nat => PREMIUM | 2%nat => ADMIN | _ => SUPER_ADMIN end.
#[export] Instance role_countable : Countable role.
Proof. apply (inj_countable' role_code role_of). by intros []. Defined.
#[export] Instance method_countable : Countable challenge_method.
Proof.
  apply (inj_countable' (λ m, match m with EMAIL_CODE => true | TOTP => false end)
    (λ b : bool, if b then EMAIL_CODE else TOTP)). by intros [].
Defined.
#[export] Instance jwt_payload_eq_dec : EqDecision jwt_payload.
Proof. solve_decision. Defined.
#[export] Instance jwt_payload_countable : Countable jwt_payload.
Proof.
  apply (inj_countable'
    (λ p, match p with
          | AccessToken s e r i => inl (s, e, r, i)
          | LoginChallenge s d m c => inr (s, d, m, c)
          end)
    (λ x, match x with
          | inl (s, e, r, i) => AccessToken s e r i
          | inr (s, d, m, c) => LoginChallenge s d m c
          end)).
  by intros [].
Defined.

Fixpoint bits (p : positive) : string :=
  match p with xO p => String "0" (bits p) | xI p => String "1" (bits p) | xH => EmptyString end.
Fixpoint unbits (s : string) : positive :=
  match s with
  | EmptyString => xH
  | String c s => if Ascii.eqb c "1" then xI (unbits s) else xO (unbits s)
  end.
Lemma unbits_bits p : unbits (bits p) = p.
Proof. induction p as [p IH|p IH|]; cbn; by rewrite ?IH. Qed.

Definition plain_jwt : Jwt := {|
  jwt_sign p iat exp := bits (encode (p, exp));
  jwt_verify s now :=
    match decode (A := jwt_payload * Z) (unbits s) with
    | Some (p, exp) => if now <? exp then Some p else None
    | None => None
    end
|}.
Lemma plain_jwt_correct : jwt_correct plain_jwt.
Proof. intros p iat exp t. cbn. by rewrite unbits_bits, decode_encode. Qed.

(** ** The others *)
Definition echo_totp : Totp := {|
  totp_secret n := "JBSWY3DPEHPK3PXP";
  totp_uri issuer label secret := "otpauth://totp/" +:+ issuer +:+ ":" +:+ label +:+ "?secret=" +:+ secret;
  totp_verify secret token now := Ok (bool_decide (token = secret));
  qr_dataURL s := Ok ("data:" +:+ s)
|}.
Definition plain_ua : UAParser := {| ua_parse s := (Some s, None, None, None) |}.
Definition empty_geoip : GeoipLite := {| geoip_lookup s := None |}.
