(* ===== verification/AuthSessions.v ===== *)
(** What AuthService does to sessions: the cap on concurrent sessions is an
    invariant of every operation, rotation links a live successor, and a
    replayed refresh token closes every session of the account. *)
From S2P Require Import Prelude JsLib Crypto Schema Effects Platform Config Messaging Tokens Revocation Users Sessions Billing Auth Instances.

(** ** The service as one operation *)

(** The requests AuthService serves. *)
Inductive auth_op :=
| OpRegister (email fullName password : string) (phone : option string) (meta : Auth.RequestMeta)
| OpVerifyEmail (token : string)
| OpLogin (email password : string) (meta : Auth.RequestMeta)
| OpVerifyLogin (challengeToken code : string) (meta : Auth.RequestMeta)
| OpRefresh (rawToken : string) (meta : Auth.RequestMeta)
| OpLogout (rawToken : string)
| OpLogoutAll (userId : string)
| OpForgotPassword (email : string)
| OpResetPassword (token newPassword : string)
| OpStart2fa (userId : string)
| OpConfirm2fa (userId code : string)
| OpDisable2fa (userId password : string)
| OpListDevices (userId : string)
| OpListSessions (userId : string)
| OpTrustDevice (userId deviceId : string)
| OpRemoveDevice (userId deviceId : string)
| OpExportData (userId : string)
| OpDeleteAccount (userId password : string).

Section run.
Context {cfg : config} `{Entropy, Argon2, Jwt, Totp, Aead, UAParser, GeoipLite, StripeApi}.
Context (key : list Z).
(** The state after a request, whatever it answers. *)
Definition after {A} (m : M A) : world → world := λ w, (m w).2.
Definition run_auth (o : auth_op) : world → world :=
  match o with
  | OpRegister e f p ph meta => after (Auth.register e f p ph meta)
  | OpVerifyEmail t => after (Auth.verifyEmail t)
  | OpLogin e p meta => after (Auth.login e p meta)
  | OpVerifyLogin t c meta => after (Auth.verifyLogin key t c meta)
  | OpRefresh t meta => after (Auth.refresh t meta)
  | OpLogout t => after (Auth.logout t)
  | OpLogoutAll u => after (Auth.logoutAll u)
  | OpForgotPassword e => after (Auth.forgotPassword e)
  | OpResetPassword t p => after (Auth.resetPassword t p)
  | OpStart2fa u => after (Auth.start2fa key u)
  | OpConfirm2fa u c => after (Auth.confirm2fa key u c)
  | OpDisable2fa u p => after (Auth.disable2fa u p)
  | OpListDevices u => after (Auth.listDevices u)
  | OpListSessions u => after (Auth.listSessions u)
  | OpTrustDevice u d => after (Auth.trustDevice u d)
  | OpRemoveDevice u d => after (Auth.removeDevice u d)
  | OpExportData u => after (Auth.exportData u)
  | OpDeleteAccount u p => after (Auth.deleteAccount u p)
  end.

(** Requests are served and time passes, Redis coming and going. *)
Inductive auth_step : world → world → Prop :=
| auth_request o w : auth_step w (run_auth o w)
| auth_time t up w : w_now w ≤ t → auth_step w (put_redis_up up (put_now t w)).
End run.

(** The part of the world the session invariants read. *)
Definition session_view (w : world) : gmap string session * Z := (Sessions.table_of w, w_now w).

Section cap.
Context {cfg : config} `{Entropy, Argon2, Jwt, Totp, Aead, UAParser, GeoipLite, StripeApi}.
Context (key : list Z).

(** Rows are stored under their id and no account has more live sessions than
    the cap. *)
Definition cap_on (n : Z) (userId : option string) (v : gmap string session * Z) : Prop :=
  keyed s_id v.1 ∧
  (∀ u, count_rows (Sessions.active_of v.2 u) v.1 ≤ MAX_TRUSTED_DEVICES cfg) ∧
  (∀ u, userId = Some u → count_rows (Sessions.active_of v.2 u) v.1 ≤ n).
Definition cap_ok (w : world) : Prop := cap_on 0 None (session_view w).

Lemma count_set_revoked_le now u t m k s :
  m !! k = Some s →
  count_rows (Sessions.active_of now u) (<[k := set_s_revokedAt (Some t) s]> m)
  ≤ count_rows (Sessions.active_of now u) m.
Proof.
  intros Hk. apply count_rows_mono. intros j x Hj HP.
  destruct (decide (j = k)) as [->|]; simplify_map_eq; [|eauto].
  by rewrite Sessions.revoked_inactive in HP.
Qed.

(** An assignment that never makes a session live keeps the cap. *)
Definition shrinking (f : session → session) : Prop :=
  (∀ s, s_id (f s) = s_id s) ∧
  ∀ now u s, Sessions.active_of now u (f s) = true → Sessions.active_of now u s = true.

Lemma shrinking_revoke t : shrinking (set_s_revokedAt (Some t)).
Proof. split; [done|]. intros now u s. by rewrite Sessions.revoked_inactive. Qed.
Lemma shrinking_device d : shrinking (set_s_deviceId d).
Proof. by split. Qed.

Lemma update_many_cap P f :
  shrinking f → respects (keeps cap_ok) (db_update_many T_sessions P f).
Proof.
  intros [Hid Hf] w (Hk & Hcap & _). cbn. unfold cap_ok, cap_on, session_view, Sessions.table_of in *.
  cbn in *. split_and!; [by apply keyed_update_where| |by intros ? [=]].
  intros u. etrans; [|apply (Hcap u)]. apply count_rows_mono. intros k x Hx HP.
  destruct (lookup_update_where_Some _ _ _ _ _ Hx) as (r & Hr & ->).
  exists r. split; [done|]. destruct (P r); [by apply Hf|done].
Qed.
Lemma update_cap k f :
  shrinking f → respects (keeps cap_ok) (db_update T_sessions k f).
Proof.
  intros [Hid Hf] w (Hk & Hcap & _). destruct (db_update _ _ _ w) as [[r|e] w'] eqn:E; cbn.
  - apply db_update_inv in E as (s & Hs & -> & ->).
    unfold cap_ok, cap_on, session_view, Sessions.table_of in *. cbn in *.
    split_and!; [apply keyed_insert; [rewrite Hid; by apply Hk|done]| |by intros ? [=]].
    intros u. etrans; [|apply (Hcap u)]. apply count_rows_mono. intros j x Hx HP.
    destruct (decide (j = k)) as [->|]; simplify_map_eq; eauto.
  - apply db_update_err in E as [-> _]. by split.
Qed.

Lemma enforceLimit_triple u :
  triple cap_ok (Sessions.enforceLimit u)
    (λ _ w, cap_on (Z.max 0 (MAX_TRUSTED_DEVICES cfg - 1)) (Some u) (session_view w)) cap_ok.
Proof.
  intros w (Hk & Hcap & _). cbn [fst snd session_view] in *.
  destruct (Sessions.enforceLimit_run u w Hk) as (m & -> & Hkm & Hcnt & Hrows).
  split; [done|]. split; cbn [fst snd session_view].
  - intros v. etrans; [|apply (Hcap v)]. apply count_rows_mono. intros k x Hx HP.
    change (m !! k = Some x) in Hx.
    destruct (Hrows k x Hx) as (s0 & Hs0 & [->|[_ ->]]); [eauto|].
    by rewrite Sessions.revoked_inactive in HP.
  - intros v [= <-]. change (w_now (Sessions.set_sessions m w)) with (w_now w).
    change (Sessions.table_of (Sessions.set_sessions m w)) with m. lia.
Qed.

Lemma create_triple i :
  envValidation cfg = true →
  triple (λ w, cap_on (Z.max 0 (MAX_TRUSTED_DEVICES cfg - 1)) (Some (Sessions.in_userId i)) (session_view w))
    (Sessions.create i) (λ _, cap_ok) cap_ok.
Proof.
  intros Hcfg w (Hk & Hcap & Hu). cbn [fst snd session_view] in *.
  pose proof (cfg_max_devices cfg Hcfg) as Hmax. specialize (Hu _ eq_refl).
  destruct (Sessions.create i w) as [[[raw s]|e] w'] eqn:E.
  - apply Sessions.create_inv in E as (id & -> & Hid & -> & ->).
    set (s := Sessions.fresh_session _ _ _ _).
    split; [|split; [|done]]; cbn [fst snd session_view].
    + by apply keyed_insert.
    + intros u. change (Sessions.table_of (Sessions.set_sessions ?m _)) with m.
      change (w_now (Sessions.set_sessions _ (put_tick _ w))) with (w_now w).
      destruct (decide (u = Sessions.in_userId i)) as [->|Hne].
      * etrans; [apply count_rows_insert_le|]. lia.
      * etrans; [|apply (Hcap u)]. apply count_rows_mono. intros k x Hx HP.
        destruct (decide (k = id)) as [->|]; simplify_map_eq; [|eauto].
        unfold Sessions.active_of, seq_b in HP. unbool. by destruct Hne.
  - apply Sessions.create_err in E as [Hdb Hnow].
    unfold cap_ok, cap_on, session_view, Sessions.table_of. rewrite Hdb, Hnow.
    split_and!; [done|done|by intros u [=]].
Qed.

Lemma issueTokenPair_cap userId deviceId meta isNew :
  envValidation cfg = true → respects (keeps cap_ok) (Auth.issueTokenPair userId deviceId meta isNew).
Proof.
  intros Hcfg. apply keeps_triple. unfold Auth.issueTokenPair.
  eapply triple_bind; [apply (triple_same session_view (cap_on 0 None)); unfold Users.findById; frame_tac|].
  intros [user|]; [|apply (triple_same session_view (cap_on 0 None)); unfold Unauthorized; frame_tac].
  eapply triple_bind; [apply (triple_same session_view (cap_on 0 None)); unfold Risk.assess; frame_tac|].
  intros risk. eapply triple_bind; [apply enforceLimit_triple|]. intros []. cbv beta.
  eapply triple_bind.
  { eapply triple_weaken; [intros w Hw; exact Hw|intros a w Hw; exact Hw| |].
    2:{ apply (triple_same session_view (cap_on _ (Some (u_id user)))).
        unfold Auth.signAccessToken, Auth.sign, Auth.now_seconds. frame_tac. }
    intros w Hw. destruct Hw as (Hk & Hc & _). unfold cap_ok. split_and!; [done|done|by intros ? [=]]. }
  intros accessToken.
  eapply triple_bind; [exact (create_triple (Sessions.Input (u_id user) _ _ _ _ _ _ _) Hcfg)|]. intros rs. cbv beta.
  apply (triple_same session_view (cap_on 0 None)).
  unfold Users.updateLastLogin, Email.sendWelcomeEmail. frame_tac.
Qed.

(** Rotation replaces one live session by another. *)
Lemma rotate_cap old ip w w' rs :
  cap_ok w → Sessions.table_of w !! s_id old = Some old → Sessions.active (w_now w) old = true →
  Sessions.rotate old ip w = (Ok rs, w') → cap_ok w'.
Proof.
  intros (Hk & Hcap & _) Hold Hact Hr. cbn [fst snd session_view] in *. destruct rs as [raw s].
  apply Sessions.rotate_inv in Hr as (id & -> & Hid & -> & ->); [|done].
  assert (id ≠ s_id old) as Hne by (intros ->; by rewrite Hold in Hid).
  rewrite insert_insert_ne by done.
  set (dead := set_s_replacedByTokenId _ _). set (new := Sessions.fresh_session _ _ _ _).
  split; [|split; [|done]]; cbn [fst snd session_view].
  - by apply keyed_insert, keyed_insert.
  - intros u. change (Sessions.table_of (Sessions.set_sessions ?m _)) with m.
    change (w_now (Sessions.set_sessions _ (put_tick _ w))) with (w_now w).
    assert (Hdead : Sessions.active_of (w_now w) u dead = false).
    { unfold Sessions.active_of, Sessions.active. cbn. by rewrite andb_false_r. }
    destruct (decide (u = s_userId old)) as [->|Hu].
    + etrans; [apply count_rows_insert_le|].
      rewrite (count_rows_kill _ _ _ old); [specialize (Hcap (s_userId old)); lia|done| |done].
      unfold Sessions.active_of, seq_b. by rewrite bool_decide_eq_true_2, Hact.
    + etrans; [|apply (Hcap u)]. apply count_rows_mono. intros k x Hx HP.
      destruct (decide (k = id)) as [->|]; simplify_map_eq.
      { unfold Sessions.active_of, seq_b in HP. cbn in HP. unbool. done. }
      destruct (decide (k = s_id old)) as [->|]; simplify_map_eq; eauto; congruence.
Qed.
Lemma view_cap w w' : session_view w' = session_view w → cap_ok w → cap_ok w'.
Proof. unfold cap_ok. by intros ->. Qed.

Lemma refreshFrom_cap s meta w :
  cap_ok w → Sessions.table_of w !! s_id s = Some s → Sessions.active (w_now w) s = true →
  cap_ok (Auth.refreshFrom s meta w).2.
Proof.
  intros Hcap Hs Hact. unfold Auth.refreshFrom. rewrite run_bind. unfold Users.findById, db_find, gets.
  assert (Hrev : respects (keeps cap_ok) (_ ← Sessions.revoke (s_id s); Unauthorized (A := Auth.TokenPair) "Account is not active")).
  { unfold Sessions.revoke, Unauthorized. frame_tac. apply update_cap, shrinking_revoke. }
  destruct (_ !! s_userId s) as [user|]; [|by apply Hrev].
  case_bool_decide; [|by apply Hrev]. rewrite run_bind.
  destruct (Sessions.rotate _ _ w) as [[rs|e] w1] eqn:Hr; cbn.
  - by eapply rotate_cap.
  - apply Sessions.rotate_err in Hr as [Hd Hn]; [|done]. eapply view_cap; [|done].
    unfold session_view, Sessions.table_of. by rewrite Hd, Hn.
Qed.

(** The grace lookup reads only, and gives a stored live session. *)
Lemma graceSuccessor_run any w : ∃ o, Auth.graceSuccessor any w = (Ok o, w) ∧
  ∀ succ, o = Some succ →
    Sessions.active (w_now w) succ = true ∧ ∃ k, Sessions.table_of w !! k = Some succ.
Proof.
  unfold Auth.graceSuccessor. destruct any as [a|]; [|by eexists].
  destruct (s_revokedAt a) as [t|]; [|by eexists].
  destruct (s_replacedByTokenId a) as [next|]; [|by eexists].
  rewrite run_bind. unfold date_now, gets at 1. destruct (_ && _); [|by eexists].
  rewrite run_bind. unfold Sessions.findById, db_find, gets. cbn.
  change (db_sessions (w_db w)) with (Sessions.table_of w).
  destruct (Sessions.table_of w !! next) as [x|] eqn:Hx; [|by eexists].
  destruct (Sessions.active _ x) eqn:Ha; eexists; split; try done.
  intros succ [= <-]. eauto.
Qed.

Lemma refresh_cap raw meta : respects (keeps cap_ok) (Auth.refresh raw meta).
Proof.
  intros w Hcap. pose proof Hcap as (Hk & _). cbn [fst snd session_view] in Hk.
  unfold Auth.refresh. rewrite run_bind. unfold Sessions.findActiveByRawToken at 1.
  rewrite run_bind. unfold date_now, gets at 1. unfold db_find_by, gets at 1.
  change (t_get T_sessions (w_db w)) with (Sessions.table_of w).
  destruct (find_row _ (Sessions.table_of w)) as [s|] eqn:Hf.
  { apply find_row_Some in Hf as [HP [k Hs]]. unbool. rewrite <- (Hk k s Hs) in Hs.
    by apply refreshFrom_cap. }
  rewrite run_bind. unfold Sessions.findAnyByRawToken, db_find_by, gets at 1.
  change (t_get T_sessions (w_db w)) with (Sessions.table_of w).
  set (any := find_row _ (Sessions.table_of w)). rewrite run_bind.
  destruct (graceSuccessor_run any w) as (o & -> & Ho). destruct o as [succ|].
  - destruct (Ho succ eq_refl) as [Ha [k Hs]]. rewrite <- (Hk k succ Hs) in Hs.
    by apply refreshFrom_cap.
  - assert (respects (keeps cap_ok) (_ ← Auth.reuseDetected any meta;
        Unauthorized (A := Auth.TokenPair) "Session expired — please log in again")) as Hr; [|by apply Hr].
    unfold Auth.reuseDetected, Unauthorized, Sessions.revokeAllForUser.
    frame_tac; [apply update_many_cap, shrinking_revoke|].
    apply (respects_same_keeps session_view (cap_on 0 None)). frame_tac.
Qed.

Lemma transaction_view {A} (m : M A) :
  respects (same session_view) m → respects (same session_view) (transaction m).
Proof.
  intros H' w. specialize (H' w). unfold transaction, same, session_view in *.
  destruct (m w) as [[a|e] w']; cbn in *; [done|]. by injection H' as _ ->.
Qed.
#[local] Hint Extern 1 (respects (same session_view) (transaction _)) =>
  apply transaction_view; frame_tac : steph.
Lemma view_keeps {A} (m : M A) : respects (same session_view) m → respects (keeps cap_ok) m.
Proof. apply (respects_same_keeps session_view (cap_on 0 None)). Qed.

Lemma revokeAll_cap u : respects (keeps cap_ok) (Sessions.revokeAllForUser u).
Proof. unfold Sessions.revokeAllForUser. frame_tac. apply update_many_cap, shrinking_revoke. Qed.
Lemma revoke_cap id : respects (keeps cap_ok) (Sessions.revoke id).
Proof. unfold Sessions.revoke. frame_tac. apply update_cap, shrinking_revoke. Qed.
Lemma record_cap e : respects (keeps cap_ok) (Audit.record e).
Proof. apply view_keeps. frame_tac. Qed.
Lemma revokeUser_cap u : respects (keeps cap_ok) (Revocation.revokeUser u).
Proof. apply view_keeps. unfold Revocation.revokeUser. frame_tac. Qed.
Lemma consume_cap t p : respects (keeps cap_ok) (Auth.consumeVerificationToken t p).
Proof. apply view_keeps. unfold Auth.consumeVerificationToken, BadRequest. frame_tac. Qed.

Lemma transaction_cap {A} (m : M A) :
  respects (same w_now) m → respects (keeps cap_ok) m → respects (keeps cap_ok) (transaction m).
Proof.
  intros Hn Hc w Hw. specialize (Hn w). specialize (Hc w Hw). unfold transaction, same in *.
  destruct (m w) as [[a|e] w']; cbn in *; [done|]. eapply view_cap; [|exact Hw].
  unfold session_view. cbn. by rewrite Hn.
Qed.
Lemma delete_device_cap id : respects (keeps cap_ok) (Devices.delete_device id).
Proof.
  unfold Devices.delete_device. apply respects_bind; [apply _|apply view_keeps; frame_tac|].
  intros _. apply respects_bind; [apply _|apply update_many_cap, shrinking_device|].
  intros _. apply respects_ret, _.
Qed.
Lemma remove_cap u d : respects (keeps cap_ok) (Devices.remove u d).
Proof.
  unfold Devices.remove, NotFound. frame_tac. apply transaction_cap.
  - unfold Devices.delete_device. frame_tac.
  - apply respects_bind; [apply _|apply update_many_cap, shrinking_revoke|].
    intros _. apply delete_device_cap.
Qed.
Lemma deleteAccount_cap u pw : respects (keeps cap_ok) (Auth.deleteAccount u pw).
Proof.
  unfold Auth.deleteAccount, Users.findById, Unauthorized. frame_tac.
  - apply view_keeps. frame_tac.
  - apply transaction_cap; [frame_tac|].
    apply respects_bind; [apply _|apply view_keeps; frame_tac|intros _].
    apply respects_bind; [apply _|apply view_keeps; frame_tac|intros now].
    apply respects_bind; [apply _|apply update_many_cap, shrinking_revoke|intros _].
    apply view_keeps. frame_tac.
  - apply revokeUser_cap.
  - apply record_cap.
Qed.

#[local] Hint Resolve issueTokenPair_cap refresh_cap revokeAll_cap revoke_cap record_cap revokeUser_cap
  consume_cap remove_cap deleteAccount_cap : steph.

Lemma login_cap e p meta : envValidation cfg = true → respects (keeps cap_ok) (Auth.login e p meta).
Proof.
  intros Hcfg. unfold Auth.login. apply respects_bind; [apply _|apply view_keeps; unfold Users.findByEmail; frame_tac|].
  intros o. apply respects_bind; [apply _|apply view_keeps; frame_tac|intros now].
  destruct o as [user|]; [|apply view_keeps; unfold Auth.genericError, Unauthorized; frame_tac].
  destruct (Users.isLocked _ _); [apply view_keeps; unfold Unauthorized; frame_tac|].
  destruct (negb (bool_decide _)); [apply view_keeps; unfold Unauthorized; frame_tac|].
  destruct (negb _).
  { apply view_keeps. unfold Users.registerFailedLogin, Auth.genericError, Unauthorized. frame_tac. }
  apply respects_bind; [apply _|apply view_keeps; unfold Users.resetFailedLogins; frame_tac|intros _].
  apply respects_bind; [apply _|apply view_keeps; unfold Devices.findOrCreateDevice; frame_tac|intros dn].
  cbv zeta. destruct (dn.2).
  - apply view_keeps. unfold Auth.signChallenge, Auth.sign, Auth.now_seconds, Tokens.generateNumericCode,
      Email.sendDeviceVerificationCode. frame_tac.
  - apply respects_bind; [apply _|by apply issueTokenPair_cap|intros tp]. apply view_keeps. frame_tac.
Qed.
Lemma verifyLogin_cap t c meta :
  envValidation cfg = true → respects (keeps cap_ok) (Auth.verifyLogin key t c meta).
Proof.
  intros Hcfg. unfold Auth.verifyLogin.
  apply respects_bind; [apply _|apply view_keeps; unfold Auth.now_seconds; frame_tac|intros n].
  destruct (jwt_verify t n) as [[|sub dev method h]|];
    [apply view_keeps; unfold Unauthorized; frame_tac| |apply view_keeps; unfold Unauthorized; frame_tac].
  apply respects_bind; [apply _|apply view_keeps; unfold Users.findById; frame_tac|intros o].
  destruct o as [user|]; [|apply view_keeps; unfold Unauthorized; frame_tac].
  apply respects_bind; [apply _|apply view_keeps; unfold Revocation.registerChallengeAttempt; frame_tac|intros ok].
  destruct (negb ok); [apply view_keeps; unfold Unauthorized; frame_tac|].
  apply respects_bind; [apply _|apply view_keeps; unfold Auth.checkCode, lift, Unauthorized; frame_tac|intros valid].
  destruct (negb valid); [apply view_keeps; unfold Unauthorized; frame_tac|].
  apply respects_bind; [apply _|apply view_keeps; unfold Users.markEmailVerified; frame_tac|intros _].
  by apply issueTokenPair_cap.
Qed.

Lemma run_auth_cap o : envValidation cfg = true → ∀ w, cap_ok w → cap_ok (run_auth key o w).
Proof.
  intros Hcfg. enough (∀ w, keeps cap_ok w (run_auth key o w)) as Hall by exact Hall.
  destruct o; cbn [run_auth]; unfold after;
    match goal with |- ∀ w, keeps _ w (?m w).2 => change (respects (keeps cap_ok) m) end.
  - apply view_keeps. unfold Auth.register, Users.findByEmail, Conflict. frame_tac.
  - unfold Auth.verifyEmail. frame_tac. apply view_keeps. unfold Users.markEmailVerified. frame_tac.
  - by apply login_cap.
  - by apply verifyLogin_cap.
  - apply refresh_cap.
  - unfold Auth.logout, Sessions.findActiveByRawToken. frame_tac.
  - unfold Auth.logoutAll. frame_tac.
  - apply view_keeps. unfold Auth.forgotPassword, Users.findByEmail, Auth.issueVerificationToken,
      Tokens.generateOpaqueToken, Email.sendVerificationEmail, Email.sendPasswordResetEmail. frame_tac.
  - unfold Auth.resetPassword. frame_tac. all: apply view_keeps; unfold Users.updatePasswordHash; frame_tac.
  - apply view_keeps. unfold Auth.start2fa, Users.findById, Unauthorized, BadRequest,
      Encryption.encrypt, Users.setTwoFactorSecret, lift. frame_tac.
  - apply view_keeps. unfold Auth.confirm2fa, Users.findById, Unauthorized, BadRequest,
      Users.enableTwoFactor, lift. frame_tac.
  - apply view_keeps. unfold Auth.disable2fa, Users.findById, Unauthorized, Users.disableTwoFactor. frame_tac.
  - apply view_keeps. unfold Auth.listDevices, Devices.listForUser. frame_tac.
  - apply view_keeps. unfold Auth.listSessions, Sessions.listActiveForUser. frame_tac.
  - apply view_keeps. unfold Auth.trustDevice, Devices.trust, NotFound, Forbidden. frame_tac.
  - unfold Auth.removeDevice. frame_tac.
  - apply view_keeps. unfold Auth.exportData, Users.findById, Unauthorized. frame_tac.
  - apply deleteAccount_cap.
Qed.

Lemma time_cap t up w : w_now w ≤ t → cap_ok w → cap_ok (put_redis_up up (put_now t w)).
Proof.
  intros Ht (Hk & Hcap & _). split; [done|split; [|done]]. intros u. etrans; [|apply (Hcap u)].
  apply count_rows_mono. intros k x Hx HP. exists x. split; [done|]. cbn [fst snd session_view] in *.
  change (w_now (put_redis_up up (put_now t w))) with t in HP.
  unfold Sessions.active_of, Sessions.active in *. unbool.
  repeat (apply andb_true_iff; split); try done.
  - by apply bool_decide_eq_true.
  - apply Z.ltb_lt. lia.
Qed.
End cap.

(** In every state the service reaches from one that respects the cap,
    by any sequence of authentication requests (successful or not) with time
    passing and Redis coming and going in between, no account has more than
    MAX_TRUSTED_DEVICES sessions that can still be refreshed: a login at the
    cap signs the oldest sessions out, and a refresh replaces its session. *)
Lemma session_cap {cfg : config} `{Entropy, Argon2, Jwt, Totp, Aead, UAParser, GeoipLite, StripeApi}
    key w0 w :
  envValidation cfg = true →
  keyed s_id (Sessions.table_of w0) →
  (∀ u, Sessions.live_count w0 u ≤ MAX_TRUSTED_DEVICES cfg) →
  star (auth_step key) w0 w →
  ∀ u, Sessions.live_count w u ≤ MAX_TRUSTED_DEVICES cfg.
Proof.
  intros Hcfg Hk Hcap Hstar u.
  enough (cap_ok w) as (_ & Hc & _) by apply Hc.
  eapply (star_invariant (auth_step key) cap_ok); [|exact Hstar|].
  - intros w1 w2 Hw Hs. destruct Hs; [by apply run_auth_cap|by apply time_cap].
  - split; [done|by split].
Qed.

Section examples.
#[local] Existing Instances default_config counter_entropy plain_argon2 plain_jwt echo_totp toy_gcm
  plain_ua empty_geoip counting_stripe.
Definition browser (id : string) : Auth.RequestMeta := Auth.Meta (Some "203.0.113.7") (Some "Firefox") id.
(** The state after Ann registers, logs in from a new browser and enters the
    code of the e-mail. *)
Definition registered : world := Eval vm_compute in
  run_auth [] (OpRegister "Ann@Example.com" "Ann" "correct horse" None (browser "b1")) (initial_world 1000000).
Definition challenge_of (w : world) : string :=
  match (Auth.login "ann@example.com" "correct horse" (browser "b1") w).1 with
  | Ok (Auth.RequiresVerification _ t) => t
  | _ => EmptyString
  end.
Definition challenged : world := Eval vm_compute in
  run_auth [] (OpLogin "ann@example.com" "correct horse" (browser "b1")) registered.
Definition code_of (w : world) : string :=
  match last (w_emailQueue w) with
  | Some j => match ej_data j with [_; (_, JStr c)] => c | _ => EmptyString end
  | None => EmptyString
  end.
Definition ann_challenge : string := Eval vm_compute in challenge_of registered.
Definition ann_code : string := Eval vm_compute in code_of challenged.
Definition logged_in : world := Eval vm_compute in
  run_auth [] (OpVerifyLogin ann_challenge ann_code (browser "b1")) challenged.
(** Each world is what the request before it leaves. *)
Lemma registered_run :
  run_auth [] (OpRegister "Ann@Example.com" "Ann" "correct horse" None (browser "b1")) (initial_world 1000000) = registered.
Proof. vm_compute. reflexivity. Qed.
Lemma challenged_run : run_auth [] (OpLogin "ann@example.com" "correct horse" (browser "b1")) registered = challenged.
Proof. vm_compute. reflexivity. Qed.
Definition ann_key : string := Eval vm_compute in Revocation.challenge_key ann_challenge.
Lemma ann_key_is : Revocation.challenge_key ann_challenge = ann_key.
Proof. vm_compute. reflexivity. Qed.
Definition pair_of (r : res Auth.TokenPair) : Auth.TokenPair :=
  match r with Ok p => p | Err _ => Auth.Pair EmptyString EmptyString 0 end.
Definition ann_tokens : Auth.TokenPair := Eval vm_compute in
  pair_of (Auth.verifyLogin [] ann_challenge ann_code (browser "b1") challenged).1.
Lemma ann_verifies : Auth.verifyLogin [] ann_challenge ann_code (browser "b1") challenged = (Ok ann_tokens, logged_in).
Proof. unfold Auth.verifyLogin, Revocation.registerChallengeAttempt. rewrite ann_key_is. vm_compute. reflexivity. Qed.
Lemma logged_in_run : run_auth [] (OpVerifyLogin ann_challenge ann_code (browser "b1")) challenged = logged_in.
Proof. change (run_auth [] (OpVerifyLogin ?t ?c ?m) ?w) with (Auth.verifyLogin [] t c m w).2. by rewrite ann_verifies. Qed.

Lemma session_cap_witness :
  size (Sessions.table_of logged_in) = 1%nat ∧ Sessions.live_count logged_in "id-1" ≤ 3.
Proof.
  split; [vm_compute; reflexivity|].
  refine (session_cap [] (initial_world 1000000) logged_in default_config_valid _ _ _ "id-1").
  - intros k s Hs. change ((∅ : gmap string session) !! k = Some s) in Hs.
    by apply lookup_empty_Some in Hs.
  - intros u. apply Z.leb_le. vm_compute. reflexivity.
  - rewrite <- logged_in_run. apply star_next with registered; [rewrite <- registered_run; apply auth_request|].
    apply star_next with challenged; [rewrite <- challenged_run; apply auth_request|].
    eapply star_next; [apply auth_request|apply star_here].
Defined.
End examples.
