(* ===== verification/AuthProps.v ===== *)
(** Correctness of AuthService: who is let in, when an account locks, how
    many guesses a challenge takes, what a refresh token is worth, and what a
    password reset, a registration or an erasure leaves behind. *)
From S2P Require Import Prelude JsLib Crypto Schema Effects Platform Config Messaging Tokens Revocation Users Sessions Billing Auth Instances AuthSessions.

Section facts.
Context {cfg : config} `{Entropy, Argon2, Jwt, Totp, Aead, UAParser, GeoipLite, StripeApi}.
Context (key : list Z).

(** *** Login *)

(** The account an e-mail address names. *)
Definition account (email : string) (w : world) : option user :=
  find_row (λ u, seq_b (u_email u) (Users.normalizeEmail email)) (db_users (w_db w)).
(** The password check may be made and succeeds. *)
Definition admitted (now : Z) (u : user) (password : string) : Prop :=
  Users.isLocked now u = false ∧ u_status u = UserActive ∧ Auth.passwordValid u password = true.
Definition known_device (w : world) (u : user) (rawDeviceId : string) : Prop :=
  ∃ k d, db_devices (w_db w) !! k = Some d ∧ d_userId d = u_id u ∧
    d_fingerprint d = Client.hashDeviceId rawDeviceId.

Lemma account_run email w : Users.findByEmail email w = (Ok (account email w), w).
Proof. done. Qed.

(** The branch of [login] after a valid password. *)
Definition device_branch (user : user) (meta : Auth.RequestMeta) (dn : device * bool) : M Auth.login_result :=
  let deviceId := d_id dn.1 in
  if (dn.2 : bool) then
    if u_twoFactorEnabled user then
      challengeToken ← Auth.signChallenge (LoginChallenge (u_id user) deviceId TOTP None);
      _ ← Audit.record (Audit.with_ip (Auth.rm_ipAddress meta)
            (Audit.with_meta (Auth.login_metadata deviceId TOTP)
               (Audit.by_actor (u_id user) "auth.new_device_challenge")));
      mret (Auth.RequiresVerification TOTP challengeToken)
    else
      code ← Tokens.generateNumericCode;
      challengeToken ← Auth.signChallenge
        (LoginChallenge (u_id user) deviceId EMAIL_CODE (Some (Tokens.hash code)));
      _ ← Email.sendDeviceVerificationCode (u_email user) code;
      _ ← Audit.record (Audit.with_ip (Auth.rm_ipAddress meta)
            (Audit.with_meta (Auth.login_metadata deviceId EMAIL_CODE)
               (Audit.by_actor (u_id user) "auth.new_device_challenge")));
      mret (Auth.RequiresVerification EMAIL_CODE challengeToken)
  else
    p ← Auth.issueTokenPair (u_id user) deviceId meta false;
    mret (Auth.LoggedIn p).

Lemma login_admitted e pw meta w u :
  account e w = Some u → admitted (w_now w) u pw →
  Auth.login e pw meta w =
  (_ ← Users.resetFailedLogins (u_id u);
   dn ← Devices.findOrCreateDevice (u_id u) (Client.hashDeviceId (Auth.rm_rawDeviceId meta))
          (Client.describeUserAgent (Auth.rm_userAgent meta));
   device_branch u meta dn) w.
Proof.
  intros Ha (Hl & Hs & Hp). unfold Auth.login. rewrite run_bind, account_run, Ha.
  rewrite run_bind. unfold date_now, gets at 1. rewrite Hl, Hs, Hp.
  by rewrite bool_decide_eq_true_2.
Qed.

(** The rows are stored under their ids. *)
Lemma account_stored e w u :
  keyed u_id (db_users (w_db w)) → account e w = Some u →
  Users.user_of w (u_id u) = Some u ∧ u_email u = Users.normalizeEmail e.
Proof.
  intros Hk Ha. apply find_row_Some in Ha as [HP [k Hu]]. unfold Users.user_of.
  rewrite (Hk k u Hu). unfold seq_b in HP. by unbool.
Qed.

(** The world after a refused password. *)
Definition after_refusal (u : user) (meta : Auth.RequestMeta) (w : world) : world :=
  Audit.recorded (Audit.with_ip (Auth.rm_ipAddress meta) (Audit.by_actor (u_id u) "auth.login_failed"))
    (Users.set_users (<[u_id u := Users.failed (w_now w) u]> (db_users (w_db w))) w).

Lemma login_wrong_password e pw meta w u :
  keyed u_id (db_users (w_db w)) → account e w = Some u →
  Users.isLocked (w_now w) u = false → u_status u = UserActive → Auth.passwordValid u pw = false →
  Auth.login e pw meta w =
  (Err (Http 401 (if LOGIN_MAX_ATTEMPTS cfg <=? u_failedLoginCount u + 1
                  then "Too many failed login attempts. This account is temporarily locked."
                  else "Invalid email or password")), after_refusal u meta w).
Proof.
  intros Hk Ha Hl Hs Hp. destruct (account_stored _ _ _ Hk Ha) as [Hu _].
  unfold Auth.login. rewrite run_bind, account_run, Ha, run_bind.
  unfold date_now, gets at 1. rewrite Hl, Hs, Hp. rewrite bool_decide_eq_true_2 by done. cbn [negb].
  rewrite run_bind, (Users.registerFailedLogin_run _ _ _ Hu), run_bind.
  rewrite Audit.record_run; last first.
  { intros k [= <-]. eapply Users.user_exists_of, Users.user_of_set. }
  by destruct (_ <=? _).
Qed.

(** Whatever is refused is refused with 401. *)
Lemma login_refused e pw meta w :
  keyed u_id (db_users (w_db w)) →
  (∀ u, account e w = Some u → ¬ admitted (w_now w) u pw) →
  ∃ m w', Auth.login e pw meta w = (Err (Http 401 m), w') ∧
    Sessions.table_of w' = Sessions.table_of w.
Proof.
  intros Hk Hno. destruct (account e w) as [u|] eqn:Ha.
  - specialize (Hno u eq_refl). unfold admitted in Hno.
    destruct (Users.isLocked (w_now w) u) eqn:Hl.
    { unfold Auth.login. rewrite run_bind, account_run, Ha, run_bind.
      unfold date_now, gets at 1. rewrite Hl. by do 2 eexists. }
    destruct (decide (u_status u = UserActive)) as [Hs|Hs]; last first.
    { unfold Auth.login. rewrite run_bind, account_run, Ha, run_bind.
      unfold date_now, gets at 1. rewrite Hl, bool_decide_eq_false_2 by done. by do 2 eexists. }
    destruct (Auth.passwordValid u pw) eqn:Hp; [naive_solver|].
    rewrite (login_wrong_password _ _ _ _ u) by done. by do 2 eexists.
  - unfold Auth.login. rewrite run_bind, account_run, Ha. by do 2 eexists.
Qed.

(** *** The lockout *)

(** A sequence of login attempts at the same e-mail address. *)
Fixpoint attempts (e : string) (l : list (string * Auth.RequestMeta)) (w : world) : world :=
  match l with
  | [] => w
  | (pw, meta) :: l => attempts e l (after (Auth.login e pw meta) w)
  end.

Lemma users_conflict_sym a b : t_conflict T_users a b = t_conflict T_users b a.
Proof.
  cbn. unfold seq_b. apply eq_true_iff_eq.
  rewrite !orb_true_iff, !andb_true_iff, !bool_decide_eq_true. naive_solver congruence.
Qed.

(** The account of an e-mail after its row was updated in place. *)
Lemma account_update e w u u' :
  keyed u_id (db_users (w_db w)) → unique_ok T_users (db_users (w_db w)) →
  account e w = Some u → u_id u' = u_id u → u_email u' = u_email u →
  u_stripeCustomerId u' = u_stripeCustomerId u →
  let m := <[u_id u := u']> (db_users (w_db w)) in
  keyed u_id m ∧ unique_ok T_users m ∧ account e (Users.set_users m w) = Some u'.
Proof.
  intros Hk Hu Ha Hid Hem Hst m. destruct (account_stored _ _ _ Hk Ha) as [Hrow Hmail].
  assert (Hu' : unique_ok T_users m).
  { apply unique_ok_insert; [apply users_conflict_sym|done|].
    apply has_conflict_update with u; [done|done|]. intros x. cbn. by rewrite Hem, Hst. }
  assert (Hm : m !! u_id u = Some u') by (unfold m; by rewrite lookup_insert_eq).
  split_and!; [by apply keyed_insert|done|].
  unfold account. change (db_users (w_db (Users.set_users m w))) with m.
  apply find_row_unique with (u_id u); [done|unfold seq_b; by rewrite Hem, Hmail, bool_decide_eq_true_2|].
  intros k r Hr HP. destruct (decide (k = u_id u)) as [->|Hne]; [congruence|].
  pose proof (Hu' _ _ _ _ Hr Hm Hne) as Hc. cbn in Hc. unbool. unfold seq_b in *. unbool. congruence.
Qed.

Lemma failed_fields now u :
  u_id (Users.failed now u) = u_id u ∧ u_email (Users.failed now u) = u_email u ∧
  u_stripeCustomerId (Users.failed now u) = u_stripeCustomerId u ∧
  u_passwordHash (Users.failed now u) = u_passwordHash u ∧
  u_status (Users.failed now u) = u_status u.
Proof. unfold Users.failed. by destruct (_ <=? _). Qed.

Lemma attempts_lock e l w u :
  keyed u_id (db_users (w_db w)) → unique_ok T_users (db_users (w_db w)) →
  account e w = Some u → u_status u = UserActive → Users.isLocked (w_now w) u = false →
  1 ≤ Z.of_nat (length l) → Z.of_nat (length l) = LOGIN_MAX_ATTEMPTS cfg - u_failedLoginCount u →
  Forall (λ a, Auth.passwordValid u a.1 = false) l →
  ∃ u', account e (attempts e l w) = Some u' ∧ w_now (attempts e l w) = w_now w ∧
    u_lockedUntil u' = Some (w_now w + LOGIN_LOCKOUT_MINUTES cfg * 60000).
Proof.
  revert w u. induction l as [|[pw meta] l IH]; intros w u Hk Hq Ha Hs Hl Hone Hlen Hbad; [cbn in Hone; lia|].
  inversion Hbad as [|?? Hp Hbad']; subst. cbn [attempts fst] in *. unfold after.
  rewrite (login_wrong_password _ _ _ _ u) by done. cbn [snd].
  destruct (failed_fields (w_now w) u) as (Fi & Fe & Fc & Fp & Fs).
  destruct (account_update e w u (Users.failed (w_now w) u) Hk Hq Ha Fi Fe Fc) as (Hk' & Hq' & Ha').
  change (account e (Users.set_users ?m w)) with (account e (after_refusal u meta w)) in Ha'.
  destruct (decide (l = [])) as [->|Hne].
  - exists (Users.failed (w_now w) u). cbn [attempts length] in *. split_and!; [done|done|].
    unfold Users.failed. by rewrite (proj2 (Z.leb_le _ _)) by lia.
  - assert (1 ≤ Z.of_nat (length l)) as Hl1 by (destruct l; cbn in *; [done|lia]).
    assert ((LOGIN_MAX_ATTEMPTS cfg <=? u_failedLoginCount u + 1) = false) as Hlt.
    { apply Z.leb_gt. cbn [length] in Hlen. lia. }
    apply (IH (after_refusal u meta w) (Users.failed (w_now w) u)); auto.
    + by rewrite Fs.
    + unfold Users.failed. rewrite Hlt. done.
    + unfold Users.failed. rewrite Hlt. cbn [length u_failedLoginCount set_u_failedLoginCount] in *. lia.
    + eapply Forall_impl; [exact Hbad'|]. intros a Hva. unfold Auth.passwordValid in *. by rewrite Fp.
Qed.

Lemma login_locked e pw meta w u :
  account e w = Some u → Users.isLocked (w_now w) u = true →
  Auth.login e pw meta w = (Err (Http 401 "Too many failed login attempts. Try again later."), w).
Proof.
  intros Ha Hl. unfold Auth.login. rewrite run_bind, account_run, Ha, run_bind.
  unfold date_now, gets at 1. by rewrite Hl.
Qed.

(** *** Devices and challenges *)
Definition device_row (w : world) (userId fingerprint : string) : Prop :=
  ∃ k d, db_devices (w_db w) !! k = Some d ∧ d_userId d = userId ∧ d_fingerprint d = fingerprint.

Lemma device_filter userId fp d :
  Devices.of_user userId d && seq_b (d_fingerprint d) fp = true ↔ d_userId d = userId ∧ d_fingerprint d = fp.
Proof. unfold Devices.of_user, seq_b. by rewrite andb_true_iff, !bool_decide_eq_true. Qed.

Lemma findOrCreateDevice_inv userId fp desc w d isNew w' :
  Devices.findOrCreateDevice userId fp desc w = (Ok (d, isNew), w') →
  device_row w' userId fp ∧ (isNew = false ↔ device_row w userId fp).
Proof.
  unfold Devices.findOrCreateDevice. rewrite run_bind. unfold db_find_by, gets at 1.
  cbn [t_get T_devices]. rewrite run_bind. unfold date_now, gets at 1.
  set (P := λ x, _ && _). destruct (find_row P _) as [e|] eqn:Hf.
  - apply find_row_Some in Hf as [HP [k He]]. unfold P in HP. rewrite device_filter in HP.
    destruct HP as [HPu HPf]. intros Hr. inv_binds Hr.
    apply db_update_inv in Hx as (r & Hr & -> & ->). cbn [t_get T_devices] in Hr.
    split; [|split; [intros _; by exists k, e|done]].
    destruct (decide (k = d_id e)) as [->|Hne].
    + exists (d_id e), (set_d_lastSeenAt (w_now w) r). cbn. rewrite lookup_insert_eq.
      rewrite He in Hr. injection Hr as <-. done.
    + exists k, e. cbn. by rewrite lookup_insert_ne.
  - rewrite find_row_None in Hf. intros Hr. inv_binds Hr.
    apply db_create_inv in Hx0 as (-> & _ & _ & _ & ->).
    split.
    + do 2 eexists. cbn. by rewrite lookup_insert_eq.
    + split; [done|]. intros (k & d & Hd & Hu & Hfp). specialize (Hf k d Hd).
      unfold P in Hf. by rewrite (proj2 (device_filter userId fp d)) in Hf.
Qed.

Lemma device_branch_kind u meta d isNew w :
  match (device_branch u meta (d, isNew) w).1 with
  | Ok (Auth.LoggedIn _) => isNew = false
  | Ok (Auth.RequiresVerification m t) =>
      isNew = true ∧ (m = TOTP ↔ u_twoFactorEnabled u = true) ∧
      Sessions.table_of (device_branch u meta (d, isNew) w).2 = Sessions.table_of w
  | Err _ => True
  end.
Proof.
  assert (Hnew : isNew = true →
    respects (same Sessions.table_of) (device_branch u meta (d, isNew))).
  { intros ->. unfold device_branch, Auth.signChallenge, Auth.sign, Auth.now_seconds,
      Tokens.generateNumericCode, Email.sendDeviceVerificationCode. cbn [fst snd]. frame_tac. }
  destruct isNew; cycle 1.
  { unfold device_branch. cbn [fst snd]. rewrite run_bind.
    by destruct (Auth.issueTokenPair _ _ _ _ w) as [[p|er] w1]. }
  specialize (Hnew eq_refl w). unfold same in Hnew.
  destruct (device_branch u meta (d, true) w) as [[r|er] w'] eqn:E; [|done].
  cbn [fst snd] in *. unfold device_branch in E. cbn [fst snd] in E.
  destruct (u_twoFactorEnabled u); inv_binds E; naive_solver.
Qed.

Lemma reset_devices u w :
  db_devices (w_db (Users.resetFailedLogins u w).2) = db_devices (w_db w).
Proof.
  enough (respects (same (λ w, db_devices (w_db w))) (Users.resetFailedLogins u)) as Hs by apply Hs.
  unfold Users.resetFailedLogins. frame_tac.
Qed.
Lemma reset_sessions u w :
  Sessions.table_of (Users.resetFailedLogins u w).2 = Sessions.table_of w.
Proof.
  enough (respects (same Sessions.table_of) (Users.resetFailedLogins u)) as Hs by apply Hs.
  unfold Users.resetFailedLogins. frame_tac.
Qed.
Lemma findOrCreate_sessions u fp desc w :
  Sessions.table_of (Devices.findOrCreateDevice u fp desc w).2 = Sessions.table_of w.
Proof.
  enough (respects (same Sessions.table_of) (Devices.findOrCreateDevice u fp desc)) as Hs by apply Hs.
  unfold Devices.findOrCreateDevice. frame_tac.
Qed.
(** The branch after the challenge leaves the device registered. *)
Lemma challenge_keeps_device u meta d w id fp :
  device_row w id fp → device_row (device_branch u meta (d, true) w).2 id fp.
Proof.
  intros Hd. enough (respects (same (λ w, db_devices (w_db w))) (device_branch u meta (d, true))) as Hs.
  { specialize (Hs w). unfold same in Hs. unfold device_row. by rewrite Hs. }
  unfold device_branch, Auth.signChallenge, Auth.sign, Auth.now_seconds,
    Tokens.generateNumericCode, Email.sendDeviceVerificationCode. cbn [fst snd]. frame_tac.
Qed.

(** The decision of [login] on every outcome. *)
Lemma login_outcome e pw meta w r w' :
  Auth.login e pw meta w = (Ok r, w') → keyed u_id (db_users (w_db w)) →
  ∃ u, account e w = Some u ∧ admitted (w_now w) u pw ∧
    let fp := Client.hashDeviceId (Auth.rm_rawDeviceId meta) in
    match r with
    | Auth.LoggedIn _ => device_row w (u_id u) fp
    | Auth.RequiresVerification m t =>
        ¬ device_row w (u_id u) fp ∧ device_row w' (u_id u) fp ∧
        (m = TOTP ↔ u_twoFactorEnabled u = true) ∧ Sessions.table_of w' = Sessions.table_of w
    end.
Proof.
  intros Hlog Hk.
  assert (∃ u, account e w = Some u ∧ admitted (w_now w) u pw) as (u & Ha & Hadm).
  { destruct (account e w) as [u|] eqn:Ha.
    - destruct (decide (Users.isLocked (w_now w) u = false ∧ u_status u = UserActive ∧
                        Auth.passwordValid u pw = true)) as [Had|Hna]; [by exists u|].
      destruct (login_refused e pw meta w Hk) as (m & w1 & Hl & _); [|congruence].
      intros u' Hu'. rewrite Ha in Hu'. by injection Hu' as <-.
    - destruct (login_refused e pw meta w Hk) as (m & w1 & Hl & _); [|congruence].
      intros u Hu. congruence. }
  exists u. split; [done|split; [done|]]. cbv zeta.
  rewrite (login_admitted e pw meta w u Ha Hadm) in Hlog. rewrite run_bind in Hlog.
  pose proof (reset_devices (u_id u) w) as Hrd. pose proof (reset_sessions (u_id u) w) as Hrs.
  destruct (Users.resetFailedLogins (u_id u) w) as [[[]|er] w1]; [|done]. cbn [snd] in *.
  rewrite run_bind in Hlog.
  pose proof (findOrCreate_sessions (u_id u) (Client.hashDeviceId (Auth.rm_rawDeviceId meta))
    (Client.describeUserAgent (Auth.rm_userAgent meta)) w1) as Hfs.
  destruct (Devices.findOrCreateDevice _ _ _ w1) as [[[d isNew]|er] w2] eqn:Hdev; [|done].
  apply findOrCreateDevice_inv in Hdev as [Hafter Hnew]. cbn [snd] in *.
  assert (Hrow : device_row w1 (u_id u) (Client.hashDeviceId (Auth.rm_rawDeviceId meta)) ↔
                 device_row w (u_id u) (Client.hashDeviceId (Auth.rm_rawDeviceId meta))).
  { unfold device_row. by rewrite Hrd. }
  pose proof (device_branch_kind u meta d isNew w2) as Hkind. rewrite Hlog in Hkind.
  cbn [fst snd] in Hkind. destruct r as [p|m t].
  - apply Hrow, Hnew. done.
  - destruct Hkind as (-> & Hm & Hs). split_and!; [| |done|congruence].
    + rewrite <- Hrow. intros Hd. apply Hnew in Hd. done.
    + pose proof (challenge_keeps_device u meta d w2 _ _ Hafter) as Hc. by rewrite Hlog in Hc.
Qed.

(** *** The challenge *)

(** The part of the world the attempt counter lives in. *)
Definition counter_view (w : world) := (w_redis w, w_redis_up w, w_now w).

Lemma issueTokenPair_frame uid dev meta isNew :
  respects (same counter_view) (Auth.issueTokenPair uid dev meta isNew) ∧
  respects users_grow (Auth.issueTokenPair uid dev meta isNew).
Proof.
  split; unfold Auth.issueTokenPair, Users.findById, Risk.assess, Sessions.enforceLimit,
    Auth.signAccessToken, Auth.sign, Auth.now_seconds, Sessions.create, Tokens.generateOpaqueToken,
    Users.updateLastLogin, Email.sendWelcomeEmail, Unauthorized; frame_tac.
Qed.
Lemma checkCode_run user m h code w : ∃ r, Auth.checkCode key user m h code w = (r, w).
Proof.
  unfold Auth.checkCode, Unauthorized, throw, lift. destruct m.
  - destruct h as [h|]; [destruct (Str.nonempty h)|]; eexists; reflexivity.
  - destruct (u_twoFactorSecret user) as [enc|]; [|eexists; reflexivity].
    destruct (Str.nonempty enc); [|eexists; reflexivity]. rewrite run_bind.
    destruct (Encryption.decrypt _ _); eexists; reflexivity.
Qed.
Lemma checkCode_true user m h code w :
  Auth.checkCode key user m h code w = (Ok true, w) →
  match m with
  | EMAIL_CODE => h = Some (Tokens.hash code)
  | TOTP => ∃ enc secret, u_twoFactorSecret user = Some enc ∧
              Encryption.decrypt key enc = Ok secret ∧ totp_verify secret code (w_now w) = Ok true
  end.
Proof.
  unfold Auth.checkCode. destruct m.
  - destruct h as [h|]; [|done]. destruct (Str.nonempty h); [|done].
    intros [= E]. unfold seq_b in E. unbool. by rewrite E.
  - destruct (u_twoFactorSecret user) as [enc|]; [|done]. destruct (Str.nonempty enc); [|done].
    unfold lift. rewrite run_bind. destruct (Encryption.decrypt _ _) as [secret|] eqn:Hd; [|done].
    rewrite run_bind. unfold date_now, gets. intros [= E]. eauto.
Qed.

(** [verifyLogin] once the challenge is read: the attempt, then the code. *)
Definition code_step (user : user) (deviceId : string) (m : challenge_method) (h : option string)
    (code : string) (meta : Auth.RequestMeta) (within : bool) : M Auth.TokenPair :=
  if negb within then Unauthorized "Too many attempts — please log in again"
  else
    codeValid ← Auth.checkCode key user m h code;
    if negb codeValid then
      _ ← Audit.record (Audit.with_ip (Auth.rm_ipAddress meta)
            (Audit.by_actor (u_id user) "auth.device_verification_failed"));
      Unauthorized "Invalid code"
    else
      _ ← when (bool_decide (m = EMAIL_CODE) && bool_decide (u_emailVerifiedAt user = None))
            (_ ← Users.markEmailVerified (u_id user); mret tt);
      Auth.issueTokenPair (u_id user) deviceId meta true.

Lemma verifyLogin_read tok code meta w sub dev m h u :
  jwt_verify tok (w_now w / 1000) = Some (LoginChallenge sub dev m h) →
  db_users (w_db w) !! sub = Some u →
  Auth.verifyLogin key tok code meta w =
  (within ← Revocation.registerChallengeAttempt tok (Auth.LOGIN_CHALLENGE_EXPIRY_MINUTES * 60);
   code_step u dev m h code meta within) w.
Proof.
  intros Hj Hu. unfold Auth.verifyLogin. rewrite run_bind. unfold Auth.now_seconds, date_now, gets at 1.
  rewrite run_bind. cbn [fst snd mret M_ret]. rewrite Hj, run_bind.
  unfold Users.findById, db_find, gets at 1. cbn [t_get T_users]. by rewrite Hu.
Qed.

(** What follows the count. *)
Lemma verifyLogin_counted tok code meta w sub dev m h u :
  jwt_verify tok (w_now w / 1000) = Some (LoginChallenge sub dev m h) →
  db_users (w_db w) !! sub = Some u →
  let ttl := Auth.LOGIN_CHALLENGE_EXPIRY_MINUTES * 60 in
  let w1 := (Revocation.registerChallengeAttempt tok ttl w).2 in
  ((Revocation.registerChallengeAttempt tok ttl w).1 = Ok false →
     Auth.verifyLogin key tok code meta w = (Err (Http 401 "Too many attempts — please log in again"), w1)) ∧
  (∀ p w', Auth.verifyLogin key tok code meta w = (Ok p, w') →
     (Revocation.registerChallengeAttempt tok ttl w).1 = Ok true ∧
     Auth.checkCode key u m h code w1 = (Ok true, w1)) ∧
  counter_view (Auth.verifyLogin key tok code meta w).2 = counter_view w1 ∧
  users_grow w1 (Auth.verifyLogin key tok code meta w).2.
Proof.
  intros Hj Hu ttl w1. pose proof (Revocation.registerChallengeAttempt_result tok ttl w) as Hres.
  rewrite (verifyLogin_read tok code meta w sub dev m h u Hj Hu). rewrite run_bind. fold ttl.
  unfold w1. destruct (Revocation.registerChallengeAttempt tok ttl w) as [r w1'] eqn:E. cbn [fst snd] in *.
  subst r. set (within := _ || _). unfold code_step.
  destruct within; cbn [negb].
  2: by unfold Unauthorized, throw; split_and!; [|intros ? ? [=]| |].
  split; [by intros [=]|]. rewrite run_bind.
  destruct (checkCode_run u m h code w1') as [r Hr]. rewrite Hr.
  destruct r as [[|]|er]; cbn [negb].
  - set (rest := _ ≫= _).
    assert (respects (same counter_view) rest ∧ respects users_grow rest) as [Hc Hg].
    { unfold rest. destruct (issueTokenPair_frame (u_id u) dev meta true).
      split; unfold Users.markEmailVerified; frame_tac. }
    split_and!; [done|apply Hc|apply Hg].
  - set (rest := _ ≫= _).
    assert (respects (same counter_view) rest ∧ respects users_grow rest) as [Hc Hg].
    { unfold rest, Unauthorized. split; frame_tac. }
    split_and!; [|apply Hc|apply Hg].
    intros p w' Hp. unfold rest in Hp. inv_binds Hp. done.
  - by split_and!; [intros ? ? [=]| |].
Qed.

Fixpoint guesses (tok : string) (l : list (string * Auth.RequestMeta)) (w : world) : world :=
  match l with
  | [] => w
  | (code, meta) :: l => guesses tok l (after (Auth.verifyLogin key tok code meta) w)
  end.

Lemma guesses_count tok sub dev m h l w n :
  jwt_verify tok (w_now w / 1000) = Some (LoginChallenge sub dev m h) →
  is_Some (db_users (w_db w) !! sub) → w_redis_up w = true →
  Revocation.next_count w (Revocation.challenge_key tok) = n →
  let w' := guesses tok l w in
  is_Some (db_users (w_db w') !! sub) ∧ w_redis_up w' = true ∧ w_now w' = w_now w ∧
  Revocation.next_count w' (Revocation.challenge_key tok) = n + Z.of_nat (length l).
Proof.
  revert w n. induction l as [|[code meta] l IH]; intros w n Hj [u Hu] Hup Hn; cbn [guesses length].
  { split_and!; [by eexists|done|done|lia]. }
  destruct (verifyLogin_counted tok code meta w sub dev m h u Hj Hu) as (_ & _ & Hc & Hg).
  pose proof (Revocation.registerChallengeAttempt_count tok (Auth.LOGIN_CHALLENGE_EXPIRY_MINUTES * 60) w
    Hup eq_refl) as (Hlive & Hup1 & Hnow1 & Hdb1).
  unfold after. set (w2 := (Auth.verifyLogin key tok code meta w).2) in *.
  set (w1 := (Revocation.registerChallengeAttempt _ _ w).2) in *.
  injection Hc as Hr2 Hup2 Hnow2.
  destruct (IH w2 (n + 1)) as (HI1 & HI2 & HI3 & HI4).
  - rewrite Hnow2, Hnow1. done.
  - apply Hg. rewrite Hdb1. by eexists.
  - congruence.
  - unfold Revocation.next_count. replace (redis_live w2 (Revocation.challenge_key tok)) with
      (redis_live w1 (Revocation.challenge_key tok)); [rewrite Hlive; lia|].
    unfold redis_live. by rewrite Hr2, Hnow2.
  - split_and!; [done|done|congruence|lia].
Qed.
End facts.

(** C11. As many wrong passwords in a row as LOGIN_MAX_ATTEMPTS still allows
    lock the account: during the LOGIN_LOCKOUT_MINUTES that follow every
    login is refused with 401 and changes nothing, the right password
    included, from whatever browser or address. *)
Theorem login_lockout {cfg : config}
    `{Entropy, Argon2, Jwt, Totp, Aead, UAParser, GeoipLite, StripeApi} e l w u :
  keyed u_id (db_users (w_db w)) → unique_ok T_users (db_users (w_db w)) →
  account e w = Some u → u_status u = UserActive → Users.isLocked (w_now w) u = false →
  l ≠ [] → Z.of_nat (length l) = LOGIN_MAX_ATTEMPTS cfg - u_failedLoginCount u →
  Forall (λ a, Auth.passwordValid u a.1 = false) l →
  ∀ pw meta up t, w_now w ≤ t < w_now w + LOGIN_LOCKOUT_MINUTES cfg * 60000 →
    let w' := put_redis_up up (put_now t (attempts e l w)) in
    Auth.login e pw meta w' = (Err (Http 401 "Too many failed login attempts. Try again later."), w').
Proof.
  intros Hk Hq Ha Hs Hl Hne Hlen Hbad pw meta up t Ht w'.
  assert (1 ≤ Z.of_nat (length l)) as Hone by (destruct l; cbn [length]; [done|lia]).
  destruct (attempts_lock e l w u Hk Hq Ha Hs Hl Hone Hlen Hbad) as (u' & Ha' & _ & Hlock).
  apply login_locked with u'; [done|]. unfold Users.isLocked. rewrite Hlock. apply Z.ltb_lt.
  change (w_now w') with t. lia.
Qed.

(** C12. The decision of [login]: a token pair is issued only for an unlocked,
    active account whose password verifies, and only from a device already
    registered for it; a valid password from any other device gets a
    challenge (TOTP exactly when 2FA is enabled, an e-mailed code otherwise)
    and no session; everything else is refused with 401 and no session is
    touched. *)
Theorem login_decision {cfg : config}
    `{Entropy, Argon2, Jwt, Totp, Aead, UAParser, GeoipLite, StripeApi} e pw meta w :
  keyed u_id (db_users (w_db w)) →
  let fp := Client.hashDeviceId (Auth.rm_rawDeviceId meta) in
  (∀ p w', Auth.login e pw meta w = (Ok (Auth.LoggedIn p), w') →
     ∃ u, account e w = Some u ∧ admitted (w_now w) u pw ∧ device_row w (u_id u) fp) ∧
  (∀ m t w', Auth.login e pw meta w = (Ok (Auth.RequiresVerification m t), w') →
     ∃ u, account e w = Some u ∧ admitted (w_now w) u pw ∧ ¬ device_row w (u_id u) fp ∧
       (m = TOTP ↔ u_twoFactorEnabled u = true) ∧ Sessions.table_of w' = Sessions.table_of w) ∧
  ((∀ u, account e w = Some u → ¬ admitted (w_now w) u pw) →
     ∃ m w', Auth.login e pw meta w = (Err (Http 401 m), w') ∧
       Sessions.table_of w' = Sessions.table_of w).
Proof.
  intros Hk fp. split_and!.
  - intros p w' Hl. destruct (login_outcome _ _ _ _ _ _ Hl Hk) as (u & ? & ? & ?). eauto.
  - intros m t w' Hl. destruct (login_outcome _ _ _ _ _ _ Hl Hk) as (u & ? & ? & ? & ? & ? & ?).
    eauto 10.
  - by apply login_refused.
Qed.

(** A device is asked for its challenge only once: the first login from
    it registers it before the challenge is passed, so from then on no login
    of that account from that device ever requires verification, whether or
    not the challenge was ever completed. *)
Lemma challenge_only_once {cfg : config}
    `{Entropy, Argon2, Jwt, Totp, Aead, UAParser, GeoipLite, StripeApi} e pw meta w m t w' :
  keyed u_id (db_users (w_db w)) →
  Auth.login e pw meta w = (Ok (Auth.RequiresVerification m t), w') →
  ∃ u, account e w = Some u ∧
    ∀ e2 pw2 meta2 w2 u2, keyed u_id (db_users (w_db w2)) →
      db_devices (w_db w2) = db_devices (w_db w') →
      account e2 w2 = Some u2 → u_id u2 = u_id u →
      Auth.rm_rawDeviceId meta2 = Auth.rm_rawDeviceId meta →
      ∀ m2 t2, (Auth.login e2 pw2 meta2 w2).1 ≠ Ok (Auth.RequiresVerification m2 t2).
Proof.
  intros Hk Hl. destruct (login_outcome _ _ _ _ _ _ Hl Hk) as (u & Ha & _ & _ & Hrow & _).
  exists u. split; [done|]. intros e2 pw2 meta2 w2 u2 Hk2 Hdev Ha2 Hid Hraw m2 t2 Hl2.
  destruct (Auth.login e2 pw2 meta2 w2) as [r2 w3] eqn:E. cbn in Hl2. subst.
  destruct (login_outcome _ _ _ _ _ _ E Hk2) as (u3 & Ha3 & _ & Hno & _).
  rewrite Ha2 in Ha3. injection Ha3 as <-. destruct Hno. rewrite Hid, Hraw.
  unfold device_row. by rewrite Hdev.
Qed.

(** The code a challenge asks for: the e-mailed one, or a current TOTP of the
    account's secret. *)
Definition right_code `{Totp, Aead} (key : list Z) (u : user) (m : challenge_method) (h : option string)
    (code : string) (now : Z) : Prop :=
  match m with
  | EMAIL_CODE => h = Some (Tokens.hash code)
  | TOTP => ∃ enc secret, u_twoFactorSecret u = Some enc ∧
              Encryption.decrypt key enc = Ok secret ∧ totp_verify secret code now = Ok true
  end.

(** C13. A login challenge opens a session only to its code: when
    [verifyLogin] issues tokens, the challenge verifies and is not expired,
    its account exists, the attempt was within the cap, and the code is the
    e-mailed one (its hash is the challenge's) or a valid TOTP for the
    account's decrypted secret. *)
Theorem verifyLogin_gate {cfg : config}
    `{Entropy, Argon2, Jwt, Totp, Aead, UAParser, GeoipLite, StripeApi} key tok code meta w p w' :
  Auth.verifyLogin key tok code meta w = (Ok p, w') →
  ∃ sub dev m h u, jwt_verify tok (w_now w / 1000) = Some (LoginChallenge sub dev m h) ∧
    db_users (w_db w) !! sub = Some u ∧
    (w_redis_up w = true →
       Revocation.next_count w (Revocation.challenge_key tok) ≤ Revocation.MAX_CHALLENGE_ATTEMPTS) ∧
    right_code key u m h code (w_now w).
Proof.
  intros Hv. assert (∃ sub dev m h u,
    jwt_verify tok (w_now w / 1000) = Some (LoginChallenge sub dev m h) ∧
    db_users (w_db w) !! sub = Some u) as (sub & dev & m & h & u & Hj & Hu).
  { unfold Auth.verifyLogin, Unauthorized, throw in Hv. rewrite run_bind in Hv.
    unfold Auth.now_seconds, date_now, gets at 1 in Hv. rewrite run_bind in Hv.
    cbn [mret M_ret] in Hv.
    destruct (jwt_verify tok _) as [[|sub dev m h]|] eqn:Hj; try done.
    apply run_bind_inv in Hv as (o & w1 & Ho & Hv). destruct o as [u|]; [|done].
    unfold Users.findById, db_find, gets in Ho. injection Ho as Hu <-.
    exists sub, dev, m, h, u. by split. }
  exists sub, dev, m, h, u. split; [done|split; [done|]].
  destruct (verifyLogin_counted key tok code meta w sub dev m h u Hj Hu) as (_ & Hok & _ & _).
  destruct (Hok p w' Hv) as [Hin Hcode]. split.
  - intros Hup. rewrite Revocation.registerChallengeAttempt_result in Hin. rewrite Hup in Hin.
    injection Hin as Hin. by apply Z.leb_le.
  - apply checkCode_true in Hcode. destruct m; [done|].
    destruct Hcode as (enc & secret & He & Hd & Ht). exists enc, secret. split_and!; try done.
    revert Ht. unfold Revocation.registerChallengeAttempt, try_catch, redis_incr, redis_guard.
    rewrite run_bind. destruct (w_redis_up w); [|done]. cbv zeta. rewrite run_bind.
    destruct (_ =? 1); unfold when; [|done]. unfold redis_expire, redis_guard, modify. cbn.
    destruct (w_redis_up w); [|done]. cbn. by destruct (redis_live _ _).
Qed.

(** While Redis answers, a challenge takes at most five guesses: after
    any five attempts at it, right or wrong and from any address, every
    further one is refused, the right code included. *)
Lemma challenge_cap {cfg : config}
    `{Entropy, Argon2, Jwt, Totp, Aead, UAParser, GeoipLite, StripeApi} key tok sub dev m h l w :
  jwt_verify tok (w_now w / 1000) = Some (LoginChallenge sub dev m h) →
  is_Some (db_users (w_db w) !! sub) → w_redis_up w = true →
  (5 ≤ length l)%nat →
  (∀ k, redis_live w (Revocation.challenge_key tok) = Some k → 0 ≤ k) →
  ∀ code meta,
    (Auth.verifyLogin key tok code meta (guesses key tok l w)).1 =
    Err (Http 401 "Too many attempts — please log in again").
Proof.
  intros Hj Hu Hup Hlen Hpos code meta.
  destruct (guesses_count key tok sub dev m h l w _ Hj Hu Hup eq_refl) as ([u Hu'] & Hup' & Hnow & Hn).
  rewrite <- Hnow in Hj.
  destruct (verifyLogin_counted key tok code meta _ sub dev m h u Hj Hu') as (Hno & _).
  rewrite Hno; [done|]. rewrite Revocation.registerChallengeAttempt_result, Hup', Hn.
  unfold Revocation.MAX_CHALLENGE_ATTEMPTS. f_equal. apply Z.leb_gt.
  assert (1 ≤ Revocation.next_count w (Revocation.challenge_key tok)); [|lia].
  unfold Revocation.next_count. destruct (redis_live w _) as [k|] eqn:E; [specialize (Hpos k eq_refl)|]; lia.
Qed.

(** ** The theorems at concrete requests *)
Section examples.
#[local] Existing Instances default_config counter_entropy plain_argon2 plain_jwt echo_totp toy_gcm
  plain_ua empty_geoip counting_stripe.

Definition ann (w : world) : user :=
  match account "ann@example.com" w with Some u => u | None => race_user end.
Lemma account_ann : account "ann@example.com" registered = Some (ann registered).
Proof. vm_compute. reflexivity. Qed.
Lemma users_keyed : keyed u_id (db_users (w_db registered)).
Proof. apply keyed_check. vm_compute. reflexivity. Qed.

Lemma login_lockout_witness :
  Auth.login "ann@example.com" "correct horse" (browser "b1")
    (put_redis_up true (put_now 1100000
      (attempts "ann@example.com" (replicate 5 ("wrong", browser "b2")) registered)))
  = (Err (Http 401 "Too many failed login attempts. Try again later."),
     put_redis_up true (put_now 1100000
      (attempts "ann@example.com" (replicate 5 ("wrong", browser "b2")) registered))).
Proof.
  refine (login_lockout "ann@example.com" (replicate 5 ("wrong", browser "b2")) registered
    (ann registered) users_keyed _ account_ann _ _ _ _ _ _ _ true 1100000 _).
  - apply unique_check. vm_compute. reflexivity.
  - vm_compute. reflexivity.
  - vm_compute. reflexivity.
  - discriminate.
  - vm_compute. reflexivity.
  - apply Forall_replicate. vm_compute. reflexivity.
  - vm_compute. split; [discriminate|reflexivity].
Defined.

Lemma login_decision_witness :
  ∃ u, account "ann@example.com" registered = Some u ∧
    admitted (w_now registered) u "correct horse" ∧
    ¬ device_row registered (u_id u) (Client.hashDeviceId "b1").
Proof.
  destruct (login_decision "ann@example.com" "correct horse" (browser "b1") registered users_keyed)
    as (_ & Hch & _).
  destruct (Hch EMAIL_CODE ann_challenge challenged) as (u & Ha & Hadm & Hno & _).
  - vm_compute. reflexivity.
  - exists u. split; [exact Ha|split; [exact Hadm|exact Hno]].
Defined.

(** The second login from the same browser, its challenge still pending, gets
    a session. *)
Lemma challenge_only_once_witness :
  (∀ m t, (Auth.login "ann@example.com" "correct horse" (browser "b1") challenged).1
          ≠ Ok (Auth.RequiresVerification m t)) ∧
  size (Sessions.table_of (run_auth [] (OpLogin "ann@example.com" "correct horse" (browser "b1")) challenged))
    = 1%nat.
Proof.
  split; [|vm_compute; reflexivity].
  destruct (challenge_only_once "ann@example.com" "correct horse" (browser "b1") registered
    EMAIL_CODE ann_challenge challenged users_keyed) as (u & Ha & Hno);
    [vm_compute; reflexivity|].
  refine (Hno "ann@example.com" "correct horse" (browser "b1") challenged (ann challenged) _ eq_refl _ _ eq_refl).
  - apply keyed_check. vm_compute. reflexivity.
  - vm_compute. reflexivity.
  - rewrite account_ann in Ha. apply (inj Some) in Ha. rewrite <- Ha. vm_compute. reflexivity.
Defined.

Lemma verifyLogin_gate_witness :
  ∃ sub dev m h u, jwt_verify ann_challenge 1000 = Some (LoginChallenge sub dev m h) ∧
    db_users (w_db challenged) !! sub = Some u ∧ m = EMAIL_CODE ∧ h = Some (Tokens.hash ann_code).
Proof.
  destruct (verifyLogin_gate [] ann_challenge ann_code (browser "b1") challenged
    ann_tokens logged_in) as (sub & dev & m & h & u & Hj & Hu & _ & Hm).
  - exact ann_verifies.
  - exists sub, dev, m, h, u. split; [exact Hj|split; [exact Hu|]].
    assert (m = EMAIL_CODE) as -> by (vm_compute in Hj; congruence). split; [reflexivity|exact Hm].
Defined.

Lemma challenge_cap_witness :
  (Auth.verifyLogin [] ann_challenge ann_code (browser "b1")
     (guesses [] ann_challenge (replicate 5 ("000000", browser "b9")) challenged)).1
  = Err (Http 401 "Too many attempts — please log in again").
Proof.
  refine (challenge_cap [] ann_challenge "id-1" "id-4" EMAIL_CODE
    (Some (Tokens.hash ann_code)) (replicate 5 ("000000", browser "b9")) challenged
    _ _ _ _ _ ann_code (browser "b1")).
  - vm_compute. reflexivity.
  - apply (proj1 (bool_decide_eq_true (is_Some _))). vm_compute. reflexivity.
  - vm_compute. reflexivity.
  - vm_compute. reflexivity.
  - intros k Hk. exfalso. assert (redis_live challenged (Revocation.challenge_key ann_challenge) = None)
      as E by (vm_compute; reflexivity). rewrite E in Hk. discriminate Hk.
Defined.
End examples.
