(* ===== verification/AuthLifecycle.v ===== *)
(** The life of credentials: refresh-token rotation and replay, password
    reset links, registration and account erasure. *)
From S2P Require Import Prelude JsLib Crypto Schema Effects Platform Config Messaging Tokens Revocation Users Sessions Billing Auth Instances AuthSessions AuthProps.

Section refresh.
Context {cfg : config} `{Entropy, Argon2, Jwt, Totp, Aead, UAParser, GeoipLite, StripeApi}.

(** The stored session of a raw token. *)
Definition session_of (raw : string) (w : world) : option session :=
  find_row (λ s, seq_b (s_tokenHash s) (Tokens.hash raw)) (Sessions.table_of w).

(** The benign race: rotated at most fifteen seconds ago, and the successor
    is still live. *)
Definition graceful (w : world) (a succ : session) : Prop :=
  ∃ t next, s_revokedAt a = Some t ∧ s_replacedByTokenId a = Some next ∧ Str.nonempty next = true ∧
    w_now w - t ≤ 15000 ∧ Sessions.table_of w !! next = Some succ ∧
    Sessions.active (w_now w) succ = true.

Lemma findActive_run raw w :
  Sessions.findActiveByRawToken raw w =
  (Ok (find_row (λ s, seq_b (s_tokenHash s) (Tokens.hash raw) && Sessions.active (w_now w) s)
         (Sessions.table_of w)), w).
Proof. done. Qed.
Lemma findAny_run raw w : Sessions.findAnyByRawToken raw w = (Ok (session_of raw w), w).
Proof. done. Qed.

Lemma graceSuccessor_spec any w o w1 :
  Auth.graceSuccessor any w = (Ok o, w1) →
  w1 = w ∧ ∀ succ, o = Some succ ↔ ∃ a, any = Some a ∧ graceful w a succ.
Proof.
  unfold Auth.graceSuccessor, graceful. destruct any as [a|]; cycle 1.
  { intros [= <- <-]. split; [done|]. intros succ. split; [done|]. by intros (? & ? & ?). }
  destruct (s_revokedAt a) as [t|] eqn:Ht; cycle 1.
  { intros [= <- <-]. split; [done|]. intros succ. split; [done|]. intros (? & [= <-] & ?). naive_solver. }
  destruct (s_replacedByTokenId a) as [next|] eqn:Hn; cycle 1.
  { intros [= <- <-]. split; [done|]. intros succ. split; [done|]. intros (? & [= <-] & ?). naive_solver. }
  rewrite run_bind. unfold date_now, gets at 1.
  change (Auth.CONCURRENT_REFRESH_GRACE_SECONDS * 1000) with 15000.
  destruct (Str.nonempty next && (w_now w - t <=? 15000)) eqn:Hg.
  - rewrite run_bind. unfold Sessions.findById, db_find, gets. cbn.
    change (db_sessions (w_db w)) with (Sessions.table_of w).
    intros [= <- <-]. split; [done|]. unbool. intros succ. split.
    + intros Hs. exists a. split; [done|]. exists t, next.
      destruct (Sessions.table_of w !! next) as [x|] eqn:Hx; [|done].
      destruct (Sessions.active _ x) eqn:Hax; simplify_eq. by split_and!.
    + intros (? & [= <-] & ? & ? & ? & ? & ? & ? & Hx & Hax). simplify_eq.
      by rewrite Hx, Hax.
  - intros [= <- <-]. split; [done|]. intros succ. split; [done|].
    intros (? & [= <-] & ? & ? & ? & ? & Hne & Hle & ? & ?). simplify_eq.
    rewrite Hne in Hg. cbn in Hg. unbool. lia.
Qed.

Lemma refreshFrom_inv old meta w p w' :
  Sessions.table_of w !! s_id old = Some old →
  Auth.refreshFrom old meta w = (Ok p, w') →
  ∃ u id, db_users (w_db w) !! s_userId old = Some u ∧ u_status u = UserActive ∧
    Sessions.table_of w !! id = None ∧
    Auth.tp_accessToken p = jwt_sign (AccessToken (u_id u) (u_email u) (u_role u) None)
      (w_now w / 1000) (w_now w / 1000 + JWT_ACCESS_EXPIRY_SECONDS cfg) ∧
    Sessions.table_of w' =
      <[s_id old := set_s_replacedByTokenId (Some id) (set_s_revokedAt (Some (w_now w)) old)]>
        (<[id := Sessions.fresh_session id (Auth.tp_refreshToken p)
                   (Sessions.Input (s_userId old) (s_deviceId old) (Auth.rm_ipAddress meta)
                      None None None None None) (w_now w)]> (Sessions.table_of w)).
Proof.
  intros Hold Hr. unfold Auth.refreshFrom in Hr. rewrite run_bind in Hr.
  unfold Users.findById, db_find, gets at 1 in Hr. cbn [t_get T_users] in Hr.
  destruct (db_users (w_db w) !! s_userId old) as [u|] eqn:Hu; last first.
  { unfold Unauthorized, throw in Hr. by inv_binds Hr. }
  case_bool_decide as Hact; last first.
  { unfold Unauthorized, throw in Hr. by inv_binds Hr. }
  apply run_bind_inv in Hr as ([raw s] & w1 & Hrot & Hr).
  apply Sessions.rotate_inv in Hrot as (id & -> & Hid & Hraw & ->); [|done].
  injection Hr as <- <-. exists u, id. cbn [Auth.tp_accessToken Auth.tp_refreshToken fst snd]. by split_and!.
Qed.
End refresh.

(** C14. A refresh that succeeds rotates one live session of an active
    account: the presented token's own session, or, within fifteen seconds of
    that one's rotation, its live successor. The session is revoked and names
    its replacement, which is fresh, belongs to the same account and device
    and is stored under the hash of the refresh token handed out; the access
    token is signed for that account. *)
Theorem refresh_rotation {cfg : config}
    `{Entropy, Argon2, Jwt, Totp, Aead, UAParser, GeoipLite, StripeApi} raw meta w p w' :
  keyed s_id (Sessions.table_of w) →
  Auth.refresh raw meta w = (Ok p, w') →
  ∃ old u id new,
    Sessions.table_of w !! s_id old = Some old ∧ Sessions.active (w_now w) old = true ∧
    (s_tokenHash old = Tokens.hash raw ∨ ∃ a, session_of raw w = Some a ∧ graceful w a old) ∧
    db_users (w_db w) !! s_userId old = Some u ∧ u_status u = UserActive ∧
    Auth.tp_accessToken p = jwt_sign (AccessToken (u_id u) (u_email u) (u_role u) None)
      (w_now w / 1000) (w_now w / 1000 + JWT_ACCESS_EXPIRY_SECONDS cfg) ∧
    Sessions.table_of w !! id = None ∧
    s_userId new = s_userId old ∧ s_deviceId new = s_deviceId old ∧ s_revokedAt new = None ∧
    s_tokenHash new = Tokens.hash (Auth.tp_refreshToken p) ∧
    Sessions.table_of w' =
      <[s_id old := set_s_replacedByTokenId (Some id) (set_s_revokedAt (Some (w_now w)) old)]>
        (<[id := new]> (Sessions.table_of w)).
Proof.
  intros Hk Hr. unfold Auth.refresh in Hr. rewrite run_bind, findActive_run in Hr.
  destruct (find_row _ (Sessions.table_of w)) as [s|] eqn:Hf.
  - apply find_row_Some in Hf as [HP [k Hs]]. unbool. rewrite <- (Hk k s Hs) in Hs.
    destruct (refreshFrom_inv s meta w p w' Hs Hr) as (u & id & Hu & Hact & Hid & Hacc & Htab).
    unfold seq_b in *. unbool.
    exists s, u, id, (Sessions.fresh_session id (Auth.tp_refreshToken p)
      (Sessions.Input (s_userId s) (s_deviceId s) (Auth.rm_ipAddress meta) None None None None None)
      (w_now w)).
    split_and!; try done. by left.
  - rewrite run_bind, findAny_run in Hr. cbn [fst snd] in Hr.
    apply run_bind_inv in Hr as (o & w1 & Hg & Hr).
    apply graceSuccessor_spec in Hg as [-> Hg]. destruct o as [s|]; last first.
    { unfold Unauthorized, throw in Hr. by inv_binds Hr. }
    destruct (proj1 (Hg s) eq_refl) as (a & Ha & Hgr).
    assert (Hs : Sessions.table_of w !! s_id s = Some s).
    { destruct Hgr as (t & next & _ & _ & _ & _ & Hx & _). by rewrite (Hk next s Hx). }
    destruct (refreshFrom_inv s meta w p w' Hs Hr) as (u & id & Hu & Hact & Hid & Hacc & Htab).
    exists s, u, id, (Sessions.fresh_session id (Auth.tp_refreshToken p)
      (Sessions.Input (s_userId s) (s_deviceId s) (Auth.rm_ipAddress meta) None None None None None)
      (w_now w)).
    split_and!; try done; [|right; eauto].
    by destruct Hgr as (? & ? & _ & _ & _ & _ & _ & Hactive).
Qed.

(** C15. A revoked refresh token presented outside the grace case closes
    every session of its account: the request is refused with 401, afterwards
    the account has no unrevoked session left, other accounts' sessions are
    untouched, and the reuse is recorded in the audit log. *)
Theorem refresh_reuse {cfg : config}
    `{Entropy, Argon2, Jwt, Totp, Aead, UAParser, GeoipLite, StripeApi} raw meta w a :
  unique_ok T_sessions (Sessions.table_of w) →
  session_of raw w = Some a → s_revokedAt a ≠ None →
  (∀ succ, ¬ graceful w a succ) → is_Some (db_users (w_db w) !! s_userId a) →
  let w' := (Auth.refresh raw meta w).2 in
  (Auth.refresh raw meta w).1 = Err (Http 401 "Session expired — please log in again") ∧
  (∀ k s, Sessions.table_of w' !! k = Some s → s_userId s = s_userId a → s_revokedAt s ≠ None) ∧
  (∀ k s, Sessions.table_of w !! k = Some s → s_userId s ≠ s_userId a →
     Sessions.table_of w' !! k = Some s) ∧
  (∃ e, db_auditLogs (w_db w') = db_auditLogs (w_db w) ++ [e] ∧
     a_action e = "auth.refresh_token_reuse_detected" ∧ a_actorUserId e = Some (s_userId a)).
Proof.
  intros Hq Ha Hrev Hng [u Hu]. cbv zeta.
  assert (Hrun : Auth.refresh raw meta w =
    (Err (Http 401 "Session expired — please log in again"),
     Audit.recorded (Audit.with_ip (Auth.rm_ipAddress meta)
       (Audit.with_meta (JObj [("sessionId", JStr (s_id a))])
          (Audit.by_actor (s_userId a) "auth.refresh_token_reuse_detected")))
       (Sessions.set_sessions (update_where (Sessions.unrevoked_of (s_userId a))
          (set_s_revokedAt (Some (w_now w))) (Sessions.table_of w)) w))).
  { unfold Auth.refresh. rewrite run_bind, findActive_run.
    apply find_row_Some in Ha as Ha'. destruct Ha' as [HP [k Hs]].
    assert (find_row (λ s, seq_b (s_tokenHash s) (Tokens.hash raw) && Sessions.active (w_now w) s)
              (Sessions.table_of w) = None) as ->.
    { apply find_row_None. intros k' s' Hs'. destruct (decide (k' = k)) as [->|Hne].
      - rewrite Hs in Hs'. injection Hs' as <-. unfold Sessions.active.
        rewrite bool_decide_eq_false_2 by done. cbn. by rewrite andb_false_r.
      - pose proof (Hq _ _ _ _ Hs' Hs Hne) as Hc. cbn in Hc. unfold seq_b in *. unbool.
        rewrite bool_decide_eq_false_2; [done|]. congruence. }
    rewrite run_bind, findAny_run, Ha. cbn [fst snd]. rewrite run_bind.
    destruct (graceSuccessor_run (Some a) w) as (o & Hg & _). rewrite Hg.
    apply graceSuccessor_spec in Hg as [_ Hg]. destruct o as [s|].
    { destruct (proj1 (Hg s) eq_refl) as (? & [= <-] & Hgr). by destruct (Hng s). }
    rewrite run_bind. unfold Auth.reuseDetected. rewrite bool_decide_eq_true_2 by done.
    rewrite run_bind. unfold Sessions.revokeAllForUser. rewrite run_bind.
    unfold date_now, gets at 1. rewrite run_bind. unfold db_update_many at 1.
    cbn [mret M_ret]. rewrite Audit.record_run; [done|].
    intros k0 [= <-]. unfold user_exists, exists_in. apply bool_decide_eq_true. by exists u. }
  rewrite Hrun. cbn [fst snd]. split; [done|]. split_and!.
  - intros k s Hk Huid. change (Sessions.table_of (Audit.recorded _ (Sessions.set_sessions ?m w))) with m in Hk.
    destruct (lookup_update_where_Some _ _ _ _ _ Hk) as (r & Hr & ->).
    destruct (Sessions.unrevoked_of _ r) eqn:E; [done|]. unfold Sessions.unrevoked_of, seq_b in E.
    rewrite Huid, bool_decide_eq_true_2 in E by done. cbn in E. by unbool.
  - intros k s Hk Huid. change (Sessions.table_of (Audit.recorded _ (Sessions.set_sessions ?m w))) with m.
    rewrite lookup_update_where, Hk. cbn. unfold Sessions.unrevoked_of, seq_b.
    by rewrite bool_decide_eq_false_2.
  - eexists. split; [reflexivity|done].
Qed.

(** ** Links *)
Section links.
Context {cfg : config} `{Entropy, Argon2, Jwt, Totp, Aead, UAParser, GeoipLite, StripeApi}.

Definition links (w : world) : gmap string verification_token := db_verificationTokens (w_db w).

(** The link opens: stored under the token's hash, for this purpose, unused
    and not expired. *)
Definition open_link (w : world) (token : string) (p : token_purpose) (t : verification_token) : Prop :=
  links w !! vt_id t = Some t ∧ vt_tokenHash t = Tokens.hash token ∧ vt_purpose t = p ∧
  vt_usedAt t = None ∧ w_now w ≤ vt_expiresAt t.

Lemma consume_inv token p w t w' :
  keyed vt_id (links w) → Auth.consumeVerificationToken token p w = (Ok t, w') →
  open_link w token p t ∧
  w' = put_rows T_verificationTokens (<[vt_id t := set_vt_usedAt (Some (w_now w)) t]> (links w)) w.
Proof.
  intros Hk Hc. unfold Auth.consumeVerificationToken, BadRequest, throw in Hc.
  rewrite run_bind in Hc. unfold db_find_by, gets at 1 in Hc. rewrite run_bind in Hc.
  unfold date_now, gets at 1 in Hc. cbn [t_get T_verificationTokens] in Hc. fold (links w) in Hc.
  destruct (find_row _ (links w)) as [r|] eqn:Hf; [|done].
  apply find_row_Some in Hf as [HP [k Hr]]. rewrite <- (Hk k r Hr) in Hr.
  destruct (negb _) eqn:Hp; [done|]. case_bool_decide as Hu; [done|].
  destruct (_ <? _) eqn:Hexp; [done|].
  apply run_bind_inv in Hc as (x & w1 & Hx & Hc). unfold mret, M_ret in Hc. injection Hc as <- <-.
  apply db_update_inv in Hx as (r' & Hr' & -> & ->). cbn [t_get T_verificationTokens] in Hr'.
  fold (links w) in Hr'. rewrite Hr in Hr'. injection Hr' as <-.
  unfold seq_b in HP. unbool. split; [|done]. unfold open_link. by split_and!.
Qed.

(** A used link is refused as used. *)
Lemma consume_used token p w t :
  unique_ok T_verificationTokens (links w) → links w !! vt_id t = Some t →
  vt_tokenHash t = Tokens.hash token → vt_purpose t = p → vt_usedAt t ≠ None →
  Auth.consumeVerificationToken token p w = (Err (Http 400 "This link has already been used"), w).
Proof.
  intros Hq Ht Hh Hp Hu. unfold Auth.consumeVerificationToken.
  rewrite run_bind. unfold db_find_by, gets at 1. rewrite run_bind.
  unfold date_now, gets at 1. cbn [t_get T_verificationTokens]. fold (links w).
  rewrite (find_row_unique _ _ (vt_id t) t Ht).
  - rewrite bool_decide_eq_true_2 by done. by rewrite bool_decide_eq_true_2.
  - unfold seq_b. by apply bool_decide_eq_true.
  - intros k r Hr HP. destruct (decide (k = vt_id t)) as [->|Hne]; [congruence|].
    pose proof (Hq _ _ _ _ Hr Ht Hne) as Hc. cbn in Hc. unfold seq_b in *. unbool. congruence.
Qed.

Lemma use_unique w t now :
  unique_ok T_verificationTokens (links w) → links w !! vt_id t = Some t →
  unique_ok T_verificationTokens (<[vt_id t := set_vt_usedAt (Some now) t]> (links w)).
Proof.
  intros Hq Ht. apply unique_ok_insert; [|done|].
  - intros a b. cbn. unfold seq_b. by apply bool_decide_ext.
  - by apply (has_conflict_update _ _ _ t).
Qed.
End links.

(** C16. A password reset that succeeds used an open PASSWORD_RESET link of
    the account: the new hash is stored, every session of the account is
    revoked, its access tokens are revoked while Redis answers, and the link
    never works again, whatever happens to the rest of the database. *)
Theorem resetPassword_once {cfg : config}
    `{Entropy, Argon2, Jwt, Totp, Aead, UAParser, GeoipLite, StripeApi} token pw w msg w' :
  keyed vt_id (links w) → unique_ok T_verificationTokens (links w) →
  Auth.resetPassword token pw w = (Ok msg, w') →
  ∃ t u, open_link w token PASSWORD_RESET t ∧ db_users (w_db w) !! vt_userId t = Some u ∧
    db_users (w_db w') !! vt_userId t = Some (set_u_passwordHash (argon2_hash (w_tick w) pw) u) ∧
    (∀ k s, Sessions.table_of w' !! k = Some s → s_userId s = vt_userId t → s_revokedAt s ≠ None) ∧
    (w_redis_up w = true → 0 < JWT_ACCESS_EXPIRY_SECONDS cfg →
       (Revocation.isRevoked (vt_userId t) w').1 = Ok true) ∧
    (∀ pw2 w2, links w2 = links w' →
       Auth.resetPassword token pw2 w2 = (Err (Http 400 "This link has already been used"), w2)).
Proof.
  intros Hk Hq Hr. unfold Auth.resetPassword in Hr.
  apply run_bind_inv in Hr as (t & w1 & Hc & Hr). apply consume_inv in Hc as [Ho ->]; [|done].
  pose proof Ho as (Ht & Hh & Hp & _ & _). rewrite run_bind in Hr. unfold draw at 1 in Hr.
  apply run_bind_inv in Hr as (x & w2 & Hu & Hr). unfold Users.updatePasswordHash in Hu.
  apply db_update_inv in Hu as (u & Hu & -> & ->). cbn [t_get T_users] in Hu.
  rewrite run_bind in Hr. unfold Sessions.revokeAllForUser in Hr at 1. rewrite run_bind in Hr.
  unfold date_now, gets at 1 in Hr. rewrite run_bind in Hr. unfold db_update_many at 1 in Hr.
  cbn [mret M_ret] in Hr. match type of Hr with _ ?x = _ => set (w3 := x) in Hr end.
  rewrite run_bind, Revocation.revokeUser_run in Hr.
  rewrite run_bind in Hr. rewrite Audit.record_run in Hr; last first.
  { intros k [= <-]. rewrite Revocation.revoked_db. unfold user_exists, exists_in.
    apply bool_decide_eq_true. eexists. by apply lookup_insert_eq. }
  unfold mret, M_ret in Hr. injection Hr as _ <-.
  exists t, u. split; [done|]. split; [done|]. split_and!.
  - unfold Audit.recorded. cbn [w_db put_db db_users set_db_auditLogs]. rewrite Revocation.revoked_db.
    by apply lookup_insert_eq.
  - intros k s Hs Huid. unfold Sessions.table_of, Audit.recorded in Hs.
    cbn [w_db put_db db_sessions set_db_auditLogs] in Hs. rewrite Revocation.revoked_db in Hs.
    assert (Hs' : update_where (Sessions.unrevoked_of (vt_userId t)) (set_s_revokedAt (Some (w_now w)))
                    (Sessions.table_of w) !! k = Some s) by exact Hs.
    destruct (lookup_update_where_Some _ _ _ _ _ Hs') as (r & Hr & ->).
    destruct (Sessions.unrevoked_of _ r) eqn:E; [done|]. unfold Sessions.unrevoked_of, seq_b in E.
    rewrite Huid, bool_decide_eq_true_2 in E by done. cbn in E. by unbool.
  - intros Hup Httl. apply Revocation.isRevoked_revoked with w3; [| | |exact Hup|exact Httl];
      unfold Audit.recorded, Revocation.revoked; by destruct (w_redis_up w3) eqn:E.
  - intros pw2 w2 Hl. unfold Auth.resetPassword. apply run_bind_err.
    assert (Hl' : links w2 = <[vt_id t := set_vt_usedAt (Some (w_now w)) t]> (links w)).
    { rewrite Hl. unfold Revocation.revoked. by destruct (w_redis_up _). }
    apply consume_used with (set_vt_usedAt (Some (w_now w)) t); try done.
    + rewrite Hl'. by apply use_unique.
    + rewrite Hl'. by apply lookup_insert_eq.
Qed.

(** ** Registration *)
Section register.
Context {cfg : config} `{Entropy, Argon2, Jwt, Totp, Aead, UAParser, GeoipLite, StripeApi}.

(** The pending admin invitation registration honours. *)
Definition pending_invite (email : string) (w : world) : option admin_invite :=
  find_row (λ i, seq_b (ai_email i) (Users.normalizeEmail email)
                 && bool_decide (ai_status i = InvitePENDING)) (db_adminAccessInvites (w_db w)).
(** The account it creates. *)
Definition registered_user (id email fullName password : string) (phone : option string) (w : world) : user :=
  match pending_invite email w with
  | Some i => Users.new_user id (Users.normalizeEmail email) fullName (argon2_hash (w_tick w) password)
                phone (ai_role i) (ai_grantDirectoryAccess i) (ai_grantLeadFinderAccess i) (w_now w)
  | None => Users.new_user id (Users.normalizeEmail email) fullName (argon2_hash (w_tick w) password)
              phone USER false false (w_now w)
  end.

Lemma transaction_inv {A} (m : M A) w a w' : transaction m w = (Ok a, w') → m w = (Ok a, w').
Proof. unfold transaction. destruct (m w) as [[x|e] w1]; intros; by simplify_eq. Qed.
Lemma transaction_err {A} (m : M A) w e w' : transaction m w = (Err e, w') → w_db w' = w_db w.
Proof. unfold transaction. destruct (m w) as [[x|e'] w1]; intros; by simplify_eq. Qed.

Lemma register_none email fullName pw phone meta w r w' :
  Auth.register email fullName pw phone meta w = (Ok r, w') → account email w = None.
Proof.
  unfold Auth.register. rewrite run_bind, account_run.
  destruct (account email w); [by unfold Conflict, throw|done].
Qed.
(** Accepting the invitation touches its row and no other table. *)
Lemma accept_invite (o : option admin_invite) now w w' :
  match o with
  | Some i => _ ← db_update T_adminAccessInvites (ai_id i)
                    (λ i, set_ai_acceptedAt (Some now) (set_ai_status InviteACCEPTED i)); mret tt
  | None => mret tt
  end w = (Ok tt, w') →
  ∃ m, w' = put_rows T_adminAccessInvites m w ∧
    ∀ i, o = Some i → ∃ i0, db_adminAccessInvites (w_db w) !! ai_id i = Some i0 ∧
      m !! ai_id i = Some (set_ai_acceptedAt (Some now) (set_ai_status InviteACCEPTED i0)).
Proof.
  destruct o as [i|]; intros Hinv.
  - apply run_bind_inv in Hinv as (x & w1 & Hx & Hinv). unfold mret, M_ret in Hinv.
    injection Hinv as <-. apply db_update_inv in Hx as (i0 & Hi0 & _ & ->).
    eexists. split; [reflexivity|]. intros i' [= <-]. exists i0. split; [exact Hi0|]. by apply lookup_insert_eq.
  - injection Hinv as <-. exists (db_adminAccessInvites (w_db w)). split; [by destruct w as [[]]|done].
Qed.
(** A registration that fails writes nothing. *)
Lemma register_fails email fullName pw phone meta w e w' :
  Auth.register email fullName pw phone meta w = (Err e, w') → w_db w' = w_db w.
Proof.
  intros Hr.
  unfold Auth.register in Hr. rewrite run_bind, account_run in Hr.
  destruct (account email w); [by injection Hr as _ <-|].
  rewrite run_bind in Hr. unfold draw at 1 in Hr. rewrite run_bind in Hr.
  destruct (transaction _ _) as [[u|e1] w1] eqn:Htx.
  - exfalso. rewrite run_bind in Hr. destruct (Audit.record _ w1) as [[[]|e2] w2] eqn:Ha; [done|].
    unfold Audit.record in Ha. case_match eqn:Hex; [done|].
    apply transaction_inv in Htx. rewrite run_bind in Htx. unfold db_find_by, gets at 1 in Htx.
    rewrite run_bind in Htx. unfold date_now, gets at 1 in Htx. rewrite run_bind in Htx.
    unfold random_uuid at 1, draw at 1 in Htx. rewrite run_bind in Htx. cbn [mret M_ret] in Htx.
    set (id := rand_uuid _) in Htx.
    apply run_bind_inv in Htx as (created & w3 & Hc & Htx).
    apply db_create_inv in Hc as (Hcr & _ & _ & _ & Hw3).
    assert (u_id created = id) as Huid by (rewrite Hcr; by destruct (find_row _ _)).
    match type of Htx with ?m _ = _ => assert (Hg : respects users_grow m) by frame_tac end.
    specialize (Hg w3 id). rewrite Htx in Hg. cbn [snd] in Hg.
    assert (u = created) as ->.
    { apply run_bind_inv in Htx as (? & ? & _ & Htx). inv_binds Htx. done. }
    assert (is_Some (db_users (w_db w1) !! id)) as Hs.
    { apply Hg. rewrite Hw3. cbn. rewrite lookup_insert_eq. by eexists. }
    cbn in Hex. rewrite Huid in Hex. unfold user_exists, exists_in in Hex. by unbool.
  - injection Hr as _ <-. by apply transaction_err in Htx.
Qed.
End register.

(** C17. Registration is all or nothing. When it succeeds the address was
    free; exactly one account is added, active and unverified, under the
    normalised address, with the role and the complimentary access of the
    pending admin invitation for that address if there is one and as a plain
    USER without access otherwise; that invitation becomes ACCEPTED; the
    consents to the current TERMS and PRIVACY documents are recorded; every
    pending friend invitation of the address becomes ACCEPTED; and no session
    is opened. When it fails the database is exactly as before. *)
Theorem register_spec {cfg : config}
    `{Entropy, Argon2, Jwt, Totp, Aead, UAParser, GeoipLite, StripeApi}
    email fullName pw phone meta w :
  match Auth.register email fullName pw phone meta w with
  | (Err _, w') => w_db w' = w_db w
  | (Ok _, w') =>
      account email w = None ∧
      ∃ id c1 c2, db_users (w_db w) !! id = None ∧
        db_users (w_db w') = <[id := registered_user id email fullName pw phone w]> (db_users (w_db w)) ∧
        (∀ i, pending_invite email w = Some i →
           ∃ i0, db_adminAccessInvites (w_db w) !! ai_id i = Some i0 ∧
           db_adminAccessInvites (w_db w') !! ai_id i =
             Some (set_ai_acceptedAt (Some (w_now w)) (set_ai_status InviteACCEPTED i0))) ∧
        db_consentRecords (w_db w') =
          <[c2 := Mk_consent_record c2 id PRIVACY Auth.PRIVACY_VERSION (Auth.rm_ipAddress meta) (w_now w)]>
            (<[c1 := Mk_consent_record c1 id TERMS Auth.TERMS_VERSION (Auth.rm_ipAddress meta) (w_now w)]>
              (db_consentRecords (w_db w))) ∧ c1 ≠ c2 ∧
        (∀ k i, db_invites (w_db w') !! k = Some i →
           i_email i = Users.normalizeEmail email → i_status i = InviteACCEPTED) ∧
        Sessions.table_of w' = Sessions.table_of w
  end.
Proof.
  destruct (Auth.register email fullName pw phone meta w) as [[r|e] w'] eqn:Hr.
  - pose proof (register_none _ _ _ _ _ _ _ _ Hr) as Hnone. split; [done|].
    unfold Auth.register in Hr. rewrite run_bind, account_run, Hnone, run_bind in Hr.
    unfold draw at 1 in Hr. apply run_bind_inv in Hr as (u & w1 & Htx & Hr).
    apply transaction_inv in Htx. rewrite run_bind in Htx. unfold db_find_by, gets at 1 in Htx.
    cbn [t_get T_adminAccessInvites] in Htx.
    change (find_row _ (db_adminAccessInvites (w_db (put_tick _ w)))) with (pending_invite email w) in Htx.
    rewrite run_bind in Htx. unfold date_now, gets at 1 in Htx. rewrite run_bind in Htx.
    unfold random_uuid at 1, draw at 1 in Htx. rewrite run_bind in Htx. cbn [mret M_ret] in Htx.
    set (id := rand_uuid _) in Htx.
    apply run_bind_inv in Htx as (created & w2 & Hc & Htx).
    apply db_create_inv in Hc as (Hcr & Hid & _ & _ & Hw2). cbn [t_get T_users] in Hid.
    assert (Hcu : created = registered_user id email fullName pw phone w).
    { rewrite Hcr. unfold registered_user. by destruct (pending_invite email w). }
    apply run_bind_inv in Htx as ([] & w3 & Hinv & Htx).
    rewrite run_bind in Htx. unfold random_uuid at 1, draw at 1 in Htx. rewrite run_bind in Htx.
    cbn [mret M_ret] in Htx. set (c1 := rand_uuid _) in Htx.
    apply run_bind_inv in Htx as (r1 & w4 & Hc1 & Htx).
    apply db_create_inv in Hc1 as (-> & Hc1n & _ & _ & Hw4).
    rewrite run_bind in Htx. unfold random_uuid at 1, draw at 1 in Htx. rewrite run_bind in Htx.
    cbn [mret M_ret] in Htx. set (c2 := rand_uuid _) in Htx.
    apply run_bind_inv in Htx as (r2 & w5 & Hc2 & Htx).
    apply db_create_inv in Hc2 as (-> & Hc2n & _ & _ & Hw5).
    rewrite run_bind in Htx. unfold db_update_many at 1 in Htx. cbn [mret M_ret] in Htx.
    injection Htx as <- <-.
    apply run_bind_inv in Hr as ([] & w6 & Ha & Hr). unfold mret, M_ret in Hr. injection Hr as _ <-.
    apply Audit.record_inv in Ha as [[_ ->]|[? _]]; [|done].
    assert (Hfields : u_id created = id ∧ u_email created = Users.normalizeEmail email).
    { rewrite Hcu. unfold registered_user. by destruct (pending_invite email w). }
    destruct Hfields as [Huid Hmail].
    destruct (accept_invite (pending_invite email w) (w_now w) w2 w3 Hinv) as (m3 & -> & Hm3).
    assert (db_adminAccessInvites (w_db w2) = db_adminAccessInvites (w_db w)) as Hai by by rewrite Hw2.
    rewrite Hai in Hm3.
    rewrite <- Hcr in Hw2. subst w5 w4 w2. exists id, c1, c2. rewrite <- Hcu.
    split; [exact Hid|]. split; [reflexivity|]. split; [exact Hm3|].
    unfold Audit.recorded, Sessions.table_of in *. cbn in *. rewrite Huid in *. split_and!; try done.
    + intros ->. by rewrite lookup_insert_eq in Hc2n.
    + intros k i Hi Hem. destruct (lookup_update_where_Some _ _ _ _ _ Hi) as (i0 & Hi0 & ->).
      rewrite Hmail in *. destruct (_ && _) eqn:HP; [done|]. unfold seq_b in HP.
      rewrite Hem, bool_decide_eq_true_2 in HP by done. cbn [andb] in HP. unbool.
      by destruct (i_status i0).
  - by apply (register_fails email fullName pw phone meta w e).
Qed.

(** ** Erasure *)
Section erasure.
Context {cfg : config} `{Entropy, Argon2, Jwt, Totp, Aead, UAParser, GeoipLite, StripeApi}.
Definition live_subscription (userId : string) (w : world) : option subscription :=
  find_row (λ s, seq_b (sub_userId s) userId && live_status (sub_status s)) (db_subscriptions (w_db w)).
End erasure.

Lemma revoke_rows uid t m k s :
  update_where (Sessions.unrevoked_of uid) (set_s_revokedAt (Some t)) m !! k = Some s →
  s_userId s = uid → s_revokedAt s ≠ None.
Proof.
  intros Hs Huid. destruct (lookup_update_where_Some _ _ _ _ _ Hs) as (r & Hr & ->).
  destruct (Sessions.unrevoked_of _ r) eqn:E; [done|]. unfold Sessions.unrevoked_of, seq_b in E.
  rewrite Huid, bool_decide_eq_true_2 in E by done. cbn in E. by unbool.
Qed.

(** Cancelling the live subscription of an account leaves it none. *)
Lemma cancel_live uid w w' :
  keyed sub_id (db_subscriptions (w_db w)) → unique_ok T_subscriptions (db_subscriptions (w_db w)) →
  match live_subscription uid w with
  | Some s => _ ← db_update_indexed T_subscriptions (sub_id s)
                    (λ s, set_sub_cancelAtPeriodEnd false (set_sub_status CANCELED s)); mret tt
  | None => mret tt
  end w = (Ok tt, w') →
  ∃ m, w' = put_rows T_subscriptions m w ∧
    ∀ k s, m !! k = Some s → sub_userId s = uid → live_status (sub_status s) = false.
Proof.
  intros Hk Hq. unfold live_subscription. destruct (find_row _ _) as [s|] eqn:Hf; intros Hsub.
  - apply run_bind_inv in Hsub as (x & w1 & Hx & Hsub). unfold mret, M_ret in Hsub.
    injection Hsub as <-. apply db_update_indexed_inv in Hx as (s0 & Hs0 & _ & _ & ->).
    eexists. split; [reflexivity|]. cbn [t_get T_subscriptions] in *.
    apply find_row_Some in Hf as [HP [k0 Hk0]]. unfold seq_b in HP. unbool.
    pose proof (Hk k0 s Hk0) as Hid. rewrite Hid in *. rewrite Hk0 in Hs0. injection Hs0 as <-.
    intros k r Hr Huid. destruct (decide (k = k0)) as [->|Hne].
    + rewrite lookup_insert_eq in Hr. by injection Hr as <-.
    + rewrite lookup_insert_ne in Hr by done. destruct (live_status (sub_status r)) eqn:El; [|done].
      pose proof (Hq _ _ _ _ Hr Hk0 Hne) as Hc. cbn in Hc. unfold seq_b in Hc.
      apply orb_false_iff in Hc as [_ Hc]. rewrite El, bool_decide_eq_true_2 in Hc by congruence.
      cbn [andb] in Hc. congruence.
  - injection Hsub as <-. exists (db_subscriptions (w_db w)). split; [by destruct w as [[]]|].
    intros k r Hr Huid. rewrite find_row_None in Hf.
    specialize (Hf k r Hr). unfold seq_b in Hf. by rewrite bool_decide_eq_true_2 in Hf.
Qed.

(** C18. Erasing an account requires its password and Stripe's agreement, and
    leaves: the row DELETED under a placeholder address, every session
    revoked, no live Directory subscription, and exactly one call to Stripe
    cancelling the live subscription when there was one. The Lead Finder
    subscriptions of the account are neither cancelled nor changed. *)
Theorem deleteAccount_spec {cfg : config}
    `{Entropy, Argon2, Jwt, Totp, Aead, UAParser, GeoipLite, StripeApi} uid pw w msg w' :
  keyed sub_id (db_subscriptions (w_db w)) → unique_ok T_subscriptions (db_subscriptions (w_db w)) →
  Auth.deleteAccount uid pw w = (Ok msg, w') →
  ∃ u, db_users (w_db w) !! uid = Some u ∧ Auth.passwordValid u pw = true ∧
    db_users (w_db w') !! uid =
      Some (set_u_email (Auth.deleted_email uid) (set_u_deletedAt (Some (w_now w)) (set_u_status UserDeleted u))) ∧
    (∀ k s, Sessions.table_of w' !! k = Some s → s_userId s = uid → s_revokedAt s ≠ None) ∧
    (∀ k s, db_subscriptions (w_db w') !! k = Some s → sub_userId s = uid →
       live_status (sub_status s) = false) ∧
    w_stripe w' = w_stripe w ++
      match live_subscription uid w with
      | Some s => [StripeCancel (sub_stripeSubscriptionId s)]
      | None => []
      end ∧
    db_leadFinderSubscriptions (w_db w') = db_leadFinderSubscriptions (w_db w).
Proof.
  intros Hk Hq Hr. unfold Auth.deleteAccount in Hr. rewrite run_bind in Hr.
  unfold Users.findById, db_find, gets at 1 in Hr. cbn [t_get T_users] in Hr.
  destruct (db_users (w_db w) !! uid) as [u|] eqn:Hu; [|by unfold Unauthorized, throw in Hr].
  destruct (Auth.passwordValid u pw) eqn:Hp; [|by unfold Unauthorized, throw in Hr]. cbn [negb] in Hr.
  rewrite run_bind in Hr. unfold db_find_by, gets at 1 in Hr. cbn [t_get T_subscriptions] in Hr.
  fold (live_subscription uid w) in Hr.
  apply run_bind_inv in Hr as ([] & w1 & Hst & Hr). apply run_bind_inv in Hr as ([] & w2 & Htx & Hr).
  rewrite run_bind, Revocation.revokeUser_run, run_bind in Hr.
  destruct (Audit.record _ _) as [[[]|e] w3] eqn:Ha; [|done]. unfold mret, M_ret in Hr.
  injection Hr as _ <-. apply Audit.record_inv in Ha as [[_ ->]|[? _]]; [|done].
  assert (Hw1 : w1 = put_stripe (w_stripe w ++
      match live_subscription uid w with
      | Some s => [StripeCancel (sub_stripeSubscriptionId s)] | None => [] end) w).
  { destruct (live_subscription uid w); [by injection Hst as _ <-|].
    injection Hst as <-. rewrite app_nil_r. by destruct w. }
  apply transaction_inv in Htx. apply run_bind_inv in Htx as ([] & w4 & Hsub & Htx).
  rewrite run_bind in Htx. unfold date_now, gets at 1 in Htx.
  rewrite run_bind in Htx. unfold db_update_many at 1 in Htx. cbn [mret M_ret] in Htx.
  apply run_bind_inv in Htx as (u' & w5 & Hu' & Htx). unfold mret, M_ret in Htx. injection Htx as <-.
  apply db_update_indexed_inv in Hu' as (u0 & Hu0 & _ & _ & ->). cbn [t_get T_users] in Hu0.
  assert (w_db w1 = w_db w) as Hdb by by rewrite Hw1.
  destruct (cancel_live uid w1 w4) as (m & -> & Hm); [by rewrite Hdb..|by unfold live_subscription; rewrite Hdb|].
  subst w1. exists u. split; [done|]. split; [done|].
  assert (Hu0' : db_users (w_db w) !! uid = Some u0) by exact Hu0. rewrite Hu in Hu0'. injection Hu0' as <-.
  unfold Audit.recorded, Sessions.table_of. cbn [w_db put_db set_db_auditLogs db_users db_sessions
    db_subscriptions db_leadFinderSubscriptions w_stripe]. rewrite !Revocation.revoked_db.
  split_and!.
  - by apply lookup_insert_eq.
  - intros k s Hs Huid. exact (revoke_rows uid (w_now w) (db_sessions (w_db w)) k s Hs Huid).
  - exact Hm.
  - unfold Revocation.revoked. by destruct (w_redis_up _).
  - done.
Qed.

(** ** The theorems at concrete requests *)
Section examples.
#[local] Existing Instances default_config counter_entropy plain_argon2 plain_jwt echo_totp toy_gcm
  plain_ua empty_geoip counting_stripe.

(** The refresh token of Ann's login. *)
Definition first_token : string := Eval vm_compute in Auth.tp_refreshToken ann_tokens.
Definition refreshed : world := Eval vm_compute in run_auth [] (OpRefresh first_token (browser "b1")) logged_in.
(** A minute later. *)
Definition minute_later : world := Eval vm_compute in put_now 1060000 refreshed.
Definition no_session : session :=
  Mk_session EmptyString EmptyString None EmptyString None None None None 0 None None 0 0 0 None.
Definition stolen : session := Eval vm_compute in from_option id no_session (session_of first_token minute_later).

Lemma refresh_rotation_witness :
  ∃ old, Sessions.table_of logged_in !! s_id old = Some old ∧
    Sessions.active (w_now logged_in) old = true.
Proof.
  destruct (refresh_rotation first_token (browser "b1") logged_in
    (pair_of (Auth.refresh first_token (browser "b1") logged_in).1) refreshed)
    as (old & u & id & new & Hold & Hact & _).
  - apply keyed_check. vm_compute. reflexivity.
  - vm_compute. reflexivity.
  - exists old. split; [exact Hold|exact Hact].
Defined.

Lemma refresh_reuse_witness :
  (Auth.refresh first_token (browser "evil") minute_later).1
  = Err (Http 401 "Session expired — please log in again").
Proof.
  refine (proj1 (refresh_reuse first_token (browser "evil") minute_later stolen _ _ _ _ _)).
  - apply unique_check. vm_compute. reflexivity.
  - vm_compute. reflexivity.
  - vm_compute. discriminate.
  - intros succ (t & next & Ht & _ & _ & Hle & _).
    assert (s_revokedAt stolen = Some 1000000) as E by (vm_compute; reflexivity).
    rewrite E in Ht. apply (inj Some) in Ht. rewrite <- Ht in Hle.
    change (w_now minute_later) with 1060000 in Hle. lia.
  - apply (proj1 (bool_decide_eq_true (is_Some _))). vm_compute. reflexivity.
Defined.

(** Ann asks for a reset link and uses it. *)
Definition asked : world := Eval vm_compute in run_auth [] (OpForgotPassword "ann@example.com") logged_in.
Definition reset_token : string := Eval vm_compute in code_of asked.
Definition reset_done : world := Eval vm_compute in run_auth [] (OpResetPassword reset_token "new password") asked.
Lemma resetPassword_once_witness :
  ∃ t, open_link asked reset_token PASSWORD_RESET t ∧
    Auth.resetPassword reset_token "again" reset_done
    = (Err (Http 400 "This link has already been used"), reset_done).
Proof.
  destruct (resetPassword_once reset_token "new password" asked
    "Password updated. Please log in again." reset_done) as (t & u & Ho & _ & _ & _ & _ & Hagain).
  - apply keyed_check. vm_compute. reflexivity.
  - apply unique_check. vm_compute. reflexivity.
  - vm_compute. reflexivity.
  - exists t. split; [exact Ho|exact (Hagain "again" reset_done eq_refl)].
Defined.

Lemma deleteAccount_spec_witness :
  ∃ u, db_users (w_db logged_in) !! "id-1" = Some u ∧ Auth.passwordValid u "correct horse" = true.
Proof.
  destruct (deleteAccount_spec "id-1" "correct horse" logged_in "Your account has been deleted."
    (run_auth [] (OpDeleteAccount "id-1" "correct horse") logged_in)) as (u & Hu & Hp & _).
  - apply keyed_check. vm_compute. reflexivity.
  - apply unique_check. vm_compute. reflexivity.
  - vm_compute. reflexivity.
  - exists u. split; [exact Hu|exact Hp].
Defined.

(** The same account with another status. *)
Definition with_status (st : account_status) (w : world) : world :=
  put_db (set_db_users (set_u_status st <$> db_users (w_db w)) (w_db w)) w.
Definition opens_session (st : account_status) : bool :=
  match Auth.verifyLogin [] ann_challenge ann_code (browser "b1")
          (with_status st challenged) with
  | (Ok _, w') => (0 <? Sessions.live_count w' "id-1")
  | _ => false
  end.
End examples.

(** A pending login challenge outlives the account: with the right code,
    [verifyLogin] issues tokens and opens a live session whatever the status
    of the account has become meanwhile, SUSPENDED and DELETED included,
    whereas [login] refuses such an account. *)
Lemma challenge_ignores_status st : opens_session st = true.
Proof.
  unfold opens_session, Auth.verifyLogin, Revocation.registerChallengeAttempt. rewrite ann_key_is.
  destruct st; vm_compute; reflexivity.
Qed.
