(* ===== verification/Guards.v ===== *)
(** The guards of a route: JwtAuthGuard and RolesGuard (auth/guards),
    SubscriptionGuard and DirectoryAccessGuard (subscriptions/guards).
    JwtAuthGuard is proved against the [RevocationStore] interface; the
    subscription guards against the access policy and the index of live
    subscriptions. *)
From S2P Require Import Prelude JsLib Crypto Schema Effects Platform Config Messaging Tokens Revocation Users Sessions Access Billing Auth Instances AuthSessions.

Module Guards.
(** [AccessTokenPayload]: [request.user]. *)
Record principal := Principal {
  pr_sub : string; pr_email : string; pr_role : role; pr_impersonatedBy : option string
}.

Section guards.
Context {cfg : config} `{Jwt, RevocationStore}.

(** [extractBearerToken]. *)
Definition extractBearerToken (authorization : option string) : option string :=
  match authorization with
  | Some header =>
      if Str.startsWith "Bearer " header then Some (Str.drop (String.length "Bearer ") header) else None
  | None => None
  end.

(** [JwtAuthGuard.canActivate]: the user it attaches to the request. *)
Definition jwtAuthGuard (isPublic : bool) (authorization : option string) : M (option principal) :=
  if isPublic then mret None else
  match extractBearerToken authorization with
  | None => Unauthorized "Missing access token"
  | Some token =>
      if negb (Str.nonempty token) then Unauthorized "Missing access token" else
      now ← date_now;
      match jwt_verify token (now / 1000) with
      | None => Unauthorized "Invalid or expired access token"
      | Some (LoginChallenge _ _ _ _) => Unauthorized "Invalid token type"
      | Some (AccessToken sub email r imp) =>
          revoked ← rs_isRevoked sub;
          if (revoked : bool) then Unauthorized "Access has been revoked"
          else mret (Some (Principal sub email r imp))
      end
  end.

(** [RolesGuard.canActivate]. *)
Definition rolesGuard (required : option (list role)) (user : option principal) : M bool :=
  match required with
  | None | Some [] => mret true
  | Some required =>
      match user with
      | None => Unauthorized "Unauthorized"
      | Some p =>
          if bool_decide (pr_role p ∈ required) then mret true
          else Forbidden "Insufficient permissions"
      end
  end.

Definition staff (r : role) : bool := match r with ADMIN | SUPER_ADMIN => true | _ => false end.

(** [SubscriptionGuard.canActivate]. *)
Definition subscriptionGuard (user : option principal) : M bool :=
  match user with
  | None => Unauthorized "Unauthorized"
  | Some p =>
      if staff (pr_role p) then mret true else
      sub ← db_find_latest T_subscriptions sub_createdAt (Access.live_of (pr_sub p));
      dbUser ← db_find T_users (pr_sub p);
      now ← date_now;
      if from_option u_adminGrantedDirectoryAccess false dbUser then mret true else
      match sub with
      | Some s =>
          if Access.hasActiveAccess now (sub_status s) (sub_pastDueSince s) (PAYMENT_GRACE_PERIOD_DAYS cfg)
          then mret true
          else Forbidden "An active subscription is required for this feature"
      | None => Forbidden "An active subscription is required for this feature"
      end
  end.

(** [DirectoryAccessGuard.canActivate]. *)
Definition directoryAccessGuard (user : option principal) : M bool :=
  match user with
  | None => Unauthorized "Unauthorized"
  | Some p =>
      if staff (pr_role p) then mret true else
      sub ← db_find_latest T_subscriptions sub_createdAt (Access.live_or_canceled_of (pr_sub p));
      dbUser ← db_find T_users (pr_sub p);
      now ← date_now;
      if from_option u_adminGrantedDirectoryAccess false dbUser then mret true else
      match sub with
      | Some s =>
          if Access.hasDirectoryAccess now (sub_status s) (sub_pastDueSince s) (PAYMENT_GRACE_PERIOD_DAYS cfg)
          then mret true
          else Forbidden "An active or previous subscription is required for this feature"
      | None => Forbidden "An active or previous subscription is required for this feature"
      end
  end.

(** ** What the guards decide *)

Lemma extract_bearer token : extractBearerToken (Some ("Bearer " +:+ token)) = Some token.
Proof. reflexivity. Qed.

Lemma jwtAuthGuard_verified token sub email r imp w :
  Str.nonempty token = true → jwt_verify token (w_now w / 1000) = Some (AccessToken sub email r imp) →
  jwtAuthGuard false (Some ("Bearer " +:+ token)) w =
    match rs_isRevoked sub w with
    | (Ok true, w') => (Err (Http 401 "Access has been revoked"), w')
    | (Ok false, w') => (Ok (Some (Principal sub email r imp)), w')
    | (Err e, w') => (Err e, w')
    end.
Proof.
  intros Hne Hv. unfold jwtAuthGuard. rewrite extract_bearer, Hne. cbn [negb].
  unfold date_now, gets. rewrite run_bind, Hv, run_bind.
  destruct (rs_isRevoked sub w) as [[[|]|e] w']; reflexivity.
Qed.

Lemma jwtAuthGuard_unverified token w :
  (∀ sub email r imp, jwt_verify token (w_now w / 1000) ≠ Some (AccessToken sub email r imp)) →
  ∃ m, jwtAuthGuard false (Some ("Bearer " +:+ token)) w = (Err (Http 401 m), w).
Proof.
  intros Hv. unfold jwtAuthGuard. rewrite extract_bearer.
  destruct (negb (Str.nonempty token)); [by eexists|].
  unfold date_now, gets. rewrite run_bind.
  destruct (jwt_verify token (w_now w / 1000)) as [[sub email r imp|]|]; [|by eexists..].
  by destruct (Hv sub email r imp).
Qed.

(** The subscription a guard grants on. *)
Definition grants (now : Z) (userId : string) (s : subscription) : Prop :=
  sub_userId s = userId ∧
  Access.entitled now (PAYMENT_GRACE_PERIOD_DAYS cfg) (sub_status s) (sub_pastDueSince s).
Definition comped (w : world) (userId : string) : bool :=
  from_option u_adminGrantedDirectoryAccess false (db_users (w_db w) !! userId).

Lemma subscriptionGuard_run p w :
  subscriptionGuard (Some p) w =
    (if staff (pr_role p) || comped w (pr_sub p) ||
        match find_latest sub_createdAt (Access.live_of (pr_sub p)) (db_subscriptions (w_db w)) with
        | Some s => Access.hasActiveAccess (w_now w) (sub_status s) (sub_pastDueSince s)
                      (PAYMENT_GRACE_PERIOD_DAYS cfg)
        | None => false
        end
     then Ok true else Err (Http 403 "An active subscription is required for this feature"), w).
Proof.
  unfold subscriptionGuard, comped. destruct (staff _); [done|]. unfold db_find_latest, db_find, date_now, gets, mbind, M_bind.
  cbn [t_get T_subscriptions T_users]. destruct (from_option _ _ _); [done|]. cbn [orb].
  destruct (find_latest _ _ _) as [s|]; [|done]. by destruct (Access.hasActiveAccess _ _ _ _).
Qed.
Lemma directoryAccessGuard_run p w :
  directoryAccessGuard (Some p) w =
    (if staff (pr_role p) || comped w (pr_sub p) ||
        match find_latest sub_createdAt (Access.live_or_canceled_of (pr_sub p)) (db_subscriptions (w_db w)) with
        | Some s => Access.hasDirectoryAccess (w_now w) (sub_status s) (sub_pastDueSince s)
                      (PAYMENT_GRACE_PERIOD_DAYS cfg)
        | None => false
        end
     then Ok true else Err (Http 403 "An active or previous subscription is required for this feature"), w).
Proof.
  unfold directoryAccessGuard, comped. destruct (staff _); [done|]. unfold db_find_latest, db_find, date_now, gets, mbind, M_bind.
  cbn [t_get T_subscriptions T_users]. destruct (from_option _ _ _); [done|]. cbn [orb].
  destruct (find_latest _ _ _) as [s|]; [|done]. by destruct (Access.hasDirectoryAccess _ _ _ _).
Qed.

(** On a table that respects the index of live subscriptions the latest live
    row is the only one: the guard grants as soon as any row does. *)
Lemma latest_live_grants w userId :
  unique_ok T_subscriptions (db_subscriptions (w_db w)) →
  match find_latest sub_createdAt (Access.live_of userId) (db_subscriptions (w_db w)) with
  | Some s => Access.hasActiveAccess (w_now w) (sub_status s) (sub_pastDueSince s) (PAYMENT_GRACE_PERIOD_DAYS cfg)
  | None => false
  end = true ↔ ∃ k s, db_subscriptions (w_db w) !! k = Some s ∧ grants (w_now w) userId s.
Proof.
  intros Hu. destruct (find_latest _ _ _) as [s|] eqn:E.
  - apply find_latest_Some in E as (HP & (k & Hk) & _). rewrite Access.hasActiveAccess_spec. split.
    + intros He. exists k, s. split; [done|]. unfold Access.live_of, seq_b in HP. unbool. by split.
    + intros (k' & s' & Hk' & Hus & He).
      enough (s = s') as -> by done. eapply Access.live_unique; eauto.
      unfold Access.live_of, seq_b. rewrite (bool_decide_eq_true_2 _ Hus). by eapply Access.entitled_live.
  - rewrite find_latest_None in E. split; [done|]. intros (k & s & Hk & Hus & He).
    specialize (E k s Hk). unfold Access.live_of, seq_b in E. rewrite (bool_decide_eq_true_2 _ Hus) in E.
    apply Access.entitled_live in He. cbn in E. congruence.
Qed.
End guards.
End Guards.
Import Guards.

(** ** Properties *)

(** A header that starts with the prefix is the prefix and the rest. *)
Lemma startsWith_drop p s :
  Str.startsWith p s = true → s = p +:+ Str.drop (String.length p) s.
Proof.
  revert s. induction p as [|a p IH]; intros [|b s]; cbn; try done.
  intros Hp. apply andb_true_iff in Hp as [Hab%Ascii.eqb_eq Hp].
  subst b. change (String a s = String a (p +:+ Str.drop (String.length p) s)).
  by rewrite <- (IH s Hp).
Qed.

(** JwtAuthGuard lets a request through exactly with the account its
    bearer token names: the token is an access token that verifies now (never
    a login challenge) and the account is not revoked.  Every refusal is a 401,
    and the guard changes nothing. *)
Lemma jwt_guard_decision `{Jwt, RevocationStore} header w :
  match jwtAuthGuard false header w with
  | (Ok user, w') =>
      w' = w ∧ ∃ p token, user = Some p ∧ header = Some ("Bearer " +:+ token) ∧
        Str.nonempty token = true ∧
        jwt_verify token (w_now w / 1000) =
          Some (AccessToken (pr_sub p) (pr_email p) (pr_role p) (pr_impersonatedBy p)) ∧
        (rs_isRevoked (pr_sub p) w).1 = Ok false
  | (Err e, w') => w' = w ∧ ∃ m, e = Http 401 m
  end.
Proof.
  destruct header as [h|]; [|by cbn; eauto].
  destruct (Str.startsWith "Bearer " h) eqn:Hs; last first.
  { unfold jwtAuthGuard, extractBearerToken. rewrite Hs. cbn. eauto. }
  rewrite (startsWith_drop _ _ Hs). set (token := Str.drop _ h).
  destruct (Str.nonempty token) eqn:Hne; last first.
  { unfold jwtAuthGuard. rewrite extract_bearer, Hne. cbn. eauto. }
  destruct (jwt_verify token (w_now w / 1000)) as [[sub email r imp|]|] eqn:Hv;
    [rewrite (jwtAuthGuard_verified _ _ _ _ _ _ Hne Hv)
    |destruct (jwtAuthGuard_unverified token w) as [m ->]; [by rewrite Hv|by eauto]..].
  destruct (rs_isRevoked_ok sub w) as [b Hb]. rewrite Hb. destruct b; [by eauto|].
  split; [done|]. exists (Principal sub email r imp), token. cbn [pr_sub]. by rewrite Hb.
Qed.


(** The two subscription gates, on a table that respects the index of
    live subscriptions: SubscriptionGuard lets a signed-in user through exactly
    when the account is staff, or comped by an admin, or one of its
    subscriptions grants access under the policy; every other request is a 403
    (401 without a user) and changes nothing; and whoever passes it also passes
    DirectoryAccessGuard. *)
Lemma subscription_guard_policy {cfg : config} p w :
  unique_ok T_subscriptions (db_subscriptions (w_db w)) →
  (subscriptionGuard (Some p) w = (Ok true, w) ↔
     staff (pr_role p) = true ∨ comped w (pr_sub p) = true ∨
     ∃ k s, db_subscriptions (w_db w) !! k = Some s ∧ grants (w_now w) (pr_sub p) s) ∧
  (subscriptionGuard (Some p) w = (Ok true, w) ∨
   ∃ m, subscriptionGuard (Some p) w = (Err (Http 403 m), w)) ∧
  (subscriptionGuard (Some p) w = (Ok true, w) → directoryAccessGuard (Some p) w = (Ok true, w)) ∧
  (∃ m, subscriptionGuard None w = (Err (Http 401 m), w)).
Proof.
  intros Hu. rewrite subscriptionGuard_run, directoryAccessGuard_run.
  pose proof (latest_live_grants w (pr_sub p) Hu) as Hg.
  set (live := match find_latest _ (Access.live_of _) _ with Some _ => _ | None => _ end) in *.
  assert (Hok : ∀ (b : bool) m, (if b then Ok true else Err (Http 403 m), w) = (Ok true, w) ↔ b = true)
    by (intros [] m; naive_solver).
  rewrite !Hok, !orb_true_iff. split_and!; [tauto| | |by eexists].
  - rewrite <- !orb_true_iff. destruct (_ || live); [by left|right; by eexists].
  - intros [H|H]; [by left|right]. rewrite Hg in H. destruct H as (k & s & Hk & Hus & He).
    assert (Hlive : Access.live_of (pr_sub p) s = true).
    { unfold Access.live_of, seq_b. rewrite (bool_decide_eq_true_2 _ Hus). by eapply Access.entitled_live. }
    destruct (find_latest _ (Access.live_or_canceled_of _) _) as [s'|] eqn:E.
    + apply find_latest_Some in E as (HP & (k' & Hk') & _). unfold Access.hasDirectoryAccess.
      unfold Access.live_or_canceled_of in HP. apply andb_true_iff in HP as [Hus' HP].
      apply orb_true_iff in HP as [HP|HP]; [|by rewrite HP, orb_true_r].
      assert (s' = s) as ->; [|by rewrite (proj2 (Access.hasActiveAccess_spec _ _ _ _) He)].
      eapply Access.live_unique; eauto. unfold Access.live_of. by rewrite Hus', HP.
    + rewrite find_latest_None in E. specialize (E k s Hk).
      unfold Access.live_of, Access.live_or_canceled_of in *. unbool.
      destruct E as [E|[E _]%orb_false_iff]; congruence.
Qed.

(** Subscribing again can take away the permanent Directory access a
    past subscriber holds: with a CANCELED subscription the account passes
    DirectoryAccessGuard, and once a newer subscription of the same account
    stays past due beyond the grace period it no longer does, although the
    CANCELED one is still there. *)
Lemma resubscribing_loses_directory {cfg : config} p w kp sp kc sc t :
  let m := db_subscriptions (w_db w) in
  unique_ok T_subscriptions m →
  staff (pr_role p) = false → comped w (pr_sub p) = false →
  m !! kp = Some sp → sub_userId sp = pr_sub p → sub_status sp = PAST_DUE →
  sub_pastDueSince sp = Some t → t + PAYMENT_GRACE_PERIOD_DAYS cfg * Date.day ≤ w_now w →
  m !! kc = Some sc → sub_userId sc = pr_sub p → sub_status sc = CANCELED →
  (∀ k s, m !! k = Some s → k ≠ kp → sub_userId s = pr_sub p → sub_createdAt s < sub_createdAt sp) →
  directoryAccessGuard (Some p) (Access.set_subs (delete kp m) w) = (Ok true, Access.set_subs (delete kp m) w) ∧
  ∃ msg, directoryAccessGuard (Some p) w = (Err (Http 403 msg), w).
Proof.
  cbv zeta. intros Hu Hst Hcomp Hp Hup Hsp Hpd Hgrace Hc Huc Hsc Hnew.
  assert (Hkey : ∀ k s, db_subscriptions (w_db w) !! k = Some s →
    Access.live_or_canceled_of (pr_sub p) s = true → sub_userId s = pr_sub p).
  { intros k s _ HP. unfold Access.live_or_canceled_of, seq_b in HP. by unbool. }
  rewrite !directoryAccessGuard_run.
  change (comped (Access.set_subs _ w) _) with (comped w (pr_sub p)). rewrite Hst, Hcomp.
  change (w_now (Access.set_subs _ w)) with (w_now w).
  change (db_subscriptions (w_db (Access.set_subs ?m w))) with m. cbn [orb].
  assert (Hne : kc ≠ kp) by congruence. split.
  - destruct (find_latest _ _ (delete _ _)) as [s|] eqn:E.
    + apply find_latest_Some in E as (HP & (k & Hk) & _).
      apply lookup_delete_Some in Hk as [Hkp Hk]. unfold Access.hasDirectoryAccess.
      unfold Access.live_or_canceled_of in HP. apply andb_true_iff in HP as [Hus HP].
      apply orb_true_iff in HP as [HP|HP]; [|by rewrite HP, orb_true_r].
      destruct Hkp. assert (s = sp) as ->.
      { eapply (Access.live_unique w (pr_sub p)); eauto; unfold Access.live_of; [by rewrite Hus, HP|].
        unfold seq_b. by rewrite (bool_decide_eq_true_2 _ Hup), Hsp. }
      destruct (decide (k = kp)) as [->|Hk']; [done|].
      pose proof (Hnew k sp Hk Hk' Hup). lia.
    + exfalso. rewrite find_latest_None in E.
      assert (Hc' : delete kp (db_subscriptions (w_db w)) !! kc = Some sc) by (by apply lookup_delete_Some).
      specialize (E kc sc Hc'). unfold Access.live_or_canceled_of, seq_b in E.
      by rewrite (bool_decide_eq_true_2 _ Huc), Hsc in E.
  - destruct (find_latest _ _ _) as [s|] eqn:E; [|by eexists].
    apply find_latest_Some in E as (HP & (k & Hk) & Hmax).
    assert (s = sp) as ->.
    { destruct (decide (k = kp)) as [->|Hk']; [congruence|].
      pose proof (Hnew k s Hk Hk' (Hkey k s Hk HP)).
      assert (sub_createdAt sp ≤ sub_createdAt s); [|lia]. eapply Hmax; [exact Hp|].
      unfold Access.live_or_canceled_of, seq_b. by rewrite (bool_decide_eq_true_2 _ Hup), Hsp. }
    rewrite Hsp, Hpd. unfold Access.hasDirectoryAccess, Access.hasActiveAccess.
    rewrite Access.grace_ms, (proj2 (Z.ltb_ge _ _) Hgrace). by eexists.
Qed.

(** ** Witnesses *)
Section witnesses.
#[local] Existing Instance default_config.
#[local] Existing Instances counter_entropy plain_argon2 plain_jwt echo_totp plain_ua empty_geoip counting_stripe.

Definition signed_token : string :=
  match (Auth.signAccessToken "u1" "ann@example.com" USER (initial_world 1000000)).1 with
  | Ok t => t | Err _ => "" end.
Definition one_minute_on : world := put_now 1060000 (Revocation.revokeUser "u1" (initial_world 1000000)).2.

Definition sub_row (id : string) (st : subscription_status) (pastDue : option Z) (created : Z) : subscription :=
  Mk_subscription id "u1" "p1" "cus_1" ("stripe_" +:+ id) st 0 0 false None pastDue None created.
Definition sub_world (m : gmap string subscription) (now : Z) : world :=
  Access.set_subs m (put_now now (initial_world 0)).
Definition u1 : principal := Principal "u1" "ann@example.com" USER None.
Definition late_world : world := sub_world {[ "s1" := sub_row "s1" PAST_DUE (Some 1000) 0 ]} 5000.
Lemma subscription_guard_policy_witness :
  subscriptionGuard (Some u1) late_world = (Ok true, late_world).
Proof.
  refine (proj2 (proj1 (subscription_guard_policy u1 late_world _)) _).
  - apply unique_check. vm_compute. reflexivity.
  - right. right. exists "s1", (sub_row "s1" PAST_DUE (Some 1000) 0). split; [vm_compute; reflexivity|].
    split; [reflexivity|]. constructor. vm_compute. reflexivity.
Defined.

(** Cancelled, then subscribed again, then past due for 8 days. *)
Definition resubscribed : world :=
  sub_world {[ "s1" := sub_row "s1" CANCELED None 0; "s2" := sub_row "s2" PAST_DUE (Some 1000) 500 ]}
    (1000 + 8 * Date.day).
Lemma resubscribing_loses_directory_witness :
  ∃ msg, directoryAccessGuard (Some u1) resubscribed = (Err (Http 403 msg), resubscribed).
Proof.
  refine (proj2 (resubscribing_loses_directory u1 resubscribed "s2" (sub_row "s2" PAST_DUE (Some 1000) 500)
    "s1" (sub_row "s1" CANCELED None 0) 1000 _ _ _ _ _ _ _ _ _ _ _ _)).
  1: apply unique_check; vm_compute; reflexivity.
  all: try (vm_compute; reflexivity).
  - vm_compute. discriminate.
  - intros k s Hk Hne _.
    change (({[ "s1" := sub_row "s1" CANCELED None 0; "s2" := sub_row "s2" PAST_DUE (Some 1000) 500 ]}
      : gmap string subscription) !! k = Some s) in Hk.
    apply lookup_insert_Some in Hk as [[<- <-]|[_ Hk]]; [vm_compute; reflexivity|].
    apply lookup_singleton_Some in Hk as [<- _]. by destruct Hne.
Defined.
End witnesses.
