(* ===== verification/Subscriptions.v ===== *)
(** SubscriptionsService (subscriptions/subscriptions.service.ts): plans and
    credit packs, checkout, portal, status, cancellation, and the
    synchronisation of Stripe's events into the subscription, invoice and
    credit tables. *)
From S2P Require Import Prelude JsLib Crypto Schema Effects Platform Config Messaging Tokens Users Access Billing.

(** A record found through a required relation. *)
Definition required {A} (o : option A) : M A :=
  match o with Some a => mret a | None => throw (JsError "Inconsistent query result") end.
(** [a.b] where [a] may be undefined. *)
Definition defined {A} (o : option A) : M A :=
  match o with Some a => mret a | None => throw (JsError "Cannot read properties of undefined") end.
Lemma respects_required {A} (R : world → world → Prop) `{!PreOrder R} (o : option A) :
  respects R (required o).
Proof. intros w. destruct o; cbn; reflexivity. Qed.
Lemma respects_defined {A} (R : world → world → Prop) `{!PreOrder R} (o : option A) :
  respects R (defined o).
Proof. intros w. destruct o; cbn; reflexivity. Qed.
#[export] Hint Resolve respects_required respects_defined : steph.

(** [Number.isFinite(credits) && credits > 0] of the stamped metadata. *)
Definition positive_int (s : option string) : option Z :=
  match s ≫= Str.parseInt with Some n => if n <=? 0 then None else Some n | None => None end.

Definition seconds (t : Z) : Z := t * 1000.

(** [mapStripeStatus]. *)
Definition mapStripeStatus (st : stripe_status) : subscription_status :=
  match st with
  | st_trialing => TRIALING
  | st_active => ACTIVE
  | st_past_due | st_unpaid | st_paused => PAST_DUE
  | st_canceled => CANCELED
  | st_incomplete | st_incomplete_expired => EXPIRED
  end.
(** [pastDueSince] of a status: kept through a streak, cleared after it. *)
Definition streak (now : Z) (st : subscription_status) (current : option Z) : option Z :=
  match st with PAST_DUE => Some (current ifnull now) | _ => None end.

(** The two writes of a credit purchase and of a monthly grant: the balance,
    then its ledger row. *)
Definition grant_credits `{Entropy} (userId : string) (credits : Z) (source : credit_source)
    (amountPaidCents : option Z) (stripeReference : string) : M unit :=
  _ ← db_update T_users userId (λ u, set_u_leadFinderCredits (u_leadFinderCredits u + credits) u);
  now ← date_now;
  id ← random_uuid;
  _ ← db_create T_creditGrants id
        (Mk_credit_grant id userId credits source amountPaidCents (Some stripeReference) now);
  mret tt.

Module Subscriptions.
Section subscriptions.
Context {cfg : config} `{Entropy, StripeApi}.

Definition listPlans : M (list plan) :=
  l ← db_find_many T_plans pl_isActive; mret (order_asc pl_amountCents l).
Definition listCreditPacks : M (list credit_pack) :=
  l ← db_find_many T_creditPacks cp_isActive; mret (order_asc cp_credits l).

(** The URL of the created session, or 400. *)
Definition session_url (o : option string) : M string :=
  match o with
  | Some url => if Str.nonempty url then mret url else BadRequest "Stripe did not return a checkout URL"
  | None => BadRequest "Stripe did not return a checkout URL"
  end.

Definition createCreditsCheckoutSession (userId packSlug : string) (quantity : Z) : M string :=
  o ← Users.findById userId;
  match o with
  | None => NotFound "Account not found"
  | Some user =>
      p ← db_find_by T_creditPacks (λ p, seq_b (cp_slug p) packSlug);
      match p with
      | None => NotFound "Credit pack not found"
      | Some pack =>
          if negb (cp_isActive pack) then NotFound "Credit pack not found" else
          customerId ← StripeCustomer.getOrCreateStripeCustomer (u_id user) (u_email user) (u_fullName user);
          session ← stripe_do stripe_session_url
            (StripeCreateCheckout "payment" customerId (cp_stripePriceId pack) quantity
               [("userId", u_id user); ("packId", cp_id pack);
                ("credits", pretty (cp_credits pack * quantity))]);
          url ← session_url session;
          _ ← Audit.record (Audit.with_meta
                (JObj [("packId", JStr (cp_id pack)); ("packSlug", JStr (cp_slug pack));
                       ("quantity", JNum quantity)])
                (Audit.by_actor userId "billing.credits_checkout_started"));
          mret url
      end
  end.

Definition createCheckoutSession (userId planSlug : string) : M string :=
  o ← Users.findById userId;
  match o with
  | None => NotFound "Account not found"
  | Some user =>
      p ← db_find_by T_plans (λ p, seq_b (pl_slug p) planSlug);
      match p with
      | None => NotFound "Plan not found"
      | Some plan =>
          if negb (pl_isActive plan) then NotFound "Plan not found" else
          existing ← db_find_latest T_subscriptions sub_createdAt (Access.live_of userId);
          now ← date_now;
          _ ← match existing with
              | Some s =>
                  if Access.hasActiveAccess now (sub_status s) (sub_pastDueSince s)
                       (PAYMENT_GRACE_PERIOD_DAYS cfg)
                  then BadRequest "You already have a subscription. Use the billing portal to change or cancel it."
                  else
                    _ ← stripe_do stripe_ack (StripeCancel (sub_stripeSubscriptionId s));
                    _ ← db_update_indexed T_subscriptions (sub_id s)
                          (λ s, set_sub_cancelAtPeriodEnd false (set_sub_status CANCELED s));
                    mret tt
              | None => mret tt
              end;
          customerId ← StripeCustomer.getOrCreateStripeCustomer (u_id user) (u_email user) (u_fullName user);
          session ← stripe_do stripe_session_url
            (StripeCreateCheckout "subscription" customerId (pl_stripePriceId plan) 1
               [("userId", u_id user); ("planId", pl_id plan)]);
          url ← session_url session;
          _ ← Audit.record (Audit.with_meta
                (JObj [("planId", JStr (pl_id plan)); ("planSlug", JStr (pl_slug plan))])
                (Audit.by_actor userId "billing.checkout_started"));
          mret url
      end
  end.

Definition createPortalSession (userId : string) : M string :=
  o ← Users.findById userId;
  match o ≫= u_stripeCustomerId with
  | Some customer =>
      if Str.nonempty customer then stripe_do stripe_portal_url (StripeCreatePortal customer)
      else BadRequest "No billing account yet — subscribe first"
  | None => BadRequest "No billing account yet — subscribe first"
  end.

(** *** Status, cancellation *)
Inductive status_view :=
| StatusNone (hasDirectoryAccess : bool)
| StatusOf (status : subscription_status) (plan : string) (currentPeriodEnd : Z)
    (cancelAtPeriodEnd hasDirectoryAccess : bool) (daysPastDue : option Z).
Definition getStatus (userId : string) : M status_view :=
  subscription ← db_find_latest T_subscriptions sub_createdAt (λ s, seq_b (sub_userId s) userId);
  user ← Users.findById userId;
  let isAdmin := match user with
                 | Some u => match u_role u with ADMIN | SUPER_ADMIN => true | _ => false end
                 | None => false end in
  let isComped := from_option u_adminGrantedDirectoryAccess false user in
  match subscription with
  | None => mret (StatusNone (isAdmin || isComped))
  | Some s =>
      p ← db_find T_plans (sub_planId s);
      plan ← required p;
      now ← date_now;
      mret (StatusOf (sub_status s) (pl_name plan) (sub_currentPeriodEnd s) (sub_cancelAtPeriodEnd s)
        (isAdmin || isComped ||
         Access.hasDirectoryAccess now (sub_status s) (sub_pastDueSince s) (PAYMENT_GRACE_PERIOD_DAYS cfg))
        (Access.daysPastDue now (sub_pastDueSince s)))
  end.

Definition cancel (userId : string) : M string :=
  subscription ← db_find_latest T_subscriptions sub_createdAt (Access.live_of userId);
  match subscription with
  | None => NotFound "No active subscription to cancel"
  | Some s =>
      u ← db_find T_users (sub_userId s); user ← required u;
      p ← db_find T_plans (sub_planId s); plan ← required p;
      _ ← stripe_do stripe_ack (StripeUpdateCancelAtPeriodEnd (sub_stripeSubscriptionId s) true);
      _ ← db_update T_subscriptions (sub_id s) (set_sub_cancelAtPeriodEnd true);
      _ ← Audit.record (Audit.with_target_id (sub_id s)
            (Audit.by_actor userId "billing.subscription_cancel_requested"));
      _ ← Email.sendCancellationScheduled (u_email user) (pl_name plan) (sub_currentPeriodEnd s);
      mret "Your subscription will remain active until the end of the current billing period."
  end.

Definition resume (userId : string) : M string :=
  subscription ← db_find_latest T_subscriptions sub_createdAt
    (λ s, Access.live_of userId s && sub_cancelAtPeriodEnd s);
  match subscription with
  | None => NotFound "No pending cancellation to undo"
  | Some s =>
      _ ← stripe_do stripe_ack (StripeUpdateCancelAtPeriodEnd (sub_stripeSubscriptionId s) false);
      _ ← db_update T_subscriptions (sub_id s) (set_sub_cancelAtPeriodEnd false);
      _ ← Audit.record (Audit.with_target_id (sub_id s)
            (Audit.by_actor userId "billing.subscription_resumed"));
      mret "Your subscription will continue renewing as normal."
  end.

(** *** Stripe to local *)
Definition by_stripe_id (id : string) (s : subscription) : bool := seq_b (sub_stripeSubscriptionId s) id.

(** The columns an event writes on a row: [item] is the first item. *)
Definition mapStripeSubToUpdate (now : Z) (ss : stripe_sub) (item : Z * Z) (current : option Z)
    (s : subscription) : subscription :=
  let st := mapStripeStatus (ss_status ss) in
  Mk_subscription (sub_id s) (sub_userId s) (sub_planId s) (sub_stripeCustomerId s)
    (sub_stripeSubscriptionId s) st (seconds item.1) (seconds item.2) (ss_cancel_at_period_end ss)
    (match ss_trial_end ss with Some t => if t =? 0 then None else Some (seconds t) | None => None end)
    (streak now st current)
    (sub_renewalReminderSentForPeriodEnd s) (sub_createdAt s).
(** The row an event creates. *)
Definition new_subscription (now : Z) (id userId planId : string) (ss : stripe_sub) (item : Z * Z) : subscription :=
  mapStripeSubToUpdate now ss item None
    (Mk_subscription id userId planId (ss_customer ss) (ss_id ss) ACTIVE 0 0 false None None None now).

Definition lead_finder (m : gmap string string) : bool := bool_decide (m !! "kind" = Some "lead_finder_tier").

(** [prisma.subscription.upsert]. *)
Definition upsert (userId planId : string) (ss : stripe_sub) (current : option Z) : M unit :=
  item ← defined (head (ss_items ss));
  now ← date_now;
  row ← db_find_by T_subscriptions (by_stripe_id (ss_id ss));
  match row with
  | Some s =>
      _ ← db_update_indexed T_subscriptions (sub_id s) (mapStripeSubToUpdate now ss item current);
      mret tt
  | None =>
      id ← random_uuid;
      _ ← db_create T_subscriptions id (new_subscription now id userId planId ss item);
      mret tt
  end.

(** After a write rejected by a unique index: a duplicate live subscription. *)
Definition duplicate (userId : string) (ss : stripe_sub) : M unit :=
  _ ← stripe_do stripe_ack (StripeCancel (ss_id ss));
  Audit.record (Audit.with_target_id (ss_id ss)
    (Audit.by_actor userId "billing.duplicate_subscription_prevented")).

(** The name of a status in the audit log. *)
Definition status_name (st : subscription_status) : string :=
  match st with
  | TRIALING => "TRIALING" | ACTIVE => "ACTIVE" | PAST_DUE => "PAST_DUE"
  | CANCELED => "CANCELED" | EXPIRED => "EXPIRED"
  end.

Definition syncSubscriptionFromStripe (ss : stripe_sub) : M unit :=
  if lead_finder (ss_metadata ss) then mret tt else
  existing ← db_find_by T_subscriptions (by_stripe_id (ss_id ss));
  match meta (ss_metadata ss) "userId", meta (ss_metadata ss) "planId" with
  | Some userId, Some planId =>
      synced ← try_catch
        (_ ← upsert userId planId ss (existing ≫= sub_pastDueSince); mret true)
        (λ err, match err with
                | PrismaKnown code =>
                    if seq_b code "P2002" then _ ← duplicate userId ss; mret false else throw err
                | _ => throw err
                end);
      if (synced : bool) then
        Audit.record (Audit.with_meta
          (JObj [("status", JStr (status_name (mapStripeStatus (ss_status ss))))])
          (Audit.with_target_id (ss_id ss) (Audit.by_actor userId "billing.subscription_synced")))
      else mret tt
  | _, _ =>
      match existing with
      | None => mret tt
      | Some s =>
          item ← defined (head (ss_items ss));
          now ← date_now;
          _ ← db_update_indexed T_subscriptions (sub_id s)
                (mapStripeSubToUpdate now ss item (sub_pastDueSince s));
          mret tt
      end
  end.

Definition sendSubscriptionConfirmedEmail (ss : stripe_sub) : M unit :=
  if lead_finder (ss_metadata ss) then mret tt else
  match meta (ss_metadata ss) "userId", meta (ss_metadata ss) "planId" with
  | Some userId, Some planId =>
      user ← Users.findById userId;
      plan ← db_find T_plans planId;
      match user, plan with
      | Some user, Some plan =>
          item ← defined (head (ss_items ss));
          Email.sendSubscriptionConfirmed (u_email user) (pl_name plan) (pl_amountCents plan)
            (seconds item.2)
      | _, _ => mret tt
      end
  | _, _ => mret tt
  end.

Definition handleCreditsCheckoutCompleted (session : checkout_session) : M unit :=
  match meta (co_metadata session) "userId", positive_int (meta (co_metadata session) "credits") with
  | Some userId, Some credits =>
      _ ← grant_credits userId credits CREDIT_PACK_PURCHASE (co_amount_total session) (co_id session);
      Audit.record (Audit.with_meta
        (JObj [("credits", JNum credits); ("sessionId", JStr (co_id session))])
        (Audit.by_actor userId "billing.credits_purchased"))
  | _, _ => mret tt
  end.

Definition markPastDue (stripeSubscriptionId : string) : M unit :=
  existing ← db_find_by T_subscriptions (by_stripe_id stripeSubscriptionId);
  match existing with
  | None => mret tt
  | Some s =>
      u ← db_find T_users (sub_userId s); user ← required u;
      p ← db_find T_plans (sub_planId s); plan ← required p;
      now ← date_now;
      _ ← db_update_indexed T_subscriptions (sub_id s)
            (λ r, set_sub_pastDueSince (Some (sub_pastDueSince s ifnull now))
                    (set_sub_status PAST_DUE r));
      when (bool_decide (sub_pastDueSince s = None))
        (Email.sendPaymentFailed (u_email user) (pl_name plan) (PAYMENT_GRACE_PERIOD_DAYS cfg))
  end.

(** [invoice.amount_paid || invoice.amount_due]. *)
Definition invoice_amount (i : stripe_invoice) : Z :=
  if si_amount_paid i =? 0 then si_amount_due i else si_amount_paid i.
Definition syncInvoiceFromStripe (i : stripe_invoice) (st : invoice_status) : M unit :=
  match truthy (si_subscription i) with
  | None => mret tt
  | Some stripeSubscriptionId =>
      localSub ← db_find_by T_subscriptions (by_stripe_id stripeSubscriptionId);
      match localSub with
      | None => mret tt
      | Some s =>
          now ← date_now;
          let paidAt := match st with InvPAID => Some now | _ => None end in
          row ← db_find_by T_invoices (λ r, seq_b (inv_stripeInvoiceId r) (si_id i));
          match row with
          | Some r =>
              _ ← db_update T_invoices (inv_id r) (λ r,
                    set_inv_paidAt paidAt (set_inv_pdfUrl (si_invoice_pdf i)
                      (set_inv_amountCents (invoice_amount i) (set_inv_status st r))));
              mret tt
          | None =>
              id ← random_uuid;
              _ ← db_create T_invoices id
                    (Mk_invoice id (sub_id s) (si_id i) (invoice_amount i) (si_currency i) st
                       (si_invoice_pdf i) paidAt now);
              mret tt
          end
      end
  end.

Definition handleWebhookEvent (e : stripe_event) : M unit :=
  match se_body e with
  | ev_checkout_completed session =>
      if seq_b (co_mode session) "payment" then handleCreditsCheckoutCompleted session else
      if negb (seq_b (co_mode session) "subscription") then mret tt else
      match truthy (co_subscription session) with
      | None => mret tt
      | Some id =>
          ss ← stripe_read id;
          _ ← syncSubscriptionFromStripe ss;
          sendSubscriptionConfirmedEmail ss
      end
  | ev_subscription_created ss | ev_subscription_updated ss | ev_subscription_resumed ss =>
      syncSubscriptionFromStripe ss
  | ev_subscription_deleted ss =>
      _ ← db_update_many_indexed T_subscriptions (by_stripe_id (ss_id ss)) (set_sub_status CANCELED);
      mret tt
  | ev_invoice_paid i => syncInvoiceFromStripe i InvPAID
  | ev_invoice_payment_failed i =>
      _ ← syncInvoiceFromStripe i InvOPEN;
      match truthy (si_subscription i) with
      | Some id => markPastDue id
      | None => mret tt
      end
  | ev_other _ => mret tt
  end.
End subscriptions.
End Subscriptions.
