(* ===== verification/LeadFinderBilling.v ===== *)
(** LeadFinderBillingService (lead-finder-billing/lead-finder-billing.service.ts):
    the Lead Finder tiers, their subscriptions and the monthly credit grants. *)
From S2P Require Import Prelude JsLib Crypto Schema Effects Platform Config Messaging Tokens Users Access Billing Subscriptions.

Module LeadFinderBilling.
Section billing.
Context {cfg : config} `{Entropy, StripeApi}.

Definition listTiers : M (list lead_finder_tier) :=
  l ← db_find_many T_leadFinderTiers lt_isActive; mret (order_asc lt_amountCents l).

Definition live_of (userId : string) (s : lf_subscription) : bool :=
  seq_b (lfs_userId s) userId && live_status (lfs_status s).

Inductive tier_status :=
| TierFree
| TierOf (tierSlug : string) (status : subscription_status) (currentPeriodEnd : Z)
    (cancelAtPeriodEnd : bool) (daysPastDue : option Z).
Definition getStatus (userId : string) : M tier_status :=
  subscription ← db_find_latest T_leadFinderSubscriptions lfs_createdAt (live_of userId);
  match subscription with
  | None => mret TierFree
  | Some s =>
      t ← db_find T_leadFinderTiers (lfs_tierId s);
      tier ← required t;
      now ← date_now;
      mret (TierOf (lt_slug tier) (lfs_status s) (lfs_currentPeriodEnd s) (lfs_cancelAtPeriodEnd s)
        (Access.daysPastDue now (lfs_pastDueSince s)))
  end.

Definition createCheckoutSession (userId tierSlug : string) : M string :=
  o ← Users.findById userId;
  match o with
  | None => NotFound "Account not found"
  | Some user =>
      t ← db_find_by T_leadFinderTiers (λ t, seq_b (lt_slug t) tierSlug);
      match t with
      | None => BadRequest "This plan is not available for checkout"
      | Some tier =>
          if negb (lt_isActive tier) || negb (lt_recurring tier)
          then BadRequest "This plan is not available for checkout" else
          match truthy (lt_stripePriceId tier) with
          | None => BadRequest "This plan is not available for checkout"
          | Some price =>
              existing ← db_find_by T_leadFinderSubscriptions (live_of userId);
              match existing with
              | Some _ => BadRequest "You already have a Lead Finder plan. Use the billing portal to change or cancel it."
              | None =>
                  customerId ← StripeCustomer.getOrCreateStripeCustomer (u_id user) (u_email user) (u_fullName user);
                  session ← stripe_do stripe_session_url
                    (StripeCreateCheckout "subscription" customerId price 1
                       [("userId", u_id user); ("tierId", lt_id tier); ("kind", "lead_finder_tier")]);
                  url ← Subscriptions.session_url session;
                  _ ← Audit.record (Audit.with_meta
                        (JObj [("tierId", JStr (lt_id tier)); ("tierSlug", JStr (lt_slug tier))])
                        (Audit.by_actor userId "billing.lead_finder_checkout_started"));
                  mret url
              end
          end
      end
  end.

Definition cancel (userId : string) : M string :=
  subscription ← db_find_latest T_leadFinderSubscriptions lfs_createdAt (live_of userId);
  match subscription with
  | None => NotFound "No active Lead Finder plan to cancel"
  | Some s =>
      _ ← stripe_do stripe_ack (StripeUpdateCancelAtPeriodEnd (lfs_stripeSubscriptionId s) true);
      _ ← db_update T_leadFinderSubscriptions (lfs_id s) (set_lfs_cancelAtPeriodEnd true);
      _ ← Audit.record (Audit.with_target_id (lfs_id s)
            (Audit.by_actor userId "billing.lead_finder_cancel_requested"));
      mret "Your Lead Finder plan stays active until the end of the current billing period. Credits already granted never expire."
  end.

(** *** Stripe to local *)
Definition by_stripe_id (id : string) (s : lf_subscription) : bool := seq_b (lfs_stripeSubscriptionId s) id.
(** The columns an event writes. *)
Definition synced (ss : stripe_sub) (item : Z * Z) (pastDueSince : option Z) (s : lf_subscription) : lf_subscription :=
  Mk_lf_subscription (lfs_id s) (lfs_userId s) (lfs_tierId s) (lfs_stripeCustomerId s)
    (lfs_stripeSubscriptionId s) (mapStripeStatus (ss_status ss)) (seconds item.1) (seconds item.2)
    (ss_cancel_at_period_end ss) pastDueSince (lfs_renewalReminderSentForPeriodEnd s) (lfs_createdAt s).
Definition new_subscription (now : Z) (id userId tierId : string) (ss : stripe_sub) (item : Z * Z)
    (pastDueSince : option Z) : lf_subscription :=
  synced ss item pastDueSince
    (Mk_lf_subscription id userId tierId (ss_customer ss) (ss_id ss) ACTIVE 0 0 false None None now).

Definition upsert (userId tierId : string) (ss : stripe_sub) (pastDueSince : option Z) : M unit :=
  item ← defined (head (ss_items ss));
  now ← date_now;
  row ← db_find_by T_leadFinderSubscriptions (by_stripe_id (ss_id ss));
  match row with
  | Some s =>
      _ ← db_update_indexed T_leadFinderSubscriptions (lfs_id s) (synced ss item pastDueSince);
      mret tt
  | None =>
      id ← random_uuid;
      _ ← db_create T_leadFinderSubscriptions id (new_subscription now id userId tierId ss item pastDueSince);
      mret tt
  end.

Definition duplicate (userId : string) (ss : stripe_sub) : M unit :=
  _ ← stripe_do stripe_ack (StripeCancel (ss_id ss));
  Audit.record (Audit.with_target_id (ss_id ss)
    (Audit.by_actor userId "billing.duplicate_lead_finder_subscription_prevented")).

Definition syncFromStripe (ss : stripe_sub) : M unit :=
  match meta (ss_metadata ss) "userId", meta (ss_metadata ss) "tierId" with
  | Some userId, Some tierId =>
      existing ← db_find_by T_leadFinderSubscriptions (by_stripe_id (ss_id ss));
      now ← date_now;
      let current := existing ≫= lfs_pastDueSince in
      let st := mapStripeStatus (ss_status ss) in
      let isFirstFailure := bool_decide (st = PAST_DUE) && bool_decide (current = None) in
      try_catch
        (_ ← upsert userId tierId ss (streak now st current);
         if isFirstFailure then
           user ← Users.findById userId;
           tier ← db_find T_leadFinderTiers tierId;
           match user, tier with
           | Some user, Some tier =>
               Email.sendPaymentFailed (u_email user) ("Lead Finder " +:+ lt_name tier)
                 (PAYMENT_GRACE_PERIOD_DAYS cfg)
           | _, _ => mret tt
           end
         else mret tt)
        (λ err, match err with
                | PrismaKnown code => if seq_b code "P2002" then duplicate userId ss else throw err
                | _ => throw err
                end)
  | _, _ => mret tt
  end.

Definition sendSubscriptionConfirmedEmail (ss : stripe_sub) : M unit :=
  match meta (ss_metadata ss) "userId", meta (ss_metadata ss) "tierId" with
  | Some userId, Some tierId =>
      user ← Users.findById userId;
      tier ← db_find T_leadFinderTiers tierId;
      match user, tier with
      | Some user, Some tier =>
          item ← defined (head (ss_items ss));
          Email.sendSubscriptionConfirmed (u_email user) ("AI Lead Finder — " +:+ lt_name tier)
            (lt_amountCents tier) (seconds item.2)
      | _, _ => mret tt
      end
  | _, _ => mret tt
  end.

Definition grantMonthlyCredits (i : stripe_invoice) : M unit :=
  if negb (Subscriptions.lead_finder (si_metadata i)) then mret tt else
  match meta (si_metadata i) "userId", meta (si_metadata i) "tierId" with
  | Some userId, Some tierId =>
      t ← db_find T_leadFinderTiers tierId;
      match t with
      | None => mret tt
      | Some tier =>
          _ ← grant_credits userId (lt_credits tier) LEAD_FINDER_TIER_GRANT (Some (si_amount_paid i)) (si_id i);
          Audit.record (Audit.with_meta
            (JObj [("tierSlug", JStr (lt_slug tier)); ("credits", JNum (lt_credits tier));
                   ("invoiceId", JStr (si_id i))])
            (Audit.by_actor userId "billing.lead_finder_credits_granted"))
      end
  | _, _ => mret tt
  end.

Definition handleWebhookEvent (e : stripe_event) : M unit :=
  match se_body e with
  | ev_checkout_completed session =>
      if negb (seq_b (co_mode session) "subscription") then mret tt else
      match truthy (co_subscription session) with
      | None => mret tt
      | Some id =>
          if negb (Subscriptions.lead_finder (co_metadata session)) then mret tt else
          ss ← stripe_read id;
          _ ← syncFromStripe ss;
          sendSubscriptionConfirmedEmail ss
      end
  | ev_subscription_created ss | ev_subscription_updated ss | ev_subscription_resumed ss =>
      if negb (Subscriptions.lead_finder (ss_metadata ss)) then mret tt else syncFromStripe ss
  | ev_subscription_deleted ss =>
      _ ← db_update_many_indexed T_leadFinderSubscriptions (by_stripe_id (ss_id ss)) (set_lfs_status CANCELED);
      mret tt
  | ev_invoice_paid i => grantMonthlyCredits i
  | _ => mret tt
  end.
End billing.
End LeadFinderBilling.
