(* ===== verification/Webhooks.v ===== *)
(** Stripe's webhooks: WebhooksController (subscriptions/webhooks.controller.ts)
    verifies and queues an event, StripeWebhookProcessor
    (subscriptions/stripe-webhook.processor.ts) applies queued events one by
    one to both billing services. *)
From S2P Require Import Prelude JsLib Crypto Schema Effects Platform Config Messaging Tokens Users Access Billing Subscriptions LeadFinderBilling.

(** [stripe.webhooks.constructEvent] (billing/stripe.service.ts): the event of a
    body whose signature verifies. *)
Class StripeSignature := { constructEvent : string → string → res stripe_event }.

Module Webhooks.
Section webhooks.
Context {cfg : config} `{Entropy, StripeApi, StripeSignature}.

Definition ENQUEUE_TIMEOUT_MS : Z := 3000.
Definition webhookQueue_add (e : stripe_event) : M unit :=
  queue_push (λ w, put_webhookQueue (w_webhookQueue w ++ [e]) w).

Definition handleStripeWebhook (rawBody : string) (signature : option string) : M unit :=
  match truthy signature with
  | None => BadRequest "Missing Stripe-Signature header"
  | Some signature =>
      match constructEvent rawBody signature with
      | Err _ => BadRequest "Webhook signature verification failed"
      | Ok event =>
          try_catch (withTimeout (webhookQueue_add event) ENQUEUE_TIMEOUT_MS)
            (λ _, ServiceUnavailable "Could not queue webhook event for processing")
      end
  end.

(** [StripeWebhookProcessor.process]. *)
Definition process (job : stripe_event) : M unit :=
  _ ← Subscriptions.handleWebhookEvent job;
  LeadFinderBilling.handleWebhookEvent job.

Definition event_type (e : stripe_event) : string :=
  match se_body e with
  | ev_checkout_completed _ => "checkout.session.completed"
  | ev_subscription_created _ => "customer.subscription.created"
  | ev_subscription_updated _ => "customer.subscription.updated"
  | ev_subscription_resumed _ => "customer.subscription.resumed"
  | ev_subscription_deleted _ => "customer.subscription.deleted"
  | ev_invoice_paid _ => "invoice.paid"
  | ev_invoice_payment_failed _ => "invoice.payment_failed"
  | ev_other t => t
  end.
(** [onFailed]: audited once the attempts are exhausted. *)
Definition onFailed (job : stripe_event) (attemptsMade : Z) (attempts : option Z) (message : string) : M unit :=
  when (attempts ifnull 1 <=? attemptsMade)
    (Audit.record (Audit.with_meta
      (JObj [("eventType", JStr (event_type job)); ("error", JStr message)])
      (Audit.with_target "StripeEvent" (se_id job) (Audit.by_system "billing.webhook_processing_failed")))).
End webhooks.
End Webhooks.
