(* ===== verification/BillingInvariants.v ===== *)
(** The invariant of the billing tables: at most one live subscription of each
    kind per account, and a start for every past-due streak, kept by every
    webhook event in any order and number, by the billing requests of users
    and by account erasure. *)
From S2P Require Import Prelude JsLib Crypto Schema Effects Platform Config Messaging Tokens Revocation Users Sessions Access Billing Auth Instances Subscriptions LeadFinderBilling Webhooks Invariants.

Lemma seq_b_comm a b : seq_b a b = seq_b b a.
Proof. unfold seq_b. apply bool_decide_ext. done. Qed.
Lemma subs_conflict_sym a b : t_conflict T_subscriptions a b = t_conflict T_subscriptions b a.
Proof.
  cbn. rewrite (seq_b_comm (sub_stripeSubscriptionId a)), (seq_b_comm (sub_userId a)).
  by destruct (live_status (sub_status a)), (live_status (sub_status b)), (seq_b (sub_userId b) _).
Qed.
Lemma lfs_conflict_sym a b :
  t_conflict T_leadFinderSubscriptions a b = t_conflict T_leadFinderSubscriptions b a.
Proof.
  cbn. rewrite (seq_b_comm (lfs_stripeSubscriptionId a)), (seq_b_comm (lfs_userId a)).
  by destruct (live_status (lfs_status a)), (live_status (lfs_status b)), (seq_b (lfs_userId b) _).
Qed.

(** A past-due row knows since when. *)
Definition timed (s : subscription) : Prop := sub_status s = PAST_DUE → is_Some (sub_pastDueSince s).
Definition lf_timed (s : lf_subscription) : Prop := lfs_status s = PAST_DUE → is_Some (lfs_pastDueSince s).
Definition subs_inv : world → Prop := table_inv T_subscriptions sub_id timed.
Definition lfs_inv : world → Prop := table_inv T_leadFinderSubscriptions lfs_id lf_timed.
Definition billing_ok (w : world) : Prop := subs_inv w ∧ lfs_inv w.

(** ** The writes *)
#[local] Hint Extern 1 (respects (keeps subs_inv) (db_create T_subscriptions _ _)) =>
  apply create_keeps; [apply subs_conflict_sym|done|done|] : steph.
#[local] Hint Extern 1 (respects (keeps lfs_inv) (db_create T_leadFinderSubscriptions _ _)) =>
  apply create_keeps; [apply lfs_conflict_sym|done|done|] : steph.
#[local] Hint Extern 1 (respects (keeps subs_inv) (db_update_indexed T_subscriptions _ _)) =>
  apply update_indexed_keeps; [apply subs_conflict_sym|done|done|intros ?] : steph.
#[local] Hint Extern 1 (respects (keeps lfs_inv) (db_update_indexed T_leadFinderSubscriptions _ _)) =>
  apply update_indexed_keeps; [apply lfs_conflict_sym|done|done|intros ?] : steph.
#[local] Hint Extern 1 (respects (keeps subs_inv) (db_update_many_indexed T_subscriptions _ _)) =>
  apply update_many_indexed_keeps; [apply subs_conflict_sym|done|done|intros ?] : steph.
#[local] Hint Extern 1 (respects (keeps lfs_inv) (db_update_many_indexed T_leadFinderSubscriptions _ _)) =>
  apply update_many_indexed_keeps; [apply lfs_conflict_sym|done|done|intros ?] : steph.
#[local] Hint Extern 1 (respects (keeps subs_inv) (db_update T_subscriptions _ _)) =>
  apply update_keeps; [apply subs_conflict_sym|done|by intros []|intros [] ?; assumption|by intros []] : steph.
#[local] Hint Extern 1 (respects (keeps lfs_inv) (db_update T_leadFinderSubscriptions _ _)) =>
  apply update_keeps; [apply lfs_conflict_sym|done|by intros []|intros [] ?; assumption|by intros []] : steph.

(** The rows that are written are timed. *)
Lemma streak_timed now st current : st = PAST_DUE → is_Some (streak now st current).
Proof. intros ->. by eexists. Qed.
Lemma map_timed now ss item current s : timed (Subscriptions.mapStripeSubToUpdate now ss item current s).
Proof. intros H. by apply streak_timed. Qed.
Lemma synced_timed now ss item current s :
  lf_timed (LeadFinderBilling.synced ss item (streak now (mapStripeStatus (ss_status ss)) current) s).
Proof. intros H. by apply streak_timed. Qed.
#[local] Hint Extern 1 (timed _) => first [apply map_timed | by intros ?] : steph.
#[local] Hint Extern 1 (lf_timed _) => first [apply synced_timed | by intros ?] : steph.
#[local] Hint Extern 1 (timed _ → timed _) => intros _ : steph.
#[local] Hint Extern 1 (lf_timed _ → lf_timed _) => intros _ : steph.

Section ops.
Context {cfg : config} `{Entropy, StripeApi}.
Ltac tac := repeat first
  [ solve [eauto with steph typeclass_instances] | frame_step | respects_step ].

Lemma getOrCreate_subs u e n : respects (keeps subs_inv) (StripeCustomer.getOrCreateStripeCustomer u e n).
Proof. unfold StripeCustomer.getOrCreateStripeCustomer, StripeCustomer.commit, StripeCustomer.create,
  StripeCustomer.read, Users.findById. tac. Qed.
Lemma getOrCreate_lfs u e n : respects (keeps lfs_inv) (StripeCustomer.getOrCreateStripeCustomer u e n).
Proof. unfold StripeCustomer.getOrCreateStripeCustomer, StripeCustomer.commit, StripeCustomer.create,
  StripeCustomer.read, Users.findById. tac. Qed.
#[local] Hint Resolve getOrCreate_subs getOrCreate_lfs : steph.

Ltac unfold_webhooks :=
  unfold Webhooks.process, Subscriptions.handleWebhookEvent, LeadFinderBilling.handleWebhookEvent,
    Subscriptions.handleCreditsCheckoutCompleted, Subscriptions.syncSubscriptionFromStripe,
    Subscriptions.sendSubscriptionConfirmedEmail, Subscriptions.markPastDue,
    Subscriptions.syncInvoiceFromStripe, Subscriptions.upsert, Subscriptions.duplicate,
    LeadFinderBilling.grantMonthlyCredits, LeadFinderBilling.syncFromStripe,
    LeadFinderBilling.sendSubscriptionConfirmedEmail, LeadFinderBilling.upsert,
    LeadFinderBilling.duplicate, grant_credits, Users.findById, Email.sendSubscriptionConfirmed,
    Email.sendPaymentFailed.
Lemma process_subs e : respects (keeps subs_inv) (Webhooks.process e).
Proof. unfold_webhooks. tac. Qed.
Lemma process_lfs e : respects (keeps lfs_inv) (Webhooks.process e).
Proof. unfold_webhooks. tac. Qed.

Ltac unfold_requests :=
  unfold Subscriptions.createCheckoutSession, Subscriptions.createCreditsCheckoutSession,
    Subscriptions.cancel, Subscriptions.resume, LeadFinderBilling.createCheckoutSession,
    LeadFinderBilling.cancel, Subscriptions.session_url, Users.findById,
    Email.sendCancellationScheduled.
Lemma checkout_subs u p : respects (keeps subs_inv) (Subscriptions.createCheckoutSession u p).
Proof. unfold_requests. tac. Qed.
Lemma checkout_lfs u p : respects (keeps lfs_inv) (Subscriptions.createCheckoutSession u p).
Proof. unfold_requests. tac. Qed.
Lemma credits_subs u p q : respects (keeps subs_inv) (Subscriptions.createCreditsCheckoutSession u p q).
Proof. unfold_requests. tac. Qed.
Lemma credits_lfs u p q : respects (keeps lfs_inv) (Subscriptions.createCreditsCheckoutSession u p q).
Proof. unfold_requests. tac. Qed.
Lemma cancel_subs u : respects (keeps subs_inv) (Subscriptions.cancel u).
Proof. unfold_requests. tac. Qed.
Lemma cancel_lfs u : respects (keeps lfs_inv) (Subscriptions.cancel u).
Proof. unfold_requests. tac. Qed.
Lemma resume_subs u : respects (keeps subs_inv) (Subscriptions.resume u).
Proof. unfold_requests. tac. Qed.
Lemma resume_lfs u : respects (keeps lfs_inv) (Subscriptions.resume u).
Proof. unfold_requests. tac. Qed.
Lemma lf_checkout_subs u t : respects (keeps subs_inv) (LeadFinderBilling.createCheckoutSession u t).
Proof. unfold_requests. tac. Qed.
Lemma lf_checkout_lfs u t : respects (keeps lfs_inv) (LeadFinderBilling.createCheckoutSession u t).
Proof. unfold_requests. tac. Qed.
Lemma lf_cancel_subs u : respects (keeps subs_inv) (LeadFinderBilling.cancel u).
Proof. unfold_requests. tac. Qed.
Lemma lf_cancel_lfs u : respects (keeps lfs_inv) (LeadFinderBilling.cancel u).
Proof. unfold_requests. tac. Qed.
End ops.

Section erasure.
Context {cfg : config} `{Entropy, Argon2, StripeApi}.
Ltac tac := repeat first
  [ solve [eauto with steph typeclass_instances] | frame_step | respects_step ].
Lemma erasure_subs u p : respects (keeps subs_inv) (Auth.deleteAccount u p).
Proof. unfold Auth.deleteAccount, Users.findById, Revocation.revokeUser. tac. Qed.
Lemma erasure_lfs u p : respects (keeps lfs_inv) (Auth.deleteAccount u p).
Proof. unfold Auth.deleteAccount, Users.findById, Revocation.revokeUser. tac. Qed.
End erasure.

(** ** The system *)

(** What moves the billing state: one attempt to process an event, in any
    order, any number of times and whatever its outcome, a billing request of
    a user, an account erasure, and the passing of time. *)
Inductive billing_op :=
| WebhookAttempt (e : stripe_event)
| StartCheckout (userId planSlug : string)
| StartCreditsCheckout (userId packSlug : string) (quantity : Z)
| CancelPlan (userId : string)
| ResumePlan (userId : string)
| StartTierCheckout (userId tierSlug : string)
| CancelTier (userId : string)
| EraseAccount (userId password : string).

Section system.
Context {cfg : config} `{Entropy, Argon2, StripeApi}.
Definition run_billing (o : billing_op) (w : world) : world :=
  match o with
  | WebhookAttempt e => (Webhooks.process e w).2
  | StartCheckout u p => (Subscriptions.createCheckoutSession u p w).2
  | StartCreditsCheckout u p q => (Subscriptions.createCreditsCheckoutSession u p q w).2
  | CancelPlan u => (Subscriptions.cancel u w).2
  | ResumePlan u => (Subscriptions.resume u w).2
  | StartTierCheckout u t => (LeadFinderBilling.createCheckoutSession u t w).2
  | CancelTier u => (LeadFinderBilling.cancel u w).2
  | EraseAccount u p => (Auth.deleteAccount u p w).2
  end.
Inductive billing_step : world → world → Prop :=
| billing_runs o w : billing_step w (run_billing o w)
| billing_waits t w : billing_step w (put_now t w).

Lemma run_subs o w : subs_inv w → subs_inv (run_billing o w).
Proof.
  destruct o; [apply process_subs|apply checkout_subs|apply credits_subs|apply cancel_subs
    |apply resume_subs|apply lf_checkout_subs|apply lf_cancel_subs|apply erasure_subs].
Qed.
Lemma run_lfs o w : lfs_inv w → lfs_inv (run_billing o w).
Proof.
  destruct o; [apply process_lfs|apply checkout_lfs|apply credits_lfs|apply cancel_lfs
    |apply resume_lfs|apply lf_checkout_lfs|apply lf_cancel_lfs|apply erasure_lfs].
Qed.
Lemma billing_ok_step w w' : billing_ok w → billing_step w w' → billing_ok w'.
Proof.
  intros [Hs Hl] Hstep. destruct Hstep as [o w|t w].
  - split; [by apply run_subs|by apply run_lfs].
  - split; [exact Hs|exact Hl].
Qed.
End system.

(** C20. In every state reachable from a consistent one by webhook attempts
    (reordered, repeated, failing at any point), billing requests, erasures and
    waiting: an account has at most one live Directory subscription and at most
    one live Lead Finder subscription, a Stripe subscription has at most one
    row, and every PAST_DUE row carries the start of its streak, so that its
    grace period ends. *)
Theorem one_live_subscription {cfg : config} `{Entropy, Argon2, StripeApi} w0 w :
  billing_ok w0 → star billing_step w0 w →
  (∀ k1 k2 s1 s2, db_subscriptions (w_db w) !! k1 = Some s1 → db_subscriptions (w_db w) !! k2 = Some s2 →
     sub_stripeSubscriptionId s1 = sub_stripeSubscriptionId s2 ∨
     (sub_userId s1 = sub_userId s2 ∧ live_status (sub_status s1) = true ∧ live_status (sub_status s2) = true) →
     k1 = k2) ∧
  (∀ k1 k2 s1 s2, db_leadFinderSubscriptions (w_db w) !! k1 = Some s1 →
     db_leadFinderSubscriptions (w_db w) !! k2 = Some s2 →
     lfs_stripeSubscriptionId s1 = lfs_stripeSubscriptionId s2 ∨
     (lfs_userId s1 = lfs_userId s2 ∧ live_status (lfs_status s1) = true ∧ live_status (lfs_status s2) = true) →
     k1 = k2) ∧
  (∀ k s, db_subscriptions (w_db w) !! k = Some s → sub_status s = PAST_DUE → is_Some (sub_pastDueSince s)) ∧
  (∀ k s, db_leadFinderSubscriptions (w_db w) !! k = Some s → lfs_status s = PAST_DUE → is_Some (lfs_pastDueSince s)).
Proof.
  intros Hok Hstar.
  assert (billing_ok w) as [(_ & Hs & Hst) (_ & Hl & Hlt)].
  { eapply (star_invariant billing_step billing_ok); [apply billing_ok_step|exact Hstar|done]. }
  split_and!; [..|exact Hst|exact Hlt].
  - intros k1 k2 s1 s2 Hk1 Hk2 Hor. destruct (decide (k1 = k2)) as [|Hne]; [done|].
    specialize (Hs k1 k2 s1 s2 Hk1 Hk2 Hne). cbn in Hs. unfold seq_b in Hs.
    apply orb_false_iff in Hs as [Ha%bool_decide_eq_false Hb].
    destruct Hor as [?|(E & L1 & L2)]; [done|]. by rewrite (bool_decide_eq_true_2 _ E), L1, L2 in Hb.
  - intros k1 k2 s1 s2 Hk1 Hk2 Hor. destruct (decide (k1 = k2)) as [|Hne]; [done|].
    specialize (Hl k1 k2 s1 s2 Hk1 Hk2 Hne). cbn in Hl. unfold seq_b in Hl.
    apply orb_false_iff in Hl as [Ha%bool_decide_eq_false Hb].
    destruct Hor as [?|(E & L1 & L2)]; [done|]. by rewrite (bool_decide_eq_true_2 _ E), L1, L2 in Hb.
Qed.

(** ** Examples *)
Section examples.
#[local] Existing Instance default_config.
#[local] Existing Instances counter_entropy counting_stripe plain_argon2.
Definition plan1 : plan := Mk_plan "p1" "Directory" "directory" "price_1" SIX_MONTHS 5000 "usd" true.
Definition billed (rows : gmap string subscription) (now : Z) : world :=
  put_db (set_db_subscriptions rows (set_db_plans {[ "p1" := plan1 ]}
    (set_db_users {[ "u1" := race_user ]} empty_db))) (initial_world now).
Definition active_event : stripe_sub :=
  StripeSub "sub_1" "cus_1" st_active {[ "userId" := "u1"; "planId" := "p1" ]} [(10, 20)] false None.

(** Two checkouts of one account both reach Stripe. *)
Definition second_event : stripe_sub :=
  StripeSub "sub_2" "cus_1" st_active {[ "userId" := "u1"; "planId" := "p1" ]} [(10, 20)] false None.
Definition first_synced : world :=
  run_billing (WebhookAttempt (StripeEvent "e1" (ev_subscription_created active_event))) (billed ∅ 0).
Definition both_synced : world :=
  run_billing (WebhookAttempt (StripeEvent "e2" (ev_subscription_created second_event))) first_synced.
Lemma one_live_subscription_witness :
  size (db_subscriptions (w_db both_synced)) = 1%nat ∧ w_stripe both_synced = [StripeCancel "sub_2"] ∧
  ∀ k s, db_subscriptions (w_db both_synced) !! k = Some s → sub_status s = PAST_DUE → is_Some (sub_pastDueSince s).
Proof.
  split; [vm_compute; reflexivity|]. split; [vm_compute; reflexivity|].
  refine (proj1 (proj2 (proj2 (one_live_subscription (billed ∅ 0) both_synced _ _)))).
  - split; (split; [by intros k s|split; [by intros k1 k2 s1 s2|by intros k s]]).
  - apply star_next with first_synced; [apply billing_runs|].
    apply star_next with both_synced; [apply billing_runs|apply star_here].
Defined.
End examples.
