(* ===== verification/BillingProps.v ===== *)
(** What a Stripe event does to the local tables: exactness, idempotence and
    the duplicate branch of the subscription sync, the grace-period clock, the
    credit ledger, the webhook endpoint, and what starting a checkout gives
    away. *)
From S2P Require Import Prelude JsLib Crypto Schema Effects Platform Invariants Config Messaging Tokens Revocation Users Sessions Access Billing Auth Instances AuthSessions Guards Subscriptions LeadFinderBilling Webhooks BillingInvariants.
Import Guards.

Definition subs (w : world) : gmap string subscription := db_subscriptions (w_db w).

(** An event of the Directory plan with the metadata checkout stamps. *)
Definition directory_event (ss : stripe_sub) (userId planId : string) (item : Z * Z) : Prop :=
  Subscriptions.lead_finder (ss_metadata ss) = false ∧
  meta (ss_metadata ss) "userId" = Some userId ∧ meta (ss_metadata ss) "planId" = Some planId ∧
  head (ss_items ss) = Some item.

Section sync.
Context {cfg : config} `{Entropy, StripeApi}.
Import Subscriptions.

(** The row of a Stripe subscription. *)
Definition row_of (id : string) (w : world) : option subscription := find_row (by_stripe_id id) (subs w).

(** At most one row per Stripe subscription, found under its own key. *)
Lemma row_of_unique id w k s :
  unique_ok T_subscriptions (subs w) → subs w !! k = Some s → sub_stripeSubscriptionId s = id →
  row_of id w = Some s.
Proof.
  intros Hu Hk Hid. eapply find_row_unique; [exact Hk| |].
  - unfold by_stripe_id, seq_b. by apply bool_decide_eq_true_2.
  - intros k' s' Hk' Hs'. unfold by_stripe_id, seq_b in Hs'. apply bool_decide_eq_true in Hs'.
    destruct (decide (k = k')) as [->|Hne]; [congruence|].
    specialize (Hu k k' s s' Hk Hk' Hne). cbn in Hu. unfold seq_b in Hu.
    apply orb_false_iff in Hu as [Hu%bool_decide_eq_false _]. congruence.
Qed.
Lemma row_of_Some id w s :
  keyed sub_id (subs w) → row_of id w = Some s → subs w !! sub_id s = Some s ∧ sub_stripeSubscriptionId s = id.
Proof.
  intros Hk Hs. apply find_row_Some in Hs as [HP [k Hs]]. unfold by_stripe_id, seq_b in HP.
  apply bool_decide_eq_true in HP. by rewrite (Hk k s Hs).
Qed.

(** The row an event writes, under its key. *)
Definition target (userId planId : string) (ss : stripe_sub) (item : Z * Z) (w : world) : string * subscription :=
  match row_of (ss_id ss) w with
  | Some old => (sub_id old, mapStripeSubToUpdate (w_now w) ss item (sub_pastDueSince old) old)
  | None => (rand_uuid (w_tick w), new_subscription (w_now w) (rand_uuid (w_tick w)) userId planId ss item)
  end.
Definition collides (userId planId : string) (ss : stripe_sub) (item : Z * Z) (w : world) : bool :=
  has_conflict T_subscriptions (subs w) (target userId planId ss item w).1 (target userId planId ss item w).2.
(** The entropy the upsert draws. *)
Definition drawn (ss : stripe_sub) (w : world) : world :=
  match row_of (ss_id ss) w with Some _ => w | None => put_tick (S (w_tick w)) w end.

(** What an event relies on: consistent rows, existing account and plan,
    an unused key. *)
Record ready (userId planId : string) (w : world) : Prop := {
  ready_keyed : keyed sub_id (subs w);
  ready_unique : unique_ok T_subscriptions (subs w);
  ready_user : user_exists (w_db w) userId = true;
  ready_plan : exists_in (db_plans (w_db w)) planId = true;
  ready_fresh : subs w !! rand_uuid (w_tick w) = None
}.

Lemma upsert_run userId planId ss item w :
  ready userId planId w → head (ss_items ss) = Some item →
  upsert userId planId ss (row_of (ss_id ss) w ≫= sub_pastDueSince) w =
    if collides userId planId ss item w then (Err (PrismaKnown "P2002"), drawn ss w)
    else (Ok tt, put_rows T_subscriptions
                   (<[(target userId planId ss item w).1 := (target userId planId ss item w).2]> (subs w))
                   (drawn ss w)).
Proof.
  intros [Hk Hu Hus Hpl Hfr] Hitem. unfold upsert, collides, target, drawn. rewrite Hitem. unfold defined.
  rewrite run_bind. cbn [mret M_ret]. rewrite run_bind. unfold date_now, gets. rewrite run_bind.
  unfold db_find_by, gets. cbn [t_get T_subscriptions]. fold (subs w). fold (row_of (ss_id ss) w).
  destruct (row_of (ss_id ss) w) as [old|] eqn:E; cbn [fst snd].
  - destruct (row_of_Some _ _ _ Hk E) as [Hold _]. rewrite run_bind. unfold db_update_indexed.
    cbn [t_get T_subscriptions]. cbv zeta. fold (subs w). rewrite Hold.
    replace (Some old ≫= sub_pastDueSince) with (sub_pastDueSince old) by done.
    by destruct (has_conflict _ _ _ _).
  - unfold random_uuid, draw. rewrite run_bind, run_bind. cbn [mret M_ret]. rewrite run_bind.
    unfold db_create. cbv zeta. cbn [t_get T_subscriptions t_fk w_db put_tick]. fold (subs w).
    unfold exists_in at 1. rewrite Hfr, bool_decide_eq_false_2 by by intros []. cbn [orb].
    destruct (has_conflict _ _ _ _) eqn:Ec; [done|].
    unfold user_exists in Hus. cbn [sub_userId sub_planId new_subscription mapStripeSubToUpdate].
    unfold user_exists. by rewrite Hus, Hpl.
Qed.

Lemma drawn_same ss w :
  w_db (drawn ss w) = w_db w ∧ w_now (drawn ss w) = w_now w ∧ w_stripe (drawn ss w) = w_stripe w.
Proof. unfold drawn. by destruct (row_of _ _). Qed.

(** The sync of an event, computed. *)
Lemma sync_run userId planId ss item w :
  (∀ h, stripe_ack h = Ok tt) →
  ready userId planId w → directory_event ss userId planId item →
  ∃ w', syncSubscriptionFromStripe ss w = (Ok tt, w') ∧
    (if collides userId planId ss item w
     then subs w' = subs w ∧ w_stripe w' = w_stripe w ++ [StripeCancel (ss_id ss)]
     else subs w' = <[(target userId planId ss item w).1 := (target userId planId ss item w).2]> (subs w) ∧
          w_stripe w' = w_stripe w).
Proof.
  intros Hack Hr (Hlf & Hmu & Hmp & Hitem). pose proof (ready_user _ _ _ Hr) as Hus.
  destruct (drawn_same ss w) as (Hd & Hn & Hs).
  unfold syncSubscriptionFromStripe. rewrite Hlf, run_bind. unfold db_find_by, gets.
  cbn [t_get T_subscriptions]. fold (subs w). fold (row_of (ss_id ss) w). rewrite Hmu, Hmp, run_bind.
  unfold try_catch at 1. rewrite run_bind, (upsert_run userId planId ss item w Hr Hitem).
  destruct (collides userId planId ss item w).
  - unfold seq_b at 1. rewrite bool_decide_eq_true_2 by done. rewrite run_bind. unfold duplicate.
    rewrite run_bind. unfold stripe_do. cbn zeta. rewrite Hack.
    rewrite Audit.record_run; [|intros k [= <-]; cbn [w_db put_stripe]; by rewrite Hd].
    eexists. split; [reflexivity|]. unfold Audit.recorded, subs. cbn. by rewrite Hd, Hs.
  - cbn [mret M_ret]. rewrite Audit.record_run.
    2:{ intros k [= <-]. unfold put_rows. cbn. unfold user_exists. cbn. by rewrite Hd. }
    eexists. split; [reflexivity|]. unfold Audit.recorded, subs. cbn. done.
Qed.

(** The account the written row belongs to. *)
Definition owner (userId : string) (ss : stripe_sub) (w : world) : string :=
  from_option sub_userId userId (row_of (ss_id ss) w).
Lemma target_fields userId planId ss item w :
  keyed sub_id (subs w) →
  let s := (target userId planId ss item w).2 in
  sub_id s = (target userId planId ss item w).1 ∧ sub_stripeSubscriptionId s = ss_id ss ∧
  sub_userId s = owner userId ss w ∧ sub_status s = mapStripeStatus (ss_status ss).
Proof.
  intros Hk. unfold target, owner. destruct (row_of _ _) as [old|] eqn:E; cbn; [|done].
  destruct (row_of_Some _ _ _ Hk E) as [_ Hid]. done.
Qed.

Lemma collides_spec userId planId ss item w :
  ready userId planId w →
  collides userId planId ss item w = true ↔
  live_status (mapStripeStatus (ss_status ss)) = true ∧
  ∃ k other, subs w !! k = Some other ∧ sub_stripeSubscriptionId other ≠ ss_id ss ∧
    Access.live_of (owner userId ss w) other = true.
Proof.
  intros [Hk Hu _ _ Hfr]. destruct (target_fields userId planId ss item w Hk) as (Tid & Tss & Tus & Tst).
  unfold collides. set (k0 := (target userId planId ss item w).1) in *.
  set (s0 := (target userId planId ss item w).2) in *.
  assert (Hconf : ∀ other, t_conflict T_subscriptions s0 other =
    seq_b (ss_id ss) (sub_stripeSubscriptionId other)
    || (seq_b (owner userId ss w) (sub_userId other) && live_status (mapStripeStatus (ss_status ss))
        && live_status (sub_status other))).
  { intros other. cbn. by rewrite Tss, Tus, Tst. }
  assert (Hother : ∀ k other, subs w !! k = Some other → k ≠ k0 → sub_stripeSubscriptionId other ≠ ss_id ss).
  { intros k other Hother Hne Hid. pose proof (row_of_unique _ w _ _ Hu Hother Hid) as Hrow.
    unfold k0, target in Hne. rewrite Hrow in Hne. by rewrite (Hk _ _ Hother) in Hne. }
  split.
  - intros Hc. destruct (has_conflict T_subscriptions (subs w) k0 s0) eqn:E; [|done].
    unfold has_conflict in E. apply existsb_exists in E as ([k other] & Hin & Hb).
    rewrite <- list_elem_of_In, elem_of_map_to_list in Hin. cbn [fst snd] in Hb.
    apply andb_true_iff in Hb as [Hne Hb]. unfold seq_b in Hne.
    apply negb_true_iff, bool_decide_eq_false in Hne. rewrite Hconf in Hb.
    pose proof (Hother k other Hin Hne) as Hid. unfold seq_b in Hb.
    rewrite (bool_decide_eq_false_2 (ss_id ss = _)) in Hb by congruence. cbn [orb] in Hb.
    apply andb_true_iff in Hb as [[Hus Hl]%andb_true_iff Hl']. split; [done|].
    exists k, other. split_and!; [done|done|]. unfold Access.live_of. rewrite seq_b_comm. unfold seq_b.
    by rewrite Hus, Hl'.
  - intros (Hl & k & other & Hin & Hid & Hlive). destruct (has_conflict _ _ _ _) eqn:E; [done|].
    rewrite has_conflict_false in E.
    assert (k ≠ k0).
    { intros ->. unfold k0, target in Hin. destruct (row_of _ _) as [old|] eqn:Erow; cbn in Hin.
      - destruct (row_of_Some _ _ _ Hk Erow) as [Ho Hid']. congruence.
      - by rewrite Hfr in Hin. }
    specialize (E k other Hin ltac:(done)). rewrite Hconf in E. unfold Access.live_of in Hlive.
    apply andb_true_iff in Hlive as [Hus Hlive]. by rewrite (seq_b_comm (owner userId ss w)), Hus, Hl, Hlive, orb_true_r in E.
Qed.
End sync.

(** C21. Syncing a Directory event of Stripe never fails (Stripe
    acknowledging cancellations) and has exactly two outcomes.  Either the
    subscription's row now carries the status, the period and the cancellation
    flag of the event, with the past-due streak kept or started, and every
    other row is untouched; or the event would have made a second live
    subscription of the account, no row changes, and the redundant
    subscription is cancelled at Stripe, once. *)
Theorem sync_outcome {cfg : config} `{Entropy, StripeApi} userId planId ss item w :
  (∀ h, stripe_ack h = Ok tt) →
  ready userId planId w → directory_event ss userId planId item →
  ∃ w', Subscriptions.syncSubscriptionFromStripe ss w = (Ok tt, w') ∧
  ((∃ s, row_of (ss_id ss) w' = Some s ∧ sub_userId s = owner userId ss w ∧
      sub_status s = mapStripeStatus (ss_status ss) ∧
      sub_currentPeriodStart s = item.1 * 1000 ∧ sub_currentPeriodEnd s = item.2 * 1000 ∧
      sub_cancelAtPeriodEnd s = ss_cancel_at_period_end ss ∧
      sub_pastDueSince s = streak (w_now w) (sub_status s) (row_of (ss_id ss) w ≫= sub_pastDueSince) ∧
      (∀ k, k ≠ sub_id s → subs w' !! k = subs w !! k) ∧ w_stripe w' = w_stripe w) ∨
   (live_status (mapStripeStatus (ss_status ss)) = true ∧
    (∃ k other, subs w !! k = Some other ∧ sub_stripeSubscriptionId other ≠ ss_id ss ∧
       Access.live_of (owner userId ss w) other = true) ∧
    subs w' = subs w ∧ w_stripe w' = w_stripe w ++ [StripeCancel (ss_id ss)])).
Proof.
  intros Hack Hr He. destruct (sync_run userId planId ss item w Hack Hr He) as (w' & Hrun & Hw').
  exists w'. split; [done|]. destruct (collides userId planId ss item w) eqn:Hc.
  - right. apply (collides_spec userId planId ss item w Hr) in Hc as [Hl Hex]. tauto.
  - left. destruct Hw' as [Hsubs Hst].
    destruct (target_fields userId planId ss item w (ready_keyed _ _ _ Hr)) as (Tid & Tss & Tus & Tst).
    exists (target userId planId ss item w).2. split_and!; try done.
    + apply row_of_unique with (target userId planId ss item w).1; [| |done].
      * rewrite Hsubs. apply unique_ok_insert; [apply subs_conflict_sym|apply Hr|exact Hc].
      * rewrite Hsubs. by apply lookup_insert_eq.
    + unfold target. by destruct (row_of _ _).
    + unfold target. by destruct (row_of _ _).
    + unfold target. by destruct (row_of _ _).
    + unfold target. by destruct (row_of _ _).
    + intros k Hne. rewrite Hsubs. apply lookup_insert_ne. congruence.
Qed.

(** The written row, rewritten by the same event, is itself. *)
Lemma map_idem now now' ss item current s :
  let s' := Subscriptions.mapStripeSubToUpdate now ss item current s in
  Subscriptions.mapStripeSubToUpdate now' ss item (sub_pastDueSince s') s' = s'.
Proof. unfold Subscriptions.mapStripeSubToUpdate. cbn. by destruct (mapStripeStatus (ss_status ss)). Qed.

(** C22. The sync is idempotent: an event delivered again, at any later time
    and whatever happened elsewhere in between, leaves the subscription table
    as its first delivery left it. *)
Theorem sync_idempotent {cfg : config} `{Entropy, StripeApi} userId planId ss item w w1 w2 w3 r1 r2 :
  (∀ h, stripe_ack h = Ok tt) → directory_event ss userId planId item →
  ready userId planId w → Subscriptions.syncSubscriptionFromStripe ss w = (r1, w1) →
  ready userId planId w2 → subs w2 = subs w1 →
  Subscriptions.syncSubscriptionFromStripe ss w2 = (r2, w3) →
  subs w3 = subs w1.
Proof.
  intros Hack He Hr E1 Hr2 Hsame E2.
  destruct (sync_run userId planId ss item w Hack Hr He) as (w' & Hrun & Hw').
  rewrite E1 in Hrun. injection Hrun as -> <-.
  destruct (sync_run userId planId ss item w2 Hack Hr2 He) as (w'' & Hrun2 & Hw'').
  rewrite E2 in Hrun2. injection Hrun2 as -> <-.
  destruct (target_fields userId planId ss item w (ready_keyed _ _ _ Hr)) as (Tid & Tss & _).
  destruct (collides userId planId ss item w) eqn:Hc.
  - destruct Hw' as [Hs1 _]. destruct (collides userId planId ss item w2) eqn:Hc2.
    { destruct Hw'' as [-> _]. by rewrite Hsame. }
    exfalso. apply not_true_iff_false in Hc2. apply Hc2, (collides_spec userId planId ss item w2 Hr2).
    apply (collides_spec userId planId ss item w Hr) in Hc.
    unfold owner, row_of. rewrite Hsame, Hs1. exact Hc.
  - destruct Hw' as [Hs1 _].
    assert (Hrow : row_of (ss_id ss) w2 = Some (target userId planId ss item w).2).
    { apply row_of_unique with (target userId planId ss item w).1; [apply Hr2| |done].
      rewrite Hsame, Hs1. by apply lookup_insert_eq. }
    assert (Ht : target userId planId ss item w2 = target userId planId ss item w).
    { unfold target at 1. rewrite Hrow, Tid. unfold target.
      destruct (row_of (ss_id ss) w) as [old|]; cbn [fst snd]; f_equal; apply map_idem. }
    destruct (collides userId planId ss item w2) eqn:Hc2.
    { destruct Hw'' as [-> _]. by rewrite Hsame. }
    destruct Hw'' as [-> _]. rewrite Ht, Hsame, Hs1. by rewrite insert_insert_eq.
Qed.

(** ** The grace-period clock *)

(** From one table to the next, row by row: a row that is past due afterwards
    is the row it was, or its streak started when it already had, and now
    otherwise. *)
Definition clock_kept (now : Z) (m m' : gmap string subscription) : Prop :=
  ∀ k s, m !! k = Some s → ∃ s', m' !! k = Some s' ∧
    (sub_status s' = PAST_DUE → s' = s ∨ sub_pastDueSince s' = Some (sub_pastDueSince s ifnull now)).
Definition keeps_clock {A} (m : M A) : Prop :=
  ∀ w, keyed sub_id (subs w) → clock_kept (w_now w) (subs w) (subs (m w).2).

Lemma clock_refl now m : clock_kept now m m.
Proof. intros k s Hk. eauto. Qed.
Lemma clock_insert now m k s s' :
  m !! k = Some s →
  (sub_status s' = PAST_DUE → sub_pastDueSince s' = Some (sub_pastDueSince s ifnull now)) →
  clock_kept now m (<[k := s']> m).
Proof.
  intros Hk Hs j x Hj. destruct (decide (j = k)) as [->|Hne].
  - rewrite Hk in Hj. injection Hj as <-. exists s'. rewrite lookup_insert_eq. eauto.
  - exists x. rewrite lookup_insert_ne by done. eauto.
Qed.
Lemma clock_create now m k s : m !! k = None → clock_kept now m (<[k := s]> m).
Proof.
  intros Hk j x Hj. exists x. rewrite lookup_insert_ne by congruence. eauto.
Qed.

(** Steps before and after the write that leave the table alone. *)
Lemma bind_same {A B T} (f : world → T) (m : M A) (k : A → M B) w :
  (∀ a, respects (same f) (k a)) → f ((m ≫= k) w).2 = f (m w).2.
Proof. intros Hk. rewrite run_bind. destruct (m w) as [[a|e] w1]; [apply Hk|done]. Qed.
Lemma try_same {A T} (f : world → T) (m : M A) h w :
  (∀ e, respects (same f) (h e)) → f (try_catch m h w).2 = f (m w).2.
Proof. intros Hh. unfold try_catch. destruct (m w) as [[a|e] w1]; [done|apply Hh]. Qed.
Lemma clock_before {A B} (m : M A) (k : A → M B) :
  respects (same (λ w, (subs w, w_now w))) m → (∀ a, keeps_clock (k a)) → keeps_clock (m ≫= k).
Proof.
  intros Hm Hk w Hw. rewrite run_bind. specialize (Hm w). unfold same in Hm.
  destruct (m w) as [[a|e] w1]; cbn in *; injection Hm as Hs Hn; rewrite <- Hs.
  - rewrite <- Hn. apply (Hk a w1). by rewrite Hs.
  - apply clock_refl.
Qed.
Lemma clock_after {A B} (m : M A) (k : A → M B) :
  keeps_clock m → (∀ a, respects (same subs) (k a)) → keeps_clock (m ≫= k).
Proof. intros Hm Hk w Hw. rewrite (bind_same subs) by done. by apply Hm. Qed.
Lemma clock_same {A} (m : M A) : respects (same subs) m → keeps_clock m.
Proof. intros Hm w _. rewrite (Hm w). apply clock_refl. Qed.

Section clock.
Context {cfg : config} `{Entropy, StripeApi}.
Import Subscriptions.
Ltac tac := repeat first
  [ solve [eauto with steph typeclass_instances] | frame_step | respects_step ].

(** An indexed update of the row found by the Stripe id. *)
Lemma update_clock id s f w :
  keyed sub_id (subs w) → row_of id w = Some s →
  (sub_status (f s) = PAST_DUE → sub_pastDueSince (f s) = Some (sub_pastDueSince s ifnull (w_now w))) →
  clock_kept (w_now w) (subs w) (subs (db_update_indexed T_subscriptions (sub_id s) f w).2).
Proof.
  intros Hk Hrow Hf. destruct (row_of_Some _ _ _ Hk Hrow) as [Hs _].
  destruct (db_update_indexed T_subscriptions (sub_id s) f w) as [[r|e] w'] eqn:E.
  - apply db_update_indexed_inv in E as (r0 & Hr0 & -> & _ & ->).
    unfold subs in *. cbn in *. rewrite Hs in Hr0. injection Hr0 as <-. by eapply clock_insert.
  - apply db_update_indexed_err in E as ->. apply clock_refl.
Qed.

Lemma upsert_clock u p ss w :
  keyed sub_id (subs w) →
  clock_kept (w_now w) (subs w) (subs (upsert u p ss (row_of (ss_id ss) w ≫= sub_pastDueSince) w).2).
Proof.
  intros Hk. unfold upsert. destruct (head (ss_items ss)) as [item|]; [|apply clock_refl].
  cbn [defined]. rewrite run_bind. cbn [mret M_ret]. unfold date_now, gets. rewrite run_bind.
  rewrite run_bind. unfold db_find_by, gets. cbn [t_get T_subscriptions]. fold (subs w).
  fold (row_of (ss_id ss) w). destruct (row_of (ss_id ss) w) as [s|] eqn:E.
  - rewrite (bind_same subs) by (intros; tac). eapply update_clock; [done|exact E|].
    cbn. by destruct (mapStripeStatus (ss_status ss)).
  - unfold random_uuid, draw. rewrite run_bind, run_bind. cbn [mret M_ret].
    rewrite (bind_same subs) by (intros; tac).
    destruct (db_create _ _ _ _) as [[r|e] w'] eqn:Ec.
    + apply db_create_inv in Ec as (_ & Hnone & _ & _ & ->). by apply clock_create.
    + apply db_create_err in Ec as ->. apply clock_refl.
Qed.

Lemma sync_clock ss : keeps_clock (syncSubscriptionFromStripe ss).
Proof.
  intros w Hk. unfold syncSubscriptionFromStripe. destruct (lead_finder _); [apply clock_refl|].
  rewrite run_bind. unfold db_find_by, gets. cbn [t_get T_subscriptions]. fold (subs w).
  fold (row_of (ss_id ss) w).
  destruct (meta (ss_metadata ss) "userId") as [u|], (meta (ss_metadata ss) "planId") as [p|].
  { rewrite (bind_same subs) by (intros []; tac).
    rewrite (try_same subs); [|intros []; unfold duplicate; tac].
    rewrite (bind_same subs) by (intros; tac). by apply upsert_clock. }
  all: destruct (row_of (ss_id ss) w) as [s|] eqn:E; [|apply clock_refl];
    destruct (head (ss_items ss)) as [item|]; [|apply clock_refl];
    cbn [defined]; rewrite run_bind; cbn [mret M_ret]; unfold date_now, gets; rewrite run_bind;
    rewrite (bind_same subs) by (intros; tac); eapply update_clock; [done|exact E|];
    cbn; by destruct (mapStripeStatus (ss_status ss)).
Qed.

Lemma markPastDue_clock id : keeps_clock (markPastDue id).
Proof.
  intros w Hk. unfold markPastDue. rewrite run_bind. unfold db_find_by, db_find, gets.
  cbn [t_get T_subscriptions T_users T_plans]. fold (subs w). fold (row_of id w).
  destruct (row_of id w) as [s|] eqn:E; [|apply clock_refl].
  rewrite run_bind. destruct (_ !! sub_userId s); [|apply clock_refl]. cbn [required].
  rewrite run_bind. cbn [mret M_ret]. rewrite run_bind.
  destruct (_ !! sub_planId s); [|apply clock_refl]. cbn [required].
  rewrite run_bind. cbn [mret M_ret]. unfold date_now, gets. rewrite run_bind.
  rewrite (bind_same subs) by (intros; unfold Email.sendPaymentFailed; tac).
  by eapply update_clock.
Qed.

Lemma handle_clock e : keeps_clock (handleWebhookEvent e).
Proof.
  unfold handleWebhookEvent. destruct (se_body e) as [s|ss|ss|ss|ss|i|i|t]; try apply sync_clock.
  - destruct (seq_b (co_mode s) "payment").
    { apply clock_same. unfold handleCreditsCheckoutCompleted, grant_credits. tac. }
    destruct (negb _); [apply clock_same; tac|].
    destruct (truthy _) as [id|]; [|apply clock_same; tac].
    apply clock_before; [tac|]. intros ss. apply clock_after; [apply sync_clock|].
    intros _. unfold sendSubscriptionConfirmedEmail, Users.findById, Email.sendSubscriptionConfirmed. tac.
  - apply clock_after; [|intros; tac]. intros w _. unfold db_update_many_indexed. cbv zeta.
    destruct (any_conflict _ _ _); [apply clock_refl|]. intros k s Hk. unfold subs. cbn.
    rewrite lookup_update_where. unfold subs in Hk. rewrite Hk. cbn. eexists. split; [done|].
    by destruct (by_stripe_id _ s); [|left].
  - apply clock_same. unfold syncInvoiceFromStripe. tac.
  - apply clock_before; [unfold syncInvoiceFromStripe; tac|]. intros _.
    destruct (truthy _) as [id|]; [apply markPastDue_clock|apply clock_same; tac].
  - apply clock_same. tac.
Qed.
End clock.

(** C23. A grace period runs from the first failure: whatever event is
    processed, and however the processing ends, a Directory subscription that
    was past due since [t] either is not past due any more or still is since
    [t]; and one that was not and now is counts from now.  Retried charges,
    repeated and reordered deliveries never move the clock of a streak. *)
Theorem grace_clock {cfg : config} `{Entropy, StripeApi} e w k s :
  keyed sub_id (subs w) → subs w !! k = Some s →
  ∃ s', subs (Webhooks.process e w).2 !! k = Some s' ∧
    (∀ t, sub_pastDueSince s = Some t →
       sub_status s' = PAST_DUE → sub_pastDueSince s' = Some t) ∧
    (sub_status s ≠ PAST_DUE → sub_pastDueSince s = None →
       sub_status s' = PAST_DUE → sub_pastDueSince s' = Some (w_now w)).
Proof.
  intros Hk Hs. unfold Webhooks.process. rewrite (bind_same subs); last first.
  { intros _. unfold LeadFinderBilling.handleWebhookEvent, LeadFinderBilling.syncFromStripe,
      LeadFinderBilling.upsert, LeadFinderBilling.duplicate, LeadFinderBilling.grantMonthlyCredits,
      LeadFinderBilling.sendSubscriptionConfirmedEmail, grant_credits, Users.findById,
      Email.sendSubscriptionConfirmed, Email.sendPaymentFailed. frame_tac. }
  destruct (handle_clock e w Hk k s Hs) as (s' & Hs' & Hor). exists s'. split; [done|]. split.
  - intros t Ht Hpd. destruct (Hor Hpd) as [->| ->]; [done|]. by rewrite Ht.
  - intros Hn Ht Hpd. destruct (Hor Hpd) as [->| ->]; [done|]. by rewrite Ht.
Qed.

(** ** Starting a checkout *)
Lemma insert_canceled_only m k s :
  unique_ok T_subscriptions m → m !! k = Some s → live_status (sub_status s) = true →
  ∀ j x, <[k := set_sub_cancelAtPeriodEnd false (set_sub_status CANCELED s)]> m !! j = Some x →
    Access.live_or_canceled_of (sub_userId s) x = true → sub_status x = CANCELED.
Proof.
  intros Hu Hk Hlive j x Hj Hx. destruct (decide (j = k)) as [->|Hne]; simplify_map_eq; [done|].
  unfold Access.live_or_canceled_of in Hx. apply andb_true_iff in Hx as [Hus Hx].
  apply orb_true_iff in Hx as [Hx|Hx]; [|by apply bool_decide_eq_true in Hx].
  specialize (Hu k j s x Hk Hj ltac:(congruence)). cbn in Hu.
  by rewrite (seq_b_comm (sub_userId s)), Hus, Hlive, Hx, orb_true_r in Hu.
Qed.

(** Starting a new checkout gives permanent Directory access away: when
    the account's latest live subscription is past due beyond the grace period,
    a successful createCheckoutSession marks it CANCELED, and from then on
    DirectoryAccessGuard lets the account in, although nothing has been paid. *)
Lemma checkout_grants_directory {cfg : config} `{Entropy, StripeApi} p planSlug url k s t w w' :
  unique_ok T_subscriptions (subs w) → keyed sub_id (subs w) →
  subs w !! k = Some s → sub_userId s = pr_sub p → sub_status s = PAST_DUE →
  sub_pastDueSince s = Some t → t + PAYMENT_GRACE_PERIOD_DAYS cfg * Date.day ≤ w_now w →
  Subscriptions.createCheckoutSession (pr_sub p) planSlug w = (Ok url, w') →
  subs w' = <[k := set_sub_cancelAtPeriodEnd false (set_sub_status CANCELED s)]> (subs w) ∧
  ∀ t', directoryAccessGuard (Some p) (put_now t' w') = (Ok true, put_now t' w').
Proof.
  intros Hu Hkey Hk Hus Hst Hpd Hgrace Hrun.
  assert (Hlive : Access.live_of (pr_sub p) s = true).
  { unfold Access.live_of, seq_b. by rewrite (bool_decide_eq_true_2 _ Hus), Hst. }
  assert (Hlatest : find_latest sub_createdAt (Access.live_of (pr_sub p)) (subs w) = Some s).
  { destruct (find_latest _ _ _) as [s'|] eqn:E.
    - apply find_latest_Some in E as (HP & (k' & Hk') & _). f_equal.
      by eapply (Access.live_unique w (pr_sub p)).
    - rewrite find_latest_None in E. by rewrite (E k s Hk) in Hlive. }
  assert (Hsubs : subs w' = <[k := set_sub_cancelAtPeriodEnd false (set_sub_status CANCELED s)]> (subs w)).
  { unfold Subscriptions.createCheckoutSession, Users.findById, db_find, db_find_by, db_find_latest,
      date_now, gets in Hrun. rewrite run_bind in Hrun. destruct (_ !! pr_sub p) as [user|]; [|done].
    rewrite run_bind in Hrun. destruct (find_row _ _) as [plan|]; [|done].
    destruct (negb _); [done|]. rewrite run_bind in Hrun. cbn [t_get T_subscriptions] in Hrun.
    fold (subs w) in Hrun. rewrite Hlatest, run_bind, run_bind in Hrun.
    unfold Access.hasActiveAccess in Hrun.
    rewrite Hst, Hpd, Access.grace_ms, (proj2 (Z.ltb_ge _ _) Hgrace), run_bind in Hrun.
    unfold stripe_do at 1 in Hrun. cbv zeta in Hrun. destruct (stripe_ack _); [|done].
    rewrite run_bind in Hrun. rewrite (Hkey k s Hk) in Hrun.
    destruct (db_update_indexed _ _ _ _) as [[r|e] w1] eqn:E; [|done]. cbn [mret M_ret] in Hrun.
    apply db_update_indexed_inv in E as (r0 & Hr0 & _ & _ & ->).
    change (subs w !! k = Some r0) in Hr0. rewrite Hk in Hr0. injection Hr0 as <-.
    match type of Hrun with ?m ?w1 = _ => assert (Hs : subs (m w1).2 = subs w1) end.
    { match goal with |- subs (?m ?w1).2 = _ => assert (respects (same subs) m) as Hm; [|exact (Hm w1)] end.
      unfold StripeCustomer.getOrCreateStripeCustomer, StripeCustomer.commit, StripeCustomer.create,
        StripeCustomer.read, Users.findById, Subscriptions.session_url. frame_tac. }
    rewrite Hrun in Hs. exact Hs. }
  split; [done|]. intros t'. rewrite directoryAccessGuard_run.
  change (db_subscriptions (w_db (put_now t' w'))) with (subs w'). rewrite Hsubs.
  set (m' := <[k := _]> (subs w)).
  assert (Hall := insert_canceled_only (subs w) k s Hu Hk ltac:(by rewrite Hst)). fold m' in Hall.
  rewrite Hus in Hall. destruct (find_latest _ _ m') as [x|] eqn:E.
  - apply find_latest_Some in E as (HP & (j & Hj) & _).
    rewrite (Hall j x Hj HP). cbn. by rewrite orb_true_r.
  - exfalso. rewrite find_latest_None in E. specialize (E k _ (lookup_insert_eq _ _ _)).
    unfold Access.live_or_canceled_of, seq_b in E. cbn in E.
    by rewrite (bool_decide_eq_true_2 _ Hus) in E.
Qed.

(** ** Credits *)
Definition balance (u : string) (w : world) : option Z := u_leadFinderCredits <$> db_users (w_db w) !! u.
(** An event that pays for credits: whose, and how many. *)
Definition credited (e : stripe_event) (w : world) : option (string * Z) :=
  match se_body e with
  | ev_checkout_completed s =>
      if seq_b (co_mode s) "payment" then
        u ← meta (co_metadata s) "userId"; n ← positive_int (meta (co_metadata s) "credits"); Some (u, n)
      else None
  | ev_invoice_paid i =>
      if Subscriptions.lead_finder (si_metadata i) then
        u ← meta (si_metadata i) "userId"; t ← meta (si_metadata i) "tierId";
        tier ← db_leadFinderTiers (w_db w) !! t; Some (u, lt_credits tier)
      else None
  | _ => None
  end.

Section credits.
Context {cfg : config} `{Entropy, StripeApi}.

Lemma grant_balance u n src amt ref u' w :
  balance u' (grant_credits u n src amt ref w).2 =
  (λ b, if decide (u' = u) then b + n else b) <$> balance u' w.
Proof.
  unfold grant_credits. rewrite run_bind. unfold db_update. cbn [t_get T_users]. cbv zeta.
  destruct (db_users (w_db w) !! u) as [x|] eqn:E; cbn [fst snd].
  - match goal with |- balance u' (?m ?w1).2 = _ =>
      assert (Hm : respects (same (balance u')) m) by frame_tac; rewrite (Hm w1) end.
    unfold balance, put_rows. cbn. destruct (decide (u' = u)) as [->|Hne].
    + by rewrite lookup_insert_eq, E.
    + rewrite lookup_insert_ne by done. by destruct (_ !! u').
  - unfold balance. destruct (decide (u' = u)) as [->|Hne]; [by rewrite E|]. by destruct (_ !! u').
Qed.

(** Adding [v]'s credits to [u]'s balance. *)
Definition add_credits (c : option (string * Z)) (u : string) (b : Z) : Z :=
  match c with Some (v, n) => if decide (u = v) then b + n else b | None => b end.

Lemma pack_balance s u w :
  seq_b (co_mode s) "payment" = true →
  balance u (Subscriptions.handleCreditsCheckoutCompleted s w).2 =
  add_credits (credited (StripeEvent "" (ev_checkout_completed s)) w) u <$> balance u w.
Proof.
  intros Hm. unfold credited. cbn [se_body]. rewrite Hm.
  unfold Subscriptions.handleCreditsCheckoutCompleted.
  destruct (meta _ "userId") as [v|]; [|by cbn; destruct (balance u w)].
  destruct (positive_int _) as [n|]; [|by cbn; destruct (balance u w)].
  rewrite (bind_same (balance u)) by (intros; frame_tac). by rewrite grant_balance.
Qed.
Lemma tier_balance i u w :
  balance u (LeadFinderBilling.grantMonthlyCredits i w).2 =
  add_credits (credited (StripeEvent "" (ev_invoice_paid i)) w) u <$> balance u w.
Proof.
  unfold credited, LeadFinderBilling.grantMonthlyCredits. cbn [se_body].
  destruct (Subscriptions.lead_finder _); cbn [negb]; [|by cbn; destruct (balance u w)].
  destruct (meta _ "userId") as [v|]; [|by cbn; destruct (balance u w)].
  destruct (meta _ "tierId") as [t|]; [|by cbn; destruct (balance u w)].
  unfold db_find, gets. rewrite run_bind. cbn [t_get T_leadFinderTiers mbind option_bind].
  destruct (_ !! t) as [tier|]; [|by cbn; destruct (balance u w)].
  rewrite (bind_same (balance u)) by (intros; frame_tac). by rewrite grant_balance.
Qed.
(** An invoice of no Directory subscription is not recorded. *)
Lemma sync_invoice_skip i st w :
  (∀ id, truthy (si_subscription i) = Some id → row_of id w = None) →
  Subscriptions.syncInvoiceFromStripe i st w = (Ok tt, w).
Proof.
  intros Hrow. unfold Subscriptions.syncInvoiceFromStripe.
  destruct (truthy (si_subscription i)) as [id|]; [|done].
  unfold db_find_by, gets. rewrite run_bind. change (find_row _ (t_get T_subscriptions _)) with (row_of id w).
  by rewrite (Hrow id eq_refl).
Qed.
(** Any other event leaves every balance alone. *)
Lemma other_balance e u w :
  (∀ s, se_body e = ev_checkout_completed s → seq_b (co_mode s) "payment" = false) →
  (∀ i, se_body e ≠ ev_invoice_paid i) →
  balance u (Webhooks.process e w).2 = balance u w.
Proof.
  intros Hs Hi.
  enough (respects (same (balance u)) (Webhooks.process e)) as Hr by apply (Hr w).
  unfold Webhooks.process, Subscriptions.handleWebhookEvent, LeadFinderBilling.handleWebhookEvent.
  destruct (se_body e) as [s|ss|ss|ss|ss|i|i|t] eqn:E; [rewrite (Hs s eq_refl)|..|by destruct (Hi i)| |];
    unfold Subscriptions.syncSubscriptionFromStripe, Subscriptions.sendSubscriptionConfirmedEmail,
      Subscriptions.markPastDue, Subscriptions.syncInvoiceFromStripe, Subscriptions.upsert,
      Subscriptions.duplicate, LeadFinderBilling.syncFromStripe,
      LeadFinderBilling.sendSubscriptionConfirmedEmail, LeadFinderBilling.upsert,
      LeadFinderBilling.duplicate, Users.findById, Email.sendSubscriptionConfirmed,
      Email.sendPaymentFailed;
    frame_tac.
Qed.
End credits.

(** Processing one event again and again. *)
Definition deliveries {cfg : config} `{Entropy, StripeApi} (n : nat) (e : stripe_event) (w : world) : world :=
  Nat.iter n (λ w, (Webhooks.process e w).2) w.

(** C24. What an event does to credit balances, each time it is processed
    and however the processing ends: a credit-pack checkout or a paid Lead
    Finder invoice adds its credits to its account and to no other, any other
    event adds none.  Nothing guards against a repeated delivery: a purchase
    delivered [n] times is credited [n] times. *)
Theorem credits_every_delivery {cfg : config} `{Entropy, StripeApi} e w u :
  (∀ i id, se_body e = ev_invoice_paid i → truthy (si_subscription i) = Some id → row_of id w = None) →
  balance u (Webhooks.process e w).2 = add_credits (credited e w) u <$> balance u w ∧
  (∀ s n c, se_body e = ev_checkout_completed s → credited e w = Some (u, c) →
     balance u (deliveries n e w) = (λ b, b + Z.of_nat n * c) <$> balance u w).
Proof.
  intros Hrow.
  assert (Hpay : ∀ s w, se_body e = ev_checkout_completed s → seq_b (co_mode s) "payment" = true →
    balance u (Webhooks.process e w).2 = add_credits (credited e w) u <$> balance u w).
  { intros s w' Es Hm. transitivity (balance u (Subscriptions.handleCreditsCheckoutCompleted s w').2).
    - unfold Webhooks.process, Subscriptions.handleWebhookEvent, LeadFinderBilling.handleWebhookEvent.
      rewrite Es, Hm. rewrite (bind_same (balance u)); [done|]. intros _.
      apply bool_decide_eq_true in Hm. rewrite Hm. change (seq_b "payment" "subscription") with false. cbn [negb]. frame_tac.
    - rewrite pack_balance by done. unfold credited. by rewrite Es. }
  assert (Hnone : credited e w = None → balance u w = add_credits (credited e w) u <$> balance u w)
    by (intros ->; by destruct (balance u w)).
  split.
  - destruct (se_body e) as [s| | | | |i| |] eqn:E.
    { destruct (seq_b (co_mode s) "payment") eqn:Hm; [by eapply Hpay|].
      rewrite other_balance; [apply Hnone; unfold credited; by rewrite E, Hm| |]; intros ?; rewrite E;
        intros; simplify_eq; done. }
    5: { unfold Webhooks.process, Subscriptions.handleWebhookEvent, LeadFinderBilling.handleWebhookEvent.
      rewrite E, run_bind, sync_invoice_skip, tier_balance by (intros; by eapply Hrow).
      unfold credited. by rewrite E. }
    all: rewrite other_balance; [apply Hnone; unfold credited; by rewrite E| |]; intros ?; rewrite E; done.
  - intros s n c Es Hc.
    assert (Hcr : ∀ w', credited e w' = Some (u, c)) by (intros w'; unfold credited in *; by rewrite Es in *).
    assert (Hm : seq_b (co_mode s) "payment" = true).
    { unfold credited in Hc. rewrite Es in Hc. by destruct (seq_b _ _). }
    induction n as [|n IH]; cbn [deliveries Nat.iter].
    + cbn. destruct (balance u w); cbn; [|done]. f_equal. lia.
    + change (balance u (Webhooks.process e (deliveries n e w)).2 = (λ b, b + Z.of_nat (S n) * c) <$> balance u w).
      rewrite (Hpay s _ Es Hm), Hcr, IH. destruct (balance u w); cbn; [|done].
      rewrite decide_True by done. f_equal. lia.
Qed.

(** The webhook endpoint accepts exactly what Stripe signed: a request
    without a valid signature is a 400 and changes nothing; a signed one is
    queued, once and at the end, while Redis answers, and is otherwise a 503
    that changes nothing, so that Stripe delivers it again. *)
Lemma webhook_endpoint `{Webhooks.StripeSignature} rawBody signature w :
  match truthy signature ≫= λ s, match constructEvent rawBody s with Ok e => Some e | Err _ => None end with
  | None => ∃ m, Webhooks.handleStripeWebhook rawBody signature w = (Err (Http 400 m), w)
  | Some e =>
      if w_redis_up w
      then Webhooks.handleStripeWebhook rawBody signature w =
             (Ok tt, put_webhookQueue (w_webhookQueue w ++ [e]) w)
      else ∃ m, Webhooks.handleStripeWebhook rawBody signature w = (Err (Http 503 m), w)
  end.
Proof.
  unfold Webhooks.handleStripeWebhook. destruct (truthy signature) as [s|]; cbn [mbind option_bind]; [|by eexists].
  destruct (constructEvent rawBody s) as [e|]; [|by eexists].
  unfold try_catch, withTimeout, Webhooks.webhookQueue_add, queue_push.
  destruct (w_redis_up w); [done|by eexists].
Qed.

(** ** Witnesses *)
Section witnesses.
#[local] Existing Instance default_config.
#[local] Existing Instances counter_entropy counting_stripe.
Lemma active_event_directory : directory_event active_event "u1" "p1" (10, 20).
Proof. repeat split; vm_compute; reflexivity. Qed.
Lemma billed_ready now : ready "u1" "p1" (billed ∅ now).
Proof.
  split; [by intros k s|by intros k1 k2 s1 s2|vm_compute; reflexivity..].
Qed.
Definition synced_world : world := (Subscriptions.syncSubscriptionFromStripe active_event (billed ∅ 0)).2.
Lemma synced_ready : ready "u1" "p1" (put_now 99 synced_world).
Proof.
  split; [apply keyed_check; vm_compute; reflexivity|apply unique_check; vm_compute; reflexivity
    |vm_compute; reflexivity..].
Qed.

Lemma sync_outcome_witness : ∃ s, row_of "sub_1" synced_world = Some s ∧ sub_status s = ACTIVE.
Proof.
  destruct (sync_outcome "u1" "p1" active_event (10, 20) (billed ∅ 0)) as (w' & Hrun & [H|H]).
  - intros h. reflexivity.
  - exact (billed_ready 0).
  - exact active_event_directory.
  - destruct H as (s & Hs & _ & Hst & _). exists s. split; [|exact Hst].
    unfold synced_world. rewrite Hrun. exact Hs.
  - exfalso. destruct H as (_ & (k & s & Hs & _) & _). change ((∅ : gmap string subscription) !! k = Some s) in Hs.
    by apply lookup_empty_Some in Hs.
Defined.
Lemma sync_idempotent_witness :
  subs (Subscriptions.syncSubscriptionFromStripe active_event (put_now 99 synced_world)).2 = subs synced_world.
Proof.
  refine (sync_idempotent "u1" "p1" active_event (10, 20) (billed ∅ 0) synced_world (put_now 99 synced_world) _
    (Subscriptions.syncSubscriptionFromStripe active_event (billed ∅ 0)).1
    (Subscriptions.syncSubscriptionFromStripe active_event (put_now 99 synced_world)).1
    _ active_event_directory (billed_ready 0) _ synced_ready _ _).
  - intros h. reflexivity.
  - unfold synced_world. by rewrite <- surjective_pairing.
  - reflexivity.
  - by rewrite <- surjective_pairing.
Defined.

(** A charge fails at 1000, is retried at 5000. *)
Definition failing : subscription := sub_row "s1" PAST_DUE (Some 1000) 0.
Definition retry_event : stripe_event :=
  StripeEvent "evt_1" (ev_invoice_payment_failed (StripeInvoice "in_1" (Some "stripe_s1") ∅ 0 5000 "usd" None)).
Lemma grace_clock_witness :
  ∃ s, subs (Webhooks.process retry_event (billed {[ "s1" := failing ]} 5000)).2 !! "s1" = Some s ∧
    (sub_status s = PAST_DUE → sub_pastDueSince s = Some 1000).
Proof.
  destruct (grace_clock retry_event (billed {[ "s1" := failing ]} 5000) "s1" failing) as (s & Hs & Hk & _).
  - apply keyed_check. vm_compute. reflexivity.
  - vm_compute. reflexivity.
  - exists s. split; [exact Hs|]. exact (Hk 1000 eq_refl).
Defined.

(** The grace period is over; the account starts a new checkout. *)
Definition overdue : world := billed {[ "s1" := failing ]} (1000 + 8 * Date.day).
Definition checked_out : world := (Subscriptions.createCheckoutSession "u1" "directory" overdue).2.
Lemma checkout_grants_directory_witness :
  (directoryAccessGuard (Some u1) overdue).1 =
    Err (Http 403 "An active or previous subscription is required for this feature") ∧
  directoryAccessGuard (Some u1) (put_now 0 checked_out) = (Ok true, put_now 0 checked_out).
Proof.
  split; [vm_compute; reflexivity|].
  assert (E : (Subscriptions.createCheckoutSession "u1" "directory" overdue).1 = Ok "https://checkout/3")
    by (vm_compute; reflexivity).
  refine (proj2 (checkout_grants_directory u1 "directory" "https://checkout/3" "s1" failing 1000
    overdue checked_out _ _ _ _ _ _ _ _) 0).
  - apply unique_check. vm_compute. reflexivity.
  - apply keyed_check. vm_compute. reflexivity.
  - vm_compute. reflexivity.
  - reflexivity.
  - reflexivity.
  - reflexivity.
  - vm_compute. discriminate.
  - rewrite (surjective_pairing (Subscriptions.createCheckoutSession _ _ _)).
    change (pr_sub u1) with "u1". rewrite E. reflexivity.
Defined.

Definition pack_event : stripe_event :=
  StripeEvent "evt_2" (ev_checkout_completed
    (CheckoutSession "cs_1" "payment" None {[ "userId" := "u1"; "credits" := "500" ]} (Some 4900))).
Lemma credits_every_delivery_witness :
  balance "u1" (deliveries 3 pack_event (billed ∅ 0)) = Some 1600.
Proof.
  transitivity ((λ b, b + Z.of_nat 3 * 500) <$> balance "u1" (billed ∅ 0)); [|vm_compute; reflexivity].
  refine (proj2 (credits_every_delivery pack_event (billed ∅ 0) "u1" _) _ 3%nat 500 eq_refl _).
  - intros i id [=].
  - vm_compute. reflexivity.
Defined.
End witnesses.
