(* ===== verification/Taxonomy.v ===== *)
(** What may be asked of Apollo: the values it honours
    (leads/apollo-taxonomy.ts) and the requests the API accepts
    (leads/dto/ai-search.dto.ts, get-more-leads.dto.ts). *)
From S2P Require Import Prelude JsLib Schema.

Module Taxonomy.
Definition VERIFIED_PERSON_FUNCTIONS : list string :=
  ["product_management"; "data_science"; "accounting"; "finance"; "human_resources";
   "information_technology"; "legal"; "marketing"; "operations"; "business_development"; "sales"].
Definition isVerifiedPersonFunction (value : string) : bool :=
  bool_decide (value ∈ VERIFIED_PERSON_FUNCTIONS).
Definition PERSON_SENIORITIES : list string :=
  ["owner"; "founder"; "c_suite"; "partner"; "vp"; "head"; "director"; "manager"; "senior";
   "entry"; "intern"].
Definition isPersonSeniority (value : string) : bool := bool_decide (value ∈ PERSON_SENIORITIES).
Definition COMPANY_SIZE_RANGES : list (string * string) :=
  [("1-10", "1,10"); ("11-20", "11,20"); ("21-50", "21,50"); ("51-100", "51,100");
   ("101-200", "101,200"); ("201-500", "201,500"); ("501-1000", "501,1000");
   ("1001-2000", "1001,2000"); ("2001-5000", "2001,5000"); ("5001-10000", "5001,10000");
   ("10001-20000", "10001,20000"); ("20001-50000", "20001,50000"); ("50000+", "50001,100000000")].
Definition REVENUE_BUCKETS : list (string * Z) :=
  [("$100K", 100000); ("$500K", 500000); ("$1M", 1000000); ("$5M", 5000000); ("$10M", 10000000);
   ("$25M", 25000000); ("$50M", 50000000); ("$100M", 100000000); ("$500M", 500000000);
   ("$1B", 1000000000)].

(** An item without [mapsTo] inherits the one of its section. *)
Inductive maps_to := Inherit | NoFilter | Maps (function : string).
Record item := Item { it_label : string; it_mapsTo : maps_to }.
Record section := Section_ { sc_section : string; sc_mapsTo : option string; sc_items : list item }.
Definition SECTION_EXECUTIVE : section :=
  Section_ "Executive" None [
    Item "C-Suite" Inherit;
    Item "Executive" Inherit;
    Item "Finance Executive" (Maps "finance");
    Item "Founder" Inherit;
    Item "Human Resources Executive" (Maps "human_resources");
    Item "Information Technology Executive" (Maps "information_technology");
    Item "Legal Executive" (Maps "legal");
    Item "Marketing Executive" (Maps "marketing");
    Item "Medical & Health Executive" Inherit;
    Item "Operations Executive" (Maps "operations");
    Item "Sales Leader" (Maps "sales")].
Definition SECTION_PRODUCT : section :=
  Section_ "Product" (Some "product_management") [
    Item "Product" Inherit;
    Item "Product Development" Inherit;
    Item "Product Management" Inherit].
Definition SECTION_ENGINEERING_TECHNICAL : section :=
  Section_ "Engineering & Technical" (Some "information_technology") [
    Item "Artificial Intelligence / Machine Learning" Inherit;
    Item "Bioengineering" Inherit;
    Item "Biometrics" Inherit;
    Item "Business Intelligence" Inherit;
    Item "Chemical Engineering" Inherit;
    Item "Cloud / Mobility" Inherit;
    Item "Data Science" (Maps "data_science");
    Item "DevOps" Inherit;
    Item "Digital Transformation" Inherit;
    Item "Emerging Technology / Innovation" Inherit;
    Item "Industrial Engineering" Inherit;
    Item "Mechanic" Inherit;
    Item "Mobile Development" Inherit;
    Item "Project Management" Inherit;
    Item "Research & Development" Inherit;
    Item "Scrum Master / Agile Coach" Inherit;
    Item "Software Development" Inherit;
    Item "Support / Technical Services" Inherit;
    Item "Technician" Inherit;
    Item "Technology Operations" Inherit;
    Item "Test / Quality Assurance" Inherit;
    Item "UI / UX" Inherit;
    Item "Web Development" Inherit].
Definition SECTION_DESIGN : section :=
  Section_ "Design" None [
    Item "All Design" Inherit;
    Item "Product or UI/UX Design" Inherit;
    Item "Graphic / Visual / Brand Design" Inherit].
Definition SECTION_EDUCATION : section :=
  Section_ "Education" None [
    Item "Teacher" Inherit;
    Item "Principal" Inherit;
    Item "Superintendent" Inherit;
    Item "Professor" Inherit].
Definition SECTION_FINANCE : section :=
  Section_ "Finance" (Some "finance") [
    Item "Accounting" (Maps "accounting");
    Item "Finance" Inherit;
    Item "Financial Planning & Analysis" Inherit;
    Item "Financial Reporting" Inherit;
    Item "Financial Strategy" Inherit;
    Item "Financial Systems" Inherit;
    Item "Internal Audit & Control" Inherit;
    Item "Investor Relations" Inherit;
    Item "Mergers & Acquisitions" Inherit;
    Item "Real Estate Finance" Inherit;
    Item "Financial Risk" Inherit;
    Item "Shared Services" Inherit;
    Item "Sourcing / Procurement" Inherit;
    Item "Tax" Inherit;
    Item "Treasury" Inherit].
Definition SECTION_HUMAN_RESOURCES : section :=
  Section_ "Human Resources" (Some "human_resources") [
    Item "Compensation & Benefits" Inherit;
    Item "Culture, Diversity & Inclusion" Inherit;
    Item "Employee & Labor Relations" Inherit;
    Item "Health & Safety" Inherit;
    Item "Human Resource Information System" Inherit;
    Item "Human Resources" Inherit;
    Item "HR Business Partner" Inherit;
    Item "Learning & Development" Inherit;
    Item "Organizational Development" Inherit;
    Item "Recruiting & Talent Acquisition" Inherit;
    Item "Talent Management" Inherit;
    Item "Workforce Management" Inherit;
    Item "People Operations" Inherit].
Definition SECTION_INFORMATION_TECHNOLOGY : section :=
  Section_ "Information Technology" (Some "information_technology") [
    Item "Application Development" Inherit;
    Item "Business Service Management / ITSM" Inherit;
    Item "Collaboration & Web App" Inherit;
    Item "Data Center" Inherit;
    Item "Data Warehouse" Inherit;
    Item "Database Administration" Inherit;
    Item "eCommerce Development" Inherit;
    Item "Enterprise Architecture" Inherit;
    Item "Help Desk / Desktop Services" Inherit;
    Item "HR / Financial / ERP Systems" Inherit;
    Item "Information Security" Inherit;
    Item "Information Technology" Inherit;
    Item "Infrastructure" Inherit;
    Item "IT Asset Management" Inherit;
    Item "IT Audit / IT Compliance" Inherit;
    Item "IT Operations" Inherit;
    Item "IT Procurement" Inherit;
    Item "IT Strategy" Inherit;
    Item "IT Training" Inherit;
    Item "Networking" Inherit;
    Item "Project & Program Management" Inherit;
    Item "Quality Assurance" Inherit;
    Item "Retail / Store Systems" Inherit;
    Item "Servers" Inherit;
    Item "Storage & Disaster Recovery" Inherit;
    Item "Telecommunications" Inherit;
    Item "Virtualization" Inherit].
Definition SECTION_LEGAL : section :=
  Section_ "Legal" (Some "legal") [
    Item "Acquisitions" Inherit;
    Item "Compliance" Inherit;
    Item "Contracts" Inherit;
    Item "Corporate Secretary" Inherit;
    Item "eDiscovery" Inherit;
    Item "Ethics" Inherit;
    Item "Governance" Inherit;
    Item "Governmental Affairs & Regulatory Law" Inherit;
    Item "Intellectual Property & Patent" Inherit;
    Item "Labor & Employment" Inherit;
    Item "Lawyer / Attorney" Inherit;
    Item "Legal" Inherit;
    Item "Legal Counsel" Inherit;
    Item "Legal Operations" Inherit;
    Item "Litigation" Inherit;
    Item "Privacy" Inherit].
Definition SECTION_MARKETING : section :=
  Section_ "Marketing" (Some "marketing") [
    Item "Advertising" Inherit;
    Item "Brand Management" Inherit;
    Item "Content Marketing" Inherit;
    Item "Customer Experience" Inherit;
    Item "Customer Marketing" Inherit;
    Item "Demand Generation" Inherit;
    Item "Digital Marketing" Inherit;
    Item "eCommerce Marketing" Inherit;
    Item "Event Marketing" Inherit;
    Item "Field Marketing" Inherit;
    Item "Lead Generation" Inherit;
    Item "Marketing" Inherit;
    Item "Marketing Analytics / Insights" Inherit;
    Item "Marketing Communications" Inherit;
    Item "Marketing Operations" Inherit;
    Item "Product Marketing" Inherit;
    Item "Public Relations" Inherit;
    Item "Search Engine Optimization / Pay Per Click" Inherit;
    Item "Social Media Marketing" Inherit;
    Item "Strategic Communications" Inherit;
    Item "Technical Marketing" Inherit].
Definition SECTION_MEDICAL_HEALTH : section :=
  Section_ "Medical & Health" None [
    Item "Anesthesiology" Inherit;
    Item "Chiropractics" Inherit;
    Item "Clinical Systems" Inherit;
    Item "Dentistry" Inherit;
    Item "Dermatology" Inherit;
    Item "Doctors / Physicians" Inherit;
    Item "Epidemiology" Inherit;
    Item "First Responder" Inherit;
    Item "Infectious Disease" Inherit;
    Item "Medical Administration" Inherit;
    Item "Medical Education & Training" Inherit;
    Item "Medical Research" Inherit;
    Item "Medicine" Inherit;
    Item "Neurology" Inherit;
    Item "Nursing" Inherit;
    Item "Nutrition & Dietetics" Inherit;
    Item "Obstetrics / Gynecology" Inherit;
    Item "Oncology" Inherit;
    Item "Opthalmology" Inherit;
    Item "Optometry" Inherit;
    Item "Orthopedics" Inherit;
    Item "Pathology" Inherit;
    Item "Pediatrics" Inherit;
    Item "Pharmacy" Inherit;
    Item "Physical Therapy" Inherit;
    Item "Psychiatry" Inherit;
    Item "Psychology" Inherit;
    Item "Public Health" Inherit;
    Item "Radiology" Inherit;
    Item "Social Work" Inherit].
Definition SECTION_OPERATIONS : section :=
  Section_ "Operations" (Some "operations") [
    Item "Call Center" Inherit;
    Item "Construction" Inherit;
    Item "Corporate Strategy" Inherit;
    Item "Customer Service / Support" Inherit;
    Item "Enterprise Resource Planning" Inherit;
    Item "Facilities Management" Inherit;
    Item "Leasing" Inherit;
    Item "Logistics" Inherit;
    Item "Office Operations" Inherit;
    Item "Operations" Inherit;
    Item "Physical Security" Inherit;
    Item "Project Development" Inherit;
    Item "Quality Management" Inherit;
    Item "Real Estate" Inherit;
    Item "Safety" Inherit;
    Item "Store Operations" Inherit;
    Item "Supply Chain" Inherit].
Definition SECTION_SALES : section :=
  Section_ "Sales" (Some "sales") [
    Item "Account Management" Inherit;
    Item "Business Development" (Maps "business_development");
    Item "Channel Sales" Inherit;
    Item "Customer Retention & Development" Inherit;
    Item "Customer Success" Inherit;
    Item "Field / Outside Sales" Inherit;
    Item "Inside Sales" Inherit;
    Item "Partnerships" Inherit;
    Item "Revenue Operations" Inherit;
    Item "Sales" Inherit;
    Item "Sales Enablement" Inherit;
    Item "Sales Engineering" Inherit;
    Item "Sales Operations" Inherit;
    Item "Sales Training" Inherit].
Definition SECTION_CONSULTING : section :=
  Section_ "Consulting" None [
    Item "Consultant" Inherit].
Definition DEPARTMENT_TAXONOMY : list section :=
  [SECTION_EXECUTIVE; SECTION_PRODUCT; SECTION_ENGINEERING_TECHNICAL; SECTION_DESIGN; SECTION_EDUCATION; SECTION_FINANCE; SECTION_HUMAN_RESOURCES; SECTION_INFORMATION_TECHNOLOGY; SECTION_LEGAL; SECTION_MARKETING; SECTION_MEDICAL_HEALTH; SECTION_OPERATIONS; SECTION_SALES; SECTION_CONSULTING].

(** The filter an item stands for. *)
Definition function_of (s : section) (i : item) : option string :=
  match it_mapsTo i with Inherit => sc_mapsTo s | NoFilter => None | Maps f => Some f end.
(** Every filter of the taxonomy. *)
Definition functions : list string :=
  concat ((λ s, omap (function_of s) (sc_items s)) <$> DEPARTMENT_TAXONOMY).

(** ** The request *)
Record ai_search := AiSearch {
  as_campaignName : string;
  as_searchKeywords : option (list string); as_targetIndustries : option (list string);
  as_personTitles : option (list string); as_personSeniorities : option (list string);
  as_personFunctions : option (list string); as_location : option string;
  as_companySizeRanges : option (list string); as_revenueMin : option Z; as_revenueMax : option Z;
  as_exclusions : option (list string); as_personName : option string;
  as_personOrganization : option string
}.
Definition at_most {A} (n : nat) (l : option (list A)) : bool :=
  match l with Some l => (length l <=? n)%nat | None => true end.
Definition each_in (allowed : list string) (l : option (list string)) : bool :=
  match l with Some l => forallb (λ x, bool_decide (x ∈ allowed)) l | None => true end.
Definition short (n : nat) (s : option string) : bool :=
  match s with Some s => (String.length s <=? n)%nat | None => true end.
Definition nonneg (n : option Z) : bool := match n with Some n => 0 <=? n | None => true end.
(** What class-validator checks of [AiSearchDto]. *)
Definition validAiSearch (d : ai_search) : bool :=
  Str.nonempty (as_campaignName d) && short 200 (Some (as_campaignName d))
  && at_most 20 (as_searchKeywords d) && at_most 20 (as_targetIndustries d)
  && at_most 20 (as_personTitles d)
  && at_most (length PERSON_SENIORITIES) (as_personSeniorities d)
  && each_in PERSON_SENIORITIES (as_personSeniorities d)
  && at_most (length VERIFIED_PERSON_FUNCTIONS) (as_personFunctions d)
  && each_in VERIFIED_PERSON_FUNCTIONS (as_personFunctions d)
  && short 200 (as_location d)
  && at_most (length COMPANY_SIZE_RANGES) (as_companySizeRanges d)
  && each_in (COMPANY_SIZE_RANGES.*2) (as_companySizeRanges d)
  && nonneg (as_revenueMin d) && nonneg (as_revenueMax d)
  && at_most 20 (as_exclusions d) && short 200 (as_personName d) && short 200 (as_personOrganization d).
(** [GetMoreLeadsDto]. *)
Definition validGetMore (count : option Z) : bool :=
  match count with Some n => (1 <=? n) && (n <=? 100) | None => true end.

(** Every department a user can pick is a filter the API accepts. *)
Lemma functions_verified : forallb isVerifiedPersonFunction functions = true.
Proof. vm_compute. reflexivity. Qed.
End Taxonomy.
