(* ===== verification/Apollo.v ===== *)
(** The two third-party clients of the Lead Finder: ApolloService
    (leads/apollo.service.ts), which searches and matches people, and
    ClaudeService (leads/claude.service.ts), which turns a sentence into
    filters; and the taxonomy both rely on (leads/apollo-taxonomy.ts). *)
From S2P Require Import Prelude JsLib Crypto Schema Effects Platform Taxonomy.

(** ** HTTP *)

(** What [fetch] of a JSON endpoint gives: no response (network, timeout), an
    error status, a body that is no JSON, or the parsed body. *)
Inductive http_answer (A : Type) :=
| NoResponse (message : string)
| NotOk (status : Z) (text : option string)
| Malformed
| Body (a : A).
Arguments NoResponse {A} message.
Arguments NotOk {A} status text.
Arguments Malformed {A}.
Arguments Body {A} a.

(** The fields the service reads of Apollo's answers. *)
Record search_person := SearchPerson {
  sp_id : string; sp_first_name : option string; sp_last_name_obfuscated : option string;
  sp_title : option string; sp_organization : option string
}.
Record match_person := MatchPerson {
  mp_name : option string; mp_title : option string; mp_organization : option string;
  mp_organization_name : option string; mp_linkedin_url : option string; mp_email : option string
}.
(** Apollo: an answer to each call, given the calls made so far. *)
Class ApolloApi := {
  apollo_search : list apollo_call → http_answer (option (list search_person));
  apollo_match : list apollo_call → http_answer (option match_person)
}.
Definition apollo_do {A} (answer : list apollo_call → A) (c : apollo_call) : M A := λ w,
  let h := w_apollo w ++ [c] in (Ok (answer h), put_apollo h w).
Lemma respects_apollo_do {A} (R : world → world → Prop) (answer : list apollo_call → A) c :
  (∀ w, R w (put_apollo (w_apollo w ++ [c]) w)) → respects R (apollo_do answer c).
Proof. intros HR w. apply HR. Qed.
#[export] Hint Extern 1 (respects _ (apollo_do _ _)) => apply respects_apollo_do; frame_side : steph.

Module Apollo.
Definition MAX_LOGGED_ERROR_BODY : nat := 500.

Definition truncatedErrorText (text : option string) : string :=
  match text with
  | None => "<unreadable body>"
  | Some t => if (MAX_LOGGED_ERROR_BODY <? String.length t)%nat
              then Str.take MAX_LOGGED_ERROR_BODY t +:+ "…" else t
  end.

(** [ApolloCandidate], [ApolloEnrichedPerson]. *)
Record candidate := Candidate {
  c_apolloPersonId : string; c_name : string; c_title : option string; c_company : option string
}.
Record enriched := Enriched {
  e_name : option string; e_title : option string; e_company : option string;
  e_linkedin : option string; e_email : option string
}.

Definition strings (l : list string) : json := JArr (JStr <$> l).
(** [if (l?.length) body[key] = l]. *)
Definition list_field (key : string) (l : option (list string)) : list (string * json) :=
  match l with Some (x :: l) => [(key, strings (x :: l))] | _ => [] end.
Definition num_field (key : string) (n : option Z) : list (string * json) :=
  match n with Some n => [(key, JNum n)] | None => [] end.

(** The body of a search request. *)
Definition searchBody (f : apollo_filters) (perPage : Z) : list (string * json) :=
  [("page", JNum 1); ("per_page", JNum (Z.min perPage 100))] ++
  (match f_personTitles f with
   | Some (x :: l) => [("person_titles", strings (x :: l)); ("include_similar_titles", JBool true)]
   | _ => []
   end) ++
  (match f_keywords f with
   | Some k => if Str.nonempty k then [("q_keywords", JStr k)] else []
   | None => []
   end) ++
  list_field "q_organization_keyword_tags" (f_organizationKeywordTags f) ++
  list_field "q_not_organization_keyword_tags" (f_excludeOrganizationKeywordTags f) ++
  list_field "person_seniorities" (f_personSeniorities f) ++
  list_field "person_functions" (f_personFunctions f) ++
  list_field "person_locations" (f_personLocations f) ++
  list_field "organization_locations" (f_organizationLocations f) ++
  list_field "organization_num_employees_ranges" (f_organizationNumEmployeesRanges f) ++
  match f_revenueMin f, f_revenueMax f with
  | None, None => []
  | lo, hi => [("revenue_range", JObj (num_field "min" lo ++ num_field "max" hi))]
  end.

(** [[first, last].filter(Boolean).join(' ') || 'Unknown']. *)
Definition fullName (p : search_person) : string :=
  let parts := filter (λ s, Str.nonempty s = true)
                 (option_list (sp_first_name p) ++ option_list (sp_last_name_obfuscated p)) in
  let name := Str.join " " parts in
  if Str.nonempty name then name else "Unknown".
Definition toCandidate (p : search_person) : candidate :=
  Candidate (sp_id p) (fullName p) (sp_title p) (sp_organization p).

Section apollo.
Context `{ApolloApi}.

Definition searchPeople (f : apollo_filters) (perPage : Z) : M (list candidate) :=
  response ← apollo_do apollo_search (ApolloSearch (searchBody f perPage));
  match response with
  | NoResponse m => throw (JsError m)
  | NotOk status text =>
      throw (JsError ("Apollo people search failed (" +:+ pretty status +:+ "): " +:+ truncatedErrorText text))
  | Malformed => throw (JsError "Apollo people search returned a malformed response")
  | Body people => mret (toCandidate <$> (people ifnull []))
  end.

(** What a matched person reveals; a locked e-mail is none. *)
Definition reveal (p : match_person) : enriched :=
  Enriched (mp_name p) (mp_title p)
    (match mp_organization p with Some o => Some o | None => mp_organization_name p end)
    (mp_linkedin_url p)
    (match mp_email p with
     | Some e => if Str.nonempty e && negb (Str.includes "not_unlocked" e) then Some e else None
     | None => None
     end).
(** [match]: [null] on any failure. *)
Definition match_ (body : list (string * json)) : M (option enriched) :=
  response ← apollo_do apollo_match (ApolloMatch body);
  mret (match response with Body (Some p) => Some (reveal p) | _ => None end).
Definition enrichPerson (apolloPersonId : string) : M (option enriched) :=
  match_ [("id", JStr apolloPersonId)].
Definition matchByName (name : string) (organizationName : option string) : M (option enriched) :=
  match_ (("name", JStr name) :: match organizationName with
                                 | Some o => [("organization_name", JStr o)]
                                 | None => []
                                 end).

(** Matching never fails; it makes one call. *)
Lemma match_run body w :
  ∃ o, match_ body w = (Ok o, put_apollo (w_apollo w ++ [ApolloMatch body]) w).
Proof. eexists. reflexivity. Qed.
End apollo.
End Apollo.

(** ** Claude *)

(** The arguments of the tool call, each one possibly missing. *)
Record claude_input := ClaudeInput {
  ci_campaignName : option string; ci_searchKeywords : option (list string);
  ci_targetIndustries : option (list string); ci_personTitles : option (list string);
  ci_personSeniorities : option (list string); ci_location : option string;
  ci_personName : option string; ci_personOrganization : option string
}.
(** A block of a message's content. *)
Inductive claude_block := TextBlock (text : string) | ToolUseBlock (input : claude_input).
(** [client.messages.create]: the content of the answer to a request; the n-th
    answer may differ from the others. *)
Class ClaudeApi := { claude_create : nat → json → res (list claude_block) }.
Definition claude_do `{ClaudeApi} (n : nat) (request : json) : M (list claude_block) := λ w,
  (claude_create n request, w).
Lemma respects_claude_do `{ClaudeApi} (R : world → world → Prop) `{!PreOrder R} n request :
  respects R (claude_do n request).
Proof. intros w. cbn. reflexivity. Qed.
#[export] Hint Resolve respects_claude_do : steph.

Module Claude.
(** [ParsedSearchFilters]. *)
Record parsed := Parsed {
  ps_campaignName : string; ps_searchKeywords : list string; ps_targetIndustries : list string;
  ps_personTitles : list string; ps_personSeniorities : list string; ps_location : string;
  ps_personName : string; ps_personOrganization : string
}.
Definition nonempty_list {A} (o : option (list A)) : option (list A) :=
  match o with Some (x :: l) => Some (x :: l) | _ => None end.
(** The first block of type tool_use. *)
Fixpoint tool_use (content : list claude_block) : option claude_input :=
  match content with
  | [] => None
  | ToolUseBlock input :: _ => Some input
  | TextBlock _ :: l => tool_use l
  end.
(** The tool Claude is made to call: one entry per filter it may fill in. *)
Definition property (type description : string) (more : list (string * json)) : json :=
  JObj ([("type", JStr type)] ++ more ++ [("description", JStr description)]).
Definition EXTRACT_APOLLO_FILTERS_TOOL : json :=
  JObj [("name", JStr "extract_apollo_filters");
    ("description", JStr (Str.quoted ("Extracts Apollo.io People Search filters from a natural-language lead-finding query.")));
    ("input_schema", JObj [("type", JStr "object"); ("properties", JObj [
      ("campaignName", property "string"
       (Str.quoted ("A short (3-6 word) descriptive label for this search, e.g. `Healthcare CTOs in Boston`. Always " +:+
          "populate this — it prefills an editable `Campaign Name` field.")) []);
      ("searchKeywords", property "array"
       (Str.quoted ("Short keyword/phrase tags (2-4 words each) describing specific, concrete things about the target " +:+
          "companies — technologies used, funding events, products, business model (e.g. `using React`, `raised " +:+
          "Series A`, `B2B marketplace`). Never put a literal private company or person name here: it will not " +:+
          "appear as a keyword in Apollo's index. If the query names a specific company as a reference point " +:+
          "(e.g. `competitors of Acme`), use general knowledge to describe that company's real market/product " +:+
          "space here instead of its name.")) [("items", JObj [("type", JStr "string")])]);
      ("targetIndustries", property "array"
       (Str.quoted ("Broad industry/vertical category tags for the target companies (e.g. `healthcare`, `fintech`, " +:+
          "`SaaS`, `affiliate marketing`), distinct from searchKeywords which are more specific descriptors. " +:+
          "Leave empty if the query does not imply a specific industry.")) [("items", JObj [("type", JStr "string")])]);
      ("personTitles", property "array"
       (Str.quoted ("Job titles to search for — combine any explicitly given target titles with ones implied by the " +:+
          "query.")) [("items", JObj [("type", JStr "string")])]);
      ("personSeniorities", property "array"
       (Str.quoted ("Seniority levels implied by the query, chosen ONLY from this exact set: ") +:+
        Str.join ", " Taxonomy.PERSON_SENIORITIES +:+
        Str.quoted (". E.g. `CMOs` implies c_suite, `VP of Marketing` implies vp. Leave empty if no seniority is implied " +:+
            "— do not guess.")) [("items", JObj [("type", JStr "string"); ("enum", JArr (JStr <$> Taxonomy.PERSON_SENIORITIES))])]);
      ("location", property "string"
       (Str.quoted ("Target companies' location (city/region/country), only if the query specifies one.")) []);
      ("personName", property "string"
       (Str.quoted ("The full name of one specific real person, populated ONLY when the query is a direct lookup for that " +:+
          "individual (e.g. a bare name, `find contact info for Jane Doe`, `who is John Smith at Acme`). When " +:+
          "this is set, every other field except campaignName must be left empty — this is a direct 1-credit " +:+
          "lookup, not a criteria search, and takes a completely different code path.")) []);
      ("personOrganization", property "string"
       (Str.quoted ("That person's company, only if personName is set and a company was given or is unambiguous from " +:+
          "context.")) [])]); ("required", JArr [JStr "campaignName"])])].
Definition SYSTEM : string :=
  Str.quoted ("You translate a lead-finding request into Apollo.io People Search filters. Two intents are possible: " +:+
      "(1) the query explicitly asks to look up or find contact info for ONE specific real named person " +:+
      "(e.g. `find contact info for Jane Doe`, `who is John Smith at Acme`, or a query giving a full name " +:+
      "plus their company) — in this case populate ONLY campaignName + personName (and personOrganization " +:+
      "if given), leave every other field empty, and do not infer competitors. (2) anything else, including " +:+
      "a bare company or person name with no explicit `look this person up` intent, or a request to find " +:+
      "people LIKE a company/competitor — treat it as a criteria search: use your general knowledge to " +:+
      "identify what industry or market that company operates in and who its real-world competitors are, " +:+
      "then produce searchKeywords/targetIndustries describing that competitive space (never search for the " +:+
      "literal company or person name itself, since Apollo's index won't match on a private company's own " +:+
      "name), and combine any explicitly given target job titles with ones implied by the query.").
Definition request (userContent : string) : json :=
  JObj [("model", JStr "claude-sonnet-5"); ("max_tokens", JNum 1024); ("system", JStr SYSTEM);
    ("messages", JArr [JObj [("role", JStr "user"); ("content", JStr userContent)]]);
    ("tools", JArr [EXTRACT_APOLLO_FILTERS_TOOL]);
    ("tool_choice", JObj [("type", JStr "tool"); ("name", JStr "extract_apollo_filters")])].
Definition newline : string := String (Ascii.ascii_of_nat 10) EmptyString.

Definition parseApolloQuery `{ClaudeApi} (query : string) (jobTitles : option (list string)) : M parsed :=
  let userContent :=
    match nonempty_list jobTitles with
    | Some l => query +:+ newline +:+ newline +:+ "Target job titles: " +:+ Str.join ", " l
    | None => query
    end in
  n ← draw;
  content ← claude_do n (request userContent);
  match tool_use content with
  | None => mret (Parsed (Str.take 200 query) [] [] (jobTitles ifnull []) [] "" "" "")
  | Some i =>
      mret (Parsed
        (match ci_campaignName i with
         | Some c => if Str.nonempty c then c else Str.take 200 query
         | None => Str.take 200 query
         end)
        (ci_searchKeywords i ifnull []) (ci_targetIndustries i ifnull [])
        (match nonempty_list (ci_personTitles i) with Some l => l | None => jobTitles ifnull [] end)
        (ci_personSeniorities i ifnull []) (ci_location i ifnull "")
        (ci_personName i ifnull "") (ci_personOrganization i ifnull ""))
  end.

Definition at_ (k : string) (v : option json) : option json :=
  match v with Some (JObj l) => snd <$> head (filter (λ e, e.1 = k) l) | _ => None end.
(** The values the tool's schema lets Claude give for the items of a filter;
    [None]: any. *)
Definition offered (field : string) : option json :=
  at_ "enum" (at_ "items" (at_ field (at_ "properties" (at_ "input_schema" (Some EXTRACT_APOLLO_FILTERS_TOOL))))).
(** Only seniorities are a closed list, and it is the list the search accepts:
    what an answer within the schema suggests can be searched for. *)
Lemma offered_seniorities : offered "personSeniorities" = Some (JArr (JStr <$> Taxonomy.PERSON_SENIORITIES)).
Proof. vm_compute. reflexivity. Qed.
Lemma offered_is_accepted l s :
  offered "personSeniorities" = Some (JArr l) → JStr s ∈ l → Taxonomy.isPersonSeniority s = true.
Proof.
  rewrite offered_seniorities. intros Hl Hs. assert (l = JStr <$> Taxonomy.PERSON_SENIORITIES) as -> by congruence.
  apply bool_decide_eq_true.
  apply list_elem_of_fmap in Hs as (x & [= ->] & Hx). exact Hx.
Qed.
(** A query that says something gets a campaign name, whatever Claude answers. *)
Lemma campaign_named `{ClaudeApi} query jobTitles w p w' :
  Str.nonempty query = true → parseApolloQuery query jobTitles w = (Ok p, w') →
  Str.nonempty (ps_campaignName p) = true.
Proof.
  intros Hq. assert (Str.nonempty (Str.take 200 query) = true) as Ht by (by destruct query).
  unfold parseApolloQuery, claude_do, draw. set (name := Str.take 200 query) in *. clearbody name.
  rewrite run_bind. cbv beta iota. rewrite run_bind. cbv beta iota.
  destruct (claude_create _ _) as [content|e]; [|done].
  destruct (tool_use content) as [i|]; [|by intros [= <- <-]].
  intros [= <- <-]. cbn [ps_campaignName].
  destruct (ci_campaignName i) as [c|]; [|done]. by destruct (Str.nonempty c) eqn:Ec.
Qed.
End Claude.
