(* ===== verification/Leads.v ===== *)
(** LeadsService (leads/leads.service.ts): the Lead Directory, the credit and
    free-tier limits of the Lead Finder, the searches users start, and the
    anonymous demo search. *)
From S2P Require Import Prelude JsLib Crypto Schema Effects Platform Config Messaging Users Access Apollo Taxonomy.

(** The server's local calendar: [setHours(0,0,0,0)] and [setHours(24,0,0,0)]. *)
Class LocalTime := {
  start_of_day : Z → Z;
  next_midnight : Z → Z;
  start_of_day_le : ∀ t, start_of_day t ≤ t;
  next_midnight_gt : ∀ t, t < next_midnight t;
  same_day : ∀ t t', start_of_day t ≤ t' < next_midnight t →
    start_of_day t' = start_of_day t ∧ next_midnight t' = next_midnight t
}.
(** A server on UTC. *)
#[export] Program Instance utc : LocalTime := {|
  start_of_day t := t - t mod Date.day;
  next_midnight t := t - t mod Date.day + Date.day
|}.
Next Obligation. intros t. pose proof (Z.mod_pos_bound t Date.day eq_refl). cbn. lia. Qed.
Next Obligation. intros t. pose proof (Z.mod_pos_bound t Date.day eq_refl). cbn. lia. Qed.
Next Obligation.
  intros t t'. cbn. set (s := t - t mod Date.day). intros Ht.
  assert (s mod Date.day = 0) as Hs.
  { unfold s. rewrite Zminus_mod, Zmod_mod, Z.sub_diag. done. }
  assert (t' mod Date.day = t' - s) as ->; [|lia].
  replace t' with (s + (t' - s)) at 1 by lia. rewrite Z.add_mod, Hs by done.
  rewrite Z.add_0_l, Zmod_mod. apply Z.mod_small. lia.
Qed.

(** The collation of text columns, and csv-stringify. *)
Class Collation := { collate : string → string → bool }.
Class CsvStringify := { csv_stringify : list string → list (list (option string)) → string }.

(** [ILIKE]: [%] any run, [_] one character, [\] the next character itself. *)
Fixpoint like (p : string) : string → bool :=
  match p with
  | EmptyString => λ s, negb (Str.nonempty s)
  | String c p' =>
      if Ascii.eqb c "%" then
        fix any (s : string) : bool :=
          like p' s || match s with EmptyString => false | String _ s' => any s' end
      else if Ascii.eqb c "_" then
        λ s, match s with EmptyString => false | String _ s' => like p' s' end
      else if Ascii.eqb c "\" then
        match p' with
        | EmptyString => λ _, false
        | String d p'' => λ s, match s with EmptyString => false | String x s' => Ascii.eqb x d && like p'' s' end
        end
      else λ s, match s with EmptyString => false | String x s' => Ascii.eqb x c && like p' s' end
  end.
Definition ilike (pattern value : string) : bool := like (Str.toLowerCase pattern) (Str.toLowerCase value).
Example ilike1 : ilike "%mark_t%" "CMO / MARKETING" = true.
Proof. reflexivity. Qed.

(** [filters.companyType]: absent, UNCLASSIFIED, or a type. *)
Inductive company_filter := AnyCompany | Unclassified | OfType (t : company_type).

Module Leads.
Record filters := Filters {
  lf_companyType : company_filter; lf_likelyToAttend : option string; lf_search : option string;
  lf_hasEmail : bool
}.
(** [contains] in mode [insensitive]. *)
Definition contains (needle : string) (value : option string) : bool :=
  match value with
  | Some v => Str.includes (Str.toLowerCase needle) (Str.toLowerCase v)
  | None => false
  end.
Definition resolveCompanyTypeFilter (f : company_filter) (t : option company_type) : bool :=
  match f with
  | AnyCompany => true
  | Unclassified => bool_decide (t = None)
  | OfType u => bool_decide (t = Some u)
  end.
Definition buildWhere (f : filters) (l : lead) : bool :=
  l_approved l
  && resolveCompanyTypeFilter (lf_companyType f) (l_companyType l)
  && match lf_likelyToAttend f with Some e => seq_b (l_likelyToAttend l) e | None => true end
  && (negb (lf_hasEmail f) || bool_decide (l_email l ≠ None))
  && match lf_search f with
     | Some s => negb (Str.nonempty s) ||
         (contains s (Some (l_name l)) || contains s (l_company l) || contains s (l_title l)
          || contains s (l_email l) || contains s (Some (l_likelyToAttend l)))
     | None => true
     end.

(** What the preview shows of a lead. *)
Record preview_row := PreviewRow {
  pv_name : string; pv_title : option string; pv_company : option string;
  pv_companyType : option company_type; pv_likelyToAttend : string
}.
(** [LEAD_SELECT]. *)
Record lead_view := LeadView {
  lv_id : string; lv_name : string; lv_title : option string; lv_company : option string;
  lv_website : option string; lv_linkedin : option string; lv_appLink : option string;
  lv_email : option string; lv_phone : option string; lv_companyType : option company_type;
  lv_likelyToAttend : string
}.
Definition select (l : lead) : lead_view :=
  LeadView (l_id l) (l_name l) (l_title l) (l_company l) (l_website l) (l_linkedin l) (l_appLink l)
    (l_email l) (l_phone l) (l_companyType l) (l_likelyToAttend l).

Definition freeTierMaxSearchesPerDay : Z := 4.
Definition freeTierMaxResultsPerSearch : Z := 25.
Definition anonymousMaxSearchesPerDay : Z := 3.
Definition anonymousMaxResultsPerSearch : Z := 3.
Definition UNCLASSIFIED : string := "UNCLASSIFIED".

Definition staff (r : role) : bool := match r with ADMIN | SUPER_ADMIN => true | _ => false end.
Definition live_of (userId : string) (s : lf_subscription) : bool :=
  seq_b (lfs_userId s) userId && live_status (lfs_status s).
Definition bought_pack (userId : string) (g : credit_grant) : bool :=
  seq_b (g_userId g) userId && bool_decide (g_source g = CREDIT_PACK_PURCHASE).
Definition has_credit (userId : string) (u : user) : bool :=
  seq_b (u_id u) userId && (0 <? u_leadFinderCredits u).
(** [findUniqueOrThrow]. *)
Definition orThrow {A} (o : option A) : M A :=
  match o with Some a => mret a | None => throw (PrismaKnown "P2025") end.
Lemma respects_orThrow {A} (R : world → world → Prop) `{!PreOrder R} (o : option A) : respects R (orThrow o).
Proof. intros w. destruct o; cbn; reflexivity. Qed.

(** The result of a search of the anonymous demo. *)
Record found := Found {
  fd_name : option string; fd_title : option string; fd_company : option string;
  fd_email : option string; fd_linkedin : option string
}.
Record free_tier := FreeTier {
  ft_isPaidTier : bool; ft_maxResultsPerSearch : Z; ft_searchesUsedToday : Z;
  ft_maxSearchesPerDay : Z; ft_searchesRemainingToday : option Z
}.
Definition busy {A} : M A :=
  ServiceUnavailable "AI search is temporarily unavailable — please try again in a moment.".

(** [buildApolloFilters] of the review panel's fields. *)
Definition buildApolloFilters (searchKeywords targetIndustries exclusions personTitles personSeniorities
    personFunctions : option (list string)) (location : option string)
    (companySizeRanges : option (list string)) (revenueMin revenueMax : option Z)
    (personName personOrganization : option string) : apollo_filters :=
  {| f_keywords := None;
     f_organizationKeywordTags := Some ((searchKeywords ifnull []) ++ (targetIndustries ifnull []));
     f_excludeOrganizationKeywordTags := exclusions;
     f_personTitles := personTitles;
     f_personSeniorities := personSeniorities;
     f_personFunctions := personFunctions;
     f_personLocations := None;
     f_organizationLocations :=
       match location with Some l => if Str.nonempty l then Some [l] else None | None => None end;
     f_organizationNumEmployeesRanges := companySizeRanges;
     f_revenueMin := revenueMin; f_revenueMax := revenueMax;
     f_personName := personName; f_personOrganization := personOrganization |}.
Definition of_dto (d : Taxonomy.ai_search) : apollo_filters :=
  buildApolloFilters (Taxonomy.as_searchKeywords d) (Taxonomy.as_targetIndustries d)
    (Taxonomy.as_exclusions d) (Taxonomy.as_personTitles d) (Taxonomy.as_personSeniorities d)
    (Taxonomy.as_personFunctions d) (Taxonomy.as_location d) (Taxonomy.as_companySizeRanges d)
    (Taxonomy.as_revenueMin d) (Taxonomy.as_revenueMax d) (Taxonomy.as_personName d)
    (Taxonomy.as_personOrganization d).
Definition of_parsed (p : Claude.parsed) : apollo_filters :=
  buildApolloFilters (Some (Claude.ps_searchKeywords p)) (Some (Claude.ps_targetIndustries p)) None
    (Some (Claude.ps_personTitles p)) (Some (Claude.ps_personSeniorities p)) None
    (Some (Claude.ps_location p)) None None None
    (Some (Claude.ps_personName p)) (Some (Claude.ps_personOrganization p)).
(** [if (filters.personName)]. *)
Definition personName (f : apollo_filters) : option string :=
  match f_personName f with Some n => if Str.nonempty n then Some n else None | None => None end.

Section leads.
Context {cfg : config} `{Entropy, ApolloApi, ClaudeApi, LocalTime, Collation, CsvStringify}.

(** *** The directory *)
Definition by_name (a b : lead) : Prop := collate (l_name a) (l_name b) = true.
#[local] Instance by_name_dec : RelDecision by_name.
Proof. intros a b. unfold by_name. apply _. Defined.
Definition in_order (f : filters) : M (list lead) :=
  l ← db_find_many T_leads (buildWhere f); mret (merge_sort by_name l).

(** Data, page, page size, total. *)
Definition list_ (f : filters) (page pageSize : Z) : M (list lead_view * Z * Z * Z) :=
  l ← in_order f;
  total ← db_count T_leads (buildWhere f);
  mret (select <$> page_of page pageSize l, page, pageSize, total).
Definition count (f : filters) : M Z := db_count T_leads (buildWhere f).

Definition type_name (t : company_type) : string :=
  match t with
  | ADVERTISER => "ADVERTISER" | AD_NETWORK => "AD_NETWORK" | AFFILIATE => "AFFILIATE"
  | AFFILIATE_NETWORK => "AFFILIATE_NETWORK" | AGENCY => "AGENCY"
  | SOLUTION_PROVIDER => "SOLUTION_PROVIDER"
  end.
Definition CSV_HEADERS : list string :=
  ["Name"; "Title"; "Company"; "Type of Company"; "Likely to Attend"; "Website"; "LinkedIn"; "Email"; "Phone"].
Definition csv_row (l : lead) : list (option string) :=
  [Some (l_name l); l_title l; l_company l; type_name <$> l_companyType l; Some (l_likelyToAttend l);
   l_website l; l_linkedin l; l_email l; l_phone l].
Definition exportCsv (f : filters) : M string :=
  l ← in_order f; mret (csv_stringify CSV_HEADERS (csv_row <$> l)).

Definition preview (search : string) : M (list preview_row) :=
  l ← in_order (Filters AnyCompany None (Some search) false);
  mret ((λ l, PreviewRow (l_name l) (l_title l) (l_company l) (l_companyType l) (l_likelyToAttend l))
          <$> firstn 5 l).

Definition submitSelf (userId name : string) (companyType : company_type) (likelyToAttend : string)
    (title company website linkedin email phone : option string) : M lead_view :=
  id ← random_uuid; now ← date_now;
  l ← db_create T_leads id
        (Mk_lead id name title company website linkedin None email phone (Some companyType)
           likelyToAttend false (Some userId) now);
  _ ← Audit.record (Audit.with_target "Lead" (l_id l) (Audit.by_actor userId "leads.self_submitted"));
  mret (select l).

(** The order of the enum, which is the order of its column. *)
Definition type_index (t : company_type) : Z :=
  match t with
  | ADVERTISER => 0 | AD_NETWORK => 1 | AFFILIATE => 2 | AFFILIATE_NETWORK => 3 | AGENCY => 4
  | SOLUTION_PROVIDER => 5
  end.
Definition by_event (a b : string) : Prop := collate a b = true.
#[local] Instance by_event_dec : RelDecision by_event.
Proof. intros a b. unfold by_event. apply _. Defined.
(** The distinct types and events of every lead; nulls sort last. *)
Definition getFilters : M (list (option company_type) * list string) :=
  m ← db_all T_leads;
  let types := remove_dups (l_companyType <$> values m) in
  let realTypes := order_asc type_index (omap id types) in
  mret ((Some <$> realTypes) ++ (if (length realTypes <? length types)%nat then [None] else []),
        merge_sort by_event (remove_dups (l_likelyToAttend <$> values m))).

(** [suggest]: the eight most frequent approved values that match. *)
Definition suggest (field_title : bool) (q : string) : M (list string) :=
  let column l := if field_title then l_title l else l_company l in
  l ← db_find_many T_leads (λ l, l_approved l &&
        match column l with Some v => ilike ("%" +:+ q +:+ "%") v | None => false end);
  let vs := omap column l in
  mret (firstn 8 (order_desc (λ v, Z.of_nat (length (filter (λ x, x = v) vs))) (remove_dups vs))).

(** *** Limits *)
Definition startOfToday : M Z := now ← date_now; mret (start_of_day now).
Definition secondsUntilMidnight (now : Z) : Z := (next_midnight now - now + 999) / 1000.

Definition anon_key (ip : string) : string := "anon-ai-search:" +:+ ip.
(** The result is [searchesUsedToday], [searchesRemainingToday]. *)
Definition checkAnonymousSearchLimit (ip : string) : M (Z * Z) :=
  count ← try_catch
    (count ← redis_incr (anon_key ip);
     now ← date_now;
     _ ← when (count =? 1) (redis_expire (anon_key ip) (secondsUntilMidnight now));
     mret count)
    (λ _, ServiceUnavailable "The free search demo is temporarily unavailable — please try again in a moment, or sign up for full access.");
  if anonymousMaxSearchesPerDay <? count
  then Forbidden "You've used your 3 free searches today. Sign up to get up to 1,000 enriched leads every month, unlimited database searches, and full CSV export — or come back tomorrow for 3 more free searches."
  else mret (count, anonymousMaxSearchesPerDay - count).
(** The result is [searchesRemainingToday]. *)
Definition getAnonymousSearchStatus (ip : string) : M Z :=
  try_catch
    (raw ← redis_get (anon_key ip);
     mret (Z.max 0 (anonymousMaxSearchesPerDay - (raw ifnull 0))))
    (λ _, mret anonymousMaxSearchesPerDay).

Definition hasUnlimitedLeadFinderAccess (userId : string) : M bool :=
  o ← db_find T_users userId;
  mret (match o with
        | Some u => staff (u_role u) || u_adminGrantedLeadFinderAccess u
        | None => false
        end).
Definition hasPaidLeadFinderAccess (userId : string) : M bool :=
  unlimited ← hasUnlimitedLeadFinderAccess userId;
  if (unlimited : bool) then mret true else
  subscription ← db_find_by T_leadFinderSubscriptions (live_of userId);
  creditPurchase ← db_find_by T_creditGrants (bought_pack userId);
  now ← date_now;
  mret (match creditPurchase, subscription with
        | Some _, _ => true
        | None, None => false
        | None, Some s =>
            Access.hasActiveAccess now (lfs_status s) (lfs_pastDueSince s) (PAYMENT_GRACE_PERIOD_DAYS cfg)
        end).
Definition searched_since (userId : string) (t : Z) (j : search_job) : bool :=
  seq_b (j_userId j) userId && (t <=? j_createdAt j).
Definition getFreeTierStatus (userId : string) : M free_tier :=
  isPaidTier ← hasPaidLeadFinderAccess userId;
  if (isPaidTier : bool) then
    mret (FreeTier true (LEAD_SEARCH_MAX_RESULTS cfg) 0 freeTierMaxSearchesPerDay None)
  else
    today ← startOfToday;
    used ← db_count T_leadSearchJobs (searched_since userId today);
    mret (FreeTier false freeTierMaxResultsPerSearch used freeTierMaxSearchesPerDay
            (Some (Z.max 0 (freeTierMaxSearchesPerDay - used)))).

(** *** Credits *)
Definition getCredits (userId : string) : M (Z * free_tier) :=
  o ← db_find T_users userId;
  user ← orThrow o;
  freeTier ← getFreeTierStatus userId;
  mret (u_leadFinderCredits user, freeTier).
Definition tryReserveCredit (userId : string) : M bool :=
  unlimited ← hasUnlimitedLeadFinderAccess userId;
  if (unlimited : bool) then mret true else
  count ← db_update_many T_users (has_credit userId)
            (λ u, set_u_leadFinderCredits (u_leadFinderCredits u - 1) u);
  mret (0 <? count).
Definition refundCredit (userId : string) : M unit :=
  unlimited ← hasUnlimitedLeadFinderAccess userId;
  if (unlimited : bool) then mret tt else
  _ ← db_update T_users userId (λ u, set_u_leadFinderCredits (u_leadFinderCredits u + 1) u);
  mret tt.

(** *** Searches *)
Definition parseQuery (query : string) (jobTitles : option (list string)) : M Claude.parsed :=
  try_catch (Claude.parseApolloQuery query jobTitles) (λ _, busy).

(** One candidate of the anonymous search. *)
Definition reveal_anonymous (results : list found) (c : Apollo.candidate) : M (list found) :=
  o ← Apollo.enrichPerson (Apollo.c_apolloPersonId c);
  mret (match o with
        | Some e => results ++
            [Found (Some (Apollo.e_name e ifnull Apollo.c_name c))
               (match Apollo.e_title e with Some t => Some t | None => Apollo.c_title c end)
               (match Apollo.e_company e with Some t => Some t | None => Apollo.c_company c end)
               (Apollo.e_email e) (Apollo.e_linkedin e)]
        | None => results
        end).
Definition anonymousSearch (ip query : string) : M (list found * Z) :=
  limit ← checkAnonymousSearchLimit ip;
  try_catch
    (parsed ← Claude.parseApolloQuery query None;
     let f := of_parsed parsed in
     match personName f with
     | Some name =>
         o ← Apollo.matchByName name (f_personOrganization f);
         mret (match o with
               | Some e => [Found (Some (Apollo.e_name e ifnull name)) (Apollo.e_title e)
                              (Apollo.e_company e) (Apollo.e_email e) (Apollo.e_linkedin e)]
               | None => []
               end, limit.2)
     | None =>
         candidates ← Apollo.searchPeople f anonymousMaxResultsPerSearch;
         results ← fold_each (firstn (Z.to_nat anonymousMaxResultsPerSearch) candidates) reveal_anonymous [];
         mret (results, limit.2)
     end)
    (λ _, busy).

Definition out_of_credits {A} : M A :=
  Forbidden "You're out of Lead Finder credits. Buy more to keep searching.".
Definition aiSearch (userId : string) (dto : Taxonomy.ai_search) : M string :=
  o ← db_find T_users userId;
  user ← orThrow o;
  hasUnlimited ← hasUnlimitedLeadFinderAccess userId;
  if negb hasUnlimited && (u_leadFinderCredits user <=? 0) then out_of_credits else
  freeTier ← getFreeTierStatus userId;
  if negb (ft_isPaidTier freeTier) && bool_decide (ft_searchesRemainingToday freeTier = Some 0)
  then Forbidden ("You've used all " +:+ pretty (ft_maxSearchesPerDay freeTier) +:+ " free searches today ("
         +:+ pretty (ft_maxResultsPerSearch freeTier) +:+ " results each). Upgrade for unlimited searches, or come back tomorrow for "
         +:+ pretty (ft_maxSearchesPerDay freeTier) +:+ " more free searches.")
  else
    let f := of_dto dto in
    id ← random_uuid; now ← date_now;
    job ← db_create T_leadSearchJobs id
            (Mk_search_job id userId (Taxonomy.as_campaignName dto) (Taxonomy.as_personTitles dto ifnull [])
               (Some f) RUNNING now);
    let cap := if hasUnlimited then ft_maxResultsPerSearch freeTier
               else Z.min (u_leadFinderCredits user) (ft_maxResultsPerSearch freeTier) in
    _ ← apolloQueue_add (Mk_apollo_job (j_id job) userId f cap None);
    mret (j_id job).

(** The job of a user, or 404. *)
Definition own_job (userId jobId : string) : M search_job :=
  o ← db_find T_leadSearchJobs jobId;
  match o with
  | Some job => if seq_b (j_userId job) userId then mret job else NotFound "Search not found"
  | None => NotFound "Search not found"
  end.
Definition of_job (jobId : string) (r : search_result) : bool := seq_b (r_jobId r) jobId.

Definition getMoreLeads (userId jobId : string) (count : option Z) : M bool :=
  job ← own_job userId jobId;
  results ← db_find_many T_leadSearchResults (of_job jobId);
  if bool_decide (j_status job = RUNNING) then Forbidden "This search is still running." else
  match j_filters job with
  | None => Forbidden "This search predates structured filters and cannot be extended — start a new search."
  | Some f =>
      hasPaidAccess ← hasPaidLeadFinderAccess userId;
      if negb hasPaidAccess then Forbidden "Buy a credit pack or upgrade to a paid plan to get more leads per search — the free plan is capped at 3 results per search." else
      o ← db_find T_users userId;
      user ← orThrow o;
      hasUnlimited ← hasUnlimitedLeadFinderAccess userId;
      if negb hasUnlimited && (u_leadFinderCredits user <=? 0) then out_of_credits else
      let maxResults := LEAD_SEARCH_MAX_RESULTS cfg in
      let requested := count ifnull maxResults in
      let cap := if hasUnlimited then Z.min requested maxResults
                 else Z.min requested (Z.min (u_leadFinderCredits user) maxResults) in
      _ ← db_update T_leadSearchJobs jobId (set_j_status RUNNING);
      _ ← apolloQueue_add (Mk_apollo_job jobId userId f cap (Some (r_apolloPersonId <$> results)));
      mret true
  end.

Definition getSearchJob (userId jobId : string) : M (search_job * list search_result) :=
  job ← own_job userId jobId;
  results ← db_find_many T_leadSearchResults (of_job jobId);
  mret (job, order_asc r_createdAt results).
Definition cancelSearchJob (userId jobId : string) : M search_job :=
  job ← own_job userId jobId;
  if bool_decide (j_status job = RUNNING) then db_update T_leadSearchJobs jobId (set_j_status CANCELLED)
  else mret job.
Definition updateResultReviewStatus (userId jobId resultId reviewStatus : string) : M search_result :=
  _ ← own_job userId jobId;
  o ← db_find T_leadSearchResults resultId;
  match o with
  | Some r =>
      if of_job jobId r then db_update T_leadSearchResults resultId (set_r_reviewStatus reviewStatus)
      else NotFound "Lead not found"
  | None => NotFound "Lead not found"
  end.
(** A search with the number of its results. *)
Definition listSearchHistory (userId : string) : M (list (search_job * Z)) :=
  jobs ← db_find_many T_leadSearchJobs (λ j, seq_b (j_userId j) userId);
  results ← db_all T_leadSearchResults;
  mret ((λ j, (j, count_rows (of_job (j_id j)) results)) <$> firstn 50 (order_desc j_createdAt jobs)).
End leads.
End Leads.
#[export] Hint Resolve Leads.respects_orThrow : steph.
