(* ===== verification/ApolloSearch.v ===== *)
(** ApolloSearchProcessor (leads/apollo-search.processor.ts): the worker that
    runs a search. One candidate is enriched in four awaited steps ([check],
    [reserve], [call], [settle]); [process] composes them, and [micro] runs
    them one at a time, so that other requests and other searches interleave. *)
From S2P Require Import Prelude JsLib Crypto Schema Effects Platform Config Messaging Users Access Apollo Taxonomy Leads.

Module ApolloSearch.
Section processor.
Context {cfg : config} `{Entropy, ApolloApi}.

Definition pending_of (jobId : string) (r : search_result) : bool :=
  Leads.of_job jobId r && seq_b (r_status r) "pending".
(** The results still pending are skipped. *)
Definition skipPending (jobId : string) : M unit :=
  _ ← db_update_many T_leadSearchResults (pending_of jobId) (set_r_status "skipped"); mret tt.
Definition setStatus (jobId : string) (st : job_status) : M unit :=
  _ ← db_update T_leadSearchJobs jobId (set_j_status st); mret tt.

(** *** The candidates *)
Definition excluded (job : apollo_job) : list string := aj_excludeApolloPersonIds job ifnull [].
Definition select (job : apollo_job) (found : list Apollo.candidate) : list Apollo.candidate :=
  firstn (Z.to_nat (aj_cap job))
    (filter (λ c, Apollo.c_apolloPersonId c ∉ excluded job) found).
Definition createPending (jobId : string) (c : Apollo.candidate) : M search_result :=
  id ← random_uuid; now ← date_now;
  db_create T_leadSearchResults id
    (Mk_search_result id jobId (Apollo.c_apolloPersonId c) (Some (Apollo.c_name c)) (Apollo.c_title c)
       (Apollo.c_company c) None None "pending" "new" now).
Definition search (job : apollo_job) : M (list Apollo.candidate) :=
  let perPage := Z.min (aj_cap job + Z.of_nat (length (remove_dups (excluded job)))) 100 in
  found ← Apollo.searchPeople (aj_filters job) perPage;
  mret (select job found).

(** *** One candidate *)
(** [true]: the user has cancelled; the pending results are skipped. *)
Definition check (jobId : string) : M bool :=
  current ← db_find T_leadSearchJobs jobId;
  if bool_decide (j_status <$> current = Some CANCELLED)
  then _ ← skipPending jobId; mret true
  else mret false.
(** [false]: no credit was left; the pending results are skipped. *)
Definition reserve (jobId userId : string) : M bool :=
  reserved ← Leads.tryReserveCredit userId;
  if (reserved : bool) then mret true else _ ← skipPending jobId; mret false.
Definition call (r : search_result) : M (option Apollo.enriched) :=
  Apollo.enrichPerson (r_apolloPersonId r).
(** [a ?? b] on nullable columns. *)
Definition or_else (a b : option string) : option string := match a with Some x => Some x | None => b end.
(** [true] when the candidate was enriched. *)
Definition settle (userId : string) (r : search_result) (o : option Apollo.enriched) : M bool :=
  match o with
  | Some e =>
      _ ← db_update T_leadSearchResults (r_id r) (λ x,
            set_r_status "enriched" (set_r_email (Apollo.e_email e) (set_r_linkedin (Apollo.e_linkedin e)
              (set_r_company (or_else (Apollo.e_company e) (r_company r))
                (set_r_title (or_else (Apollo.e_title e) (r_title r))
                  (set_r_name (or_else (Apollo.e_name e) (r_name r)) x))))));
      mret true
  | None =>
      _ ← Leads.refundCredit userId;
      _ ← db_update T_leadSearchResults (r_id r) (set_r_status "failed");
      mret false
  end.

(** *** The whole run *)
Inductive outcome := Cancelled | Enriched (count : Z).
Fixpoint enrichAll (jobId userId : string) (results : list search_result) (count : Z) : M outcome :=
  match results with
  | [] => mret (Enriched count)
  | r :: rest =>
      cancelled ← check jobId;
      if (cancelled : bool) then mret Cancelled else
      reserved ← reserve jobId userId;
      if negb reserved then mret (Enriched count) else
      o ← call r;
      enriched ← settle userId r o;
      enrichAll jobId userId rest (if (enriched : bool) then count + 1 else count)
  end.
(** The filters as stored JSON: undefined fields are left out. *)
Definition lists_json (key : string) (o : option (list string)) : list (string * json) :=
  match o with Some l => [(key, Apollo.strings l)] | None => [] end.
Definition string_json (key : string) (o : option string) : list (string * json) :=
  match o with Some s => [(key, JStr s)] | None => [] end.
Definition filtersJson (f : apollo_filters) : json := JObj
  (string_json "keywords" (f_keywords f) ++
   lists_json "organizationKeywordTags" (f_organizationKeywordTags f) ++
   lists_json "excludeOrganizationKeywordTags" (f_excludeOrganizationKeywordTags f) ++
   lists_json "personTitles" (f_personTitles f) ++
   lists_json "personSeniorities" (f_personSeniorities f) ++
   lists_json "personFunctions" (f_personFunctions f) ++
   lists_json "personLocations" (f_personLocations f) ++
   lists_json "organizationLocations" (f_organizationLocations f) ++
   lists_json "organizationNumEmployeesRanges" (f_organizationNumEmployeesRanges f) ++
   Apollo.num_field "revenueMin" (f_revenueMin f) ++ Apollo.num_field "revenueMax" (f_revenueMax f) ++
   string_json "personName" (f_personName f) ++ string_json "personOrganization" (f_personOrganization f)).
Definition auditSearch (userId jobId : string) (f : apollo_filters) (fields : list (string * json)) : M unit :=
  Audit.record (Audit.with_meta (JObj (("jobId", JStr jobId) :: ("filters", filtersJson f) :: fields))
    (Audit.by_actor userId "leads.ai_search")).
Definition finish (job : apollo_job) (candidateCount enrichedCount : Z) : M unit :=
  _ ← setStatus (aj_jobId job) COMPLETED;
  auditSearch (aj_userId job) (aj_jobId job) (aj_filters job)
    [("candidateCount", JNum candidateCount); ("enrichedCount", JNum enrichedCount);
     ("more", JBool (0 <? length (excluded job))%nat)].

(** [processDirectMatch]. *)
Definition processDirectMatch (jobId userId name : string) (f : apollo_filters) : M unit :=
  reserved ← Leads.tryReserveCredit userId;
  if negb reserved then setStatus jobId COMPLETED else
  matched ← Apollo.matchByName name (f_personOrganization f);
  _ ← match matched with Some _ => mret tt | None => Leads.refundCredit userId end;
  id ← random_uuid; now ← date_now;
  result ← db_create T_leadSearchResults id
    (Mk_search_result id jobId ("name:" +:+ name)
       (Some ((matched ≫= Apollo.e_name) ifnull name)) (matched ≫= Apollo.e_title)
       (or_else (matched ≫= Apollo.e_company) (f_personOrganization f))
       (matched ≫= Apollo.e_linkedin) (matched ≫= Apollo.e_email)
       (match matched with Some _ => "enriched" | None => "failed" end) "new" now);
  _ ← setStatus jobId COMPLETED;
  auditSearch userId jobId f
    [("directMatch", JBool true); ("resultId", JStr (r_id result));
     ("enrichedCount", JNum (match matched with Some _ => 1 | None => 0 end))].

Fixpoint createAll (jobId : string) (cs : list Apollo.candidate) : M (list search_result) :=
  match cs with
  | [] => mret []
  | c :: cs => r ← createPending jobId c; rs ← createAll jobId cs; mret (r :: rs)
  end.
(** [process]: any failure marks the job FAILED. *)
Definition process (job : apollo_job) : M unit :=
  try_catch
    (match Leads.personName (aj_filters job) with
     | Some name => processDirectMatch (aj_jobId job) (aj_userId job) name (aj_filters job)
     | None =>
         candidates ← search job;
         match candidates with
         | [] => setStatus (aj_jobId job) COMPLETED
         | _ =>
             results ← createAll (aj_jobId job) candidates;
             o ← enrichAll (aj_jobId job) (aj_userId job) results 0;
             match o with
             | Cancelled => mret tt
             | Enriched n => finish job (Z.of_nat (length candidates)) n
             end
         end
     end)
    (λ _, setStatus (aj_jobId job) FAILED).

(** *** Step by step *)
(** Where a running search waits. *)
Inductive phase :=
| AtCheck (todo : list search_result) (count : Z)
| AtReserve (r : search_result) (todo : list search_result) (count : Z)
| AtCall (r : search_result) (todo : list search_result) (count : Z)
| AtSettle (r : search_result) (o : option Apollo.enriched) (todo : list search_result) (count : Z)
| AtFinish (count : Z)
| Ended (count : Z).
(** Its next awaited step. *)
Definition micro (job : apollo_job) (candidates : Z) (p : phase) : M phase :=
  match p with
  | AtCheck [] n => mret (AtFinish n)
  | AtCheck (r :: todo) n =>
      cancelled ← check (aj_jobId job);
      mret (if (cancelled : bool) then Ended n else AtReserve r todo n)
  | AtReserve r todo n =>
      reserved ← reserve (aj_jobId job) (aj_userId job);
      mret (if (reserved : bool) then AtCall r todo n else AtFinish n)
  | AtCall r todo n => o ← call r; mret (AtSettle r o todo n)
  | AtSettle r o todo n =>
      enriched ← settle (aj_userId job) r o;
      mret (AtCheck todo (if (enriched : bool) then n + 1 else n))
  | AtFinish n => _ ← finish job candidates n; mret (Ended n)
  | Ended n => mret (Ended n)
  end.
End processor.
End ApolloSearch.
