(* ===== verification/ApolloSearchProps.v ===== *)
(** Searches under concurrency: a search run step by step is the search run
    at once; no interleaving of searches overspends an account; a cancelled
    search spends nothing more; how many Apollo calls a search makes. *)
From S2P Require Import Prelude JsLib Crypto Schema Effects Platform Config Messaging Users Access Apollo Taxonomy Leads ApolloSearch.
Import ApolloSearch.

(** ** One search is the composition of its steps *)
Section refinement.
Context {cfg : config} `{Entropy, ApolloApi} (job : apollo_job) (candidates : Z).

Inductive micro_step : phase * world → phase * world → Prop :=
| micro_ok p w p' w' : micro job candidates p w = (Ok p', w') → micro_step (p, w) (p', w').

Lemma enrichAll_steps results n w o w' :
  enrichAll (aj_jobId job) (aj_userId job) results n w = (Ok o, w') →
  ∃ m, star micro_step (AtCheck results n, w)
    (match o with Cancelled => Ended m | Enriched k => AtFinish k end, w').
Proof.
  revert n w. induction results as [|r rest IH]; intros n w H1; cbn [enrichAll] in H1.
  - injection H1 as <- <-. exists 0. eapply star_next; [by constructor|apply star_here].
  - rewrite run_bind in H1. destruct (check _ w) as [[[|]|e] w1] eqn:Hc; [| |done].
    { injection H1 as <- <-. exists n. eapply star_next; [|apply star_here]. constructor. cbn [micro].
      by rewrite run_bind, Hc. }
    assert (S1 : micro_step (AtCheck (r :: rest) n, w) (AtReserve r rest n, w1)).
    { constructor. cbn [micro]. by rewrite run_bind, Hc. }
    rewrite run_bind in H1. destruct (reserve _ _ w1) as [[[|]|e] w2] eqn:Hr; [| |done]; cbn [negb] in H1.
    2:{ injection H1 as <- <-. exists n. eapply star_next; [exact S1|]. eapply star_next; [|apply star_here].
        constructor. cbn [micro]. by rewrite run_bind, Hr. }
    assert (S2 : micro_step (AtReserve r rest n, w1) (AtCall r rest n, w2)).
    { constructor. cbn [micro]. by rewrite run_bind, Hr. }
    rewrite run_bind in H1. destruct (call r w2) as [[e|e] w3] eqn:Hcall; [|done].
    assert (S3 : micro_step (AtCall r rest n, w2) (AtSettle r e rest n, w3)).
    { constructor. cbn [micro]. by rewrite run_bind, Hcall. }
    rewrite run_bind in H1. destruct (settle _ r e w3) as [[b|?] w4] eqn:Hs; [|done].
    set (n' := if (b : bool) then n + 1 else n) in *.
    assert (S4 : micro_step (AtSettle r e rest n, w3) (AtCheck rest n', w4)).
    { constructor. cbn [micro]. by rewrite run_bind, Hs. }
    destruct (IH n' w4 H1) as [m Hstar]. exists m. eauto 6 using star_next.
Qed.
End refinement.

(** ** Credits under concurrency *)

(** A running search: its job, its number of candidates, where it is. *)
Definition worker : Type := apollo_job * Z * phase.
(** The account's row: exempt from credits or not, and its balance. *)
Definition exempt (u : user) : bool := Leads.staff (u_role u) || u_adminGrantedLeadFinderAccess u.
Definition row (w : world) (u : string) : option user := db_users (w_db w) !! u.
Definition credits_of (w : world) (u : string) : option Z := u_leadFinderCredits <$> row w u.

(** Any number of searches, of any accounts, take their steps in any order; a
    step that fails ends its search as FAILED; in between anything happens
    that leaves the role, the grant and the balance of [u] alone. *)
Section pool.
Context {cfg : config} `{Entropy, ApolloApi} (u : string).

Definition same_account (w w' : world) : Prop :=
  keyed u_id (db_users (w_db w')) ∧
  credits_of w' u = credits_of w u ∧ (exempt <$> row w' u) = (exempt <$> row w u).
Inductive pool_step : list worker * world → list worker * world → Prop :=
| pool_micro l1 job c p l2 w p' w' :
    micro job c p w = (Ok p', w') → pool_step (l1 ++ (job, c, p) :: l2, w) (l1 ++ (job, c, p') :: l2, w')
| pool_fails l1 job c p l2 w e w' n :
    micro job c p w = (Err e, w') →
    match p with
    | AtCheck _ k | AtReserve _ _ k | AtCall _ _ k | AtSettle _ _ _ k | AtFinish k | Ended k => n = k
    end →
    pool_step (l1 ++ (job, c, p) :: l2, w) (l1 ++ (job, c, Ended n) :: l2, (setStatus (aj_jobId job) FAILED w').2)
| pool_other ws w w' : same_account w w' → pool_step (ws, w) (ws, w').

(** Leads delivered to the account, and credits reserved for a call. *)
Definition delivered (p : phase) : Z :=
  match p with
  | AtCheck _ k | AtReserve _ _ k | AtCall _ _ k | AtSettle _ _ _ k | AtFinish k | Ended k => k
  end.
Definition held (p : phase) : Z := match p with AtCall _ _ _ | AtSettle _ _ _ _ => 1 | _ => 0 end.
Definition of_account (f : phase → Z) (x : worker) : Z :=
  if decide (aj_userId x.1.1 = u) then f x.2 else 0.
Definition total (f : phase → Z) (ws : list worker) : Z := foldr (λ x acc, of_account f x + acc) 0 ws.

Lemma total_app f l1 l2 : total f (l1 ++ l2) = total f l1 + total f l2.
Proof. unfold total. induction l1 as [|x l1 IH]; cbn; lia. Qed.

(** Nothing is spent twice. *)
Definition spent_ok (b : Z) (s : list worker * world) : Prop :=
  keyed u_id (db_users (w_db s.2)) ∧ exempt <$> row s.2 u = Some false ∧
  ∃ c, credits_of s.2 u = Some c ∧ 0 ≤ c ∧ total (λ p, delivered p + held p) s.1 + c ≤ b.

(** What one step does to the users table. *)
Lemma unlimited_run v w :
  Leads.hasUnlimitedLeadFinderAccess v w = (Ok (from_option exempt false (row w v)), w).
Proof.
  unfold Leads.hasUnlimitedLeadFinderAccess, row, db_find, gets. rewrite run_bind. cbn [t_get T_users].
  by destruct (db_users (w_db w) !! v).
Qed.

Definition set_credits (f : Z → Z) (x : user) : user := set_u_leadFinderCredits (f (u_leadFinderCredits x)) x.

(** A reservation takes one credit of a limited account that has one. *)
Lemma tryReserve_spec v w r w' :
  keyed u_id (db_users (w_db w)) → Leads.tryReserveCredit v w = (r, w') →
  ∃ b, r = Ok b ∧
  match row w v with
  | Some x =>
      if exempt x then b = true ∧ w' = w
      else if 0 <? u_leadFinderCredits x
           then b = true ∧ db_users (w_db w') = <[v := set_credits (λ c, c - 1) x]> (db_users (w_db w))
           else b = false ∧ db_users (w_db w') = db_users (w_db w)
  | None => b = false ∧ db_users (w_db w') = db_users (w_db w)
  end.
Proof.
  intros Hk. unfold Leads.tryReserveCredit. rewrite run_bind, unlimited_run.
  set (P := Leads.has_credit v). set (f := λ x, set_u_leadFinderCredits (u_leadFinderCredits x - 1) x).
  assert (Hother : ∀ k y, db_users (w_db w) !! k = Some y → k ≠ v → P y = false).
  { intros k y Hy Hne. unfold P, Leads.has_credit, seq_b. rewrite (Hk k y Hy).
    by rewrite bool_decide_eq_false_2. }
  assert (Hempty : (∀ x, row w v = Some x → P x = false) →
    update_where P f (db_users (w_db w)) = db_users (w_db w) ∧ count_rows P (db_users (w_db w)) = 0).
  { intros Hv. assert (Hall : ∀ k y, db_users (w_db w) !! k = Some y → P y = false).
    { intros k y Hy. destruct (decide (k = v)) as [->|Hne]; [by apply Hv|by eapply Hother]. }
    split.
    - apply map_eq. intros k. rewrite lookup_update_where. destruct (db_users (w_db w) !! k) as [y|] eqn:E;
        cbn; [|done]. by rewrite (Hall k y E).
    - unfold count_rows. replace (rows P (db_users (w_db w))) with (∅ : gmap string user); [done|].
      symmetry. apply map_empty. intros k. apply eq_None_not_Some. intros [y Hy].
      apply lookup_rows_Some in Hy as [Hy HP]. by rewrite (Hall k y Hy) in HP. }
  destruct (row w v) as [x|] eqn:Hx; cbn [from_option].
  2:{ intros [= <- <-]. fold P. destruct (Hempty ltac:(done)) as [Hu Hc].
      eexists. split; [reflexivity|]. rewrite Hc. split; [done|]. cbn. fold f. exact Hu. }
  destruct (exempt x); [intros [= <- <-]; eauto|].
  pose proof (Hk v x Hx) as Hid. destruct (0 <? u_leadFinderCredits x) eqn:Hpos.
  - assert (HP : P x = true) by (unfold P, Leads.has_credit, seq_b; by rewrite Hid, bool_decide_eq_true_2).
    assert (Hu : update_where P f (db_users (w_db w)) = <[v := f x]> (db_users (w_db w))).
    { apply map_eq. intros k. rewrite lookup_update_where. destruct (decide (k = v)) as [->|Hne].
      - unfold row in Hx. rewrite Hx, lookup_insert_eq. cbn. by rewrite HP.
      - rewrite lookup_insert_ne by done. destruct (db_users (w_db w) !! k) as [y|] eqn:E; cbn; [|done].
        by rewrite (Hother k y E Hne). }
    assert (Hc : 0 < count_rows P (db_users (w_db w))).
    { unfold count_rows. assert (rows P (db_users (w_db w)) !! v = Some x) as Hr by by apply lookup_rows_Some.
      destruct (size (rows P (db_users (w_db w)))) eqn:E; [|lia].
      apply map_size_empty_inv in E. by rewrite E in Hr. }
    intros [= <- <-]. eexists. split; [reflexivity|]. fold P. split; [by apply Z.ltb_lt|].
    cbn. fold f. exact Hu.
  - assert (HP : P x = false) by (unfold P, Leads.has_credit; by rewrite Hpos, andb_false_r).
    destruct (Hempty) as [Hu Hc]; [by intros ? [= <-]|].
    intros [= <- <-]. eexists. split; [reflexivity|]. fold P. rewrite Hc. split; [done|]. cbn. fold f. exact Hu.
Qed.

(** A refund gives one back. *)
Lemma refund_spec v w r w' :
  Leads.refundCredit v w = (r, w') →
  match row w v with
  | Some x => r = Ok tt ∧
      db_users (w_db w') = if exempt x then db_users (w_db w)
                           else <[v := set_credits (λ c, c + 1) x]> (db_users (w_db w))
  | None => db_users (w_db w') = db_users (w_db w)
  end.
Proof.
  unfold Leads.refundCredit. rewrite run_bind, unlimited_run.
  destruct (row w v) as [x|] eqn:Hx; cbn [from_option].
  - destruct (exempt x); [by intros [= <- <-]|]. rewrite run_bind. unfold db_update. cbv zeta.
    cbn [t_get T_users]. unfold row in Hx. rewrite Hx. by intros [= <- <-].
  - rewrite run_bind. unfold db_update. cbv zeta. cbn [t_get T_users]. unfold row in Hx. rewrite Hx.
    by intros [= <- <-].
Qed.

Definition users (w : world) : gmap string user := db_users (w_db w).
Lemma check_users j : respects (same users) (check j).
Proof. unfold check, skipPending. frame_tac. Qed.
Lemma call_users r : respects (same users) (call r).
Proof. unfold call, Apollo.enrichPerson, Apollo.match_. frame_tac. Qed.
Lemma setStatus_users j st : respects (same users) (setStatus j st).
Proof. unfold setStatus. frame_tac. Qed.
Lemma finish_users job c n : respects (same users) (finish job c n).
Proof. unfold finish, setStatus, auditSearch. frame_tac. Qed.
Lemma skip_users j : respects (same users) (skipPending j).
Proof. unfold skipPending. frame_tac. Qed.

(** The account in good standing: limited, with [c] credits. *)
Definition standing (w : world) (c : Z) : Prop :=
  keyed u_id (users w) ∧ exempt <$> row w u = Some false ∧ credits_of w u = Some c ∧ 0 ≤ c.
Lemma standing_same w w' c : users w' = users w → standing w c → standing w' c.
Proof. unfold standing, credits_of, row. unfold users. intros ->. done. Qed.
Lemma standing_insert w w' c v f x :
  standing w c → row w v = Some x → exempt x = false → users w' = <[v := set_credits f x]> (users w) →
  (v = u → 0 ≤ f c) → standing w' (if decide (v = u) then f c else c).
Proof.
  intros (Hk & Hex & Hc & Hpos) Hx Hlim Hu Hf. unfold standing, credits_of, row in *. unfold users in *.
  rewrite Hu. split_and!.
  - apply keyed_insert; [|done]. cbn. by apply Hk.
  - destruct (decide (v = u)) as [->|Hne]; [|by rewrite lookup_insert_ne].
    rewrite lookup_insert_eq. cbn. by rewrite <- Hlim.
  - destruct (decide (v = u)) as [->|Hne]; [|by rewrite lookup_insert_ne].
    rewrite lookup_insert_eq. rewrite Hx in Hc. cbn in *. by simplify_eq.
  - case_decide; auto.
Qed.

(** A search's claim on the account. *)
Definition claim (job : apollo_job) (p : phase) : Z :=
  if decide (aj_userId job = u) then delivered p + held p else 0.

Lemma reserve_account jobId v w r w' c :
  standing w c → reserve jobId v w = (r, w') →
  ∃ c', standing w' c' ∧
    (if decide (v = u) then match r with Ok true => c' = c - 1 | _ => c' = c end else c' = c).
Proof.
  intros Hst. unfold reserve. rewrite run_bind.
  destruct (Leads.tryReserveCredit v w) as [r1 w1] eqn:E.
  destruct (tryReserve_spec v w r1 w1 ltac:(apply Hst) E) as (b & -> & Hrow).
  assert (Hskip : ∀ w2, users w2 = users w → standing (skipPending jobId w2).2 c).
  { intros w2 H2. eapply standing_same; [|exact Hst]. by rewrite (skip_users jobId w2). }
  assert (Hnone : b = false → users w1 = users w →
    ∀ r w', (if b then mret true else _ ← skipPending jobId; mret false) w1 = (r, w') →
    ∃ c', standing w' c' ∧ (if decide (v = u) then match r with Ok true => c' = c - 1 | _ => c' = c end else c' = c)).
  { intros -> Hu r' w'' Hrun. exists c. specialize (Hskip w1 Hu). rewrite run_bind in Hrun.
    destruct (skipPending jobId w1) as [[[]|e] w2] eqn:Es; cbn [snd] in Hskip;
      injection Hrun as <- <-; (split; [done|by case_decide]). }
  destruct (row w v) as [x|] eqn:Hx; [|destruct Hrow as [-> Hu]; by apply Hnone].
  destruct (exempt x) eqn:Hex.
  - destruct Hrow as [-> ->]. intros [= <- <-]. exists c. split; [done|].
    destruct (decide (v = u)) as [->|]; [|done]. destruct Hst as (_ & Hl & _). rewrite Hx in Hl.
    cbn in Hl. congruence.
  - destruct (0 <? u_leadFinderCredits x) eqn:Hpos; [|destruct Hrow as [-> Hu]; by apply Hnone].
    destruct Hrow as [-> Hu]. intros [= <- <-]. exists (if decide (v = u) then c - 1 else c). split.
    + eapply (standing_insert w w1 c v (λ c, c - 1)); [done|exact Hx|done|exact Hu|].
      intros ->. destruct Hst as (_ & _ & Hc & _). unfold credits_of in Hc. rewrite Hx in Hc. cbn in Hc.
      simplify_eq. apply Z.ltb_lt in Hpos. lia.
    + by case_decide.
Qed.

Lemma settle_account v r o w b w' c :
  standing w c → settle v r o w = (b, w') →
  ∃ c', standing w' c' ∧ (if decide (v = u) then match b with Ok true => c' = c | _ => c' ≤ c + 1 end else c' = c).
Proof.
  intros Hst. unfold settle. destruct o as [e|].
  - intros Hrun. exists c. split; [|by destruct b as [[]|]; case_decide; lia].
    eapply standing_same; [|exact Hst].
    assert (respects (same users) (_ ← db_update T_leadSearchResults (r_id r) (λ x,
            set_r_status "enriched" (set_r_email (Apollo.e_email e) (set_r_linkedin (Apollo.e_linkedin e)
              (set_r_company (or_else (Apollo.e_company e) (r_company r))
                (set_r_title (or_else (Apollo.e_title e) (r_title r))
                  (set_r_name (or_else (Apollo.e_name e) (r_name r)) x)))))); mret true)) as Hf by frame_tac.
    specialize (Hf w). unfold settle in Hrun. by rewrite Hrun in Hf.
  - rewrite run_bind. destruct (Leads.refundCredit v w) as [r1 w1] eqn:E.
    pose proof (refund_spec v w r1 w1 E) as Hr.
    assert (Hw1 : ∃ c', standing w1 c' ∧ (if decide (v = u) then c' ≤ c + 1 else c' = c)).
    { destruct (row w v) as [x|] eqn:Hx; [|exists c; split; [by eapply standing_same|case_decide; lia]].
      destruct Hr as [_ Hr]. destruct (exempt x) eqn:Hex; [exists c; split; [by eapply standing_same|case_decide; lia]|].
      exists (if decide (v = u) then c + 1 else c). split; [|by case_decide; lia].
      eapply (standing_insert w w1 c v (λ c, c + 1)); [done|exact Hx|done|exact Hr|].
      intros _. destruct Hst as (_ & _ & _ & ?). lia. }
    destruct Hw1 as (c' & Hst1 & Hc'). destruct r1 as [[]|e].
    2:{ intros [= <- <-]. eauto. }
    intros Hrun. exists c'. split.
    2:{ case_decide; [|done]. destruct b as [[]|]; [|done..]. exfalso. rewrite run_bind in Hrun.
        by destruct (db_update _ _ _ w1) as [[?|?] ?]. }
    eapply standing_same; [|exact Hst1].
    assert (respects (same users) (_ ← db_update T_leadSearchResults (r_id r) (set_r_status "failed"); mret false))
      as Hf by frame_tac.
    specialize (Hf w1). by rewrite Hrun in Hf.
Qed.

(** One step of one search. *)
Lemma micro_account job cands p w r w' c :
  standing w c → micro job cands p w = (r, w') →
  ∃ c', standing w' c' ∧
    match r with
    | Ok p' => claim job p' + c' ≤ claim job p + c
    | Err _ => (if decide (aj_userId job = u) then delivered p else 0) + c' ≤ claim job p + c
    end.
Proof.
  intros Hst. unfold claim. destruct p as [[|x todo] n|x todo n|x todo n|x o todo n|n|n]; cbn [micro].
  - intros [= <- <-]. exists c. split; [done|]. cbn. case_decide; lia.
  - rewrite run_bind. pose proof (check_users (aj_jobId job) w) as Hf.
    destruct (check _ w) as [[b|e] w1]; intros [= <- <-]; exists c; (split; [by eapply standing_same|]);
      [destruct b|]; cbn; case_decide; lia.
  - rewrite run_bind. destruct (reserve _ _ w) as [[b|e] w1] eqn:E;
      destruct (reserve_account _ _ _ _ _ _ Hst E) as (c' & Hst' & Hc'); intros [= <- <-]; exists c';
      (split; [done|]); [destruct b|]; cbn; case_decide; lia.
  - rewrite run_bind. pose proof (call_users x w) as Hf.
    destruct (call x w) as [[b|e] w1]; intros [= <- <-]; exists c; (split; [by eapply standing_same|]);
      cbn; case_decide; lia.
  - rewrite run_bind. destruct (settle _ x o w) as [[b|e] w1] eqn:E;
      destruct (settle_account _ _ _ _ _ _ _ Hst E) as (c' & Hst' & Hc'); intros [= <- <-]; exists c';
      (split; [done|]); [destruct b|]; cbn; case_decide; lia.
  - rewrite run_bind. pose proof (finish_users job cands n w) as Hf.
    destruct (finish _ _ _ w) as [[b|e] w1]; intros [= <- <-]; exists c; (split; [by eapply standing_same|]);
      cbn; case_decide; lia.
  - intros [= <- <-]. exists c. split; [done|]. cbn. case_decide; lia.
Qed.

Lemma spent_ok_step b s s' : spent_ok b s → pool_step s s' → spent_ok b s'.
Proof.
  assert (Hnew : ∀ l1 job c p l2 p' w w' cr cr',
    standing w cr → total (λ p, delivered p + held p) (l1 ++ (job, c, p) :: l2) + cr ≤ b →
    standing w' cr' → claim job p' + cr' ≤ claim job p + cr →
    spent_ok b (l1 ++ (job, c, p') :: l2, w')).
  { intros l1 job c p l2 p' w w' cr cr' _ Htot (Hk & Hl & Hc & Hpos) Hcl. split; [done|]. split; [done|].
    exists cr'. split_and!; [done|done|]. cbn [fst]. rewrite total_app in *. cbn in *.
    unfold total in *. unfold of_account in *. cbn [fst snd] in *. unfold claim in Hcl. lia. }
  intros (Hk & Hl & cr & Hcr & Hpos & Htot) Hs.
  assert (Hst : standing s.2 cr) by by split_and!.
  destruct Hs as [l1 job c p l2 w p' w' Hm|l1 job c p l2 w e w' n Hm Hn|ws w w' (Hk' & Hc' & Hl')];
    cbn [fst snd] in *.
  - destruct (micro_account _ _ _ _ _ _ _ Hst Hm) as (c' & Hst' & Hc').
    apply (Hnew l1 job c p l2 p' w w' cr c'); assumption.
  - destruct (micro_account _ _ _ _ _ _ _ Hst Hm) as (c' & Hst' & Hc').
    assert (n = delivered p) as -> by (destruct p; exact Hn).
    apply (Hnew l1 job c p l2 _ w _ cr c'); [exact Hst|exact Htot| |].
    + eapply standing_same; [|exact Hst']. apply (setStatus_users (aj_jobId job) FAILED w').
    + unfold claim at 1. cbn. case_decide; lia.
  - split; [done|]. split; [cbn [snd]; by rewrite Hl'|]. exists cr. cbn [fst snd]. split_and!; [by rewrite Hc'|done|done].
Qed.
End pool.

(** C25. No interleaving of searches overspends an account: start any number
    of searches, of any accounts, at any point of their first candidate; let
    their steps interleave in any order, each failing or not, with anything in
    between that leaves the account's own row alone.  Then the leads delivered
    to an account that pays by credits, the credits reserved for calls in
    flight and its balance never exceed the balance it started with, and the
    balance is never negative. *)
Theorem no_overspend {cfg : config} `{Entropy, ApolloApi} u b ws0 w0 ws w :
  keyed u_id (db_users (w_db w0)) → exempt <$> row w0 u = Some false →
  credits_of w0 u = Some b → 0 ≤ b →
  Forall (λ x : worker, ∃ todo, x.2 = AtCheck todo 0) ws0 →
  star (pool_step u) (ws0, w0) (ws, w) →
  ∃ c, credits_of w u = Some c ∧ 0 ≤ c ∧ total u delivered ws + total u held ws + c ≤ b.
Proof.
  intros Hk Hl Hc Hb Hws Hstar.
  assert (spent_ok u b (ws, w)) as (_ & _ & c & Hc' & Hpos & Htot).
  { eapply (star_invariant (pool_step u) (spent_ok u b)); [apply spent_ok_step|exact Hstar|].
    split; [done|]. split; [done|]. exists b. split_and!; [done|done|]. cbn [fst].
    enough (total u (λ p, delivered p + held p) ws0 = 0) by lia. clear Hstar.
    induction Hws as [|x l (todo & Hx) _ IH]; cbn; [done|]. unfold total in *. rewrite IH.
    unfold of_account. rewrite Hx. cbn. case_decide; lia. }
  exists c. split_and!; [done|done|]. cbn [fst] in Htot.
  enough (total u (λ p, delivered p + held p) ws = total u delivered ws + total u held ws) by lia.
  clear. induction ws as [|x l IH]; cbn; [done|]. unfold total in *. rewrite IH.
  unfold of_account. case_decide; lia.
Qed.

(** ** Cancelling *)
Definition jobs (w : world) : gmap string search_job := db_leadSearchJobs (w_db w).
Definition results (w : world) : gmap string search_result := db_leadSearchResults (w_db w).

(** A search whose job is CANCELLED when it reaches its next candidate
    ends there: it makes no further Apollo call, spends no credit, leaves the
    job CANCELLED and leaves none of its results pending. *)
Lemma cancelled_search_stops {cfg : config} `{Entropy, ApolloApi} job cands r todo n w j :
  jobs w !! aj_jobId job = Some j → j_status j = CANCELLED →
  ∃ w', micro job cands (AtCheck (r :: todo) n) w = (Ok (Ended n), w') ∧
    w_apollo w' = w_apollo w ∧ db_users (w_db w') = db_users (w_db w) ∧ jobs w' = jobs w ∧
    (∀ k x, results w' !! k = Some x → r_jobId x = aj_jobId job → r_status x ≠ "pending") ∧
    (∀ k x, results w !! k = Some x → r_jobId x = aj_jobId job → r_status x = "pending" →
       results w' !! k = Some (set_r_status "skipped" x)).
Proof.
  intros Hj Hst. cbn [micro]. rewrite run_bind. unfold check, db_find, gets. rewrite run_bind.
  cbn [t_get T_leadSearchJobs]. fold (jobs w). rewrite Hj. cbn [fmap option_fmap option_map].
  rewrite Hst, bool_decide_eq_true_2 by done.
  unfold skipPending. rewrite run_bind, run_bind. unfold db_update_many. cbv zeta.
  eexists. split; [reflexivity|]. split_and!; try done; intros k x Hk Hjob.
  - unfold results in *. cbn in Hk. destruct (lookup_update_where_Some _ _ _ _ _ Hk) as (x0 & Hx0 & ->).
    unfold pending_of, Leads.of_job, seq_b in *. case_match eqn:E; [done|]. intros Hp.
    rewrite !bool_decide_eq_true_2 in E by done. done.
  - intros Hp. unfold results in *. cbn. rewrite lookup_update_where, Hk. cbn.
    unfold pending_of, Leads.of_job, seq_b. by rewrite !bool_decide_eq_true_2.
Qed.

(** A cancellation that arrives during the last candidate is lost: the
    search is past its last check, so it finishes, and the job the user
    cancelled ends up COMPLETED. *)
Theorem late_cancel_is_overwritten {cfg : config} `{Entropy, ApolloApi} job cands n w j userId w1 :
  Leads.cancelSearchJob userId (aj_jobId job) w = (Ok j, w1) → j_status j = CANCELLED →
  user_exists (w_db w) (aj_userId job) = true →
  ∃ w2 j2, star (micro_step job cands) (AtCheck [] n, w1) (Ended n, w2) ∧
    jobs w2 !! aj_jobId job = Some j2 ∧ j_status j2 = COMPLETED.
Proof.
  intros Hc Hst Hu.
  assert (Hw1 : jobs w1 !! aj_jobId job = Some j ∧ user_exists (w_db w1) (aj_userId job) = true).
  { unfold Leads.cancelSearchJob in Hc. rewrite run_bind in Hc. unfold Leads.own_job, db_find, gets in Hc.
    rewrite run_bind in Hc. cbn [t_get T_leadSearchJobs] in Hc.
    destruct (_ !! aj_jobId job) as [j0|] eqn:Hj0; [|done].
    destruct (seq_b _ _); [|done]. cbn [mret M_ret] in Hc. case_bool_decide.
    - apply db_update_inv in Hc as (r0 & Hr0 & -> & ->). split; [|exact Hu].
      unfold jobs. cbn. by rewrite lookup_insert_eq.
    - by injection Hc as <- <-. }
  destruct Hw1 as [Hj Hu1].
  assert (Hf : ∃ w2, finish job cands n w1 = (Ok tt, w2) ∧
    jobs w2 = <[aj_jobId job := set_j_status COMPLETED j]> (jobs w1)).
  { unfold finish, setStatus. rewrite run_bind, run_bind. unfold db_update. cbv zeta.
    cbn [t_get T_leadSearchJobs]. fold (jobs w1). rewrite Hj. cbn [mret M_ret]. unfold auditSearch.
    rewrite Audit.record_run by (by intros k [= <-]). eexists. split; [reflexivity|]. done. }
  destruct Hf as (w2 & Hf & Hjobs). exists w2, (set_j_status COMPLETED j). split.
  - eapply star_next; [by constructor|]. eapply star_next; [|apply star_here].
    constructor. cbn [micro]. by rewrite run_bind, Hf.
  - rewrite Hjobs, lookup_insert_eq. done.
Qed.

(** ** Apollo calls *)
Definition calls_at_most {A} (k : nat) (m : M A) : Prop :=
  ∀ w, (length (w_apollo (m w).2) ≤ length (w_apollo w) + k)%nat.
Lemma calls_frame {A} (m : M A) : respects (same w_apollo) m → calls_at_most 0 m.
Proof. intros Hm w. rewrite (Hm w). lia. Qed.
Lemma calls_bind {A B} k1 k2 (m : M A) (f : A → M B) :
  calls_at_most k1 m → (∀ w a w', m w = (Ok a, w') → calls_at_most k2 (f a)) →
  calls_at_most (k1 + k2) (m ≫= f).
Proof.
  intros Hm Hf w. rewrite run_bind. specialize (Hm w).
  destruct (m w) as [[a|e] w1] eqn:E; cbn in *; [|lia].
  specialize (Hf w a w1 E w1). lia.
Qed.
Lemma calls_try {A} k1 k2 (m : M A) h :
  calls_at_most k1 m → (∀ e, calls_at_most k2 (h e)) → calls_at_most (k1 + k2) (try_catch m h).
Proof.
  intros Hm Hh w. unfold try_catch. specialize (Hm w). destruct (m w) as [[a|e] w1]; cbn in *; [lia|].
  specialize (Hh e w1). lia.
Qed.
Lemma calls_weaken {A} k k' (m : M A) : (k ≤ k')%nat → calls_at_most k m → calls_at_most k' m.
Proof. intros Hk Hm w. specialize (Hm w). lia. Qed.
Lemma calls_do {A} (answer : list apollo_call → A) c : calls_at_most 1 (apollo_do answer c).
Proof. intros w. unfold apollo_do. cbn. rewrite length_app. cbn. lia. Qed.

Section calls.
Context {cfg : config} `{Entropy, ApolloApi}.
Lemma match_calls body : calls_at_most 1 (Apollo.match_ body).
Proof.
  unfold Apollo.match_. apply (calls_bind 1 0); [apply calls_do|]. intros. apply calls_frame. frame_tac.
Qed.
Lemma searchPeople_calls f n : calls_at_most 1 (Apollo.searchPeople f n).
Proof.
  unfold Apollo.searchPeople. apply (calls_bind 1 0); [apply calls_do|].
  intros. apply calls_frame. frame_tac.
Qed.
Lemma enrichAll_calls j u rs n : calls_at_most (length rs) (enrichAll j u rs n).
Proof.
  revert n. induction rs as [|r rs IH]; intros n; cbn [enrichAll length]; [apply calls_frame; frame_tac|].
  apply (calls_bind 0 (S (length rs))).
  { apply calls_frame. unfold check, skipPending. frame_tac. }
  intros _ b _ _. destruct b; [apply (calls_weaken 0); [lia|apply calls_frame; frame_tac]|].
  apply (calls_bind 0 (S (length rs))).
  { apply calls_frame. unfold reserve, Leads.tryReserveCredit, Leads.hasUnlimitedLeadFinderAccess,
      skipPending. frame_tac. }
  intros _ b _ _. destruct b; cbn [negb]; [|apply (calls_weaken 0); [lia|apply calls_frame; frame_tac]].
  apply (calls_bind 1 (length rs)); [apply match_calls|]. intros _ o _ _.
  apply (calls_bind 0 (length rs)); [|intros; apply IH].
  apply calls_frame. unfold settle, Leads.refundCredit, Leads.hasUnlimitedLeadFinderAccess. frame_tac.
Qed.
Lemma createAll_calls j cs : calls_at_most 0 (createAll j cs).
Proof.
  apply calls_frame. induction cs as [|c cs IH]; cbn [createAll]; [frame_tac|].
  unfold createPending. respects_step; [frame_tac|]. respects_step; [exact IH|frame_tac].
Qed.
Lemma createAll_length j cs w rs w' : createAll j cs w = (Ok rs, w') → length rs = length cs.
Proof.
  revert w rs. induction cs as [|c cs IH]; intros w rs; cbn [createAll]; [by intros [= <- <-]|].
  rewrite run_bind. destruct (createPending j c w) as [[r|e] w1]; [|done].
  rewrite run_bind. destruct (createAll j cs w1) as [[rs'|e] w2] eqn:E; [|done].
  intros [= <- <-]. cbn. by rewrite (IH _ _ E).
Qed.
Lemma search_length job w cs w' : search job w = (Ok cs, w') → (length cs ≤ Z.to_nat (aj_cap job))%nat.
Proof.
  unfold search. rewrite run_bind. destruct (Apollo.searchPeople _ _ w) as [[f|e] w1]; [|done].
  intros [= <- <-]. unfold select. rewrite length_firstn. lia.
Qed.
End calls.

(** What a search may cost: however it ends, running a search job makes
    at most one search call and [cap] match calls, and a direct lookup makes
    one call. *)
Theorem search_cost {cfg : config} `{Entropy, ApolloApi} job :
  calls_at_most (match Leads.personName (aj_filters job) with
                 | Some _ => 1
                 | None => 1 + Z.to_nat (aj_cap job)
                 end) (process job).
Proof.
  unfold process.
  assert (Hset : ∀ st, calls_at_most 0 (setStatus (aj_jobId job) st))
    by (intros st; apply calls_frame; unfold setStatus; frame_tac).
  destruct (Leads.personName _) as [name|].
  - apply (calls_try 1 0); [|done]. unfold processDirectMatch.
    apply (calls_bind 0 1).
    { apply calls_frame. unfold Leads.tryReserveCredit, Leads.hasUnlimitedLeadFinderAccess. frame_tac. }
    intros _ b _ _. destruct b; cbn [negb]; [|by apply (calls_weaken 0); [lia|]].
    apply (calls_bind 1 0); [apply match_calls|]. intros. apply calls_frame.
    unfold setStatus, auditSearch, Leads.refundCredit, Leads.hasUnlimitedLeadFinderAccess. frame_tac.
  - replace (1 + Z.to_nat (aj_cap job))%nat with (1 + Z.to_nat (aj_cap job) + 0)%nat by lia.
    apply calls_try; [|done]. apply (calls_bind 1).
    { unfold search. apply (calls_bind 1 0); [apply searchPeople_calls|]. intros. apply calls_frame. frame_tac. }
    intros w cs w' Hcs. apply search_length in Hcs. destruct cs as [|c cs].
    { apply (calls_weaken 0); [lia|done]. }
    apply (calls_bind 0 (Z.to_nat (aj_cap job))); [apply createAll_calls|].
    intros w2 rs w3 Hrs. apply createAll_length in Hrs.
    apply (calls_weaken (length rs + 0)); [lia|]. apply calls_bind; [apply enrichAll_calls|].
    intros _ o _ _. apply calls_frame. unfold finish, setStatus, auditSearch. frame_tac.
Qed.


(** ** A schedule, executed *)
Section schedule.
Context {cfg : config} `{Entropy, ApolloApi} (u : string).
(** The [k]-th search takes its next step. *)
Definition advance (k : nat) (s : list worker * world) : option (list worker * world) :=
  match s.1 !! k with
  | Some (job, c, p) =>
      match micro job c p s.2 with
      | (Ok p', w') => Some (<[k := (job, c, p')]> s.1, w')
      | _ => None
      end
  | None => None
  end.
Fixpoint advances (ks : list nat) (s : list worker * world) : option (list worker * world) :=
  match ks with [] => Some s | k :: ks => s' ← advance k s; advances ks s' end.
Lemma advance_step k s s' : advance k s = Some s' → pool_step u s s'.
Proof.
  destruct s as [ws w]. unfold advance. cbn [fst snd].
  destruct (ws !! k) as [[[job c] p]|] eqn:Hk; [|done].
  destruct (micro job c p w) as [[p'|e] w'] eqn:Hm; [|done]. intros [= <-].
  assert (Hlt : (k < length ws)%nat) by by eapply lookup_lt_Some.
  rewrite (insert_take_drop ws k) by done.
  rewrite <- (take_drop_middle ws k (job, c, p) Hk) at 1. by apply pool_micro.
Qed.
Lemma advances_star ks s s' : advances ks s = Some s' → star (pool_step u) s s'.
Proof.
  revert s. induction ks as [|k ks IH]; intros s; cbn; [intros [= <-]; apply star_here|].
  destruct (advance k s) as [s1|] eqn:E; [|done]. intros Hs.
  eapply star_next; [by eapply advance_step|by apply IH].
Qed.
End schedule.

(** ** Searches end *)
Section termination.
Context {cfg : config} `{Entropy, ApolloApi} (u : string).

(** The steps a search has left: four a candidate, then the bookkeeping. *)
Definition steps_left (p : phase) : nat :=
  match p with
  | AtCheck todo _ => 4 * length todo + 2
  | AtReserve _ todo _ => 4 * length todo + 5
  | AtCall _ todo _ => 4 * length todo + 4
  | AtSettle _ _ todo _ => 4 * length todo + 3
  | AtFinish _ => 1
  | Ended _ => 0
  end.
Definition work (ws : list worker) : nat := sum_list_with (λ x, steps_left x.2) ws.
Definition over (p : phase) : bool := match p with Ended _ => true | _ => false end.
(** A step of a search that is not over. *)
Inductive busy_step : list worker * world → list worker * world → Prop :=
| busy_micro l1 job c p l2 w p' w' :
    over p = false → micro job c p w = (Ok p', w') →
    busy_step (l1 ++ (job, c, p) :: l2, w) (l1 ++ (job, c, p') :: l2, w')
| busy_fails l1 job c p l2 w e w' :
    over p = false → micro job c p w = (Err e, w') →
    busy_step (l1 ++ (job, c, p) :: l2, w)
      (l1 ++ (job, c, Ended (delivered p)) :: l2, (setStatus (aj_jobId job) FAILED w').2).
Lemma busy_in_pool s s' : busy_step s s' → pool_step u s s'.
Proof. destruct 1; [by apply pool_micro|]. eapply pool_fails; [eassumption|]. by destruct p. Qed.
(** Any interleaving, counting those steps. *)
Inductive interleaved : nat → list worker * world → list worker * world → Prop :=
| inter_here s : interleaved 0 s s
| inter_idle n s s1 s' : pool_step u s s1 → interleaved n s1 s' → interleaved n s s'
| inter_busy n s s1 s' : busy_step s s1 → interleaved n s1 s' → interleaved (S n) s s'.

Lemma micro_decreases job c p w p' w' :
  over p = false → micro job c p w = (Ok p', w') → (steps_left p' < steps_left p)%nat.
Proof.
  intros Hp. destruct p as [[|x todo] n|x todo n|x todo n|x got todo n|n|n]; try discriminate Hp; cbn [micro];
    try (intros [= <- <-]; cbn; lia); rewrite run_bind.
  - destruct (check _ w) as [[[|]|e] w1]; [| |done]; intros [= <- <-]; cbn; lia.
  - destruct (reserve _ _ w) as [[[|]|e] w1]; [| |done]; intros [= <- <-]; cbn; lia.
  - destruct (settle _ x got w) as [[b|e] w1]; [|done]; intros [= <- <-]; cbn; lia.
  - destruct (finish job c n w) as [[b|e] w1]; [|done]; intros [= <- <-]; cbn; lia.
Qed.
Lemma work_at l1 x l2 : work (l1 ++ x :: l2) = (work l1 + (steps_left x.2 + work l2))%nat.
Proof. unfold work. by rewrite sum_list_with_app. Qed.
Lemma over_nothing_left p : over p = true ↔ steps_left p = 0%nat.
Proof. destruct p; cbn; split; try done; lia. Qed.
Lemma all_over ws : work ws = 0%nat ↔ Forall (λ x : worker, over x.2 = true) ws.
Proof.
  induction ws as [|x ws IH]; cbn; [done|]. rewrite Forall_cons, over_nothing_left, <- IH. unfold work. lia.
Qed.
Lemma ended_or_busy p : p = Ended (delivered p) ∨ over p = false.
Proof. destruct p; cbn; auto. Qed.
Lemma work_step s s' : pool_step u s s' → (work s'.1 ≤ work s.1)%nat.
Proof.
  destruct 1 as [l1 job c p l2 w p' w' Hm|l1 job c p l2 w e w' n Hm Hn|]; cbn [fst]; [..|done];
    rewrite !work_at; cbn [snd]; [|cbn [steps_left]; lia].
  destruct (ended_or_busy p) as [E|Hp]; [|pose proof (micro_decreases _ _ _ _ _ _ Hp Hm); lia].
  rewrite E in Hm |- *. injection Hm as <- <-. lia.
Qed.
Lemma busy_decreases s s' : busy_step s s' → (work s'.1 < work s.1)%nat.
Proof.
  destruct 1 as [l1 job c p l2 w p' w' Hp Hm|l1 job c p l2 w e w' Hp Hm]; cbn [fst];
    rewrite !work_at; cbn [snd].
  - pose proof (micro_decreases _ _ _ _ _ _ Hp Hm). lia.
  - destruct p; try discriminate Hp; cbn; lia.
Qed.
(** A search that is not over is never stuck: its next step is taken or fails. *)
Lemma busy_enabled ws w : work ws ≠ 0%nat → ∃ s', busy_step (ws, w) s'.
Proof.
  intros Hw. destruct (decide (Exists (λ x : worker, over x.2 = false) ws)) as [Hx|Hno].
  - apply Exists_exists in Hx as ([[job c] p] & Hin & Hp). apply list_elem_of_split in Hin as (l1 & l2 & ->).
    destruct (micro job c p w) as [[p'|e] w'] eqn:Hm; eexists; [by eapply busy_micro|by eapply busy_fails].
  - destruct Hw. apply all_over. apply not_Exists_Forall in Hno; [|apply _].
    eapply Forall_impl; [exact Hno|]. intros x. cbn. by destruct (over x.2).
Qed.
Lemma interleaved_bound n s s' : interleaved n s s' → (n + work s'.1 ≤ work s.1)%nat.
Proof.
  induction 1 as [s|n s s1 s' Hs _ IH|n s s1 s' Hs _ IH]; [done|apply work_step in Hs|apply busy_decreases in Hs]; lia.
Qed.
Lemma busy_to_end ws w : ∃ n s', interleaved n (ws, w) s' ∧ work s'.1 = 0%nat.
Proof.
  remember (work ws) as k eqn:Ek. revert ws w Ek. induction (lt_wf k) as [k _ IH]. intros ws w ->.
  destruct (decide (work ws = 0%nat)) as [E|Hne]; [exists 0%nat, (ws, w); split; [constructor|done]|].
  destruct (busy_enabled ws w Hne) as [[ws1 w1] Hs].
  destruct (IH (work ws1) (busy_decreases _ _ Hs) ws1 w1 eq_refl) as (n & s' & Hn & Hend).
  exists (S n), s'. split; [by eapply inter_busy|done].
Qed.

(** Searches about to look at their candidates. *)
Definition started (l : list (apollo_job * Z * list search_result)) : list worker :=
  map (λ x, (x.1.1, x.1.2, AtCheck x.2 0)) l.
Lemma work_started l : work (started l) = sum_list_with (λ x, 4 * length x.2 + 2)%nat l.
Proof. unfold work, started. induction l as [|x l IH]; [done|]. cbn [map]. cbn in *. lia. Qed.

End termination.

(** ** Witnesses *)

(** An Apollo that always finds Jane Doe. *)
Definition jane_apollo : ApolloApi := {|
  apollo_search h := Body (Some [SearchPerson "p1" (Some "Jane") (Some "D.") None None]);
  apollo_match h := Body (Some (MatchPerson (Some "Jane Doe") None None None None (Some "jane@example.com")))
|}.
Section witnesses.
#[local] Existing Instance default_config.
#[local] Existing Instances counter_entropy jane_apollo.
Definition no_filters : apollo_filters :=
  Mk_apollo_filters None None None None None None None None None None None None None.
Definition job_of (id : string) : apollo_job := Mk_apollo_job id "u1" no_filters 1 None.
Definition pending_row (id job : string) : search_result :=
  Mk_search_result id job "p1" (Some "Jane D.") None None None None "pending" "new" 0.
Definition searcher (credits : Z) : user :=
  set_u_leadFinderCredits credits (Users.new_user "u1" "ann@example.com" "Ann" "hash" None USER false false 0).
Definition running (id : string) : search_job := Mk_search_job id "u1" "campaign" [] (Some no_filters) RUNNING 0.
(** Two searches of one account that has one credit. *)
Definition searching (credits : Z) : world :=
  put_db (set_db_leadSearchResults {[ "r1" := pending_row "r1" "j1"; "r2" := pending_row "r2" "j2" ]}
    (set_db_leadSearchJobs {[ "j1" := running "j1"; "j2" := running "j2" ]}
      (set_db_users {[ "u1" := searcher credits ]} empty_db))) (initial_world 0).
Definition both : list worker :=
  [(job_of "j1", 1, AtCheck [pending_row "r1" "j1"] 0); (job_of "j2", 1, AtCheck [pending_row "r2" "j2"] 0)].
(** Both check, both try to reserve, both go on to their end. *)
Definition raced : option (list worker * world) :=
  advances [0; 1; 0; 1; 0; 0; 1; 0; 0]%nat (both, searching 1).
Definition raced_end : list worker * world := default (both, searching 1) raced.
Lemma raced_run : raced = Some raced_end.
Proof. vm_compute. reflexivity. Qed.

Lemma no_overspend_witness :
  raced_end.1.*2 = [Ended 1; Ended 0] ∧
  ∃ c, credits_of raced_end.2 "u1" = Some c ∧ 0 ≤ c ∧
    total "u1" delivered raced_end.1 + total "u1" held raced_end.1 + c ≤ 1.
Proof.
  split; [vm_compute; reflexivity|].
  refine (no_overspend "u1" 1 both (searching 1) raced_end.1 raced_end.2 _ _ _ _ _ _).
  - apply keyed_check. vm_compute. reflexivity.
  - vm_compute. reflexivity.
  - vm_compute. reflexivity.
  - lia.
  - repeat constructor; eexists; reflexivity.
  - rewrite <- surjective_pairing. eapply advances_star. exact raced_run.
Defined.


(** The first job is cancelled before its candidate. *)
Definition cancelled_world : world := (Leads.cancelSearchJob "u1" "j1" (searching 1)).2.
Lemma cancelled_search_stops_witness :
  ∃ w', micro (job_of "j1") 1 (AtCheck [pending_row "r1" "j1"] 0) cancelled_world = (Ok (Ended 0), w') ∧
    w_apollo w' = [].
Proof.
  destruct (cancelled_search_stops (job_of "j1") 1 (pending_row "r1" "j1") [] 0 cancelled_world
    (set_j_status CANCELLED (running "j1"))) as (w' & Hm & Ha & _).
  - vm_compute. reflexivity.
  - reflexivity.
  - exists w'. split; [exact Hm|]. rewrite Ha. vm_compute. reflexivity.
Defined.
Lemma late_cancel_is_overwritten_witness :
  ∃ w2 j2, jobs w2 !! "j1" = Some j2 ∧ j_status j2 = COMPLETED.
Proof.
  destruct (late_cancel_is_overwritten (job_of "j1") 1 1 (searching 1) (set_j_status CANCELLED (running "j1"))
    "u1" cancelled_world) as (w2 & j2 & _ & Hj & Hs).
  - vm_compute. reflexivity.
  - reflexivity.
  - vm_compute. reflexivity.
  - exists w2, j2. split; [exact Hj|exact Hs].
Defined.
Definition whole_run : res unit * world :=
  (o ← enrichAll "j1" "u1" [pending_row "r1" "j1"] 0;
   match o with Cancelled => mret tt | Enriched n => finish (job_of "j1") 1 n end) (searching 1).
End witnesses.
