(* ===== verification/LeadsProps.v ===== *)
(** The limits of the Lead Finder: what a search request decides, the daily
    allowance of free accounts and of anonymous visitors, and what leaves the
    directory. *)
From S2P Require Import Prelude JsLib Crypto Schema Effects Platform Config Messaging Users Access Apollo Taxonomy Leads ApolloSearch ApolloSearchProps.

(** ** The state a request reads *)
Section decision.
Context {cfg : config} `{Entropy, ApolloApi, LocalTime}.

(** The account has paid for the Lead Finder. *)
Definition paid (u : string) (w : world) : bool :=
  from_option exempt false (row w u)
  || bool_decide (is_Some (find_row (Leads.bought_pack u) (db_creditGrants (w_db w))))
  || match find_row (Leads.live_of u) (db_leadFinderSubscriptions (w_db w)) with
     | Some s => Access.hasActiveAccess (w_now w) (lfs_status s) (lfs_pastDueSince s)
                   (PAYMENT_GRACE_PERIOD_DAYS cfg)
     | None => false
     end.
(** The searches the account started today. *)
Definition used_today (u : string) (w : world) : Z :=
  count_rows (Leads.searched_since u (start_of_day (w_now w))) (jobs w).
Definition max_results (u : string) (w : world) : Z :=
  if paid u w then LEAD_SEARCH_MAX_RESULTS cfg else Leads.freeTierMaxResultsPerSearch.

Lemma paid_run u w : Leads.hasPaidLeadFinderAccess u w = (Ok (paid u w), w).
Proof.
  unfold Leads.hasPaidLeadFinderAccess, paid. rewrite run_bind, unlimited_run.
  destruct (from_option exempt false (row w u)); [done|]. cbn [orb].
  unfold db_find_by, date_now, gets. rewrite !run_bind. cbn [t_get T_leadFinderSubscriptions T_creditGrants].
  cbn [mret M_ret]. set (g := find_row (Leads.bought_pack u) _).
  set (s := find_row (Leads.live_of u) _). by destruct g, s.
Qed.
Lemma free_tier_run u w :
  Leads.getFreeTierStatus u w =
  (Ok (if paid u w then Leads.FreeTier true (LEAD_SEARCH_MAX_RESULTS cfg) 0 4 None
       else Leads.FreeTier false 25 (used_today u w) 4 (Some (Z.max 0 (4 - used_today u w)))), w).
Proof.
  unfold Leads.getFreeTierStatus. rewrite run_bind, paid_run. by destruct (paid u w).
Qed.

(** The row and the job a search request creates. *)
Definition new_job (u : string) (dto : Taxonomy.ai_search) (w : world) : search_job :=
  Mk_search_job (rand_uuid (w_tick w)) u (Taxonomy.as_campaignName dto)
    (Taxonomy.as_personTitles dto ifnull []) (Some (Leads.of_dto dto)) RUNNING (w_now w).
Definition cap_of (u : string) (x : user) (w : world) : Z :=
  if exempt x then max_results u w else Z.min (u_leadFinderCredits x) (max_results u w).

Lemma aiSearch_allowed u dto w x :
  row w u = Some x → (exempt x = true ∨ 0 < u_leadFinderCredits x) →
  (paid u w = true ∨ used_today u w < 4) →
  jobs w !! rand_uuid (w_tick w) = None →
  Leads.aiSearch u dto w =
    let id := rand_uuid (w_tick w) in
    let w1 := put_rows T_leadSearchJobs (<[id := new_job u dto w]> (jobs w)) (put_tick (S (w_tick w)) w) in
    if w_redis_up w
    then (Ok id, put_apolloQueue (w_apolloQueue w ++ [Mk_apollo_job id u (Leads.of_dto dto) (cap_of u x w) None]) w1)
    else (Err NeverSettles, w1).
Proof.
  intros Hx Hcr Hfree Hfresh. unfold Leads.aiSearch, db_find, gets. rewrite run_bind.
  cbn [t_get T_users]. change (db_users (w_db w) !! u) with (row w u). rewrite Hx. cbn [Leads.orThrow].
  rewrite run_bind. cbn [mret M_ret]. rewrite run_bind, unlimited_run, Hx. cbn [from_option].
  assert (negb (exempt x) && (u_leadFinderCredits x <=? 0) = false) as ->.
  { destruct (exempt x); [done|]. cbn. destruct Hcr as [?|?]; [done|]. by apply Z.leb_gt. }
  rewrite run_bind, free_tier_run.
  set (ft := if paid u w then _ else _).
  assert (negb (Leads.ft_isPaidTier ft) && bool_decide (Leads.ft_searchesRemainingToday ft = Some 0) = false) as ->.
  { unfold ft. destruct (paid u w); [done|]. cbn. destruct Hfree as [?|?]; [done|].
    apply bool_decide_eq_false_2. intros [=]. lia. }
  assert (Hmax : Leads.ft_maxResultsPerSearch ft = max_results u w)
    by (unfold ft, max_results; by destruct (paid u w)).
  unfold random_uuid, draw. rewrite run_bind, run_bind. cbn [mret M_ret].
  unfold date_now, gets. rewrite run_bind, run_bind.
  rewrite db_create_run; [|exact Hfresh| |].
  2:{ apply has_conflict_false. by intros. }
  2:{ cbn. unfold user_exists, exists_in. apply bool_decide_eq_true. by exists x. }
  rewrite Hmax, run_bind. unfold apolloQueue_add, queue_push.
  change (w_redis_up (put_rows _ _ _)) with (w_redis_up w).
  destruct (w_redis_up w); done.
Qed.
Lemma aiSearch_refused u dto w x :
  row w u = Some x →
  (exempt x = false ∧ u_leadFinderCredits x ≤ 0) ∨ (paid u w = false ∧ 4 ≤ used_today u w) →
  ∃ m, Leads.aiSearch u dto w = (Err (Http 403 m), w).
Proof.
  intros Hx Hor. unfold Leads.aiSearch, db_find, gets. rewrite run_bind.
  cbn [t_get T_users]. change (db_users (w_db w) !! u) with (row w u). rewrite Hx. cbn [Leads.orThrow].
  rewrite run_bind. cbn [mret M_ret]. rewrite run_bind, unlimited_run, Hx. cbn [from_option].
  destruct (negb (exempt x) && (u_leadFinderCredits x <=? 0)) eqn:E; [by eexists|].
  destruct Hor as [[Hex Hc]|[Hp Hu]].
  { rewrite Hex, (proj2 (Z.leb_le _ _) Hc) in E. done. }
  rewrite run_bind, free_tier_run, Hp. cbn [Leads.ft_isPaidTier Leads.ft_searchesRemainingToday negb].
  rewrite bool_decide_eq_true_2 by (f_equal; lia). by eexists.
Qed.
End decision.

(** C28. What a search request decides. Without credits (and no exemption),
    or, on the free tier, after four searches today, it is a 403 and changes
    nothing. Otherwise it creates one RUNNING job of the account with the
    confirmed filters and, while Redis answers, queues exactly one run of it,
    whose cap is positive and exceeds neither the balance of a paying account
    nor the tier's limit. While Redis does not answer the request never
    settles, and the job stays behind as RUNNING. *)
Theorem aiSearch_decision {cfg : config} `{Entropy, ApolloApi, LocalTime} u dto w x :
  envValidation cfg = true → row w u = Some x → jobs w !! rand_uuid (w_tick w) = None →
  if (exempt x || (0 <? u_leadFinderCredits x)) && (paid u w || (used_today u w <? 4)) then
    ∃ r w' id, Leads.aiSearch u dto w = (r, w') ∧ jobs w' = <[id := new_job u dto w]> (jobs w) ∧
      w_apollo w' = w_apollo w ∧
      (if w_redis_up w then
         r = Ok id ∧ ∃ cap, w_apolloQueue w' = w_apolloQueue w ++ [Mk_apollo_job id u (Leads.of_dto dto) cap None] ∧
           0 < cap ∧ cap ≤ max_results u w ∧ (exempt x = false → cap ≤ u_leadFinderCredits x)
       else r = Err NeverSettles ∧ w_apolloQueue w' = w_apolloQueue w)
  else ∃ m, Leads.aiSearch u dto w = (Err (Http 403 m), w).
Proof.
  intros Hcfg Hx Hfresh. pose proof (cfg_max_results cfg Hcfg) as Hmax.
  destruct (_ && _) eqn:E.
  - apply andb_true_iff in E as [E1 E2]. apply orb_true_iff in E1, E2.
    rewrite Z.ltb_lt in E1, E2. rewrite (aiSearch_allowed u dto w x Hx E1 E2 Hfresh). cbv zeta.
    assert (Hpos : 0 < max_results u w) by (unfold max_results, Leads.freeTierMaxResultsPerSearch; case_match; lia).
    destruct (w_redis_up w); eexists _, _, (rand_uuid (w_tick w)); split_and!; try reflexivity.
    eexists. split; [reflexivity|]. unfold cap_of.
    destruct (exempt x); [split_and!; [lia|lia|done]|]. destruct E1 as [?|?]; [done|].
    split_and!; [lia|lia|intros _; lia].
  - apply (aiSearch_refused u dto w x Hx). apply andb_false_iff in E as [E|E];
      apply orb_false_iff in E as [Ea Eb]; apply Z.ltb_ge in Eb; [by left|by right].
Qed.

(** ** The free tier *)
Lemma aiSearch_jobs {cfg : config} `{Entropy, ApolloApi, LocalTime} u dto w :
  paid u w = false →
  w_now (Leads.aiSearch u dto w).2 = w_now w ∧
  (jobs (Leads.aiSearch u dto w).2 = jobs w ∨
   used_today u w < 4 ∧ ∃ k j, jobs (Leads.aiSearch u dto w).2 = <[k := j]> (jobs w)).
Proof.
  intros Hp. destruct (row w u) as [x|] eqn:Hx; last first.
  { unfold Leads.aiSearch, db_find, gets. rewrite run_bind.
    cbn [t_get T_users]. change (db_users (w_db w) !! u) with (row w u). rewrite Hx. cbn. auto. }
  destruct ((exempt x || (0 <? u_leadFinderCredits x)) && (used_today u w <? 4)) eqn:E; last first.
  { destruct (aiSearch_refused u dto w x Hx) as [m ->]; [|by auto].
    apply andb_false_iff in E as [[Ea Eb]%orb_false_iff|Eb]; apply Z.ltb_ge in Eb; [by left|by right]. }
  apply andb_true_iff in E as [E1 E2]. apply orb_true_iff in E1. rewrite Z.ltb_lt in E1, E2.
  destruct (jobs w !! rand_uuid (w_tick w)) eqn:Hfresh; last first.
  { rewrite (aiSearch_allowed u dto w x Hx E1 (or_intror E2) Hfresh). cbv zeta.
    destruct (w_redis_up w); (split; [done|]); right; (split; [done|]); eauto. }
  split.
  - enough (respects (same w_now) (Leads.aiSearch u dto)) as Hf by apply (Hf w).
    unfold Leads.aiSearch, Leads.hasUnlimitedLeadFinderAccess, Leads.getFreeTierStatus,
      Leads.hasPaidLeadFinderAccess, Leads.hasUnlimitedLeadFinderAccess, Leads.startOfToday. frame_tac.
  - (* the drawn key is taken: nothing is created *)
    left. unfold Leads.aiSearch, db_find, gets. rewrite run_bind.
    cbn [t_get T_users]. change (db_users (w_db w) !! u) with (row w u). rewrite Hx. cbn [Leads.orThrow].
    rewrite run_bind. cbn [mret M_ret]. rewrite run_bind, unlimited_run.
    destruct (_ && _); [done|]. rewrite run_bind, free_tier_run. destruct (_ && _); [done|].
    unfold random_uuid, draw. rewrite run_bind, run_bind. cbn [mret M_ret].
    unfold date_now, gets. rewrite run_bind, run_bind. unfold db_create. cbv zeta.
    cbn [t_get T_leadSearchJobs w_db put_tick]. fold (jobs w). unfold exists_in.
    rewrite Hfresh, bool_decide_eq_true_2 by by eexists. done.
Qed.


(** ** Anonymous visitors *)
Section anonymous.
Context {cfg : config} `{Entropy, ApolloApi, ClaudeApi, LocalTime}.

(** The part of a search that is past the limit. *)
Lemma demo_calls ip q : calls_at_most 4 (Leads.anonymousSearch ip q).
Proof.
  unfold Leads.anonymousSearch. apply (calls_bind 0 4).
  { apply calls_frame. unfold Leads.checkAnonymousSearchLimit. frame_tac. }
  intros _ limit _ _. apply (calls_try 4 0); [|intros e; apply calls_frame; unfold Leads.busy; frame_tac].
  apply (calls_bind 0 4).
  { apply calls_frame. unfold Claude.parseApolloQuery. frame_tac. }
  intros _ p _ _. cbv zeta. destruct (Leads.personName _) as [name|].
  - apply (calls_weaken (1 + 0)); [lia|]. apply calls_bind; [apply match_calls|].
    intros. apply calls_frame. frame_tac.
  - apply (calls_bind 1 3); [apply searchPeople_calls|]. intros _ cs _ _.
    assert (Hfold : ∀ l acc, calls_at_most (length l) (fold_each l Leads.reveal_anonymous acc)).
    { induction l as [|c l IH]; intros acc; cbn [fold_each length]; [apply calls_frame; frame_tac|].
      apply (calls_bind 1 (length l)); [|intros; apply IH]. unfold Leads.reveal_anonymous.
      apply (calls_bind 1 0); [apply match_calls|]. intros. apply calls_frame. frame_tac. }
    apply (calls_bind 3 0); [|intros; apply calls_frame; frame_tac].
    eapply calls_weaken; [|apply Hfold]. rewrite length_firstn.
    unfold Leads.anonymousMaxResultsPerSearch. lia.
Qed.
Lemma demo_redis ip q limit w w1 :
  Leads.checkAnonymousSearchLimit ip w = (limit, w1) →
  w_redis (Leads.anonymousSearch ip q w).2 = w_redis w1.
Proof.
  intros Hc. unfold Leads.anonymousSearch. rewrite run_bind, Hc. destruct limit as [limit|e]; [|done].
  match goal with |- w_redis (?m w1).2 = _ => enough (respects (same w_redis) m) as Hf by apply (Hf w1) end.
  unfold Claude.parseApolloQuery, Apollo.matchByName, Apollo.match_, Apollo.searchPeople,
    Leads.reveal_anonymous, Apollo.enrichPerson, Apollo.match_, Leads.busy. frame_tac.
Qed.

(** The counter of the day: [v] searches so far, kept until midnight. *)
Definition counted (ip : string) (t mid v : Z) (w : world) : Prop :=
  if v =? 0 then
    match w_redis w !! Leads.anon_key ip with
    | None => True | Some (_, Some e) => e ≤ t | Some (_, None) => False
    end
  else ∃ e, w_redis w !! Leads.anon_key ip = Some (v, Some e) ∧ mid ≤ e.

Lemma seconds_until t : next_midnight t ≤ t + Leads.secondsUntilMidnight t * 1000.
Proof.
  unfold Leads.secondsUntilMidnight.
  pose proof (Z.div_mod (next_midnight t - t + 999) 1000 ltac:(lia)).
  pose proof (Z.mod_pos_bound (next_midnight t - t + 999) 1000 ltac:(lia)). lia.
Qed.

(** One visit counts, and goes on only while at most three were counted. *)
Lemma limit_counts ip v w :
  w_redis_up w = true → 0 ≤ v → counted ip (w_now w) (next_midnight (w_now w)) v w →
  ∃ r w', Leads.checkAnonymousSearchLimit ip w = (r, w') ∧
    counted ip (w_now w) (next_midnight (w_now w)) (v + 1) w' ∧ w_apollo w' = w_apollo w ∧
    (3 < v + 1 → ∃ e, r = Err e).
Proof.
  intros Hup Hv Hc. set (k := Leads.anon_key ip).
  assert (Hnz : (v + 1 =? 0) = false) by (apply Z.eqb_neq; lia).
  unfold Leads.checkAnonymousSearchLimit. fold k. rewrite run_bind. unfold try_catch at 1. rewrite run_bind.
  unfold redis_incr, redis_guard at 1. rewrite Hup. cbv zeta.
  unfold counted in *. fold k in Hc |- *. rewrite Hnz. destruct (v =? 0) eqn:Hz.
  - apply Z.eqb_eq in Hz as ->.
    assert (Hlive : redis_live w k = None).
    { unfold redis_live. destruct (w_redis w !! k) as [[x [e|]]|]; [|done|done].
      by rewrite (proj2 (Z.ltb_ge _ _) Hc). }
    rewrite Hlive. set (w1 := put_redis _ w). unfold date_now, gets. rewrite run_bind. cbn [Z.eqb Pos.eqb when].
    rewrite run_bind. unfold redis_expire, redis_guard. change (w_redis_up w1) with (w_redis_up w).
    rewrite Hup. unfold modify.
    assert (Hlive1 : redis_live w1 k = Some 1).
    { unfold redis_live, w1. cbn. by rewrite lookup_insert_eq. }
    rewrite Hlive1. cbn [mret M_ret]. change (Leads.anonymousMaxSearchesPerDay <? 1) with false.
    eexists _, _. split; [reflexivity|]. split; [|split; [done|lia]].
    cbn. rewrite lookup_insert_eq. eexists. split; [done|]. apply seconds_until.
  - apply Z.eqb_neq in Hz. destruct Hc as (e & He & Hmid).
    pose proof (next_midnight_gt (w_now w)) as Hgt.
    assert (Hlive : redis_live w k = Some v).
    { unfold redis_live. rewrite He. by rewrite (proj2 (Z.ltb_lt _ _)) by lia. }
    rewrite Hlive, He. set (w1 := put_redis _ w). unfold date_now, gets. rewrite run_bind.
    rewrite (proj2 (Z.eqb_neq (v + 1) 1)) by lia. cbn [when mret M_ret]. rewrite run_bind.
    cbn [mret M_ret]. destruct (Leads.anonymousMaxSearchesPerDay <? v + 1) eqn:Hlim.
    + eexists _, _. split; [reflexivity|]. split; [|split; [done|eauto]].
      exists e. split; [|done]. cbn. by rewrite lookup_insert_eq.
    + eexists _, _. split; [reflexivity|]. split; [|split; [done|]].
      * exists e. split; [|done]. cbn. by rewrite lookup_insert_eq.
      * apply Z.ltb_ge in Hlim. unfold Leads.anonymousMaxSearchesPerDay in Hlim. lia.
Qed.

(** Visits of one address: when, whether Redis answers, and the query. *)
Definition visit (ip : string) (v : Z * bool * string) (w : world) : world :=
  (Leads.anonymousSearch ip v.2 (put_redis_up v.1.2 (put_now v.1.1 w))).2.
Fixpoint visits (ip : string) (l : list (Z * bool * string)) (w : world) : world :=
  match l with [] => w | v :: l => visits ip l (visit ip v w) end.

Lemma visits_calls ip t0 mid l v w base :
  0 ≤ v → counted ip t0 mid v w →
  Forall (λ x, t0 ≤ x.1.1 ∧ next_midnight x.1.1 = mid) l →
  Z.of_nat (length (w_apollo w)) ≤ base + 4 * Z.min v 3 →
  Z.of_nat (length (w_apollo (visits ip l w))) ≤ base + 12.
Proof.
  intros Hv Hc Hl. revert v w Hv Hc. induction Hl as [|[[t up] q] l [Ht Hm] _ IH]; intros v w Hv Hc Hb; cbn [visits].
  { lia. }
  cbn [fst snd] in *. unfold visit. cbn [fst snd]. set (w1 := put_redis_up up (put_now t w)).
  assert (Hc1 : counted ip t mid v w1).
  { unfold counted in *. change (w_redis w1) with (w_redis w). destruct (v =? 0); [|done].
    destruct (w_redis w !! _) as [[x [e|]]|]; [lia|done|done]. }
  destruct up.
  - destruct (limit_counts ip v w1) as (r & w2 & Hrun & Hc2 & Ha & Hlim);
      [done|done|by change (w_now w1) with t; rewrite Hm|].
    change (w_now w1) with t in Hc2. rewrite Hm in Hc2.
    pose proof (demo_redis ip q r w1 w2 Hrun) as Hred.
    apply (IH (v + 1)); [lia| |].
    + unfold counted in *. rewrite Hred. destruct (v + 1 =? 0) eqn:E; [apply Z.eqb_eq in E; lia|done].
    + pose proof (demo_calls ip q w1) as Hd. change (w_apollo w1) with (w_apollo w) in *.
      destruct (decide (3 < v + 1)) as [H3|H3]; [|lia].
      destruct (Hlim H3) as [e ->]. unfold Leads.anonymousSearch. rewrite run_bind, Hrun. cbn [snd].
      rewrite Ha. lia.
  - apply (IH v); [done| |].
    + unfold Leads.anonymousSearch, Leads.checkAnonymousSearchLimit, try_catch, redis_incr, redis_guard.
      rewrite !run_bind. cbn. unfold counted in *. cbn. destruct (v =? 0); [|done].
      destruct (w_redis w !! _) as [[x [e|]]|]; [|done|done]. lia.
    + unfold Leads.anonymousSearch, Leads.checkAnonymousSearchLimit, try_catch, redis_incr, redis_guard.
      rewrite !run_bind. cbn. lia.
Qed.
End anonymous.

(** C30. The anonymous demo has a hard daily cost: however many searches one
    address sends in one local day, with Redis up or down at each of them and
    whatever Claude and Apollo answer, they make at most twelve Apollo calls
    together (three searches of one search call and three match calls); a
    search sent while Redis is down makes none. *)
Theorem anonymous_daily_cost {cfg : config} `{Entropy, ApolloApi, ClaudeApi, LocalTime} ip l w :
  redis_live w (Leads.anon_key ip) = None →
  Forall (λ x : Z * bool * string, w_now w ≤ x.1.1 < next_midnight (w_now w)) l →
  (length (w_apollo (visits ip l w)) ≤ length (w_apollo w) + 12)%nat ∧
  (∀ q t, (Leads.anonymousSearch ip q (put_redis_up false (put_now t w))).2 = put_redis_up false (put_now t w)).
Proof.
  intros Hlive Hl. split.
  - enough (Z.of_nat (length (w_apollo (visits ip l w))) ≤ Z.of_nat (length (w_apollo w)) + 12) by lia.
    apply (visits_calls ip (w_now w) (next_midnight (w_now w)) l 0); [done| | |lia].
    + unfold counted. cbn. unfold redis_live in Hlive. destruct (w_redis w !! _) as [[x [e|]]|]; [|done|done].
      destruct (w_now w <? e) eqn:E; [done|]. by apply Z.ltb_ge in E.
    + eapply Forall_impl; [exact Hl|]. intros [[t up] q]. cbn. intros [H3 H4]. split; [done|].
      apply same_day. pose proof (start_of_day_le (w_now w)). lia.
  - intros q t. unfold Leads.anonymousSearch, Leads.checkAnonymousSearchLimit, try_catch, redis_incr, redis_guard.
    by rewrite !run_bind.
Qed.

(** ** Witnesses *)
Section witnesses.
#[local] Existing Instance default_config.
#[local] Existing Instances counter_entropy jane_apollo.
(** The sentence names nobody. *)
#[local] Instance any_claude : ClaudeApi := {|
  claude_create n request := Ok [TextBlock "Here you are."; ToolUseBlock (ClaudeInput (Some "CMOs") None None (Some ["CMO"]) None None None None)]
|}.
Definition cmos : Taxonomy.ai_search :=
  Taxonomy.AiSearch "CMOs" None None None (Some ["CMO"]) None None None None None None None None.
(** An account with [credits] and no search yet; Redis answers. *)
Definition fresh (credits : Z) : world :=
  put_redis_up true (put_db (set_db_users {[ "u1" := searcher credits ]} empty_db) (initial_world 0)).

Lemma aiSearch_decision_witness :
  ∃ r w' id, Leads.aiSearch "u1" cmos (fresh 2) = (r, w') ∧ r = Ok id ∧
    length (w_apolloQueue w') = 1%nat ∧ ∃ m, Leads.aiSearch "u1" cmos (fresh 0) = (Err (Http 403 m), fresh 0).
Proof.
  pose proof (aiSearch_decision "u1" cmos (fresh 2) (searcher 2) default_config_valid eq_refl
    ltac:(vm_compute; reflexivity)) as (r & w' & id & Hr & _ & _ & Hok & cap & Hq & _).
  pose proof (aiSearch_decision "u1" cmos (fresh 0) (searcher 0) default_config_valid eq_refl
    ltac:(vm_compute; reflexivity)) as [m Hm].
  exists r, w', id. split; [exact Hr|]. split; [exact Hok|]. split; [by rewrite Hq|]. exists m. exact Hm.
Defined.
(** Five searches within a second, Redis down at the second. *)
Definition five : list (Z * bool * string) :=
  [(0, true, "a"); (10, false, "b"); (20, true, "c"); (30, true, "d"); (40, true, "e")].
Lemma anonymous_daily_cost_witness :
  length (w_apollo (visits "1.2.3.4" five (fresh 0))) = 6%nat ∧
  (length (w_apollo (visits "1.2.3.4" five (fresh 0))) ≤ length (w_apollo (fresh 0)) + 12)%nat.
Proof.
  split; [vm_compute; reflexivity|].
  apply (anonymous_daily_cost "1.2.3.4" five (fresh 0)); [reflexivity|].
  repeat constructor; vm_compute; reflexivity || discriminate.
Defined.
End witnesses.
