(* ===== verification/Dto.v ===== *)
(** What the global ValidationPipe checks of each request: the decorators of
    the DTO classes (auth/dto, admin/dto, leads/dto, contact/dto, ...) as
    predicates on the decoded fields. A field of an enum is a value of the
    enum here; lengths count bytes. *)
From S2P Require Import Prelude JsLib Crypto Schema Effects Platform Taxonomy.

(** class-validator's formats. *)
Class IsEmail := { isEmail : string → bool }.
Class IsUrl := { isUrl : string → bool }.
Class IsUUID := { isUUID : string → bool }.

Module Dto.
(** [@MinLength], [@MaxLength]. *)
Definition longer (n : nat) (s : string) : bool := (n <=? String.length s)%nat.
Definition within (n : nat) (s : string) : bool := (String.length s <=? n)%nat.
Definition sized (lo hi : nat) (s : string) : bool := longer lo s && within hi s.
(** [@IsOptional]: the other checks apply to a value that is present. *)
Definition optional {A} (p : A → bool) (o : option A) : bool :=
  match o with Some a => p a | None => true end.
(** [@Min], [@Max]. *)
Definition between (lo hi n : Z) : bool := (lo <=? n) && (n <=? hi).

(** ** auth/dto, users/dto *)
Section auth.
Context `{IsEmail}.
Definition register (email password fullName : string) (phone : option string) (acceptedTerms : bool) : bool :=
  isEmail email && sized 8 72 password && sized 1 200 fullName && optional (within 30) phone && acceptedTerms.
Definition login (email password : string) : bool := isEmail email && longer 1 password.
Definition verifyLogin (code : string) : bool := sized 6 6 code.
Definition forgotPassword (email : string) : bool := isEmail email.
Definition resetPassword (newPassword : string) : bool := sized 8 72 newPassword.
Definition confirm2fa (code : string) : bool := sized 6 6 code.
Definition disable2fa (password : string) : bool := longer 1 password.
Definition deleteAccount (password : string) : bool := longer 1 password.
Definition updateProfile (fullName phone : option string) : bool :=
  optional (sized 1 200) fullName && optional (within 30) phone.

(** ** Mail, invitations, contact, checkout *)
Definition address (email : string) : bool := isEmail email && within 200 email.
Definition createInvite (email : string) : bool := address email.
Definition unsubscribe (email token : string) : bool := address email && within 200 token.
Definition contact (name email message : string) : bool :=
  sized 1 200 name && address email && sized 1 5000 message.
Definition createCreditsCheckout (quantity : Z) : bool := between 1 20 quantity.

(** ** admin/dto, prospect-campaign/dto *)
Definition pagination (page pageSize : Z) : bool := (1 <=? page) && between 1 100 pageSize.
Definition inviteUser (email : string) : bool := address email.
Definition inviteProspect (email : string) : bool := address email.
Definition sendTestEmail (email : string) : bool := address email.
End auth.
Definition listUsers (search : option string) : bool := optional (within 200) search.
Definition listProspects (search : option string) : bool := optional (within 200) search.
Definition suspendUser (reason : option string) : bool := optional (within 500) reason.
Definition listAuditLogs `{IsUUID} (action actorUserId targetId : option string) : bool :=
  optional (within 100) action && optional isUUID actorUserId && optional (within 200) targetId.
Definition listFlaggedSessions (minScore : Z) : bool := 0 <=? minScore.
Definition PITCH_TEMPLATES : list string := ["INTRO"; "VALUE"; "URGENCY"].
Definition pitchProspect (template : string) : bool := bool_decide (template ∈ PITCH_TEMPLATES).
Definition MAX_BULK_EMAILS : nat := Z.to_nat 50000.
Definition bulkInvite (emails : list string) : bool :=
  (1 <=? length emails)%nat && (length emails <=? MAX_BULK_EMAILS)%nat && forallb (within 200) emails.
Definition replyContactMessage (message : string) : bool := sized 1 5000 message.
Definition updateCampaignSettings (dailyCap : option Z) : bool := optional (between 1 1000) dailyCap.
Definition updateEmailTemplate (subject heading body ctaLabel footnote mailingAddress : option string) : bool :=
  optional (within 200) subject && optional (within 200) heading && optional (within 2000) body
  && optional (within 60) ctaLabel && optional (within 300) footnote && optional (within 300) mailingAddress.

(** ** leads/dto *)
Section leads.
Context `{IsEmail, IsUrl}.
Definition lead_fields (title company website linkedin appLink email phone : option string) : bool :=
  optional (within 200) title && optional (within 200) company
  && optional (λ s, isUrl s && within 500 s) website && optional (λ s, isUrl s && within 500 s) linkedin
  && optional (λ s, isUrl s && within 500 s) appLink && optional address email && optional (within 50) phone.
Definition createLead (name likelyToAttend : string)
    (title company website linkedin appLink email phone : option string) : bool :=
  within 200 name && within 200 likelyToAttend
  && lead_fields title company website linkedin appLink email phone.
Definition selfSubmitLead (name likelyToAttend : string)
    (title company website linkedin email phone : option string) : bool :=
  within 200 name && within 200 likelyToAttend
  && lead_fields title company website linkedin None email phone.
End leads.
Definition listLeads (likelyToAttend search : option string) : bool :=
  optional (within 200) likelyToAttend && optional (within 200) search.
Definition exportLeads (likelyToAttend search : option string) : bool := listLeads likelyToAttend search.
Definition previewLeads (search : string) : bool := sized 2 200 search.
Definition anonymousAiSearch (query : string) : bool := sized 3 300 query.
Definition parseQuery (query : string) (jobTitles : option (list string)) : bool :=
  sized 1 500 query && Taxonomy.at_most 20 jobTitles.
Definition suggestQuery (q : string) : bool := sized 1 100 q.
Definition REVIEW_STATUSES : list string := ["new"; "approved"; "skipped"].
Definition updateReviewStatus (reviewStatus : string) : bool := bool_decide (reviewStatus ∈ REVIEW_STATUSES).
End Dto.
