(* ===== verification/MailTemplate.v ===== *)
(** The pure parts of the e-mail side: the HTML shell and the escaping of
    untrusted text (email/email-template.util.ts), the default copy of the
    campaign (email/prospect-invite-template-defaults.ts), the signature of
    unsubscribe links (email/unsubscribe-token.util.ts), and the library
    functions they rely on. *)
From S2P Require Import Prelude JsLib Crypto Schema Effects Platform Config Messaging Users.

(** ** [encodeURIComponent] and its inverse, on UTF-8 bytes *)
Module Uri.
(** The characters left as they are. *)
Definition unreserved (c : ascii) : bool :=
  let n := Str.code c in
  ((65 <=? n) && (n <=? 90)) || ((97 <=? n) && (n <=? 122)) || ((48 <=? n) && (n <=? 57))
  || existsb (Ascii.eqb c) ["-"; "_"; "."; "!"; "~"; "*"; "'"; "("; ")"]%char.
Definition hex (n : Z) : ascii := Str.of_code (if n <? 10 then 48 + n else 55 + n).
Definition escape (c : ascii) : string :=
  String "%" (String (hex (Str.code c / 16)) (String (hex (Str.code c mod 16)) EmptyString)).
Definition encodeURIComponent : string → string :=
  Str.sbind (λ c, if unreserved c then String c EmptyString else escape c).
Definition unhex (c : ascii) : option Z :=
  let n := Str.code c in
  if (48 <=? n) && (n <=? 57) then Some (n - 48)
  else if (65 <=? n) && (n <=? 70) then Some (n - 55)
  else if (97 <=? n) && (n <=? 102) then Some (n - 87)
  else None.
(** [None]: a malformed escape ([URIError]). *)
Fixpoint decodeURIComponent (s : string) : option string :=
  match s with
  | EmptyString => Some EmptyString
  | String c s' =>
      if Ascii.eqb c "%" then
        match s' with
        | String a (String b s'') =>
            match unhex a, unhex b with
            | Some x, Some y => String (Str.of_code (x * 16 + y)) <$> decodeURIComponent s''
            | _, _ => None
            end
        | _ => None
        end
      else String c <$> decodeURIComponent s'
  end.
Example encode1 : encodeURIComponent "a+b@c.io é" = "a%2Bb%40c.io%20%C3%A9".
Proof. reflexivity. Qed.

Definition char_ok (c : ascii) : bool :=
  (unreserved c && negb (Ascii.eqb c "%"))
  || (negb (unreserved c) &&
      match unhex (hex (Str.code c / 16)), unhex (hex (Str.code c mod 16)) with
      | Some x, Some y => Ascii.eqb (Str.of_code (x * 16 + y)) c
      | _, _ => false
      end).
(** All 256 characters survive. *)
Lemma every_char_ok c : char_ok c = true.
Proof. destruct c as [[] [] [] [] [] [] [] []]; vm_compute; reflexivity. Qed.

Lemma decode_plain c s :
  Ascii.eqb c "%" = false → decodeURIComponent (String c s) = String c <$> decodeURIComponent s.
Proof.
  intros Hc. transitivity (if Ascii.eqb c "%" then decodeURIComponent (String c s)
                           else String c <$> decodeURIComponent s); [|by rewrite Hc].
  rewrite Hc. revert Hc. destruct c as [[] [] [] [] [] [] [] []]; (reflexivity || discriminate).
Qed.
Lemma uri_decode_encode s : decodeURIComponent (encodeURIComponent s) = Some s.
Proof.
  unfold encodeURIComponent. induction s as [|c s IH]; [done|]. cbn [Str.sbind].
  pose proof (every_char_ok c) as Hc. unfold char_ok in Hc.
  destruct (unreserved c) eqn:Hu; cbn [negb andb orb] in Hc.
  - rewrite orb_false_r in Hc. apply negb_true_iff in Hc.
    set (t := Str.sbind _ s) in *. change (String c EmptyString +:+ t) with (String c t).
    by rewrite decode_plain, IH.
  - set (t := Str.sbind _ s) in *. unfold escape.
    set (a := hex (Str.code c / 16)) in *. set (b := hex (Str.code c mod 16)) in *.
    change (decodeURIComponent _) with
      (match unhex a, unhex b with
       | Some x, Some y => String (Str.of_code (x * 16 + y)) <$> decodeURIComponent t
       | _, _ => None
       end).
    destruct (unhex a) as [x|]; [|done]. destruct (unhex b) as [y|]; [|done].
    apply Ascii.eqb_eq in Hc. by rewrite IH, Hc.
Qed.
End Uri.

(** ** Templates *)
Module Template.
Abbreviation html := Str.quoted.
Definition dquote : ascii := Str.of_code 34.

(** [value.replace(/c/g, r)] for one character. *)
Definition replaceAll (c : ascii) (r : string) : string → string :=
  Str.sbind (λ x, if Ascii.eqb x c then r else String x EmptyString).
Definition escapeHtml (value : string) : string :=
  replaceAll "'" "&#39;" (replaceAll dquote "&quot;" (replaceAll ">" "&gt;"
    (replaceAll "<" "&lt;" (replaceAll "&" "&amp;" value)))).
Definition sanitizeForSubject (value : string) : string :=
  Str.trim (Str.smap (λ c, if (Str.code c <=? 31) || (Str.code c =? 127) then " "%char else c) value).

Definition LOGO_ICON_URL : string := "https://www.conference.contact/icons/icon-64.png".
Definition renderEmail (body : string) (complianceFooter : option string) : string :=
  html "<div style=`background-color:#eeeef0;padding:40px 20px;font-family:-apple-system,BlinkMacSystemFont,'Segoe UI',Roboto,Helvetica,Arial,sans-serif;`>
    <div style=`max-width:480px;margin:0 auto;`>
      <table role=`presentation` style=`margin:0 auto 28px;` cellpadding=`0` cellspacing=`0`>
        <tr>
          <td style=`width:28px;height:28px;vertical-align:middle;`>
            <img src=`" +:+ LOGO_ICON_URL +:+ html "` width=`28` height=`28` alt=`conference.contact` style=`display:block;border-radius:7px;` />
          </td>
          <td style=`padding-left:9px;font-size:17px;font-weight:800;color:#12152b;`>conference<span style=`color:#a9c022;`>.</span>contact</td>
        </tr>
      </table>
      <div style=`background-color:#ffffff;border:1px solid #e2e2e7;border-radius:16px;padding:40px 32px;text-align:center;`>
        " +:+ body +:+ html "
      </div>
      <p style=`text-align:center;margin-top:24px;font-size:12px;color:#9395a6;`>conference.contact — the verified conference contact directory</p>
      " +:+ (complianceFooter ifnull "") +:+ "
    </div>
  </div>".
Definition heading (text : string) : string :=
  html "<h1 style=`margin:0;font-size:21px;font-weight:800;color:#12152b;line-height:1.35;`>" +:+ text +:+ "</h1>".
Definition paragraph (text : string) : string :=
  html "<p style=`margin:16px 0 0;font-size:15px;color:#5b5f73;line-height:1.6;`>" +:+ text +:+ "</p>".
Definition footnote (text : string) : string :=
  html "<p style=`margin:22px 0 0;font-size:13px;color:#9395a6;`>" +:+ text +:+ "</p>".
Definition ctaButton (href label : string) : string :=
  html "<a href=`" +:+ href +:+
  html "` style=`display:inline-block;margin-top:28px;background-color:#c6e02e;color:#0b1454;font-weight:700;font-size:15px;text-decoration:none;padding:14px 34px;border-radius:999px;`>"
  +:+ label +:+ "</a>".

(** The copy used where an admin has saved none. *)
Definition DEFAULT_SUBJECT : string := "You've been invited to check out conference.contact".
Definition DEFAULT_HEADING : string := "Thought this might be useful".
Definition DEFAULT_BODY : string :=
  "A hand-verified directory of B2B conference contacts, with an AI tool that finds and enriches new leads live — take a look and see what’s inside.".
Definition DEFAULT_CTA_LABEL : string := "Take a look →".
Definition DEFAULT_FOOTNOTE : string := "No obligation — you can create a free account just to browse.".

(** *** What escaping guarantees *)
Definition harmless (c : ascii) : bool :=
  negb (existsb (Ascii.eqb c) ["<"; ">"; "'"; dquote]%char).
(** The five passes are one: each character by itself. *)
Definition entity (c : ascii) : string :=
  if Ascii.eqb c "&" then "&amp;" else if Ascii.eqb c "<" then "&lt;"
  else if Ascii.eqb c ">" then "&gt;" else if Ascii.eqb c dquote then "&quot;"
  else if Ascii.eqb c "'" then "&#39;" else String c EmptyString.
Lemma sbind_app f a b : Str.sbind f (a +:+ b) = Str.sbind f a +:+ Str.sbind f b.
Proof.
  induction a as [|c a IH]; [done|]. change (String c a +:+ b) with (String c (a +:+ b)).
  cbn [Str.sbind]. by rewrite IH, append_assoc.
Qed.
Lemma escapeHtml_entity s : escapeHtml s = Str.sbind entity s.
Proof.
  induction s as [|c s IH]; [done|]. unfold escapeHtml, replaceAll in *. cbn [Str.sbind].
  rewrite !sbind_app, IH. f_equal.
  destruct c as [[] [] [] [] [] [] [] []]; vm_compute; reflexivity.
Qed.
Lemma Str_sall_app p a b : Str.sall p (a +:+ b) = Str.sall p a && Str.sall p b.
Proof.
  induction a as [|c a IH]; [done|]. change (String c a +:+ b) with (String c (a +:+ b)).
  cbn [Str.sall]. by rewrite IH, andb_assoc.
Qed.
(** Escaped text opens no tag and closes no attribute. *)
Lemma escapeHtml_harmless s : Str.sall harmless (escapeHtml s) = true.
Proof.
  rewrite escapeHtml_entity. induction s as [|c s IH]; [done|]. cbn [Str.sbind].
  rewrite Str_sall_app, IH, andb_true_r.
  destruct c as [[] [] [] [] [] [] [] []]; vm_compute; reflexivity.
Qed.
End Template.

(** ** Unsubscribe tokens *)
Module Unsubscribe.

Definition signUnsubscribeToken (email secret : string) : string :=
  Base64.encode_url (hmac_sha256 secret (Users.normalizeEmail email)).
(** Equal lengths and [timingSafeEqual]. *)
Definition verifyUnsubscribeToken (email token secret : string) : bool :=
  let expected := Str.bytes (signUnsubscribeToken email secret) in
  let given := Str.bytes token in
  (length expected =? length given)%nat && bool_decide (expected = given).

Lemma bytes_inj a b : Str.bytes a = Str.bytes b → a = b.
Proof.
  unfold Str.bytes. revert b. induction a as [|c a IH]; intros [|d b]; try done.
  cbn. intros [= Hc Hl]. f_equal; [|by apply IH].
  rewrite <- (Ascii.ascii_N_embedding c), <- (Ascii.ascii_N_embedding d). f_equal.
  unfold Str.code in Hc. lia.
Qed.
Lemma verify_iff email token secret :
  verifyUnsubscribeToken email token secret = bool_decide (token = signUnsubscribeToken email secret).
Proof.
  unfold verifyUnsubscribeToken. cbv zeta.
  destruct (decide (token = signUnsubscribeToken email secret)) as [->|Hne].
  - by rewrite Nat.eqb_refl, !bool_decide_eq_true_2 by done.
  - rewrite (bool_decide_eq_false_2 (token = _)) by done.
    rewrite (bool_decide_eq_false_2 (_ = Str.bytes token)); [by rewrite andb_false_r|].
    intros Hb. apply Hne. symmetry. by apply bytes_inj.
Qed.
End Unsubscribe.
