(* ===== verification/MailWorkers.v ===== *)
(** The workers of the two e-mail queues: EmailProcessor
    (email/email.processor.ts) for transactional mail and BulkEmailProcessor
    (email/bulk-email.processor.ts) for the cold invitations, and the
    endpoint behind their opt-out links (email/unsubscribe.controller.ts). *)
From S2P Require Import Prelude JsLib Crypto Schema Effects Platform Config Messaging Users MailTemplate.

(** Resend: an error message or none, given every message handed to it so
    far, the present one last. *)
Class Resend := { resend_answer : list sent_email → option string }.
Definition resend_send `{Resend} (m : sent_email) : M (option string) := λ w,
  let l := w_sent w ++ [m] in (Ok (resend_answer l), put_sent l w).
Lemma respects_resend_send `{Resend} (R : world → world → Prop) m :
  (∀ l w, R w (put_sent l w)) → respects R (resend_send m).
Proof. intros HR w. apply HR. Qed.
#[export] Hint Extern 1 (respects _ (resend_send _)) => apply respects_resend_send; frame_side : steph.

(** The data of a job, by field. *)
Definition field (key : string) (data : list (string * json)) : option json :=
  snd <$> head (filter (λ kv, kv.1 = key) data).
Definition type_error {A} : M A := throw (JsError "TypeError").
Definition str_field (key : string) (data : list (string * json)) : M string :=
  match field key data with Some (JStr s) => mret s | _ => type_error end.
Definition num_field (key : string) (data : list (string * json)) : M Z :=
  match field key data with Some (JNum n) => mret n | _ => type_error end.

(** ** Labels *)
Definition month_name (m : Z) : string :=
  nth (Z.to_nat (m - 1)) ["January"; "February"; "March"; "April"; "May"; "June"; "July"; "August";
                          "September"; "October"; "November"; "December"] "".
(** [new Date(iso).toLocaleDateString('en-US', { month: 'long', day:
    'numeric', year: 'numeric' })] of a UTC time stamp on a UTC server. *)
Definition dateLabel (iso : string) : string :=
  let year_len := if Str.startsWith "+" iso || Str.startsWith "-" iso then 7%nat else 4%nat in
  let rest := Str.drop (year_len + 1) iso in
  month_name (Str.digits rest 0) +:+ " " +:+ pretty (Str.digits (Str.drop 3 rest) 0)
  +:+ ", " +:+ pretty (default 0 (Str.parseInt (Str.take year_len iso))).
Example dateLabel1 : dateLabel "2026-08-07T23:57:36.123Z" = "August 7, 2026".
Proof. reflexivity. Qed.
(** [`$${(cents / 100).toFixed(2).replace(/\.00$/, '')}`] of a whole amount. *)
Definition amountLabel (cents : Z) : string :=
  "$" +:+ pretty (cents / 100) +:+
  (if cents mod 100 =? 0 then "" else "." +:+ Date.pad 2 (cents mod 100)).
(** [name.trim().split(/\s+/)[0] || 'there']. *)
Fixpoint until_space (s : string) : string :=
  match s with
  | EmptyString => EmptyString
  | String c s => if Str.is_space c then EmptyString else String c (until_space s)
  end.
Definition firstWord (name : string) : string :=
  let w := until_space (Str.trim name) in if Str.nonempty w then w else "there".

(** ** EmailProcessor *)
Module EmailWorker.
Import Template.
Section worker.
Context {cfg : config} `{Resend}.

Definition send (to subject body : string) (replyTo : option string) : M unit :=
  error ← resend_send (Mk_sent_email (RESEND_FROM_EMAIL cfg) to subject body
             (match replyTo with Some r => if Str.nonempty r then Some r else None | None => None end) []);
  match error with
  | Some m => throw (JsError (html "Resend error sending `" +:+ subject +:+ html "` to " +:+ to +:+ ": " +:+ m))
  | None => mret tt
  end.
Definition page (path : string) : string := FRONTEND_URL cfg +:+ path.
Definition support : option string := Some (SUPPORT_EMAIL cfg).
Definition card (parts : list string) : string := renderEmail (Str.join "" parts) None.

Definition welcome (d : list (string * json)) : M unit :=
  to ← str_field "to" d; fullName ← str_field "fullName" d;
  send to "Welcome to conference.contact"
    (card [heading ("Welcome, " +:+ escapeHtml (firstWord fullName));
           paragraph "Your account is ready. You've got 100 free credits to try AI Lead Finder right away — no subscription needed to start.";
           ctaButton (page "/account") "Go to your account →";
           footnote "Questions about getting started? Just reply to this email."]) support.
Definition verification (d : list (string * json)) : M unit :=
  to ← str_field "to" d; token ← str_field "token" d;
  send to "Verify your email — conference.contact"
    (card [heading "Verify your email";
           paragraph "Confirm your email to finish setting up your conference.contact account.";
           ctaButton (page ("/verify-email?token=" +:+ Uri.encodeURIComponent token)) "Verify email →";
           footnote "This link expires in 24 hours. If you didn't create an account, you can ignore this email."]) None.
Definition password_reset (d : list (string * json)) : M unit :=
  to ← str_field "to" d; token ← str_field "token" d;
  send to "Reset your password — conference.contact"
    (card [heading "Reset your password";
           paragraph "We received a request to reset your conference.contact password.";
           ctaButton (page ("/reset-password?token=" +:+ Uri.encodeURIComponent token)) "Reset password →";
           footnote "This link expires in 1 hour. If you didn't request this, you can ignore this email — your password won't change."]) None.
Definition device_code (d : list (string * json)) : M unit :=
  to ← str_field "to" d; code ← str_field "code" d;
  send to "Confirm it's you — conference.contact"
    (card [heading "Confirm it's you";
           paragraph "We noticed a login from a device we don't recognize.";
           html "<p style=`margin:24px 0 0;font-size:32px;font-weight:800;letter-spacing:6px;color:#0b1454;`>" +:+ code +:+ "</p>";
           footnote "Enter this code to finish signing in. It expires in 10 minutes. If this wasn't you, change your password immediately."]) None.

Definition reasonLabel (reason : string) : string :=
  if seq_b reason "BILLING" then "Billing question"
  else if seq_b reason "ACCOUNT_ISSUE" then "Account issue"
  else if seq_b reason "REMOVE_RECORD" then "Remove my directory record"
  else if seq_b reason "OTHER" then "Other" else reason.
Definition contact_form (d : list (string * json)) : M unit :=
  name ← str_field "name" d; fromEmail ← str_field "fromEmail" d;
  reason ← str_field "reason" d; message ← str_field "message" d;
  send (SUPPORT_EMAIL cfg) ("Contact form (" +:+ reasonLabel reason +:+ "): " +:+ sanitizeForSubject name)
    (card [heading "New contact form message";
           html "<div style=`margin-top:20px;text-align:left;font-size:14px;color:#5b5f73;line-height:1.6;`>
                 <p style=`margin:0;`><strong>From:</strong> " +:+ escapeHtml name +:+ " (" +:+ escapeHtml fromEmail +:+ html ")</p>
                 <p style=`margin:8px 0 0;`><strong>Reason:</strong> " +:+ escapeHtml (reasonLabel reason) +:+ html "</p>
                 <p style=`margin:16px 0 0;white-space:pre-wrap;`>" +:+ escapeHtml message +:+ "</p>
               </div>"]) (Some fromEmail).
Definition contact_reply (d : list (string * json)) : M unit :=
  to ← str_field "to" d; name ← str_field "name" d;
  originalMessage ← str_field "originalMessage" d; replyMessage ← str_field "replyMessage" d;
  send to "Re: your message to conference.contact"
    (card [heading ("Hi " +:+ escapeHtml (firstWord name) +:+ ",");
           html "<div style=`margin-top:16px;text-align:left;font-size:15px;color:#5b5f73;line-height:1.6;white-space:pre-wrap;`>" +:+ escapeHtml replyMessage +:+ "</div>";
           html "<div style=`margin-top:28px;padding-top:20px;border-top:1px solid #e2e2e7;text-align:left;`>
                 <p style=`margin:0;font-size:12px;font-weight:700;color:#9395a6;text-transform:uppercase;letter-spacing:0.03em;`>Your original message</p>
                 <p style=`margin:8px 0 0;font-size:13px;color:#9395a6;line-height:1.6;white-space:pre-wrap;`>" +:+ escapeHtml originalMessage +:+ "</p>
               </div>";
           footnote "Questions? Just reply to this email."]) support.
Definition signup (to : string) : string := page ("/signup?email=" +:+ Uri.encodeURIComponent to).
Definition invite (d : list (string * json)) : M unit :=
  to ← str_field "to" d; inviterName ← str_field "inviterName" d;
  let title := escapeHtml inviterName +:+ " invited you to conference.contact" in
  send to title
    (card [heading title;
           paragraph "A hand-verified directory of B2B conference contacts, with an AI tool that finds and enriches new leads live.";
           ctaButton (signup to) "Create your account →";
           footnote "Full Access is $50 every 6 months, rate locked in, whenever you're ready to subscribe."]) None.
Definition perks (directory leadFinder : string) : list string :=
  (if seq_b directory "true" then ["full access to the Lead Directory"] else []) ++
  (if seq_b leadFinder "true" then ["unlimited AI Lead Finder searches"] else []).
Definition admin_access_invite (d : list (string * json)) : M unit :=
  to ← str_field "to" d; directory ← str_field "grantsDirectoryAccess" d;
  leadFinder ← str_field "grantsLeadFinderAccess" d;
  let title := "You've been invited to conference.contact" in
  send to title
    (card [heading title;
           paragraph (match perks directory leadFinder with
             | [] => "An account has been set up for you. Create your account to get started."
             | l => "You've been given " +:+ Str.join " and " l +:+ " — no subscription needed. Create your account to get started."
             end);
           ctaButton (signup to) "Create your account →";
           footnote "Questions? Just reply to this email."]) support.
Definition billing : string := page "/account/billing".
Definition pitch_intro (d : list (string * json)) : M unit :=
  to ← str_field "to" d; fullName ← str_field "fullName" d;
  send to "Still there? Your conference.contact directory is ready"
    (card [heading (escapeHtml (firstWord fullName) +:+ ", here's what's waiting for you");
           paragraph "You created a conference.contact account but haven't unlocked the full Lead Directory yet — a hand-verified list of who actually shows up to the B2B conference circuit, with real emails, phone numbers, and LinkedIn profiles.";
           ctaButton billing "Unlock full access →";
           footnote "$50 every 6 months, rate locked in for as long as you stay subscribed. Cancel anytime."]) support.
Definition feature (item : string) : string :=
  html "<li style=`margin-top:10px;padding-left:24px;position:relative;font-size:14px;color:#5b5f73;line-height:1.5;`>
                          <span style=`position:absolute;left:0;color:#0b1454;font-weight:700;`>✓</span>" +:+ escapeHtml item +:+ "
                        </li>".
Definition features : list string :=
  ["Unlimited directory searches"; "Full contact details — email, phone, LinkedIn"; "CSV export";
   "AI Lead Finder credits included"].
Definition pitch_value (d : list (string * json)) : M unit :=
  to ← str_field "to" d; fullName ← str_field "fullName" d;
  send to "What you get with full Directory access"
    (card [heading (escapeHtml (firstWord fullName) +:+ ", here's exactly what unlocks");
           html "<ul style=`margin:20px 0 0;padding:0;list-style:none;text-align:left;`>
                 " +:+ Str.join "" (feature <$> features) +:+ "
               </ul>";
           ctaButton billing "See full access →";
           footnote "$50 every 6 months. No sales calls, no tiers to compare."]) support.
Definition pitch_urgency (d : list (string * json)) : M unit :=
  to ← str_field "to" d; fullName ← str_field "fullName" d;
  send to "Lock in your rate before it changes"
    (card [heading (escapeHtml (firstWord fullName) +:+ ", your price locks in the moment you subscribe");
           paragraph "conference.contact is still $50 every 6 months today. If we ever raise the price, everyone already subscribed keeps the rate they signed up at — so there's no upside to waiting, only downside if pricing changes later.";
           ctaButton billing "Lock in $50/6mo →";
           footnote "No long-term contract — cancel anytime."]) support.
Definition subscription_confirmed (d : list (string * json)) : M unit :=
  to ← str_field "to" d; label ← str_field "productLabel" d;
  amountCents ← num_field "amountCents" d; renewsAt ← str_field "renewsAt" d;
  send to ("You're subscribed — " +:+ label +:+ " confirmed")
    (card [heading "You're all set";
           paragraph ("Your payment went through and your " +:+ escapeHtml label
             +:+ " plan is active. You were charged " +:+ amountLabel amountCents
             +:+ " — it renews on <strong>" +:+ dateLabel renewsAt +:+ "</strong>.");
           ctaButton billing "Manage your plan →";
           footnote "Questions about your subscription? Just reply to this email."]) support.
Definition renewal_reminder (d : list (string * json)) : M unit :=
  to ← str_field "to" d; label ← str_field "productLabel" d;
  renewalDate ← str_field "renewalDate" d; amountCents ← num_field "amountCents" d;
  send to ("Your " +:+ label +:+ " renews in 7 days — conference.contact")
    (card [heading "Your subscription renews soon";
           paragraph ("Your " +:+ escapeHtml label +:+ " plan renews on <strong>" +:+ dateLabel renewalDate
             +:+ "</strong> — you'll be charged " +:+ amountLabel amountCents +:+ ".");
           footnote "No action needed to continue. Want to stop future billing instead? You can cancel anytime from your account — access stays active through the end of the period you've already paid for."]) None.
Definition payment_failed (d : list (string * json)) : M unit :=
  to ← str_field "to" d; label ← str_field "productLabel" d; days ← num_field "gracePeriodDays" d;
  send to ("Payment failed on your " +:+ label +:+ " plan — conference.contact")
    (card [heading "We couldn’t process your payment";
           paragraph ("Your card was declined for your " +:+ escapeHtml label +:+ " plan. You have <strong>"
             +:+ pretty days +:+ " days</strong> to update your payment method before access pauses.");
           ctaButton billing "Update payment method →";
           footnote "We'll retry the charge automatically in the meantime — if it goes through, there's nothing else to do."]) None.
Definition cancellation_scheduled (d : list (string * json)) : M unit :=
  to ← str_field "to" d; label ← str_field "productLabel" d; accessUntil ← str_field "accessUntil" d;
  send to ("Your " +:+ label +:+ " plan is set to cancel — conference.contact")
    (card [heading "Your cancellation is scheduled";
           paragraph ("We've turned off future billing for your " +:+ escapeHtml label
             +:+ " plan. Your access stays active through <strong>" +:+ dateLabel accessUntil
             +:+ "</strong> — you won't be charged again after that.");
           ctaButton billing "Manage your plan →";
           footnote "Changed your mind? You can resume anytime before that date and keep your access uninterrupted."]) support.

(** The handler of a job name; an unknown name is only logged. *)
Definition handlers : list (string * (list (string * json) → M unit)) :=
  [("welcome", welcome); ("verification", verification); ("password-reset", password_reset);
   ("device-code", device_code); ("contact-form", contact_form); ("contact-reply", contact_reply);
   ("invite", invite); ("admin-access-invite", admin_access_invite);
   ("prospect-pitch-intro", pitch_intro); ("prospect-pitch-value", pitch_value);
   ("prospect-pitch-urgency", pitch_urgency); ("subscription-confirmed", subscription_confirmed);
   ("renewal-reminder", renewal_reminder); ("payment-failed", payment_failed);
   ("cancellation-scheduled", cancellation_scheduled)].
Definition process (job : email_job) : M unit :=
  match head (filter (λ h, h.1 = ej_name job) handlers) with
  | Some h => h.2 (ej_data job)
  | None => mret tt
  end.
End worker.
End EmailWorker.

(** ** BulkEmailProcessor *)
Module BulkEmail.
Import Template.
Section worker.
Context {cfg : config} `{Resend}.

Definition unsubscribeLink (to : string) : string :=
  FRONTEND_URL cfg +:+ "/unsubscribe?email=" +:+ Uri.encodeURIComponent to +:+ "&token="
  +:+ Uri.encodeURIComponent (Unsubscribe.signUnsubscribeToken to (UNSUBSCRIBE_SECRET cfg)).
Definition send (to subject body replyTo unsubscribeLink : string) : M unit :=
  error ← resend_send (Mk_sent_email (RESEND_FROM_EMAIL cfg) to subject body (Some replyTo)
            [("List-Unsubscribe", "<" +:+ unsubscribeLink +:+ ">");
             ("List-Unsubscribe-Post", "List-Unsubscribe=One-Click")]);
  match error with
  | Some m => throw (JsError (html "Resend error sending `" +:+ subject +:+ html "` to " +:+ to +:+ ": " +:+ m))
  | None => mret tt
  end.
(** A saved override or the default. *)
Definition saved (column : campaign_settings → option string) (s : option campaign_settings)
    (fallback : string) : string := (s ≫= column) ifnull fallback.
Definition complianceFooter (to : string) (s : option campaign_settings) : string :=
  html "<p style=`text-align:center;margin-top:12px;font-size:12px;color:#9395a6;`>
               <a href=`" +:+ unsubscribeLink to +:+ html "` style=`color:#9395a6;text-decoration:underline;`>Unsubscribe</a> from emails like this.
             </p>
             <p style=`text-align:center;margin-top:8px;font-size:11px;color:#b3b5c2;`>"
  +:+ escapeHtml (saved cs_emailMailingAddress s (COMPANY_MAILING_ADDRESS cfg)) +:+ "</p>".
Definition prospect_cold_invite (d : list (string * json)) : M unit :=
  to ← str_field "to" d;
  settings ← db_find T_campaignSettings "singleton";
  send to (sanitizeForSubject (saved cs_emailSubject settings DEFAULT_SUBJECT))
    (renderEmail
       (heading (escapeHtml (saved cs_emailHeading settings DEFAULT_HEADING)) +:+
        paragraph (escapeHtml (saved cs_emailBody settings DEFAULT_BODY)) +:+
        ctaButton (FRONTEND_URL cfg +:+ "/invited?email=" +:+ Uri.encodeURIComponent to)
          (escapeHtml (saved cs_emailCtaLabel settings DEFAULT_CTA_LABEL)) +:+
        footnote (escapeHtml (saved cs_emailFootnote settings DEFAULT_FOOTNOTE)))
       (Some (complianceFooter to settings)))
    (SUPPORT_EMAIL cfg) (unsubscribeLink to).
Definition process (job : email_job) : M unit :=
  if seq_b (ej_name job) "prospect-cold-invite" then prospect_cold_invite (ej_data job) else mret tt.
End worker.
End BulkEmail.

(** ** UnsubscribeController *)
Definition suppressed_row (email : string) (s : suppression) : bool := seq_b (es_email s) email.
(** [emailSuppression.upsert({ where: { email }, create: { email }, update: {} })]. *)
Definition suppress `{Entropy} (email : string) : M unit :=
  o ← db_find_by T_emailSuppressions (suppressed_row email);
  match o with
  | Some _ => mret tt
  | None => id ← random_uuid; now ← date_now;
            _ ← db_create T_emailSuppressions id (Mk_suppression id email now); mret tt
  end.
Definition unsubscribe {cfg : config} `{Entropy} (rawEmail token : string) : M string :=
  let email := Users.normalizeEmail rawEmail in
  if negb (Unsubscribe.verifyUnsubscribeToken email token (UNSUBSCRIBE_SECRET cfg))
  then BadRequest "Invalid or expired unsubscribe link."
  else _ ← suppress email; mret (email +:+ " has been unsubscribed.").
