(* ===== verification/Campaign.v ===== *)
(** ProspectCampaignService (prospect-campaign/prospect-campaign.service.ts)
    and its worker (prospect-campaign.processor.ts): the upload of addresses,
    the settings and the copy, bounces and complaints, and the daily drip,
    whole ([runDailyDrip]) and in its awaited steps ([drip_step]). *)
From S2P Require Import Prelude JsLib Crypto Schema Effects Platform Config Messaging Users Taxonomy Dto MailTemplate MailWorkers.

(** [new Set(l)]: distinct elements, in order of first insertion. *)
Definition set_add (acc : list string) (x : string) : list string :=
  if bool_decide (x ∈ acc) then acc else acc ++ [x].
Definition js_set (l : list string) : list string := foldl set_add [] l.
Lemma js_set_spec l acc :
  (NoDup acc → NoDup (foldl set_add acc l)) ∧ ∀ x, x ∈ foldl set_add acc l ↔ x ∈ acc ∨ x ∈ l.
Proof.
  revert acc. induction l as [|y l IH]; intros acc; cbn [foldl].
  { split; [done|]. intros x. rewrite elem_of_nil. tauto. }
  destruct (IH (set_add acc y)) as [H1 H2]. unfold set_add in *. case_bool_decide as Hy.
  - split; [done|]. intros x. rewrite H2, elem_of_cons. split; [tauto|]. intros [?|[->|?]]; tauto.
  - split.
    + intros Hnd. apply H1, NoDup_app. split; [done|]. split; [set_solver|apply NoDup_singleton].
    + intros x. rewrite H2, elem_of_app, list_elem_of_singleton, elem_of_cons. tauto.
Qed.
Lemma js_set_NoDup l : NoDup (js_set l).
Proof. apply (js_set_spec l []). constructor. Qed.
Lemma elem_of_js_set l x : x ∈ js_set l ↔ x ∈ l.
Proof. destruct (js_set_spec l []) as [_ H]. unfold js_set. rewrite (H x), elem_of_nil. tauto. Qed.

Module Campaign.
Definition SETTINGS_ID : string := "singleton".
Definition CHUNK_SIZE : nat := 1000.

Record upload_result := UploadResult {
  ur_queued : Z; ur_alreadyQueued : Z; ur_alreadyHasAccount : Z; ur_unsubscribed : Z;
  ur_invalid : Z; ur_total : Z
}.
(** [EmailTemplate]. *)
Record template := EmailTemplate {
  et_subject : string; et_heading : string; et_body : string; et_ctaLabel : string;
  et_footnote : string; et_mailingAddress : string
}.
(** [UpdateEmailTemplateDto]. *)
Record template_update := TemplateUpdate {
  tu_subject : option string; tu_heading : option string; tu_body : option string;
  tu_ctaLabel : option string; tu_footnote : option string; tu_mailingAddress : option string
}.
(** [CampaignStats]; the rate is a fraction: numerator, denominator. *)
Record stats := CampaignStats {
  st_pending : Z; st_sent : Z; st_skippedExistingUser : Z; st_skippedUnsubscribed : Z;
  st_bounced : Z; st_complained : Z; st_total : Z; st_bounceComplaintRate : Z * Z;
  st_dailyCap : Z; st_paused : bool
}.
Record drip_result := DripResult {
  dr_sent : Z; dr_skippedExisting : Z; dr_skippedUnsubscribed : Z; dr_batchSize : Z
}.
Definition len {A} (l : list A) : Z := Z.of_nat (length l).

(** *** Predicates of the queries *)
Definition user_among (l : list string) (u : user) : bool := bool_decide (u_email u ∈ l).
Definition suppression_among (l : list string) (s : suppression) : bool := bool_decide (es_email s ∈ l).
Definition queued_among (l : list string) (p : prospect) : bool := bool_decide (pq_email p ∈ l).
Definition with_status (s : queue_status) (p : prospect) : bool := bool_decide (pq_status p = s).
Definition sent_to (email : string) (p : prospect) : bool :=
  seq_b (pq_email p) email && with_status QSENT p.

Definition default_settings : campaign_settings :=
  Mk_campaign_settings SETTINGS_ID 25 false None None None None None None.

Section campaign.
Context {cfg : config} `{Entropy, IsEmail}.

(** [prospectInviteCampaignSettings.upsert] on the singleton. *)
Definition upsertSettings (data : campaign_settings → campaign_settings) : M campaign_settings :=
  o ← db_find T_campaignSettings SETTINGS_ID;
  match o with
  | Some _ => db_update T_campaignSettings SETTINGS_ID data
  | None => db_create T_campaignSettings SETTINGS_ID (data default_settings)
  end.
Definition getOrCreateSettings : M campaign_settings := upsertSettings id.

(** *** Upload *)
(** [createMany({ skipDuplicates: true })]: one statement, conflicting rows
    left out. *)
Definition createSkipping (uploadedByUserId email : string) : M unit :=
  id ← random_uuid; now ← date_now;
  try_catch
    (_ ← db_create T_prospectInviteQueue id
           (Mk_prospect id email QPENDING (Some uploadedByUserId) now None); mret tt)
    (λ e, if bool_decide (e = PrismaKnown "P2002") then mret tt else throw e).
Definition createMany (uploadedByUserId : string) (emails : list string) : M unit :=
  transaction (for_each emails (createSkipping uploadedByUserId)).

(** The valid addresses, normalized and distinct. *)
Definition candidates (rawEmails : list string) : list string :=
  js_set (filter (λ e, isEmail e = true) (Users.normalizeEmail <$> rawEmails)).
Definition invalid (rawEmails : list string) : Z :=
  len (filter (λ e, isEmail e = false) (Users.normalizeEmail <$> rawEmails)).
(** What a chunk adds to the three sets. *)
Definition lookupChunk (acc : list string * list string * list string) (chunk : list string) :
    M (list string * list string * list string) :=
  let '(users, suppressed, queued) := acc in
  us ← db_find_many T_users (user_among chunk);
  ss ← db_find_many T_emailSuppressions (suppression_among chunk);
  qs ← db_find_many T_prospectInviteQueue (queued_among chunk);
  mret (users ++ (u_email <$> us), suppressed ++ (es_email <$> ss), queued ++ (pq_email <$> qs)).
Definition enqueueUploadedEmails (uploadedByUserId : string) (rawEmails : list string) : M upload_result :=
  let cs := candidates rawEmails in
  sets ← fold_each (chunks CHUNK_SIZE cs) lookupChunk ([], [], []);
  let '(users, suppressed, queued) := sets in
  let existingUsers := js_set users in
  let suppressed := js_set suppressed in
  let alreadyQueued := js_set queued in
  let toQueue := filter (λ e, (e ∉ existingUsers) ∧ (e ∉ suppressed) ∧ (e ∉ alreadyQueued)) cs in
  _ ← when (0 <? len toQueue) (createMany uploadedByUserId toQueue);
  let r := UploadResult (len toQueue) (len alreadyQueued) (len existingUsers) (len suppressed)
             (invalid rawEmails) (len rawEmails) in
  _ ← Audit.record (Audit.with_meta
        (JObj [("total", JNum (ur_total r)); ("queued", JNum (ur_queued r));
               ("alreadyQueued", JNum (ur_alreadyQueued r));
               ("alreadyHasAccount", JNum (ur_alreadyHasAccount r));
               ("unsubscribed", JNum (ur_unsubscribed r)); ("invalid", JNum (ur_invalid r))])
        (Audit.by_actor uploadedByUserId "admin.prospect_campaign_uploaded"));
  mret r.

(** *** Settings and copy *)
Definition getStats : M stats :=
  queue ← db_all T_prospectInviteQueue;
  settings ← getOrCreateSettings;
  let n s := count_rows (with_status s) queue in
  let attempted := n QSENT + n QBOUNCED + n QCOMPLAINED in
  mret (CampaignStats (n QPENDING) (n QSENT) (n QSKIPPED_EXISTING_USER) (n QSKIPPED_UNSUBSCRIBED)
          (n QBOUNCED) (n QCOMPLAINED)
          (n QPENDING + n QSENT + n QSKIPPED_EXISTING_USER + n QSKIPPED_UNSUBSCRIBED + n QBOUNCED + n QCOMPLAINED)
          (if 0 <? attempted then (n QBOUNCED + n QCOMPLAINED, attempted) else (0, 1))
          (cs_dailyCap settings) (cs_paused settings)).
Definition updateSettings (adminUserId : string) (dailyCap : option Z) (paused : option bool) : M (Z * bool) :=
  updated ← upsertSettings (λ s,
    (match paused with Some p => set_cs_paused p | None => id end)
      ((match dailyCap with Some c => set_cs_dailyCap c | None => id end) s));
  _ ← Audit.record (Audit.with_meta
        (JObj [("dailyCap", JNum (cs_dailyCap updated)); ("paused", JBool (cs_paused updated))])
        (Audit.by_actor adminUserId "admin.prospect_campaign_settings_updated"));
  mret (cs_dailyCap updated, cs_paused updated).
Definition getEmailTemplate : M template :=
  s ← getOrCreateSettings;
  mret (EmailTemplate
    (cs_emailSubject s ifnull Template.DEFAULT_SUBJECT) (cs_emailHeading s ifnull Template.DEFAULT_HEADING)
    (cs_emailBody s ifnull Template.DEFAULT_BODY) (cs_emailCtaLabel s ifnull Template.DEFAULT_CTA_LABEL)
    (cs_emailFootnote s ifnull Template.DEFAULT_FOOTNOTE)
    (cs_emailMailingAddress s ifnull COMPANY_MAILING_ADDRESS cfg)).
(** [x || null]. *)
Definition or_null (s : string) : option string := if Str.nonempty s then Some s else None.
Definition set_if (o : option string) (set : option string → campaign_settings → campaign_settings) :
    campaign_settings → campaign_settings :=
  match o with Some s => set (or_null s) | None => id end.
Definition updateEmailTemplate (adminUserId : string) (d : template_update) : M template :=
  if match tu_mailingAddress d with
     | Some a => Str.nonempty a && (String.length (Str.trim a) <? 10)%nat
     | None => false
     end
  then BadRequest "Mailing address looks too short to be real — leave it blank to use the default, or enter the full address."
  else
    _ ← upsertSettings (λ s,
      set_if (tu_mailingAddress d) set_cs_emailMailingAddress
        (set_if (tu_footnote d) set_cs_emailFootnote
          (set_if (tu_ctaLabel d) set_cs_emailCtaLabel
            (set_if (tu_body d) set_cs_emailBody
              (set_if (tu_heading d) set_cs_emailHeading
                (set_if (tu_subject d) set_cs_emailSubject s))))));
    _ ← Audit.record (Audit.by_actor adminUserId "admin.prospect_campaign_template_updated");
    getEmailTemplate.
Definition sendTestEmail (email : string) : M unit := Email.sendProspectInvite email.

(** *** Bounces and complaints *)
Definition suppressAndUpdateStatus (rawEmail : string) (status : queue_status) : M unit :=
  let email := Users.normalizeEmail rawEmail in
  _ ← suppress email;
  _ ← db_update_many T_prospectInviteQueue (sent_to email) (set_pq_status status);
  mret tt.
Definition markBounced (email : string) : M unit := suppressAndUpdateStatus email QBOUNCED.
Definition markComplained (email : string) : M unit := suppressAndUpdateStatus email QCOMPLAINED.

(** *** The drip *)
Definition nothing_sent : drip_result := DripResult 0 0 0 0.
(** The batch: the oldest pending rows, at most [dailyCap]. *)
Definition batch (dailyCap : Z) : M (list prospect) :=
  l ← db_find_many T_prospectInviteQueue (with_status QPENDING);
  mret (firstn (Z.to_nat dailyCap) (order_asc pq_createdAt l)).
(** The addresses of the batch with an account, and the suppressed ones. *)
Definition recheck (emails : list string) : M (list string * list string) :=
  us ← db_find_many T_users (user_among emails);
  ss ← db_find_many T_emailSuppressions (suppression_among emails);
  mret (u_email <$> us, es_email <$> ss).
(** One row of the batch: to send, skipped for an account, skipped as
    unsubscribed. *)
Definition sort_candidate (existing suppressed : list string) (acc : list string * Z * Z) (c : prospect) :
    M (list string * Z * Z) :=
  let '(toSend, skippedExisting, skippedUnsubscribed) := acc in
  if bool_decide (pq_email c ∈ existing) then
    _ ← db_update T_prospectInviteQueue (pq_id c) (set_pq_status QSKIPPED_EXISTING_USER);
    mret (toSend, skippedExisting + 1, skippedUnsubscribed)
  else if bool_decide (pq_email c ∈ suppressed) then
    _ ← db_update T_prospectInviteQueue (pq_id c) (set_pq_status QSKIPPED_UNSUBSCRIBED);
    mret (toSend, skippedExisting, skippedUnsubscribed + 1)
  else mret (toSend ++ [pq_email c], skippedExisting, skippedUnsubscribed).
Definition markSent (toSend : list string) : M unit :=
  now ← date_now;
  _ ← db_update_many T_prospectInviteQueue (queued_among toSend)
        (λ p, set_pq_sentAt (Some now) (set_pq_status QSENT p));
  mret tt.
Definition auditDrip (r : drip_result) : M unit :=
  Audit.record (Audit.with_meta
    (JObj [("batchSize", JNum (dr_batchSize r)); ("sent", JNum (dr_sent r));
           ("skippedExisting", JNum (dr_skippedExisting r));
           ("skippedUnsubscribed", JNum (dr_skippedUnsubscribed r))])
    (Audit.by_system "admin.prospect_campaign_daily_drip")).
Definition runDailyDrip : M drip_result :=
  settings ← getOrCreateSettings;
  if cs_paused settings then mret nothing_sent else
  cs ← batch (cs_dailyCap settings);
  match cs with
  | [] => mret nothing_sent
  | _ =>
      sets ← recheck (pq_email <$> cs);
      sorted ← fold_each cs (sort_candidate sets.1 sets.2) ([], 0, 0);
      let '(toSend, skippedExisting, skippedUnsubscribed) := sorted in
      _ ← match toSend with
          | [] => mret tt
          | _ => _ ← Email.sendProspectInviteBulk toSend; markSent toSend
          end;
      let r := DripResult (len toSend) skippedExisting skippedUnsubscribed (len cs) in
      _ ← auditDrip r;
      mret r
  end.
(** *** The drip in steps, for overlapping runs *)
Inductive drip_phase :=
| DripRead
| DripSort (cs : list prospect) (existing suppressed : list string)
| DripSend (toSend : list string) (skippedExisting skippedUnsubscribed batchSize : Z)
| DripMark (toSend : list string) (r : drip_result)
| DripDone (r : drip_result).
Definition drip_step (p : drip_phase) : M drip_phase :=
  match p with
  | DripRead =>
      settings ← getOrCreateSettings;
      if cs_paused settings then mret (DripDone nothing_sent) else
      cs ← batch (cs_dailyCap settings);
      match cs with
      | [] => mret (DripDone nothing_sent)
      | _ => sets ← recheck (pq_email <$> cs); mret (DripSort cs sets.1 sets.2)
      end
  | DripSort cs existing suppressed =>
      sorted ← fold_each cs (sort_candidate existing suppressed) ([], 0, 0);
      let '(toSend, skippedExisting, skippedUnsubscribed) := sorted in
      mret (DripSend toSend skippedExisting skippedUnsubscribed (len cs))
  | DripSend toSend a b n =>
      _ ← match toSend with [] => mret tt | _ => Email.sendProspectInviteBulk toSend end;
      mret (DripMark toSend (DripResult (len toSend) a b n))
  | DripMark toSend r =>
      _ ← match toSend with [] => mret tt | _ => markSent toSend end;
      _ ← auditDrip r;
      mret (DripDone r)
  | DripDone r => mret (DripDone r)
  end.
(** [ProspectCampaignProcessor.process]. *)
Definition process (name : string) : M unit :=
  if seq_b name "drip" then _ ← runDailyDrip; mret tt else mret tt.
End campaign.
End Campaign.
