(* ===== verification/ResendWebhook.v ===== *)
(** Resend's webhook: ResendWebhookController
    (prospect-campaign/resend-webhook.controller.ts) and the verification of
    its signature in Svix's scheme (email/resend-webhook.util.ts).

    [rawBody] is the text of the request's body.  Signatures are compared
    byte by byte, as [timingSafeEqual] does. *)
From S2P Require Import Prelude JsLib Crypto Json Schema Effects Platform Config Billing Users MailTemplate MailWorkers Campaign.

Module ResendWebhook.
Definition TOLERANCE_SECONDS : Z := 5 * 60.

(** The base64 HMAC-SHA256 of [id.timestamp.body] under the decoded secret. *)
Definition signature (secret svixId svixTimestamp rawBody : string) : string :=
  let secretBytes := Base64.decode (Str.strip_prefix "whsec_" secret) in
  let signedContent := svixId +:+ "." +:+ svixTimestamp +:+ "." +:+ rawBody in
  Base64.encode (Sha256.hmac secretBytes (Str.bytes signedContent)).
(** One entry [version,signature] of the header. *)
Definition entry_matches (expected entry : string) : bool :=
  match truthy (Str.split "," entry !! 1%nat) with
  | Some sig =>
      let sigBuf := Str.bytes sig in
      let expectedBuf := Str.bytes expected in
      (length sigBuf =? length expectedBuf)%nat && bool_decide (sigBuf = expectedBuf)
  | None => false
  end.
Definition verifyResendWebhookSignature (now : Z) (rawBody : string)
    (svixId svixTimestamp svixSignature : option string) (secret : string) : bool :=
  match truthy svixId, truthy svixTimestamp, truthy svixSignature with
  | Some svixId, Some svixTimestamp, Some svixSignature =>
      Num.within now (Num.of_string svixTimestamp) TOLERANCE_SECONDS &&
      existsb (entry_matches (signature secret svixId svixTimestamp rawBody)) (Str.split " " svixSignature)
  | _, _, _ => false
  end.

Section webhook.
Context {cfg : config} `{Entropy}.

(** [markBounced] and [markComplained] call [trim] on what they are given. *)
Definition on_address (f : string → M unit) (recipient : Json.value) : M unit :=
  match recipient with
  | Json.Str_ s => f s
  | _ => throw (JsError "rawEmail.trim is not a function")
  end.
Definition handle_event (event : Json.value) : M unit :=
  match event with
  | Json.Null => throw (JsError "Cannot read properties of null (reading 'data')")
  | _ =>
      match Json.truthy (Json.chain Json.first (Json.chain (Json.get "to") (Json.get "data" event))) with
      | Some recipient =>
          match Json.get "type" event with
          | Some (Json.Str_ t) =>
              if seq_b t "email.bounced" then on_address Campaign.markBounced recipient
              else if seq_b t "email.complained" then on_address Campaign.markComplained recipient
              else mret tt
          | _ => mret tt
          end
      | None => mret tt
      end
  end.
Definition handleResendWebhook (rawBody : string) (svixId svixTimestamp svixSignature : option string) : M unit :=
  match truthy (RESEND_WEBHOOK_SECRET cfg) with
  | None => ServiceUnavailable "Webhook not configured"
  | Some webhookSecret =>
      now ← date_now;
      if negb (verifyResendWebhookSignature now rawBody svixId svixTimestamp svixSignature webhookSecret)
      then BadRequest "Webhook signature verification failed"
      else match Json.parse rawBody with
           | None => BadRequest "Invalid JSON payload"
           | Some event => handle_event event
           end
  end.
End webhook.

(** ** What a valid sender sends *)
(** Base64 text has neither blanks nor commas. *)
Lemma base64_plain l sep :
  sep = " "%char ∨ sep = ","%char → Str.split sep (Base64.encode l) = [Base64.encode l].
Proof.
  intros Hsep.
  assert (∀ s, Str.sall (λ c, negb (Ascii.eqb c sep)) s = true → Str.split sep s = [s]) as Hs.
  { induction s as [|c s IH]; [done|]. cbn [Str.sall Str.split]. intros Hc. unbool.
    destruct (Ascii.eqb c sep); [done|]. by rewrite IH. }
  apply Hs. unfold Base64.encode. rewrite Template.Str_sall_app, andb_true_iff. split.
  - unfold Base64.chars. induction (Base64.sextets l) as [|v vs IH]; [done|].
    cbn [fmap list_fmap String.string_of_list_ascii Str.sall]. rewrite IH, andb_true_r.
    unfold Base64.char_of. generalize (Z.to_nat v). intros n.
    do 64 (destruct n as [|n]; [by destruct Hsep as [-> | ->]|]). by destruct Hsep as [-> | ->].
  - destruct (_ mod 3) as [|[?|[?|?|]|]|]; by destruct Hsep as [-> | ->].
Qed.
Lemma split_prefix sep a s :
  Str.split sep a = [a] → Str.split sep s = [s] → Str.split sep (a +:+ s) = [a +:+ s].
Proof.
  induction a as [|c a IH]; [done|]. intros Ha Hs. change (String c a +:+ s) with (String c (a +:+ s)).
  cbn [Str.split] in *. destruct (Ascii.eqb c sep).
  { destruct (Str.split sep a); discriminate Ha. }
  rewrite IH; [done| |done]. destruct (Str.split sep a) as [|h l] eqn:E; [|congruence].
  injection Ha as <-. discriminate E.
Qed.
Definition signed (secret svixId svixTimestamp rawBody : string) : string :=
  "v1," +:+ signature secret svixId svixTimestamp rawBody.
Lemma signed_verifies now rawBody svixId svixTimestamp secret :
  svixId ≠ "" → svixTimestamp ≠ "" →
  Num.within now (Num.of_string svixTimestamp) TOLERANCE_SECONDS = true →
  verifyResendWebhookSignature now rawBody (Some svixId) (Some svixTimestamp)
    (Some (signed secret svixId svixTimestamp rawBody)) secret = true.
Proof.
  intros Hid Hne Hts. unfold verifyResendWebhookSignature, truthy.
  destruct svixId as [|c i]; [done|]. destruct svixTimestamp as [|d ts]; [done|]. cbn [Str.nonempty].
  set (sig := signature secret (String c i) (String d ts) rawBody).
  rewrite Hts. unfold signed. fold sig.
  assert (Str.split " " ("v1," +:+ sig) = ["v1," +:+ sig]) as Hsp.
  { apply split_prefix; [done|]. apply base64_plain. by left. }
  change (Str.nonempty ("v1," +:+ sig)) with true. cbn iota. rewrite Hsp. cbn [existsb].
  unfold entry_matches.
  assert (Str.split "," ("v1," +:+ sig) = ["v1"; sig]) as ->.
  { change (String.append "v1," sig) with (String "v" (String "1" (String "," sig))). cbn [Str.split Ascii.eqb eqb].
    unfold sig, signature. rewrite base64_plain by (by right). done. }
  cbn [lookup list_lookup]. 
  unfold truthy, sig at 1, signature. rewrite Base64.encode_nonempty by (by rewrite Sha256.length_hmac).
  rewrite Nat.eqb_refl. by rewrite bool_decide_eq_true_2.
Qed.
End ResendWebhook.
