(* ===== verification/CampaignProps.v ===== *)
(** The cold-outreach campaign: what one drip does, that the campaign mails an
    address at most once, that two overlapping drips do not keep that promise,
    and that the queue drains. *)
From S2P Require Import Prelude JsLib Crypto Schema Effects Platform Invariants Config Messaging Users Taxonomy Dto MailTemplate MailWorkers Campaign.
Import Campaign.

#[export] Instance prospect_eq_dec : EqDecision prospect.
Proof. solve_decision. Defined.

(** ** The state of the campaign *)
Definition queue (w : world) : gmap string prospect := db_prospectInviteQueue (w_db w).
(** Rows under their own id, one row per address. *)
Definition camp_ok (w : world) : Prop :=
  keyed pq_id (queue w) ∧ unique_ok T_prospectInviteQueue (queue w).
Definition settings_of (w : world) : campaign_settings :=
  default default_settings (db_campaignSettings (w_db w) !! SETTINGS_ID).
Definition has_account (w : world) (e : string) : bool :=
  bool_decide (is_Some (find_row (λ u, seq_b (u_email u) e) (db_users (w_db w)))).
Definition unsubscribed (w : world) (e : string) : bool :=
  bool_decide (is_Some (find_row (suppressed_row e) (db_emailSuppressions (w_db w)))).
(** The batch a drip would take now. *)
Definition today (w : world) : list prospect :=
  firstn (Z.to_nat (cs_dailyCap (settings_of w)))
    (order_asc pq_createdAt (find_many (with_status QPENDING) (queue w))).
(** The addresses of a batch it would mail. *)
Definition mailable (w : world) (p : prospect) : bool :=
  negb (has_account w (pq_email p)) && negb (unsubscribed w (pq_email p)).
Definition mailed (w : world) (B : list prospect) : list string :=
  pq_email <$> filter (λ p, mailable w p = true) B.
(** The row of the queue after the drip took the batch [B]. *)
Definition dripped (w : world) (B : list prospect) (r : prospect) : prospect :=
  if bool_decide (r ∈ B) then
    if has_account w (pq_email r) then set_pq_status QSKIPPED_EXISTING_USER r
    else if unsubscribed w (pq_email r) then set_pq_status QSKIPPED_UNSUBSCRIBED r
    else set_pq_sentAt (Some (w_now w)) (set_pq_status QSENT r)
  else r.

(** One row per address, read off the index. *)
Lemma one_row w k1 k2 r1 r2 :
  camp_ok w → queue w !! k1 = Some r1 → queue w !! k2 = Some r2 → pq_email r1 = pq_email r2 →
  k1 = k2 ∧ r1 = r2.
Proof.
  intros [_ Hu] H1 H2 He. destruct (decide (k1 = k2)) as [->|Hne]; [split; congruence|].
  specialize (Hu k1 k2 r1 r2 H1 H2 Hne). cbn in Hu. unfold seq_b in Hu.
  by apply bool_decide_eq_false in Hu.
Qed.

(** ** The sorting of a batch *)
Definition fate (existing suppressed : list string) (r : prospect) : option queue_status :=
  if bool_decide (pq_email r ∈ existing) then Some QSKIPPED_EXISTING_USER
  else if bool_decide (pq_email r ∈ suppressed) then Some QSKIPPED_UNSUBSCRIBED else None.
Definition skipped (ex su : list string) (r : prospect) : prospect :=
  match fate ex su r with Some s => set_pq_status s r | None => r end.
Definition to_send (ex su : list string) (cs : list prospect) : list string :=
  pq_email <$> filter (λ c, fate ex su c = None) cs.
Lemma put_put m1 m2 w : put_rows T_prospectInviteQueue m2 (put_rows T_prospectInviteQueue m1 w) = put_rows T_prospectInviteQueue m2 w.
Proof. done. Qed.
Lemma put_same w : put_rows T_prospectInviteQueue (queue w) w = w.
Proof. by destruct w as [[] ? ? ? ? ? ? ? ? ? ? ?]. Qed.

Lemma sort_run ex su cs : ∀ w ts a b,
  keyed pq_id (queue w) → NoDup (pq_id <$> cs) → (∀ c, c ∈ cs → queue w !! pq_id c = Some c) →
  ∃ a' b', fold_each cs (sort_candidate ex su) (ts, a, b) w =
    (Ok (ts ++ to_send ex su cs, a', b'), put_rows T_prospectInviteQueue (rewrite_rows (skipped ex su) cs (queue w)) w).
Proof.
  induction cs as [|c cs IH]; intros w ts a b Hk Hnd Hin.
  { exists a, b. cbn. unfold to_send, rewrite_rows. cbn. rewrite app_nil_r.
    erewrite map_fmap_ext, map_fmap_id; [by rewrite put_same|]. intros k x _. cbn.
    by rewrite bool_decide_eq_false_2 by set_solver. }
  assert (Hc : queue w !! pq_id c = Some c) by (apply Hin; set_solver).
  pose proof (NoDup_cons_1_2 _ _ Hnd) as Hnd'.
  assert (Hstep : ∃ a1 b1, sort_candidate ex su (ts, a, b) c w =
    (Ok (ts ++ to_send ex su [c], a1, b1), put_rows T_prospectInviteQueue (<[pq_id c := skipped ex su c]> (queue w)) w)).
  { unfold sort_candidate, to_send, skipped, fate. cbn [filter list_filter].
    case_bool_decide; [|case_bool_decide].
    1,2: rewrite run_bind; erewrite db_update_run by exact Hc; cbn; rewrite app_nil_r; by eexists _, _.
    cbn. rewrite insert_id by done. rewrite put_same. by eexists _, _. }
  destruct Hstep as (a1 & b1 & Hstep). cbn [fold_each]. rewrite run_bind, Hstep.
  set (w1 := put_rows T_prospectInviteQueue _ w).
  assert (Hid : pq_id (skipped ex su c) = pq_id c) by (unfold skipped; by destruct (fate ex su c)).
  destruct (IH w1 (ts ++ to_send ex su [c]) a1 b1) as (a2 & b2 & ->).
  - by apply keyed_insert.
  - done.
  - intros d Hd. unfold w1, queue. cbn. rewrite lookup_insert_ne; [apply Hin; set_solver|].
    intros He. cbn in Hnd. apply NoDup_cons in Hnd as [Hnot _]. apply Hnot, list_elem_of_fmap. eauto.
  - exists a2, b2. assert ((ts ++ to_send ex su [c]) ++ to_send ex su cs = ts ++ to_send ex su (c :: cs)) as ->.
    { unfold to_send. rewrite <- app_assoc. f_equal. cbn [filter list_filter].
      by destruct (decide (fate ex su c = None)). }
    change (queue w1) with (<[pq_id c := skipped ex su c]> (queue w)).
    by rewrite (rewrite_rows_cons pq_id).
Qed.

(** ** One drip *)
Section drip.
Context {cfg : config} `{Entropy, IsEmail}.

(** The world in which the settings row exists. *)
Definition with_settings (w : world) : world :=
  put_rows T_campaignSettings (<[SETTINGS_ID := settings_of w]> (db_campaignSettings (w_db w))) w.
Lemma settings_run w : getOrCreateSettings w = (Ok (settings_of w), with_settings w).
Proof.
  unfold getOrCreateSettings, upsertSettings, db_find, gets, with_settings, settings_of. rewrite run_bind.
  cbn [t_get T_campaignSettings]. destruct (db_campaignSettings (w_db w) !! SETTINGS_ID) as [s|] eqn:E.
  - by erewrite db_update_run by exact E.
  - rewrite db_create_run; [done|done| |done]. apply has_conflict_false. by intros.
Qed.

(** The batch: pending rows of the queue, the oldest ones, each once. *)
Lemma today_in w p : camp_ok w → p ∈ today w → queue w !! pq_id p = Some p ∧ pq_status p = QPENDING.
Proof.
  intros [Hk _] Hp. unfold today in Hp. apply elem_of_take in Hp as (i & Hp%list_elem_of_lookup_2 & _).
  rewrite order_asc_perm in Hp. apply elem_of_find_many in Hp as [HP [k Hq]].
  rewrite (Hk k p Hq). split; [done|]. by apply bool_decide_eq_true in HP.
Qed.
Lemma today_NoDup w : camp_ok w → NoDup (pq_id <$> today w).
Proof.
  intros [Hk _]. unfold today. rewrite fmap_take. eapply sublist_NoDup; [|apply sublist_take].
  rewrite (order_asc_perm pq_createdAt). by apply NoDup_ids.
Qed.
Lemma today_length w : 0 ≤ cs_dailyCap (settings_of w) → Z.of_nat (length (today w)) ≤ cs_dailyCap (settings_of w).
Proof. intros Hc. unfold today. rewrite length_firstn. lia. Qed.

(** The two sets of the re-check, on the batch. *)
Definition existing_among (w : world) (l : list string) : list string :=
  u_email <$> find_many (user_among l) (db_users (w_db w)).
Definition suppressed_among (w : world) (l : list string) : list string :=
  es_email <$> find_many (suppression_among l) (db_emailSuppressions (w_db w)).
Lemma existing_spec w l e : e ∈ l → bool_decide (e ∈ existing_among w l) = has_account w e.
Proof.
  intros He. unfold has_account. apply bool_decide_ext. unfold existing_among. rewrite list_elem_of_fmap. split.
  - intros (u & -> & [Hu [k Hk]]%elem_of_find_many). destruct (find_row _ _) eqn:E; [by eexists|].
    rewrite find_row_None in E. specialize (E k u Hk). unfold seq_b in E. unbool. done.
  - intros [u [Hu [k Hk]]%find_row_Some]. exists u. unfold seq_b in Hu. unbool. split; [done|].
    apply elem_of_find_many. split; [|eauto]. unfold user_among. by apply bool_decide_eq_true_2; subst.
Qed.
Lemma suppressed_spec w l e : e ∈ l → bool_decide (e ∈ suppressed_among w l) = unsubscribed w e.
Proof.
  intros He. unfold unsubscribed. apply bool_decide_ext. unfold suppressed_among. rewrite list_elem_of_fmap. split.
  - intros (u & -> & [Hu [k Hk]]%elem_of_find_many). destruct (find_row _ _) eqn:E; [by eexists|].
    rewrite find_row_None in E. specialize (E k u Hk). unfold suppressed_row, seq_b in E. unbool. done.
  - intros [u [Hu [k Hk]]%find_row_Some]. exists u. unfold suppressed_row, seq_b in Hu. unbool. split; [done|].
    apply elem_of_find_many. split; [|eauto]. unfold suppression_among. by apply bool_decide_eq_true_2; subst.
Qed.

Lemma filter_iff_in {A} (P Q : A → Prop) `{∀ x, Decision (P x), ∀ x, Decision (Q x)} (l : list A) :
  (∀ x, x ∈ l → P x ↔ Q x) → filter P l = filter Q l.
Proof.
  induction l as [|x l IH]; intros Hl; [done|]. rewrite !filter_cons, IH by set_solver.
  assert (P x ↔ Q x) by (apply Hl; set_solver). repeat case_decide; tauto.
Qed.
(** The fate of a batch row is what the theorem says. *)
Lemma fate_of w B p : p ∈ B →
  fate (existing_among w (pq_email <$> B)) (suppressed_among w (pq_email <$> B)) p =
  if has_account w (pq_email p) then Some QSKIPPED_EXISTING_USER
  else if unsubscribed w (pq_email p) then Some QSKIPPED_UNSUBSCRIBED else None.
Proof.
  intros Hp. assert (pq_email p ∈ pq_email <$> B) by by apply list_elem_of_fmap_2.
  unfold fate. by rewrite existing_spec, suppressed_spec.
Qed.
Lemma to_send_mailed w B :
  to_send (existing_among w (pq_email <$> B)) (suppressed_among w (pq_email <$> B)) B = mailed w B.
Proof.
  unfold to_send, mailed. f_equal. apply filter_iff_in. intros p Hp. rewrite fate_of by done.
  unfold mailable. destruct (has_account w _), (unsubscribed w _); cbn; naive_solver.
Qed.

(** The queue after the skips and the final update. *)
Lemma queue_dripped w B :
  camp_ok w → (∀ p, p ∈ B → queue w !! pq_id p = Some p) →
  update_where (queued_among (mailed w B)) (λ p, set_pq_sentAt (Some (w_now w)) (set_pq_status QSENT p))
    (rewrite_rows (skipped (existing_among w (pq_email <$> B)) (suppressed_among w (pq_email <$> B))) B (queue w))
  = dripped w B <$> queue w.
Proof.
  intros Hok HB. apply map_eq. intros k. rewrite lookup_update_where. unfold rewrite_rows.
  rewrite !lookup_fmap. destruct (queue w !! k) as [r|] eqn:Hr; [|done]. cbn. f_equal.
  assert (Hsame : ∀ p, p ∈ B → pq_email p = pq_email r → p = r).
  { intros p Hp He. by destruct (one_row w (pq_id p) k p r Hok (HB p Hp) Hr He). }
  unfold dripped. case_bool_decide as HrB.
  - assert (Hmail : queued_among (mailed w B) (skipped (existing_among w (pq_email <$> B))
      (suppressed_among w (pq_email <$> B)) r) = mailable w r).
    { unfold queued_among. transitivity (bool_decide (mailable w r = true)); [|by destruct (mailable w r)].
      apply bool_decide_ext. unfold mailed. rewrite list_elem_of_fmap. setoid_rewrite list_elem_of_filter.
      assert (pq_email (skipped (existing_among w (pq_email <$> B)) (suppressed_among w (pq_email <$> B)) r)
              = pq_email r) as -> by (unfold skipped; by case_match).
      split; [intros (p & He & Hm & Hp); by rewrite <- (Hsame p Hp)|eauto]. }
    rewrite Hmail. unfold skipped. rewrite fate_of by done. unfold mailable.
    destruct (has_account w _), (unsubscribed w _); done.
  - assert (queued_among (mailed w B) r = false) as ->; [|done].
    apply bool_decide_eq_false_2. unfold mailed. rewrite list_elem_of_fmap.
    intros (p & He & Hp). apply list_elem_of_filter in Hp as [_ Hp]. by rewrite (Hsame p Hp) in Hp.
Qed.

Lemma mark_run toSend w :
  match toSend with [] => mret tt | _ => _ ← Email.sendProspectInviteBulk toSend; markSent toSend end w =
  (Ok tt, put_rows T_prospectInviteQueue
     (update_where (queued_among toSend) (λ p, set_pq_sentAt (Some (w_now w)) (set_pq_status QSENT p)) (queue w))
     (Email.bulk_queued (Email.cold_invite <$> toSend) w)).
Proof.
  destruct toSend as [|e l].
  - rewrite Email.bulk_queued_nil. unfold mret, M_ret. f_equal.
    assert (update_where (queued_among []) (λ p, set_pq_sentAt (Some (w_now w)) (set_pq_status QSENT p)) (queue w)
            = queue w) as ->; [|by rewrite put_same].
    apply map_eq. intros k. rewrite lookup_update_where. by destruct (queue w !! k).
  - unfold Email.sendProspectInviteBulk. rewrite run_bind, Email.enqueueBulk_run.
    unfold markSent, date_now, gets. rewrite !run_bind. unfold db_update_many, mret, M_ret, Email.bulk_queued.
    by destruct (w_redis_up w).
Qed.

(** A drip that is not paused, on its batch. *)
Lemma drip_run w :
  camp_ok w → cs_paused (settings_of w) = false →
  ∃ r w', runDailyDrip w = (Ok r, w') ∧ queue w' = dripped w (today w) <$> queue w ∧
    w_bulkQueue w' = (if w_redis_up w then w_bulkQueue w ++ (Email.cold_invite <$> mailed w (today w))
                      else w_bulkQueue w) ∧
    dr_sent r = len (mailed w (today w)) ∧ dr_batchSize r = len (today w).
Proof.
  intros Hok Hp. pose proof (today_NoDup w Hok) as Hnd. pose proof (λ p H, proj1 (today_in w p Hok H)) as Hin.
  unfold runDailyDrip. rewrite run_bind, settings_run, Hp. rewrite run_bind.
  unfold batch, db_find_many, gets. rewrite run_bind. cbn [mret M_ret].
  change (firstn _ (order_asc pq_createdAt _)) with (today w).
  remember (today w) as B eqn:HB. destruct B as [|p B].
  - eexists _, _. split; [reflexivity|]. cbn. split_and!; try done; [|by case_match; rewrite ?app_nil_r].
    apply map_eq. intros k. rewrite lookup_fmap.
    change (queue w !! k = dripped w [] <$> queue w !! k). destruct (queue w !! k) as [r|]; [|done].
    cbn. unfold dripped. by rewrite bool_decide_eq_false_2 by set_solver.
  - rewrite run_bind. unfold recheck, db_find_many, gets. rewrite !run_bind. cbn [mret M_ret fst snd].
    set (ws := with_settings w).
    change (u_email <$> _) with (existing_among w (pq_email <$> p :: B)).
    change (es_email <$> _) with (suppressed_among w (pq_email <$> p :: B)).
    rewrite run_bind.
    destruct (sort_run (existing_among w (pq_email <$> p :: B)) (suppressed_among w (pq_email <$> p :: B))
                (p :: B) ws [] 0 0) as (a & b & ->); [apply Hok|done|exact Hin|].
    rewrite app_nil_l, to_send_mailed, run_bind, mark_run.
    rewrite run_bind. unfold auditDrip. rewrite Audit.record_run by done.
    eexists _, _. split; [reflexivity|].
    split; [|split; [|done]].
    + etransitivity; [|apply queue_dripped; [done|exact Hin]]. unfold Email.bulk_queued.
      by destruct (w_redis_up _).
    + unfold Email.bulk_queued. cbn. by destruct (w_redis_up w).
Qed.
End drip.

(** Everything left pending is at least as young as the batch. *)
Lemma today_oldest w p q :
  p ∈ today w → q ∈ find_many (with_status QPENDING) (queue w) → q ∉ today w →
  pq_createdAt p ≤ pq_createdAt q.
Proof.
  intros Hp Hq Hnot. unfold today in *. set (n := Z.to_nat _) in *.
  rewrite <- (order_asc_perm pq_createdAt) in Hq.
  pose proof (order_asc_sorted pq_createdAt (find_many (with_status QPENDING) (queue w))) as Hs.
  set (l := order_asc pq_createdAt _) in *. rewrite <- (take_drop n l) in Hq, Hs.
  apply elem_of_app in Hq as [?|Hq]; [done|].
  exact (StronglySorted_app_1_elem_of (asc_on pq_createdAt) _ _ p q Hs Hp Hq).
Qed.

Section theorems.
Context {cfg : config} `{Entropy, IsEmail}.

(** C31. What one drip does. It never fails. Paused, it leaves the queue and
    the mail alone. Otherwise it takes the oldest pending rows, at most the
    daily cap, and decides each by the accounts and opt-outs of this moment,
    not of the upload: an address with an account or an opt-out is skipped,
    every other one is marked SENT; no other row changes. It queues exactly
    the invitations of the rows it marks SENT, in order - and none while
    Redis does not answer, though the rows are marked all the same. *)
Theorem drip_decision w :
  camp_ok w → 0 ≤ cs_dailyCap (settings_of w) →
  ∃ r w', runDailyDrip w = (Ok r, w') ∧
    if cs_paused (settings_of w) then
      r = nothing_sent ∧ queue w' = queue w ∧ w_bulkQueue w' = w_bulkQueue w
    else
      len (today w) ≤ cs_dailyCap (settings_of w) ∧
      (∀ p, p ∈ today w → queue w !! pq_id p = Some p ∧ pq_status p = QPENDING) ∧
      (∀ p k q, p ∈ today w → queue w !! k = Some q → pq_status q = QPENDING → q ∉ today w →
        pq_createdAt p ≤ pq_createdAt q) ∧
      queue w' = dripped w (today w) <$> queue w ∧
      w_bulkQueue w' = (if w_redis_up w then w_bulkQueue w ++ (Email.cold_invite <$> mailed w (today w))
                        else w_bulkQueue w) ∧
      dr_sent r = len (mailed w (today w)).
Proof.
  intros Hok Hcap. destruct (cs_paused (settings_of w)) eqn:Hp.
  - exists nothing_sent, (with_settings w). split; [|done].
    unfold runDailyDrip. by rewrite run_bind, settings_run, Hp.
  - destruct (drip_run w Hok Hp) as (r & w' & Hr & Hq & Hb & Hs & _). exists r, w'. split_and!; try done.
    + by apply today_length.
    + intros p Hin. by apply today_in.
    + intros p k q Hin Hk Hst Hnot. apply (today_oldest w p q); [done| |done].
      apply elem_of_find_many. split; [by apply bool_decide_eq_true_2|eauto].
Qed.

(** ** The campaign over time *)

(** What happens to the campaign; a drip is labelled with the addresses it
    puts on the mail queue. [Elsewhere] is anything that leaves the queue
    table alone: sign-ups, opt-outs, the workers, outages, time. *)
Inductive camp_step (w : world) : list string → world → Prop :=
| StepUpload by_ l : camp_step w [] (enqueueUploadedEmails by_ l w).2
| StepDrip l : w_bulkQueue (runDailyDrip w).2 = w_bulkQueue w ++ (Email.cold_invite <$> l) →
    camp_step w l (runDailyDrip w).2
| StepBounced e : camp_step w [] (markBounced e w).2
| StepComplained e : camp_step w [] (markComplained e w).2
| StepSettings a c p : camp_step w [] (updateSettings a c p w).2
| StepTemplate a d : camp_step w [] (updateEmailTemplate a d w).2
| Elsewhere w' : queue w' = queue w → camp_step w [] w'.
Inductive camp_run (w : world) : list string → world → Prop :=
| RunHere : camp_run w [] w
| RunStep l1 l2 w1 w2 : camp_run w l1 w1 → camp_step w1 l2 w2 → camp_run w (l1 ++ l2) w2.

(** The address is not waiting any more. *)
Definition spent (e : string) (w : world) : Prop :=
  ∃ k r, queue w !! k = Some r ∧ pq_email r = e ∧ pq_status r ≠ QPENDING.

Lemma prospect_conflict_sym a b : t_conflict T_prospectInviteQueue a b = t_conflict T_prospectInviteQueue b a.
Proof. cbn. unfold seq_b. apply bool_decide_ext. naive_solver. Qed.

(** Creating a row keeps the invariant and every spent address. *)
Lemma create_ok k r : pq_id r = k → respects (keeps camp_ok) (db_create T_prospectInviteQueue k r).
Proof.
  intros Hid w Hw. destruct (create_keeps T_prospectInviteQueue pq_id (λ _, True) prospect_conflict_sym
    (λ m d, eq_refl) k r Hid I w) as (H1 & H2 & _); [|done].
  destruct Hw. by split_and!.
Qed.
Lemma create_spent e k r : respects (keeps (spent e)) (db_create T_prospectInviteQueue k r).
Proof.
  intros w (k' & x & Hk & He & Hs). destruct (db_create _ k r w) as [[r'|err] w'] eqn:E.
  - apply db_create_inv in E as (_ & Hnone & _ & _ & ->). exists k', x. split; [|done].
    cbn. unfold queue. cbn. rewrite lookup_insert_ne; [done|]. intros ->.
    change (queue w !! k' = None) in Hnone. congruence.
  - apply db_create_err in E as ->. by exists k', x.
Qed.
(** So does rewriting the status of rows that are not waiting. *)
Lemma status_many_ok P st : st ≠ QPENDING →
  respects (keeps camp_ok) (db_update_many T_prospectInviteQueue P (set_pq_status st)) ∧
  ∀ e, respects (keeps (spent e)) (db_update_many T_prospectInviteQueue P (set_pq_status st)).
Proof.
  intros Hst. split.
  - intros w [Hk Hu]. split.
    + apply keyed_update_where; [by intros []|done].
    + intros k1 k2 r1 r2 H1 H2 Hne.
      destruct (lookup_update_where_Some _ _ _ _ _ H1) as (x1 & Hx1 & ->).
      destruct (lookup_update_where_Some _ _ _ _ _ H2) as (x2 & Hx2 & ->).
      specialize (Hu k1 k2 x1 x2 Hx1 Hx2 Hne). cbn in *. by destruct (P x1), (P x2).
  - intros e w (k & r & Hk & He & Hs). exists k, (if P r then set_pq_status st r else r). cbn.
    unfold queue. cbn. rewrite lookup_update_where. unfold queue in Hk. rewrite Hk. cbn.
    by destruct (P r).
Qed.

(** An operation that leaves the queue table alone. *)
Lemma queue_frame {A} (m : M A) w :
  respects (same queue) m → camp_ok w → camp_ok (m w).2 ∧ ∀ e, spent e w → spent e (m w).2.
Proof. intros Hm Hok. specialize (Hm w). unfold same in Hm. unfold camp_ok, spent. by rewrite Hm. Qed.

Lemma createMany_keeps by_ l w :
  camp_ok w → camp_ok (createMany by_ l w).2 ∧ ∀ e, spent e w → spent e (createMany by_ l w).2.
Proof.
  intros Hok.
  assert (Hrow : ∀ R `{!PreOrder R},
    (∀ w w', R w w' → R w (put_db (w_db w) w')) → (∀ n w, R w (put_tick n w)) →
    (∀ id e now, respects R (db_create T_prospectInviteQueue id (Mk_prospect id e QPENDING (Some by_) now None))) →
    respects R (createMany by_ l)).
  { intros R ? Hdb Htick Hc. unfold createMany. apply respects_transaction; [done|].
    apply respects_for_each; [done|]. intros e. unfold createSkipping.
    apply respects_bind; [done|by apply respects_random_uuid|]. intros id.
    apply respects_bind; [done|by apply respects_gets|]. intros now. apply respects_try; [done| |].
    - apply respects_bind; [done|apply Hc|]. intros _. by apply respects_ret.
    - intros x. case_bool_decide; [by apply respects_ret|by apply respects_throw]. }
  split.
  - apply (Hrow (keeps camp_ok) _); [intros w1 w2 _ H1; exact H1|intros n w1 H1; exact H1| |done].
    intros. by apply create_ok.
  - intros e He. apply (Hrow (keeps (spent e)) _); [intros w1 w2 _ H1; exact H1|intros n w1 H1; exact H1| |done].
    intros. by apply create_spent.
Qed.

Lemma upload_keeps by_ l w :
  camp_ok w → camp_ok (enqueueUploadedEmails by_ l w).2 ∧
    ∀ e, spent e w → spent e (enqueueUploadedEmails by_ l w).2.
Proof.
  intros Hok. unfold enqueueUploadedEmails. cbv zeta. rewrite run_bind.
  set (look := fold_each _ _ _). assert (Hl : respects (same queue) look).
  { unfold look. apply respects_fold_each; [apply _|]. intros [[us ss] qs] c. unfold lookupChunk. frame_tac. }
  pose proof (queue_frame look w Hl Hok) as [Hok1 Hs1]. destruct (look w) as [[[[us ss] qs]|e] w1]; [|done].
  cbn [snd] in *. set (toQueue := filter _ _). rewrite run_bind.
  assert (Hc : camp_ok (when (0 <? len toQueue) (createMany by_ toQueue) w1).2 ∧
    ∀ e, spent e w1 → spent e (when (0 <? len toQueue) (createMany by_ toQueue) w1).2).
  { destruct (0 <? len toQueue); [by apply createMany_keeps|done]. }
  destruct (when _ _ w1) as [[[]|e] w2]; cbn [snd] in Hc; destruct Hc as [Hok2 Hs2]; [|by split; eauto].
  rewrite run_bind. set (rec := Audit.record _).
  assert (Hr : respects (same queue) rec) by (unfold rec; frame_tac).
  destruct (queue_frame rec w2 Hr Hok2) as [Hok3 Hs3].
  destruct (rec w2) as [[[]|e] w3]; cbn [snd] in *; split; eauto.
Qed.
Lemma suppress_keeps st e w :
  st ≠ QPENDING → camp_ok w →
  camp_ok (suppressAndUpdateStatus e st w).2 ∧ ∀ x, spent x w → spent x (suppressAndUpdateStatus e st w).2.
Proof.
  intros Hst Hok. unfold suppressAndUpdateStatus. cbv zeta. rewrite run_bind.
  set (sup := suppress _). assert (Hsup : respects (same queue) sup) by (unfold sup, suppress; frame_tac).
  destruct (queue_frame sup w Hsup Hok) as [Hok1 Hs1]. destruct (sup w) as [[[]|x] w1]; [|done]. cbn [snd] in *.
  destruct (status_many_ok (sent_to (Users.normalizeEmail e)) st Hst) as [H1 H2].
  rewrite run_bind. specialize (H1 w1 Hok1). split; [exact H1|]. intros x Hx. exact (H2 x w1 (Hs1 x Hx)).
Qed.

(** The drip: it settles what it mails, and mails nothing settled. *)
Lemma mailed_NoDup w : camp_ok w → NoDup (mailed w (today w)).
Proof.
  intros Hok. unfold mailed. pose proof (today_NoDup w Hok) as Hnd.
  assert (Hin : ∀ p, p ∈ today w → queue w !! pq_id p = Some p) by (intros p Hp; by apply today_in).
  induction (today w) as [|p B IH]; [constructor|]. cbn in Hnd. apply NoDup_cons in Hnd as [Hnot Hnd].
  specialize (IH Hnd ltac:(intros; apply Hin; set_solver)). rewrite filter_cons. case_decide; [|done].
  cbn. constructor; [|done]. rewrite list_elem_of_fmap. intros (q & He & [_ Hq]%list_elem_of_filter).
  destruct (one_row w (pq_id p) (pq_id q) p q Hok) as [Hid _];
    [apply Hin; set_solver|apply Hin; set_solver|done|].
  apply Hnot. rewrite Hid. by apply list_elem_of_fmap_2.
Qed.
Lemma drip_keeps l w :
  camp_ok w → w_bulkQueue (runDailyDrip w).2 = w_bulkQueue w ++ (Email.cold_invite <$> l) →
  camp_ok (runDailyDrip w).2 ∧ (∀ e, spent e w → spent e (runDailyDrip w).2) ∧
  NoDup l ∧ ∀ e, e ∈ l → ¬ spent e w ∧ spent e (runDailyDrip w).2.
Proof.
  intros Hok Hl. assert (Hinj : Inj eq eq Email.cold_invite) by (intros a b [= ->]; done).
  destruct (cs_paused (settings_of w)) eqn:Hp.
  { unfold runDailyDrip in *. rewrite run_bind, settings_run, Hp in *. cbn in Hl.
    rewrite <- (app_nil_r (w_bulkQueue w)) in Hl at 1. apply app_inv_head in Hl.
    symmetry in Hl. apply fmap_nil_inv in Hl as ->. split; [exact Hok|]. split; [done|]. split; [constructor|set_solver]. }
  destruct (drip_run w Hok Hp) as (r & w' & Hr & Hq & Hb & _). rewrite Hr in *. cbn [snd] in *.
  assert (Hk : ∀ k x, queue w' !! k = Some x → ∃ y, queue w !! k = Some y ∧ x = dripped w (today w) y).
  { intros k x Hx. rewrite Hq, lookup_fmap in Hx. destruct (queue w !! k) as [y|]; [|done].
    exists y. by split; [|simplify_eq/=]. }
  assert (Hdr : ∀ y, pq_id (dripped w (today w) y) = pq_id y ∧ pq_email (dripped w (today w) y) = pq_email y).
  { intros y. unfold dripped. repeat case_match; done. }
  assert (Hspent : ∀ e, spent e w → spent e w').
  { intros e (k & x & Hx & He & Hs). exists k, (dripped w (today w) x). rewrite Hq, lookup_fmap, Hx.
    split_and!; [done|by rewrite (proj2 (Hdr x))|]. unfold dripped. case_bool_decide as Hin; [|done].
    apply today_in in Hin as [_ Hin]; done. }
  split; [|split; [done|]].
  - destruct Hok as [Hid Hu]. split.
    + intros k x Hx. destruct (Hk k x Hx) as (y & Hy & ->). rewrite (proj1 (Hdr y)). by apply Hid.
    + intros k1 k2 r1 r2 H1 H2 Hne. destruct (Hk k1 r1 H1) as (y1 & Hy1 & ->).
      destruct (Hk k2 r2 H2) as (y2 & Hy2 & ->). specialize (Hu k1 k2 y1 y2 Hy1 Hy2 Hne). cbn in *.
      by rewrite (proj2 (Hdr y1)), (proj2 (Hdr y2)).
  - assert (Hsub : l = mailed w (today w) ∨ l = []).
    { rewrite Hb in Hl. destruct (w_redis_up w).
      - left. apply app_inv_head in Hl. by apply (inj (fmap Email.cold_invite)).
      - right. rewrite <- (app_nil_r (w_bulkQueue w)) in Hl at 1. apply app_inv_head in Hl.
        symmetry in Hl. by apply fmap_nil_inv in Hl. }
    destruct Hsub as [->| ->]; [|split; [constructor|set_solver]].
    split; [by apply mailed_NoDup|]. intros e He. unfold mailed in He.
    apply list_elem_of_fmap in He as (p & -> & [Hm Hin]%list_elem_of_filter).
    destruct (today_in w p Hok Hin) as [Hrow Hpend]. split.
    + intros (k & x & Hx & He & Hs). destruct (one_row w k (pq_id p) x p Hok Hx Hrow He) as [_ ->]. done.
    + exists (pq_id p), (dripped w (today w) p). rewrite Hq, lookup_fmap, Hrow.
      split_and!; [done|by apply Hdr|]. unfold dripped. rewrite bool_decide_eq_true_2 by done.
      unfold mailable in Hm. by destruct (has_account w _), (unsubscribed w _).
Qed.

Lemma step_keeps w l w' :
  camp_step w l w' → camp_ok w →
  camp_ok w' ∧ (∀ e, spent e w → spent e w') ∧ NoDup l ∧ ∀ e, e ∈ l → ¬ spent e w ∧ spent e w'.
Proof.
  intros Hs Hok. inversion Hs; subst.
  2: by apply drip_keeps.
  1: destruct (upload_keeps by_ l0 w Hok) as [K1 K2].
  2: destruct (suppress_keeps QBOUNCED e w ltac:(done) Hok) as [K1 K2].
  3: destruct (suppress_keeps QCOMPLAINED e w ltac:(done) Hok) as [K1 K2].
  4: destruct (queue_frame (updateSettings a c p) w) as [K1 K2];
       [unfold updateSettings, upsertSettings; frame_tac|done|].
  5: destruct (queue_frame (updateEmailTemplate a d) w) as [K1 K2];
       [unfold updateEmailTemplate, getEmailTemplate, getOrCreateSettings, upsertSettings; frame_tac|done|].
  6: assert (camp_ok w' ∧ ∀ e, spent e w → spent e w') as [K1 K2]
       by (unfold camp_ok, spent; by match goal with H : queue w' = _ |- _ => rewrite H end).
  all: split; [exact K1|]; split; [exact K2|]; split; [constructor|]; intros ? []%elem_of_nil.
Qed.

(** C32. The campaign mails an address at most once. However uploads, drips,
    bounces, complaints, settings, sign-ups, opt-outs, outages and the workers
    follow each other, the invitations that all the drips together put on the
    mail queue go to distinct addresses, none of which was already past
    PENDING when the run began; and an address past PENDING stays so. *)
Theorem mailed_once w L w' :
  camp_ok w → camp_run w L w' →
  NoDup L ∧ (∀ e, e ∈ L → ¬ spent e w ∧ spent e w') ∧ (∀ e, spent e w → spent e w').
Proof.
  intros Hok Hrun. enough (camp_ok w' ∧ NoDup L ∧ (∀ e, e ∈ L → ¬ spent e w ∧ spent e w') ∧
    (∀ e, spent e w → spent e w')) by tauto.
  induction Hrun as [|l1 l2 w1 w2 _ (Hok1 & Hnd & Hl & Hs) Hstep].
  { split_and!; [done|constructor| |done]. intros e []%elem_of_nil. }
  destruct (step_keeps w1 l2 w2 Hstep Hok1) as (Hok2 & Hs2 & Hnd2 & Hl2). split_and!; [done| | |eauto].
  - apply NoDup_app. split_and!; [done| |done]. intros e He He2. by apply (Hl2 e He2), (Hl e He).
  - intros e [He|He]%elem_of_app; [split; [by apply Hl|by apply Hs2, Hl]|].
    split; [|by apply Hl2]. intros H1. by apply (Hl2 e He), Hs.
Qed.

(** ** Overlapping drips *)

(** A drip by itself is its four steps. *)
Definition four_steps : M drip_phase :=
  p ← drip_step DripRead; p ← drip_step p; p ← drip_step p; drip_step p.
Lemma bulk_run l w :
  Email.sendProspectInviteBulk l w = (Ok tt, Email.bulk_queued (Email.cold_invite <$> l) w).
Proof. apply Email.enqueueBulk_run. Qed.
Lemma drip_is_its_steps w :
  four_steps w = let '(r, w') := runDailyDrip w in
                 (match r with Ok a => Ok (DripDone a) | Err e => Err e end, w').
Proof.
  unfold four_steps, runDailyDrip. rewrite !run_bind. cbn [drip_step]. rewrite !run_bind, settings_run.
  destruct (cs_paused (settings_of w)); [done|].
  unfold batch, db_find_many, gets. rewrite !run_bind. cbn [mret M_ret].
  destruct (firstn _ _) as [|c cs]; [done|].
  unfold recheck, db_find_many, gets. rewrite !run_bind. cbn [mret M_ret fst snd drip_step].
  rewrite !run_bind. destruct (fold_each _ _ _ _) as [[[[toSend a] b]|e] w1]; [|done].
  cbn [drip_step]. rewrite !run_bind. destruct toSend as [|t ts].
  - cbn [mret M_ret].
    cbn [drip_step]. rewrite !run_bind. cbn [mret M_ret]. cbn [drip_step].
    rewrite !run_bind. cbn [mret M_ret]. rewrite !run_bind. by destruct (auditDrip _ _) as [[[]|e] w2].
  - repeat first [rewrite run_bind | rewrite bulk_run | progress cbn [mret M_ret drip_step]].
    destruct (markSent _ _) as [[[]|e] w2]; [|done].
    repeat first [rewrite run_bind | progress cbn [mret M_ret drip_step]].
    by destruct (auditDrip _ _) as [[[]|e] w3].
Qed.
(** Two drips that take turns, as when an admin presses "Send now" during the
    scheduled run. *)
Definition overlapped : M (drip_phase * drip_phase) :=
  p ← drip_step DripRead; q ← drip_step DripRead;
  p ← drip_step p; q ← drip_step q;
  p ← drip_step p; q ← drip_step q;
  p ← drip_step p; q ← drip_step q;
  mret (p, q).

(** A batch without skips leaves the rows as they are. *)
Lemma sort_clean ws ex su cs ts a b :
  Forall (λ c, fate ex su c = None) cs →
  fold_each cs (sort_candidate ex su) (ts, a, b) ws = (Ok (ts ++ (pq_email <$> cs), a, b), ws).
Proof.
  intros Hf. revert ts. induction Hf as [|c cs Hc _ IH]; intros ts; [by rewrite app_nil_r|].
  cbn [fold_each]. rewrite run_bind. unfold sort_candidate at 1. unfold fate in Hc.
  case_bool_decide; [done|]. case_bool_decide; [done|]. cbn [mret M_ret]. rewrite IH.
  by rewrite <- app_assoc.
Qed.

(** C33. Two drips that overlap mail their batch twice: each of them reads
    the pending rows before the other has marked them. *)
Theorem drip_race w :
  camp_ok w → cs_paused (settings_of w) = false → w_redis_up w = true →
  Forall (λ p, mailable w p = true) (today w) →
  ∃ r w', overlapped w = (Ok r, w') ∧
    w_bulkQueue w' = w_bulkQueue w ++ (Email.cold_invite <$> mailed w (today w))
                                   ++ (Email.cold_invite <$> mailed w (today w)).
Proof.
  intros Hok Hp Hup Hm. set (ws := with_settings w).
  assert (Hs2 : getOrCreateSettings ws = (Ok (settings_of w), ws)).
  { rewrite settings_run. unfold ws, with_settings, settings_of. cbn. rewrite lookup_insert_eq. cbn.
    unfold put_rows. cbn. by rewrite insert_insert_eq. }
  remember (today w) as B eqn:HB.
  assert (Hemails : mailed w B = pq_email <$> B).
  { unfold mailed. f_equal. clear HB. induction Hm as [|p B Hx _ IH]; [done|].
    rewrite filter_cons_True by done. by rewrite IH. }
  assert (Hread : ∀ v, getOrCreateSettings v = (Ok (settings_of w), ws) →
    drip_step DripRead v = (Ok (match B with [] => DripDone nothing_sent
      | _ => DripSort B (existing_among w (pq_email <$> B)) (suppressed_among w (pq_email <$> B)) end), ws)).
  { intros v Hv. cbn [drip_step]. rewrite run_bind, Hv, Hp. unfold batch, db_find_many, gets.
    rewrite !run_bind. cbn [mret M_ret]. change (firstn _ (order_asc pq_createdAt _)) with (today w).
    rewrite <- HB. by destruct B. }
  unfold overlapped. rewrite run_bind, (Hread w) by apply settings_run. rewrite run_bind, (Hread ws) by done.
  destruct B as [|p0 B0].
  { cbn [drip_step]. rewrite !run_bind. cbn [mret M_ret].
    eexists _, _. split; [reflexivity|]. by rewrite app_nil_r. }
  assert (Hclean : Forall (λ c, fate (existing_among w (pq_email <$> p0 :: B0))
    (suppressed_among w (pq_email <$> p0 :: B0)) c = None) (p0 :: B0)).
  { rewrite Forall_forall in *. intros c Hc. rewrite fate_of by done. specialize (Hm c Hc).
    unfold mailable in Hm. by destruct (has_account w _), (unsubscribed w _). }
  cbn [drip_step]. rewrite !run_bind, sort_clean by done. cbn [mret M_ret].
  rewrite !run_bind, sort_clean by done. rewrite !app_nil_l. cbn [mret M_ret drip_step].
  rewrite Hemails. set (ts := pq_email <$> p0 :: B0).
  assert (Hsend : ∀ v, w_redis_up v = true →
    match ts with [] => mret tt | _ => Email.sendProspectInviteBulk ts end v =
    (Ok tt, put_bulkQueue (w_bulkQueue v ++ (Email.cold_invite <$> ts)) v)).
  { intros v Hv. unfold ts, Email.sendProspectInviteBulk. cbn. rewrite Email.enqueueBulk_run.
    unfold Email.bulk_queued. by rewrite Hv. }
  rewrite !run_bind, Hsend by done. cbn [mret M_ret]. rewrite !run_bind, Hsend by done.
  cbn [mret M_ret drip_step].
  assert (Hmark : ∀ v r, ∃ v', (_ ← match ts with [] => mret tt | _ => markSent ts end; _ ← auditDrip r;
      mret (DripDone r)) v = (Ok (DripDone r), v') ∧ w_bulkQueue v' = w_bulkQueue v).
  { intros v r. unfold ts. cbn [list_fmap fmap]. rewrite !run_bind. unfold markSent, date_now, gets.
    rewrite !run_bind. unfold db_update_many. cbn [mret M_ret]. rewrite !run_bind. unfold auditDrip.
    rewrite Audit.record_run by done. by eexists. }
  rewrite run_bind. edestruct Hmark as (v1 & -> & Hb1). rewrite run_bind.
  edestruct Hmark as (v2 & -> & Hb2). cbn [mret M_ret]. eexists _, v2. split; [reflexivity|].
  rewrite Hb2, Hb1. cbn. by rewrite <- app_assoc.
Qed.

(** ** Progress *)
Definition pending (w : world) : Z := count_rows (with_status QPENDING) (queue w).
Fixpoint drips (n : nat) (w : world) : world :=
  match n with O => w | S n => drips n (runDailyDrip w).2 end.

Lemma drip_settings w : settings_of (runDailyDrip w).2 = settings_of w.
Proof.
  assert (Hws : settings_of (with_settings w) = settings_of w).
  { unfold with_settings, settings_of. cbn. by rewrite lookup_insert_eq. }
  transitivity (settings_of (with_settings w)); [|done].
  unfold runDailyDrip. rewrite run_bind, settings_run.
  match goal with |- settings_of (?m _).2 = _ => enough (respects (same settings_of) m) as Hm by exact (Hm (with_settings w)) end.
  case_match; [frame_tac|]. unfold batch, recheck, auditDrip, markSent.
  assert (∀ a b acc c, respects (same settings_of) (sort_candidate a b acc c)).
  { intros a b [[ts x] y] c. unfold sort_candidate. frame_tac. }
  frame_tac. unfold Email.sendProspectInviteBulk. frame_tac.
Qed.
Lemma today_count w : camp_ok w → 0 ≤ cs_dailyCap (settings_of w) →
  len (today w) = Z.min (cs_dailyCap (settings_of w)) (pending w).
Proof.
  intros [Hk _] Hcap. unfold len, today, pending. rewrite length_firstn, (Permutation_length (order_asc_perm _ _)).
  rewrite <- (length_find_many pq_id) by done. lia.
Qed.
Lemma drip_pending w :
  camp_ok w → 0 ≤ cs_dailyCap (settings_of w) → cs_paused (settings_of w) = false →
  camp_ok (runDailyDrip w).2 ∧ pending (runDailyDrip w).2 = Z.max 0 (pending w - cs_dailyCap (settings_of w)).
Proof.
  intros Hok Hcap Hp. destruct (drip_run w Hok Hp) as (r & w' & Hr & Hq & Hb & _).
  assert (Hl : ∃ l, w_bulkQueue w' = w_bulkQueue w ++ (Email.cold_invite <$> l)).
  { destruct (w_redis_up w); [by eexists|exists []; by rewrite Hb, app_nil_r]. }
  destruct Hl as [l Hl]. destruct (drip_keeps l w Hok) as [Hok' _]; [by rewrite Hr|]. split; [done|].
  rewrite Hr in *. cbn [snd] in *. pose proof (today_count w Hok Hcap) as Hlen.
  unfold pending at 1. rewrite Hq.
  set (f r := if has_account w (pq_email r) then set_pq_status QSKIPPED_EXISTING_USER r
    else if unsubscribed w (pq_email r) then set_pq_status QSKIPPED_UNSUBSCRIBED r
    else set_pq_sentAt (Some (w_now w)) (set_pq_status QSENT r)).
  assert (dripped w (today w) <$> queue w =
    update_where (λ r, bool_decide (pq_id r ∈ pq_id <$> today w)) f (queue w)) as ->.
  { apply map_eq. intros k. rewrite lookup_fmap, lookup_update_where.
    destruct (queue w !! k) as [x|] eqn:Hx; [|done]. cbn. f_equal. unfold dripped. fold (f x).
    rewrite (bool_decide_ext (x ∈ today w) (pq_id x ∈ pq_id <$> today w)); [done|].
    split; [apply list_elem_of_fmap_2|]. intros (p & He & Hin)%list_elem_of_fmap.
    destruct (today_in w p Hok Hin) as [Hrow _]. destruct Hok as [Hk _].
    rewrite <- He, (Hk k x Hx), Hx in Hrow. by simplify_eq. }
  rewrite (count_update_ids pq_id).
  - rewrite length_fmap. change (count_rows _ (queue w)) with (pending w). fold (len (today w)).
    unfold len in *. pose proof (count_rows_nonneg (with_status QPENDING) (queue w)).
    change (count_rows _ (queue w)) with (pending w) in *. lia.
  - apply Hok.
  - intros x. unfold f, with_status. by repeat case_match.
  - by apply today_NoDup.
  - intros k (p & -> & Hin)%list_elem_of_fmap. destruct (today_in w p Hok Hin) as [Hrow Hst].
    exists p. apply lookup_rows_Some. split; [done|]. by apply bool_decide_eq_true_2.
Qed.

(** The queue drains: while the campaign is not paused and nothing is
    uploaded, each drip decides a full batch, so that after [n] drips exactly
    [n] daily caps fewer addresses are waiting, and none is after enough
    drips - Redis up or not. *)
Lemma drip_drains n w :
  camp_ok w → 1 ≤ cs_dailyCap (settings_of w) → cs_paused (settings_of w) = false →
  pending (drips n w) = Z.max 0 (pending w - Z.of_nat n * cs_dailyCap (settings_of w)) ∧
  (pending w ≤ Z.of_nat n → pending (drips n w) = 0).
Proof.
  intros Hok Hcap Hp.
  assert (Hn : pending (drips n w) = Z.max 0 (pending w - Z.of_nat n * cs_dailyCap (settings_of w))).
  { revert w Hok Hcap Hp. induction n as [|n IH]; intros w Hok Hcap Hp; cbn [drips].
    { pose proof (count_rows_nonneg (with_status QPENDING) (queue w)). unfold pending in *. lia. }
    destruct (drip_pending w Hok) as [Hok' Hpend]; [lia|done|].
    rewrite IH by (rewrite ?drip_settings; done). rewrite drip_settings, Hpend. lia. }
  split; [done|]. intros Hle. rewrite Hn. nia.
Qed.
End theorems.

(** ** Witnesses *)
Section witnesses.
#[local] Existing Instance default_config.
#[local] Existing Instance counter_entropy.
#[local] Instance any_email : IsEmail := {| isEmail e := Str.includes "@" e |}.
Definition ann : user := Users.new_user "u1" "ann@example.com" "Ann" "hash" None USER false false 0.
Definition waiting (id email : string) (t : Z) : prospect := Mk_prospect id email QPENDING None t None.
(** Three addresses wait; Ann has an account, Bob has opted out. *)
Definition campaign (up : bool) : world :=
  put_redis_up up (put_db
    (set_db_prospectInviteQueue {[ "q1" := waiting "q1" "ann@example.com" 1;
                                   "q2" := waiting "q2" "bob@example.com" 2;
                                   "q3" := waiting "q3" "carl@example.com" 3 ]}
      (set_db_emailSuppressions {[ "s1" := Mk_suppression "s1" "bob@example.com" 0 ]}
        (set_db_users {[ "u1" := ann ]} empty_db))) (initial_world 0)).
(** Only Carl waits. *)
Definition one_waiting : world :=
  put_redis_up true (put_db
    (set_db_prospectInviteQueue {[ "q3" := waiting "q3" "carl@example.com" 3 ]} empty_db) (initial_world 0)).
Lemma campaign_ok up : camp_ok (campaign up).
Proof. split; [apply keyed_check|apply unique_check]; destruct up; vm_compute; reflexivity. Qed.
Lemma one_waiting_ok : camp_ok one_waiting.
Proof. split; [apply keyed_check|apply unique_check]; vm_compute; reflexivity. Qed.

Lemma drip_decision_witness :
  ∃ r w', runDailyDrip (campaign true) = (Ok r, w') ∧
    w_bulkQueue w' = [Email.cold_invite "carl@example.com"] ∧ dr_sent r = 1.
Proof.
  destruct (drip_decision (campaign true) (campaign_ok true)) as (r & w' & Hr & H);
    [vm_compute; discriminate|].
  change (cs_paused (settings_of (campaign true))) with false in H.
  destruct H as (_ & _ & _ & _ & Hb & Hs). exists r, w'. split; [exact Hr|]. rewrite Hb, Hs.
  split; vm_compute; reflexivity.
Defined.
Lemma mailed_once_witness : NoDup ["carl@example.com"] ∧ ¬ spent "carl@example.com" (campaign true).
Proof.
  assert (Hrun : camp_run (campaign true) ([] ++ ["carl@example.com"]) (runDailyDrip (campaign true)).2).
  { eapply RunStep; [apply RunHere|]. apply StepDrip. vm_compute. reflexivity. }
  destruct (mailed_once _ _ _ (campaign_ok true) Hrun) as (Hnd & Hl & _).
  split; [exact Hnd|]. apply Hl. set_solver.
Defined.
Lemma drip_race_witness :
  ∃ r w', overlapped one_waiting = (Ok r, w') ∧
    w_bulkQueue w' = [Email.cold_invite "carl@example.com"; Email.cold_invite "carl@example.com"].
Proof.
  destruct (drip_race one_waiting one_waiting_ok) as (r & w' & Hr & Hb).
  - reflexivity.
  - reflexivity.
  - vm_compute. repeat constructor.
  - exists r, w'. split; [exact Hr|]. rewrite Hb. vm_compute. reflexivity.
Defined.
Lemma drip_drains_witness : pending (campaign false) = 3 ∧ pending (drips 3 (campaign false)) = 0.
Proof.
  split; [vm_compute; reflexivity|].
  apply (drip_drains 3 (campaign false) (campaign_ok false)).
  - vm_compute. discriminate.
  - reflexivity.
  - vm_compute. discriminate.
Defined.
End witnesses.
