(* ===== verification/Outreach.v ===== *)
(** Three small services: invitations between users (invites/invites.service.ts),
    the contact form (contact/contact.service.ts), and the daily renewal
    reminders (renewal-reminder/renewal-reminder.service.ts and its
    processor). *)
From S2P Require Import Prelude JsLib Crypto Schema Effects Platform Config Messaging Users.

(** ** InvitesService *)
Module Invites.
Section invites.
Context {cfg : config} `{Entropy}.

Definition invited (inviterId email : string) (i : invite) : bool :=
  seq_b (i_inviterId i) inviterId && seq_b (i_email i) email.
Definition createInvite (inviterId rawEmail : string) : M string :=
  let email := Users.normalizeEmail rawEmail in
  o ← Users.findById inviterId;
  match o with
  | None => NotFound "Inviter not found"
  | Some inviter =>
      if seq_b email (u_email inviter) then BadRequest "You can't invite yourself." else
      existingUser ← Users.findByEmail email;
      match existingUser with
      | Some _ => BadRequest "This person already has an account."
      | None =>
          existingInvite ← db_find_by T_invites (invited inviterId email);
          _ ← match existingInvite with
              | Some _ => mret tt
              | None =>
                  id ← random_uuid; now ← date_now;
                  _ ← db_create T_invites id (Mk_invite id inviterId email InvitePENDING now None); mret tt
              end;
          _ ← Email.sendInviteEmail email (u_fullName inviter);
          mret "Invitation sent."
      end
  end.
(** Id, address, status, creation and acceptance of each invitation. *)
Definition listInvites (inviterId : string) : M (list (string * string * invite_status * Z * option Z)) :=
  l ← db_find_many T_invites (λ i, seq_b (i_inviterId i) inviterId);
  mret ((λ i, (i_id i, i_email i, i_status i, i_createdAt i, i_acceptedAt i)) <$> order_desc i_createdAt l).
End invites.
End Invites.

(** ** ContactService *)
Module Contact.
Definition reason_name (r : contact_reason) : string :=
  match r with
  | BILLING => "BILLING" | ACCOUNT_ISSUE => "ACCOUNT_ISSUE" | REMOVE_RECORD => "REMOVE_RECORD"
  | OTHER => "OTHER"
  end.
Definition submit `{Entropy} (name email : string) (reason : contact_reason) (message : string) : M string :=
  id ← random_uuid; now ← date_now;
  _ ← db_create T_contactMessages id (Mk_contact_message id name email reason message false now);
  _ ← Email.sendContactFormMessage name email (reason_name reason) message;
  mret "Thanks — we'll get back to you soon.".
End Contact.

(** ** RenewalReminderService *)
Module Renewal.
Definition REMINDER_WINDOW_START_DAYS : Z := 6.
Definition REMINDER_WINDOW_END_DAYS : Z := 8.

Definition paying (s : subscription_status) : bool := match s with ACTIVE | TRIALING => true | _ => false end.
(** The row renews within the window. *)
Definition in_window (now periodEnd : Z) : bool :=
  (now + REMINDER_WINDOW_START_DAYS * 24 * 60 * 60 * 1000 <=? periodEnd)
  && (periodEnd <=? now + REMINDER_WINDOW_END_DAYS * 24 * 60 * 60 * 1000).
Definition due (now : Z) (s : subscription) : bool :=
  paying (sub_status s) && negb (sub_cancelAtPeriodEnd s) && in_window now (sub_currentPeriodEnd s).
Definition lf_due (now : Z) (s : lf_subscription) : bool :=
  paying (lfs_status s) && negb (lfs_cancelAtPeriodEnd s) && in_window now (lfs_currentPeriodEnd s).

(** The relations [user] and [plan] of a row, which its foreign keys provide;
    without them the property access throws. *)
Definition related {A} (o : option A) : M A :=
  match o with Some a => mret a | None => throw (JsError "TypeError") end.
(** One reminder; a failure is logged and leaves the row unmarked. *)
Definition remind (sent : Z) (s : subscription) : M Z :=
  if bool_decide (sub_renewalReminderSentForPeriodEnd s = Some (sub_currentPeriodEnd s)) then mret sent else
  try_catch
    (ou ← db_find T_users (sub_userId s); user ← related ou;
     op ← db_find T_plans (sub_planId s); plan ← related op;
     _ ← Email.sendRenewalReminder (u_email user) (pl_name plan) (sub_currentPeriodEnd s) (pl_amountCents plan);
     _ ← db_update T_subscriptions (sub_id s)
           (set_sub_renewalReminderSentForPeriodEnd (Some (sub_currentPeriodEnd s)));
     mret (sent + 1))
    (λ _, mret sent).
Definition lf_remind (sent : Z) (s : lf_subscription) : M Z :=
  if bool_decide (lfs_renewalReminderSentForPeriodEnd s = Some (lfs_currentPeriodEnd s)) then mret sent else
  try_catch
    (ou ← db_find T_users (lfs_userId s); user ← related ou;
     ot ← db_find T_leadFinderTiers (lfs_tierId s); tier ← related ot;
     _ ← Email.sendRenewalReminder (u_email user) ("Lead Finder " +:+ lt_name tier)
           (lfs_currentPeriodEnd s) (lt_amountCents tier);
     _ ← db_update T_leadFinderSubscriptions (lfs_id s)
           (set_lfs_renewalReminderSentForPeriodEnd (Some (lfs_currentPeriodEnd s)));
     mret (sent + 1))
    (λ _, mret sent).
Definition sendDueReminders : M Z :=
  now ← date_now;
  directorySubs ← db_find_many T_subscriptions (due now);
  sent ← fold_each directorySubs remind 0;
  leadFinderSubs ← db_find_many T_leadFinderSubscriptions (lf_due now);
  fold_each leadFinderSubs lf_remind sent.
(** [RenewalReminderProcessor.process]. *)
Definition process (name : string) : M unit :=
  if seq_b name "scan" then _ ← sendDueReminders; mret tt else mret tt.
End Renewal.
