(* ===== verification/Admin.v ===== *)
(** AdminService (admin/admin.service.ts): what staff see of accounts,
    subscriptions, revenue, sessions, leads and messages, and what they may do
    to them. *)
From S2P Require Import Prelude JsLib Crypto Schema Effects Platform Config Messaging Tokens Revocation Users Sessions Access Billing Auth Leads Campaign MailWorkers.

Module Admin.
(** [Page<T>]. *)
Record page (A : Type) := Page { pg_data : list A; pg_page : Z; pg_pageSize : Z; pg_total : Z }.
Arguments Page {A} pg_data pg_page pg_pageSize pg_total.
Arguments pg_data {A} _.
Arguments pg_page {A} _.
Arguments pg_pageSize {A} _.
Arguments pg_total {A} _.
(** [PaginationQueryDto]. *)
Record paging := Paging { pn_page : Z; pn_pageSize : Z }.
Definition validPaging (p : paging) : bool :=
  (1 <=? pn_page p) && (1 <=? pn_pageSize p) && (pn_pageSize p <=? 100).

(** [USER_LIST_SELECT] with the billing summary. *)
Record user_row := UserRow {
  ur_id : string; ur_email : string; ur_fullName : string; ur_phone : option string; ur_role : role;
  ur_status : account_status; ur_stripeCustomerId : option string; ur_emailVerifiedAt : option Z;
  ur_twoFactorEnabled : bool; ur_lastLoginAt : option Z; ur_createdAt : Z; ur_leadFinderCredits : Z;
  ur_adminGrantedDirectoryAccess : bool; ur_adminGrantedLeadFinderAccess : bool
}.
Definition user_select (u : user) : user_row :=
  UserRow (u_id u) (u_email u) (u_fullName u) (u_phone u) (u_role u) (u_status u) (u_stripeCustomerId u)
    (u_emailVerifiedAt u) (u_twoFactorEnabled u) (u_lastLoginAt u) (u_createdAt u)
    (u_leadFinderCredits u) (u_adminGrantedDirectoryAccess u) (u_adminGrantedLeadFinderAccess u).
(** [SESSION_SECURITY_SELECT]. *)
Record device_row := DeviceRow {
  dr_id : string; dr_browserName : option string; dr_os : option string; dr_deviceType : option string;
  dr_isTrusted : bool
}.
Definition device_select (d : device) : device_row :=
  DeviceRow (d_id d) (d_browserName d) (d_os d) (d_deviceType d) (d_isTrusted d).
Record session_row := SessionRow {
  sr_id : string; sr_ipAddress : option string; sr_country : option string; sr_city : option string;
  sr_timezone : option string; sr_riskScore : Z; sr_riskSignals : option json; sr_createdAt : Z;
  sr_lastActivityAt : Z; sr_revokedAt : option Z; sr_device : option device_row
}.
Definition session_select (devices : gmap string device) (s : session) : session_row :=
  SessionRow (s_id s) (s_ipAddress s) (s_country s) (s_city s) (s_timezone s) (s_riskScore s)
    (s_riskSignals s) (s_createdAt s) (s_lastActivityAt s) (s_revokedAt s)
    (s_deviceId s ≫= λ k, device_select <$> devices !! k).
Definition sum (l : list Z) : Z := foldr Z.add 0 l.

(** *** Filters *)
(** [search] on the e-mail and the name. *)
Definition matches (search : option string) (u : user) : bool :=
  match search with
  | Some s => negb (Str.nonempty s) || (Leads.contains s (Some (u_email u)) || Leads.contains s (Some (u_fullName u)))
  | None => true
  end.
(** An absent filter matches everything. *)
Definition equals {A} `{EqDecision A} (o : option A) (a : A) : bool :=
  match o with Some x => bool_decide (a = x) | None => true end.
Definition users_where (status : option account_status) (r : option role) (search : option string) (u : user) : bool :=
  match status with Some s => bool_decide (u_status u = s) | None => bool_decide (u_status u ≠ UserDeleted) end
  && equals r (u_role u) && matches search u.
(** [PAID] invoices. *)
Definition paid (i : invoice) : bool := bool_decide (inv_status i = InvPAID).

Section admin.
Context {cfg : config} `{Entropy, Argon2, Jwt, Totp, Aead, UAParser, GeoipLite, StripeApi, Collation}.

(** [findMany({ where, orderBy, skip, take })] with the count. *)
Definition paginate {R} (T : table R) (P : R → bool) (order : list R → list R) (p : paging) : M (page R) :=
  data ← db_find_many T P;
  total ← db_count T P;
  mret (Page (page_of (pn_page p) (pn_pageSize p) (order data)) (pn_page p) (pn_pageSize p) total).
Definition with_data {A B} (p : page A) (l : list B) : page B :=
  Page l (pg_page p) (pg_pageSize p) (pg_total p).

(** *** Accounts *)
Definition of_users (ids : list string) (userId : string) : bool := bool_decide (userId ∈ ids).
(** Each user with the credits bought and the cents paid. *)
Definition attachBillingSummary (users : list user) : M (list (user_row * Z * Z)) :=
  match users with
  | [] => mret []
  | _ =>
      let ids := u_id <$> users in
      grants ← db_find_many T_creditGrants (λ g, of_users ids (g_userId g));
      subscriptions ← db_find_many T_subscriptions (λ s, of_users ids (sub_userId s));
      invoices ← db_find_many T_invoices paid;
      let mine u := filter (λ g, g_userId g = u_id u) grants in
      let bought u := sum (g_credits <$> mine u) in
      let creditCents u := sum ((λ g, g_amountPaidCents g ifnull 0) <$> mine u) in
      let directoryCents u := sum (inv_amountCents <$> filter (λ i,
            Exists (λ s, sub_userId s = u_id u ∧ inv_subscriptionId i = sub_id s) subscriptions) invoices) in
      mret ((λ u, (user_select u, bought u, creditCents u + directoryCents u)) <$> users)
  end.
Definition listUsers (status : option account_status) (r : option role) (search : option string)
    (p : paging) : M (page (user_row * Z * Z)) :=
  rows ← paginate T_users (users_where status r search) (order_desc u_createdAt) p;
  enriched ← attachBillingSummary (pg_data rows);
  mret (with_data rows enriched).
(** The account, its devices, live sessions and latest subscription (status,
    period end, cancellation, plan). *)
Definition getUser (id : string) :
    M (user_row * Z * Z * option (subscription_status * Z * bool * option string)) :=
  o ← Users.findById id;
  match o with
  | None => NotFound "User not found"
  | Some u =>
      now ← date_now;
      deviceCount ← db_count T_devices (λ d, seq_b (d_userId d) id);
      activeSessionCount ← db_count T_sessions (Sessions.active_of now id);
      sub ← db_find_latest T_subscriptions sub_createdAt (λ s, seq_b (sub_userId s) id);
      plans ← db_all T_plans;
      mret (user_select u, deviceCount, activeSessionCount,
            (λ s, (sub_status s, sub_currentPeriodEnd s, sub_cancelAtPeriodEnd s,
                   pl_name <$> plans !! sub_planId s)) <$> sub)
  end.
(** The target of an operation, or 404. *)
Definition target (id : string) : M user :=
  o ← Users.findById id;
  match o with Some u => mret u | None => NotFound "User not found" end.
Definition on_user (adminUserId action targetUserId : string) : Audit.entry :=
  Audit.with_target "User" targetUserId (Audit.by_actor adminUserId action).
Definition getUserSessions (userId : string) : M (list session_row) :=
  _ ← target userId;
  devices ← db_all T_devices;
  l ← db_find_many T_sessions (λ s, seq_b (s_userId s) userId);
  mret (session_select devices <$> order_desc s_createdAt l).

Definition status_name (s : account_status) : string :=
  match s with UserActive => "ACTIVE" | UserSuspended => "SUSPENDED" | UserDeleted => "DELETED" end.
Definition suspendUser (adminUserId targetUserId : string) (reason : option string) : M string :=
  if seq_b adminUserId targetUserId then Forbidden "You cannot suspend your own account" else
  t ← target targetUserId;
  if bool_decide (u_status t ≠ UserActive)
  then BadRequest ("Cannot suspend an account with status " +:+ status_name (u_status t)) else
  _ ← db_update T_users targetUserId (set_u_status UserSuspended);
  _ ← Sessions.revokeAllForUser targetUserId;
  _ ← Revocation.revokeUser targetUserId;
  let e := on_user adminUserId "admin.user_suspended" targetUserId in
  _ ← Audit.record (match reason with
        | Some r => if Str.nonempty r then Audit.with_meta (JObj [("reason", JStr r)]) e else e
        | None => e
        end);
  mret "User suspended".
Definition reactivateUser (adminUserId targetUserId : string) : M string :=
  t ← target targetUserId;
  if bool_decide (u_status t ≠ UserSuspended)
  then BadRequest ("Cannot reactivate an account with status " +:+ status_name (u_status t)) else
  _ ← db_update T_users targetUserId (set_u_status UserActive);
  _ ← Audit.record (on_user adminUserId "admin.user_reactivated" targetUserId);
  mret "User reactivated".
Definition sendPasswordReset (adminUserId targetUserId : string) : M string :=
  t ← target targetUserId;
  _ ← Auth.forgotPassword (u_email t);
  _ ← Audit.record (on_user adminUserId "admin.password_reset_sent" targetUserId);
  mret ("Password reset link sent to " +:+ u_email t +:+ ".").
Definition deleteUser (adminUserId targetUserId : string) : M string :=
  if seq_b adminUserId targetUserId then Forbidden "You cannot delete your own account" else
  t ← target targetUserId;
  if bool_decide (u_status t = UserDeleted) then BadRequest "This account is already deleted" else
  now ← date_now;
  _ ← db_update_indexed T_users targetUserId (λ u,
        set_u_email (Auth.deleted_email targetUserId) (set_u_deletedAt (Some now) (set_u_status UserDeleted u)));
  _ ← Sessions.revokeAllForUser targetUserId;
  _ ← Revocation.revokeUser targetUserId;
  _ ← Audit.record (on_user adminUserId "admin.user_deleted" targetUserId);
  mret "User account deleted".
Definition forceLogout (adminUserId targetUserId : string) : M string :=
  _ ← target targetUserId;
  _ ← Sessions.revokeAllForUser targetUserId;
  _ ← Revocation.revokeUser targetUserId;
  _ ← Audit.record (on_user adminUserId "admin.user_force_logout" targetUserId);
  mret "All sessions revoked for this user".
(** The token and the e-mail of the target. *)
Definition impersonateUser (adminUserId targetUserId : string) : M (string * string) :=
  if seq_b adminUserId targetUserId then Forbidden "You cannot impersonate your own account" else
  t ← target targetUserId;
  if Leads.staff (u_role t) then Forbidden "Cannot impersonate an admin account" else
  if bool_decide (u_status t ≠ UserActive)
  then BadRequest ("Cannot impersonate an account with status " +:+ status_name (u_status t)) else
  accessToken ← Auth.signImpersonationToken (u_id t) (u_email t) (u_role t) adminUserId;
  _ ← Audit.record (on_user adminUserId "admin.user_impersonated" targetUserId);
  mret (accessToken, u_email t).

(** *** Provisioning *)
Definition role_name (r : role) : string :=
  match r with USER => "USER" | PREMIUM => "PREMIUM" | ADMIN => "ADMIN" | SUPER_ADMIN => "SUPER_ADMIN" end.
Definition pending_for (email : string) (i : admin_invite) : bool :=
  seq_b (ai_email i) email && bool_decide (ai_status i = InvitePENDING).
Definition inviteUser (adminUserId rawEmail : string) (r : option role) (dir lf : option bool) : M string :=
  let email := Users.normalizeEmail rawEmail in
  existingUser ← db_find_by T_users (λ u, seq_b (u_email u) email);
  match existingUser with
  | Some _ => BadRequest "This email already has an account — grant or revoke Directory access on their existing user instead."
  | None =>
      pending ← db_find_by T_adminAccessInvites (pending_for email);
      let r := r ifnull USER in
      let dir := dir ifnull true in
      let lf := lf ifnull false in
      _ ← match pending with
          | Some i =>
              _ ← db_update_fk T_adminAccessInvites (ai_id i) (λ i,
                    set_ai_grantLeadFinderAccess lf (set_ai_grantDirectoryAccess dir
                      (set_ai_role r (set_ai_invitedByUserId adminUserId i))));
              mret tt
          | None =>
              id ← random_uuid; now ← date_now;
              _ ← db_create T_adminAccessInvites id
                    (Mk_admin_invite id adminUserId email r dir lf InvitePENDING now None);
              mret tt
          end;
      _ ← Email.sendAdminAccessInvite email dir lf;
      _ ← Audit.record (Audit.with_meta
            (JObj [("email", JStr email); ("role", JStr (role_name r));
                   ("grantDirectoryAccess", JBool dir); ("grantLeadFinderAccess", JBool lf)])
            (Audit.by_actor adminUserId "admin.user_invited"));
      mret ("Invite sent to " +:+ email +:+ ".")
  end.
Definition setDirectoryAccess (adminUserId targetUserId : string) (granted : bool) : M string :=
  t ← target targetUserId;
  _ ← db_update T_users targetUserId (set_u_adminGrantedDirectoryAccess granted);
  _ ← Audit.record (on_user adminUserId
        (if granted then "admin.directory_access_granted" else "admin.directory_access_revoked") targetUserId);
  mret (if granted then "Directory access granted to " +:+ u_email t +:+ "."
        else "Directory access revoked for " +:+ u_email t +:+ ".").
Definition setLeadFinderAccess (adminUserId targetUserId : string) (granted : bool) : M string :=
  t ← target targetUserId;
  _ ← db_update T_users targetUserId (set_u_adminGrantedLeadFinderAccess granted);
  _ ← Audit.record (on_user adminUserId
        (if granted then "admin.lead_finder_access_granted" else "admin.lead_finder_access_revoked") targetUserId);
  mret (if granted then "Unlimited Lead Finder access granted to " +:+ u_email t +:+ "."
        else "Unlimited Lead Finder access revoked for " +:+ u_email t +:+ ".").

(** *** Prospects *)
Record prospect_row := ProspectRow {
  pp_id : string; pp_email : string; pp_fullName : string; pp_createdAt : Z; pp_lastLoginAt : option Z;
  pp_daysSinceSignup : Z; pp_canceled : bool; pp_overdue : bool; pp_paid : bool
}.
Definition current (s : subscription_status) : bool := match s with ACTIVE | TRIALING => true | _ => false end.
(** An account without current, real Directory access. *)
Definition prospects_where (search : option string) (subs : gmap string subscription) (u : user) : bool :=
  bool_decide (u_status u = UserActive) && negb (Leads.staff (u_role u))
  && negb (u_adminGrantedDirectoryAccess u)
  && bool_decide (find_row (λ s, seq_b (sub_userId s) (u_id u) && current (sub_status s)) subs = None)
  && matches search u.
Definition prospect_of (now : Z) (subs : gmap string subscription) (invoices : gmap string invoice) (u : user) :
    prospect_row :=
  let mine := order_desc sub_createdAt (find_many (λ s, seq_b (sub_userId s) (u_id u)) subs) in
  let has_status st := bool_decide (sub_status <$> head mine = Some st) in
  ProspectRow (u_id u) (u_email u) (u_fullName u) (u_createdAt u) (u_lastLoginAt u)
    ((now - u_createdAt u) / (24 * 60 * 60 * 1000)) (has_status CANCELED) (has_status PAST_DUE)
    (existsb (λ s, bool_decide (is_Some (find_row (λ i, paid i && seq_b (inv_subscriptionId i) (sub_id s)) invoices))) mine).
Definition listProspects (search : option string) (p : paging) : M (page prospect_row) :=
  subs ← db_all T_subscriptions;
  invoices ← db_all T_invoices;
  rows ← paginate T_users (prospects_where search subs) (order_asc u_createdAt) p;
  now ← date_now;
  mret (with_data rows (prospect_of now subs invoices <$> pg_data rows)).
Definition pitchProspect (adminUserId targetUserId template : string) : M string :=
  t ← target targetUserId;
  _ ← Email.sendProspectPitch (u_email t) (u_fullName t) template;
  _ ← Audit.record (Audit.with_meta (JObj [("template", JStr template)])
        (on_user adminUserId "admin.prospect_pitched" targetUserId));
  mret (template +:+ " pitch sent to " +:+ u_email t +:+ ".").
Definition inviteProspect (adminUserId rawEmail : string) : M string :=
  let email := Users.normalizeEmail rawEmail in
  existingUser ← db_find_by T_users (λ u, seq_b (u_email u) email);
  suppressed ← db_find_by T_emailSuppressions (suppressed_row email);
  match existingUser, suppressed with
  | Some _, _ => BadRequest "This email already has an account — pitch them directly from the Prospects list instead."
  | None, Some _ => BadRequest "This email unsubscribed from prospect invites and cannot be re-invited."
  | None, None =>
      _ ← Email.sendProspectInvite email;
      _ ← Audit.record (Audit.with_meta (JObj [("email", JStr email)])
            (Audit.by_actor adminUserId "admin.prospect_invited"));
      mret ("Invite sent to " +:+ email +:+ ".")
  end.

(** *** Billing *)
(** A subscription with its account (id, e-mail, name) and plan (name, amount,
    currency), the days past due and whether it still gives access. *)
Record sub_row := SubRow {
  sw_id : string; sw_status : subscription_status; sw_currentPeriodStart : Z; sw_currentPeriodEnd : Z;
  sw_cancelAtPeriodEnd : bool; sw_trialEndsAt : option Z; sw_pastDueSince : option Z; sw_createdAt : Z;
  sw_user : option (string * string * string); sw_plan : option (string * Z * string);
  sw_daysPastDue : option Z; sw_hasAccess : bool
}.
Definition user_ref (users : gmap string user) (id : string) : option (string * string * string) :=
  (λ u, (u_id u, u_email u, u_fullName u)) <$> users !! id.
Definition listSubscriptions (status : option subscription_status) (p : paging) : M (page sub_row) :=
  users ← db_all T_users; plans ← db_all T_plans;
  rows ← paginate T_subscriptions (λ s, equals status (sub_status s)) (order_desc sub_createdAt) p;
  now ← date_now;
  mret (with_data rows ((λ s,
    SubRow (sub_id s) (sub_status s) (sub_currentPeriodStart s) (sub_currentPeriodEnd s)
      (sub_cancelAtPeriodEnd s) (sub_trialEndsAt s) (sub_pastDueSince s) (sub_createdAt s)
      (user_ref users (sub_userId s))
      ((λ pl, (pl_name pl, pl_amountCents pl, pl_currency pl)) <$> plans !! sub_planId s)
      (Access.daysPastDue now (sub_pastDueSince s))
      (Access.hasActiveAccess now (sub_status s) (sub_pastDueSince s) (PAYMENT_GRACE_PERIOD_DAYS cfg)))
    <$> pg_data rows)).
Definition listLeadFinderSubscriptions (status : option subscription_status) (p : paging) : M (page sub_row) :=
  users ← db_all T_users; tiers ← db_all T_leadFinderTiers;
  rows ← paginate T_leadFinderSubscriptions (λ s, equals status (lfs_status s)) (order_desc lfs_createdAt) p;
  now ← date_now;
  mret (with_data rows ((λ s,
    SubRow (lfs_id s) (lfs_status s) (lfs_currentPeriodStart s) (lfs_currentPeriodEnd s)
      (lfs_cancelAtPeriodEnd s) None (lfs_pastDueSince s) (lfs_createdAt s)
      (user_ref users (lfs_userId s))
      ((λ t, (lt_name t, lt_amountCents t, lt_currency t)) <$> tiers !! lfs_tierId s)
      (Access.daysPastDue now (lfs_pastDueSince s))
      (Access.hasActiveAccess now (lfs_status s) (lfs_pastDueSince s) (PAYMENT_GRACE_PERIOD_DAYS cfg)))
    <$> pg_data rows)).

(** A month of [getMonthlyRevenue]. *)
Record revenue := Revenue {
  rv_directoryCents : Z; rv_leadFinderCents : Z; rv_currency : string; rv_invoiceCount : Z;
  rv_creditGrantCount : Z
}.
Definition no_revenue : revenue := Revenue 0 0 "usd" 0 0.
(** [toISOString().slice(0, 7)]. *)
Definition month_of (t : Z) : string := Str.take 7 (Date.toISOString t).
Definition add_invoice (m : gmap string revenue) (x : Z * string * Z) : gmap string revenue :=
  let '(amountCents, currency, paidAt) := x in
  let row := m !! month_of paidAt ifnull no_revenue in
  <[month_of paidAt := Revenue (rv_directoryCents row + amountCents) (rv_leadFinderCents row) currency
                         (rv_invoiceCount row + 1) (rv_creditGrantCount row)]> m.
Definition add_grant (m : gmap string revenue) (x : Z * Z) : gmap string revenue :=
  let '(amountPaidCents, createdAt) := x in
  let row := m !! month_of createdAt ifnull no_revenue in
  <[month_of createdAt := Revenue (rv_directoryCents row) (rv_leadFinderCents row + amountPaidCents)
                            (rv_currency row) (rv_invoiceCount row) (rv_creditGrantCount row + 1)]> m.
(** Paid invoices with a payment date, grants with an amount. *)
Definition collected_invoices (l : list invoice) : list (Z * string * Z) :=
  omap (λ i, match inv_paidAt i with
             | Some t => if paid i then Some (inv_amountCents i, inv_currency i, t) else None
             | None => None
             end) l.
Definition collected_grants (l : list credit_grant) : list (Z * Z) :=
  omap (λ g, (λ c, (c, g_createdAt g)) <$> g_amountPaidCents g) l.
Definition later_month (a b : string * revenue) : Prop := String.leb b.1 a.1 = true.
#[local] Instance later_month_dec : RelDecision later_month.
Proof. intros a b. unfold later_month. apply _. Defined.
(** Month, total, row; the latest month first. *)
Definition getMonthlyRevenue : M (list (string * Z * revenue)) :=
  invoices ← db_all T_invoices;
  grants ← db_all T_creditGrants;
  let m := foldl add_grant (foldl add_invoice ∅ (collected_invoices (values invoices)))
             (collected_grants (values grants)) in
  mret ((λ kr, (kr.1, rv_directoryCents kr.2 + rv_leadFinderCents kr.2, kr.2))
          <$> merge_sort later_month (map_to_list m)).

(** *** Logs and sessions *)
(** A column that may be null. *)
Definition column_is (o : option string) (a : option string) : bool :=
  match o with Some x => bool_decide (a = Some x) | None => true end.
Definition audit_where (action actorUserId targetId : option string) (a : audit_log) : bool :=
  (match action with
   | Some x => negb (Str.nonempty x) || Str.includes x (a_action a)
   | None => true
   end) && column_is actorUserId (a_actorUserId a) && column_is targetId (a_targetId a).
Definition listAuditLogs (action actorUserId targetId : option string) (p : paging) : M (page audit_log) :=
  logs ← gets (λ w, filter (λ a, audit_where action actorUserId targetId a = true) (db_auditLogs (w_db w)));
  mret (Page (page_of (pn_page p) (pn_pageSize p) (order_desc a_createdAt logs)) (pn_page p) (pn_pageSize p)
          (Z.of_nat (length logs))).
Definition riskier (a b : session) : Prop :=
  s_riskScore b < s_riskScore a ∨ s_riskScore a = s_riskScore b ∧ s_createdAt b ≤ s_createdAt a.
#[local] Instance riskier_dec : RelDecision riskier.
Proof. intros a b. unfold riskier. apply _. Defined.
Definition listFlaggedSessions (minScore : Z) (p : paging) :
    M (page (session_row * option (string * string * string))) :=
  users ← db_all T_users; devices ← db_all T_devices;
  rows ← paginate T_sessions (λ s, minScore <=? s_riskScore s) (merge_sort riskier) p;
  mret (with_data rows ((λ s, (session_select devices s, user_ref users (s_userId s))) <$> pg_data rows)).

(** *** Leads *)
(** [ListLeadsQueryDto]; the dates are the instants [new Date] reads. *)
Record lead_query := LeadQuery {
  lq_companyType : company_filter; lq_likelyToAttend : option string; lq_search : option string;
  lq_hasEmail : bool; lq_approved : option bool; lq_fromDate : option Z; lq_toDate : option Z
}.
Definition leads_where (q : lead_query) (l : lead) : bool :=
  Leads.resolveCompanyTypeFilter (lq_companyType q) (l_companyType l)
  && equals (lq_likelyToAttend q) (l_likelyToAttend l)
  && equals (lq_approved q) (l_approved l)
  && (negb (lq_hasEmail q) || bool_decide (l_email l ≠ None))
  && (match lq_fromDate q with Some t => t <=? l_createdAt l | None => true end)
  && (match lq_toDate q with Some t => l_createdAt l <? t + Date.day | None => true end)
  && match lq_search q with
     | Some s => negb (Str.nonempty s) ||
         (Leads.contains s (Some (l_name l)) || Leads.contains s (l_company l)
          || Leads.contains s (l_title l) || Leads.contains s (l_email l))
     | None => true
     end.
(** [LEAD_SELECT]: the row with its submitter. *)
Definition lead_select (users : gmap string user) (l : lead) : lead * option (string * string * string) :=
  (l, l_submittedByUserId l ≫= user_ref users).
Definition by_name (a b : lead) : Prop := collate (l_name a) (l_name b) = true.
#[local] Instance by_name_dec : RelDecision by_name.
Proof. intros a b. unfold by_name. apply _. Defined.
Definition listLeads (q : lead_query) (p : paging) : M (page (lead * option (string * string * string))) :=
  users ← db_all T_users;
  rows ← paginate T_leads (leads_where q) (merge_sort by_name) p;
  mret (with_data rows (lead_select users <$> pg_data rows)).
(** The same query as the directory's. *)
Definition getLeadFilters : M (list (option company_type) * list string) := Leads.getFilters.

(** [CreateLeadDto]; [UpdateLeadDto] makes every field optional. *)
Record lead_data := LeadData {
  ld_name : string; ld_companyType : option company_type; ld_likelyToAttend : string;
  ld_title : option string; ld_company : option string; ld_website : option string;
  ld_linkedin : option string; ld_appLink : option string; ld_email : option string; ld_phone : option string
}.
(** [null] clears a column that may be null. *)
Record lead_patch := LeadPatch {
  lp_name : option string; lp_companyType : option (option company_type); lp_likelyToAttend : option string;
  lp_title : option (option string); lp_company : option (option string);
  lp_website : option (option string); lp_linkedin : option (option string);
  lp_appLink : option (option string); lp_email : option (option string); lp_phone : option (option string)
}.
Definition on_lead (adminUserId action leadId : string) : Audit.entry :=
  Audit.with_target "Lead" leadId (Audit.by_actor adminUserId action).
Definition lead_or_404 (leadId : string) : M lead :=
  o ← db_find T_leads leadId;
  match o with Some l => mret l | None => NotFound "Lead not found" end.
Definition viewed (l : lead) : M (lead * option (string * string * string)) :=
  users ← db_all T_users; mret (lead_select users l).
Definition createLead (adminUserId : string) (d : lead_data) : M (lead * option (string * string * string)) :=
  id ← random_uuid; now ← date_now;
  l ← db_create T_leads id
        (Mk_lead id (ld_name d) (ld_title d) (ld_company d) (ld_website d) (ld_linkedin d) (ld_appLink d)
           (ld_email d) (ld_phone d) (ld_companyType d) (ld_likelyToAttend d) true None now);
  v ← viewed l;
  _ ← Audit.record (on_lead adminUserId "admin.lead_created" (l_id l));
  mret v.
Definition approveLead (adminUserId leadId : string) : M (lead * option (string * string * string)) :=
  existing ← lead_or_404 leadId;
  if l_approved existing then BadRequest "This lead is already approved" else
  l ← db_update T_leads leadId (set_l_approved true);
  v ← viewed l;
  _ ← Audit.record (on_lead adminUserId "admin.lead_approved" leadId);
  mret v.
(** A field left out of the body keeps its value. *)
Definition patch {A} (o : option A) (set : A → lead → lead) (l : lead) : lead :=
  match o with Some a => set a l | None => l end.
Definition patched (d : lead_patch) (l : lead) : lead :=
  patch (lp_name d) set_l_name (patch (lp_companyType d) set_l_companyType
    (patch (lp_likelyToAttend d) set_l_likelyToAttend (patch (lp_title d) set_l_title
      (patch (lp_company d) set_l_company (patch (lp_website d) set_l_website
        (patch (lp_linkedin d) set_l_linkedin (patch (lp_appLink d) set_l_appLink
          (patch (lp_email d) set_l_email (patch (lp_phone d) set_l_phone l))))))))).
Definition updateLead (adminUserId leadId : string) (d : lead_patch) : M (lead * option (string * string * string)) :=
  _ ← lead_or_404 leadId;
  l ← db_update T_leads leadId (patched d);
  v ← viewed l;
  _ ← Audit.record (on_lead adminUserId "admin.lead_updated" leadId);
  mret v.
Definition deleteLead (adminUserId leadId : string) : M unit :=
  _ ← lead_or_404 leadId;
  _ ← db_delete T_leads leadId;
  Audit.record (on_lead adminUserId "admin.lead_deleted" leadId).

(** *** Contact messages *)
Definition on_message (adminUserId action id : string) : Audit.entry :=
  Audit.with_target "ContactMessage" id (Audit.by_actor adminUserId action).
Definition message_or_404 (id : string) : M contact_message :=
  o ← db_find T_contactMessages id;
  match o with Some m => mret m | None => NotFound "Contact message not found" end.
Definition listContactMessages (resolved : option bool) (reason : option contact_reason) (p : paging) :
    M (page contact_message) :=
  paginate T_contactMessages (λ m, equals resolved (cm_resolved m) && equals reason (cm_reason m))
    (order_desc cm_createdAt) p.
Definition resolveContactMessage (adminUserId id : string) : M string :=
  existing ← message_or_404 id;
  if cm_resolved existing then BadRequest "This message is already resolved" else
  _ ← db_update T_contactMessages id (set_cm_resolved true);
  _ ← Audit.record (on_message adminUserId "admin.contact_message_resolved" id);
  mret "Marked as resolved".
Definition deleteContactMessage (adminUserId id : string) : M string :=
  _ ← message_or_404 id;
  _ ← db_delete T_contactMessages id;
  _ ← Audit.record (on_message adminUserId "admin.contact_message_deleted" id);
  mret "Message deleted".
Definition replyToContactMessage (adminUserId id message : string) : M string :=
  existing ← message_or_404 id;
  _ ← Email.sendContactMessageReply (cm_email existing) (cm_name existing) (cm_message existing) message;
  _ ← Audit.record (on_message adminUserId "admin.contact_message_replied" id);
  mret ("Reply sent to " +:+ cm_email existing +:+ ".").
End admin.
End Admin.
