(* ===== verification/AdminController.v ===== *)
(** AdminController (admin/admin.controller.ts): the routes of the staff
    dashboard, what the ValidationPipe checks of each, and the service call
    each makes with the authenticated account's id. JwtAuthGuard and
    RolesGuard stand in front of every route. *)
From S2P Require Import Prelude JsLib Crypto Schema Effects Platform Config Messaging Tokens Revocation Users Sessions Access Billing Auth Guards Apollo Taxonomy Leads Dto MailWorkers Campaign Admin.
Import Guards.

Module AdminController.
Definition ROLES : list role := [ADMIN; SUPER_ADMIN].

(** A route with its path parameters and decoded query or body. *)
Inductive route :=
| ListUsers (status : option account_status) (r : option role) (search : option string) (p : Admin.paging)
| GetUser (id : string)
| GetUserSessions (id : string)
| SuspendUser (id : string) (reason : option string)
| ReactivateUser (id : string)
| SendPasswordReset (id : string)
| DeleteUser (id : string)
| ForceLogout (id : string)
| ImpersonateUser (id : string)
| InviteUser (email : string) (r : option role) (grantDirectoryAccess grantLeadFinderAccess : option bool)
| SetDirectoryAccess (id : string) (granted : bool)
| SetLeadFinderAccess (id : string) (granted : bool)
| ListProspects (search : option string) (p : Admin.paging)
| PitchProspect (id template : string)
| InviteProspect (email : string)
| QueueProspectsBulk (emails : list string)
| GetCampaignStats
| UpdateCampaignSettings (dailyCap : option Z) (paused : option bool)
| SendCampaignTestEmail (email : string)
| GetCampaignEmailTemplate
| UpdateCampaignEmailTemplate (d : Campaign.template_update)
| SendCampaignNow
| ListSubscriptions (status : option subscription_status) (p : Admin.paging)
| ListLeadFinderSubscriptions (status : option subscription_status) (p : Admin.paging)
| GetMonthlyRevenue
| ListAuditLogs (action actorUserId targetId : option string) (p : Admin.paging)
| ListFlaggedSessions (minScore : Z) (p : Admin.paging)
| ListLeads (q : Admin.lead_query) (p : Admin.paging)
| GetLeadFilters
| CreateLead (d : Admin.lead_data)
| UpdateLead (id : string) (d : Admin.lead_patch)
| ApproveLead (id : string)
| DeleteLead (id : string)
| ListContactMessages (resolved : option bool) (reason : option contact_reason) (p : Admin.paging)
| ResolveContactMessage (id : string)
| DeleteContactMessage (id : string)
| ReplyToContactMessage (id message : string).

(** What a route answers. *)
Definition reply (r : route) : Type :=
  match r with
  | ListUsers _ _ _ _ => Admin.page (Admin.user_row * Z * Z)
  | GetUser _ => Admin.user_row * Z * Z * option (subscription_status * Z * bool * option string)
  | GetUserSessions _ => list Admin.session_row
  | ImpersonateUser _ => string * string
  | ListProspects _ _ => Admin.page Admin.prospect_row
  | QueueProspectsBulk _ => Campaign.upload_result
  | GetCampaignStats => Campaign.stats
  | UpdateCampaignSettings _ _ => Z * bool
  | GetCampaignEmailTemplate | UpdateCampaignEmailTemplate _ => Campaign.template
  | SendCampaignNow => Campaign.drip_result
  | ListSubscriptions _ _ | ListLeadFinderSubscriptions _ _ => Admin.page Admin.sub_row
  | GetMonthlyRevenue => list (string * Z * Admin.revenue)
  | ListAuditLogs _ _ _ _ => Admin.page audit_log
  | ListFlaggedSessions _ _ => Admin.page (Admin.session_row * option (string * string * string))
  | ListLeads _ _ => Admin.page (lead * option (string * string * string))
  | GetLeadFilters => list (option company_type) * list string
  | CreateLead _ | UpdateLead _ _ | ApproveLead _ => lead * option (string * string * string)
  | DeleteLead _ => unit
  | ListContactMessages _ _ _ => Admin.page contact_message
  | _ => string
  end.

Section controller.
Context {cfg : config} `{Entropy, Argon2, Jwt, Totp, Aead, UAParser, GeoipLite, StripeApi, Collation}.
Context `{IsEmail, IsUrl, IsUUID}.

(** The ValidationPipe on the route's DTO. *)
Definition patch_field (o : option (option string)) : option string := o ≫= id.
Definition valid (r : route) : bool :=
  match r with
  | ListUsers _ _ s p => Dto.listUsers s && Admin.validPaging p
  | SuspendUser _ reason => Dto.suspendUser reason
  | InviteUser email _ _ _ => Dto.inviteUser email
  | ListProspects s p => Dto.listProspects s && Admin.validPaging p
  | PitchProspect _ t => Dto.pitchProspect t
  | InviteProspect email => Dto.inviteProspect email
  | QueueProspectsBulk emails => Dto.bulkInvite emails
  | UpdateCampaignSettings cap _ => Dto.updateCampaignSettings cap
  | SendCampaignTestEmail email => Dto.sendTestEmail email
  | UpdateCampaignEmailTemplate d =>
      Dto.updateEmailTemplate (Campaign.tu_subject d) (Campaign.tu_heading d) (Campaign.tu_body d)
        (Campaign.tu_ctaLabel d) (Campaign.tu_footnote d) (Campaign.tu_mailingAddress d)
  | ListSubscriptions _ p | ListLeadFinderSubscriptions _ p => Admin.validPaging p
  | ListAuditLogs a u t p => Dto.listAuditLogs a u t && Admin.validPaging p
  | ListFlaggedSessions m p => Dto.listFlaggedSessions m && Admin.validPaging p
  | ListLeads q p => Dto.listLeads (Admin.lq_likelyToAttend q) (Admin.lq_search q) && Admin.validPaging p
  | CreateLead d =>
      Dto.createLead (Admin.ld_name d) (Admin.ld_likelyToAttend d) (Admin.ld_title d) (Admin.ld_company d)
        (Admin.ld_website d) (Admin.ld_linkedin d) (Admin.ld_appLink d) (Admin.ld_email d) (Admin.ld_phone d)
  | UpdateLead _ d =>
      Dto.optional (Dto.within 200) (Admin.lp_name d) && Dto.optional (Dto.within 200) (Admin.lp_likelyToAttend d)
      && Dto.lead_fields (patch_field (Admin.lp_title d)) (patch_field (Admin.lp_company d))
           (patch_field (Admin.lp_website d)) (patch_field (Admin.lp_linkedin d))
           (patch_field (Admin.lp_appLink d)) (patch_field (Admin.lp_email d)) (patch_field (Admin.lp_phone d))
  | ListContactMessages _ _ p => Admin.validPaging p
  | ReplyToContactMessage _ m => Dto.replyContactMessage m
  | _ => true
  end.

Definition sendCampaignTestEmail (email : string) : M string :=
  _ ← Campaign.sendTestEmail email; mret ("Test email sent to " +:+ email +:+ ".").

(** The handler of a route, for the account [admin] of the request. *)
Definition handle (admin : principal) (r : route) : M (reply r) :=
  match r as r return M (reply r) with
  | ListUsers st ro s p => Admin.listUsers st ro s p
  | GetUser id => Admin.getUser id
  | GetUserSessions id => Admin.getUserSessions id
  | SuspendUser id reason => Admin.suspendUser (pr_sub admin) id reason
  | ReactivateUser id => Admin.reactivateUser (pr_sub admin) id
  | SendPasswordReset id => Admin.sendPasswordReset (pr_sub admin) id
  | DeleteUser id => Admin.deleteUser (pr_sub admin) id
  | ForceLogout id => Admin.forceLogout (pr_sub admin) id
  | ImpersonateUser id => Admin.impersonateUser (pr_sub admin) id
  | InviteUser email ro d l => Admin.inviteUser (pr_sub admin) email ro d l
  | SetDirectoryAccess id g => Admin.setDirectoryAccess (pr_sub admin) id g
  | SetLeadFinderAccess id g => Admin.setLeadFinderAccess (pr_sub admin) id g
  | ListProspects s p => Admin.listProspects s p
  | PitchProspect id t => Admin.pitchProspect (pr_sub admin) id t
  | InviteProspect email => Admin.inviteProspect (pr_sub admin) email
  | QueueProspectsBulk emails => Campaign.enqueueUploadedEmails (pr_sub admin) emails
  | GetCampaignStats => Campaign.getStats
  | UpdateCampaignSettings cap paused => Campaign.updateSettings (pr_sub admin) cap paused
  | SendCampaignTestEmail email => sendCampaignTestEmail email
  | GetCampaignEmailTemplate => Campaign.getEmailTemplate
  | UpdateCampaignEmailTemplate d => Campaign.updateEmailTemplate (pr_sub admin) d
  | SendCampaignNow => Campaign.runDailyDrip
  | ListSubscriptions st p => Admin.listSubscriptions st p
  | ListLeadFinderSubscriptions st p => Admin.listLeadFinderSubscriptions st p
  | GetMonthlyRevenue => Admin.getMonthlyRevenue
  | ListAuditLogs a u t p => Admin.listAuditLogs a u t p
  | ListFlaggedSessions m p => Admin.listFlaggedSessions m p
  | ListLeads q p => Admin.listLeads q p
  | GetLeadFilters => Admin.getLeadFilters
  | CreateLead d => Admin.createLead (pr_sub admin) d
  | UpdateLead id d => Admin.updateLead (pr_sub admin) id d
  | ApproveLead id => Admin.approveLead (pr_sub admin) id
  | DeleteLead id => Admin.deleteLead (pr_sub admin) id
  | ListContactMessages res rea p => Admin.listContactMessages res rea p
  | ResolveContactMessage id => Admin.resolveContactMessage (pr_sub admin) id
  | DeleteContactMessage id => Admin.deleteContactMessage (pr_sub admin) id
  | ReplyToContactMessage id m => Admin.replyToContactMessage (pr_sub admin) id m
  end.
End controller.
End AdminController.
