(* ===== verification/Controllers.v ===== *)
(** The controllers, one Module each: their routes with decoded parameters and
    body, what a route answers, who it is for (@Public, the global JwtAuthGuard,
    DirectoryAccessGuard), what the ValidationPipe asks of it, and its handler.
    AdminController has a file of its own. *)
From S2P Require Import Prelude JsLib Crypto Schema Effects Platform Config Messaging Tokens Revocation Users Sessions Access Billing Auth AuthController Guards Subscriptions LeadFinderBilling Webhooks Apollo Taxonomy Leads Dto MailTemplate MailWorkers Campaign Outreach Admin.
Import Guards.

(** Who a route is for: the decorators and guards of its handler and class. *)
Inductive audience := Public | SignedIn | DirectoryHolders | Staff.
#[export] Instance audience_eq_dec : EqDecision audience.
Proof. solve_decision. Defined.
(** [@CurrentUser()]: reading a field of it throws when no guard set it. *)
Definition current (user : option principal) : M principal :=
  match user with Some p => mret p | None => throw (JsError "Cannot read properties of undefined") end.
(** A handler that passes [user.sub] on. *)
Definition me {A} (user : option principal) (f : string → M A) : C A := liftC (p ← current user; f (pr_sub p)).
Definition ip_of (req : request) : string := rq_ip req ifnull "unknown".

(** AppController: the health check. *)
Definition health : C string := retC "ok".

Module AuthRoutes.
Inductive route :=
| Register (email fullName password : string) (phone : option string) (acceptedTerms : bool)
| VerifyEmail (token : string)
| Login (email password : string)
| VerifyLogin (challengeToken code : string)
| Refresh
| Logout
| LogoutAll
| ForgotPassword (email : string)
| ResetPassword (token newPassword : string)
| Start2fa
| Confirm2fa (code : string)
| Disable2fa (password : string)
| ListDevices
| TrustDevice (deviceId : string)
| RemoveDevice (deviceId : string)
| ListSessions
| ExportData
| DeleteAccount (password : string).
Definition audience_of (r : route) : audience :=
  match r with
  | Register _ _ _ _ _ | VerifyEmail _ | Login _ _ | VerifyLogin _ _ | Refresh | Logout
  | ForgotPassword _ | ResetPassword _ _ => Public
  | _ => SignedIn
  end.
Definition reply (r : route) : Type :=
  match r with
  | Login _ _ => AuthController.login_body
  | Refresh => option string
  | Start2fa => string * string * string
  | ListDevices => list Devices.device_view
  | TrustDevice _ => Devices.device_view
  | ListSessions => list Sessions.session_view
  | ExportData => Auth.export
  | RemoveDevice _ => unit
  | _ => string
  end.
Section controller.
Context {cfg : config} `{Entropy, Argon2, Jwt, Totp, Aead, UAParser, GeoipLite, StripeApi, IsEmail} (key : list Z).
Definition valid (r : route) : bool :=
  match r with
  | Register email fullName password phone acceptedTerms =>
      Dto.register email password fullName phone acceptedTerms
  | Login email password => Dto.login email password
  | VerifyLogin _ code => Dto.verifyLogin code
  | ForgotPassword email => Dto.forgotPassword email
  | ResetPassword _ newPassword => Dto.resetPassword newPassword
  | Confirm2fa code => Dto.confirm2fa code
  | Disable2fa password => Dto.disable2fa password
  | DeleteAccount password => Dto.deleteAccount password
  | _ => true
  end.
Definition handle (req : request) (user : option principal) (r : route) : C (reply r) :=
  match r as r return C (reply r) with
  | Register email fullName password phone _ => AuthController.register req email fullName password phone
  | VerifyEmail token => liftC (Auth.verifyEmail token)
  | Login email password => AuthController.login req email password
  | VerifyLogin challengeToken code => AuthController.verifyLogin key req challengeToken code
  | Refresh => AuthController.refresh req
  | Logout => AuthController.logout req
  | LogoutAll => p <-- liftC (current user);; AuthController.logoutAll (pr_sub p)
  | ForgotPassword email => liftC (Auth.forgotPassword email)
  | ResetPassword token newPassword => liftC (Auth.resetPassword token newPassword)
  | Start2fa => me user (Auth.start2fa key)
  | Confirm2fa code => me user (λ sub, Auth.confirm2fa key sub code)
  | Disable2fa password => me user (λ sub, Auth.disable2fa sub password)
  | ListDevices => me user Auth.listDevices
  | TrustDevice deviceId => me user (λ sub, Auth.trustDevice sub deviceId)
  | RemoveDevice deviceId => me user (λ sub, Auth.removeDevice sub deviceId)
  | ListSessions => me user Auth.listSessions
  | ExportData => me user Auth.exportData
  | DeleteAccount password => p <-- liftC (current user);; AuthController.deleteAccount (pr_sub p) password
  end.
End controller.
End AuthRoutes.

Module UsersController.
Inductive route := GetProfile | UpdateProfile (fullName phone : option string).
Definition valid (r : route) : bool :=
  match r with UpdateProfile fullName phone => Dto.updateProfile fullName phone | _ => true end.
Definition handle (user : option principal) (r : route) : C Users.profile :=
  match r with
  | GetProfile => me user Users.getMe
  | UpdateProfile fullName phone => me user (λ sub, Users.patchMe sub fullName phone)
  end.
End UsersController.

Module LeadsController.
Inductive route :=
| List_ (f : Leads.filters) (p : Admin.paging)
| GetFilters
| Export (f : Leads.filters)
| GetCredits
| ParseQuery (query : string) (jobTitles : option (list string))
| GetTaxonomy
| Suggest (field_title : bool) (q : string)
| AiSearch (d : Taxonomy.ai_search)
| GetHistory
| GetSearchJob (jobId : string)
| CancelSearchJob (jobId : string)
| GetMoreLeads (jobId : string) (count : option Z)
| UpdateResultReviewStatus (jobId resultId reviewStatus : string).
Definition audience_of (r : route) : audience :=
  match r with List_ _ _ | GetFilters | Export _ => DirectoryHolders | _ => SignedIn end.
Definition reply (r : route) : Type :=
  match r with
  | List_ _ _ => list Leads.lead_view * Z * Z * Z
  | GetFilters => list (option company_type) * list string
  | GetCredits => Z * Leads.free_tier
  | ParseQuery _ _ => Claude.parsed
  | GetTaxonomy => list string * list (string * string) * list (string * Z) * list Taxonomy.section
  | Suggest _ _ => list string
  | GetHistory => list (search_job * Z)
  | GetSearchJob _ => search_job * list search_result
  | CancelSearchJob _ => search_job
  | GetMoreLeads _ _ => bool
  | UpdateResultReviewStatus _ _ _ => search_result
  | _ => string
  end.
Section controller.
Context {cfg : config} `{Entropy, ClaudeApi, Collation, CsvStringify, LocalTime}.
Definition valid (r : route) : bool :=
  match r with
  | List_ f p => Dto.listLeads (Leads.lf_likelyToAttend f) (Leads.lf_search f) && Admin.validPaging p
  | Export f => Dto.exportLeads (Leads.lf_likelyToAttend f) (Leads.lf_search f)
  | ParseQuery query jobTitles => Dto.parseQuery query jobTitles
  | Suggest _ q => Dto.suggestQuery q
  | AiSearch d => Taxonomy.validAiSearch d
  | GetMoreLeads _ count => Taxonomy.validGetMore count
  | UpdateResultReviewStatus _ _ reviewStatus => Dto.updateReviewStatus reviewStatus
  | _ => true
  end.
Definition handle (user : option principal) (r : route) : C (reply r) :=
  match r as r return C (reply r) with
  | List_ f p => liftC (Leads.list_ f (Admin.pn_page p) (Admin.pn_pageSize p))
  | GetFilters => liftC Leads.getFilters
  | Export f => liftC (Leads.exportCsv f)
  | GetCredits => me user Leads.getCredits
  | ParseQuery query jobTitles => liftC (Leads.parseQuery query jobTitles)
  | GetTaxonomy => retC (Taxonomy.PERSON_SENIORITIES, Taxonomy.COMPANY_SIZE_RANGES,
                         Taxonomy.REVENUE_BUCKETS, Taxonomy.DEPARTMENT_TAXONOMY)
  | Suggest field_title q => liftC (Leads.suggest field_title q)
  | AiSearch d => me user (λ sub, Leads.aiSearch sub d)
  | GetHistory => me user Leads.listSearchHistory
  | GetSearchJob jobId => me user (λ sub, Leads.getSearchJob sub jobId)
  | CancelSearchJob jobId => me user (λ sub, Leads.cancelSearchJob sub jobId)
  | GetMoreLeads jobId count => me user (λ sub, Leads.getMoreLeads sub jobId count)
  | UpdateResultReviewStatus jobId resultId st => me user (λ sub, Leads.updateResultReviewStatus sub jobId resultId st)
  end.
End controller.
End LeadsController.

Module PublicLeadsController.
Inductive route :=
| Preview (search : string)
| SubmitSelf (name : string) (companyType : company_type) (likelyToAttend : string)
    (title company website linkedin email phone : option string)
| GetEventOptions
| GetAnonymousSearchStatus
| AnonymousAiSearch (query : string).
Definition audience_of (r : route) : audience :=
  match r with SubmitSelf _ _ _ _ _ _ _ _ _ | GetEventOptions => SignedIn | _ => Public end.
Definition reply (r : route) : Type :=
  match r with
  | Preview _ => list Leads.preview_row
  | SubmitSelf _ _ _ _ _ _ _ _ _ => Leads.lead_view
  | GetEventOptions => list string
  | GetAnonymousSearchStatus => Z
  | AnonymousAiSearch _ => list Leads.found * Z
  end.
Section controller.
Context {cfg : config} `{Entropy, ApolloApi, ClaudeApi, Collation, LocalTime, IsEmail, IsUrl}.
(** [getFilters().then((filters) => filters.events)]. *)
Definition getEventOptions : M (list string) := filters ← Leads.getFilters; mret filters.2.
Definition valid (r : route) : bool :=
  match r with
  | Preview search => Dto.previewLeads search
  | SubmitSelf name _ likelyToAttend title company website linkedin email phone =>
      Dto.selfSubmitLead name likelyToAttend title company website linkedin email phone
  | AnonymousAiSearch query => Dto.anonymousAiSearch query
  | _ => true
  end.
Definition handle (req : request) (user : option principal) (r : route) : C (reply r) :=
  match r as r return C (reply r) with
  | Preview search => liftC (Leads.preview search)
  | SubmitSelf name companyType likelyToAttend title company website linkedin email phone =>
      me user (λ sub, Leads.submitSelf sub name companyType likelyToAttend title company website linkedin email phone)
  | GetEventOptions => liftC getEventOptions
  | GetAnonymousSearchStatus => liftC (Leads.getAnonymousSearchStatus (ip_of req))
  | AnonymousAiSearch query => liftC (Leads.anonymousSearch (ip_of req) query)
  end.
End controller.
End PublicLeadsController.

Module SubscriptionsController.
Inductive route :=
| ListPlans
| CreateCheckout (planSlug : string)
| CreatePortal
| Status
| Cancel
| Resume
| ListCreditPacks
| CreateCreditsCheckout (packSlug : string) (quantity : Z).
Definition audience_of (r : route) : audience :=
  match r with ListPlans | ListCreditPacks => Public | _ => SignedIn end.
Definition reply (r : route) : Type :=
  match r with
  | ListPlans => list plan
  | Status => Subscriptions.status_view
  | ListCreditPacks => list credit_pack
  | _ => string
  end.
Section controller.
Context {cfg : config} `{Entropy, StripeApi}.
Definition valid (r : route) : bool :=
  match r with CreateCreditsCheckout _ quantity => Dto.createCreditsCheckout quantity | _ => true end.
Definition handle (user : option principal) (r : route) : C (reply r) :=
  match r as r return C (reply r) with
  | ListPlans => liftC Subscriptions.listPlans
  | CreateCheckout planSlug => me user (λ sub, Subscriptions.createCheckoutSession sub planSlug)
  | CreatePortal => me user Subscriptions.createPortalSession
  | Status => me user Subscriptions.getStatus
  | Cancel => me user Subscriptions.cancel
  | Resume => me user Subscriptions.resume
  | ListCreditPacks => liftC Subscriptions.listCreditPacks
  | CreateCreditsCheckout packSlug quantity =>
      me user (λ sub, Subscriptions.createCreditsCheckoutSession sub packSlug quantity)
  end.
End controller.
End SubscriptionsController.

Module LeadFinderBillingController.
Inductive route := ListTiers | Status | CreateCheckout (tierSlug : string) | Cancel.
Definition audience_of (r : route) : audience := match r with ListTiers => Public | _ => SignedIn end.
Definition reply (r : route) : Type :=
  match r with
  | ListTiers => list lead_finder_tier
  | Status => LeadFinderBilling.tier_status
  | _ => string
  end.
Definition handle {cfg : config} `{Entropy, StripeApi} (user : option principal) (r : route) : C (reply r) :=
  match r as r return C (reply r) with
  | ListTiers => liftC LeadFinderBilling.listTiers
  | Status => me user LeadFinderBilling.getStatus
  | CreateCheckout tierSlug => me user (λ sub, LeadFinderBilling.createCheckoutSession sub tierSlug)
  | Cancel => me user LeadFinderBilling.cancel
  end.
End LeadFinderBillingController.

Module InvitesController.
Inductive route := List_ | Create (email : string).
Definition reply (r : route) : Type :=
  match r with List_ => list (string * string * invite_status * Z * option Z) | Create _ => string end.
Definition valid `{IsEmail} (r : route) : bool :=
  match r with Create email => Dto.createInvite email | _ => true end.
Definition handle {cfg : config} `{Entropy} (user : option principal) (r : route) : C (reply r) :=
  match r as r return C (reply r) with
  | List_ => me user Invites.listInvites
  | Create email => me user (λ sub, Invites.createInvite sub email)
  end.
End InvitesController.

(** ContactController. *)
Module ContactController.
Definition submit `{Entropy} (name email : string) (reason : contact_reason) (message : string) : C string :=
  liftC (Contact.submit name email reason message).
End ContactController.
