(* ===== verification/Api.v ===== *)
(** The HTTP surface of the service: the routes of all controllers, who may
    call them, what the ValidationPipe asks, and one request from the guards to
    the handler, in the order Nest runs them. *)
From S2P Require Import Prelude JsLib Crypto Schema Effects Platform Config Messaging Tokens Revocation Users Sessions Access Billing Auth AuthController Guards Subscriptions LeadFinderBilling Webhooks Apollo Taxonomy Leads Dto MailTemplate MailWorkers Campaign ResendWebhook Outreach Admin AdminController Controllers.
Import Guards.

Module Api.
Inductive route :=
| Health
| AuthRoute (r : AuthRoutes.route)
| UsersRoute (r : UsersController.route)
| LeadsRoute (r : LeadsController.route)
| PublicLeadsRoute (r : PublicLeadsController.route)
| SubscriptionsRoute (r : SubscriptionsController.route)
| LeadFinderRoute (r : LeadFinderBillingController.route)
| StripeWebhook (rawBody : string) (signature : option string)
| ResendWebhook (rawBody : string) (svixId svixTimestamp svixSignature : option string)
| InvitesRoute (r : InvitesController.route)
| ContactSubmit (name email : string) (reason : contact_reason) (message : string)
| UnsubscribePost (email token : string)
| AdminRoute (r : AdminController.route).

Definition audience_of (r : route) : audience :=
  match r with
  | Health | StripeWebhook _ _ | ResendWebhook _ _ _ _ | ContactSubmit _ _ _ _ | UnsubscribePost _ _ => Public
  | AuthRoute r => AuthRoutes.audience_of r
  | UsersRoute _ | InvitesRoute _ => SignedIn
  | LeadsRoute r => LeadsController.audience_of r
  | PublicLeadsRoute r => PublicLeadsController.audience_of r
  | SubscriptionsRoute r => SubscriptionsController.audience_of r
  | LeadFinderRoute r => LeadFinderBillingController.audience_of r
  | AdminRoute _ => Staff
  end.
Definition reply (r : route) : Type :=
  match r with
  | AuthRoute r => AuthRoutes.reply r
  | UsersRoute _ => Users.profile
  | LeadsRoute r => LeadsController.reply r
  | PublicLeadsRoute r => PublicLeadsController.reply r
  | SubscriptionsRoute r => SubscriptionsController.reply r
  | LeadFinderRoute r => LeadFinderBillingController.reply r
  | StripeWebhook _ _ | ResendWebhook _ _ _ _ => unit
  | InvitesRoute r => InvitesController.reply r
  | AdminRoute r => AdminController.reply r
  | _ => string
  end.

Section api.
Context {cfg : config} `{Entropy, Argon2, Jwt, Totp, Aead, UAParser, GeoipLite, StripeApi, StripeSignature}.
Context `{ApolloApi, ClaudeApi, LocalTime, Collation, CsvStringify, IsEmail, IsUrl, IsUUID}.
Context (key : list Z).

(** The ValidationPipe. *)
Definition valid (r : route) : bool :=
  match r with
  | AuthRoute r => AuthRoutes.valid r
  | UsersRoute r => UsersController.valid r
  | LeadsRoute r => LeadsController.valid r
  | PublicLeadsRoute r => PublicLeadsController.valid r
  | SubscriptionsRoute r => SubscriptionsController.valid r
  | InvitesRoute r => InvitesController.valid r
  | ContactSubmit name email _ message => Dto.contact name email message
  | UnsubscribePost email token => Dto.unsubscribe email token
  | AdminRoute r => AdminController.valid r
  | _ => true
  end.

(** The guards: JwtAuthGuard, then the guard of the route. *)
Definition guard (a : audience) (req : request) : M (option principal) :=
  user ← jwtAuthGuard (bool_decide (a = Public)) (rq_authorization req);
  _ ← match a with
      | Public | SignedIn => mret true
      | DirectoryHolders => directoryAccessGuard user
      | Staff => rolesGuard (Some AdminController.ROLES) user
      end;
  mret user.

(** The handler of a route. *)
Definition handle (req : request) (user : option principal) (r : route) : C (reply r) :=
  match r as r return C (reply r) with
  | Health => health
  | AuthRoute r => AuthRoutes.handle key req user r
  | UsersRoute r => UsersController.handle user r
  | LeadsRoute r => LeadsController.handle user r
  | PublicLeadsRoute r => PublicLeadsController.handle req user r
  | SubscriptionsRoute r => SubscriptionsController.handle user r
  | LeadFinderRoute r => LeadFinderBillingController.handle user r
  | StripeWebhook rawBody signature => liftC (Webhooks.handleStripeWebhook rawBody signature)
  | ResendWebhook rawBody svixId svixTimestamp svixSignature =>
      liftC (ResendWebhook.handleResendWebhook rawBody svixId svixTimestamp svixSignature)
  | InvitesRoute r => InvitesController.handle user r
  | ContactSubmit name email reason message => ContactController.submit name email reason message
  | UnsubscribePost email token => liftC (MailWorkers.unsubscribe email token)
  | AdminRoute r => liftC (p ← current user; AdminController.handle p r)
  end.

(** One request, whole. *)
Definition serve (req : request) (r : route) : C (reply r) :=
  user <-- liftC (guard (audience_of r) req);;
  _ <-- liftC (when (negb (valid r)) (BadRequest "Bad Request"));;
  handle req user r.
(** The world after it. *)
Definition served (req : request) (r : route) (w : world) : world := (serve req r [] w).2.
End api.
End Api.
