(* ===== verification/Service.v ===== *)
(** The running service: requests are served, queued jobs are worked off, time
    passes and Redis comes and goes. Most of it leaves accounts' standing
    (identity, role, status), sessions and staff invitations alone; the rest
    is treated operation by operation in the files on its invariants. *)
From S2P Require Import Prelude JsLib Crypto Schema Effects Platform Config Messaging Tokens Revocation Users Sessions Access Billing Auth AuthController AuthSessions Guards Subscriptions LeadFinderBilling Webhooks Apollo Taxonomy Leads ApolloSearch Dto MailTemplate MailWorkers Campaign ResendWebhook Outreach Admin AdminController Controllers Api.
Import Guards.

(** ** Steps *)

(** The jobs of the workers. *)
Inductive job :=
| JEmail (j : email_job)
| JBulkEmail (j : email_job)
| JStripe (e : stripe_event)
| JApollo (j : apollo_job)
| JRenewal (name : string)
| JCampaign (name : string).

Section service.
Context {cfg : config} `{Entropy, Argon2, Jwt, Totp, Aead, UAParser, GeoipLite, StripeApi, StripeSignature}.
Context `{ApolloApi, ClaudeApi, LocalTime, Collation, CsvStringify, IsEmail, IsUrl, IsUUID, Resend}.
Context (key : list Z).

Definition run_job (j : job) : M unit :=
  match j with
  | JEmail j => EmailWorker.process j
  | JBulkEmail j => BulkEmail.process j
  | JStripe e => Webhooks.process e
  | JApollo j => ApolloSearch.process j
  | JRenewal name => Renewal.process name
  | JCampaign name => Campaign.process name
  end.

(** One step of the service, its requests restricted to [allowed] ones. *)
Inductive service_step (allowed : world → Api.route → Prop) : world → world → Prop :=
| step_request req r w : allowed w r → service_step allowed w (Api.served key req r w)
| step_job j w : service_step allowed w (after (run_job j) w)
| step_time t up w : w_now w ≤ t → service_step allowed w (put_redis_up up (put_now t w)).
(** Finitely many steps. *)
Definition service_run (allowed : world → Api.route → Prop) : relation world := rtc (service_step allowed).
End service.

(** ** What most of the service leaves alone *)
Definition same_standing (u u' : user) : Prop :=
  u_id u' = u_id u ∧ u_role u' = u_role u ∧ u_status u' = u_status u.
#[export] Instance same_standing_preorder : PreOrder same_standing.
Proof. split; [by intros u|]. intros u1 u2 u3 (?&?&?) (?&?&?). unfold same_standing. split_and!; congruence. Qed.

Definition quiet (w w' : world) : Prop :=
  (∀ k, option_Forall2 same_standing (db_users (w_db w) !! k) (db_users (w_db w') !! k)) ∧
  db_sessions (w_db w') = db_sessions (w_db w) ∧
  db_adminAccessInvites (w_db w') = db_adminAccessInvites (w_db w) ∧
  w_now w' = w_now w.
#[export] Instance quiet_preorder : PreOrder quiet.
Proof.
  split.
  - intros w. repeat split. intros k. reflexivity.
  - intros w1 w2 w3 (K1&?&?&?) (K2&?&?&?). split; [intros k; specialize (K1 k); specialize (K2 k); by etrans|repeat split; congruence].
Qed.
Lemma quiet_eq w w' :
  db_users (w_db w') = db_users (w_db w) → db_sessions (w_db w') = db_sessions (w_db w) →
  db_adminAccessInvites (w_db w') = db_adminAccessInvites (w_db w) → w_now w' = w_now w → quiet w w'.
Proof. intros E1 E2 E3 E4. split; [intros k; rewrite E1; reflexivity|by split_and!]. Qed.
Lemma quiet_rollback w w' : quiet w w' → quiet w (put_db (w_db w) w').
Proof. intros (_ & _ & _ & ?). by apply quiet_eq. Qed.
#[export] Hint Extern 1 (quiet _ _) => apply quiet_eq; reflexivity : presh.
#[export] Hint Resolve quiet_rollback : presh.

Lemma quiet_insert k (u u' : user) w :
  db_users (w_db w) !! k = Some u → same_standing u u' →
  quiet w (put_rows T_users (<[k := u']> (db_users (w_db w))) w).
Proof.
  intros Hu Hs. split; [|by split_and!]. intros j. cbn. destruct (decide (j = k)) as [->|].
  - rewrite Hu, lookup_insert_eq. by constructor.
  - rewrite lookup_insert_ne by done. reflexivity.
Qed.
Lemma update_quiet k f : (∀ u, same_standing u (f u)) → respects quiet (db_update T_users k f).
Proof.
  intros Hf w. destruct (db_update _ _ _ w) as [[r|e] w'] eqn:E.
  - apply db_update_inv in E as (u & Hu & _ & ->). by eapply quiet_insert.
  - by apply db_update_err in E as [-> _].
Qed.
Lemma update_indexed_quiet k f : (∀ u, same_standing u (f u)) → respects quiet (db_update_indexed T_users k f).
Proof.
  intros Hf w. destruct (db_update_indexed _ _ _ w) as [[r|e] w'] eqn:E.
  - apply db_update_indexed_inv in E as (u & Hu & _ & _ & ->). by eapply quiet_insert.
  - by apply db_update_indexed_err in E as ->.
Qed.
Lemma quiet_where P f w : (∀ u, same_standing u (f u)) →
  quiet w (put_rows T_users (update_where P f (db_users (w_db w))) w).
Proof.
  intros Hf. split; [|by split_and!]. intros k. cbn. rewrite lookup_update_where.
  destruct (db_users (w_db w) !! k) as [u|]; constructor. destruct (P u); [apply Hf|reflexivity].
Qed.
Lemma update_many_quiet P f : (∀ u, same_standing u (f u)) → respects quiet (db_update_many T_users P f).
Proof. intros Hf w. by apply quiet_where. Qed.
Lemma update_many_indexed_quiet P f :
  (∀ u, same_standing u (f u)) → respects quiet (db_update_many_indexed T_users P f).
Proof.
  intros Hf w. unfold db_update_many_indexed. cbv zeta. destruct (any_conflict _ _ _); cbn; [reflexivity|].
  by apply quiet_where.
Qed.
#[export] Hint Extern 1 (respects quiet (db_update T_users _ _)) =>
  apply update_quiet; by intros ? : steph.
#[export] Hint Extern 1 (respects quiet (db_update_indexed T_users _ _)) =>
  apply update_indexed_quiet; by intros ? : steph.
#[export] Hint Extern 1 (respects quiet (db_update_many T_users _ _)) =>
  apply update_many_quiet; by intros ? : steph.
#[export] Hint Extern 1 (respects quiet (db_update_many_indexed T_users _ _)) =>
  apply update_many_indexed_quiet; by intros ? : steph.

(** ** The operations, unfolded for the frame tactic *)
Create HintDb svc.
#[export] Hint Unfold BadRequest Unauthorized Forbidden NotFound Conflict ServiceUnavailable
  Email.sendWelcomeEmail Email.sendVerificationEmail Email.sendPasswordResetEmail
  Email.sendDeviceVerificationCode Email.sendContactFormMessage Email.sendContactMessageReply
  Email.sendSubscriptionConfirmed Email.sendAdminAccessInvite Email.sendProspectPitch
  Email.sendInviteEmail Email.sendProspectInvite Email.sendProspectInviteBulk
  Email.sendRenewalReminder Email.sendPaymentFailed Email.sendCancellationScheduled
  Users.findByEmail Users.findById Users.updateProfile Users.getMe Users.patchMe
  Users.markEmailVerified Users.updatePasswordHash Users.updateLastLogin
  Users.registerFailedLogin Users.resetFailedLogins Users.setTwoFactorSecret Users.enableTwoFactor
  Users.disableTwoFactor
  Tokens.generateOpaqueToken Tokens.generateNumericCode Encryption.encrypt
  Revocation.revokeUser Revocation.isRevoked Revocation.registerChallengeAttempt
  Devices.findOrCreateDevice Devices.listForUser Devices.trust
  Sessions.listActiveForUser Sessions.findActiveByRawToken Sessions.findAnyByRawToken Sessions.findById
  Auth.now_seconds Auth.sign Auth.signAccessToken Auth.signImpersonationToken Auth.signChallenge
  Auth.issueVerificationToken Auth.consumeVerificationToken Auth.genericError Auth.checkCode
  Auth.graceSuccessor Auth.verifyEmail Auth.forgotPassword Auth.start2fa Auth.confirm2fa Auth.disable2fa
  Auth.listDevices Auth.listSessions Auth.trustDevice Auth.exportData : svc.
#[export] Hint Unfold StripeCustomer.read StripeCustomer.create StripeCustomer.commit
  StripeCustomer.getOrCreateStripeCustomer grant_credits
  Subscriptions.listPlans Subscriptions.listCreditPacks Subscriptions.session_url
  Subscriptions.createCreditsCheckoutSession Subscriptions.createCheckoutSession
  Subscriptions.createPortalSession Subscriptions.getStatus Subscriptions.cancel Subscriptions.resume
  Subscriptions.upsert Subscriptions.duplicate Subscriptions.syncSubscriptionFromStripe
  Subscriptions.sendSubscriptionConfirmedEmail Subscriptions.handleCreditsCheckoutCompleted
  Subscriptions.markPastDue Subscriptions.syncInvoiceFromStripe Subscriptions.handleWebhookEvent
  LeadFinderBilling.listTiers LeadFinderBilling.getStatus LeadFinderBilling.createCheckoutSession
  LeadFinderBilling.cancel LeadFinderBilling.upsert LeadFinderBilling.duplicate
  LeadFinderBilling.syncFromStripe LeadFinderBilling.sendSubscriptionConfirmedEmail
  LeadFinderBilling.grantMonthlyCredits LeadFinderBilling.handleWebhookEvent
  Webhooks.webhookQueue_add Webhooks.handleStripeWebhook Webhooks.process : svc.
#[export] Hint Unfold Apollo.searchPeople Apollo.match_ Apollo.enrichPerson Apollo.matchByName
  Claude.parseApolloQuery Leads.busy Leads.in_order Leads.list_ Leads.count Leads.exportCsv Leads.preview
  Leads.submitSelf Leads.getFilters Leads.suggest Leads.startOfToday Leads.checkAnonymousSearchLimit
  Leads.getAnonymousSearchStatus Leads.hasUnlimitedLeadFinderAccess Leads.hasPaidLeadFinderAccess
  Leads.getFreeTierStatus Leads.getCredits Leads.tryReserveCredit Leads.refundCredit Leads.parseQuery
  Leads.reveal_anonymous Leads.anonymousSearch Leads.out_of_credits Leads.aiSearch Leads.own_job
  Leads.getMoreLeads Leads.getSearchJob Leads.cancelSearchJob Leads.updateResultReviewStatus
  Leads.listSearchHistory PublicLeadsController.getEventOptions
  ApolloSearch.skipPending ApolloSearch.setStatus ApolloSearch.createPending ApolloSearch.search
  ApolloSearch.check ApolloSearch.reserve ApolloSearch.call ApolloSearch.settle
  ApolloSearch.auditSearch ApolloSearch.finish ApolloSearch.processDirectMatch ApolloSearch.process : svc.
#[export] Hint Unfold suppress MailWorkers.unsubscribe type_error str_field num_field
  Campaign.upsertSettings Campaign.getOrCreateSettings Campaign.createSkipping Campaign.createMany
  Campaign.lookupChunk Campaign.enqueueUploadedEmails Campaign.getStats Campaign.updateSettings
  Campaign.getEmailTemplate Campaign.updateEmailTemplate Campaign.sendTestEmail
  Campaign.batch Campaign.recheck Campaign.sort_candidate
  Campaign.suppressAndUpdateStatus Campaign.markBounced Campaign.markComplained
  ResendWebhook.on_address ResendWebhook.handle_event ResendWebhook.handleResendWebhook
  Campaign.markSent Campaign.auditDrip Campaign.runDailyDrip Campaign.process
  Invites.createInvite Invites.listInvites Contact.submit
  Renewal.related Renewal.remind Renewal.lf_remind Renewal.sendDueReminders Renewal.process : svc.
#[export] Hint Unfold Admin.paginate Admin.attachBillingSummary Admin.listUsers Admin.getUser Admin.target
  Admin.getUserSessions Admin.sendPasswordReset Admin.impersonateUser Admin.setDirectoryAccess
  Admin.setLeadFinderAccess Admin.listProspects Admin.pitchProspect Admin.inviteProspect
  Admin.listSubscriptions Admin.listLeadFinderSubscriptions Admin.getMonthlyRevenue Admin.listAuditLogs
  Admin.listFlaggedSessions Admin.listLeads Admin.getLeadFilters Admin.lead_or_404 Admin.viewed
  Admin.createLead Admin.approveLead Admin.updateLead Admin.deleteLead Admin.message_or_404
  Admin.listContactMessages Admin.resolveContactMessage Admin.deleteContactMessage
  Admin.replyToContactMessage AdminController.sendCampaignTestEmail
  EmailWorker.send BulkEmail.process BulkEmail.prospect_cold_invite BulkEmail.send : svc.
Create HintDb mails.
#[export] Hint Unfold EmailWorker.welcome EmailWorker.verification EmailWorker.password_reset
  EmailWorker.device_code EmailWorker.contact_form EmailWorker.contact_reply EmailWorker.invite
  EmailWorker.admin_access_invite EmailWorker.pitch_intro EmailWorker.pitch_value
  EmailWorker.pitch_urgency EmailWorker.subscription_confirmed EmailWorker.renewal_reminder
  EmailWorker.payment_failed EmailWorker.cancellation_scheduled : mails.
(** An operation that only reads and writes what [R] leaves free. *)
Ltac frame_all :=
  repeat (progress frame_tac || respectsC_step
          || match goal with |- respects _ (match ?x with _ => _ end _) => destruct x; cbv beta end).
Ltac frame_op := autounfold with svc; frame_all.

#[export] Hint Unfold AuthController.getOrCreateDeviceId AuthController.buildMeta
  AuthController.setRefreshCookie AuthController.clearRefreshCookie AuthController.store
  AuthController.register AuthController.login AuthController.verifyLogin AuthController.refresh
  AuthController.logout AuthController.logoutAll AuthController.deleteAccount
  ContactController.submit current me health jwtAuthGuard rolesGuard directoryAccessGuard Api.guard : svc.
(** The operations behind the routes that change standing or sessions. *)
Create HintDb loud.
#[export] Hint Unfold Auth.login Auth.verifyLogin Auth.issueTokenPair Auth.refresh Auth.refreshFrom
  Auth.reuseDetected Auth.logout Auth.logoutAll Auth.resetPassword Auth.removeDevice Auth.deleteAccount
  Sessions.enforceLimit Sessions.create Sessions.rotate Sessions.revoke Sessions.revokeAllForUser Risk.assess
  Devices.remove Devices.delete_device Admin.suspendUser Admin.reactivateUser Admin.deleteUser Admin.forceLogout
  AuthController.login AuthController.verifyLogin AuthController.refresh AuthController.logout
  AuthController.logoutAll AuthController.deleteAccount : loud.


(** A route, one handler at a time. *)
Ltac route_cases r :=
  destruct r;
  repeat match goal with
  | r' : AuthRoutes.route |- _ => destruct r'
  | r' : UsersController.route |- _ => destruct r'
  | r' : LeadsController.route |- _ => destruct r'
  | r' : PublicLeadsController.route |- _ => destruct r'
  | r' : SubscriptionsController.route |- _ => destruct r'
  | r' : LeadFinderBillingController.route |- _ => destruct r'
  | r' : InvitesController.route |- _ => destruct r'
  | r' : AdminController.route |- _ => destruct r'
  end.
Ltac open_handler :=
  cbn [Api.handle AuthRoutes.handle UsersController.handle LeadsController.handle PublicLeadsController.handle
       SubscriptionsController.handle LeadFinderBillingController.handle InvitesController.handle
       ContactController.submit AdminController.handle].
(** *** Loops, handlers of the mail queue, and the revocation store *)
Section generic.
Context {cfg : config} `{Entropy, Argon2, Jwt, Totp, Aead, UAParser, GeoipLite, StripeApi, StripeSignature}.
Context `{ApolloApi, ClaudeApi, LocalTime, Collation, CsvStringify, IsEmail, IsUrl, IsUUID, Resend}.
Context (R : world → world → Prop) `{!PreOrder R}.
Lemma isRevoked_respects u : respects R (rs_isRevoked u).
Proof. intros w. destruct (rs_isRevoked_ok u w) as [b ->]. cbn. reflexivity. Qed.
Lemma createAll_respects jobId cs :
  (∀ c, respects R (ApolloSearch.createPending jobId c)) → respects R (ApolloSearch.createAll jobId cs).
Proof. intros Hc. induction cs as [|c cs IH]; cbn [ApolloSearch.createAll]; frame_all. Qed.
Lemma enrichAll_respects jobId userId rs n :
  respects R (ApolloSearch.check jobId) → respects R (ApolloSearch.reserve jobId userId) →
  (∀ r, respects R (ApolloSearch.call r)) → (∀ r o, respects R (ApolloSearch.settle userId r o)) →
  respects R (ApolloSearch.enrichAll jobId userId rs n).
Proof.
  intros Hch Hr Hc Hs. revert n.
  induction rs as [|r rs IH]; intros n; cbn [ApolloSearch.enrichAll]; frame_all; apply IH.
Qed.
(** The mail worker does only what its [send] does. *)
Lemma email_worker_respects j :
  (∀ to subject body replyTo, respects R (EmailWorker.send to subject body replyTo)) →
  respects R (EmailWorker.process j).
Proof.
  intros Hsend.
  assert (Forall (λ h, ∀ d, respects R (h.2 d)) EmailWorker.handlers) as Hall.
  { unfold EmailWorker.handlers. rewrite !Forall_cons. split_and!; [..|by apply Forall_nil];
      intros d; cbn [snd]; autounfold with mails; unfold type_error, str_field, num_field; frame_all. }
  unfold EmailWorker.process. destruct (head _) as [h|] eqn:Hh; [|frame_tac].
  rewrite Forall_forall in Hall. apply Hall.
  eapply (list_elem_of_filter _ EmailWorker.handlers). by eapply head_Some_elem_of.
Qed.
End generic.
#[export] Hint Extern 2 (respects _ (rs_isRevoked _)) => apply isRevoked_respects; typeclasses eauto : steph.
#[export] Hint Extern 2 (respects _ (ApolloSearch.createAll _ _)) =>
  apply createAll_respects; [typeclasses eauto|intros; frame_op] : steph.
#[export] Hint Extern 2 (respects _ (ApolloSearch.enrichAll _ _ _ _)) =>
  apply enrichAll_respects; [typeclasses eauto|intros; frame_op..] : steph.
#[export] Hint Extern 2 (respects _ (EmailWorker.process _)) =>
  apply email_worker_respects; [typeclasses eauto|intros; frame_op] : steph.

Section quiet_ops.
Context {cfg : config} `{Entropy, Argon2, Jwt, Totp, Aead, UAParser, GeoipLite, StripeApi, StripeSignature}.
Context `{ApolloApi, ClaudeApi, LocalTime, Collation, CsvStringify, IsEmail, IsUrl, IsUUID, Resend}.

Lemma stripe_quiet e : respects quiet (Webhooks.process e).
Proof. frame_op. Qed.

Lemma apollo_quiet j : respects quiet (ApolloSearch.process j).
Proof. frame_op. Qed.
Lemma renewal_quiet n : respects quiet (Renewal.process n).
Proof. frame_op. Qed.
Lemma campaign_quiet n : respects quiet (Campaign.process n).
Proof. frame_op. Qed.
Lemma mail_quiet j : respects quiet (EmailWorker.process j).
Proof. frame_op. Qed.
Lemma bulk_quiet j : respects quiet (BulkEmail.process j).
Proof. frame_op. Qed.

(** The routes that change standing, sessions or staff invitations. *)
Definition loud (r : Api.route) : bool :=
  match r with
  | Api.AuthRoute r =>
      match r with
      | AuthRoutes.Register _ _ _ _ _ | AuthRoutes.Login _ _ | AuthRoutes.VerifyLogin _ _
      | AuthRoutes.Refresh | AuthRoutes.Logout | AuthRoutes.LogoutAll | AuthRoutes.ResetPassword _ _
      | AuthRoutes.RemoveDevice _ | AuthRoutes.DeleteAccount _ => true
      | _ => false
      end
  | Api.AdminRoute r =>
      match r with
      | AdminController.SuspendUser _ _ | AdminController.ReactivateUser _ | AdminController.DeleteUser _
      | AdminController.ForceLogout _ | AdminController.InviteUser _ _ _ _ => true
      | _ => false
      end
  | _ => false
  end.
Lemma guard_quiet a req : respects quiet (Api.guard a req).
Proof. destruct a; frame_op. Qed.
Lemma admin_quiet p r : loud (Api.AdminRoute r) = false → respects quiet (AdminController.handle p r).
Proof. intros Hr. destruct r; try discriminate Hr; cbn [AdminController.handle]; frame_op. Qed.
#[local] Hint Resolve admin_quiet guard_quiet : steph.
Lemma handle_quiet key req user r : loud r = false → respectsC quiet (Api.handle key req user r).
Proof. intros Hr. route_cases r; try discriminate Hr; open_handler; frame_op. Qed.

Lemma job_quiet j : respects quiet (run_job j).
Proof.
  destruct j; [apply mail_quiet|apply bulk_quiet|apply stripe_quiet|apply apollo_quiet|apply renewal_quiet
    |apply campaign_quiet].
Qed.

(** A relation that allows the guards, the handlers of the allowed requests,
    the jobs and the passing of time allows every run. *)
Lemma run_respects (R : world → world → Prop) `{!PreOrder R} key (allowed : world → Api.route → Prop) w w' :
  (∀ a req, respects R (Api.guard a req)) →
  (∀ req user r w, allowed w r → Api.valid r = true → respectsC R (Api.handle key req user r)) →
  (∀ j, respects R (run_job j)) →
  (∀ t up w, R w (put_redis_up up (put_now t w))) →
  service_run key allowed w w' → R w w'.
Proof.
  intros Hg Hh Hj Ht. induction 1 as [|w1 w2 w3 [req r w0 Hal|j w0|t up w0 _] _ IH]; [reflexivity|..];
    (etrans; [|exact IH]); [|apply Hj|apply Ht].
  unfold Api.served, Api.serve. apply (respectsC_bind R); [apply respectsC_lift; [done|apply Hg]|].
  intros user. destruct (Api.valid r) eqn:Hv; [|intros ck v; reflexivity].
  apply respectsC_bind; [done| |intros _; by eapply Hh].
  apply respectsC_lift; [done|]. intros v. reflexivity.
Qed.

(** A relation that allows what is quiet, the passing of time and the handlers
    of the loud requests allows every step. *)
Section steps.
Context (R : world → world → Prop) `{!PreOrder R}.
Hypothesis quiet_R : ∀ w w', quiet w w' → R w w'.
Hypothesis time_R : ∀ t up w, w_now w ≤ t → R w (put_redis_up up (put_now t w)).
Context (key : list Z) (allowed : world → Api.route → Prop).
Hypothesis loud_R : ∀ req user r w,
  loud r = true → allowed w r → ∀ ck w0, quiet w w0 → R w0 (Api.handle key req user r ck w0).2.

Lemma served_R req r w : allowed w r → R w (Api.served key req r w).
Proof using All.
  intros Hal. unfold Api.served, Api.serve, bindC, liftC.
  pose proof (guard_quiet (Api.audience_of r) req w) as Hg.
  destruct (Api.guard _ req w) as [[user|e] w1]; cbn in Hg |- *; [|by apply quiet_R].
  destruct (Api.valid r); cbn; [|by apply quiet_R].
  etrans; [by apply quiet_R|]. destruct (loud r) eqn:Hl.
  - by apply (loud_R req user r w).
  - apply quiet_R. by apply handle_quiet.
Qed.
Lemma step_R w w' : service_step key allowed w w' → R w w'.
Proof using All.
  intros [req r ? Hal|j ?|t up ? Ht]; [by apply served_R| |by apply time_R].
  apply quiet_R. apply job_quiet.
Qed.
Lemma run_R w w' : service_run key allowed w w' → R w w'.
Proof using All. induction 1 as [|???? IH]; [reflexivity|]. etrans; [by apply step_R|done]. Qed.
End steps.
End quiet_ops.
