(* ===== verification/Fixtures.v ===== *)
(** A concrete outside world on which the whole service can be evaluated: the
    third parties of [Instances], an Apollo that finds nobody, a Claude that is
    off, a Resend that accepts every message, and requests of concrete users. *)
From S2P Require Import Prelude JsLib Crypto Schema Effects Platform Config Messaging Tokens Revocation Users Sessions Billing Auth AuthController Instances Guards Webhooks Apollo Leads Dto MailTemplate MailWorkers Controllers Api.
Import Guards.

Definition silent_apollo : ApolloApi := {|
  apollo_search h := Body (Some []);
  apollo_match h := NoResponse "timeout"
|}.
Definition silent_claude : ClaudeApi := {| claude_create n s := Ok [] |}.
Definition length_order : Collation := {| collate a b := (String.length a <=? String.length b)%nat |}.
Definition joined_csv : CsvStringify := {| csv_stringify header rows := foldr String.append "" header |}.
Definition at_email : IsEmail := {| isEmail e := Str.includes "@" e |}.
Definition any_url : IsUrl := {| isUrl s := true |}.
Definition any_uuid : IsUUID := {| isUUID s := true |}.
Definition willing_resend : Resend := {| resend_answer l := None |}.
Definition no_signature : StripeSignature := {| constructEvent b s := Err (JsError "No signatures found") |}.
(** Ann is a member, Max runs the service. *)
Definition key0 : list Z := replicate 32 0.
Section users.
#[local] Existing Instances default_config plain_jwt.
Definition member (id email : string) (r : role) : user :=
  Users.new_user id email id "hsecret123" None r false false 0.
Definition token_for (id email : string) (r : role) : string :=
  jwt_sign (AccessToken id email r None) 0 900.
Definition from_browser (token : option string) : request :=
  Request ((λ t, "Bearer " +:+ t) <$> token) {[ "ccdid" := "browser-1" ]} (Some "203.0.113.5") None.
Definition by_admin : request := from_browser (Some (token_for "max" "max@example.com" ADMIN)).
Definition by_ann : request := from_browser (Some (token_for "ann" "ann@example.com" USER)).
Definition anonymous : request := from_browser None.
Definition two_accounts : world :=
  put_db (set_db_users {[ "ann" := member "ann" "ann@example.com" USER;
                          "max" := member "max" "max@example.com" ADMIN ]} empty_db) (initial_world 1000).
End users.
