(* ===== verification/Integrity.v ===== *)
(** The database stays sound: whatever the service does, every row is stored
    under its own id, no two rows violate a unique index, and every foreign
    key resolves - the audit log's actors included. *)
From S2P Require Import Prelude JsLib Crypto Json Schema Effects Platform Config Messaging Tokens Revocation Users Sessions Access Billing Auth AuthController Instances AuthSessions Guards Subscriptions LeadFinderBilling Webhooks Apollo Taxonomy Leads ApolloSearch Dto MailTemplate MailWorkers Campaign ResendWebhook Outreach Admin AdminController Controllers Api Service Fixtures.
From Stdlib Require Import Btauto.
Import Guards.

Module Integrity.
(** ** Soundness *)
Section intact.
Context {R : Type} (T : table R) (id : R → string).
Definition intact (d : db) : Prop :=
  keyed id (t_get T d) ∧ unique_ok T (t_get T d) ∧ ∀ k r, t_get T d !! k = Some r → t_fk T d r = true.
End intact.
(** The actors of the audit log exist. *)
Definition actors_exist (d : db) : Prop :=
  Forall (λ e, ∀ k, a_actorUserId e = Some k → user_exists d k = true) (db_auditLogs d).
Record sound (d : db) : Prop := Sound {
  so_users : intact T_users u_id d;
  so_devices : intact T_devices d_id d;
  so_sessions : intact T_sessions s_id d;
  so_tokens : intact T_verificationTokens vt_id d;
  so_consents : intact T_consentRecords cr_id d;
  so_invites : intact T_invites i_id d;
  so_adminInvites : intact T_adminAccessInvites ai_id d;
  so_plans : intact T_plans pl_id d;
  so_packs : intact T_creditPacks cp_id d;
  so_tiers : intact T_leadFinderTiers lt_id d;
  so_subscriptions : intact T_subscriptions sub_id d;
  so_lfSubscriptions : intact T_leadFinderSubscriptions lfs_id d;
  so_invoices : intact T_invoices inv_id d;
  so_grants : intact T_creditGrants g_id d;
  so_leads : intact T_leads l_id d;
  so_jobs : intact T_leadSearchJobs j_id d;
  so_results : intact T_leadSearchResults r_id d;
  so_messages : intact T_contactMessages cm_id d;
  so_suppressions : intact T_emailSuppressions es_id d;
  so_queue : intact T_prospectInviteQueue pq_id d;
  so_settings : intact T_campaignSettings cs_id d;
  so_audit : actors_exist d
}.
Abbreviation R := (keeps (λ w, sound (w_db w))).

(** ** Writing one table *)

(** What a table of the schema promises to the writes below: its index is
    symmetric, and new contents that are fine by themselves and lose no key
    leave the whole database sound. *)
Class SoundTable {X} (T : table X) (id : X → string) := {
  st_sym : ∀ a b, t_conflict T a b = t_conflict T b a;
  st_get : ∀ m d, t_get T (t_set T m d) = m;
  st_intact : ∀ d, sound d → intact T id d;
  st_put : ∀ m d, sound d → keyed id m → unique_ok T m → (∀ k r, m !! k = Some r → t_fk T d r = true) →
    (∀ k, is_Some (t_get T d !! k) → is_Some (m !! k)) → sound (t_set T m d)
}.
Lemma exists_in_mono {X} (m m' : gmap string X) k :
  (∀ k, is_Some (m !! k) → is_Some (m' !! k)) → exists_in m k = true → exists_in m' k = true.
Proof. unfold exists_in. intros Hm. rewrite !bool_decide_eq_true. apply Hm. Qed.
Lemma seq_b_sym a b : seq_b a b = seq_b b a.
Proof. unfold seq_b. by apply bool_decide_ext. Qed.
Lemma some_eq_sym (a b : option string) :
  bool_decide (is_Some a) && bool_decide (a = b) = bool_decide (is_Some b) && bool_decide (b = a).
Proof. repeat case_bool_decide; naive_solver. Qed.

Ltac conflict_sym :=
  intros a b; cbn; unfold no_conflict;
  rewrite ?(seq_b_sym (u_email a)), ?(seq_b_sym (d_userId a)), ?(seq_b_sym (d_fingerprint a)),
    ?(seq_b_sym (s_tokenHash a)), ?(seq_b_sym (vt_tokenHash a)), ?(seq_b_sym (pl_slug a)),
    ?(seq_b_sym (pl_stripePriceId a)), ?(seq_b_sym (cp_slug a)), ?(seq_b_sym (cp_stripePriceId a)),
    ?(seq_b_sym (lt_slug a)), ?(seq_b_sym (sub_stripeSubscriptionId a)), ?(seq_b_sym (sub_userId a)),
    ?(seq_b_sym (lfs_stripeSubscriptionId a)), ?(seq_b_sym (lfs_userId a)),
    ?(seq_b_sym (inv_stripeInvoiceId a)), ?(seq_b_sym (es_email a)), ?(seq_b_sym (pq_email a)),
    ?(some_eq_sym (u_stripeCustomerId a)), ?(some_eq_sym (lt_stripePriceId a));
  btauto || reflexivity.
(** Foreign keys that resolve still do when their table loses no key. *)
Ltac fk_mono Hm :=
  unfold user_exists in *; rewrite ?andb_true_iff in *; destruct_and?; split_and?;
  repeat case_match; try done;
  first [eassumption | refine (exists_in_mono _ _ _ Hm _); eassumption].
Ltac put_sound :=
  intros m d [] Hk Hu Hf Hm; constructor;
  match goal with
  | |- actors_exist _ =>
      first [assumption|eapply Forall_impl; [eassumption|]; cbn; intros e He k Ha; specialize (He k Ha);
        unfold user_exists in *; by refine (exists_in_mono _ _ _ Hm _)]
  | |- intact ?T ?id _ =>
      first
        [ split_and!; [exact Hk|exact Hu|exact Hf]
        | match goal with H : intact T id _ |- _ => exact H end
        | match goal with H : intact T id _ |- _ =>
            let Hf' := fresh in
            destruct H as (? & ? & Hf'); split_and!; [assumption..|];
            let k := fresh in let r := fresh in let Hr := fresh in
            intros k r Hr; specialize (Hf' k r Hr); cbn in Hf' |- *; fk_mono Hm
          end ]
  end.
Ltac sound_table := constructor; [conflict_sym|done|by intros ? []|put_sound].
#[export] Instance st_users : SoundTable T_users u_id.
Proof. sound_table. Qed.
#[export] Instance st_devices : SoundTable T_devices d_id.
Proof. sound_table. Qed.
#[export] Instance st_sessions : SoundTable T_sessions s_id.
Proof. sound_table. Qed.
#[export] Instance st_tokens : SoundTable T_verificationTokens vt_id.
Proof. sound_table. Qed.
#[export] Instance st_consents : SoundTable T_consentRecords cr_id.
Proof. sound_table. Qed.
#[export] Instance st_invites : SoundTable T_invites i_id.
Proof. sound_table. Qed.
#[export] Instance st_adminInvites : SoundTable T_adminAccessInvites ai_id.
Proof. sound_table. Qed.
#[export] Instance st_subscriptions : SoundTable T_subscriptions sub_id.
Proof. sound_table. Qed.
#[export] Instance st_lfSubscriptions : SoundTable T_leadFinderSubscriptions lfs_id.
Proof. sound_table. Qed.
#[export] Instance st_invoices : SoundTable T_invoices inv_id.
Proof. sound_table. Qed.
#[export] Instance st_grants : SoundTable T_creditGrants g_id.
Proof. sound_table. Qed.
#[export] Instance st_leads : SoundTable T_leads l_id.
Proof. sound_table. Qed.
#[export] Instance st_jobs : SoundTable T_leadSearchJobs j_id.
Proof. sound_table. Qed.
#[export] Instance st_results : SoundTable T_leadSearchResults r_id.
Proof. sound_table. Qed.
#[export] Instance st_messages : SoundTable T_contactMessages cm_id.
Proof. sound_table. Qed.
#[export] Instance st_suppressions : SoundTable T_emailSuppressions es_id.
Proof. sound_table. Qed.
#[export] Instance st_queue : SoundTable T_prospectInviteQueue pq_id.
Proof. sound_table. Qed.
#[export] Instance st_settings : SoundTable T_campaignSettings cs_id.
Proof. sound_table. Qed.

Section writes.
Context {X : Type} (T : table X) (id : X → string) `{!SoundTable T id}.
Implicit Types (f : X → X).
Lemma put_sound_rows m w :
  sound (w_db w) → keyed id m → unique_ok T m → (∀ k r, m !! k = Some r → t_fk T (w_db w) r = true) →
  (∀ k, is_Some (t_get T (w_db w) !! k) → is_Some (m !! k)) → sound (w_db (put_rows T m w)).
Proof. intros. cbn. by apply st_put. Qed.
Lemma insert_sound k x w :
  sound (w_db w) → id x = k → has_conflict T (t_get T (w_db w)) k x = false → t_fk T (w_db w) x = true →
  sound (w_db (put_rows T (<[k := x]> (t_get T (w_db w))) w)).
Proof.
  intros Hs Hid Hc Hf. destruct (st_intact (T := T) _ Hs) as (Hk & Hu & Hfk). apply put_sound_rows; [done| | | |].
  - by apply keyed_insert.
  - apply unique_ok_insert; [apply st_sym|done|done].
  - intros j r [[<- <-]|[_ Hr]]%lookup_insert_Some; eauto.
  - intros j Hj. destruct (decide (j = k)) as [->|]; [rewrite lookup_insert_eq|rewrite lookup_insert_ne]; eauto.
Qed.
Lemma create_sound k x : id x = k → respects R (db_create T k x).
Proof.
  intros Hid w. destruct (db_create T k x w) as [[r|e] w'] eqn:E; [|by apply db_create_err in E as ->].
  apply db_create_inv in E as (_ & _ & Hc & Hf & ->). intros Hs. by apply insert_sound.
Qed.
(** Updates that keep the id and break no foreign key. *)
Definition in_place f : Prop := ∀ r, id (f r) = id r ∧ ∀ d, t_fk T d r = true → t_fk T d (f r) = true.
Definition unindexed f : Prop := ∀ r x, t_conflict T (f r) x = t_conflict T r x.
Lemma update_indexed_sound k f : in_place f → respects R (db_update_indexed T k f).
Proof.
  intros Hf w. destruct (db_update_indexed T k f w) as [[r|e] w'] eqn:E; [|by apply db_update_indexed_err in E as ->].
  apply db_update_indexed_inv in E as (x & Hx & _ & Hc & ->). intros Hs. destruct (Hf x) as [Hid Hfk].
  destruct (st_intact (T := T) _ Hs) as (Hk & _ & Hall). apply insert_sound; [done| |done|].
  - rewrite Hid. by apply Hk.
  - apply Hfk. by eapply Hall.
Qed.
Lemma update_sound k f : in_place f → unindexed f → respects R (db_update T k f).
Proof.
  intros Hf Hi w. destruct (db_update T k f w) as [[r|e] w'] eqn:E; [|by apply db_update_err in E as [-> _]].
  apply db_update_inv in E as (x & Hx & _ & ->). intros Hs. destruct (Hf x) as [Hid Hfk].
  destruct (st_intact (T := T) _ Hs) as (Hk & Hu & Hall). apply insert_sound; [done| | |].
  - rewrite Hid. by apply Hk.
  - eapply has_conflict_update; eauto.
  - apply Hfk. by eapply Hall.
Qed.
Lemma update_fk_sound k f : (∀ r, id (f r) = id r) → unindexed f → respects R (db_update_fk T k f).
Proof.
  intros Hid Hi w. unfold db_update_fk. destruct (t_get T (w_db w) !! k) as [x|] eqn:Hx.
  - destruct (t_fk T (w_db w) (f x)) eqn:Hf; [|done]. intros Hs. rewrite (db_update_run _ _ _ _ _ Hx).
    destruct (st_intact (T := T) _ Hs) as (Hk & Hu & _). apply insert_sound; [done| | |done].
    + rewrite Hid. by apply Hk.
    + eapply has_conflict_update; eauto.
  - destruct (db_update T k f w) as [[r|e] w'] eqn:E; [|by apply db_update_err in E as [-> _]].
    apply db_update_inv in E as (y & Hy & _). congruence.
Qed.
Lemma rows_sound P f w :
  in_place f → unique_ok T (update_where P f (t_get T (w_db w))) → sound (w_db w) →
  sound (w_db (put_rows T (update_where P f (t_get T (w_db w))) w)).
Proof.
  intros Hf Hu Hs. destruct (st_intact (T := T) _ Hs) as (Hk & _ & Hall). apply put_sound_rows; [done| |done| |].
  - apply keyed_update_where; [|done]. intros r. apply Hf.
  - intros k r Hr. destruct (lookup_update_where_Some _ _ _ _ _ Hr) as (x & Hx & ->).
    destruct (P x); [apply (Hf x)|]; eauto.
  - intros k [x Hx]. rewrite lookup_update_where, Hx. by eexists.
Qed.
Lemma update_many_sound P f : in_place f → unindexed f → respects R (db_update_many T P f).
Proof.
  intros Hf Hi w Hs. cbn. apply (rows_sound P f w); [done| |done].
  destruct (st_intact (T := T) _ Hs) as (_ & Hu & _). intros k1 k2 r1 r2 H1 H2 Hne.
  destruct (lookup_update_where_Some _ _ _ _ _ H1) as (x1 & Hx1 & ->).
  destruct (lookup_update_where_Some _ _ _ _ _ H2) as (x2 & Hx2 & ->).
  assert (t_conflict T x1 x2 = false) as Hc by by apply (Hu k1 k2).
  destruct (P x1), (P x2); rewrite ?Hi, 1?st_sym, ?Hi, 1?st_sym; done.
Qed.
Lemma update_many_indexed_sound P f : in_place f → respects R (db_update_many_indexed T P f).
Proof.
  intros Hf w Hs. unfold db_update_many_indexed. cbv zeta. destruct (any_conflict _ _ _) eqn:E; cbn; [done|].
  apply (rows_sound P f w); [done| |done]. destruct (st_intact (T := T) _ Hs) as (_ & Hu & _).
  apply unique_ok_update_many; [apply st_sym|done|done].
Qed.
End writes.

(** ** The frame of the operations *)
Lemma sound_same w w' : w_db w' = w_db w → R w w'.
Proof. unfold keeps. by intros ->. Qed.
Lemma sound_rollback w w' : R w w' → R w (put_db (w_db w) w').
Proof. intros _. by apply sound_same. Qed.
#[local] Hint Extern 1 (keeps _ _ _) => apply sound_same; reflexivity : presh.
#[local] Hint Resolve sound_rollback : presh.
Lemma record_sound e : respects R (Audit.record e).
Proof.
  intros w. unfold Audit.record.
  destruct (match Audit.ae_actorUserId e with Some k => user_exists (w_db w) k | None => true end) eqn:Ha; [|done].
  intros []. constructor; try done. apply Forall_app. split; [done|]. apply Forall_singleton. intros k Hk.
  cbn in Hk. by rewrite Hk in Ha.
Qed.
Ltac by_cases := intros; unfold Campaign.set_if; first [reflexivity|by repeat case_match].
Ltac in_place := intros ?; split; [by_cases|let H := fresh in intros ? H; first [exact H|revert H; by_cases]].
#[local] Hint Resolve record_sound : steph.
#[local] Hint Extern 1 (respects _ (db_create _ _ _)) => eapply create_sound; [apply _|by_cases] : steph.
#[local] Hint Extern 1 (respects _ (db_update _ _ _)) =>
  eapply update_sound; [apply _|in_place|by_cases] : steph.
#[local] Hint Extern 1 (respects _ (db_update_fk _ _ _)) =>
  eapply update_fk_sound; [apply _|reflexivity|intros ? ?; reflexivity] : steph.
#[local] Hint Extern 1 (respects _ (db_update_indexed _ _ _)) => eapply update_indexed_sound; [apply _|in_place] : steph.
#[local] Hint Extern 1 (respects _ (db_update_many _ _ _)) =>
  eapply update_many_sound; [apply _|in_place|by_cases] : steph.
#[local] Hint Extern 1 (respects _ (db_update_many_indexed _ _ _)) =>
  eapply update_many_indexed_sound; [apply _|in_place] : steph.

Section operations.
Context {cfg : config} `{Entropy, Argon2, Jwt, Totp, Aead, UAParser, GeoipLite, StripeApi, StripeSignature}.
Context `{ApolloApi, ClaudeApi, LocalTime, Collation, CsvStringify, IsEmail, IsUrl, IsUUID, Resend}.

(** Deleting a device no session points to. *)
Lemma unused_device_sound id d :
  sound d → (∀ k s, db_sessions d !! k = Some s → s_deviceId s ≠ Some id) →
  sound (set_db_devices (delete id (db_devices d)) d).
Proof.
  intros [] Hn. constructor; try assumption.
  - destruct so_devices0 as (Hk & Hu & Hf). split_and!; [by apply keyed_delete|by apply unique_ok_delete|].
    intros k r Hr. cbn in Hr. apply lookup_delete_Some in Hr as [_ Hr]. by apply (Hf k r).
  - destruct so_sessions0 as (Hk & Hu & Hf). split_and!; [exact Hk|exact Hu|].
    intros k s Hs. specialize (Hf k s Hs). specialize (Hn k s Hs). cbn in Hf |- *.
    apply andb_true_iff in Hf as [Hf1 Hf2]. apply andb_true_iff. split; [exact Hf1|].
    destruct (s_deviceId s) as [j|]; [|done]. unfold exists_in in *. cbn.
    rewrite lookup_delete_ne by congruence. exact Hf2.
Qed.
(** [onDelete: SetNull] frees the sessions of a deleted device. *)
Lemma delete_device_sound id : respects R (Devices.delete_device id).
Proof.
  intros w Hs. unfold Devices.delete_device, db_delete. rewrite run_bind. cbn [t_get T_devices].
  destruct (db_devices (w_db w) !! id) as [x|] eqn:Hx; [|exact Hs].
  assert (respects R (db_update_many T_sessions (λ s, bool_decide (s_deviceId s = Some id)) (set_s_deviceId None))) as Hm.
  { eapply (update_many_sound T_sessions s_id); [|intros ? ?; reflexivity]. intros r. split; [done|].
    intros d. cbn. by intros [-> _]%andb_true_iff. }
  specialize (Hm w Hs). rewrite run_bind. apply (unused_device_sound id) in Hm; [exact Hm|].
  intros k s Hk. cbn in Hk. destruct (lookup_update_where_Some _ _ _ _ _ Hk) as (s0 & _ & ->).
  case_bool_decide; [done|congruence].
Qed.
(** A patched lead keeps what the patch has no field for. *)
Lemma patch_keeps {A B} (g : lead → B) (o : option A) s l :
  (∀ v l, g (s v l) = g l) → g (Admin.patch o s l) = g l.
Proof. destruct o; [intros Hs; apply Hs|done]. Qed.
Lemma patched_keeps {B} (g : lead → B) d l :
  (∀ v l, g (set_l_name v l) = g l) → (∀ v l, g (set_l_companyType v l) = g l) →
  (∀ v l, g (set_l_likelyToAttend v l) = g l) → (∀ v l, g (set_l_title v l) = g l) →
  (∀ v l, g (set_l_company v l) = g l) → (∀ v l, g (set_l_website v l) = g l) →
  (∀ v l, g (set_l_linkedin v l) = g l) → (∀ v l, g (set_l_appLink v l) = g l) →
  (∀ v l, g (set_l_email v l) = g l) → (∀ v l, g (set_l_phone v l) = g l) → g (Admin.patched d l) = g l.
Proof. intros. unfold Admin.patched. rewrite !(patch_keeps g) by assumption. done. Qed.
Lemma patch_lead_sound id d : respects R (db_update T_leads id (Admin.patched d)).
Proof.
  eapply update_sound; [apply _| |done]. intros l. split; [by rewrite (patched_keeps l_id)|].
  intros d'. cbn. by rewrite (patched_keeps l_submittedByUserId).
Qed.
(** Leads and messages: nothing points to them. *)
Lemma delete_lead_sound id : respects R (db_delete T_leads id).
Proof.
  intros w. destruct (db_delete _ _ w) as [[r|e] w'] eqn:E; unfold db_delete in E; cbn in E; case_match; simplify_eq; [|done].
  intros []. constructor; try assumption. destruct so_leads0 as (Hk & Hu & Hf).
  split_and!; [by apply keyed_delete|by apply unique_ok_delete|]. intros k x Hx. cbn in Hx.
  apply lookup_delete_Some in Hx as [_ Hx]. by apply (Hf k x).
Qed.
Lemma delete_message_sound id : respects R (db_delete T_contactMessages id).
Proof.
  intros w. destruct (db_delete _ _ w) as [[r|e] w'] eqn:E; unfold db_delete in E; cbn in E; case_match; simplify_eq; [|done].
  intros []. constructor; try assumption. destruct so_messages0 as (Hk & Hu & Hf).
  split_and!; [by apply keyed_delete|by apply unique_ok_delete|]. intros k x Hx. cbn in Hx.
  apply lookup_delete_Some in Hx as [_ Hx]. by apply (Hf k x).
Qed.
#[local] Hint Resolve patch_lead_sound delete_lead_sound delete_message_sound : steph.
#[local] Hint Resolve delete_device_sound : steph.
Lemma job_sound j : respects R (run_job j).
Proof. destruct j; cbn [run_job]; frame_op. Qed.
Lemma guard_sound a req : respects R (Api.guard a req).
Proof. destruct a; frame_op. Qed.
Lemma handle_sound key req user r : respectsC R (Api.handle key req user r).
Proof.
  route_cases r; open_handler; autounfold with svc loud; unfold Auth.register, Admin.inviteUser; frame_op.
Qed.
End operations.

Section theorem.
Context {cfg : config} `{Entropy, Argon2, Jwt, Totp, Aead, UAParser, GeoipLite, StripeApi, StripeSignature}.
Context `{ApolloApi, ClaudeApi, LocalTime, Collation, CsvStringify, IsEmail, IsUrl, IsUUID, Resend}.

Lemma stays_sound key (allowed : world → Api.route → Prop) w w' :
  service_run key allowed w w' → sound (w_db w) → sound (w_db w').
Proof.
  intros Hrun. apply (run_respects R key allowed); [apply guard_sound| |apply job_sound| |exact Hrun].
  - intros req user r w0 _ _. apply handle_sound.
  - intros t up w0. by apply sound_same.
Qed.

End theorem.

(** ** Deciding soundness of a concrete database *)
Definition intactb {X} (T : table X) (id : X → string) (d : db) : bool :=
  forallb (λ kv, seq_b (id kv.2) kv.1 && negb (has_conflict T (t_get T d) kv.1 kv.2) && t_fk T d kv.2)
    (map_to_list (t_get T d)).
Lemma intactb_intact {X} (T : table X) id d : intactb T id d = true → intact T id d.
Proof.
  unfold intactb. rewrite forallb_forall. intros Hall.
  assert (∀ kv, kv ∈ map_to_list (t_get T d) → (seq_b (id kv.2) kv.1 = true ∧
    negb (has_conflict T (t_get T d) kv.1 kv.2) = true) ∧ t_fk T d kv.2 = true) as Hkv.
  { intros kv Hin. rewrite <- !andb_true_iff. apply Hall. by apply list_elem_of_In. }
  split_and!; [apply keyed_check|apply unique_check|]; rewrite ?forallb_forall.
  - intros kv Hin. by apply Hkv, list_elem_of_In.
  - intros kv Hin. by apply Hkv, list_elem_of_In.
  - intros k r Hr. apply (Hkv (k, r)). by apply elem_of_map_to_list.
Qed.
Definition soundb (d : db) : bool :=
  intactb T_users u_id d && intactb T_devices d_id d && intactb T_sessions s_id d && intactb
  T_verificationTokens vt_id d && intactb T_consentRecords cr_id d && intactb T_invites i_id d &&
  intactb T_adminAccessInvites ai_id d && intactb T_plans pl_id d && intactb T_creditPacks cp_id d
  && intactb T_leadFinderTiers lt_id d && intactb T_subscriptions sub_id d && intactb
  T_leadFinderSubscriptions lfs_id d && intactb T_invoices inv_id d && intactb T_creditGrants g_id d
  && intactb T_leads l_id d && intactb T_leadSearchJobs j_id d && intactb T_leadSearchResults r_id d
  && intactb T_contactMessages cm_id d && intactb T_emailSuppressions es_id d && intactb
  T_prospectInviteQueue pq_id d && intactb T_campaignSettings cs_id d &&
  forallb (λ e, match a_actorUserId e with Some k => user_exists d k | None => true end) (db_auditLogs d).
Lemma soundb_sound d : soundb d = true → sound d.
Proof.
  unfold soundb. rewrite !andb_true_iff. intros Hd. destruct_and!.
  constructor; try by apply intactb_intact.
  apply Forall_forall. intros e He%list_elem_of_In k Hk.
  match goal with Hall : forallb _ (db_auditLogs d) = true |- _ =>
    rewrite forallb_forall in Hall; specialize (Hall e He); by rewrite Hk in Hall end.
Qed.

(** ** Witness: an invitation to staff and its registration *)
Section witness.
#[local] Existing Instance default_config.
#[local] Existing Instances counter_entropy plain_argon2 plain_jwt echo_totp toy_gcm plain_ua empty_geoip counting_stripe no_signature.
#[local] Existing Instances silent_apollo silent_claude length_order joined_csv at_email any_url any_uuid willing_resend.
Definition after_invitation : world :=
  Api.served key0 by_admin
    (Api.AdminRoute (AdminController.InviteUser "eve@example.com" (Some ADMIN) None None)) two_accounts.
End witness.
End Integrity.
