(* ===== verification/Lineage.v ===== *)
(** The life of a session, as an abstract machine that the whole service
    refines: sessions are opened live, retired for good, rotated into a
    successor of the same account on the same device, or taken off a deleted
    device - and nothing else ever happens to one. *)
From S2P Require Import Prelude JsLib Crypto Json Schema Effects Platform Config Messaging Tokens Revocation Users Sessions Access Billing Auth AuthController Instances AuthSessions Guards Subscriptions LeadFinderBilling Webhooks Apollo Taxonomy Leads ApolloSearch Dto MailTemplate MailWorkers Campaign ResendWebhook Outreach Admin AdminController Controllers Api Service Fixtures Integrity.
Import Guards Integrity.

Module Lineage.
(** ** The abstract machine *)
Record entry := Entry {
  e_owner : string; e_token : string; e_expires : Z; e_device : option string;
  e_live : bool; e_next : option string
}.
Definition retired (e : entry) : entry :=
  Entry (e_owner e) (e_token e) (e_expires e) (e_device e) false (e_next e).
Definition replaced (next : string) (e : entry) : entry :=
  Entry (e_owner e) (e_token e) (e_expires e) (e_device e) false (Some next).
Definition homeless (e : entry) : entry :=
  Entry (e_owner e) (e_token e) (e_expires e) None (e_live e) (e_next e).
Abbreviation store := (gmap string entry).
(** What is done to the entries of some ids. *)
Definition among (S : string → bool) (f : entry → entry) (m : store) : store :=
  map_imap (λ k e, Some (if S k then f e else e)) m.

Inductive act : relation store :=
| act_open id e m : m !! id = None → e_live e = true → e_next e = None → act m (<[id := e]> m)
| act_retire S m : act m (among S retired m)
| act_rotate id e next n m :
    m !! id = Some e → e_live e = true → m !! next = Some n → next ≠ id → e_live n = true →
    e_owner n = e_owner e → e_device n = e_device e →
    act m (<[id := replaced next e]> m)
| act_homeless S m : act m (among S homeless m).

(** What a run of the machine keeps of an entry. *)
Definition ages (e e' : entry) : Prop :=
  e_owner e' = e_owner e ∧ e_token e' = e_token e ∧ e_expires e' = e_expires e ∧
  (e_live e' = true → e_live e = true) ∧ (e_live e = false → e_next e' = e_next e) ∧
  (e_device e' = e_device e ∨ e_device e' = None).
#[export] Instance ages_preorder : PreOrder ages.
Proof.
  split; [intros e; unfold ages; naive_solver|].
  intros e1 e2 e3 (Ho & Ht & Hx & Hl & Hn & Hd) (Ho' & Ht' & Hx' & Hl' & Hn' & Hd').
  unfold ages. split_and!; [congruence..|auto| |].
  - intros Hf. rewrite Hn'; [by apply Hn|]. destruct (e_live e2); [by rewrite Hl in Hf|done].
  - destruct Hd' as [->| ->]; [exact Hd|by right].
Qed.
Lemma retired_ages e : ages e (retired e).
Proof. unfold ages. cbn. naive_solver. Qed.
Lemma homeless_ages e : ages e (homeless e).
Proof. unfold ages. cbn. naive_solver. Qed.
Lemma replaced_ages next e : e_live e = true → ages e (replaced next e).
Proof. intros Hl. unfold ages. cbn. rewrite Hl. naive_solver. Qed.
Lemma lookup_among S f m k : among S f m !! k = (λ e, if S k then f e else e) <$> m !! k.
Proof. unfold among. rewrite map_lookup_imap. by destruct (m !! k). Qed.
Lemma act_ages m m' : act m m' → ∀ k e, m !! k = Some e → ∃ e', m' !! k = Some e' ∧ ages e e'.
Proof.
  intros [id e0 m0 Hn _ _|S m0|id e0 next n m0 Hid Hl _ _ _ _ _|S m0] k e Hk; rewrite ?lookup_among, ?Hk; cbn.
  - rewrite lookup_insert_ne by congruence. exists e. by split.
  - eexists. split; [done|]. destruct (S k); [apply retired_ages|done].
  - destruct (decide (k = id)) as [->|Hne]; [rewrite lookup_insert_eq|rewrite lookup_insert_ne by done].
    + replace e with e0 by congruence. eexists. split; [done|by apply replaced_ages].
    + by exists e.
  - eexists. split; [done|]. destruct (S k); [apply homeless_ages|done].
Qed.
(** The successor of a rotated session is a session of the same account. *)
Definition linked (m : store) : Prop :=
  ∀ k e next, m !! k = Some e → e_next e = Some next →
    e_live e = false ∧ ∃ n, m !! next = Some n ∧ e_owner n = e_owner e.
Lemma act_linked m m' : act m m' → linked m → linked m'.
Proof.
  intros Hact Hm. pose proof (act_ages m m' Hact) as Hages.
  enough (∀ k e next, m' !! k = Some e → e_next e = Some next →
    e_live e = false ∧ ∃ n, m !! next = Some n ∧ e_owner n = e_owner e) as Hback.
  { intros k e next Hk Hn. destruct (Hback k e next Hk Hn) as (Hl & n & Hnx & Ho). split; [done|].
    destruct (Hages next n Hnx) as (n' & Hn' & (Ho' & _)). exists n'. split; [done|congruence]. }
  intros k e next Hk Hn.
  destruct Hact as [id e0 m0 _ _ He0|S m0|id e0 nx n m0 Hid _ Hnx _ _ Ho _|S m0]; rewrite ?lookup_among in Hk.
  - apply lookup_insert_Some in Hk as [[_ <-]|[_ Hk]]; [congruence|by eapply Hm].
  - apply fmap_Some in Hk as (e0 & Hk & ->). destruct (S k); [|by eapply Hm].
    destruct (Hm k e0 next Hk Hn) as (_ & Hx). by split.
  - apply lookup_insert_Some in Hk as [[<- <-]|[_ Hk]]; [|by eapply Hm].
    injection Hn as <-. split; [done|by exists n].
  - apply fmap_Some in Hk as (e0 & Hk & ->). destruct (S k); [|by eapply Hm].
    exact (Hm k e0 next Hk Hn).
Qed.
Lemma acts_ages m m' k e : rtc act m m' → m !! k = Some e → ∃ e', m' !! k = Some e' ∧ ages e e'.
Proof.
  intros Hr. revert e. induction Hr as [m|m1 m2 m3 Ha _ IH]; intros e Hk; [by exists e|].
  destruct (act_ages m1 m2 Ha k e Hk) as (e2 & Hk2 & H2). destruct (IH e2 Hk2) as (e3 & Hk3 & H3).
  exists e3. split; [done|by etrans].
Qed.
Lemma acts_linked m m' : rtc act m m' → linked m → linked m'.
Proof. induction 1; eauto using act_linked. Qed.

(** ** The sessions of the database *)
Definition entry_of (s : session) : entry :=
  Entry (s_userId s) (s_tokenHash s) (s_expiresAt s) (s_deviceId s) (bool_decide (s_revokedAt s = None))
    (s_replacedByTokenId s).
Definition view (w : world) : store := entry_of <$> db_sessions (w_db w).
Definition R (w w' : world) : Prop :=
  keyed s_id (db_sessions (w_db w)) → keyed s_id (db_sessions (w_db w')) ∧ rtc act (view w) (view w').
#[export] Instance R_preorder : PreOrder R.
Proof.
  split; [by intros w Hk|]. intros w1 w2 w3 H12 H23 Hk. destruct (H12 Hk) as [Hk2 Ha]. destruct (H23 Hk2) as [Hk3 Hb].
  split; [done|by etrans].
Qed.
Lemma lineage_eq w w' : db_sessions (w_db w') = db_sessions (w_db w) → R w w'.
Proof. unfold R, view. intros ->. by split. Qed.
Lemma lineage_rollback w w' : R w w' → R w (put_db (w_db w) w').
Proof. intros _. by apply lineage_eq. Qed.
Lemma R_act m w : 
  (keyed s_id (db_sessions (w_db w)) → keyed s_id m) → act (view w) (entry_of <$> m) → R w (put_rows T_sessions m w).
Proof. intros Hk Ha Hw. split; [by apply Hk|by apply rtc_once]. Qed.
(** What an assignment of columns is to the entry. *)
Definition becomes (g : entry → entry) (f : session → session) : Prop :=
  ∀ s, s_id (f s) = s_id s ∧ entry_of (f s) = g (entry_of s).
Lemma where_among P f g w :
  becomes g f →
  entry_of <$> update_where P f (db_sessions (w_db w)) =
  among (λ k, match db_sessions (w_db w) !! k with Some s => P s | None => false end) g (view w).
Proof.
  intros Hf. apply map_eq. intros k. rewrite lookup_among. unfold view. rewrite !lookup_fmap, lookup_update_where.
  destruct (db_sessions (w_db w) !! k) as [s|]; [|done]. cbn. f_equal. destruct (P s); [by apply Hf|done].
Qed.
Lemma insert_among k s f g w :
  becomes g f → db_sessions (w_db w) !! k = Some s →
  entry_of <$> <[k := f s]> (db_sessions (w_db w)) = among (λ j, bool_decide (j = k)) g (view w).
Proof.
  intros Hf Hs. apply map_eq. intros j. rewrite lookup_among. unfold view. rewrite !lookup_fmap.
  case_bool_decide as E; [subst j; rewrite lookup_insert_eq, Hs; cbn; f_equal; by apply Hf|].
  rewrite lookup_insert_ne by done. by destruct (_ !! j).
Qed.
Lemma update_many_R P f g :
  becomes g f → (∀ S m, act m (among S g m)) → respects R (db_update_many T_sessions P f).
Proof.
  intros Hf Hg w. cbn. apply (R_act _ w).
  - intros Hk. apply keyed_update_where; [|done]. intros s. apply Hf.
  - rewrite (where_among P f g w Hf). apply Hg.
Qed.
Lemma update_R k f g :
  becomes g f → (∀ S m, act m (among S g m)) → respects R (db_update T_sessions k f).
Proof.
  intros Hf Hg w. destruct (db_update _ _ _ w) as [[r|e] w'] eqn:E; [|by apply db_update_err in E as [-> _]].
  apply db_update_inv in E as (s & Hs & _ & ->). apply R_act.
  - intros Hk. apply keyed_insert; [|done]. destruct (Hf s) as [-> _]. by apply Hk.
  - cbn in Hs |- *. rewrite (insert_among k s f g w Hf Hs). apply Hg.
Qed.
Lemma create_R k s :
  s_id s = k → s_revokedAt s = None → s_replacedByTokenId s = None → respects R (db_create T_sessions k s).
Proof.
  intros Hid Hr Hn w. destruct (db_create _ _ _ w) as [[r|e] w'] eqn:E; [|by apply db_create_err in E as ->].
  apply db_create_inv in E as (_ & Hk & _ & _ & ->). cbn in Hk. apply R_act; [intros Hkey; by apply keyed_insert|].
  cbn. rewrite fmap_insert. apply act_open; [unfold view; by rewrite lookup_fmap, Hk| |done].
  cbn. by apply bool_decide_eq_true.
Qed.
Lemma becomes_retired t : becomes retired (set_s_revokedAt (Some t)).
Proof. by intros s. Qed.
Lemma becomes_homeless : becomes homeless (set_s_deviceId None).
Proof. by intros s. Qed.

(** *** The operations *)
Section operations.
Context {cfg : config} `{Entropy, Argon2, Jwt, Totp, Aead, UAParser, GeoipLite, StripeApi, StripeSignature}.
Context `{ApolloApi, ClaudeApi, LocalTime, Collation, CsvStringify, IsEmail, IsUrl, IsUUID, Resend}.
#[local] Hint Resolve lineage_rollback : presh.
#[local] Hint Extern 1 (R _ _) => apply lineage_eq; reflexivity : presh.
#[local] Hint Extern 1 (respects _ (db_update T_sessions _ _)) =>
  apply (update_R _ _ retired); [apply becomes_retired|apply act_retire] : steph.
#[local] Hint Extern 1 (respects _ (db_update_many T_sessions _ _)) =>
  first [apply (update_many_R _ _ retired); [apply becomes_retired|apply act_retire]
        |apply (update_many_R _ _ homeless); [apply becomes_homeless|apply act_homeless]] : steph.
#[local] Hint Extern 1 (respects _ (db_create T_sessions _ _)) => apply create_R; reflexivity : steph.
Lemma run_lineage {A} (m : M A) w : respects R m → R w (m w).2.
Proof. intros Hm. apply Hm. Qed.

(** A rotation is an opening and a replacement. *)
Lemma rotate_R old ip w :
  db_sessions (w_db w) !! s_id old = Some old → s_revokedAt old = None → R w (Sessions.rotate old ip w).2.
Proof.
  intros Hold Hlive. destruct (Sessions.rotate old ip w) as [[[raw s]|e] w'] eqn:E.
  - apply Sessions.rotate_inv in E as (id & -> & Hid & -> & ->); [|done]. unfold Sessions.table_of in *.
    assert (id ≠ s_id old) as Hne by congruence.
    set (new := Sessions.fresh_session _ _ _ _). set (dead := set_s_replacedByTokenId _ _).
    intros Hk. split; [by apply keyed_insert, keyed_insert|]. unfold view at 2.
    cbn [Sessions.set_sessions w_db put_db db_sessions set_db_sessions put_tick snd].
    rewrite !(fmap_insert entry_of).
    apply rtc_l with (<[id := entry_of new]> (view w)).
    + apply act_open; [unfold view; by rewrite lookup_fmap, Hid|reflexivity|reflexivity].
    + apply rtc_once. apply (act_rotate (s_id old) (entry_of old) id (entry_of new)); try done.
      * rewrite lookup_insert_ne by done. unfold view. by rewrite lookup_fmap, Hold.
      * cbn. by apply bool_decide_eq_true.
      * apply lookup_insert_eq.
  - apply Sessions.rotate_err in E as [Hdb _]; [|done]. cbn. apply lineage_eq. by rewrite Hdb.
Qed.
Lemma row_of_find P w s :
  keyed s_id (db_sessions (w_db w)) → find_row P (db_sessions (w_db w)) = Some s →
  P s = true ∧ db_sessions (w_db w) !! s_id s = Some s.
Proof. intros Hk Hf. apply find_row_Some in Hf as [Hp [k Hs]]. by rewrite (Hk k s Hs). Qed.
Lemma active_unrevoked now s : Sessions.active now s = true → s_revokedAt s = None.
Proof. unfold Sessions.active. intros Ha. by unbool. Qed.
Lemma refreshFrom_R s meta w :
  db_sessions (w_db w) !! s_id s = Some s → s_revokedAt s = None → R w (Auth.refreshFrom s meta w).2.
Proof.
  intros Hs Hl. unfold Auth.refreshFrom, Users.findById, db_find, gets. rewrite run_bind. cbn [t_get T_users].
  destruct (db_users (w_db w) !! s_userId s) as [u|].
  2: { apply run_lineage. autounfold with loud. frame_op. }
  destruct (bool_decide _); [|apply run_lineage; autounfold with loud; frame_op].
  rewrite run_bind. pose proof (rotate_R s (Auth.rm_ipAddress meta) w Hs Hl) as Hr.
  destruct (Sessions.rotate _ _ w) as [[p|e] w1]; [|exact Hr]. etrans; [exact Hr|]. apply run_lineage. frame_op.
Qed.
Lemma lineage_intro {A} (m : M A) : (∀ w, keyed s_id (db_sessions (w_db w)) → R w (m w).2) → respects R m.
Proof. intros Hm w Hk. by apply Hm. Qed.
Lemma grace_row o w s w' :
  keyed s_id (db_sessions (w_db w)) → Auth.graceSuccessor o w = (Ok (Some s), w') →
  w' = w ∧ db_sessions (w_db w) !! s_id s = Some s ∧ s_revokedAt s = None.
Proof.
  intros Hk. destruct (graceSuccessor_run o w) as (x & -> & Hx). intros [= -> <-].
  destruct (Hx s eq_refl) as [Ha [k Hs]]. unfold Sessions.table_of in Hs.
  split_and!; [done|by rewrite (Hk k s Hs)|by eapply active_unrevoked].
Qed.
Lemma refresh_R raw meta : respects R (Auth.refresh raw meta).
Proof.
  apply lineage_intro. intros w Hk. unfold Auth.refresh. rewrite run_bind.
  unfold Sessions.findActiveByRawToken, date_now, db_find_by, gets. rewrite run_bind. cbn [t_get T_sessions].
  destruct (find_row _ _) as [s|] eqn:Hf.
  - apply row_of_find in Hf as [Ha Hs]; [|done]. unbool. apply refreshFrom_R; [done|by eapply active_unrevoked].
  - unfold Sessions.findAnyByRawToken, db_find_by, gets. rewrite run_bind. cbn [t_get T_sessions].
    set (o := find_row _ _). rewrite run_bind.
    assert (respects R (Auth.graceSuccessor o)) as Hg by frame_op. specialize (Hg w).
    destruct (Auth.graceSuccessor o w) as [[[s|]|e] w'] eqn:E; [| |exact Hg].
    + apply grace_row in E as (-> & Hs & Hl); [|done]. by apply refreshFrom_R.
    + etrans; [exact Hg|]. apply run_lineage. autounfold with loud. frame_op.
Qed.

(** *** Everything else *)
#[local] Hint Resolve refresh_R : steph.
Lemma job_lineage j : respects R (run_job j).
Proof. destruct j; cbn [run_job]; frame_op. Qed.
Lemma guard_lineage a req : respects R (Api.guard a req).
Proof. destruct a; frame_op. Qed.
Lemma handle_lineage key req user r : respectsC R (Api.handle key req user r).
Proof.
  route_cases r; open_handler; autounfold with svc; unfold Auth.register, Admin.inviteUser; frame_op;
    autounfold with loud; frame_op.
Qed.
Lemma run_refines key w w' : service_run key (λ _ _, True) w w' → R w w'.
Proof.
  apply (run_respects R key (λ _ _, True)); [apply guard_lineage| |apply job_lineage|].
  - intros req user r w0 _ _. apply handle_lineage.
  - intros t up w0. by apply lineage_eq.
Qed.
(** Two sessions never share a token. *)
Lemma token_unique d i j a b :
  sound d → db_sessions d !! i = Some a → db_sessions d !! j = Some b → s_tokenHash a = s_tokenHash b → i = j.
Proof.
  intros Hs Ha Hb Hab. destruct (so_sessions d Hs) as (_ & Hu & _). destruct (decide (i = j)); [done|].
  specialize (Hu i j a b Ha Hb ltac:(done)). cbn in Hu. unfold seq_b in Hu. by rewrite (bool_decide_eq_true_2 _ Hab) in Hu.
Qed.

(** C6. Sessions live by the machine above. Every run of the service - any
    requests, jobs, outages and passing of time - does to the sessions of the
    database what some run of the abstract machine does.  So no session
    is ever lost, changes its account, its token or its expiry, or moves to
    another device; the successor of a rotated session is one of the same
    account; and a session once revoked - by a logout, a ban, the cap, a
    rotation or a detected replay - stays revoked: its refresh token never
    finds an active session again. *)
Theorem sessions_refine key w w' :
  service_run key (λ _ _, True) w w' → sound (w_db w) →
  rtc act (view w) (view w') ∧
  (∀ k s, db_sessions (w_db w) !! k = Some s →
     ∃ s', db_sessions (w_db w') !! k = Some s' ∧ ages (entry_of s) (entry_of s')) ∧
  (linked (view w) → linked (view w')) ∧
  (∀ k s raw, db_sessions (w_db w) !! k = Some s → s_revokedAt s ≠ None → s_tokenHash s = Tokens.hash raw →
     Sessions.findActiveByRawToken raw w' = (Ok None, w')).
Proof.
  intros Hrun Hs. assert (sound (w_db w')) as Hs' by by eapply stays_sound.
  destruct (run_refines key w w' Hrun (proj1 (so_sessions _ Hs))) as [_ Ha].
  assert (∀ k s, db_sessions (w_db w) !! k = Some s →
     ∃ s', db_sessions (w_db w') !! k = Some s' ∧ ages (entry_of s) (entry_of s')) as Hages.
  { intros k s Hk. destruct (acts_ages _ _ k (entry_of s) Ha) as (e' & He' & Hag).
    { unfold view. by rewrite lookup_fmap, Hk. }
    unfold view in He'. rewrite lookup_fmap in He'. apply fmap_Some in He' as (s' & Hs0 & ->). by exists s'. }
  split_and!; [exact Ha|exact Hages|by apply acts_linked|].
  intros k s raw Hk Hrev Hraw. destruct (Hages k s Hk) as (s' & Hk' & _ & Htok & _ & Hlive & _). cbn in Htok, Hlive.
  unfold Sessions.findActiveByRawToken, date_now, db_find_by, gets. rewrite run_bind. cbn [t_get T_sessions].
  destruct (find_row _ _) as [x|] eqn:Hf; [|done]. apply find_row_Some in Hf as [Hx [j Hj]]. unfold seq_b in Hx. unbool.
  assert (j = k) as -> by (eapply (token_unique (w_db w')); [done..|congruence]). replace x with s' in * by congruence.
  match goal with Hact : Sessions.active _ s' = true |- _ => apply active_unrevoked in Hact as Hu end.
  rewrite Hu in Hlive. specialize (Hlive (bool_decide_eq_true_2 _ eq_refl)). by apply bool_decide_eq_true_1 in Hlive.
Qed.
End operations.

(** ** Witness: Ann logs in, refreshes, and her old token is dead *)
Section witness.
#[local] Existing Instance default_config.
#[local] Existing Instances counter_entropy plain_argon2 plain_jwt echo_totp toy_gcm plain_ua empty_geoip counting_stripe no_signature.
#[local] Existing Instances silent_apollo silent_claude length_order joined_csv at_email any_url any_uuid willing_resend.
Definition logs_in : Api.route := Api.AuthRoute (AuthRoutes.Login "ann@example.com" "secret123").
Definition known : world := Eval vm_compute in Api.served key0 anonymous logs_in two_accounts.
Definition seated : world := Eval vm_compute in Api.served key0 anonymous logs_in known.
Definition cookie_value (c : cookie_op) : option string :=
  match c with SetCookie n v _ _ _ _ => if seq_b n AuthController.REFRESH_COOKIE then Some v else None | _ => None end.
(** The refresh token the second login set. *)
Definition her_token : string := Eval vm_compute in
  from_option id EmptyString (head (omap cookie_value (Api.serve key0 anonymous logs_in [] known).1.2)).
Definition refreshing : request :=
  Request None (<["cc_rt" := her_token]> {[ "ccdid" := "browser-1" ]}) (Some "203.0.113.5") None.
Definition refreshed : world := Eval vm_compute in Api.served key0 refreshing (Api.AuthRoute AuthRoutes.Refresh) seated.
Definition replayed : world := Eval vm_compute in
  Api.served key0 refreshing (Api.AuthRoute AuthRoutes.Refresh) (put_redis_up true (put_now 100000 refreshed)).
Definition her_session : session := Eval vm_compute in
  from_option id (Sessions.fresh_session "" "" (Sessions.Input "" None None None None None None None) 0)
    (find_row (λ s, seq_b (s_tokenHash s) (Tokens.hash her_token)) (db_sessions (w_db refreshed))).
Lemma replayed_run : service_run key0 (λ _ _, True) refreshed replayed.
Proof.
  apply rtc_l with (put_redis_up true (put_now 100000 refreshed)); [constructor; vm_compute; discriminate|].
  apply rtc_once. assert (Api.served key0 refreshing (Api.AuthRoute AuthRoutes.Refresh)
    (put_redis_up true (put_now 100000 refreshed)) = replayed) as <- by (vm_compute; reflexivity).
  by constructor.
Qed.
(** After the replay no session of hers is left. *)
Lemma sessions_refine_witness :
  size (view refreshed) = 2%nat ∧ count_rows e_live (view refreshed) = 1 ∧ count_rows e_live (view replayed) = 0 ∧
  rtc act (view refreshed) (view replayed) ∧ Sessions.findActiveByRawToken her_token replayed = (Ok None, replayed).
Proof.
  destruct (sessions_refine key0 refreshed replayed replayed_run) as (Hact & _ & _ & Hdead).
  { apply soundb_sound. vm_compute. reflexivity. }
  split_and!; [vm_compute; reflexivity..|exact Hact|].
  apply (Hdead (s_id her_session) her_session); vm_compute; [reflexivity|discriminate|reflexivity].
Defined.
End witness.
End Lineage.
