(* ===== verification/Ledger.v ===== *)
(** The credit ledger of the whole service: balances only grow by what the
    ledger records as granted, only shrink by calls made to Apollo, and are
    never negative. *)
From S2P Require Import Prelude JsLib Crypto Json Schema Effects Platform Config Messaging Tokens Revocation Users Sessions Access Billing Auth AuthController Instances AuthSessions Guards Subscriptions LeadFinderBilling Webhooks Apollo Taxonomy Leads ApolloSearch ApolloSearchProps Dto MailTemplate MailWorkers Campaign ResendWebhook Outreach Admin AdminController Controllers Api Service Fixtures.
Import Guards.

Module Ledger.
(** [@default(100)] of the column. *)
Definition OPENING_CREDITS : Z := 100.
(** The balance of an account, or what it will open with. *)
Definition bal (w : world) (u : string) : Z :=
  from_option u_leadFinderCredits OPENING_CREDITS (db_users (w_db w) !! u).
(** What the ledger records for an account. *)
Definition granted (m : gmap string credit_grant) (u : string) : Z :=
  map_fold (λ _ g z, if seq_b (g_userId g) u then g_credits g + z else z) 0 m.
Definition calls (w : world) : nat := length (w_apollo w).
Lemma granted_insert k g m u :
  m !! k = None → granted (<[k := g]> m) u = (if seq_b (g_userId g) u then g_credits g else 0) + granted m u.
Proof.
  intros Hk. unfold granted. rewrite map_fold_insert_L; [by case_match|intros; repeat case_match; lia|done].
Qed.

Section ledger.
Context `{Entropy}.
(** Tiers grant no negative credits, the ids of the ledger were drawn by the
    service, and no balance is negative. *)
Record fine (w : world) : Prop := Fine {
  fi_users : keyed u_id (db_users (w_db w));
  fi_tiers : ∀ k t, db_leadFinderTiers (w_db w) !! k = Some t → 0 ≤ lt_credits t;
  fi_drawn : ∀ k g, db_creditGrants (w_db w) !! k = Some g → ∃ n, (n < w_tick w)%nat ∧ k = rand_uuid n;
  fi_pos : ∀ u, 0 ≤ bal w u
}.
(** The books from one state to a later one. *)
Definition balanced (w w' : world) : Prop := ∀ u,
  bal w' u - bal w u ≤ granted (db_creditGrants (w_db w')) u - granted (db_creditGrants (w_db w)) u ∧
  granted (db_creditGrants (w_db w')) u - granted (db_creditGrants (w_db w)) u - (Z.of_nat (calls w') - Z.of_nat (calls w))
    ≤ bal w' u - bal w u.
Definition R (w w' : world) : Prop :=
  fine w → (w_tick w ≤ w_tick w')%nat ∧ (calls w ≤ calls w')%nat ∧ fine w' ∧ balanced w w'.
#[export] Instance R_preorder : PreOrder R.
Proof.
  split.
  - intros w Hf. split_and!; [done..|]. intros u. lia.
  - intros w1 w2 w3 H12 H23 Hf. destruct (H12 Hf) as (Ht & Hc & Hf2 & Hb). destruct (H23 Hf2) as (Ht' & Hc' & Hf3 & Hb').
    split_and!; [lia|lia|done|]. intros u. specialize (Hb u). specialize (Hb' u). lia.
Qed.
(** Writes that touch no balance. *)
Lemma R_users w w' :
  (keyed u_id (db_users (w_db w)) → keyed u_id (db_users (w_db w')) ∧ ∀ u, bal w' u = bal w u) →
  db_leadFinderTiers (w_db w') = db_leadFinderTiers (w_db w) →
  db_creditGrants (w_db w') = db_creditGrants (w_db w) →
  (w_tick w ≤ w_tick w')%nat → (calls w ≤ calls w')%nat → R w w'.
Proof.
  intros Hu Ht Hg Htick Hc [Hk Hti Hd Hp]. destruct (Hu Hk) as [Hk' Hb].
  split_and!; [done|done|constructor; rewrite ?Ht, ?Hg; [done|done| |]|].
  - intros k g Hkg. destruct (Hd k g Hkg) as (n & Hn & ->). exists n. split; [lia|done].
  - intros u. rewrite Hb. apply Hp.
  - intros u. rewrite Hb, Hg. lia.
Qed.
Lemma balanced_eq w w' :
  db_users (w_db w') = db_users (w_db w) → db_leadFinderTiers (w_db w') = db_leadFinderTiers (w_db w) →
  db_creditGrants (w_db w') = db_creditGrants (w_db w) →
  (w_tick w ≤ w_tick w')%nat → (calls w ≤ calls w')%nat → R w w'.
Proof. intros Hu. apply R_users. unfold bal. by rewrite Hu. Qed.
Lemma balanced_rollback w w' : R w w' → R w (put_db (w_db w) w').
Proof. intros Hr Hf. destruct (Hr Hf) as (Ht & Hc & _). revert Hf. by apply balanced_eq. Qed.

(** *** Writes to accounts *)
Definition keeps_balance (f : user → user) : Prop :=
  ∀ u, u_id (f u) = u_id u ∧ u_leadFinderCredits (f u) = u_leadFinderCredits u.
Lemma users_R m w :
  (keyed u_id (db_users (w_db w)) → keyed u_id m) →
  (∀ u, from_option u_leadFinderCredits OPENING_CREDITS (m !! u) = bal w u) → R w (put_rows T_users m w).
Proof. intros Hm Hb. apply R_users; try done. intros Hk. split; [by apply Hm|]. exact Hb. Qed.
Lemma insert_user_R k (u u' : user) w :
  db_users (w_db w) !! k = Some u → u_id u' = u_id u → u_leadFinderCredits u' = u_leadFinderCredits u →
  R w (put_rows T_users (<[k := u']> (db_users (w_db w))) w).
Proof.
  intros Hu Hid Hc. apply users_R.
  - intros Hk. apply keyed_insert; [|done]. rewrite Hid. by apply Hk.
  - intros j. unfold bal. destruct (decide (j = k)) as [->|]; [rewrite lookup_insert_eq, Hu|rewrite lookup_insert_ne]; done.
Qed.
Lemma create_user_R k u : u_id u = k → u_leadFinderCredits u = OPENING_CREDITS → respects R (db_create T_users k u).
Proof.
  intros Hid Hc w. destruct (db_create _ _ _ w) as [[r|e] w'] eqn:E; [|by apply db_create_err in E as ->].
  apply db_create_inv in E as (_ & Hn & _ & _ & ->). cbn in Hn. apply users_R; [intros Hk; by apply keyed_insert|].
  intros j. unfold bal. cbn. destruct (decide (j = k)) as [->|]; [by rewrite lookup_insert_eq, Hn|by rewrite lookup_insert_ne].
Qed.
Lemma update_user_R k f : keeps_balance f → respects R (db_update T_users k f).
Proof.
  intros Hf w. destruct (db_update _ _ _ w) as [[r|e] w'] eqn:E; [|by apply db_update_err in E as [-> _]].
  apply db_update_inv in E as (u & Hu & _ & ->). destruct (Hf u). by eapply insert_user_R.
Qed.
Lemma update_indexed_user_R k f : keeps_balance f → respects R (db_update_indexed T_users k f).
Proof.
  intros Hf w. destruct (db_update_indexed _ _ _ w) as [[r|e] w'] eqn:E; [|by apply db_update_indexed_err in E as ->].
  apply db_update_indexed_inv in E as (u & Hu & _ & _ & ->). destruct (Hf u). by eapply insert_user_R.
Qed.
Lemma update_where_users_R P f w : keeps_balance f → R w (put_rows T_users (update_where P f (db_users (w_db w))) w).
Proof.
  intros Hf. apply users_R.
  - intros Hk. apply keyed_update_where; [|done]. intros u. apply Hf.
  - intros j. rewrite lookup_update_where. unfold bal. destruct (db_users (w_db w) !! j) as [u|]; [|done]. cbn.
    destruct (P u); [apply Hf|done].
Qed.
Lemma update_users_R P f : keeps_balance f → respects R (db_update_many T_users P f).
Proof. intros Hf w. by apply update_where_users_R. Qed.
Lemma update_users_indexed_R P f : keeps_balance f → respects R (db_update_many_indexed T_users P f).
Proof.
  intros Hf w. unfold db_update_many_indexed. cbv zeta. destruct (any_conflict _ _ _); [done|]. by apply update_where_users_R.
Qed.

(** *** Grants *)
Context (uuid_inj : ∀ i j, rand_uuid i = rand_uuid j → i = j).
Lemma grant_R v n src amt ref : 0 ≤ n → respects R (grant_credits v n src amt ref).
Proof using uuid_inj.
  intros Hn w Hf. pose proof Hf as [Hk Ht Hd Hp]. unfold grant_credits. rewrite run_bind. unfold db_update. cbn [t_get T_users].
  destruct (db_users (w_db w) !! v) as [x|] eqn:Hx; [|split_and!; [done..|]; intros u; cbn [snd]; lia].
  set (w1 := put_rows T_users _ w). unfold date_now, gets, random_uuid, draw. rewrite !run_bind. cbn [mret M_ret].
  assert (db_creditGrants (w_db w) !! rand_uuid (w_tick w) = None) as Hfresh.
  { apply eq_None_not_Some. intros [g Hg]. destruct (Hd _ g Hg) as (m & Hm & Hid). apply uuid_inj in Hid. lia. }
  set (w2 := put_tick _ w1). set (id := rand_uuid (w_tick w1)).
  match goal with |- context [db_create T_creditGrants _ ?g] => set (row := g) end.
  rewrite run_bind, (db_create_run T_creditGrants id row w2); [|exact Hfresh|by apply has_conflict_false|].
  2: { cbn. unfold user_exists, exists_in. apply bool_decide_eq_true. cbn. by rewrite lookup_insert_eq. }
  assert (∀ u, bal (put_rows T_creditGrants (<[id := row]> (t_get T_creditGrants (w_db w2))) w2) u =
    (if seq_b v u then n else 0) + bal w u) as Hb.
  { intros u. unfold bal, seq_b. cbn. case_bool_decide as E.
    - subst u. rewrite lookup_insert_eq, Hx. cbn. lia.
    - by rewrite lookup_insert_ne. }
  assert (∀ u, granted (<[id := row]> (db_creditGrants (w_db w))) u =
    (if seq_b v u then n else 0) + granted (db_creditGrants (w_db w)) u) as Hg by (intros u; by apply granted_insert).
  cbn [snd]. split_and!; [cbn; lia|done|constructor|].
  - cbn. apply keyed_insert; [|done]. cbn. by apply Hk.
  - exact Ht.
  - intros k g Hkg. cbn in Hkg |- *. apply lookup_insert_Some in Hkg as [[<- _]|[_ Hkg]].
    + exists (w_tick w). split; [lia|done].
    + destruct (Hd k g Hkg) as (m & Hm & ->). exists m. split; [lia|done].
  - intros u. rewrite Hb. specialize (Hp u). case_match; lia.
  - intros u. rewrite Hb. change (db_creditGrants (w_db (put_rows T_creditGrants ?m w2))) with m. cbn [t_get T_creditGrants].
    change (db_creditGrants (w_db w2)) with (db_creditGrants (w_db w)). rewrite Hg.
    change (calls _) with (calls w). lia.
Qed.

(** *** A credit lent to a search *)
(** From [w] to [w1] the account [v] was lent a credit, unless it is exempt. *)
Definition lent (v : string) (w w1 : world) : Prop :=
  (w_tick w ≤ w_tick w1)%nat ∧ (calls w ≤ calls w1)%nat ∧
  db_leadFinderTiers (w_db w1) = db_leadFinderTiers (w_db w) ∧
  db_creditGrants (w_db w1) = db_creditGrants (w_db w) ∧
  ∃ x, row w v = Some x ∧
    (exempt x = true ∧ users w1 = users w ∨
     exempt x = false ∧ 0 < u_leadFinderCredits x ∧ users w1 = <[v := set_credits (λ c, c - 1) x]> (users w)).
(** What happens between a reservation and its end. *)
Definition aside (w w' : world) : Prop :=
  (w_tick w ≤ w_tick w')%nat ∧ (calls w ≤ calls w')%nat ∧ users w' = users w ∧
  db_leadFinderTiers (w_db w') = db_leadFinderTiers (w_db w) ∧ db_creditGrants (w_db w') = db_creditGrants (w_db w).
#[export] Instance aside_preorder : PreOrder aside.
Proof. split; [by intros w|]. intros w1 w2 w3 (?&?&?&?&?) (?&?&?&?&?). unfold aside. split_and!; first [lia|congruence]. Qed.
Lemma lent_aside v w w1 w2 : lent v w w1 → aside w1 w2 → lent v w w2.
Proof.
  intros (Ht & Hc & Hti & Hg & x & Hx & Hu) (Ht' & Hc' & Hu' & Hti' & Hg').
  split_and!; [lia|lia|congruence|congruence|]. exists x. rewrite Hu'. by split.
Qed.
(** A credit lent and used for a call is spent. *)
Lemma lent_spent v w w1 : lent v w w1 → (calls w < calls w1)%nat → R w w1.
Proof.
  intros (Ht & Hc & Hti & Hg & x & Hx & [[_ Hu]|(Hex & Hpos & Hu)]) Hcall.
  { by apply balanced_eq. }
  unfold row, users in *. intros [Hk Htiers Hd Hp].
  assert (∀ u, bal w1 u = bal w u - if decide (u = v) then 1 else 0) as Hb.
  { intros u. unfold bal. rewrite Hu. case_decide as E.
    - subst u. rewrite lookup_insert_eq, Hx. done.
    - rewrite lookup_insert_ne by done. lia. }
  split_and!; [done|lia|constructor; rewrite ?Hti, ?Hg, ?Hu|].
  - apply keyed_insert; [exact (Hk v x Hx)|done].
  - done.
  - intros k g Hkg. destruct (Hd k g Hkg) as (n & Hn & ->). exists n. split; [lia|done].
  - intros u. rewrite Hb. case_decide as E; [|specialize (Hp u); lia]. subst u. unfold bal. rewrite Hx. cbn. lia.
  - intros u. rewrite Hb, Hg. case_decide; lia.
Qed.
(** A credit lent and given back is as if it had never been lent. *)
Lemma refund_aside v : respects (λ w w', (w_tick w ≤ w_tick w')%nat ∧ (calls w ≤ calls w')%nat ∧
  db_leadFinderTiers (w_db w') = db_leadFinderTiers (w_db w) ∧ db_creditGrants (w_db w') = db_creditGrants (w_db w))
  (Leads.refundCredit v).
Proof.
  intros w. unfold Leads.refundCredit. rewrite run_bind, unlimited_run. destruct (from_option _ _ _); [done|].
  rewrite run_bind. unfold db_update. cbv zeta. by destruct (t_get _ _ !! v).
Qed.
Lemma lent_refunded v w w1 : lent v w w1 → R w (Leads.refundCredit v w1).2.
Proof.
  intros (Ht & Hc & Hti & Hg & x & Hx & Hu). pose proof (refund_aside v w1) as (Ht' & Hc' & Hti' & Hg').
  destruct (Leads.refundCredit v w1) as [r w2] eqn:E. pose proof (refund_spec v w1 r w2 E) as Hr. cbn [snd] in *.
  apply balanced_eq; [|congruence|congruence|lia|lia]. unfold row, users in *.
  destruct Hu as [[Hex Hu]|(Hex & Hpos & Hu)]; rewrite Hu in Hr.
  - rewrite Hx in Hr. destruct Hr as [_ ->]. by rewrite Hex.
  - rewrite lookup_insert_eq in Hr. destruct Hr as [_ ->].
    change (exempt (set_credits (λ c, c - 1) x)) with (exempt x). rewrite Hex, insert_insert_eq.
    apply insert_id. rewrite Hx. f_equal. destruct x. unfold set_credits, set_u_leadFinderCredits. cbn. f_equal. lia.
Qed.

(** *** The operations *)
Context {cfg : config} `{Argon2, Jwt, Totp, Aead, UAParser, GeoipLite, StripeApi, StripeSignature}.
Context `{ApolloApi, ClaudeApi, LocalTime, Collation, CsvStringify, IsEmail, IsUrl, IsUUID, Resend}.
#[local] Hint Resolve balanced_rollback : presh.
#[local] Hint Extern 1 (R _ _) =>
  apply balanced_eq; [reflexivity|reflexivity|reflexivity|cbn; lia|unfold calls; cbn; rewrite ?length_app; lia] : presh.
#[local] Hint Extern 1 (aside _ _) => unfold aside, calls, users; cbn; rewrite ?length_app; split_and!; first [reflexivity|lia] : presh.
#[local] Hint Extern 1 (respects _ (db_create T_users _ _)) => apply create_user_R; by repeat case_match : steph.
#[local] Hint Extern 1 (respects _ (db_update T_users _ _)) => apply update_user_R; by split : steph.
#[local] Hint Extern 1 (respects _ (db_update_indexed T_users _ _)) => apply update_indexed_user_R; by split : steph.
#[local] Hint Extern 1 (respects _ (db_update_many T_users _ _)) => apply update_users_R; by split : steph.
#[local] Hint Extern 1 (respects _ (db_update_many_indexed T_users _ _)) => apply update_users_indexed_R; by split : steph.
Lemma run_balanced {A} (m : M A) w : respects R m → R w (m w).2.
Proof. intros Hm. apply Hm. Qed.
Lemma balanced_intro {A} (m : M A) : (∀ w, fine w → R w (m w).2) → respects R m.
Proof. intros Hm w Hf. by apply Hm. Qed.
Lemma aside_R w w' : aside w w' → R w w'.
Proof. intros (Ht & Hc & Hu & Hti & Hg). by apply balanced_eq. Qed.
Lemma bind_R {A B} (m : M A) (k : A → M B) w w0 :
  R w (m w0).2 → (∀ a, respects R (k a)) → R w ((m ≫= k) w0).2.
Proof. intros Hm Hk. rewrite run_bind. destruct (m w0) as [[a|e] w1]; [etrans; [exact Hm|apply Hk]|exact Hm]. Qed.

Lemma skip_aside jobId : respects aside (ApolloSearch.skipPending jobId).
Proof. unfold ApolloSearch.skipPending. frame_op. Qed.
Lemma tryReserve_lends v w r w1 :
  keyed u_id (db_users (w_db w)) → Leads.tryReserveCredit v w = (r, w1) →
  r = Ok true ∧ lent v w w1 ∨ r = Ok false ∧ aside w w1.
Proof.
  intros Hk E. destruct (tryReserve_spec v w r w1 Hk E) as (b & -> & Hspec).
  assert ((w_tick w ≤ w_tick w1)%nat ∧ (calls w ≤ calls w1)%nat ∧
    db_leadFinderTiers (w_db w1) = db_leadFinderTiers (w_db w) ∧ db_creditGrants (w_db w1) = db_creditGrants (w_db w))
    as (Ht & Hc & Hti & Hg).
  { unfold Leads.tryReserveCredit in E. rewrite run_bind, unlimited_run in E. destruct (from_option _ _ _); by injection E as _ <-. }
  unfold lent, aside. destruct (row w v) as [x|] eqn:Hx; [|destruct Hspec as [-> Hu]; right; by split_and!].
  destruct (exempt x) eqn:Hex.
  - destruct Hspec as [-> ->]. left. split_and!; try done. exists x. auto.
  - destruct (0 <? _) eqn:Hpos; destruct Hspec as [-> Hu]; [left|right; by split_and!].
    split_and!; try done. exists x. split; [done|]. right. split_and!; [done|lia|done].
Qed.
(** Reserve, call, settle: one credit for one call, or none. *)
Lemma candidate_R {B} jobId v r (z : M B) (k : bool → M B) :
  respects R z → (∀ b, respects R (k b)) →
  respects R (b ← ApolloSearch.reserve jobId v; if negb b then z else
    o ← ApolloSearch.call r; e ← ApolloSearch.settle v r o; k e).
Proof.
  intros Hz Hk. apply balanced_intro. intros w Hf. rewrite run_bind. unfold ApolloSearch.reserve. rewrite run_bind.
  destruct (Leads.tryReserveCredit v w) as [res w1] eqn:E.
  destruct (tryReserve_lends v w res w1 (fi_users _ Hf) E) as [[-> Hlent]|[-> Ha]]; cbn [negb].
  - change ((mret true : M bool) w1) with (Ok true, w1). cbv beta iota. cbn [negb]. rewrite run_bind. unfold ApolloSearch.call, Apollo.enrichPerson.
    destruct (Apollo.match_run [("id", JStr (r_apolloPersonId r))] w1) as [o ->].
    set (w2 := put_apollo _ w1).
    assert (lent v w w2) as Hlent2.
    { eapply lent_aside; [exact Hlent|]. unfold aside, calls, users, w2. cbn. rewrite length_app. split_and!; first [reflexivity|lia]. }
    assert (R w (ApolloSearch.settle v r o w2).2) as Hs.
    { unfold ApolloSearch.settle. destruct o as [e|].
      - etrans; [apply (lent_spent v w w2 Hlent2)|apply run_balanced; frame_op].
        destruct Hlent as (_ & Hc & _). unfold calls, w2 in *. cbn. rewrite length_app. cbn. lia.
      - apply bind_R; [by apply lent_refunded|]. intros _. frame_op. }
    by apply bind_R.
  - etrans; [apply (aside_R _ _ Ha)|]. pose proof (skip_aside jobId w1) as Hskip. rewrite run_bind.
    destruct (ApolloSearch.skipPending jobId w1) as [[u|e] w2]; (etrans; [apply (aside_R _ _ Hskip)|]); [apply run_balanced, Hz|done].
Qed.
Lemma direct_R jobId v name f : respects R (ApolloSearch.processDirectMatch jobId v name f).
Proof.
  apply balanced_intro. intros w Hf. unfold ApolloSearch.processDirectMatch. rewrite run_bind.
  destruct (Leads.tryReserveCredit v w) as [res w1] eqn:E.
  destruct (tryReserve_lends v w res w1 (fi_users _ Hf) E) as [[-> Hlent]|[-> Ha]]; cbn [negb].
  - rewrite run_bind. unfold Apollo.matchByName.
    match goal with |- context [Apollo.match_ ?b w1] => destruct (Apollo.match_run b w1) as [o ->] end.
    set (w2 := put_apollo _ w1).
    assert (lent v w w2) as Hlent2.
    { eapply lent_aside; [exact Hlent|]. unfold aside, calls, users, w2. cbn. rewrite length_app. split_and!; first [reflexivity|lia]. }
    apply bind_R; [|intros _; frame_op]. destruct o as [e|]; [|by apply lent_refunded].
    cbn. apply (lent_spent v w w2 Hlent2). destruct Hlent as (_ & Hc & _). unfold calls, w2 in *. cbn. rewrite length_app. cbn. lia.
  - etrans; [apply (aside_R _ _ Ha)|]. apply run_balanced. frame_op.
Qed.
Lemma enrichAll_R jobId v rs n : respects R (ApolloSearch.enrichAll jobId v rs n).
Proof.
  revert n. induction rs as [|r rs IH]; intros n; cbn [ApolloSearch.enrichAll]; [frame_op|].
  apply respects_bind; [apply _|frame_op|]. intros [|]; [frame_op|]. apply candidate_R; [frame_op|]. intros b. apply IH.
Qed.
#[local] Hint Resolve direct_R enrichAll_R : steph.
Lemma search_R job : respects R (ApolloSearch.process job).
Proof.
  unfold ApolloSearch.process. apply respects_try; [apply _| |intros _; frame_op].
  destruct (Leads.personName _); [apply direct_R|]. frame_op.
Qed.
Lemma pack_R s : respects R (Subscriptions.handleCreditsCheckoutCompleted s).
Proof.
  unfold Subscriptions.handleCreditsCheckoutCompleted. destruct (meta _ _); [|frame_op].
  destruct (positive_int _) as [n|] eqn:E; [|frame_op].
  apply respects_bind; [apply _|apply grant_R|intros _; frame_op].
  unfold positive_int in E. destruct (_ ≫= _) as [m|]; [|done]. destruct (m <=? 0) eqn:Em; [done|]. injection E as <-. lia.
Qed.
Lemma tier_R i : respects R (LeadFinderBilling.grantMonthlyCredits i).
Proof.
  apply balanced_intro. intros w Hf. unfold LeadFinderBilling.grantMonthlyCredits. destruct (negb _); [done|].
  destruct (meta _ "userId") as [v|]; [|done]. destruct (meta _ "tierId") as [k|]; [|done].
  unfold db_find, gets. rewrite run_bind. cbn [t_get T_leadFinderTiers].
  destruct (db_leadFinderTiers (w_db w) !! k) as [t|] eqn:Ht; [|done]. apply run_balanced.
  apply respects_bind; [apply _|apply grant_R|intros _; frame_op]. by apply (fi_tiers w Hf k).
Qed.
#[local] Hint Resolve pack_R tier_R search_R : steph.
Lemma webhook_R e : respects R (Webhooks.process e).
Proof.
  unfold Webhooks.process, Subscriptions.handleWebhookEvent, LeadFinderBilling.handleWebhookEvent.
  destruct (se_body e); frame_op.
Qed.
#[local] Hint Resolve webhook_R : steph.
Lemma job_balanced j : respects R (run_job j).
Proof. destruct j; cbn [run_job]; frame_op. Qed.
Lemma guard_balanced a req : respects R (Api.guard a req).
Proof. destruct a; frame_op. Qed.
Lemma handle_balanced key req user r : respectsC R (Api.handle key req user r).
Proof.
  route_cases r; open_handler; autounfold with svc loud; unfold Auth.register, Admin.inviteUser; frame_op.
Qed.
End ledger.

Section theorem.
Context {cfg : config} `{Entropy, Argon2, Jwt, Totp, Aead, UAParser, GeoipLite, StripeApi, StripeSignature}.
Context `{ApolloApi, ClaudeApi, LocalTime, Collation, CsvStringify, IsEmail, IsUrl, IsUUID, Resend}.

(** C7. The books balance. Along any run of the service - requests, webhooks,
    searches, outages, in any order - every account's balance of Lead Finder
    credits grows by no more than the ledger records as granted to it since,
    and falls by no more than the calls the service made to Apollo
    since: no credit comes from nothing, and none is lost without a call.  No
    balance is ever negative.  A new account opens with the credits of the
    schema.  (The identifiers the database draws are assumed to be distinct: a
    grant whose identifier is taken would leave the balance without its
    ledger row, since the code writes the two in no transaction.) *)
Theorem books_balance key w w' u :
  (∀ i j, rand_uuid i = rand_uuid j → i = j) → fine w → service_run key (λ _ _, True) w w' →
  fine w' ∧ 0 ≤ bal w' u ∧
  bal w' u ≤ bal w u + (granted (db_creditGrants (w_db w')) u - granted (db_creditGrants (w_db w)) u) ∧
  bal w u + (granted (db_creditGrants (w_db w')) u - granted (db_creditGrants (w_db w)) u)
    ≤ bal w' u + (Z.of_nat (calls w') - Z.of_nat (calls w)).
Proof.
  intros Hinj Hw Hrun. assert (R w w') as Hr.
  { apply (run_respects R key (λ _ _, True)); [by apply guard_balanced| |by apply job_balanced| |exact Hrun].
    - intros req user r w0 _ _. by apply handle_balanced.
    - intros t up w0. by apply balanced_eq. }
  destruct (Hr Hw) as (_ & _ & Hw' & Hb). specialize (Hb u). split; [exact Hw'|]. split; [apply Hw'|lia].
Qed.
End theorem.

(** ** Witness: Ann buys fifty credits and searches for Jane Doe *)
Section witness.
#[local] Existing Instance default_config.
#[local] Existing Instances counter_entropy plain_argon2 plain_jwt echo_totp toy_gcm plain_ua empty_geoip counting_stripe no_signature.
#[local] Existing Instances jane_apollo silent_claude length_order joined_csv at_email any_url any_uuid willing_resend.
Lemma counter_distinct i j : rand_uuid (Entropy := counter_entropy) i = rand_uuid j → i = j.
Proof. cbn. intros Heq. simplify_eq. by apply (inj pretty). Qed.
Lemma bal_check w :
  forallb (λ kv, 0 <=? u_leadFinderCredits kv.2) (map_to_list (db_users (w_db w))) = true → ∀ u, 0 ≤ bal w u.
Proof.
  rewrite forallb_forall. intros Hall u. unfold bal. destruct (db_users (w_db w) !! u) as [x|] eqn:E; [|done].
  apply Z.leb_le, (Hall (u, x)), list_elem_of_In, elem_of_map_to_list, E.
Qed.
Definition purchase : job := JStripe (StripeEvent "evt_1" (ev_checkout_completed
  (CheckoutSession "cs_1" "payment" None {[ "userId" := "ann"; "credits" := "50" ]} (Some 4900)))).
Definition jane_search : job := JApollo (Mk_apollo_job "j1" "ann" no_filters 1 None).
Definition asked : world :=
  put_db (set_db_leadSearchJobs {[ "j1" := Mk_search_job "j1" "ann" "campaign" [] (Some no_filters) RUNNING 0 ]}
    (w_db two_accounts)) two_accounts.
Definition bought : world := Eval vm_compute in after (run_job purchase) asked.
Definition found : world := Eval vm_compute in after (run_job jane_search) bought.
Lemma found_run key : service_run key (λ _ _, True) asked found.
Proof.
  apply rtc_l with bought; [assert (after (run_job purchase) asked = bought) as <- by (vm_compute; reflexivity); constructor|].
  apply rtc_once. assert (after (run_job jane_search) bought = found) as <- by (vm_compute; reflexivity). constructor.
Qed.
Lemma books_balance_witness :
  bal asked "ann" = 100 ∧ bal bought "ann" = 150 ∧ bal found "ann" = 149 ∧
  granted (db_creditGrants (w_db found)) "ann" = 50 ∧ calls found = 2%nat ∧ fine found.
Proof.
  split_and!; [vm_compute; reflexivity..|].
  apply (books_balance key0 asked found "ann" counter_distinct); [|apply found_run].
  constructor.
  - apply keyed_check. vm_compute. reflexivity.
  - intros k t Hk. by destruct (lookup_empty_Some (M := gmap string) k t Hk).
  - intros k g Hk. by destruct (lookup_empty_Some (M := gmap string) k g Hk).
  - apply bal_check. vm_compute. reflexivity.
Defined.
End witness.
End Ledger.
