(* ===== verification/Gate.v ===== *)
(** Who reaches a handler: the decision of the guards and the pipe in front of
    every route, and that a refused request changes nothing. *)
From S2P Require Import Prelude JsLib Crypto Schema Effects Platform Config Messaging Tokens Revocation Users Sessions Access Billing Auth AuthController Instances AuthSessions Guards Subscriptions LeadFinderBilling Webhooks Apollo Taxonomy Leads ApolloSearch Dto MailTemplate MailWorkers Campaign ResendWebhook Outreach Admin AdminController Controllers Api Service Fixtures.
Import Guards.

Module Gate.
Section gate.
Context {cfg : config} `{Entropy, Argon2, Jwt, Totp, Aead, UAParser, GeoipLite, StripeApi, StripeSignature}.
Context `{ApolloApi, ClaudeApi, LocalTime, Collation, CsvStringify, IsEmail, IsUrl, IsUUID}.

(** The account a request speaks for: that of a verifying bearer access
    token, unless Redis answers that it is revoked. *)
Definition bearer (req : request) (w : world) : option principal :=
  match extractBearerToken (rq_authorization req) with
  | Some token =>
      if Str.nonempty token then
        match jwt_verify token (w_now w / 1000) with
        | Some (AccessToken sub email r imp) =>
            if w_redis_up w && bool_decide (is_Some (redis_live w (Revocation.user_key sub))) then None
            else Some (Principal sub email r imp)
        | _ => None
        end
      else None
  | None => None
  end.
Lemma jwt_bearer req w :
  match bearer req w with
  | Some p => jwtAuthGuard false (rq_authorization req) w = (Ok (Some p), w)
  | None => ∃ msg, jwtAuthGuard false (rq_authorization req) w = (Err (Http 401 msg), w)
  end.
Proof.
  unfold bearer, jwtAuthGuard. destruct (extractBearerToken _) as [token|]; [|by eexists].
  destruct (Str.nonempty token); cbn [negb]; [|by eexists]. unfold date_now, gets. rewrite run_bind.
  destruct (jwt_verify token _) as [[sub email r imp|]|]; [|by eexists..].
  rewrite run_bind. change (rs_isRevoked sub w) with (Revocation.isRevoked sub w). rewrite Revocation.isRevoked_run.
  destruct (_ && _); [by eexists|done].
Qed.
Lemma directory_reads (u : option principal) : respects (same id) (directoryAccessGuard u).
Proof. frame_op. Qed.

(** What is left of a request once it is let through. *)
Definition admitted (key : list Z) (req : request) (user : option principal) (r : Api.route) (w : world) :
    (res (Api.reply r) * list cookie_op) * world :=
  if Api.valid r then Api.handle key req user r [] w else ((Err (Http 400 "Bad Request"), []), w).
Lemma serve_guarded key req r w user :
  Api.guard (Api.audience_of r) req w = (Ok user, w) → Api.serve key req r [] w = admitted key req user r w.
Proof.
  intros Hg. unfold Api.serve, bindC, liftC, admitted. rewrite Hg. by destruct (Api.valid r).
Qed.
Lemma serve_refused key req r w e :
  Api.guard (Api.audience_of r) req w = (Err e, w) → Api.serve key req r [] w = ((Err e, []), w).
Proof. intros Hg. unfold Api.serve, bindC, liftC. by rewrite Hg. Qed.

(** With a valid token a route of accounts is its handler or refuses. *)
Lemma route_admits key req r w p :
  bearer req w = Some p → Api.audience_of r ≠ Public →
  Api.serve key req r [] w = admitted key req (Some p) r w ∨ ∃ e, Api.serve key req r [] w = ((Err e, []), w).
Proof.
  intros Hb Ha. pose proof (jwt_bearer req w) as Hj. rewrite Hb in Hj.
  assert ((Api.guard (Api.audience_of r) req w = (Ok (Some p), w)) ∨
    ∃ e, Api.guard (Api.audience_of r) req w = (Err e, w)) as [Hg|[e Hg]].
  { unfold Api.guard. rewrite bool_decide_eq_false_2 by done. rewrite run_bind, Hj, run_bind.
    destruct (Api.audience_of r); [done|by left|..].
    - pose proof (directory_reads (Some p) w) as Hd. unfold same, id in Hd.
      destruct (directoryAccessGuard (Some p) w) as [[b|e] w']; cbn in Hd; subst w'; [by left|right; by exists e].
    - unfold rolesGuard, AdminController.ROLES. destruct (pr_role p); first [by left | right; by eexists]. }
  - left. by apply serve_guarded.
  - right. exists e. by apply serve_refused.
Qed.

(** C1. The gate in front of every route: a public one is open; any other
    answers 401 without a valid, unrevoked access token; a staff route answers 403
    to an account that is not ADMIN or SUPER_ADMIN by its token; a Directory route
    asks DirectoryAccessGuard. A request that does not pass, or whose body is
    invalid, changes nothing and sets no cookie; one that passes is exactly its
    handler, for the account of the token. *)
Theorem route_gate key req r w :
  match Api.audience_of r, bearer req w with
  | Public, _ => Api.serve key req r [] w = admitted key req None r w
  | _, None => ∃ msg, Api.serve key req r [] w = ((Err (Http 401 msg), []), w)
  | SignedIn, Some p => Api.serve key req r [] w = admitted key req (Some p) r w
  | Staff, Some p =>
      Api.serve key req r [] w =
        if staff (pr_role p) then admitted key req (Some p) r w
        else ((Err (Http 403 "Insufficient permissions"), []), w)
  | DirectoryHolders, Some p =>
      Api.serve key req r [] w =
        match (directoryAccessGuard (Some p) w).1 with
        | Ok _ => admitted key req (Some p) r w
        | Err e => ((Err e, []), w)
        end
  end.
Proof.
  destruct (Api.audience_of r) eqn:Ha;
    [by apply serve_guarded; rewrite Ha|
     pose proof (jwt_bearer req w) as Hb; destruct (bearer req w) as [p|];
       [|destruct Hb as [msg Hb]; exists msg; apply serve_refused; rewrite Ha; unfold Api.guard;
         rewrite bool_decide_eq_false_2 by done; by rewrite run_bind, Hb]..].
  - apply serve_guarded. rewrite Ha. unfold Api.guard. rewrite bool_decide_eq_false_2 by done.
    by rewrite run_bind, Hb.
  - pose proof (directory_reads (Some p) w) as Hd. unfold same, id in Hd.
    destruct (directoryAccessGuard (Some p) w) as [[b|e] w'] eqn:E; cbn in Hd |- *; subst w';
      [apply serve_guarded|apply serve_refused]; rewrite Ha; unfold Api.guard;
      rewrite bool_decide_eq_false_2 by done; by rewrite run_bind, Hb, run_bind, E.
  - assert (Api.guard Staff req w =
      if staff (pr_role p) then (Ok (Some p), w) else (Err (Http 403 "Insufficient permissions"), w)) as Hg.
    { unfold Api.guard. rewrite bool_decide_eq_false_2 by done. rewrite run_bind, Hb, run_bind.
      unfold rolesGuard, AdminController.ROLES. by destruct (pr_role p). }
    rewrite <- Ha in Hg. destruct (staff (pr_role p)); [by apply serve_guarded|by apply serve_refused].
Qed.
End gate.
End Gate.
