(* ===== verification/OptOut.v ===== *)
(** Opting out is final: the link in an invitation works, and from then on,
    whatever the service does, no invitation to the address is queued again. *)
From S2P Require Import Prelude JsLib Crypto Schema Effects Platform Config Messaging Tokens Revocation Users Sessions Access Billing Auth AuthController Instances AuthSessions Guards Subscriptions LeadFinderBilling Webhooks Apollo Taxonomy Leads ApolloSearch Dto MailTemplate MailWorkers Campaign ResendWebhook Outreach Admin AdminController Controllers Api Service Fixtures.
Import Campaign.

Module OptOut.
Definition opted_out (e : string) (w : world) : Prop :=
  ∃ k s, db_emailSuppressions (w_db w) !! k = Some s ∧ es_email s = e.
(** The address stays opted out and no invitation to it is queued. *)
Definition left_alone (e : string) (w w' : world) : Prop :=
  opted_out e w →
  opted_out e w' ∧ ∃ l, w_bulkQueue w' = w_bulkQueue w ++ l ∧ Email.cold_invite e ∉ l.
#[export] Instance left_alone_preorder e : PreOrder (left_alone e).
Proof.
  split.
  - intros w Ho. split; [done|]. exists []. rewrite app_nil_r. split; [done|set_solver].
  - intros w1 w2 w3 H12 H23 Ho. destruct (H12 Ho) as (Ho2 & l1 & E1 & N1).
    destruct (H23 Ho2) as (Ho3 & l2 & E2 & N2). split; [done|]. exists (l1 ++ l2).
    rewrite E2, E1, app_assoc. split; [done|set_solver].
Qed.
Lemma left_alone_eq e w w' :
  db_emailSuppressions (w_db w') = db_emailSuppressions (w_db w) → w_bulkQueue w' = w_bulkQueue w →
  left_alone e w w'.
Proof.
  intros E1 E2 Ho. unfold opted_out. rewrite E1. split; [done|]. exists []. rewrite app_nil_r.
  split; [done|set_solver].
Qed.
Lemma left_alone_rollback e w w' : left_alone e w w' → left_alone e w (put_db (w_db w) w').
Proof.
  intros Hl Ho. destruct (Hl Ho) as (_ & l & E & N). split; [exact Ho|]. by exists l.
Qed.
#[export] Hint Extern 1 (left_alone _ _ _) => apply left_alone_eq; reflexivity : presh.
#[export] Hint Resolve left_alone_rollback : presh.

(** Suppressing an address opts it out and leaves the campaign's queue alone. *)
Lemma suppress_opts_out `{Entropy} e w :
  db_emailSuppressions (w_db w) !! rand_uuid (w_tick w) = None →
  ∃ w1, suppress e w = (Ok tt, w1) ∧ opted_out e w1 ∧
    db_prospectInviteQueue (w_db w1) = db_prospectInviteQueue (w_db w).
Proof.
  intros Hfresh. unfold suppress, db_find_by, gets. rewrite run_bind. cbn [t_get T_emailSuppressions].
  destruct (find_row _ _) as [s|] eqn:Hs.
  - exists w. split; [reflexivity|]. split; [|done]. apply find_row_Some in Hs as [He [k Hk]].
    exists k, s. unfold suppressed_row, seq_b in He. unbool. done.
  - eexists. split.
    + unfold random_uuid, draw, date_now, gets. rewrite !run_bind. cbn [mret M_ret].
      rewrite !run_bind, db_create_run; [reflexivity|exact Hfresh| |done].
      apply has_conflict_false. intros k x Hx _. rewrite find_row_None in Hs. specialize (Hs k x Hx).
      cbn. unfold suppressed_row, seq_b in *. unbool. apply bool_decide_eq_false_2. congruence.
    + split; [|done]. exists (rand_uuid (w_tick w)), (Mk_suppression (rand_uuid (w_tick w)) e (w_now w)).
      split; [|done]. cbn. by rewrite lookup_insert_eq.
Qed.

Section optout.
Context {cfg : config} `{Entropy, Argon2, Jwt, Totp, Aead, UAParser, GeoipLite, StripeApi, StripeSignature}.
Context `{ApolloApi, ClaudeApi, LocalTime, Collation, CsvStringify, IsEmail, IsUrl, IsUUID, Resend}.
Context (e : string).

Lemma create_suppression_left k s : respects (left_alone e) (db_create T_emailSuppressions k s).
Proof.
  intros w. destruct (db_create _ _ _ w) as [[r|x] w'] eqn:E; [|by apply db_create_err in E as ->].
  apply db_create_inv in E as (_ & Hk & _ & _ & ->). intros (k' & s' & Hs & He). split.
  - exists k', s'. cbn in *. rewrite lookup_insert_ne by congruence. done.
  - exists []. rewrite app_nil_r. split; [done|set_solver].
Qed.
#[local] Hint Resolve create_suppression_left : steph.
(** Queueing invitations to others. *)
Lemma invite_left js : Email.cold_invite e ∉ js → respects (left_alone e) (Email.enqueueBulk js).
Proof.
  intros Hn w. rewrite Email.enqueueBulk_run. cbn. intros Ho. unfold Email.bulk_queued.
  destruct (w_redis_up w); (split; [exact Ho|]); [by exists js|].
  exists []. rewrite app_nil_r. split; [done|set_solver].
Qed.
Lemma cold_invite_inj a b : Email.cold_invite a = Email.cold_invite b → a = b.
Proof. by intros [=]. Qed.
Lemma not_in_invites (l : list string) : e ∉ l → Email.cold_invite e ∉ Email.cold_invite <$> l.
Proof. intros Hn (x & Hx%cold_invite_inj & Hin)%list_elem_of_fmap. by subst. Qed.

(** *** The drip *)
Lemma sort_left ex su cs : respects (left_alone e) (fold_each cs (sort_candidate ex su) ([], 0, 0)).
Proof. frame_op. Qed.
Lemma sort_excludes ex su cs : ∀ acc w r w',
  e ∉ acc.1.1 → (∀ c, c ∈ cs → pq_email c = e → e ∈ su) →
  fold_each cs (sort_candidate ex su) acc w = (Ok r, w') → e ∉ r.1.1.
Proof.
  induction cs as [|c cs IH]; intros acc w r w' Hacc Hsu Hf; [by injection Hf as <- _|].
  cbn [fold_each] in Hf. rewrite run_bind in Hf.
  destruct (sort_candidate ex su acc c w) as [[acc1|x] w1] eqn:Hs; [|done].
  eapply IH; [|by intros d Hd; apply Hsu; right|exact Hf].
  destruct acc as [[ts a] b]. unfold sort_candidate in Hs.
  repeat case_bool_decide; try rewrite run_bind in Hs;
    try (destruct (db_update _ _ _ w) as [[r1|x1] w2]; [|done]); injection Hs as <- <-; cbn in *; [done..|].
  rewrite elem_of_app, list_elem_of_singleton. intros [?|He]; [done|].
  subst e. match goal with Hn : _ ∉ su |- _ => apply Hn end. apply (Hsu c); [by left|done].
Qed.
Lemma left_intro {A} (m : M A) :
  (∀ w, opted_out e w → left_alone e w (m w).2) → respects (left_alone e) m.
Proof. intros Hm w Ho. by apply Hm. Qed.
Lemma run_left {A} (m : M A) w : respects (left_alone e) m → left_alone e w (m w).2.
Proof. intros Hm. apply Hm. Qed.
Lemma suppressed_found w emails :
  opted_out e w → e ∈ emails →
  e ∈ es_email <$> find_many (suppression_among emails) (db_emailSuppressions (w_db w)).
Proof.
  intros (k & s & Hs & <-) He. apply list_elem_of_fmap. exists s. split; [done|].
  apply elem_of_find_many. split; [by apply bool_decide_eq_true_2|eauto].
Qed.
Lemma drip_left : respects (left_alone e) runDailyDrip.
Proof.
  unfold runDailyDrip. apply respects_bind; [apply _|frame_op|intros settings].
  destruct (cs_paused settings); [frame_tac|].
  apply respects_bind; [apply _|frame_op|intros cs]. destruct cs as [|c cs]; [frame_tac|].
  apply left_intro. intros w Ho. unfold recheck, db_find_many, gets. rewrite !run_bind. cbn [mret M_ret fst snd].
  cbn [t_get T_users T_emailSuppressions]. set (su := es_email <$> _). set (ex := u_email <$> _).
  rewrite run_bind. pose proof (sort_left ex su (c :: cs) w) as Hl.
  destruct (fold_each (c :: cs) (sort_candidate ex su) ([], 0, 0) w) as [[[[ts a] b]|x] w1] eqn:Hs; cbn in Hl; [|exact Hl].
  apply (sort_excludes ex su) in Hs; [|set_solver|].
  - etrans; [exact Hl|]. apply run_left. cbn in Hs. destruct ts as [|t ts]; [frame_op|].
    unfold Email.sendProspectInviteBulk. pose proof (invite_left _ (not_in_invites _ Hs)).
    frame_op.
  - intros d Hd He. apply suppressed_found; [done|]. rewrite <- He. by apply list_elem_of_fmap_2.
Qed.
#[local] Hint Resolve drip_left : steph.
Lemma inviteProspect_left admin email : respects (left_alone e) (Admin.inviteProspect admin email).
Proof.
  apply left_intro. intros w Ho. unfold Admin.inviteProspect, db_find_by, gets. rewrite !run_bind.
  cbn [t_get T_users T_emailSuppressions]. destruct (find_row _ (db_users _)); [by apply run_left, respects_throw; apply _|].
  destruct (find_row (suppressed_row _) _) as [s|] eqn:Hs; [by apply run_left, respects_throw; apply _|].
  apply run_left. unfold Email.sendProspectInvite. apply respects_bind; [apply _| |intros _; frame_op].
  apply invite_left. rewrite list_elem_of_singleton. intros He%cold_invite_inj.
  rewrite find_row_None in Hs. destruct Ho as (k & x & Hx & Hxe). specialize (Hs k x Hx).
  unfold suppressed_row, seq_b in Hs. unbool. congruence.
Qed.
Lemma test_left email : email ≠ e → respects (left_alone e) (AdminController.sendCampaignTestEmail email).
Proof.
  intros Hne. unfold AdminController.sendCampaignTestEmail, sendTestEmail, Email.sendProspectInvite.
  apply respects_bind; [apply _| |intros _; frame_op].
  apply invite_left. rewrite list_elem_of_singleton. by intros ?%cold_invite_inj.
Qed.
#[local] Hint Resolve inviteProspect_left : steph.
Lemma campaign_left name : respects (left_alone e) (Campaign.process name).
Proof. unfold Campaign.process. frame_tac. Qed.

(** *** Every job and every route *)
Lemma send_left to subject body replyTo : respects (left_alone e) (EmailWorker.send to subject body replyTo).
Proof. frame_op. Qed.
#[local] Hint Resolve send_left campaign_left : steph.
Lemma job_left j : respects (left_alone e) (run_job j).
Proof. destruct j; cbn [run_job]; frame_op. Qed.
(** Requests other than a test e-mail to this very address. *)
Definition no_test (w : world) (r : Api.route) : Prop :=
  match r with Api.AdminRoute (AdminController.SendCampaignTestEmail email) => email ≠ e | _ => True end.
Ltac inviting :=
  apply respectsC_lift; [apply _|]; apply respects_bind; [apply _|frame_op|intros ?];
  match goal with
  | |- respects _ runDailyDrip => apply drip_left
  | |- respects _ (Admin.inviteProspect _ _) => apply inviteProspect_left
  | |- respects _ (AdminController.sendCampaignTestEmail _) => by apply test_left
  end.
Lemma handle_left key req user w r : no_test w r → respectsC (left_alone e) (Api.handle key req user r).
Proof.
  intros Hr. route_cases r; open_handler;
    first [solve [inviting]|autounfold with svc loud; unfold Auth.register, Admin.inviteUser; frame_op].
Qed.
Lemma guard_left a req : respects (left_alone e) (Api.guard a req).
Proof. destruct a; frame_op. Qed.
Lemma run_left_alone key w w' : service_run key no_test w w' → left_alone e w w'.
Proof.
  apply (run_respects (left_alone e)).
  - apply guard_left.
  - intros req user r w0 Hr _. by apply (handle_left key req user w0).
  - apply job_left.
  - intros t up w0. by apply left_alone_eq.
Qed.
End optout.

Section theorem.
Context {cfg : config} `{Entropy, Argon2, Jwt, Totp, Aead, UAParser, GeoipLite, StripeApi, StripeSignature}.
Context `{ApolloApi, ClaudeApi, LocalTime, Collation, CsvStringify, IsEmail, IsUrl, IsUUID, Resend}.

(** C34. Opting out works and is final. The link an invitation carries decodes to
    its address and a token; posting them opts the address out, any other
    token is answered 400 with nothing changed. From then on, whatever
    requests, jobs, outages and time follow - uploads, drips, direct invites -
    the address stays opted out and no invitation to it is queued, short of
    an administrator's test e-mail to that very address. *)
Theorem optout_is_final key to w :
  db_emailSuppressions (w_db w) !! rand_uuid (w_tick w) = None →
  let e := Users.normalizeEmail to in
  ∃ E T token w1,
    BulkEmail.unsubscribeLink to = FRONTEND_URL cfg +:+ "/unsubscribe?email=" +:+ E +:+ "&token=" +:+ T ∧
    Uri.decodeURIComponent E = Some to ∧ Uri.decodeURIComponent T = Some token ∧
    (∀ t, t ≠ token → unsubscribe to t w = (Err (Http 400 "Invalid or expired unsubscribe link."), w)) ∧
    unsubscribe to token w = (Ok (e +:+ " has been unsubscribed."), w1) ∧ opted_out e w1 ∧
    ∀ w2, service_run key (no_test e) w1 w2 →
      opted_out e w2 ∧ ∃ l, w_bulkQueue w2 = w_bulkQueue w1 ++ l ∧ Email.cold_invite e ∉ l.
Proof.
  intros Hfresh e. set (token := Unsubscribe.signUnsubscribeToken to (UNSUBSCRIBE_SECRET cfg)).
  assert (token = Unsubscribe.signUnsubscribeToken e (UNSUBSCRIBE_SECRET cfg)) as Htok.
  { unfold token, Unsubscribe.signUnsubscribeToken, e. by rewrite Users.normalizeEmail_idem. }
  destruct (suppress_opts_out e w Hfresh) as (w1 & Hw1 & Ho & _).
  assert (unsubscribe to token w = (Ok (e +:+ " has been unsubscribed."), w1)) as Hu.
  { unfold unsubscribe. cbv zeta. fold e. rewrite Unsubscribe.verify_iff, (bool_decide_eq_true_2 _ Htok). cbn [negb].
    by rewrite run_bind, Hw1. }
  exists (Uri.encodeURIComponent to), (Uri.encodeURIComponent token), token, w1. split_and!; try done.
  - apply Uri.uri_decode_encode.
  - apply Uri.uri_decode_encode.
  - intros t Ht. unfold unsubscribe. cbv zeta. fold e. rewrite Unsubscribe.verify_iff.
    rewrite (bool_decide_eq_false_2 _) by congruence. done.
  - intros w2 Hrun. by eapply run_left_alone.
Qed.
End theorem.

(** ** Witness: Bob opts out; an upload and a drip leave him alone *)
Section witness.
#[local] Existing Instance default_config.
#[local] Existing Instances counter_entropy plain_argon2 plain_jwt echo_totp toy_gcm plain_ua empty_geoip counting_stripe no_signature.
#[local] Existing Instances silent_apollo silent_claude length_order joined_csv at_email any_url any_uuid willing_resend.
Definition bob_out : world := (unsubscribe "Bob@Example.com"
  (Unsubscribe.signUnsubscribeToken "bob@example.com" (UNSUBSCRIBE_SECRET default_config)) two_accounts).2.
Definition reinvited : world :=
  Api.served key0 by_admin (Api.AdminRoute (AdminController.InviteProspect "bob@example.com")) bob_out.
Lemma optout_is_final_witness :
  opted_out "bob@example.com" reinvited ∧ w_bulkQueue reinvited = [].
Proof.
  destruct (optout_is_final key0 "Bob@Example.com" two_accounts eq_refl)
    as (E & T & token & w1 & _ & _ & _ & Hbad & Hok & _ & Hrun).
  assert (bob_out = w1) as Hw1.
  { unfold bob_out. destruct (decide (Unsubscribe.signUnsubscribeToken "bob@example.com" (UNSUBSCRIBE_SECRET default_config) = token))
      as [->|Hne]; [by rewrite Hok|]. specialize (Hbad _ Hne). vm_compute in Hbad. discriminate Hbad. }
  split; [|vm_compute; reflexivity]. apply Hrun. rewrite <- Hw1. apply rtc_once. by constructor.
Defined.
End witness.
End OptOut.
