(* ===== verification/Bounces.v ===== *)
(** What Resend reports is obeyed, and only what Resend reports: a signed
    bounce or complaint ends the mail to an address for good, and a request
    that Resend did not sign, or that is older than five minutes, changes
    nothing. *)
From S2P Require Import Prelude JsLib Crypto Json Schema Effects Platform Config Messaging Tokens Revocation Users Sessions Access Billing Auth AuthController Instances AuthSessions Guards Subscriptions LeadFinderBilling Webhooks Apollo Taxonomy Leads ApolloSearch Dto MailTemplate MailWorkers Campaign ResendWebhook Outreach Admin AdminController Controllers Api Service Fixtures OptOut.
Import Campaign OptOut.

Module Bounces.
(** A report as Resend posts it, around the fields the service reads. *)
Definition report (kind to : string) : string :=
  "{" +:+ Json.quote "type" +:+ ":" +:+ Json.quote kind +:+ "," +:+
  Json.quote "data" +:+ ":{" +:+ Json.quote "to" +:+ ":[" +:+ Json.quote to +:+ "]}}".
Lemma parse_report kind to :
  Json.parse (report kind to) =
  Some (Json.Obj [("type", Json.Str_ kind); ("data", Json.Obj [("to", Json.Arr [Json.Str_ to])])]).
Proof.
  unfold Json.parse, report.
  repeat first [rewrite Json.lex_quote | rewrite Json.app_cons | rewrite Json.app_empty
    | erewrite Json.lex_punctuation by reflexivity].
  reflexivity.
Qed.

(** Svix's scheme: the base64 HMAC-SHA256 of [id.timestamp.body], keyed by the
    decoded secret without its [whsec_] mark, as an entry of version 1. *)
Definition svix_signature (secret id ts body : string) : string :=
  Base64.encode (Sha256.hmac (Base64.decode (Str.strip_prefix "whsec_" secret))
    (Str.bytes (id +:+ "." +:+ ts +:+ "." +:+ body))).
Definition svix_header (secret id ts body : string) : string := "v1," +:+ svix_signature secret id ts body.

(** The kinds of report that end the mail to an address, and what becomes of
    the row of the invitation. *)
Definition final_status (kind : string) : option queue_status :=
  if seq_b kind "email.bounced" then Some QBOUNCED
  else if seq_b kind "email.complained" then Some QCOMPLAINED else None.

Section bounces.
Context {cfg : config} `{Entropy, Argon2, Jwt, Totp, Aead, UAParser, GeoipLite, StripeApi, StripeSignature}.
Context `{ApolloApi, ClaudeApi, LocalTime, Collation, CsvStringify, IsEmail, IsUrl, IsUUID, Resend}.

(** A request with a signature of Resend's, no older than five minutes. *)
Definition authentic (secret rawBody : string) (id ts sg : option string) (w : world) : Prop :=
  ∃ i t entries entry,
    id = Some i ∧ ts = Some t ∧ sg = Some entries ∧ entry ∈ Str.split " " entries ∧
    Str.split "," entry !! 1%nat = Some (svix_signature secret i t rawBody) ∧
    Num.within (w_now w) (Num.of_string t) 300 = true.
Lemma truthy_Some o s : truthy o = Some s → o = Some s.
Proof. unfold truthy. destruct o as [x|]; [|done]. by destruct (Str.nonempty x). Qed.
Lemma verified_authentic secret rawBody id ts sg w :
  ResendWebhook.verifyResendWebhookSignature (w_now w) rawBody id ts sg secret = true →
  authentic secret rawBody id ts sg w.
Proof.
  unfold ResendWebhook.verifyResendWebhookSignature.
  destruct (truthy id) as [i|] eqn:Hi; [|done]. destruct (truthy ts) as [t|] eqn:Ht; [|done].
  destruct (truthy sg) as [entries|] eqn:Hs; [|done].
  apply truthy_Some in Hi, Ht, Hs. rewrite andb_true_iff. intros [Hw (entry & Hin & Hm)%existsb_exists].
  exists i, t, entries, entry. split_and!; try done; [by apply list_elem_of_In|].
  unfold ResendWebhook.entry_matches in Hm. destruct (truthy _) as [sig|] eqn:Hsig; [|done].
  apply truthy_Some in Hsig. rewrite Hsig. unbool. f_equal. change (svix_signature secret i t rawBody) with (ResendWebhook.signature secret i t rawBody).
  by apply Unsubscribe.bytes_inj.
Qed.

Lemma report_run to status w :
  db_emailSuppressions (w_db w) !! rand_uuid (w_tick w) = None →
  ∃ w1, suppressAndUpdateStatus to status w = (Ok tt, w1) ∧ opted_out (Users.normalizeEmail to) w1 ∧
    db_prospectInviteQueue (w_db w1) =
      (λ p, if sent_to (Users.normalizeEmail to) p then set_pq_status status p else p)
        <$> db_prospectInviteQueue (w_db w).
Proof.
  intros Hf. destruct (suppress_opts_out (Users.normalizeEmail to) w Hf) as (w1 & Hs & Ho & Hq).
  unfold suppressAndUpdateStatus. cbv zeta. rewrite run_bind, Hs. eexists. split; [reflexivity|].
  split; [exact Ho|]. cbn. by rewrite <- Hq.
Qed.

(** C35. Only Resend can report, and what it reports is final. A request to
    the webhook that changes anything carries a signature of exactly its id,
    timestamp and body under the configured secret and is at most five minutes
    off the clock. A correctly signed report of a bounce or a complaint is
    accepted whatever characters its address has: the address is opted out,
    its sent invitation - no other row - takes the status of the report, and
    whatever the service does from then on, no invitation to the address is
    queued again. *)
Theorem only_resend_reports key w :
  (∀ rawBody id ts sg,
    (ResendWebhook.handleResendWebhook rawBody id ts sg w).2 ≠ w →
    ∃ secret, RESEND_WEBHOOK_SECRET cfg = Some secret ∧ authentic secret rawBody id ts sg w) ∧
  (∀ secret kind status to id ts,
    RESEND_WEBHOOK_SECRET cfg = Some secret → secret ≠ "" → id ≠ "" → ts ≠ "" → to ≠ "" →
    Num.within (w_now w) (Num.of_string ts) 300 = true → final_status kind = Some status →
    db_emailSuppressions (w_db w) !! rand_uuid (w_tick w) = None →
    let e := Users.normalizeEmail to in
    let body := report kind to in
    ∃ w1, ResendWebhook.handleResendWebhook body (Some id) (Some ts)
            (Some (svix_header secret id ts body)) w = (Ok tt, w1) ∧
      opted_out e w1 ∧
      db_prospectInviteQueue (w_db w1) =
        (λ p, if sent_to e p then set_pq_status status p else p) <$> db_prospectInviteQueue (w_db w) ∧
      ∀ w2, service_run key (no_test e) w1 w2 →
        opted_out e w2 ∧ ∃ l, w_bulkQueue w2 = w_bulkQueue w1 ++ l ∧ Email.cold_invite e ∉ l).
Proof.
  split.
  - intros rawBody id ts sg Hne. unfold ResendWebhook.handleResendWebhook in Hne.
    destruct (truthy (RESEND_WEBHOOK_SECRET cfg)) as [secret|] eqn:Hsec; [|done].
    apply truthy_Some in Hsec. exists secret. split; [done|]. apply verified_authentic.
    unfold date_now, gets in Hne. rewrite run_bind in Hne.
    by destruct (ResendWebhook.verifyResendWebhookSignature _ _ _ _ _ _).
  - intros secret kind status to id ts Hsec Hs Hid Hts Hto Hnow Hk Hf e body.
    destruct (report_run to status w Hf) as (w1 & Hm & Ho & Hq).
    exists w1. split_and!; [|done|done|intros w2 Hrun; exact (run_left_alone e key _ _ Hrun Ho)].
    change (svix_header secret id ts body) with (ResendWebhook.signed secret id ts body).
    unfold ResendWebhook.handleResendWebhook. rewrite Hsec.
    assert (truthy (Some secret) = Some secret) as -> by (by destruct secret).
    unfold date_now, gets. rewrite run_bind, ResendWebhook.signed_verifies by done. cbn [negb].
    unfold body at 1. rewrite parse_report. unfold ResendWebhook.handle_event.
    change (Json.truthy _) with (Json.truthy (Some (Json.Str_ to))).
    assert (Json.truthy (Some (Json.Str_ to)) = Some (Json.Str_ to)) as -> by (by destruct to).
    change (Json.get "type" _) with (Some (Json.Str_ kind)). cbv beta iota.
    unfold final_status in Hk. destruct (seq_b kind "email.bounced"); [injection Hk as <-; exact Hm|].
    destruct (seq_b kind "email.complained"); [injection Hk as <-; exact Hm|done].
Qed.
End bounces.

(** ** Witness: a bounce of the invitation to Bob *)
Section witness.
Definition webhook_config : config :=
  Mk_config "https://conference.contact" 900 30 5 15 3 50 7 50
    "0123456789abcdef0123456789abcdef" "1 Main Street, Springfield" (Some "whsec_c2VjcmV0")
    "conference.contact <onboarding@resend.dev>" "support@conference.contact" "development".
#[local] Existing Instance webhook_config.
#[local] Existing Instances counter_entropy plain_argon2 plain_jwt echo_totp toy_gcm plain_ua empty_geoip counting_stripe no_signature.
#[local] Existing Instances silent_apollo silent_claude length_order joined_csv at_email any_url any_uuid willing_resend.
Definition bob_row : prospect := Mk_prospect "p1" "bob@example.com" QSENT None 5 (Some 5).
Definition bob_invited : world :=
  put_db (set_db_prospectInviteQueue {[ "p1" := bob_row ]} empty_db) (initial_world 1786147056123).
Definition bounce_of_bob : string := report "email.bounced" "Bob@Example.com".
Definition bounced : world :=
  (ResendWebhook.handleResendWebhook bounce_of_bob (Some "msg_1") (Some "1786147000")
    (Some (svix_header "whsec_c2VjcmV0" "msg_1" "1786147000" bounce_of_bob)) bob_invited).2.
Lemma only_resend_reports_witness :
  opted_out "bob@example.com" bounced ∧
  pq_status <$> db_prospectInviteQueue (w_db bounced) !! "p1" = Some QBOUNCED.
Proof.
  destruct (proj2 (only_resend_reports (cfg := webhook_config) key0 bob_invited) "whsec_c2VjcmV0" "email.bounced" QBOUNCED
    "Bob@Example.com" "msg_1" "1786147000" eq_refl) as (w1 & Hw & Ho & Hq & _); [done..|].
  unfold bounced. fold bounce_of_bob in Hw. rewrite Hw. cbn [snd]. split; [exact Ho|]. rewrite Hq. reflexivity.
Defined.
End witness.
End Bounces.
