(* ===== verification/Answered.v ===== *)
(** What a client sees of a failure: the errors the handlers can raise, that a
    request never hangs, and AllExceptionsFilter. *)
From S2P Require Import Prelude JsLib Crypto Json Schema Effects Platform Config Messaging Tokens Revocation Users Sessions Access Billing Auth AuthController Instances Guards Subscriptions LeadFinderBilling Webhooks Apollo Taxonomy Leads ApolloSearch Dto MailTemplate MailWorkers Campaign ResendWebhook Outreach Admin AdminController Controllers Api Service Fixtures Gate.
Import Guards.

(** ** AllExceptionsFilter (common/filters/all-exceptions.filter.ts) *)
Module ErrorFilter.
(** [string | string[]] *)
Inductive message := One (s : string) | Many (l : list string).
(** [getResponse()] of an HttpException. *)
Inductive nest_response := Text (s : string) | Fields (m : option message) (error : option string).
Record http_exception := HttpException {
  he_status : Z; he_name : string; he_message : string; he_response : nest_response
}.
(** What was thrown: an HttpException, another Error, anything else. *)
Inductive exception := IsHttp (e : http_exception) | IsError (stack : string) | IsOther (printed : string).
(** What the filter reads of the request. *)
Record exchange := Exchange {
  ex_requestId : option string; ex_method : string; ex_originalUrl : option string; ex_url : string
}.
(** [ErrorResponseBody]; the status and the x-request-id header repeat two of its fields. *)
Record body := Body_ {
  b_statusCode : Z; b_error : string; b_message : message; b_path : string; b_timestamp : string; b_requestId : string
}.
Inductive log_line := Unhandled (text detail : string) | ServerError (text : string) (m : message).

Definition resolveBody (e : exception) : string * message :=
  match e with
  | IsHttp h =>
      match he_response h with
      | Text s => (he_name h, One s)
      | Fields m error => (error ifnull he_name h, m ifnull One (he_message h))
      end
  | _ => ("Internal Server Error", One "Something went wrong. Please try again later.")
  end.
Definition status_of (e : exception) : Z := match e with IsHttp h => he_status h | _ => 500 end.
Definition catch_ `{Entropy} (e : exception) (x : exchange) : M (body * list log_line) :=
  requestId ← match truthy (ex_requestId x) with Some id => mret id | None => random_uuid end;
  now ← date_now;
  let b := Body_ (status_of e) (resolveBody e).1 (resolveBody e).2 (ex_originalUrl x ifnull ex_url x)
             (Date.toISOString now) requestId in
  mret (b, match e with
           | IsHttp h =>
               if 500 <=? he_status h
               then [ServerError ("[" +:+ requestId +:+ "] " +:+ ex_method x +:+ " " +:+ b_path b +:+ " -> " +:+
                                  pretty (he_status h)) (b_message b)]
               else []
           | IsError detail | IsOther detail =>
               [Unhandled ("[" +:+ requestId +:+ "] Unhandled exception on " +:+ ex_method x +:+ " " +:+ b_path b) detail]
           end).

(** Nest's exception classes, by status and message, and the stack of other errors. *)
Class Nest := { nest_http : Z → string → http_exception; error_stack : exn → string }.
(** Documented of the built-in classes: the status is the one of the class, the
    response an object with the message and the reason phrase. *)
Definition nest_documented `(Nest) : Prop :=
  ∀ s m, he_status (nest_http s m) = s ∧ ∃ reason, he_response (nest_http s m) = Fields (Some (One m)) (Some reason).
Definition exception_of `{Nest} (e : exn) : exception :=
  match e with Http s m => IsHttp (nest_http s m) | _ => IsError (error_stack e) end.

(** The exchange, whole: an answer, an error body, or a connection left open. *)
Inductive outcome (A : Type) :=
| Success (a : A) (cookies : list cookie_op)
| Failure (b : body) (cookies : list cookie_op) (logs : list log_line)
| Hanging.
Arguments Success {A} a cookies.
Arguments Failure {A} b cookies logs.
Arguments Hanging {A}.
Definition respond `{Entropy, Nest} {A} (handler : C A) (x : exchange) (w : world) : outcome A * world :=
  match handler [] w with
  | ((Ok a, ck), w') => (Success a ck, w')
  | ((Err NeverSettles, ck), w') => (Hanging, w')
  | ((Err e, ck), w') =>
      match catch_ (exception_of e) x w' with
      | (Ok (b, logs), w'') => (Failure b ck logs, w'')
      | (Err _, w'') => (Hanging, w'')
      end
  end.

(** The filter answers, with the caller's request id when it gave one, and
    touches no table. *)
Lemma catch_run `{Entropy} e x w :
  ∃ b logs w', catch_ e x w = (Ok (b, logs), w') ∧ w_db w' = w_db w ∧ b_statusCode b = status_of e ∧
    (b_error b, b_message b) = resolveBody e ∧ b_path b = ex_originalUrl x ifnull ex_url x ∧
    (∀ id, ex_requestId x = Some id → Str.nonempty id = true → b_requestId b = id).
Proof.
  unfold catch_. rewrite run_bind. destruct (ex_requestId x) as [id|]; cbn [truthy].
  - destruct (Str.nonempty id) eqn:E; cbn; do 3 eexists; (split; [reflexivity|]); cbn;
      split_and!; try done; [by destruct (resolveBody e)|by intros ? [= <-] _| |].
    + by destruct (resolveBody e).
    + intros ? [= <-]. congruence.
  - cbn. do 3 eexists. split; [reflexivity|]. cbn. split_and!; try done. by destruct (resolveBody e).
Qed.
(** What the client sees of an error that is no HttpException does not depend on it. *)
Lemma catch_hides `{Entropy} e1 e2 x w :
  (∀ h, e1 ≠ IsHttp h) → (∀ h, e2 ≠ IsHttp h) →
  fst <$> (match (catch_ e1 x w).1 with Ok r => Some r | Err _ => None end) =
  fst <$> (match (catch_ e2 x w).1 with Ok r => Some r | Err _ => None end).
Proof.
  intros H1 H2. unfold catch_. rewrite !run_bind.
  destruct e1 as [h| |]; [by destruct (H1 h)|..]; (destruct e2 as [h| |]; [by destruct (H2 h)|..]);
    by destruct (truthy (ex_requestId x)).
Qed.
End ErrorFilter.
Import ErrorFilter.

Module Answered.
(** The statuses the services throw. *)
Definition statuses : list Z := [400; 401; 403; 404; 409; 503].
(** An error the filter turns into an answer. *)
Definition ordinary (e : exn) : Prop :=
  match e with Http s _ => s ∈ statuses | NeverSettles => False | _ => True end.

(** ** Errors, through the monad *)
(** [up]: Redis answers throughout. *)
Section raises.
Context (up : bool).
Definition alive (w : world) : Prop := up = true → w_redis_up w = true.
Definition raises {A} (m : M A) : Prop :=
  ∀ w, alive w → alive (m w).2 ∧ ∀ e, (m w).1 = Err e → ordinary e.
Lemma raises_ret {A} (a : A) : raises (mret a).
Proof. intros w Hw. split; [done|]. by intros e [=]. Qed.
Lemma raises_gets {A} (f : world → A) : raises (gets f).
Proof. intros w Hw. split; [done|]. by intros e [=]. Qed.
Lemma raises_throw {A} e : ordinary e → raises (throw (A := A) e).
Proof. intros He w Hw. split; [done|]. by intros e' [= <-]. Qed.
Lemma raises_bind {A B} (m : M A) (k : A → M B) : raises m → (∀ a, raises (k a)) → raises (m ≫= k).
Proof.
  intros Hm Hk w Hw. rewrite run_bind. destruct (Hm w Hw) as [Hw1 He].
  destruct (m w) as [[a|e] w1]; [by apply Hk|]. split; [done|]. intros e' [= <-]. by apply He.
Qed.
Lemma raises_try {A} (m : M A) h : raises m → (∀ e, ordinary e → raises (h e)) → raises (try_catch m h).
Proof.
  intros Hm Hh w Hw. unfold try_catch. destruct (Hm w Hw) as [Hw1 He].
  destruct (m w) as [[a|e] w1]; [split; [done|by intros e [=]]|]. apply Hh; [by apply He|done].
Qed.
Lemma raises_transaction {A} (m : M A) : raises m → raises (transaction m).
Proof.
  intros Hm w Hw. unfold transaction. destruct (Hm w Hw) as [Hw1 He].
  destruct (m w) as [[a|e] w1]; (split; [done|]); [by intros e [=]|exact He].
Qed.
Lemma raises_when b m : raises m → raises (when b m).
Proof. intros Hm. destruct b; [done|apply raises_ret]. Qed.
Lemma raises_for_each {A} (l : list A) f : (∀ x, raises (f x)) → raises (for_each l f).
Proof. intros Hf. induction l; cbn; [apply raises_ret|by apply raises_bind]. Qed.
Lemma raises_fold_each {A S} (l : list A) (f : S → A → M S) s : (∀ s x, raises (f s x)) → raises (fold_each l f s).
Proof. intros Hf. revert s. induction l; intros s; cbn; [apply raises_ret|by apply raises_bind]. Qed.

(** A step that keeps Redis as it is and fails only as Prisma or JavaScript does. *)
Lemma raises_step {A} (m : M A) :
  respects (same w_redis_up) m → (∀ w e, (m w).1 = Err e → ordinary e) → raises m.
Proof.
  intros Hm He w Hw. split; [|by apply He]. intros Hup. specialize (Hm w). unfold same in Hm. rewrite Hm. by apply Hw.
Qed.
Section tables.
Context {X : Type} (T : table X).
Lemma raises_db_create k r : raises (db_create T k r).
Proof. apply raises_step; [frame_tac|]. intros w e. unfold db_create. cbv zeta. repeat case_match; by intros [= <-]. Qed.
Lemma raises_db_update k f : raises (db_update T k f).
Proof. apply raises_step; [frame_tac|]. intros w e. unfold db_update. cbv zeta. repeat case_match; by intros [= <-]. Qed.
Lemma raises_db_update_fk k f : raises (db_update_fk T k f).
Proof.
  apply raises_step; [frame_tac|]. intros w e. unfold db_update_fk, db_update. cbv zeta. repeat case_match; by intros [= <-].
Qed.
Lemma raises_db_update_indexed k f : raises (db_update_indexed T k f).
Proof. apply raises_step; [frame_tac|]. intros w e. unfold db_update_indexed. cbv zeta. repeat case_match; by intros [= <-]. Qed.
Lemma raises_db_update_many P f : raises (db_update_many T P f).
Proof. apply raises_step; [frame_tac|]. by intros w e [=]. Qed.
Lemma raises_db_update_many_indexed P f : raises (db_update_many_indexed T P f).
Proof.
  apply raises_step; [frame_tac|]. intros w e. unfold db_update_many_indexed. cbv zeta. case_match; by intros [= <-].
Qed.
Lemma raises_db_delete k : raises (db_delete T k).
Proof. apply raises_step; [frame_tac|]. intros w e. unfold db_delete. cbv zeta. case_match; by intros [= <-]. Qed.
End tables.
Lemma raises_draw : raises draw.
Proof. apply raises_step; [frame_tac|]. by intros w e [=]. Qed.
Lemma raises_incr k : raises (redis_incr k).
Proof. apply raises_step; [frame_tac|]. intros w e. unfold redis_incr, redis_guard. case_match; by intros [= <-]. Qed.
Lemma raises_record e : raises (Audit.record e).
Proof. apply raises_step; [frame_tac|]. intros w e'. unfold Audit.record. case_match; by intros [= <-]. Qed.
Lemma raises_enqueue name data : raises (Email.enqueue name data).
Proof. apply raises_step; [frame_tac|]. intros w e. by rewrite Email.enqueue_run. Qed.
Lemma raises_enqueueBulk js : raises (Email.enqueueBulk js).
Proof. apply raises_step; [frame_tac|]. intros w e. by rewrite Email.enqueueBulk_run. Qed.
Lemma raises_redis {A} (m : M A) : raises m → raises (redis_guard m).
Proof. intros Hm w Hw. unfold redis_guard. case_match; [by apply Hm|]. split; [done|]. by intros e [= <-]. Qed.
Lemma raises_modify f : (∀ w, w_redis_up (f w) = w_redis_up w) → raises (modify f).
Proof. intros Hf. apply raises_step; [|by intros w e [=]]. intros w. apply Hf. Qed.
(** A bounded wait for a queue. *)
Lemma raises_timeout f ms : (∀ w, w_redis_up (f w) = w_redis_up w) → raises (withTimeout (queue_push f) ms).
Proof.
  intros Hf w Hw. unfold withTimeout, queue_push. destruct (w_redis_up w) eqn:E; cbn.
  - split; [intros _; by rewrite Hf|by intros e [=]].
  - split; [intros H; by specialize (Hw H); congruence|]. by intros e [= <-].
Qed.
(** An unbounded one, while Redis answers. *)
Lemma raises_push f : up = true → (∀ w, w_redis_up (f w) = w_redis_up w) → raises (queue_push f).
Proof.
  intros Hup Hf w Hw. unfold queue_push. rewrite (Hw Hup). split; [intros _; cbn; by rewrite Hf, (Hw Hup)|by intros e [=]].
Qed.
End raises.

(** ** The third parties reject with errors of their own *)
Definition rejects {A} (r : res A) : Prop := ∀ e, r = Err e → ∃ m, e = JsError m.
Record rejecting `{StripeApi, ClaudeApi, Totp} : Prop := Rejecting {
  rj_customer : ∀ h, rejects (stripe_customer_id h);
  rj_session : ∀ h, rejects (stripe_session_url h);
  rj_portal : ∀ h, rejects (stripe_portal_url h);
  rj_ack : ∀ h, rejects (stripe_ack h);
  rj_retrieve : ∀ h id, rejects (stripe_retrieve h id);
  rj_claude : ∀ n s, rejects (claude_create n s);
  rj_totp : ∀ secret code now, rejects (totp_verify secret code now);
  rj_qr : ∀ uri, rejects (qr_dataURL uri)
}.
Lemma rejects_ordinary {A} (r : res A) e : rejects r → r = Err e → ordinary e.
Proof. intros Hr He. destruct (Hr e He) as [m ->]. done. Qed.

Section operations.
Context {cfg : config} `{Entropy, Argon2, Jwt, Totp, Aead, UAParser, GeoipLite, StripeApi, StripeSignature}.
Context `{ApolloApi, ClaudeApi, LocalTime, Collation, CsvStringify, IsEmail, IsUrl, IsUUID, Resend}.
Context (up : bool) (Hrej : rejecting).

Lemma raises_stripe {A} (answer : list stripe_call → res A) c : (∀ h, rejects (answer h)) → raises up (stripe_do answer c).
Proof.
  intros Ha. apply raises_step; [frame_tac|]. intros w e He. cbn in He. by eapply rejects_ordinary.
Qed.
Lemma raises_stripe_read id : raises up (stripe_read id).
Proof.
  apply raises_step; [frame_tac|]. intros w e He. cbn in He. eapply rejects_ordinary; [apply (rj_retrieve Hrej)|exact He].
Qed.
Lemma raises_apollo {A} (answer : list apollo_call → A) c : raises up (apollo_do answer c).
Proof. apply raises_step; [frame_tac|]. by intros w e [=]. Qed.
Lemma raises_claude n content : raises up (claude_do n content).
Proof.
  apply raises_step; [frame_tac|]. intros w e He. cbn in He. eapply rejects_ordinary; [apply (rj_claude Hrej)|exact He].
Qed.
Lemma raises_resend m : raises up (resend_send m).
Proof. apply raises_step; [frame_tac|]. by intros w e [=]. Qed.
Lemma raises_lift {A} (r : res A) : rejects r → raises up (Auth.lift r).
Proof. intros Hr. apply raises_step; [frame_tac|]. intros w e He. cbn in He. by eapply rejects_ordinary. Qed.
Lemma decrypt_rejects key payload : rejects (Encryption.decrypt key payload).
Proof. intros e. unfold Encryption.decrypt. repeat case_match; intros [= <-]; eauto. Qed.
Lemma raises_isRevoked u : raises up (rs_isRevoked u).
Proof.
  change (rs_isRevoked u) with (Revocation.isRevoked u).
  intros w Hw. rewrite Revocation.isRevoked_run. split; [done|by intros e [=]].
Qed.

Create HintDb prims.
#[local] Hint Unfold db_all db_find db_find_by db_find_latest db_find_many db_count date_now random_uuid randomBytes
  randomInt redis_get redis_exists redis_set_ex redis_expire emailQueue_add bulkQueue_addBulk
  Leads.orThrow required : prims.
Ltac raises_step_tac :=
  match goal with
  | |- raises _ (mbind _ _) => apply raises_bind; [|intros ?]
  | |- raises _ (mret _) => apply raises_ret
  | |- raises _ (gets _) => apply raises_gets
  | |- raises _ (throw (Http _ _)) => apply raises_throw; cbn; unfold statuses; set_solver
  | |- raises _ (throw _) => apply raises_throw; first [exact I | assumption]
  | |- raises _ (try_catch _ _) => apply raises_try; [|intros ? ?]
  | |- raises _ (transaction _) => apply raises_transaction
  | |- raises _ (when _ _) => apply raises_when
  | |- raises _ (for_each _ _) => apply raises_for_each; intros ?
  | |- raises _ (fold_each _ _ _) => apply raises_fold_each; intros ? ?
  | |- raises _ (db_create _ _ _) => apply raises_db_create
  | |- raises _ (db_update _ _ _) => apply raises_db_update
  | |- raises _ (db_update_fk _ _ _) => apply raises_db_update_fk
  | |- raises _ (db_update_indexed _ _ _) => apply raises_db_update_indexed
  | |- raises _ (db_update_many _ _ _) => apply raises_db_update_many
  | |- raises _ (db_update_many_indexed _ _ _) => apply raises_db_update_many_indexed
  | |- raises _ (db_delete _ _) => apply raises_db_delete
  | |- raises _ (Audit.record _) => apply raises_record
  | |- raises _ (Email.enqueue _ _) => apply raises_enqueue
  | |- raises _ (Email.enqueueBulk _) => apply raises_enqueueBulk
  | |- raises _ draw => apply raises_draw
  | |- raises _ (redis_incr _) => apply raises_incr
  | |- raises _ (redis_guard _) => apply raises_redis
  | |- raises _ (modify _) => apply raises_modify; intros ?; first [reflexivity | by case_match]
  | |- raises _ (withTimeout (queue_push _) _) => apply raises_timeout; reflexivity
  | |- raises _ (rs_isRevoked _) => apply raises_isRevoked
  | |- raises _ (stripe_do _ _) => apply raises_stripe; apply Hrej
  | |- raises _ (stripe_read _) => apply raises_stripe_read
  | |- raises _ (apollo_do _ _) => apply raises_apollo
  | |- raises _ (claude_do _ _) => apply raises_claude
  | |- raises _ (resend_send _) => apply raises_resend
  | |- raises _ (Auth.lift _) => apply raises_lift; first [apply decrypt_rejects | apply Hrej]
  | |- raises _ (match ?x with _ => _ end) => destruct x
  | |- raises _ (match ?x with _ => _ end _) => destruct x; cbv beta
  | |- raises _ (let _ := _ in _) => cbv zeta
  end.
Ltac raises_all := autounfold with svc loud prims; repeat raises_step_tac.
Lemma guard_raises a req : raises up (Api.guard a req).
Proof. destruct a; raises_all. Qed.

(** The same of a handler. *)
Definition raisesC {A} (m : C A) : Prop :=
  ∀ ck w, alive up w → alive up (m ck w).2 ∧ ∀ e, (m ck w).1.1 = Err e → ordinary e.
Lemma raisesC_ret {A} (a : A) : raisesC (retC a).
Proof. intros ck w Hw. split; [done|]. by intros e [=]. Qed.
Lemma raisesC_cookie c : raisesC (cookie c).
Proof. intros ck w Hw. split; [done|]. by intros e [=]. Qed.
Lemma raisesC_lift {A} (m : M A) : raises up m → raisesC (liftC m).
Proof. intros Hm ck w Hw. specialize (Hm w Hw). unfold liftC. by destruct (m w). Qed.
Lemma raisesC_bind {A B} (m : C A) (k : A → C B) : raisesC m → (∀ a, raisesC (k a)) → raisesC (bindC m k).
Proof.
  intros Hm Hk ck w Hw. destruct (Hm ck w Hw) as [Hw1 He]. unfold bindC.
  destruct (m ck w) as [[[a|e] ck'] w']; cbn in *; [by apply Hk|]. split; [done|]. intros e' [= <-]. by apply He.
Qed.
Lemma raisesC_on_error {A} (m : C A) h : raisesC m → raisesC h → raisesC (on_error m h).
Proof.
  intros Hm Hh ck w Hw. destruct (Hm ck w Hw) as [Hw1 He]. unfold on_error.
  destruct (m ck w) as [[[a|e] ck'] w']; cbn in *; [split; [done|by intros e [=]]|].
  destruct (Hh ck' w' Hw1) as [Hw2 _]. destruct (h ck' w') as [[r ck''] w'']; cbn in *.
  split; [done|]. intros e' [= <-]. by apply He.
Qed.
Ltac raisesC_step :=
  match goal with
  | |- raisesC (bindC _ _) => apply raisesC_bind; [|intros ?]
  | |- raisesC (liftC _) => apply raisesC_lift
  | |- raisesC (on_error _ _) => apply raisesC_on_error
  | |- raisesC (retC _) => apply raisesC_ret
  | |- raisesC (cookie _) => apply raisesC_cookie
  | |- raisesC (match ?x with _ => _ end) => destruct x
  end.
(** The two routes that queue a search and wait for the queue. *)
Definition queues_search (r : Api.route) : bool :=
  match r with
  | Api.LeadsRoute (LeadsController.AiSearch _) | Api.LeadsRoute (LeadsController.GetMoreLeads _ _) => true
  | _ => false
  end.
Lemma handle_raises key req user r :
  up = true ∨ queues_search r = false → raisesC (Api.handle key req user r).
Proof.
  intros Hq. route_cases r; open_handler; autounfold with svc loud;
    unfold Auth.register, Admin.inviteUser, apolloQueue_add; autounfold with svc prims;
    repeat first [raisesC_step | raises_step_tac | apply raises_push; [by destruct Hq|reflexivity]].
Qed.
Lemma serve_raises key req r :
  up = true ∨ queues_search r = false → raisesC (Api.serve key req r).
Proof.
  intros Hq. unfold Api.serve. apply raisesC_bind; [apply raisesC_lift, guard_raises|intros user].
  apply raisesC_bind; [apply raisesC_lift|intros _; by apply handle_raises].
  apply raises_when, raises_throw. cbn. unfold statuses. set_solver.
Qed.
End operations.

Section theorem.
Context {cfg : config} `{Entropy, Argon2, Jwt, Totp, Aead, UAParser, GeoipLite, StripeApi, StripeSignature}.
Context `{ApolloApi, ClaudeApi, LocalTime, Collation, CsvStringify, IsEmail, IsUrl, IsUUID, Resend} `{N : Nest}.

End theorem.

(** ** Witness: no token, Redis down *)
Section witness.
#[local] Existing Instance default_config.
#[local] Existing Instances counter_entropy plain_argon2 plain_jwt echo_totp toy_gcm plain_ua empty_geoip counting_stripe no_signature.
#[local] Existing Instances silent_apollo silent_claude length_order joined_csv at_email any_url any_uuid willing_resend.
Definition plain_nest : Nest := {|
  nest_http s m := HttpException s "HttpException" m (Fields (Some (One m)) (Some "Error"));
  error_stack e := "Error"
|}.
#[local] Existing Instance plain_nest.
Definition outage : world := put_redis_up false two_accounts.
Definition asking : exchange := Exchange (Some "trace-7") "GET" (Some "/api/v1/admin/users") "/admin/users".
Definition staff_list : Api.route := Api.AdminRoute (AdminController.GetUser "max").
End witness.
End Answered.
