(* ===== verification/Pairing.v ===== *)
(** The device a session is on belongs to the account of the session, whatever
    the service does - as long as the challenges presented to it name a device
    of their own account, as the challenges it signs do. *)
From S2P Require Import Prelude JsLib Crypto Json Schema Effects Platform Config Messaging Tokens Revocation Users Sessions Access Billing Auth AuthController Instances AuthSessions Guards Subscriptions LeadFinderBilling Webhooks Apollo Taxonomy Leads ApolloSearch Dto MailTemplate MailWorkers Campaign ResendWebhook Outreach Admin AdminController Controllers Api Service Fixtures.
Import Guards.

Module Pairing.
(** The session is on no device, or on one of its own account. *)
Definition at_home (d : db) (s : session) : Prop :=
  match s_deviceId s with
  | Some id => ∃ v, db_devices d !! id = Some v ∧ d_userId v = s_userId s
  | None => True
  end.
Record paired (d : db) : Prop := Paired {
  pa_users : keyed u_id (db_users d);
  pa_devices : keyed d_id (db_devices d);
  pa_sessions : ∀ k s, db_sessions d !! k = Some s → at_home d s
}.
(** The device, if it exists, is the account's. *)
Definition device_of (sub id : string) (d : db) : Prop :=
  ∀ v, db_devices d !! id = Some v → d_userId v = sub.

Section paired.
(** An account and a device of it that the operation is about, if any. *)
Context (about : option (string * string)).
Definition good (w : world) : Prop :=
  paired (w_db w) ∧ match about with Some (sub, id) => device_of sub id (w_db w) | None => True end.
Abbreviation R := (keeps good).
Lemma good_eq w w' :
  db_users (w_db w') = db_users (w_db w) → db_devices (w_db w') = db_devices (w_db w) →
  db_sessions (w_db w') = db_sessions (w_db w) → R w w'.
Proof.
  intros Hu Hd Hs [[] Ha]. split.
  { constructor; unfold at_home in *; by rewrite ?Hu, ?Hd, ?Hs. }
  destruct about as [[sub id]|]; [|done]. unfold device_of. by rewrite Hd.
Qed.
Lemma good_rollback w w' : R w w' → R w (put_db (w_db w) w').
Proof. intros _. by apply good_eq. Qed.

(** *** Writes to accounts *)
Lemma users_good m w : (keyed u_id (db_users (w_db w)) → keyed u_id m) → R w (put_rows T_users m w).
Proof. intros Hm [[] Ha]. split; [constructor; auto|exact Ha]. Qed.
Lemma create_user_good k u : u_id u = k → respects R (db_create T_users k u).
Proof.
  intros Hid w. destruct (db_create _ _ _ w) as [[r|e] w'] eqn:E; [|by apply db_create_err in E as ->].
  apply db_create_inv in E as (_ & _ & _ & _ & ->). apply users_good. intros Hk. by apply keyed_insert.
Qed.
Lemma update_user_good k f : (∀ u, u_id (f u) = u_id u) → respects R (db_update T_users k f).
Proof.
  intros Hf w. destruct (db_update _ _ _ w) as [[r|e] w'] eqn:E; [|by apply db_update_err in E as [-> _]].
  apply db_update_inv in E as (u & Hu & _ & ->). apply users_good. intros Hk. apply keyed_insert; [|done].
  rewrite Hf. by apply Hk.
Qed.
Lemma update_indexed_user_good k f : (∀ u, u_id (f u) = u_id u) → respects R (db_update_indexed T_users k f).
Proof.
  intros Hf w. destruct (db_update_indexed _ _ _ w) as [[r|e] w'] eqn:E; [|by apply db_update_indexed_err in E as ->].
  apply db_update_indexed_inv in E as (u & Hu & _ & _ & ->). apply users_good. intros Hk. apply keyed_insert; [|done].
  rewrite Hf. by apply Hk.
Qed.
Lemma update_users_good P f : (∀ u, u_id (f u) = u_id u) → respects R (db_update_many T_users P f).
Proof. intros Hf w. cbn. apply (users_good _ w). intros Hk. by apply keyed_update_where. Qed.
Lemma update_users_indexed_good P f : (∀ u, u_id (f u) = u_id u) → respects R (db_update_many_indexed T_users P f).
Proof.
  intros Hf w. unfold db_update_many_indexed. cbv zeta. destruct (any_conflict _ _ _); [done|].
  apply (users_good _ w). intros Hk. by apply keyed_update_where.
Qed.

(** *** Writes to devices *)
Lemma update_device_good k f :
  (∀ v, d_id (f v) = d_id v ∧ d_userId (f v) = d_userId v) → respects R (db_update T_devices k f).
Proof.
  intros Hf w. destruct (db_update _ _ _ w) as [[r|e] w'] eqn:E; [|by apply db_update_err in E as [-> _]].
  apply db_update_inv in E as (v & Hv & _ & ->). cbn in Hv. destruct (Hf v) as [Hid Hu].
  assert (∀ j x, <[k:=f v]> (db_devices (w_db w)) !! j = Some x →
    ∃ y, db_devices (w_db w) !! j = Some y ∧ d_userId x = d_userId y) as Hback.
  { intros j x [[<- <-]|[_ Hx]]%lookup_insert_Some; eauto. }
  intros [[] Ha]. split; [constructor; [done| |]|].
  - apply keyed_insert; [|done]. rewrite Hid. by apply pa_devices0.
  - cbn. intros i s Hs. specialize (pa_sessions0 i s Hs). unfold at_home in *. cbn.
    destruct (s_deviceId s) as [id|]; [|done]. destruct pa_sessions0 as (y & Hy & Hys).
    destruct (decide (id = k)) as [->|]; [|rewrite lookup_insert_ne by done; eauto].
    exists (f v). rewrite lookup_insert_eq. split; [done|congruence].
  - destruct about as [[sub id]|]; [|done]. intros x Hx. cbn in Hx.
    destruct (Hback id x Hx) as (y & Hy & ->). by apply Ha.
Qed.
Lemma create_device_good k v : d_id v = k → respects (keeps (λ w, paired (w_db w))) (db_create T_devices k v).
Proof.
  intros Hid w. destruct (db_create _ _ _ w) as [[r|e] w'] eqn:E; [|by apply db_create_err in E as ->].
  apply db_create_inv in E as (_ & Hn & _ & _ & ->). cbn in Hn. intros []. constructor; [done|by apply keyed_insert|].
  cbn. intros i s Hs. specialize (pa_sessions0 i s Hs). unfold at_home in *. cbn.
  destruct (s_deviceId s) as [id|]; [|done]. destruct pa_sessions0 as (y & Hy & Hys). exists y.
  rewrite lookup_insert_ne by congruence. done.
Qed.
(** Deleting a device takes its sessions off it. *)
Lemma delete_device_good id : respects R (Devices.delete_device id).
Proof.
  intros w [[] Ha]. unfold Devices.delete_device, db_delete. rewrite run_bind. cbn [t_get T_devices].
  destruct (db_devices (w_db w) !! id) as [x|] eqn:Hx; [|by split].
  rewrite run_bind. split; [constructor; [done| |]|]; cbn.
  - by apply keyed_delete.
  - intros i s Hs. destruct (lookup_update_where_Some _ _ _ _ _ Hs) as (s0 & Hs0 & ->).
    specialize (pa_sessions0 i s0 Hs0). case_bool_decide as E; [done|]. unfold at_home in *. cbn.
    destruct (s_deviceId s0) as [j|]; [|done]. destruct pa_sessions0 as (y & Hy & Hys). exists y. rewrite lookup_delete_ne by congruence. done.
  - destruct about as [[sub d]|]; [|done]. intros v Hv. cbn in Hv. apply lookup_delete_Some in Hv as [_ Hv]. by apply Ha.
Qed.

(** *** Writes to sessions *)
Definition stays_on (f : session → session) : Prop :=
  ∀ s, s_userId (f s) = s_userId s ∧ s_deviceId (f s) = s_deviceId s.
Lemma stays_home f d s : stays_on f → at_home d s → at_home d (f s).
Proof. intros Hf. destruct (Hf s) as [Hu Hd]. unfold at_home. by rewrite Hu, Hd. Qed.
Lemma sessions_good m w :
  good w → (∀ k s, m !! k = Some s → at_home (w_db w) s) → good (put_rows T_sessions m w).
Proof. intros [[] Ha] Hm. split; [by constructor|exact Ha]. Qed.
Lemma update_session_good k f : stays_on f → respects R (db_update T_sessions k f).
Proof.
  intros Hf w Hg. destruct (db_update _ _ _ w) as [[r|e] w'] eqn:E; [|by apply db_update_err in E as [-> _]].
  apply db_update_inv in E as (s & Hs & _ & ->). apply sessions_good; [done|].
  intros j x [[<- <-]|[_ Hx]]%lookup_insert_Some; [apply stays_home; [done|]|]; by eapply (pa_sessions _ (proj1 Hg)).
Qed.
Lemma update_sessions_good P f : stays_on f → respects R (db_update_many T_sessions P f).
Proof.
  intros Hf w Hg. cbn. apply (sessions_good _ w); [done|]. intros k x Hx.
  destruct (lookup_update_where_Some _ _ _ _ _ Hx) as (s & Hs & ->).
  destruct (P s); [apply stays_home; [done|]|]; by eapply (pa_sessions _ (proj1 Hg)).
Qed.
Lemma create_session_good k s :
  match s_deviceId s with Some id => about = Some (s_userId s, id) | None => True end →
  respects R (db_create T_sessions k s).
Proof.
  intros Hs w Hg. destruct (db_create _ _ _ w) as [[r|e] w'] eqn:E; [|by apply db_create_err in E as ->].
  apply db_create_inv in E as (_ & _ & _ & Hf & ->). apply sessions_good; [done|].
  intros j x [[<- <-]|[_ Hx]]%lookup_insert_Some; [|by eapply (pa_sessions _ (proj1 Hg))].
  unfold at_home. cbn in Hf. apply andb_true_iff in Hf as [_ Hf]. destruct Hg as [_ Ha].
  destruct (s_deviceId s) as [id|]; [|done]. rewrite Hs in Ha. apply bool_decide_eq_true_1 in Hf as [v Hv].
  exists v. split; [done|by apply Ha].
Qed.
End paired.

Section operations.
Context {cfg : config} `{Entropy, Argon2, Jwt, Totp, Aead, UAParser, GeoipLite, StripeApi, StripeSignature}.
Context `{ApolloApi, ClaudeApi, LocalTime, Collation, CsvStringify, IsEmail, IsUrl, IsUUID, Resend}.
#[local] Hint Resolve good_rollback delete_device_good : presh steph.
#[local] Hint Extern 1 (keeps (good _) _ _) => apply good_eq; reflexivity : presh.
#[local] Hint Extern 1 (respects _ (db_create T_users _ _)) => apply create_user_good; by repeat case_match : steph.
#[local] Hint Extern 1 (respects _ (db_update T_users _ _)) => apply update_user_good; reflexivity : steph.
#[local] Hint Extern 1 (respects _ (db_update_many T_users _ _)) => apply update_users_good; reflexivity : steph.
#[local] Hint Extern 1 (respects _ (db_update_many_indexed T_users _ _)) => apply update_users_indexed_good; reflexivity : steph.
#[local] Hint Extern 1 (respects _ (db_update_indexed T_users _ _)) => apply update_indexed_user_good; reflexivity : steph.
#[local] Hint Extern 1 (respects _ (db_update T_devices _ _)) => apply update_device_good; by split : steph.
#[local] Hint Extern 1 (respects _ (db_update T_sessions _ _)) => apply update_session_good; by split : steph.
#[local] Hint Extern 1 (respects _ (db_update_many T_sessions _ _)) => apply update_sessions_good; by split : steph.
#[local] Hint Extern 1 (respects _ (db_create T_sessions _ _)) =>
  apply create_session_good; cbn;
  first [reflexivity|match goal with E : s_deviceId _ = _ |- _ => rewrite E end; first [reflexivity|exact I]] : steph.
Abbreviation R := (keeps (good None)).

Lemma run_good {A} about (m : M A) w : respects (keeps (good about)) m → good about w → good about (m w).2.
Proof. intros Hm. apply Hm. Qed.
Lemma good_about sub id w : good None w → device_of sub id (w_db w) → good (Some (sub, id)) w.
Proof. by intros [Hp _]. Qed.
Lemma good_none about w : good about w → good None w.
Proof. by intros [Hp _]. Qed.
Lemma bind_good {A B} (m : M A) (k : A → M B) w :
  good None w → respects R m → (∀ a w', m w = (Ok a, w') → good None w' → good None (k a w').2) →
  good None ((m ≫= k) w).2.
Proof.
  intros Hg Hm Hk. specialize (Hm w Hg). rewrite run_bind. destruct (m w) as [[a|e] w'] eqn:E; [by apply Hk|done].
Qed.

(** *** Tokens for a device *)
Lemma issueTokenPair_good sub id meta isNew :
  respects (keeps (good (Some (sub, id)))) (Auth.issueTokenPair sub id meta isNew).
Proof.
  intros w Ha.
  unfold Auth.issueTokenPair, Users.findById, db_find, gets. rewrite run_bind. cbn [t_get T_users].
  destruct (db_users (w_db w) !! sub) as [u|] eqn:Hu; [|exact Ha].
  assert (u_id u = sub) as -> by by apply (pa_users _ (proj1 Ha)).
  revert Ha. apply run_good. autounfold with loud. frame_op.
Qed.
#[local] Hint Resolve issueTokenPair_good : steph.
(** The device a login is on. *)
Lemma findOrCreate_good sub fp d w :
  good None w → good None (Devices.findOrCreateDevice sub fp d w).2 ∧
  ∀ x w', Devices.findOrCreateDevice sub fp d w = (Ok x, w') → device_of sub (d_id x.1) (w_db w').
Proof.
  intros Hg. unfold Devices.findOrCreateDevice, db_find_by, date_now, gets. rewrite !run_bind. cbn [t_get T_devices].
  destruct (find_row _ _) as [e|] eqn:Hf.
  - apply find_row_Some in Hf as [He [k Hk]]. assert (d_id e = k) as Hid by by apply (pa_devices _ (proj1 Hg)).
    unfold Devices.of_user, seq_b in He. unbool. rewrite run_bind, (db_update_run T_devices _ _ _ e) by (by rewrite Hid).
    split.
    + pose proof (update_device_good None (d_id e) (set_d_lastSeenAt (w_now w)) ltac:(by split) w Hg) as Hu.
      by rewrite (db_update_run T_devices _ _ _ e) in Hu by (by rewrite Hid).
    + intros x w' [= <- <-] v. cbn. rewrite lookup_insert_eq. by intros [= <-].
  - rewrite run_bind. destruct (random_uuid w) as [[id|e] w0] eqn:Er; [|by inversion Er].
    assert (paired (w_db w0)) as Hp0 by (injection Er as _ <-; apply Hg). clear Er.
    match goal with |- context [db_create T_devices ?i ?x] => pose proof (create_device_good i x eq_refl w0 Hp0) as Hp1 end.
    rewrite run_bind. destruct (db_create T_devices id _ w0) as [[v|e] w1] eqn:Ec.
    + split; [by split|].
      intros x w' [= <- <-]. apply db_create_inv in Ec as (-> & _ & _ & _ & ->). intros v. cbn.
      rewrite lookup_insert_eq. by intros [= <-].
    + apply db_create_err in Ec as ->. split; [by split|done].
Qed.
Lemma login_good email password meta w : good None w → good None (Auth.login email password meta w).2.
Proof.
  intros Hg. unfold Auth.login, Users.findByEmail, db_find_by, date_now, gets. rewrite !run_bind. cbn [t_get T_users].
  destruct (find_row _ _) as [u|]; [|exact Hg].
  destruct (Users.isLocked _ _); [exact Hg|]. destruct (negb (bool_decide _)); [exact Hg|].
  destruct (negb _); [revert Hg; apply run_good; frame_op|].
  apply bind_good; [done|frame_op|]. intros _ w1 _ Hg1. rewrite run_bind.
  destruct (findOrCreate_good (u_id u) (Client.hashDeviceId (Auth.rm_rawDeviceId meta))
    (Client.describeUserAgent (Auth.rm_userAgent meta)) w1 Hg1) as [Hg2 Hdev].
  destruct (Devices.findOrCreateDevice _ _ _ w1) as [[[v new]|e] w2] eqn:E; [|exact Hg2].
  specialize (Hdev _ _ eq_refl). cbn [fst snd] in *. destruct new.
  - revert Hg2. apply run_good. frame_op.
  - rewrite run_bind. pose proof (good_none _ _ (issueTokenPair_good (u_id u) (d_id v) meta false w2 (good_about _ _ _ Hg2 Hdev))) as Hi.
    by destruct (Auth.issueTokenPair _ _ _ _ w2) as [[p|e] w3].
Qed.
(** A challenge that names a device of its own account. *)
Definition fair (w : world) (token : string) : Prop :=
  ∀ sub id m h, jwt_verify token (w_now w / 1000) = Some (LoginChallenge sub id m h) → device_of sub id (w_db w).
Lemma verifyLogin_good key token code meta w :
  good None w → fair w token → good None (Auth.verifyLogin key token code meta w).2.
Proof.
  intros Hg Hf. unfold Auth.verifyLogin, Auth.now_seconds, date_now, gets. rewrite run_bind.
  cbn [mret M_ret]. rewrite run_bind. cbn [mret M_ret].
  destruct (jwt_verify token (w_now w / 1000)) as [[|sub id m h]|] eqn:Hj; [done| |done].
  specialize (Hf sub id m h Hj). unfold Users.findById, db_find, gets. rewrite run_bind. cbn [t_get T_users].
  destruct (db_users (w_db w) !! sub) as [u|] eqn:Hu; [|done].
  assert (u_id u = sub) as Hid by by apply (pa_users _ (proj1 Hg)).
  apply (good_none (Some (sub, id))). pose proof (good_about _ _ _ Hg Hf) as Ha. revert Ha. apply run_good.
  rewrite Hid. frame_op.
Qed.
(** A refreshed session stays on its device. *)
Lemma refreshFrom_good s meta w : good None w → at_home (w_db w) s → good None (Auth.refreshFrom s meta w).2.
Proof.
  unfold at_home. intros Hg Hs. destruct (s_deviceId s) as [id|] eqn:E.
  - destruct Hs as (v & Hv & Hvs). apply (good_none (Some (s_userId s, id))).
    assert (good (Some (s_userId s, id)) w) as Ha by (apply good_about; [done|]; intros x Hx; congruence).
    revert Ha. apply run_good. autounfold with loud. frame_op.
  - revert Hg. apply run_good. autounfold with loud. frame_op.
Qed.
Lemma graceSuccessor_row o w s w' :
  Auth.graceSuccessor o w = (Ok (Some s), w') → w' = w ∧ ∃ k, db_sessions (w_db w) !! k = Some s.
Proof.
  destruct (graceSuccessor_run o w) as (x & -> & Hx). intros [= -> <-]. destruct (Hx s eq_refl) as [_ Hk]. by split.
Qed.
Lemma refresh_good raw meta w : good None w → good None (Auth.refresh raw meta w).2.
Proof.
  intros Hg. unfold Auth.refresh. rewrite run_bind.
  unfold Sessions.findActiveByRawToken, date_now, db_find_by, gets. rewrite run_bind. cbn [t_get T_sessions].
  destruct (find_row _ _) as [s|] eqn:Hf.
  - apply find_row_Some in Hf as [_ [k Hk]]. apply refreshFrom_good; [done|]. by eapply (pa_sessions _ (proj1 Hg)).
  - unfold Sessions.findAnyByRawToken, db_find_by, gets. rewrite run_bind. cbn [t_get T_sessions].
    set (o := find_row _ _). apply bind_good; [done|frame_op|]. intros [s|] w' Hs Hg'.
    + apply graceSuccessor_row in Hs as (-> & k & Hk). apply refreshFrom_good; [done|].
      by eapply (pa_sessions _ (proj1 Hg)).
    + revert Hg'. apply run_good. autounfold with loud. frame_op.
Qed.
Lemma good_intro {A} (m : M A) : (∀ w, good None w → good None (m w).2) → respects R m.
Proof. exact id. Qed.
Lemma login_respects email password meta : respects R (Auth.login email password meta).
Proof. apply good_intro, login_good. Qed.
Lemma refresh_respects raw meta : respects R (Auth.refresh raw meta).
Proof. apply good_intro, refresh_good. Qed.

(** *** The jobs, the guards and the other requests *)
#[local] Hint Resolve login_respects refresh_respects : steph.
Lemma job_good j : respects R (run_job j).
Proof. destruct j; cbn [run_job]; frame_op. Qed.
Lemma guard_good a req : respects R (Api.guard a req).
Proof. destruct a; frame_op. Qed.
Definition answers_challenge (r : Api.route) : option string :=
  match r with Api.AuthRoute (AuthRoutes.VerifyLogin token _) => Some token | _ => None end.
Lemma handle_good key req user r : answers_challenge r = None → respectsC R (Api.handle key req user r).
Proof.
  intros Hr. route_cases r; try discriminate Hr; open_handler; autounfold with svc;
    unfold Auth.register, Admin.inviteUser; frame_op; autounfold with loud; frame_op.
Qed.

(** Challenges name a device of their own account: those the service signs do,
    and nobody else can sign one. *)
Definition honest (w : world) (r : Api.route) : Prop :=
  match answers_challenge r with Some token => fair w token | None => True end.
Lemma answer_good key req token code w :
  good None w → fair w token → good None (Api.served key req (Api.AuthRoute (AuthRoutes.VerifyLogin token code)) w).
Proof.
  intros Hg Hf. unfold Api.served, Api.serve. cbn [Api.audience_of AuthRoutes.audience_of Api.guard].
  destruct (Api.valid _); [|exact Hg]. open_handler.
  change (good None (AuthController.verifyLogin key req token code [] w).2).
  assert (respectsC (same (λ w, (w_db w, w_now w))) (AuthController.buildMeta req)) as Hb by frame_op.
  specialize (Hb [] w). unfold AuthController.verifyLogin, bindC at 1.
  destruct (AuthController.buildMeta req [] w) as [[[meta|e] ck] w1]; cbn in Hb; injection Hb as Hdb Hnow.
  all: assert (good None w1) as Hg1 by (unfold good; by rewrite Hdb).
  - assert (fair w1 token) as Hf1 by (unfold fair; by rewrite Hdb, Hnow).
    pose proof (verifyLogin_good key token code meta w1 Hg1 Hf1) as Hv. unfold bindC, liftC.
    by destruct (Auth.verifyLogin key token code meta w1) as [[p|e] w2].
  - exact Hg1.
Qed.
Lemma served_good key req r w : honest w r → good None w → good None (Api.served key req r w).
Proof.
  intros Hh Hg. destruct (answers_challenge r) as [token|] eqn:Ha.
  - unfold honest in Hh. rewrite Ha in Hh. route_cases r; try discriminate Ha. injection Ha as ->. by apply answer_good.
  - revert Hg. unfold Api.served, Api.serve. apply (respectsC_bind R); [apply respectsC_lift; [apply _|apply guard_good]|].
    intros user. apply respectsC_bind; [apply _| |intros _; by apply handle_good].
    apply respectsC_lift; [apply _|frame_op].
Qed.
(** Sessions and devices stay paired, whatever the service does. *)
Lemma stays_paired key w w' : service_run key honest w w' → paired (w_db w) → paired (w_db w').
Proof.
  intros Hrun Hw. enough (good None w') as [Hp _] by done. assert (good None w) as Hg by done. clear Hw.
  induction Hrun as [|w1 w2 w3 [req r w0 Hal|j w0|t up w0 _] _ IH]; [done|..]; apply IH.
  - by apply served_good.
  - revert Hg. apply run_good, job_good.
  - revert Hg. by apply good_eq.
Qed.
End operations.
End Pairing.
