(* ===== verification/Isolation.v ===== *)
(** Accounts are isolated from each other: a request of a signed-in account
    changes no row of another account, in no table, and whatever it queues,
    revokes or audits is its own. *)
From S2P Require Import Prelude JsLib Crypto Json Schema Effects Platform Config Messaging Tokens Revocation Users Sessions Access Billing Auth AuthController Instances AuthSessions Guards Subscriptions LeadFinderBilling Webhooks Apollo Taxonomy Leads ApolloSearch Dto MailTemplate MailWorkers Campaign ResendWebhook Outreach Admin AdminController Controllers Api Service Fixtures Gate Integrity Pairing.
Import Guards Integrity Pairing.

Module Isolation.
(** ** Whose row it is *)
Class Owned (X : Type) := mine : string → X → bool.
#[export] Instance own_users : Owned user := λ sub u, seq_b (u_id u) sub.
#[export] Instance own_devices : Owned device := λ sub d, seq_b (d_userId d) sub.
#[export] Instance own_sessions : Owned session := λ sub s, seq_b (s_userId s) sub.
#[export] Instance own_tokens : Owned verification_token := λ sub t, seq_b (vt_userId t) sub.
#[export] Instance own_consents : Owned consent_record := λ sub c, seq_b (cr_userId c) sub.
#[export] Instance own_invites : Owned invite := λ sub i, seq_b (i_inviterId i) sub.
#[export] Instance own_subscriptions : Owned subscription := λ sub s, seq_b (sub_userId s) sub.
#[export] Instance own_lfSubscriptions : Owned lf_subscription := λ sub s, seq_b (lfs_userId s) sub.
#[export] Instance own_grants : Owned credit_grant := λ sub g, seq_b (g_userId g) sub.
#[export] Instance own_leads : Owned lead := λ sub l, bool_decide (l_submittedByUserId l = Some sub).
#[export] Instance own_jobs : Owned search_job := λ sub j, seq_b (j_userId j) sub.

Create HintDb ownership.
#[export] Hint Unfold own_users own_devices own_sessions own_tokens own_consents own_invites own_subscriptions
  own_lfSubscriptions own_grants own_leads own_jobs Sessions.unrevoked_of : ownership.

(** The rows of others are the same before and after. *)
Definition kept `{Owned X} (T : table X) (sub : string) (d d' : db) : Prop :=
  ∀ k r, mine sub r = false → t_get T d !! k = Some r ↔ t_get T d' !! k = Some r.
(** A search result belongs to the account of its job. *)
Definition results_kept (sub : string) (d d' : db) : Prop :=
  ∀ k r j, db_leadSearchJobs d !! r_jobId r = Some j → j_userId j ≠ sub →
    db_leadSearchResults d !! k = Some r ↔ db_leadSearchResults d' !! k = Some r.

Record others_kept (sub : string) (w w' : world) : Prop := OthersKept {
  ok_users : kept T_users sub (w_db w) (w_db w');
  ok_devices : kept T_devices sub (w_db w) (w_db w');
  ok_sessions : kept T_sessions sub (w_db w) (w_db w');
  ok_tokens : kept T_verificationTokens sub (w_db w) (w_db w');
  ok_consents : kept T_consentRecords sub (w_db w) (w_db w');
  ok_invites : kept T_invites sub (w_db w) (w_db w');
  ok_subscriptions : kept T_subscriptions sub (w_db w) (w_db w');
  ok_lfSubscriptions : kept T_leadFinderSubscriptions sub (w_db w) (w_db w');
  ok_grants : kept T_creditGrants sub (w_db w) (w_db w');
  ok_leads : kept T_leads sub (w_db w) (w_db w');
  ok_jobs : kept T_leadSearchJobs sub (w_db w) (w_db w');
  ok_results : results_kept sub (w_db w) (w_db w');
  (** Tables of no account. *)
  ok_invoices : db_invoices (w_db w') = db_invoices (w_db w);
  ok_adminInvites : db_adminAccessInvites (w_db w') = db_adminAccessInvites (w_db w);
  ok_plans : db_plans (w_db w') = db_plans (w_db w);
  ok_packs : db_creditPacks (w_db w') = db_creditPacks (w_db w);
  ok_tiers : db_leadFinderTiers (w_db w') = db_leadFinderTiers (w_db w);
  ok_messages : db_contactMessages (w_db w') = db_contactMessages (w_db w);
  ok_suppressions : db_emailSuppressions (w_db w') = db_emailSuppressions (w_db w);
  ok_queue : db_prospectInviteQueue (w_db w') = db_prospectInviteQueue (w_db w);
  ok_settings : db_campaignSettings (w_db w') = db_campaignSettings (w_db w);
  (** What it audits, revokes and searches. *)
  ok_audit : ∃ l, db_auditLogs (w_db w') = db_auditLogs (w_db w) ++ l ∧
               Forall (λ e, a_actorUserId e = Some sub) l;
  ok_redis : ∀ k, k ≠ Revocation.user_key sub → w_redis w' !! k = w_redis w !! k;
  ok_searches : ∃ l, w_apolloQueue w' = w_apolloQueue w ++ l ∧ Forall (λ j, aj_userId j = sub) l
}.

Lemma kept_refl `{Owned X} (T : table X) sub d : kept T sub d d.
Proof. by intros k r. Qed.
Lemma results_refl sub d : results_kept sub d d.
Proof. by intros k r j. Qed.
Lemma nothing_added {X} (Q : X → Prop) l : ∃ l', l = l ++ l' ∧ Forall Q l'.
Proof. exists []. by rewrite app_nil_r. Qed.
Lemma one_added {X} (Q : X → Prop) l x : Q x → ∃ l', l ++ [x] = l ++ l' ∧ Forall Q l'.
Proof. intros Hx. exists [x]. split; [done|]. by apply Forall_singleton. Qed.
(** The fields a step leaves alone. *)
Ltac same_fields := first [done | apply kept_refl | apply results_refl | apply nothing_added].
Lemma kept_trans `{Owned X} (T : table X) sub d1 d2 d3 :
  kept T sub d1 d2 → kept T sub d2 d3 → kept T sub d1 d3.
Proof. intros H1 H2 k r Hr. by rewrite (H1 k r Hr), (H2 k r Hr). Qed.
#[export] Instance others_kept_preorder sub : PreOrder (others_kept sub).
Proof.
  split.
  - intros w. constructor; same_fields.
  - intros w1 w2 w3 [] []. constructor; try (eapply kept_trans; eassumption); try congruence.
    + intros k r j Hj Hne. rewrite (ok_results0 k r j Hj Hne). apply (ok_results1 k r j); [|done].
      apply (ok_jobs0 (r_jobId r) j); [|done]. cbn. unfold mine, own_jobs, seq_b. by apply bool_decide_eq_false_2.
    + destruct ok_audit0 as (l1 & E1 & F1), ok_audit1 as (l2 & E2 & F2). exists (l1 ++ l2).
      rewrite E2, E1, app_assoc. split; [done|]. by apply Forall_app.
    + intros k Hk. by rewrite ok_redis1, ok_redis0.
    + destruct ok_searches0 as (l1 & E1 & F1), ok_searches1 as (l2 & E2 & F2). exists (l1 ++ l2).
      rewrite E2, E1, app_assoc. split; [done|]. by apply Forall_app.
Qed.

(** ** Writing one's own rows *)
(** New contents of a table with the same rows of others. *)
Class KeptTable `{Owned X} (T : table X) :=
  put_kept : ∀ sub m w,
    (∀ k r, mine sub r = false → t_get T (w_db w) !! k = Some r ↔ m !! k = Some r) →
    others_kept sub w (put_rows T m w).
Ltac kept_table :=
  intros sub m w Hm; constructor; first [exact Hm | same_fields].
#[export] Instance kt_users : KeptTable T_users.
Proof. kept_table. Qed.
#[export] Instance kt_devices : KeptTable T_devices.
Proof. kept_table. Qed.
#[export] Instance kt_sessions : KeptTable T_sessions.
Proof. kept_table. Qed.
#[export] Instance kt_invites : KeptTable T_invites.
Proof. kept_table. Qed.
#[export] Instance kt_subscriptions : KeptTable T_subscriptions.
Proof. kept_table. Qed.
#[export] Instance kt_lfSubscriptions : KeptTable T_leadFinderSubscriptions.
Proof. kept_table. Qed.
#[export] Instance kt_leads : KeptTable T_leads.
Proof. kept_table. Qed.
#[export] Instance kt_jobs : KeptTable T_leadSearchJobs.
Proof. kept_table. Qed.

(** The row stored under [k], if any, belongs to the account. *)
Definition mine_at `{Owned X} (T : table X) (sub k : string) (w : world) : Prop :=
  ∀ r, t_get T (w_db w) !! k = Some r → mine sub r = true.

(** [P] is a fact about the account's own rows, which its requests cannot
    falsify; under it the account's operations keep the rows of others. *)
Class Stable (sub : string) (P : world → Prop) := stable : ∀ w w', P w → others_kept sub w w' → P w'.
Definition under (P : world → Prop) (sub : string) (w w' : world) : Prop := P w → others_kept sub w w'.
#[export] Instance under_preorder P sub `{!Stable sub P} : PreOrder (under P sub).
Proof.
  split; [by intros w _|]. intros w1 w2 w3 H12 H23 Hp. specialize (H12 Hp).
  etrans; [exact H12|]. apply H23. by eapply stable.
Qed.
Lemma mine_at_stable `{Owned X} (T : table X) sub k :
  (∀ w w', others_kept sub w w' → kept T sub (w_db w) (w_db w')) → Stable sub (mine_at T sub k).
Proof.
  intros HT w w' Hm Ho r Hr. destruct (mine sub r) eqn:E; [done|].
  apply (HT w w' Ho k r E) in Hr. specialize (Hm r Hr). congruence.
Qed.
#[export] Instance stable_users sub k : Stable sub (mine_at T_users sub k).
Proof. refine (mine_at_stable _ _ _ _); intros w w' []; assumption. Qed.
#[export] Instance stable_devices sub k : Stable sub (mine_at T_devices sub k).
Proof. refine (mine_at_stable _ _ _ _); intros w w' []; assumption. Qed.
#[export] Instance stable_subscriptions sub k : Stable sub (mine_at T_subscriptions sub k).
Proof. refine (mine_at_stable _ _ _ _); intros w w' []; assumption. Qed.
#[export] Instance stable_lfSubscriptions sub k : Stable sub (mine_at T_leadFinderSubscriptions sub k).
Proof. refine (mine_at_stable _ _ _ _); intros w w' []; assumption. Qed.
#[export] Instance stable_jobs sub k : Stable sub (mine_at T_leadSearchJobs sub k).
Proof. refine (mine_at_stable _ _ _ _); intros w w' []; assumption. Qed.
(** The sessions on a device are of its owner. *)
Definition device_mine (sub id : string) (w : world) : Prop :=
  ∀ k s, db_sessions (w_db w) !! k = Some s → s_deviceId s = Some id → s_userId s = sub.
#[export] Instance stable_device_mine sub id : Stable sub (device_mine sub id).
Proof.
  intros w w' Hd [] k s Hs Hid. destruct (decide (s_userId s = sub)) as [|Hne]; [done|].
  apply (ok_sessions0 k s) in Hs; [by apply (Hd k)|]. unfold mine, own_sessions, seq_b. by apply bool_decide_eq_false_2.
Qed.
#[export] Instance stable_and sub P Q `{!Stable sub P, !Stable sub Q} : Stable sub (λ w, P w ∧ Q w).
Proof. intros w w' [] Ho. split; by eapply stable. Qed.

Section writes.
Context (sub : string) (P : world → Prop) `{!Stable sub P}.
Context `{Owned X} (T : table X) `{!KeptTable T}.
Implicit Types (f : X → X).
Lemma insert_kept k x w :
  mine sub x = true → mine_at T sub k w → others_kept sub w (put_rows T (<[k := x]> (t_get T (w_db w))) w).
Proof.
  intros Hx Hk. apply put_kept. intros j r Hr. destruct (decide (j = k)) as [->|].
  - rewrite lookup_insert_eq. split; [|congruence]. intros Hj. specialize (Hk r Hj). congruence.
  - by rewrite lookup_insert_ne.
Qed.
Lemma create_kept k x : mine sub x = true → respects (under P sub) (db_create T k x).
Proof.
  intros Hx w _. destruct (db_create T k x w) as [[r|e] w'] eqn:E; [|by apply db_create_err in E as ->].
  apply db_create_inv in E as (_ & Hk & _ & _ & ->). apply insert_kept; [done|].
  intros r' Hr. congruence.
Qed.
Definition keeps_mine f : Prop := ∀ r, mine sub r = true → mine sub (f r) = true.
Lemma update_kept k f :
  (∀ w, P w → mine_at T sub k w) → keeps_mine f → respects (under P sub) (db_update T k f).
Proof.
  intros Hk Hf w Hw. destruct (db_update T k f w) as [[r|e] w'] eqn:E; [|by apply db_update_err in E as [-> _]].
  apply db_update_inv in E as (x & Hx & _ & ->). apply insert_kept; [|by apply Hk].
  apply Hf. by apply (Hk w Hw).
Qed.
Lemma update_indexed_kept k f :
  (∀ w, P w → mine_at T sub k w) → keeps_mine f → respects (under P sub) (db_update_indexed T k f).
Proof.
  intros Hk Hf w Hw. destruct (db_update_indexed T k f w) as [[r|e] w'] eqn:E; [|by apply db_update_indexed_err in E as ->].
  apply db_update_indexed_inv in E as (x & Hx & _ & _ & ->). apply insert_kept; [|by apply Hk].
  apply Hf. by apply (Hk w Hw).
Qed.
Lemma rows_kept Q f w :
  (∀ k r, t_get T (w_db w) !! k = Some r → Q r = true → mine sub r = true) →
  keeps_mine f → others_kept sub w (put_rows T (update_where Q f (t_get T (w_db w))) w).
Proof.
  intros HQ Hf. apply put_kept. intros k r Hr. rewrite lookup_update_where.
  destruct (t_get T (w_db w) !! k) as [x|] eqn:Hx; [|done]. cbn. destruct (Q x) eqn:E; [|done].
  specialize (HQ k x Hx E). split; intros [= <-]; [congruence|]. specialize (Hf x HQ). congruence.
Qed.
Lemma update_many_kept Q f :
  (∀ w k r, P w → t_get T (w_db w) !! k = Some r → Q r = true → mine sub r = true) → keeps_mine f →
  respects (under P sub) (db_update_many T Q f).
Proof. intros HQ Hf w Hw. cbn. apply rows_kept; [|done]. intros k r. by apply HQ. Qed.
Lemma update_many_indexed_kept Q f :
  (∀ w k r, P w → t_get T (w_db w) !! k = Some r → Q r = true → mine sub r = true) → keeps_mine f →
  respects (under P sub) (db_update_many_indexed T Q f).
Proof.
  intros HQ Hf w Hw. unfold db_update_many_indexed. cbv zeta. destruct (any_conflict _ _ _); cbn; [done|].
  apply rows_kept; [|done]. intros k r. by apply HQ.
Qed.
Lemma delete_kept k : (∀ w, P w → mine_at T sub k w) → respects (under P sub) (db_delete T k).
Proof.
  intros Hk w Hw. unfold db_delete. cbv zeta. destruct (t_get T (w_db w) !! k) as [x|] eqn:Hx; cbn; [|done].
  apply put_kept. intros j r Hr. destruct (decide (j = k)) as [->|].
  - rewrite lookup_delete_eq. split; [|done]. intros Hj. specialize (Hk w Hw r Hj). congruence.
  - by rewrite lookup_delete_ne.
Qed.
End writes.

Section frame.
Context (sub : string) (P : world → Prop) `{!Stable sub P}.
Lemma under_same w w' :
  w_db w' = w_db w → w_redis w' = w_redis w → w_apolloQueue w' = w_apolloQueue w → under P sub w w'.
Proof.
  intros E1 E2 E3 _. constructor; rewrite ?E1, ?E2, ?E3; same_fields.
Qed.
Lemma under_rollback w w' : under P sub w w' → under P sub w (put_db (w_db w) w').
Proof.
  intros Hu Hp. destruct (Hu Hp). constructor; first [assumption | same_fields].
Qed.
Lemma record_kept e : Audit.ae_actorUserId e = Some sub → respects (under P sub) (Audit.record e).
Proof.
  intros He w _. unfold Audit.record. case_match; cbn; [|reflexivity].
  constructor; first [same_fields | by apply one_added].
Qed.
Lemma search_kept j : aj_userId j = sub →
  respects (under P sub) (queue_push (λ w, put_apolloQueue (w_apolloQueue w ++ [j]) w)).
Proof.
  intros Hj w _. unfold queue_push. destruct (w_redis_up w); cbn; [|reflexivity].
  constructor; first [same_fields | by apply one_added].
Qed.
Lemma revoke_kept v ttl : respects (under P sub) (redis_set_ex (Revocation.user_key sub) v ttl).
Proof.
  intros w _. unfold redis_set_ex, redis_guard, modify. destruct (w_redis_up w); cbn; [|reflexivity].
  constructor; try same_fields. intros k Hk. cbn. by rewrite lookup_insert_ne.
Qed.
End frame.

(** ** The operations of a signed-in account *)
Section operations.
Context {cfg : config} `{Entropy, Argon2, Jwt, Totp, Aead, UAParser, GeoipLite, StripeApi, StripeSignature}.
Context `{ApolloApi, ClaudeApi, LocalTime, Collation, CsvStringify, IsEmail, IsUrl, IsUUID, Resend}.
Context (sub : string).
#[local] Hint Resolve under_rollback : presh.
#[local] Hint Extern 1 (under _ _ _ _) => apply under_same; reflexivity : presh.
#[local] Hint Extern 1 (respects (under _ _) (Audit.record _)) => apply record_kept; [apply _..|by cbn] : steph.
#[local] Hint Extern 1 (respects (under _ _) (queue_push (λ w, put_apolloQueue _ w))) => apply search_kept; [apply _..|by cbn] : steph.
#[local] Hint Extern 1 (respects (under _ _) (redis_set_ex _ _ _)) => apply revoke_kept; apply _ : steph.
Ltac is_mine :=
  unfold keeps_mine, mine; intros; autounfold with ownership in *; unfold seq_b in *; cbn in *; unbool;
  apply bool_decide_eq_true_2; congruence.
Ltac fact := intros ? ?; cbn beta in *; tauto.
#[local] Hint Extern 1 (respects (under _ _) (db_create _ _ _)) => refine (create_kept _ _ _ _ _ _); is_mine : steph.
#[local] Hint Extern 1 (respects (under _ _) (db_update _ _ _)) => refine (update_kept _ _ _ _ _ _ _); [fact|is_mine] : steph.
#[local] Hint Extern 1 (respects (under _ _) (db_update_indexed _ _ _)) =>
  refine (update_indexed_kept _ _ _ _ _ _ _); [fact|is_mine] : steph.
#[local] Hint Extern 1 (respects (under _ _) (db_update_many _ _ _)) =>
  refine (update_many_kept _ _ _ _ _ _ _); is_mine : steph.
#[local] Hint Extern 1 (respects (under _ _) (db_update_many_indexed _ _ _)) =>
  refine (update_many_indexed_kept _ _ _ _ _ _ _); is_mine : steph.

(** The account's row, if there is one, is under its id. *)
Abbreviation me_at := (mine_at T_users sub).
Lemma me_kept w : sound (w_db w) → me_at sub w.
Proof. intros [] u Hu. destruct so_users0 as (Hk & _). unfold mine, own_users, seq_b. apply bool_decide_eq_true_2. by apply Hk. Qed.
Lemma run_kept {A} P (m : M A) w : respects (under P sub) m → P w → others_kept sub w (m w).2.
Proof. intros Hm Hp. by apply Hm. Qed.

(** A handler of routes that need no more than the account's own id. *)
Definition plain (r : Api.route) : bool :=
  match r with
  | Api.AuthRoute r =>
      match r with
      | AuthRoutes.LogoutAll | AuthRoutes.Start2fa | AuthRoutes.Confirm2fa _ | AuthRoutes.Disable2fa _
      | AuthRoutes.ListDevices | AuthRoutes.ListSessions | AuthRoutes.ExportData => true
      | _ => false
      end
  | Api.UsersRoute _ | Api.InvitesRoute _ => true
  | Api.LeadsRoute r =>
      match r with
      | LeadsController.CancelSearchJob _ | LeadsController.GetMoreLeads _ _
      | LeadsController.UpdateResultReviewStatus _ _ _ => false
      | _ => true
      end
  | Api.PublicLeadsRoute r =>
      match r with PublicLeadsController.SubmitSelf _ _ _ _ _ _ _ _ _ | PublicLeadsController.GetEventOptions => true | _ => false end
  | Api.SubscriptionsRoute r =>
      match r with SubscriptionsController.CreatePortal | SubscriptionsController.Status => true | _ => false end
  | Api.LeadFinderRoute LeadFinderBillingController.Status => true
  | _ => false
  end.
Lemma me_some {A} p (f : string → M A) : pr_sub p = sub → me (Some p) f = liftC (f sub).
Proof. by intros <-. Qed.
Lemma logoutAll_some p :
  pr_sub p = sub → (q <-- liftC (current (Some p));; AuthController.logoutAll (pr_sub q)) = AuthController.logoutAll sub.
Proof. by intros <-. Qed.
Lemma plain_kept key req p r :
  pr_sub p = sub → plain r = true → respectsC (under (me_at sub) sub) (Api.handle key req (Some p) r).
Proof.
  intros Hp Hr. route_cases r; try discriminate Hr; open_handler;
    rewrite ?(me_some p), ?(logoutAll_some p) by exact Hp;
    autounfold with svc loud; frame_op.
Qed.

(** *** Handlers that look a row up first *)
Lemma found_at `{Owned X} (T : table X) id `{!SoundTable T id} w k r :
  sound (w_db w) → t_get T (w_db w) !! k = Some r → mine sub r = true → mine_at T sub (id r) w.
Proof.
  intros Hs Hk Hm. destruct (st_intact (T := T) _ Hs) as (Hkey & _). rewrite (Hkey k r Hk).
  intros r' Hr. congruence.
Qed.
Lemma my_id w u : sound (w_db w) → db_users (w_db w) !! sub = Some u → u_id u = sub.
Proof. intros [] Hu. destruct so_users0 as (Hk & _). by apply Hk. Qed.
Lemma live_mine w s : Access.live_of sub s = true → (∃ k, db_subscriptions (w_db w) !! k = Some s) →
  sound (w_db w) → mine_at T_subscriptions sub (sub_id s) w.
Proof.
  intros Hl [k Hk] Hs. apply (found_at T_subscriptions sub_id w k); [done|done|].
  unfold Access.live_of in Hl. is_mine.
Qed.
(** The next read of an operation, done. *)
Ltac read_first :=
  unfold db_find, db_find_by, db_find_latest, db_find_many, date_now, gets; rewrite run_bind;
  cbn [t_get T_users T_subscriptions T_leadFinderSubscriptions T_plans T_creditPacks T_leadFinderTiers
       T_leadSearchJobs T_leadSearchResults T_devices].
Lemma cancel_kept w : sound (w_db w) → others_kept sub w (Subscriptions.cancel sub w).2.
Proof.
  intros Hs. unfold Subscriptions.cancel. read_first.
  destruct (find_latest _ _ _) as [s|] eqn:Hf; [|reflexivity].
  apply find_latest_Some in Hf as (Hl & Hk & _). pose proof (live_mine w s Hl Hk Hs) as Hm.
  apply (run_kept (λ w, me_at sub w ∧ mine_at T_subscriptions sub (sub_id s) w)); [frame_op|].
  split; [by apply me_kept|exact Hm].
Qed.
Lemma resume_kept w : sound (w_db w) → others_kept sub w (Subscriptions.resume sub w).2.
Proof.
  intros Hs. unfold Subscriptions.resume. read_first.
  destruct (find_latest _ _ _) as [s|] eqn:Hf; [|reflexivity].
  apply find_latest_Some in Hf as ([Hl _]%andb_true_iff & Hk & _). pose proof (live_mine w s Hl Hk Hs) as Hm.
  apply (run_kept (λ w, me_at sub w ∧ mine_at T_subscriptions sub (sub_id s) w)); [frame_op|].
  split; [by apply me_kept|exact Hm].
Qed.
Lemma checkout_kept planSlug w : sound (w_db w) → others_kept sub w (Subscriptions.createCheckoutSession sub planSlug w).2.
Proof.
  intros Hs. unfold Subscriptions.createCheckoutSession, Users.findById. read_first.
  destruct (db_users (w_db w) !! sub) as [u|] eqn:Hu; [|reflexivity]. apply my_id in Hu; [|done].
  read_first. destruct (find_row _ _) as [pl|]; [|reflexivity]. destruct (negb _); [reflexivity|].
  read_first. read_first. destruct (find_latest _ _ _) as [s|] eqn:Hf.
  - apply find_latest_Some in Hf as (Hl & Hk & _). pose proof (live_mine w s Hl Hk Hs) as Hm.
    apply (run_kept (λ w, me_at sub w ∧ mine_at T_subscriptions sub (sub_id s) w));
      [autounfold with svc; frame_op|split; [by apply me_kept|exact Hm]].
  - apply (run_kept (me_at sub)); [autounfold with svc; frame_op|by apply me_kept].
Qed.
Lemma credits_checkout_kept slug n w :
  sound (w_db w) → others_kept sub w (Subscriptions.createCreditsCheckoutSession sub slug n w).2.
Proof.
  intros Hs. unfold Subscriptions.createCreditsCheckoutSession, Users.findById. read_first.
  destruct (db_users (w_db w) !! sub) as [u|] eqn:Hu; [|reflexivity]. apply my_id in Hu; [|done].
  apply (run_kept (me_at sub)); [autounfold with svc; frame_op|by apply me_kept].
Qed.
Lemma lf_checkout_kept slug w : sound (w_db w) → others_kept sub w (LeadFinderBilling.createCheckoutSession sub slug w).2.
Proof.
  intros Hs. unfold LeadFinderBilling.createCheckoutSession, Users.findById. read_first.
  destruct (db_users (w_db w) !! sub) as [u|] eqn:Hu; [|reflexivity]. apply my_id in Hu; [|done].
  apply (run_kept (me_at sub)); [autounfold with svc; frame_op|by apply me_kept].
Qed.
Lemma lf_cancel_kept w : sound (w_db w) → others_kept sub w (LeadFinderBilling.cancel sub w).2.
Proof.
  intros Hs. unfold LeadFinderBilling.cancel. read_first.
  destruct (find_latest _ _ _) as [s|] eqn:Hf; [|reflexivity].
  apply find_latest_Some in Hf as (Hl & [k Hk] & _).
  assert (mine_at T_leadFinderSubscriptions sub (lfs_id s) w) as Hm.
  { apply (found_at T_leadFinderSubscriptions lfs_id w k); [done|done|]. unfold LeadFinderBilling.live_of in Hl. is_mine. }
  apply (run_kept (λ w, me_at sub w ∧ mine_at T_leadFinderSubscriptions sub (lfs_id s) w)); [frame_op|].
  split; [by apply me_kept|exact Hm].
Qed.
(** A row found under the id a request names. *)
Lemma mine_here `{Owned X} (T : table X) w k r : t_get T (w_db w) !! k = Some r → mine sub r = true → mine_at T sub k w.
Proof. intros Hk Hm r' Hr. congruence. Qed.
Lemma own_job_kept {B} jobId (f : search_job → M B) w :
  (∀ j, respects (under (mine_at T_leadSearchJobs sub jobId) sub) (f j)) →
  others_kept sub w ((j ← Leads.own_job sub jobId; f j) w).2.
Proof.
  intros Hf. unfold Leads.own_job. rewrite run_bind. read_first.
  destruct (db_leadSearchJobs (w_db w) !! jobId) as [j|] eqn:Hj; [|reflexivity].
  destruct (seq_b (j_userId j) sub) eqn:Ho; [|reflexivity]. cbn [mret M_ret].
  apply (run_kept _ (f j) w (Hf j)). by apply (mine_here T_leadSearchJobs w jobId j).
Qed.
Lemma cancelSearch_kept jobId w : others_kept sub w (Leads.cancelSearchJob sub jobId w).2.
Proof. apply own_job_kept. intros j. frame_op. Qed.
Lemma getMore_kept jobId n w : others_kept sub w (Leads.getMoreLeads sub jobId n w).2.
Proof. apply own_job_kept. intros j. frame_op. Qed.
Lemma bind_kept {A B} P `{!Stable sub P} (m : M A) (f : A → M B) w :
  P w → others_kept sub w (m w).2 → (∀ a, respects (under P sub) (f a)) → others_kept sub w ((m ≫= f) w).2.
Proof.
  intros Hp Hm Hf. rewrite run_bind. destruct (m w) as [[a|e] w1]; [|exact Hm]. cbn in Hm.
  etrans; [exact Hm|]. apply Hf. by eapply stable.
Qed.
Lemma review_kept jobId resultId st w :
  others_kept sub w (Leads.updateResultReviewStatus sub jobId resultId st w).2.
Proof.
  unfold Leads.updateResultReviewStatus, Leads.own_job. rewrite run_bind. read_first.
  destruct (db_leadSearchJobs (w_db w) !! jobId) as [j|] eqn:Hj; [|reflexivity].
  destruct (seq_b (j_userId j) sub) eqn:Ho; [|reflexivity]. cbn [mret M_ret]. read_first.
  destruct (db_leadSearchResults (w_db w) !! resultId) as [r|] eqn:Hr; [|reflexivity].
  destruct (Leads.of_job jobId r) eqn:Hof; [|reflexivity]. rewrite (db_update_run _ _ _ _ r) by exact Hr.
  constructor; try same_fields. intros k x j' Hj' Hne. cbn.
  assert (r_jobId r = jobId) as Hjob by (unfold Leads.of_job, seq_b in Hof; by unbool).
  assert (j_userId j = sub) as Hsub by (unfold seq_b in Ho; by unbool).
  destruct (decide (k = resultId)) as [->|]; [|by rewrite lookup_insert_ne]. rewrite lookup_insert_eq, Hr.
  split; intros [= <-]; cbn in Hj'; congruence.
Qed.
Lemma trustDevice_kept id w : sound (w_db w) → others_kept sub w (Auth.trustDevice sub id w).2.
Proof.
  intros Hs. apply (bind_kept (me_at sub)); [by apply me_kept| |intros d; frame_op].
  unfold Devices.trust. read_first.
  destruct (db_devices (w_db w) !! id) as [d|] eqn:Hd; [|reflexivity].
  destruct (Devices.of_user sub d) eqn:Ho; cbn [negb]; [|reflexivity].
  apply (run_kept (mine_at T_devices sub id)); [frame_op|]. by apply (mine_here T_devices w id d).
Qed.
Lemma on_device_kept id Q f :
  (∀ s, Q s = true → s_deviceId s = Some id) → keeps_mine sub f →
  respects (under (λ w, mine_at T_devices sub id w ∧ device_mine sub id w) sub) (db_update_many T_sessions Q f).
Proof.
  intros HQ Hf. refine (update_many_kept _ _ _ _ _ _ Hf). intros w k s [_ Hd] Hk Hq.
  unfold mine, own_sessions, seq_b. apply bool_decide_eq_true_2. by apply (Hd k s Hk), HQ.
Qed.
Lemma removeDevice_kept id w :
  sound (w_db w) → (∀ k s d, db_sessions (w_db w) !! k = Some s → s_deviceId s = Some id →
    db_devices (w_db w) !! id = Some d → s_userId s = d_userId d) →
  others_kept sub w (Auth.removeDevice sub id w).2.
Proof.
  intros Hs Hpriv. apply (bind_kept (me_at sub)); [by apply me_kept| |intros d; frame_op].
  unfold Devices.remove. read_first.
  destruct (db_devices (w_db w) !! id) as [d|] eqn:Hd; [|reflexivity].
  destruct (Devices.of_user sub d) eqn:Ho; cbn [negb]; [|reflexivity].
  assert (d_userId d = sub) as Hsub by (unfold Devices.of_user, seq_b in Ho; by unbool).
  apply (run_kept (λ w, mine_at T_devices sub id w ∧ device_mine sub id w)).
  - unfold Devices.delete_device.
    frame_op; first [refine (on_device_kept id _ _ _ _); [intros s' Hq; by unbool|is_mine] | refine (delete_kept _ _ _ _ _); fact].
  - split; [by apply (mine_here T_devices w id d)|]. intros k s Hk Hid. rewrite <- Hsub. by eapply Hpriv.
Qed.
Lemma deleteAccount_kept pw w : sound (w_db w) → others_kept sub w (Auth.deleteAccount sub pw w).2.
Proof.
  intros Hs. unfold Auth.deleteAccount, Users.findById. read_first.
  destruct (db_users (w_db w) !! sub) as [u|] eqn:Hu; [|reflexivity].
  destruct (negb _); [reflexivity|]. read_first. destruct (find_row _ _) as [s|] eqn:Hf.
  - apply find_row_Some in Hf as [Hl Hk]. pose proof (live_mine w s Hl Hk Hs) as Hm.
    apply (run_kept (λ w, me_at sub w ∧ mine_at T_subscriptions sub (sub_id s) w));
      [autounfold with svc; frame_op|split; [by apply me_kept|exact Hm]].
  - apply (run_kept (me_at sub)); [autounfold with svc; frame_op|by apply me_kept].
Qed.

(** No session of another account is on a device of this one. *)
Definition private_devices (d : db) : Prop :=
  ∀ k s id dv, db_sessions d !! k = Some s → s_deviceId s = Some id → db_devices d !! id = Some dv →
    d_userId dv = sub → s_userId s = sub.
Lemma removed_kept id w :
  sound (w_db w) → private_devices (w_db w) → others_kept sub w (Auth.removeDevice sub id w).2.
Proof.
  intros Hs Hp. destruct (db_devices (w_db w) !! id) as [d|] eqn:Hd.
  - destruct (decide (d_userId d = sub)) as [Hsub|Hne].
    + apply removeDevice_kept; [done|]. intros k s d' Hk Hid Hd'.
      assert (d' = d) as -> by congruence. rewrite Hsub. by eapply Hp.
    + unfold Auth.removeDevice, Devices.remove. rewrite run_bind. read_first. rewrite Hd.
      unfold Devices.of_user, seq_b. by rewrite (bool_decide_eq_false_2 _ Hne).
  - unfold Auth.removeDevice, Devices.remove. rewrite run_bind. read_first. by rewrite Hd.
Qed.
Lemma lifted_kept {A} (m : M A) ck w : others_kept sub w (m w).2 → others_kept sub w (liftC m ck w).2.
Proof. unfold liftC. by destruct (m w). Qed.
(** DELETE /auth/me: the operation, then the cookie. *)
Lemma closed_kept p pw ck w :
  pr_sub p = sub → sound (w_db w) →
  others_kept sub w ((q <-- liftC (current (Some p));; AuthController.deleteAccount (pr_sub q) pw) ck w).2.
Proof.
  intros Hp Hs. pose proof (deleteAccount_kept pw w Hs) as Hk.
  unfold AuthController.deleteAccount, bindC, liftC. cbn. rewrite Hp.
  by destruct (Auth.deleteAccount sub pw w) as [[a|e] w'].
Qed.
Definition signed_in (r : Api.route) : bool :=
  match Api.audience_of r with SignedIn | DirectoryHolders => true | _ => false end.
Lemma handle_kept key req p r w :
  pr_sub p = sub → signed_in r = true → sound (w_db w) → private_devices (w_db w) →
  others_kept sub w (Api.handle key req (Some p) r [] w).2.
Proof.
  intros Hp Hr Hs Hd. destruct (plain r) eqn:Hpl.
  { by apply (plain_kept key req p r Hp Hpl), me_kept. }
  route_cases r; try discriminate Hr; try discriminate Hpl; open_handler;
    first [by apply closed_kept | rewrite (me_some p) by exact Hp; apply lifted_kept].
  - by apply trustDevice_kept.
  - by apply removed_kept.
  - by apply cancelSearch_kept.
  - by apply getMore_kept.
  - by apply review_kept.
  - by apply checkout_kept.
  - by apply cancel_kept.
  - by apply resume_kept.
  - by apply credits_checkout_kept.
  - by apply lf_checkout_kept.
  - by apply lf_cancel_kept.
Qed.

Lemma paired_private d : paired d → private_devices d.
Proof.
  intros [_ _ Hs] k s id v Hk Hid Hv Hsub. specialize (Hs k s Hk). unfold at_home in Hs. rewrite Hid in Hs.
  destruct Hs as (v' & Hv' & Heq). congruence.
Qed.

(** C5. Account isolation. In every state the service reaches - from a sound
    database, by any requests, jobs, outages and passing of time - whatever a
    signed-in account asks for (its profile, devices, invitations, searches,
    checkouts, cancellations, its own deletion): the rows of every other account
    stay as they were in all twelve tables that belong to accounts, the tables of
    no account are untouched, every audit entry it causes names it as the actor,
    the only access tokens it revokes are its own, and the only searches it
    queues run on its own credits. *)
Theorem own_data_only key w0 req p r w :
  sound (w_db w0) → paired (w_db w0) → service_run key honest w0 w →
  signed_in r = true → Gate.bearer req w = Some p → pr_sub p = sub →
  others_kept sub w (Api.served key req r w).
Proof.
  intros Hs0 Hp0 Hrun Hr Hb Hp. unfold Api.served.
  assert (sound (w_db w)) as Hs by by eapply stays_sound.
  assert (private_devices (w_db w)) as Hd by by eapply paired_private, stays_paired.
  destruct (Gate.route_admits key req r w p Hb) as [->|[e ->]]; [|unfold Gate.admitted|reflexivity].
  - intros Ha. unfold signed_in in Hr. by rewrite Ha in Hr.
  - destruct (Api.valid r); [by apply handle_kept|reflexivity].
Qed.
End operations.

(** ** Witness: Ann logs in twice from her browser and then removes it *)
Section witness.
#[local] Existing Instance default_config.
#[local] Existing Instances counter_entropy plain_argon2 plain_jwt echo_totp toy_gcm plain_ua empty_geoip counting_stripe no_signature.
#[local] Existing Instances silent_apollo silent_claude length_order joined_csv at_email any_url any_uuid willing_resend.
Definition logs_in : Api.route := Api.AuthRoute (AuthRoutes.Login "ann@example.com" "secret123").
Definition challenged_ann : world := Eval vm_compute in Api.served key0 anonymous logs_in two_accounts.
Definition logged_in_ann : world := Eval vm_compute in Api.served key0 anonymous logs_in challenged_ann.
Definition her_device : string := Eval vm_compute in
  from_option d_id EmptyString (head (values (db_devices (w_db logged_in_ann)))).
Definition removing : Api.route := Api.AuthRoute (AuthRoutes.RemoveDevice her_device).
Definition removed : world := Eval vm_compute in Api.served key0 by_ann removing logged_in_ann.
Lemma login_step w w' : Api.served key0 anonymous logs_in w = w' → service_step key0 honest w w'.
Proof. intros <-. by constructor. Qed.
Lemma ann_logs_in : service_run key0 honest two_accounts logged_in_ann.
Proof.
  apply rtc_l with challenged_ann; [apply login_step; vm_compute; reflexivity|].
  apply rtc_once, login_step. vm_compute. reflexivity.
Qed.
Lemma own_data_only_witness :
  size (db_devices (w_db logged_in_ann)) = 1%nat ∧ size (db_devices (w_db removed)) = 0%nat ∧
  (s_deviceId <$> values (db_sessions (w_db removed))) = [None] ∧ others_kept "ann" logged_in_ann removed.
Proof.
  split_and!; [vm_compute; reflexivity..|].
  assert (Api.served key0 by_ann removing logged_in_ann = removed) as <- by (vm_compute; reflexivity).
  apply (own_data_only "ann" key0 two_accounts by_ann (Principal "ann" "ann@example.com" USER None) removing logged_in_ann).
  - apply soundb_sound. vm_compute. reflexivity.
  - constructor; [apply keyed_check; vm_compute; reflexivity..|].
    intros k s Hk. by destruct (lookup_empty_Some (M := gmap string) k s Hk).
  - exact ann_logs_in.
  - reflexivity.
  - vm_compute. reflexivity.
  - reflexivity.
Defined.
End witness.
End Isolation.
