(* ===== verification/RenewalProps.v ===== *)
(** The renewal scan: one reminder for each row that renews in six to eight
    days and has none yet for this period, and none when the scan runs again. *)
From S2P Require Import Prelude JsLib Crypto Schema Effects Platform Invariants Config Messaging Users Outreach.
Import Renewal.

#[export] Instance subscription_eq_dec : EqDecision subscription.
Proof. solve_decision. Defined.
#[export] Instance lf_subscription_eq_dec : EqDecision lf_subscription.
Proof. solve_decision. Defined.

(** ** A scan of one table

    [marked r]: the row already carries a reminder for its period; [mark]
    makes it so; [op] is the body of the loop, which queues [mail] first. *)
Section scan.
Context {R : Type} `{EqDecision R} (T : table R) (id : R → string).
Context (marked : R → bool) (mark : R → R) (mail : db → R → option email_job) (op : Z → R → M Z).
Hypothesis get_set : ∀ m d, t_get T (t_set T m d) = m.
Hypothesis mail_set : ∀ m d r, mail (t_set T m d) r = mail d r.
Hypothesis mark_id : ∀ r, id (mark r) = id r.
Hypothesis mark_marked : ∀ r, marked r = true → mark r = r.
Hypothesis op_run : ∀ n r w j, t_get T (w_db w) !! id r = Some r → mail (w_db w) r = Some j →
  op n r w = if marked r then (Ok n, w)
             else (Ok (n + 1), put_rows T (<[id r := mark r]> (t_get T (w_db w))) (Email.queued j w)).

Definition queued_all (js : list email_job) (w : world) : world :=
  if w_redis_up w then put_emailQueue (w_emailQueue w ++ js) w else w.
(** The rows that get a reminder. *)
Definition unmarked (l : list R) : list R := filter (λ r, marked r = false) l.
Lemma put_rows_same w : t_set T (t_get T (w_db w)) (w_db w) = w_db w → put_rows T (t_get T (w_db w)) w = w.
Proof. intros E. unfold put_rows. rewrite E. by destruct w. Qed.

Context (set_get : ∀ d, t_set T (t_get T d) d = d) (set_set : ∀ m m' d, t_set T m' (t_set T m d) = t_set T m' d).
Lemma scan_run l : ∀ n w,
  keyed id (t_get T (w_db w)) → NoDup (id <$> l) → (∀ r, r ∈ l → t_get T (w_db w) !! id r = Some r) →
  (∀ r, r ∈ l → is_Some (mail (w_db w) r)) →
  fold_each l op n w =
    (Ok (n + Z.of_nat (length (unmarked l))),
     put_rows T (rewrite_rows mark l (t_get T (w_db w))) (queued_all (omap (mail (w_db w)) (unmarked l)) w)).
Proof using All.
  induction l as [|r l IH]; intros n w Hk Hnd Hin Hmail.
  { cbn [fold_each unmarked filter list_filter omap list_omap length]. rewrite rewrite_rows_nil.
    unfold queued_all, mret, M_ret. rewrite app_nil_r, Z.add_0_r. f_equal.
    destruct w as [d ? ? up ? ? ? ? ? ? ? ?]. destruct up; unfold put_rows; cbn; by rewrite set_get. }
  assert (t_get T (w_db w) !! id r = Some r) as Hr by (apply Hin; set_solver).
  destruct (Hmail r) as [j Hj]; [set_solver|].
  pose proof (NoDup_cons_1_2 _ _ Hnd) as Hnd'. cbn [fold_each]. rewrite run_bind, (op_run n r w j Hr Hj).
  unfold unmarked. rewrite filter_cons. destruct (marked r) eqn:Hm.
  - rewrite decide_False by done. rewrite IH; [|done|done|set_solver|set_solver].
    rewrite <- (rewrite_rows_cons id mark r l) by (done || apply Hin; set_solver).
    by rewrite (mark_marked r Hm), insert_id.
  - rewrite decide_True by done.
    set (w1 := put_rows T _ _).
    assert (w_db w1 = t_set T (<[id r := mark r]> (t_get T (w_db w))) (w_db w)) as Hd.
    { unfold w1, put_rows, Email.queued. cbn. by destruct (w_redis_up w). }
    assert (∀ x, mail (w_db w1) x = mail (w_db w) x) as Hm1 by (intros x; by rewrite Hd, mail_set).
    assert (t_get T (w_db w1) = <[id r := mark r]> (t_get T (w_db w))) as Ht by by rewrite Hd, get_set.
    rewrite IH; [|rewrite Ht|done| |].
    + rewrite Ht, (rewrite_rows_cons id mark r l) by done. cbn [omap list_omap length]. rewrite Hj.
      assert (omap (mail (w_db w1)) (unmarked l) = omap (mail (w_db w)) (unmarked l)) as ->.
      { apply list_omap_ext, Forall2_same_length_lookup_2; [done|]. intros i x y Hx Hy. rewrite Hx in Hy. injection Hy as <-. apply Hm1. }
      f_equal; [f_equal; unfold unmarked; lia|]. unfold queued_all, w1, Email.queued.
      destruct w as [d ? ? up ? ? ? ? ? ? ? ?]. destruct up; unfold put_rows; cbn; rewrite ?set_set, <- ?app_assoc; done.
    + by apply keyed_insert.
    + intros x Hx. rewrite Ht. rewrite lookup_insert_ne; [apply Hin; set_solver|].
      intros He. cbn in Hnd. apply NoDup_cons in Hnd as [Hnot _]. apply Hnot, list_elem_of_fmap. eauto.
    + intros x Hx. rewrite Hm1. apply Hmail. set_solver.
Qed.
End scan.

(** ** The two tables *)
Definition sub_marked (s : subscription) : bool :=
  bool_decide (sub_renewalReminderSentForPeriodEnd s = Some (sub_currentPeriodEnd s)).
Definition sub_mark (s : subscription) : subscription :=
  set_sub_renewalReminderSentForPeriodEnd (Some (sub_currentPeriodEnd s)) s.
Definition reminder (to label : string) (renewal cents : Z) : email_job :=
  Mk_email_job "renewal-reminder" [("to", JStr to); ("productLabel", JStr label);
    ("renewalDate", JStr (Date.toISOString renewal)); ("amountCents", JNum cents)].
(** The reminder of a row: to its account, about its plan, its date and its
    price. *)
Definition sub_mail (d : db) (s : subscription) : option email_job :=
  u ← db_users d !! sub_userId s; p ← db_plans d !! sub_planId s;
  Some (reminder (u_email u) (pl_name p) (sub_currentPeriodEnd s) (pl_amountCents p)).
Definition lf_marked (s : lf_subscription) : bool :=
  bool_decide (lfs_renewalReminderSentForPeriodEnd s = Some (lfs_currentPeriodEnd s)).
Definition lf_mark (s : lf_subscription) : lf_subscription :=
  set_lfs_renewalReminderSentForPeriodEnd (Some (lfs_currentPeriodEnd s)) s.
Definition lf_mail (d : db) (s : lf_subscription) : option email_job :=
  u ← db_users d !! lfs_userId s; t ← db_leadFinderTiers d !! lfs_tierId s;
  Some (reminder (u_email u) ("Lead Finder " +:+ lt_name t) (lfs_currentPeriodEnd s) (lt_amountCents t)).

Lemma remind_run n s w j :
  db_subscriptions (w_db w) !! sub_id s = Some s → sub_mail (w_db w) s = Some j →
  remind n s w = if sub_marked s then (Ok n, w)
    else (Ok (n + 1), put_rows T_subscriptions (<[sub_id s := sub_mark s]> (db_subscriptions (w_db w))) (Email.queued j w)).
Proof.
  intros Hs Hj. unfold remind, sub_marked. case_bool_decide; [done|]. unfold sub_mail in Hj.
  destruct (db_users (w_db w) !! sub_userId s) as [u|] eqn:Hu; [|done].
  destruct (db_plans (w_db w) !! sub_planId s) as [p|] eqn:Hp; [|done]. injection Hj as <-.
  unfold try_catch.
  rewrite (run_bind_ok _ _ w (Some u) w) by (unfold db_find, gets; cbn; by rewrite Hu).
  rewrite (run_bind_ok _ _ w u w) by done.
  rewrite (run_bind_ok _ _ w (Some p) w) by (unfold db_find, gets; cbn; by rewrite Hp).
  rewrite (run_bind_ok _ _ w p w) by done.
  unfold Email.sendRenewalReminder. rewrite run_bind, Email.enqueue_run, run_bind.
  erewrite db_update_run; [|cbn; unfold Email.queued; destruct (w_redis_up w); exact Hs].
  cbn [mret M_ret]. unfold put_rows, Email.queued. by destruct (w_redis_up w).
Qed.
Lemma lf_remind_run n s w j :
  db_leadFinderSubscriptions (w_db w) !! lfs_id s = Some s → lf_mail (w_db w) s = Some j →
  lf_remind n s w = if lf_marked s then (Ok n, w)
    else (Ok (n + 1), put_rows T_leadFinderSubscriptions
            (<[lfs_id s := lf_mark s]> (db_leadFinderSubscriptions (w_db w))) (Email.queued j w)).
Proof.
  intros Hs Hj. unfold lf_remind, lf_marked. case_bool_decide; [done|]. unfold lf_mail in Hj.
  destruct (db_users (w_db w) !! lfs_userId s) as [u|] eqn:Hu; [|done].
  destruct (db_leadFinderTiers (w_db w) !! lfs_tierId s) as [p|] eqn:Hp; [|done]. injection Hj as <-.
  unfold try_catch.
  rewrite (run_bind_ok _ _ w (Some u) w) by (unfold db_find, gets; cbn; by rewrite Hu).
  rewrite (run_bind_ok _ _ w u w) by done.
  rewrite (run_bind_ok _ _ w (Some p) w) by (unfold db_find, gets; cbn; by rewrite Hp).
  rewrite (run_bind_ok _ _ w p w) by done.
  unfold Email.sendRenewalReminder. rewrite run_bind, Email.enqueue_run, run_bind.
  erewrite db_update_run; [|cbn; unfold Email.queued; destruct (w_redis_up w); exact Hs].
  cbn [mret M_ret]. unfold put_rows, Email.queued. by destruct (w_redis_up w).
Qed.

(** ** The scan *)
Definition subs (w : world) : gmap string subscription := db_subscriptions (w_db w).
Definition lf_subs (w : world) : gmap string lf_subscription := db_leadFinderSubscriptions (w_db w).
Definition to_remind (w : world) : list subscription :=
  unmarked sub_marked (find_many (due (w_now w)) (subs w)).
Definition lf_to_remind (w : world) : list lf_subscription :=
  unmarked lf_marked (find_many (lf_due (w_now w)) (lf_subs w)).
(** Rows under their ids, and their accounts, plans and tiers exist. *)
Definition scan_ok (w : world) : Prop :=
  keyed sub_id (subs w) ∧ keyed lfs_id (lf_subs w) ∧
  (∀ k s, subs w !! k = Some s → is_Some (sub_mail (w_db w) s)) ∧
  (∀ k s, lf_subs w !! k = Some s → is_Some (lf_mail (w_db w) s)).
(** The world after a scan. *)
Definition scanned (w : world) : world :=
  put_rows T_leadFinderSubscriptions (update_where (lf_due (w_now w)) lf_mark (lf_subs w))
    (put_rows T_subscriptions (update_where (due (w_now w)) sub_mark (subs w))
       (queued_all (omap (sub_mail (w_db w)) (to_remind w) ++ omap (lf_mail (w_db w)) (lf_to_remind w)) w)).

Lemma found_ids {R} (id : R → string) P (m : gmap string R) :
  keyed id m → ∀ r, r ∈ find_many P m → m !! id r = Some r.
Proof. intros Hk r [_ [k Hr]]%elem_of_find_many. by rewrite (Hk k r Hr). Qed.
Lemma queued_all_app a b w : queued_all b (queued_all a w) = queued_all (a ++ b) w.
Proof.
  unfold queued_all. destruct w as [d ? ? up ? ? ? ? ? ? ? ?]. destruct up; cbn; [|done]. by rewrite app_assoc.
Qed.
Lemma sub_mark_marked s : sub_marked s = true → sub_mark s = s.
Proof. unfold sub_marked, sub_mark. intros H. unbool. destruct s; cbn in *. by subst. Qed.
Lemma lf_mark_marked s : lf_marked s = true → lf_mark s = s.
Proof. unfold lf_marked, lf_mark. intros H. unbool. destruct s; cbn in *. by subst. Qed.
Lemma directory_scan w n :
  keyed sub_id (subs w) → (∀ k s, subs w !! k = Some s → is_Some (sub_mail (w_db w) s)) →
  fold_each (find_many (due (w_now w)) (subs w)) remind n w =
    (Ok (n + Z.of_nat (length (to_remind w))),
     put_rows T_subscriptions (update_where (due (w_now w)) sub_mark (subs w))
       (queued_all (omap (sub_mail (w_db w)) (to_remind w)) w)).
Proof.
  intros Hk Hm. rewrite <- rewrite_rows_query.
  apply (scan_run T_subscriptions sub_id sub_marked sub_mark sub_mail remind); try done.
  - apply sub_mark_marked.
  - intros n' r w' j. apply remind_run.
  - by intros [].
  - by apply NoDup_ids.
  - by apply found_ids.
  - intros s [_ [k Hs]]%elem_of_find_many. by eapply Hm.
Qed.
Lemma lead_finder_scan w n :
  keyed lfs_id (lf_subs w) → (∀ k s, lf_subs w !! k = Some s → is_Some (lf_mail (w_db w) s)) →
  fold_each (find_many (lf_due (w_now w)) (lf_subs w)) lf_remind n w =
    (Ok (n + Z.of_nat (length (lf_to_remind w))),
     put_rows T_leadFinderSubscriptions (update_where (lf_due (w_now w)) lf_mark (lf_subs w))
       (queued_all (omap (lf_mail (w_db w)) (lf_to_remind w)) w)).
Proof.
  intros Hk Hm. rewrite <- rewrite_rows_query.
  apply (scan_run T_leadFinderSubscriptions lfs_id lf_marked lf_mark lf_mail lf_remind); try done.
  - apply lf_mark_marked.
  - intros n' r w' j. apply lf_remind_run.
  - by intros [].
  - by apply NoDup_ids.
  - by apply found_ids.
  - intros s [_ [k Hs]]%elem_of_find_many. by eapply Hm.
Qed.
Lemma queued_all_nil w : queued_all [] w = w.
Proof. unfold queued_all. rewrite app_nil_r. destruct w as [d ? ? up ? ? ? ? ? ? ? ?]. by destruct up. Qed.
Lemma queued_all_rows {R} (T : table R) js m w : queued_all js (put_rows T m w) = put_rows T m (queued_all js w).
Proof. unfold queued_all, put_rows. cbn. by destruct (w_redis_up w). Qed.
Lemma scan_result w : scan_ok w →
  sendDueReminders w = (Ok (Z.of_nat (length (to_remind w)) + Z.of_nat (length (lf_to_remind w))), scanned w).
Proof.
  intros (Hk & Hlk & Hm & Hlm). unfold sendDueReminders.
  rewrite (run_bind_ok _ _ w (w_now w) w) by done.
  rewrite (run_bind_ok _ _ w (find_many (due (w_now w)) (subs w)) w) by done.
  rewrite run_bind, directory_scan, Z.add_0_l by done.
  set (w1 := put_rows T_subscriptions _ _).
  assert (lf_subs w1 = lf_subs w ∧ w_now w1 = w_now w ∧ ∀ s, lf_mail (w_db w1) s = lf_mail (w_db w) s)
    as (Hl & Hn & Hml) by (unfold w1, put_rows, queued_all; by destruct (w_redis_up w)).
  rewrite (run_bind_ok _ _ w1 (find_many (lf_due (w_now w1)) (lf_subs w1)) w1) by (by rewrite Hn).
  rewrite lead_finder_scan; [|by rewrite Hl|by intros k s; rewrite Hl, Hml; apply Hlm].
  unfold lf_to_remind. rewrite Hl, Hn. f_equal. unfold scanned.
  fold (lf_to_remind w). rewrite (list_omap_ext (lf_mail (w_db w1)) (lf_mail (w_db w)) (lf_to_remind w) (lf_to_remind w)).
  - rewrite <- queued_all_app. unfold w1. by rewrite (queued_all_rows T_subscriptions).
  - apply Forall2_same_length_lookup_2; [done|]. intros i x y Hx Hy. rewrite Hx in Hy. injection Hy as <-. apply Hml.
Qed.
Lemma omap_length {A B} (f : A → option B) l : (∀ x, x ∈ l → is_Some (f x)) → length (omap f l) = length l.
Proof.
  induction l as [|x l IH]; intros Hf; [done|]. destruct (Hf x) as [y Hy]; [set_solver|].
  cbn. rewrite Hy. cbn. f_equal. apply IH. set_solver.
Qed.
(** What a scan leaves to do: nothing. *)
Lemma none_left {R} (marked P : R → bool) (mark : R → R) (m : gmap string R) :
  (∀ r, marked (mark r) = true) → (∀ r, P (mark r) = P r) → unmarked marked (find_many P (update_where P mark m)) = [].
Proof.
  intros Hmm HP. apply elem_of_nil_inv. intros r Hr. apply list_elem_of_filter in Hr as [Hm Hr].
  apply elem_of_find_many in Hr as [HPr [k Hk]].
  destruct (lookup_update_where_Some _ _ _ _ _ Hk) as (r0 & _ & ->).
  destruct (P r0) eqn:E; [by rewrite Hmm in Hm|congruence].
Qed.
Lemma update_again {R} (P : R → bool) (mark : R → R) (m : gmap string R) :
  (∀ r, P (mark r) = P r) → (∀ r, mark (mark r) = mark r) → update_where P mark (update_where P mark m) = update_where P mark m.
Proof.
  intros HP Hm. apply map_eq. intros k. rewrite !lookup_update_where. destruct (m !! k) as [r|]; [|done]. cbn. f_equal.
  destruct (P r) eqn:E; [by rewrite HP, E, Hm|by rewrite E].
Qed.


(** ** Witness: one subscription renews in a week, another was reminded *)
Definition plan6 : plan := Mk_plan "p1" "Directory" "directory" "price_1" SIX_MONTHS 5000 "usd" true.
Definition renewing (id user : string) (sent : option Z) : subscription :=
  Mk_subscription id user "p1" ("cus_" +:+ user) ("sub_" +:+ id) ACTIVE 0 (7 * Date.day) false None None sent 0.
Definition two_renewals : world :=
  put_db (set_db_subscriptions {[ "s1" := renewing "s1" "ann" None; "s2" := renewing "s2" "bob" (Some (7 * Date.day)) ]}
    (set_db_plans {[ "p1" := plan6 ]}
      (set_db_users {[ "ann" := Users.new_user "ann" "ann@example.com" "Ann" "h" None USER false false 0;
                       "bob" := Users.new_user "bob" "bob@example.com" "Bob" "h" None USER false false 0 ]} empty_db)))
    (initial_world 0).
