(* ===== verification/Mailroom.v ===== *)
(** The e-mail queue is well typed: whatever the service does, every job it
    queues has a handler and carries the fields the handler reads, so that
    working it off hands exactly one message to Resend. *)
From S2P Require Import Prelude JsLib Crypto Schema Effects Platform Config Messaging Tokens Revocation Users Sessions Access Billing Auth AuthController Instances AuthSessions Guards Subscriptions LeadFinderBilling Webhooks Apollo Taxonomy Leads ApolloSearch Dto MailTemplate MailWorkers Campaign ResendWebhook Outreach Admin AdminController Controllers Api Service Fixtures.

Module Mailroom.
Section mailroom.
Context {cfg : config} `{Entropy, Argon2, Jwt, Totp, Aead, UAParser, GeoipLite, StripeApi, StripeSignature}.
Context `{ApolloApi, ClaudeApi, LocalTime, Collation, CsvStringify, IsEmail, IsUrl, IsUUID, Resend}.

(** Working the job off is one call of [send]. *)
Definition deliverable (j : email_job) : Prop :=
  ∃ to subject body replyTo, ∀ w, EmailWorker.process j w = EmailWorker.send to subject body replyTo w.
Definition bulk_deliverable (j : email_job) : Prop :=
  ∃ to, ∀ w, ∃ subject body, BulkEmail.process j w =
    BulkEmail.send to subject body (SUPPORT_EMAIL cfg) (BulkEmail.unsubscribeLink to) w.
(** Only deliverable jobs are queued. *)
Definition typed_queue (w w' : world) : Prop :=
  (∃ l, w_emailQueue w' = w_emailQueue w ++ l ∧ Forall deliverable l) ∧
  (∃ l, w_bulkQueue w' = w_bulkQueue w ++ l ∧ Forall bulk_deliverable l).
#[local] Instance typed_queue_preorder : PreOrder typed_queue.
Proof.
  split.
  - intros w. split; exists []; by rewrite app_nil_r.
  - intros w1 w2 w3 [(l1 & E1 & F1) (b1 & D1 & G1)] [(l2 & E2 & F2) (b2 & D2 & G2)]. split.
    + exists (l1 ++ l2). rewrite E2, E1, app_assoc. split; [done|by apply Forall_app].
    + exists (b1 ++ b2). rewrite D2, D1, app_assoc. split; [done|by apply Forall_app].
Qed.
Lemma typed_queue_eq w w' :
  w_emailQueue w' = w_emailQueue w → w_bulkQueue w' = w_bulkQueue w → typed_queue w w'.
Proof. intros E1 E2. split; exists []; by rewrite app_nil_r. Qed.
Lemma typed_queue_rollback w w' : typed_queue w w' → typed_queue w (put_db (w_db w) w').
Proof. by intros Ht. Qed.
#[local] Hint Extern 1 (typed_queue _ _) => apply typed_queue_eq; reflexivity : presh.
#[local] Hint Resolve typed_queue_rollback : presh.

Lemma enqueue_typed name data :
  deliverable (Mk_email_job name data) → respects typed_queue (Email.enqueue name data).
Proof.
  intros Hd w. rewrite Email.enqueue_run. cbn. unfold Email.queued.
  destruct (w_redis_up w); [|reflexivity]. split; [|exists []; by rewrite app_nil_r].
  eexists. split; [reflexivity|]. by apply Forall_singleton.
Qed.
Lemma cold_invite_deliverable to : bulk_deliverable (Email.cold_invite to).
Proof. exists to. intros w. eexists _, _. reflexivity. Qed.
Lemma enqueueBulk_typed l : respects typed_queue (Email.enqueueBulk (Email.cold_invite <$> l)).
Proof.
  intros w. rewrite Email.enqueueBulk_run. cbn. unfold Email.bulk_queued.
  destruct (w_redis_up w); [|reflexivity]. split; [exists []; by rewrite app_nil_r|].
  eexists. split; [reflexivity|]. apply Forall_fmap, Forall_true. apply cold_invite_deliverable.
Qed.
(** A job the handlers know, with its fields in place. *)
Ltac deliver := eexists _, _, _, _; intros ?; reflexivity.
Lemma pitch_deliverable to fullName template :
  template ∈ ["INTRO"; "VALUE"; "URGENCY"] →
  deliverable (Mk_email_job ("prospect-pitch-" +:+ Str.toLowerCase template) [("to", JStr to); ("fullName", JStr fullName)]).
Proof.
  intros Ht. repeat (apply elem_of_cons in Ht as [->|Ht]; [deliver|]). by apply elem_of_nil in Ht.
Qed.
#[local] Hint Extern 1 (respects typed_queue (Email.enqueue _ _)) => apply enqueue_typed; deliver : steph.
#[local] Hint Extern 1 (respects typed_queue (Email.enqueueBulk [Email.cold_invite ?to])) =>
  exact (enqueueBulk_typed [to]) : steph.
#[local] Hint Resolve enqueueBulk_typed : steph.

(** *** Every job and every route *)
Lemma job_typed j : respects typed_queue (run_job j).
Proof. destruct j; cbn [run_job]; frame_op. Qed.
Lemma guard_typed a req : respects typed_queue (Api.guard a req).
Proof. destruct a; frame_op. Qed.
Lemma handle_typed key req user r : Api.valid r = true → respectsC typed_queue (Api.handle key req user r).
Proof.
  intros Hr. route_cases r; open_handler;
    autounfold with svc loud; unfold Auth.register, Admin.inviteUser; frame_op.
  apply enqueue_typed, pitch_deliverable. by apply bool_decide_eq_true in Hr.
Qed.

(** C40. No job is lost on a missing handler or field: along any run of the
    service every job added to the e-mail queue is one the worker answers with
    exactly one [send], and every job added to the bulk queue is an invitation
    its worker sends with the unsubscribe link of its addressee. *)
Theorem mail_is_deliverable key w w' :
  service_run key (λ _ _, True) w w' →
  (∃ l, w_emailQueue w' = w_emailQueue w ++ l ∧ Forall deliverable l) ∧
  (∃ l, w_bulkQueue w' = w_bulkQueue w ++ l ∧ Forall bulk_deliverable l).
Proof.
  apply (run_respects typed_queue).
  - apply guard_typed.
  - intros req user r _ _. apply handle_typed.
  - apply job_typed.
  - intros t up w0. by apply typed_queue_eq.
Qed.
End mailroom.

(** ** Witness: Max resets Ann's password and invites Bob *)
Section witness.
#[local] Existing Instance default_config.
#[local] Existing Instances counter_entropy plain_argon2 plain_jwt echo_totp toy_gcm plain_ua empty_geoip counting_stripe no_signature.
#[local] Existing Instances silent_apollo silent_claude length_order joined_csv at_email any_url any_uuid willing_resend.
Definition reset_sent : world :=
  Api.served key0 by_admin (Api.AdminRoute (AdminController.SendPasswordReset "ann")) two_accounts.
Definition bob_invited : world :=
  Api.served key0 by_admin (Api.AdminRoute (AdminController.InviteProspect "bob@example.com")) reset_sent.
Lemma mail_is_deliverable_witness :
  length (w_emailQueue bob_invited) = 1%nat ∧ Forall deliverable (w_emailQueue bob_invited) ∧
  w_bulkQueue bob_invited = [Email.cold_invite "bob@example.com"] ∧ Forall bulk_deliverable (w_bulkQueue bob_invited).
Proof.
  destruct (mail_is_deliverable key0 two_accounts bob_invited) as [(l & El & Hl) (b & Eb & Hb)].
  { eapply rtc_l; [by apply (step_request key0 _ by_admin (Api.AdminRoute (AdminController.SendPasswordReset "ann")))|].
    apply rtc_once. by apply (step_request key0 _ by_admin (Api.AdminRoute (AdminController.InviteProspect "bob@example.com"))). }
  split_and!; [vm_compute; reflexivity|by rewrite El|vm_compute; reflexivity|by rewrite Eb].
Defined.
End witness.
End Mailroom.
