(* ===== verification/Standing.v ===== *)
(** Who is staff: across the whole service - every route, every job, outages -
    roles never change, and a new account is staff only by a pending staff
    invitation, which only a staff request writes. *)
From S2P Require Import Prelude JsLib Crypto Schema Effects Platform Config Messaging Tokens Revocation Users Sessions Access Billing Auth AuthController Instances AuthSessions Guards Subscriptions LeadFinderBilling Webhooks Apollo Taxonomy Leads ApolloSearch Dto MailTemplate MailWorkers Campaign ResendWebhook Outreach Admin AdminController Controllers Api Service Fixtures.
Import Guards.

Module Standing.
(** ** Roles are kept *)
Definition same_role (u u' : user) : Prop := u_role u' = u_role u.
Definition roles_kept (w w' : world) : Prop :=
  (∀ k, option_Forall2 same_role (db_users (w_db w) !! k) (db_users (w_db w') !! k)) ∧
  db_adminAccessInvites (w_db w') = db_adminAccessInvites (w_db w).
#[export] Instance same_role_preorder : PreOrder same_role.
Proof. split; [by intros u|]. unfold same_role. intros u1 u2 u3. congruence. Qed.
#[export] Instance roles_kept_preorder : PreOrder roles_kept.
Proof.
  split.
  - intros w. split; [|done]. intros k. reflexivity.
  - intros w1 w2 w3 (K1&?) (K2&?). split; [|congruence]. intros k. specialize (K1 k). specialize (K2 k). by etrans.
Qed.
Lemma roles_kept_eq w w' :
  db_users (w_db w') = db_users (w_db w) → db_adminAccessInvites (w_db w') = db_adminAccessInvites (w_db w) →
  roles_kept w w'.
Proof. intros E1 E2. split; [|done]. intros k. rewrite E1. reflexivity. Qed.
Lemma quiet_roles w w' : quiet w w' → roles_kept w w'.
Proof.
  intros (Hu & _ & Hi & _). split; [|done]. intros k. destruct (Hu k) as [u u' (_ & ? & _)|]; by constructor.
Qed.
#[local] Hint Extern 1 (roles_kept _ _) => apply roles_kept_eq; reflexivity : presh.
Lemma roles_kept_rollback w w' : roles_kept w w' → roles_kept w (put_db (w_db w) w').
Proof. intros _. by apply roles_kept_eq. Qed.
#[local] Hint Resolve roles_kept_rollback : presh.
Lemma roles_insert k (u u' : user) w :
  db_users (w_db w) !! k = Some u → same_role u u' →
  roles_kept w (put_rows T_users (<[k := u']> (db_users (w_db w))) w).
Proof.
  intros Hu Hs. split; [|done]. intros j. cbn. destruct (decide (j = k)) as [->|].
  - rewrite Hu, lookup_insert_eq. by constructor.
  - rewrite lookup_insert_ne by done. reflexivity.
Qed.
Lemma update_roles k f : (∀ u, same_role u (f u)) → respects roles_kept (db_update T_users k f).
Proof.
  intros Hf w. destruct (db_update _ _ _ w) as [[r|e] w'] eqn:E.
  - apply db_update_inv in E as (u & Hu & _ & ->). by eapply roles_insert.
  - by apply db_update_err in E as [-> _].
Qed.
Lemma update_indexed_roles k f : (∀ u, same_role u (f u)) → respects roles_kept (db_update_indexed T_users k f).
Proof.
  intros Hf w. destruct (db_update_indexed _ _ _ w) as [[r|e] w'] eqn:E.
  - apply db_update_indexed_inv in E as (u & Hu & _ & _ & ->). by eapply roles_insert.
  - by apply db_update_indexed_err in E as ->.
Qed.
#[local] Hint Extern 1 (respects roles_kept (db_update T_users _ _)) => apply update_roles; by intros ? : steph.
#[local] Hint Extern 1 (respects roles_kept (db_update_indexed T_users _ _)) =>
  apply update_indexed_roles; by intros ? : steph.

(** ** No promotion *)
Definition no_staff_invite (w : world) : Prop :=
  ∀ k i, db_adminAccessInvites (w_db w) !! k = Some i → ai_status i = InvitePENDING → staff (ai_role i) = false.
(** Every account is still there with its role, and while no staff invitation
    is pending none appears and new accounts are not staff. *)
Definition roles_fixed (w w' : world) : Prop :=
  ∀ k u, db_users (w_db w) !! k = Some u → ∃ u', db_users (w_db w') !! k = Some u' ∧ u_role u' = u_role u.
Definition no_new_staff (w w' : world) : Prop :=
  ∀ k u', db_users (w_db w') !! k = Some u' → db_users (w_db w) !! k = None → staff (u_role u') = false.
Definition unpromoted (w w' : world) : Prop :=
  roles_fixed w w' ∧ (no_staff_invite w → no_staff_invite w' ∧ no_new_staff w w').
#[export] Instance unpromoted_preorder : PreOrder unpromoted.
Proof.
  split.
  - intros w. split; [intros k u Hu; eauto|]. intros Hn. split; [done|]. intros k u' H1 H2. congruence.
  - intros w1 w2 w3 [F1 N1] [F2 N2]. split.
    + intros k u Hu. destruct (F1 k u Hu) as (u2 & Hu2 & E2). destruct (F2 k u2 Hu2) as (u3 & Hu3 & E3).
      exists u3. split; [done|congruence].
    + intros Hn. destruct (N1 Hn) as [Hn2 S1]. destruct (N2 Hn2) as [Hn3 S2]. split; [done|].
      intros k u3 Hu3 Hu1. destruct (db_users (w_db w2) !! k) as [u2|] eqn:Hu2; [|by apply (S2 k)].
      destruct (F2 k u2 Hu2) as (u3' & Hu3' & E3). rewrite Hu3 in Hu3'. injection Hu3' as <-.
      rewrite E3. by apply (S1 k).
Qed.
Lemma roles_unpromoted w w' : roles_kept w w' → unpromoted w w'.
Proof.
  intros [Hu Hi]. split.
  - intros k u Hk. specialize (Hu k). rewrite Hk in Hu. inversion Hu as [? u' Hr E1 E2|]; subst. eauto.
  - intros Hn. split; [intros k i; rewrite Hi; apply Hn|]. intros k u' Hk Hk'. specialize (Hu k).
    rewrite Hk, Hk' in Hu. inversion Hu.
Qed.
#[local] Hint Extern 1 (unpromoted _ _) => apply roles_unpromoted, roles_kept_eq; reflexivity : presh.
Lemma create_user_unpromoted k u :
  staff (u_role u) = false → respects unpromoted (db_create T_users k u).
Proof.
  intros Hu w. destruct (db_create _ _ _ w) as [[r|e] w'] eqn:E; [|by apply db_create_err in E as ->].
  apply db_create_inv in E as (_ & Hk & _ & _ & ->). cbn in Hk. split.
  - intros j x Hx. exists x. split; [|done]. cbn. rewrite lookup_insert_ne by congruence. done.
  - intros Hn. split; [exact Hn|]. intros j x Hx Hj. cbn in Hx.
    apply lookup_insert_Some in Hx as [[_ <-]|[_ Hx]]; [done|congruence].
Qed.
Section loud.
Context {cfg : config} `{Entropy, Argon2, Jwt, Totp, Aead, UAParser, GeoipLite, StripeApi, StripeSignature}.
Context `{ApolloApi, ClaudeApi, LocalTime, Collation, CsvStringify, IsEmail, IsUrl, IsUUID, Resend}.

(** A request to invite a member of staff. *)
Definition invites_staff (r : Api.route) : bool :=
  match r with
  | Api.AdminRoute (AdminController.InviteUser _ r _ _) => staff (r ifnull USER)
  | _ => false
  end.

Lemma loud_roles key req user r :
  loud r = true → match r with
                  | Api.AuthRoute (AuthRoutes.Register _ _ _ _ _) | Api.AdminRoute (AdminController.InviteUser _ _ _ _) => false
                  | _ => true end = true →
  respectsC roles_kept (Api.handle key req user r).
Proof.
  intros Hl Hr. route_cases r; try discriminate Hl; try discriminate Hr; open_handler;
    autounfold with loud; frame_op.
Qed.

(** Registration: the role of the new account is USER or the pending
    invitation's. *)
Lemma find_invite_unpromoted {A} P (k : option admin_invite → M A) :
  (∀ i, P i = true → ai_status i = InvitePENDING) →
  (∀ o, respects roles_fixed (k o)) →
  (∀ o, (∀ i, o = Some i → staff (ai_role i) = false) → respects unpromoted (k o)) →
  respects unpromoted (db_find_by T_adminAccessInvites P ≫= k).
Proof.
  intros HP Hf Hk w. unfold db_find_by, gets. rewrite run_bind. cbn [t_get T_adminAccessInvites].
  set (o := find_row _ _). split; [apply Hf|]. intros Hn. refine (proj2 (Hk o _ w) Hn).
  intros i Hi. apply find_row_Some in Hi as [Hp [j Hj]]. eapply Hn; [exact Hj|by apply HP].
Qed.
Lemma create_user_fixed k u : respects roles_fixed (db_create T_users k u).
Proof.
  intros w. destruct (db_create _ _ _ w) as [[r|e] w'] eqn:E; [|apply db_create_err in E as ->; intros j x; eauto].
  apply db_create_inv in E as (_ & Hk & _ & _ & ->). cbn in Hk. intros j x Hx. exists x. split; [|done].
  cbn. rewrite lookup_insert_ne by congruence. done.
Qed.
#[export] Instance roles_fixed_preorder : PreOrder roles_fixed.
Proof.
  split; [intros w k u Hu; eauto|]. intros w1 w2 w3 F1 F2 k u Hu. destruct (F1 k u Hu) as (u2 & Hu2 & E2).
  destruct (F2 k u2 Hu2) as (u3 & Hu3 & E3). exists u3. split; [done|congruence].
Qed.
#[local] Hint Extern 1 (roles_fixed _ _) => intros k u Hu; exists u; split; [exact Hu|reflexivity] : presh.
#[local] Hint Resolve create_user_fixed : steph.
(** Writing an invitation that is not a pending staff one. *)
Lemma update_invite_unpromoted k f :
  (∀ i, ai_status (f i) = InvitePENDING → staff (ai_role (f i)) = false) →
  respects unpromoted (db_update T_adminAccessInvites k f).
Proof.
  intros Hf w. destruct (db_update _ _ _ w) as [[r|e] w'] eqn:E; [|by apply db_update_err in E as [-> _]].
  apply db_update_inv in E as (i & Hi & _ & ->). split; [intros j u Hu; eauto|]. intros Hn. split.
  - intros j x Hj. cbn in Hj. apply lookup_insert_Some in Hj as [[_ <-]|[_ Hj]]; [apply Hf|by apply (Hn j)].
  - intros j u E1 E2. cbn in *. congruence.
Qed.
Lemma create_invite_unpromoted k i :
  staff (ai_role i) = false → respects unpromoted (db_create T_adminAccessInvites k i).
Proof.
  intros Hi w. destruct (db_create _ _ _ w) as [[r|e] w'] eqn:E; [|by apply db_create_err in E as ->].
  apply db_create_inv in E as (_ & _ & _ & _ & ->). split; [intros j u Hu; eauto|]. intros Hn. split.
  - intros j x Hj. cbn in Hj. apply lookup_insert_Some in Hj as [[_ <-]|[_ Hj]]; [done|by apply (Hn j)].
  - intros j u E1 E2. cbn in *. congruence.
Qed.
Lemma accept_invite_unpromoted k t :
  respects unpromoted (db_update T_adminAccessInvites k
    (λ i, set_ai_acceptedAt t (set_ai_status InviteACCEPTED i))).
Proof. by apply update_invite_unpromoted. Qed.
#[local] Hint Resolve accept_invite_unpromoted : steph.
#[local] Hint Extern 1 (respects unpromoted (db_create T_users _ _)) =>
  apply create_user_unpromoted; cbn; by auto : steph.
Lemma register_unpromoted email fullName password phone meta :
  respects unpromoted (Auth.register email fullName password phone meta).
Proof.
  unfold Auth.register. apply respects_bind; [apply _|frame_op|intros existing].
  destruct existing; [frame_tac|]. apply respects_bind; [apply _|frame_tac|intros salt].
  apply respects_bind; [apply _| |intros u; frame_tac].
  apply respects_transaction; [frame_side|]. apply find_invite_unpromoted.
  - intros i Hi. by unbool.
  - intros o. frame_op.
  - intros [i|] Ho; [specialize (Ho i eq_refl)|]; frame_op.
Qed.
Lemma inviteUser_unpromoted admin email r dir lf :
  staff (r ifnull USER) = false → respects unpromoted (Admin.inviteUser admin email r dir lf).
Proof.
  intros Hr. unfold Admin.inviteUser. frame_op; [by apply update_invite_unpromoted|by apply create_invite_unpromoted].
Qed.
Lemma register_fixed email fullName password phone meta :
  respects roles_fixed (Auth.register email fullName password phone meta).
Proof. unfold Auth.register. frame_op. Qed.
Lemma inviteUser_fixed admin email r dir lf : respects roles_fixed (Admin.inviteUser admin email r dir lf).
Proof. unfold Admin.inviteUser. frame_op. Qed.

Lemma respectsC_weaken {A} (R R' : world → world → Prop) (m : C A) :
  (∀ w w', R w w' → R' w w') → respectsC R m → respectsC R' m.
Proof. intros HR Hm ck w. apply HR, Hm. Qed.
#[local] Hint Resolve register_unpromoted register_fixed inviteUser_fixed : steph.
Lemma fixed_of_roles w w' : roles_kept w w' → roles_fixed w w'.
Proof. intros Hr. by apply roles_unpromoted. Qed.
Lemma loud_fixed key req user r : loud r = true → respectsC roles_fixed (Api.handle key req user r).
Proof.
  intros Hl. route_cases r; try discriminate Hl;
    try (apply (respectsC_weaken roles_kept); [apply fixed_of_roles|by apply loud_roles]);
    open_handler; frame_op.
Qed.
Lemma loud_unpromoted key req user r :
  loud r = true → invites_staff r = false → respectsC unpromoted (Api.handle key req user r).
Proof.
  intros Hl Hi. route_cases r; try discriminate Hl;
    try (apply (respectsC_weaken roles_kept); [apply roles_unpromoted|by apply loud_roles]);
    open_handler; frame_op.
  by apply inviteUser_unpromoted.
Qed.

(** C2. Roles come only from invitations: along any run of the service -
    requests, jobs, outages, time - no account disappears or changes role; and
    while nobody asks for a staff invitation, a service without pending staff
    invitations has none later and every staff account was already there. *)
Theorem staff_by_invitation key w w' :
  (service_run key (λ _ _, True) w w' → roles_fixed w w') ∧
  (service_run key (λ _ r, invites_staff r = false) w w' → no_staff_invite w →
    no_staff_invite w' ∧
    ∀ k u', db_users (w_db w') !! k = Some u' → staff (u_role u') = true →
      ∃ u, db_users (w_db w) !! k = Some u ∧ u_role u = u_role u').
Proof.
  split; intros Hrun.
  - eapply (run_R roles_fixed); [..|exact Hrun].
    + intros w1 w2 Hq. by apply fixed_of_roles, quiet_roles.
    + intros t up w1 _ k u Hu. eauto.
    + intros req user r w1 Hl _ ck w0 _. by apply loud_fixed.
  - assert (unpromoted w w') as [Hf Hu].
    { eapply (run_R unpromoted); [..|exact Hrun].
      - intros w1 w2 Hq. by apply roles_unpromoted, quiet_roles.
      - intros t up w1 _. by apply roles_unpromoted, roles_kept_eq.
      - intros req user r w1 Hl Ha ck w0 _. by apply loud_unpromoted. }
    intros Hn. destruct (Hu Hn) as [Hn' Hs]. split; [done|]. intros k u' Hk Hst.
    destruct (db_users (w_db w) !! k) as [u|] eqn:Hw.
    + destruct (Hf k u Hw) as (u2 & Hu2 & Hr). exists u. split; [done|congruence].
    + by rewrite (Hs k u' Hk Hw) in Hst.
Qed.
End loud.

(** ** Witness: a visitor registers at a service with one member of staff *)
Section witness.
#[local] Existing Instance default_config.
#[local] Existing Instances counter_entropy plain_argon2 plain_jwt echo_totp toy_gcm plain_ua empty_geoip counting_stripe no_signature.
#[local] Existing Instances silent_apollo silent_claude length_order joined_csv at_email any_url any_uuid willing_resend.
Definition joining : Api.route := Api.AuthRoute (AuthRoutes.Register "eve@example.com" "Eve" "a long password" None true).
Definition joined : world := Api.served key0 anonymous joining two_accounts.
Lemma two_accounts_uninvited : no_staff_invite two_accounts.
Proof. intros k i Hk. change ((∅ : gmap string admin_invite) !! k = Some i) in Hk. by rewrite lookup_empty in Hk. Qed.
Lemma staff_by_invitation_witness :
  (size (db_users (w_db joined)) = 3)%nat ∧
  ∀ k u, db_users (w_db joined) !! k = Some u → staff (u_role u) = true → k = "max".
Proof.
  split; [vm_compute; reflexivity|]. intros k u Hk Hs.
  destruct (proj2 (proj2 (staff_by_invitation key0 two_accounts joined)
    (rtc_once _ _ (step_request key0 (λ _ r, invites_staff r = false) anonymous joining two_accounts eq_refl))
    two_accounts_uninvited) k u Hk Hs) as (u0 & Hu0 & Hr).
  change (({[ "ann" := member "ann" "ann@example.com" USER; "max" := member "max" "max@example.com" ADMIN ]}
    : gmap string user) !! k = Some u0) in Hu0.
  apply lookup_insert_Some in Hu0 as [[_ <-]|[_ Hu0]].
  - cbn in Hr. by rewrite <- Hr in Hs.
  - by apply lookup_singleton_Some in Hu0 as [<- _].
Defined.
End witness.
End Standing.
