(* ===== verification/Lockout.v ===== *)
(** What a ban is worth: a suspended or deleted account has no open session
    and, whatever the service does next, gets none - until an administrator
    reactivates it, or one of its old login challenges is answered. *)
From S2P Require Import Prelude JsLib Crypto Schema Effects Platform Config Messaging Tokens Revocation Users Sessions Access Billing Auth AuthController Instances AuthSessions Guards Subscriptions LeadFinderBilling Webhooks Apollo Taxonomy Leads ApolloSearch Dto MailTemplate MailWorkers Campaign ResendWebhook Outreach Admin AdminController Controllers Api Service Fixtures Standing.
Import Guards Standing.

Module Lockout.
Definition barred (u : user) : Prop := u_status u ≠ UserActive.
(** The account is not active and none of its sessions is open. *)
Definition locked_out (sub : string) (w : world) : Prop :=
  keyed u_id (db_users (w_db w)) ∧
  (∃ u, db_users (w_db w) !! sub = Some u ∧ barred u) ∧
  ∀ k s, db_sessions (w_db w) !! k = Some s → s_userId s = sub → s_revokedAt s ≠ None.

Section lockout.
Context (sub : string).
Abbreviation R := (keeps (locked_out sub)).
Lemma locked_eq w w' :
  db_users (w_db w') = db_users (w_db w) → db_sessions (w_db w') = db_sessions (w_db w) → R w w'.
Proof. unfold keeps, locked_out. by intros -> ->. Qed.
Lemma locked_rollback w w' : R w w' → R w (put_db (w_db w) w').
Proof. intros _. by apply locked_eq. Qed.
Lemma locked_quiet w w' : quiet w w' → R w w'.
Proof.
  intros (Hu & Hs & _ & _) (Hk & (u & Hsub & Hb) & Hr). split_and!.
  - intros k u' Hu'. specialize (Hu k). rewrite Hu' in Hu. inversion Hu as [u0 ? (Hid & _) E1 E2|]; subst.
    rewrite Hid. by apply Hk.
  - specialize (Hu sub). rewrite Hsub in Hu. inversion Hu as [? u' (_ & _ & Hst) E1 E2|]; subst.
    exists u'. split; [done|]. unfold barred. by rewrite Hst.
  - by rewrite Hs.
Qed.

(** *** Writes to accounts *)
Definition keeps_bar (f : user → user) : Prop := ∀ u, u_id (f u) = u_id u ∧ (barred u → barred (f u)).
Lemma insert_locked k (u u' : user) w :
  db_users (w_db w) !! k = Some u → u_id u' = u_id u → (k = sub → barred u → barred u') →
  R w (put_rows T_users (<[k := u']> (db_users (w_db w))) w).
Proof.
  intros Hu Hid Hb (Hk & (v & Hsub & Hv) & Hr). split_and!; [| |exact Hr]; cbn.
  - apply keyed_insert; [|done]. rewrite Hid. by apply Hk.
  - destruct (decide (k = sub)) as [->|].
    + exists u'. rewrite lookup_insert_eq. split; [done|]. apply Hb; congruence.
    + exists v. by rewrite lookup_insert_ne.
Qed.
Lemma update_locked k f :
  (∀ u, u_id (f u) = u_id u ∧ (k = sub → barred u → barred (f u))) → respects R (db_update T_users k f).
Proof.
  intros Hf w. destruct (db_update _ _ _ w) as [[r|e] w'] eqn:E.
  - apply db_update_inv in E as (u & Hu & _ & ->). destruct (Hf u). by eapply insert_locked.
  - by apply db_update_err in E as [-> _].
Qed.
Lemma update_indexed_locked k f : keeps_bar f → respects R (db_update_indexed T_users k f).
Proof.
  intros Hf w. destruct (db_update_indexed _ _ _ w) as [[r|e] w'] eqn:E.
  - apply db_update_indexed_inv in E as (u & Hu & _ & _ & ->). destruct (Hf u). by eapply insert_locked.
  - by apply db_update_indexed_err in E as ->.
Qed.
Lemma create_user_locked k u : u_id u = k → respects R (db_create T_users k u).
Proof.
  intros Hid w. destruct (db_create _ _ _ w) as [[r|e] w'] eqn:E; [|by apply db_create_err in E as ->].
  apply db_create_inv in E as (_ & Hk & _ & _ & ->). cbn in Hk. intros (Hkey & (v & Hsub & Hv) & Hr).
  split_and!; [by apply keyed_insert| |exact Hr]. exists v. cbn. rewrite lookup_insert_ne by congruence. done.
Qed.

(** *** Writes to sessions *)
Definition keeps_shut (f : session → session) : Prop :=
  ∀ s, s_userId (f s) = s_userId s ∧ (s_revokedAt s ≠ None → s_revokedAt (f s) ≠ None).
Lemma sessions_locked m w :
  (∀ k s, m !! k = Some s → s_userId s = sub → s_revokedAt s ≠ None ∨ db_sessions (w_db w) !! k = Some s) →
  R w (put_rows T_sessions m w).
Proof.
  intros Hm (Hk & Hu & Hr). split_and!; [exact Hk|exact Hu|]. intros k s Hs Hsub.
  destruct (Hm k s Hs Hsub) as [|Ho]; [done|by apply (Hr k)].
Qed.
Lemma update_session_locked k f : keeps_shut f → respects R (db_update T_sessions k f).
Proof.
  intros Hf w. destruct (db_update _ _ _ w) as [[r|e] w'] eqn:E; [|by apply db_update_err in E as [-> _]].
  apply db_update_inv in E as (s & Hs & _ & ->). intros Hl. refine (sessions_locked _ w _ Hl).
  intros j x Hx Hsub. cbn in Hx, Hs. apply lookup_insert_Some in Hx as [[<- <-]|[_ Hx]]; [left|by right].
  destruct (Hf s) as [Hid Hsh]. apply Hsh. destruct Hl as (_ & _ & Hr). apply (Hr k s Hs). congruence.
Qed.
Lemma update_sessions_locked P f : keeps_shut f → respects R (db_update_many T_sessions P f).
Proof.
  intros Hf w. cbn. intros Hl. refine (sessions_locked _ w _ Hl). intros k x Hx Hsub. left.
  destruct (lookup_update_where_Some _ _ _ _ _ Hx) as (s & Hs & ->). destruct Hl as (_ & _ & Hr).
  destruct (Hf s) as [Hid Hsh]. destruct (P s); [apply Hsh|]; apply (Hr k s Hs); congruence.
Qed.
Lemma create_session_locked k s : s_userId s ≠ sub → respects R (db_create T_sessions k s).
Proof.
  intros Hid w. destruct (db_create _ _ _ w) as [[r|e] w'] eqn:E; [|by apply db_create_err in E as ->].
  apply db_create_inv in E as (_ & _ & _ & _ & ->). apply sessions_locked. intros j x Hx Hsub. cbn in Hx.
  apply lookup_insert_Some in Hx as [[_ <-]|[_ Hx]]; [done|by right].
Qed.

(** *** The loud handlers *)
Context {cfg : config} `{Entropy, Argon2, Jwt, Totp, Aead, UAParser, GeoipLite, StripeApi, StripeSignature}.
Context `{ApolloApi, ClaudeApi, LocalTime, Collation, CsvStringify, IsEmail, IsUrl, IsUUID, Resend}.
#[local] Hint Resolve locked_rollback : presh.
#[local] Hint Extern 1 (keeps (locked_out _) _ _) => apply locked_eq; reflexivity : presh.
#[local] Hint Extern 1 (respects _ (db_update T_users _ _)) =>
  apply update_locked; intros ?; split; [reflexivity|by intros _ ?] : steph.
#[local] Hint Extern 1 (respects _ (db_update_indexed T_users _ _)) =>
  apply update_indexed_locked; intros ?; split; [reflexivity|by intros ?] : steph.
#[local] Hint Extern 1 (respects _ (db_create T_users _ _)) =>
  apply create_user_locked; by repeat case_match : steph.
#[local] Hint Extern 1 (respects _ (db_update T_sessions _ _)) =>
  apply update_session_locked; intros ?; split; [reflexivity|by intros ?] : steph.
#[local] Hint Extern 1 (respects _ (db_update_many T_sessions _ _)) =>
  apply update_sessions_locked; intros ?; split; [reflexivity|by intros ?] : steph.
#[local] Hint Extern 1 (respects _ (db_create T_sessions _ _)) =>
  apply create_session_locked; cbn; by auto : steph.

(** An operation that behaves from every locked world. *)
Lemma locked_intro {A} (m : M A) : (∀ w, locked_out sub w → R w (m w).2) → respects R m.
Proof. intros Hm w Hl. by apply Hm. Qed.
Lemma run_locked {A} (m : M A) w : respects R m → R w (m w).2.
Proof. intros Hm. apply Hm. Qed.
(** An account found in a locked world: another one, or barred. *)
Lemma found_user w P u : locked_out sub w → find_row P (db_users (w_db w)) = Some u →
  db_users (w_db w) !! u_id u = Some u ∧ (u_id u = sub → barred u).
Proof.
  intros (Hk & (v & Hv & Hb) & _) Hu. apply find_row_Some in Hu as [_ [k Hu]]. rewrite (Hk k u Hu).
  split; [done|]. intros ->. congruence.
Qed.
Lemma issueTokenPair_locked userId deviceId meta isNew :
  userId ≠ sub → respects R (Auth.issueTokenPair userId deviceId meta isNew).
Proof.
  intros Hne. apply locked_intro. intros w Hl. unfold Auth.issueTokenPair, Users.findById, db_find, gets.
  rewrite run_bind. cbn [t_get T_users]. destruct (db_users (w_db w) !! userId) as [u|] eqn:Hu; [|by intros ?].
  assert (u_id u ≠ sub) as Hid by (rewrite (proj1 Hl userId u Hu); done).
  apply run_locked. autounfold with loud. frame_op.
Qed.
#[local] Hint Resolve issueTokenPair_locked : steph.

Lemma login_locked_out email password meta : respects R (Auth.login email password meta).
Proof.
  apply locked_intro. intros w Hl. unfold Auth.login, Users.findByEmail, db_find_by, date_now, gets.
  rewrite !run_bind. cbn [t_get T_users]. destruct (find_row _ _) as [u|] eqn:Hu; [|by intros ?].
  apply (found_user w) in Hu as [_ Hb]; [|done]. apply run_locked.
  destruct (decide (u_id u = sub)) as [Hs|Hne].
  - specialize (Hb Hs). unfold barred in Hb. rewrite (bool_decide_eq_false_2 _ Hb). cbn [negb]. frame_tac.
  - frame_op.
Qed.
Lemma verifyLogin_locked key challengeToken code meta w :
  (∀ d m h, jwt_verify challengeToken (w_now w / 1000) ≠ Some (LoginChallenge sub d m h)) →
  R w (Auth.verifyLogin key challengeToken code meta w).2.
Proof.
  intros Hv Hl. unfold Auth.verifyLogin, Auth.now_seconds, date_now, gets. rewrite run_bind.
  cbn [mret M_ret]. rewrite run_bind. cbn [mret M_ret].
  destruct (jwt_verify challengeToken (w_now w / 1000)) as [[|s d m h]|]; [done| |done].
  assert (s ≠ sub) as Hs by (intros ->; by apply (Hv d m h)).
  unfold Users.findById, db_find, gets. rewrite run_bind. cbn [t_get T_users].
  destruct (db_users (w_db w) !! s) as [u|] eqn:Hu; [|done].
  assert (u_id u ≠ sub) as Hid by (rewrite (proj1 Hl s u Hu); done).
  revert Hl. apply run_locked. autounfold with loud. frame_op.
Qed.
Lemma graceSuccessor_locked o w s w' :
  locked_out sub w → Auth.graceSuccessor o w = (Ok (Some s), w') → s_userId s ≠ sub.
Proof.
  intros (_ & _ & Hr). unfold Auth.graceSuccessor, Sessions.findById, Sessions.active. destruct o as [x|]; [|done].
  destruct (s_revokedAt x), (s_replacedByTokenId x) as [next|]; try done.
  unfold date_now, db_find, gets. rewrite run_bind. cbn [t_get T_sessions].
  destruct (_ && _); [|done]. rewrite run_bind.
  destruct (db_sessions (w_db w) !! next) as [y|] eqn:Hy; [|done]. destruct (_ && _) eqn:E; [|done].
  intros [= <- _] Hs. unbool. by apply (Hr next y).
Qed.
Lemma refreshFrom_locked s meta : s_userId s ≠ sub → respects R (Auth.refreshFrom s meta).
Proof. intros Hs. autounfold with loud. frame_op. Qed.
Lemma refresh_locked raw meta : respects R (Auth.refresh raw meta).
Proof.
  apply locked_intro. intros w Hl. unfold Auth.refresh. rewrite run_bind.
  unfold Sessions.findActiveByRawToken, date_now, db_find_by, gets. rewrite run_bind. cbn [t_get T_sessions].
  destruct (find_row _ _) as [s|] eqn:Hf.
  - apply find_row_Some in Hf as [Ha [k Hk]]. apply run_locked, refreshFrom_locked.
    unfold Sessions.active in Ha. unbool. intros Hs. by destruct Hl as (_ & _ & Hr); apply (Hr k s).
  - unfold Sessions.findAnyByRawToken, db_find_by, gets. rewrite run_bind. cbn [t_get T_sessions].
    set (o := find_row _ _). rewrite run_bind.
    pose proof (graceSuccessor_locked o w) as Hg.
    assert (respects (same id) (Auth.graceSuccessor o)) as Hw by frame_op.
    specialize (Hw w). unfold same, id in Hw.
    destruct (Auth.graceSuccessor o w) as [[[s|]|e] w'] eqn:E; cbn in Hw; subst w'; [| |by intros ?].
    + apply run_locked, refreshFrom_locked. by eapply Hg.
    + apply run_locked. autounfold with loud. frame_op.
Qed.
#[local] Hint Resolve login_locked_out refresh_locked : steph.
Lemma reactivate_locked admin target : target ≠ sub → respects R (Admin.reactivateUser admin target).
Proof.
  intros Hne. unfold Admin.reactivateUser. frame_op. apply update_locked. intros u. by split.
Qed.

(** Requests other than a reactivation of the account and an answer to one of
    its login challenges. *)
Definition spares (w : world) (r : Api.route) : Prop :=
  match r with
  | Api.AdminRoute (AdminController.ReactivateUser id) => id ≠ sub
  | Api.AuthRoute (AuthRoutes.VerifyLogin token _) =>
      ∀ d m h, jwt_verify token (w_now w / 1000) ≠ Some (LoginChallenge sub d m h)
  | _ => True
  end.
Lemma verify_handler_locked key req challengeToken code w :
  (∀ d m h, jwt_verify challengeToken (w_now w / 1000) ≠ Some (LoginChallenge sub d m h)) →
  ∀ ck w0, w_now w0 = w_now w → R w0 (AuthController.verifyLogin key req challengeToken code ck w0).2.
Proof.
  intros Hv ck w0 Hn. unfold AuthController.verifyLogin, bindC at 1.
  assert (respectsC quiet (AuthController.buildMeta req)) as Hq by frame_op.
  specialize (Hq ck w0). destruct (AuthController.buildMeta req ck w0) as [[[meta|e] ck1] w1]; cbn in Hq |- *;
    [|by apply locked_quiet].
  etrans; [by apply locked_quiet|]. unfold bindC, liftC.
  assert (w_now w1 = w_now w) as Hn1 by (destruct Hq as (_&_&_&->); done).
  rewrite <- Hn1 in Hv. pose proof (verifyLogin_locked key challengeToken code meta w1 Hv) as Hr.
  destruct (Auth.verifyLogin key challengeToken code meta w1) as [[p|e] w2]; exact Hr.
Qed.
Lemma runC_locked {A} (h : C A) ck w : respectsC R h → R w (h ck w).2.
Proof. intros Hh. apply Hh. Qed.
Lemma loud_locked key req user r w :
  loud r = true → spares w r → ∀ ck w0, quiet w w0 → R w0 (Api.handle key req user r ck w0).2.
Proof.
  intros Hl Hs ck w0 Hq. route_cases r; try discriminate Hl; open_handler.
  3: by apply (verify_handler_locked key req challengeToken code w); [done|apply Hq].
  all: apply runC_locked.
  10: by frame_op; apply reactivate_locked.
  all: autounfold with loud; frame_op; unfold Auth.register, Admin.inviteUser; frame_op.
Qed.

(** *** The operations that bar an account *)
Lemma revokeAll_run w : Sessions.revokeAllForUser sub w = (Ok tt, (Sessions.revokeAllForUser sub w).2).
Proof. done. Qed.
Lemma revokeAll_locks w :
  keyed u_id (db_users (w_db w)) → (∃ u, db_users (w_db w) !! sub = Some u ∧ barred u) →
  locked_out sub (Sessions.revokeAllForUser sub w).2.
Proof.
  intros Hk Hu. split_and!; [exact Hk|exact Hu|]. intros k s Hs Hsub. cbn in Hs.
  destruct (lookup_update_where_Some _ _ _ _ _ Hs) as (s0 & _ & ->). unfold Sessions.unrevoked_of, seq_b in *.
  destruct (bool_decide (s_userId s0 = sub) && _) eqn:E; [done|].
  rewrite (bool_decide_eq_true_2 _ Hsub) in E. cbn in E. by unbool.
Qed.
(** The common end of a suspension and a deletion. *)
Definition lock_tail (e : Audit.entry) (msg : string) : M string :=
  _ ← Sessions.revokeAllForUser sub; _ ← Revocation.revokeUser sub; _ ← Audit.record e; mret msg.
Definition refused_now (w' : world) : Prop := (Revocation.isRevoked sub w').1 = Ok true.
Lemma lock_tail_locks e msg w m w' :
  keyed u_id (db_users (w_db w)) → (∃ u, db_users (w_db w) !! sub = Some u ∧ barred u) →
  lock_tail e msg w = (Ok m, w') →
  locked_out sub w' ∧ (w_redis_up w = true → 0 < JWT_ACCESS_EXPIRY_SECONDS cfg → refused_now w').
Proof.
  intros Hk Hu Ht. pose proof (revokeAll_locks w Hk Hu) as Hl.
  unfold lock_tail in Ht. rewrite run_bind, revokeAll_run in Ht. set (w1 := (Sessions.revokeAllForUser sub w).2) in *.
  rewrite run_bind, Revocation.revokeUser_run, run_bind in Ht.
  destruct (Audit.record e (Revocation.revoked sub w1)) as [[[]|x] w2] eqn:Ha; [|done]. injection Ht as _ <-.
  assert (R (Revocation.revoked sub w1) w2) as Hr2.
  { assert (respects R (Audit.record e)) as Hr by frame_tac. specialize (Hr (Revocation.revoked sub w1)). by rewrite Ha in Hr. }
  split.
  - apply Hr2. revert Hl. apply locked_eq; by rewrite Revocation.revoked_db.
  - intros Hup Httl. apply (Revocation.isRevoked_revoked sub w1); try done.
    all: apply Audit.record_inv in Ha as [[_ ->]|[? _]]; [|done]; unfold Audit.recorded.
    all: first [reflexivity|unfold Revocation.revoked; by case_match].
Qed.
Lemma suspend_locks admin reason w m w' :
  keyed u_id (db_users (w_db w)) → Admin.suspendUser admin sub reason w = (Ok m, w') →
  locked_out sub w' ∧ (w_redis_up w = true → 0 < JWT_ACCESS_EXPIRY_SECONDS cfg → refused_now w').
Proof.
  intros Hk. unfold Admin.suspendUser. destruct (seq_b admin sub); [done|].
  unfold Admin.target, Users.findById, db_find, gets. rewrite !run_bind. cbn [t_get T_users].
  destruct (db_users (w_db w) !! sub) as [u|] eqn:Hu; [|done]. cbn [mret M_ret].
  destruct (bool_decide _); [done|]. rewrite run_bind, (db_update_run T_users _ _ _ u) by exact Hu.
  intros Ht. eapply lock_tail_locks in Ht as [Hl Hr]; [by split; [|intros ?; apply Hr]|..]; cbn.
  - apply keyed_insert; [|done]. by apply Hk in Hu.
  - eexists. rewrite lookup_insert_eq. split; [done|]. by unfold barred.
Qed.
Lemma delete_locks admin w m w' :
  keyed u_id (db_users (w_db w)) → Admin.deleteUser admin sub w = (Ok m, w') →
  locked_out sub w' ∧ (w_redis_up w = true → 0 < JWT_ACCESS_EXPIRY_SECONDS cfg → refused_now w').
Proof.
  intros Hk. unfold Admin.deleteUser. destruct (seq_b admin sub); [done|].
  unfold Admin.target, Users.findById, db_find, date_now, gets. rewrite !run_bind. cbn [t_get T_users].
  destruct (db_users (w_db w) !! sub) as [u|] eqn:Hu; [|done]. cbn [mret M_ret].
  destruct (bool_decide _); [done|]. rewrite !run_bind.
  destruct (db_update_indexed _ _ _ w) as [[r|x] w1] eqn:E; [|done].
  apply db_update_indexed_inv in E as (u' & Hu' & _ & _ & ->).
  intros Ht. eapply lock_tail_locks in Ht as [Hl Hr]; [by split; [|intros ?; apply Hr]|..]; cbn.
  - apply keyed_insert; [|done]. by apply Hk in Hu'.
  - eexists. rewrite lookup_insert_eq. split; [done|]. by unfold barred.
Qed.
Lemma login_barred email password meta w u :
  find_row (λ u, seq_b (u_email u) (Users.normalizeEmail email)) (db_users (w_db w)) = Some u → barred u →
  ∃ msg, Auth.login email password meta w = (Err (Http 401 msg), w).
Proof.
  intros Hu Hb. unfold Auth.login, Users.findByEmail, db_find_by, date_now, gets.
  rewrite !run_bind. cbn [t_get T_users]. rewrite Hu. destruct (Users.isLocked _ _); [by eexists|].
  unfold barred in Hb. rewrite (bool_decide_eq_false_2 _ Hb). by eexists.
Qed.

(** C3. A ban holds: after suspendUser or deleteUser the account is barred,
    none of its sessions is open and - with Redis up - its access tokens are
    refused at once; and through any later requests, jobs, outages and time, short
    of a reactivation or an answer to one of its own pending login challenges,
    it stays barred, no session of it is opened or reopened, and its e-mail
    and password are answered 401 with nothing changed. *)
Theorem ban_holds key admin reason w m w1 w2 :
  keyed u_id (db_users (w_db w)) →
  Admin.suspendUser admin sub reason w = (Ok m, w1) ∨ Admin.deleteUser admin sub w = (Ok m, w1) →
  service_run key spares w1 w2 →
  (w_redis_up w = true → 0 < JWT_ACCESS_EXPIRY_SECONDS cfg → refused_now w1) ∧
  locked_out sub w2 ∧
  ∀ email password meta u,
    find_row (λ u, seq_b (u_email u) (Users.normalizeEmail email)) (db_users (w_db w2)) = Some u → u_id u = sub →
    ∃ msg, Auth.login email password meta w2 = (Err (Http 401 msg), w2).
Proof.
  intros Hk Hop Hrun.
  assert (locked_out sub w1 ∧ (w_redis_up w = true → 0 < JWT_ACCESS_EXPIRY_SECONDS cfg → refused_now w1))
    as [Hl Href] by (destruct Hop; [by eapply suspend_locks|by eapply delete_locks]).
  assert (locked_out sub w2) as Hl2.
  { revert Hl. eapply (run_R (keeps (locked_out sub))); [..|exact Hrun].
    - apply locked_quiet.
    - intros t up w0 _. by apply locked_eq.
    - intros req user r w0 Hloud Hs ck w3 Hq. by apply (loud_locked key req user r w0). }
  split_and!; [done|done|]. intros email password meta u Hu Hid.
  apply (login_barred _ _ _ _ u); [done|]. by apply (found_user w2) in Hu as [_ Hb]; auto.
Qed.
End lockout.

(** ** Witness: Max suspends Ann, who then tries to log in *)
Section witness.
#[local] Existing Instance default_config.
#[local] Existing Instances counter_entropy plain_argon2 plain_jwt echo_totp toy_gcm plain_ua empty_geoip counting_stripe no_signature.
#[local] Existing Instances silent_apollo silent_claude length_order joined_csv at_email any_url any_uuid willing_resend.
Definition suspended : world := (Admin.suspendUser "max" "ann" None two_accounts).2.
Definition retried : world := Api.served key0 anonymous (Api.AuthRoute (AuthRoutes.Login "ann@example.com" "secret123")) suspended.
Lemma ban_holds_witness :
  refused_now "ann" suspended ∧ locked_out "ann" retried ∧
  ∃ msg, Auth.login "Ann@Example.com" "secret123" (Auth.Meta None None "browser-1") retried = (Err (Http 401 msg), retried).
Proof.
  destruct (ban_holds "ann" key0 "max" None two_accounts "User suspended" suspended retried) as (Hr & Hl & Hlog).
  - apply keyed_check. vm_compute. reflexivity.
  - left. vm_compute. reflexivity.
  - apply rtc_once. by constructor.
  - split_and!; [by apply Hr|exact Hl|].
    eapply Hlog; [vm_compute; reflexivity|reflexivity].
Defined.
End witness.
End Lockout.
