(* ===== verification/Scripts.v ===== *)
(** The operators' scripts that write: the imports of attendee lists into the
    lead directory and the seeds of the catalogue. The files and the CSV parser
    are outside the program, as is the environment. *)
From S2P Require Import Prelude JsLib Schema Effects Platform MailWorkers.

(** The file system and the csv-parse package: a file read in an encoding, and
    its rows as objects from the header's columns to the cells
    ([columns: true, skip_empty_lines: true]). *)
Class CsvFiles := {
  readFileSync : string → string → res string;
  csv_parse : string → res (list (gmap string string))
}.
(** [process.env]. *)
Class Env := process_env : string → option string.

Module Import_.
Definition len {A} (l : list A) : Z := Z.of_nat (length l).
Abbreviation row := (gmap string string).
Definition BATCH_SIZE : nat := 1000.
(** What the plain object [TYPE_MAP] answers for a key: an enum value, nothing,
    or something every object inherits. *)
Inductive type_value := Known (c : company_type) | Unknown | Inherited.
#[export] Instance type_value_eq_dec : EqDecision type_value.
Proof. solve_decision. Defined.
Definition TYPE_MAP (k : string) : type_value :=
  if seq_b k "advertiser" then Known ADVERTISER
  else if seq_b k "ad network" then Known AD_NETWORK
  else if seq_b k "affiliate" then Known AFFILIATE
  else if seq_b k "affiliate network" then Known AFFILIATE_NETWORK
  else if seq_b k "agency" then Known AGENCY
  else if seq_b k "solution provider" then Known SOLUTION_PROVIDER
  else if seq_b k "constructor" || seq_b k "__proto__" then Inherited
  else Unknown.

Definition orNull (value : option string) : option string :=
  let trimmed := default "" (Str.trim <$> value) in
  if Str.nonempty trimmed then Some trimmed else None.
(** [orNull(v)?.toLowerCase() ?? null]. *)
Definition email_of (value : option string) : option string := Str.toLowerCase <$> orNull value.
(** [row.X.trim()]: a column the header lacks is [undefined]. *)
Definition trimmed (column : string) (r : row) : M string :=
  match r !! column with Some s => mret (Str.trim s) | None => type_error end.

(** One element of the [data] of [createMany]. *)
Record lead_input := LeadInput {
  li_name : string; li_title : option string; li_company : option string; li_website : option string;
  li_linkedin : option string; li_appLink : option string; li_email : option string;
  li_phone : option string; li_companyType : type_value; li_likelyToAttend : string
}.
Definition unclassified (i : lead_input) : bool := bool_decide (li_companyType i = Unknown).
Definition classified (t : type_value) : option company_type := match t with Known c => Some c | _ => None end.
(** The row it becomes, with the columns' defaults. *)
Definition lead_of (i : lead_input) (id : string) (now : Z) : lead :=
  Mk_lead id (li_name i) (li_title i) (li_company i) (li_website i) (li_linkedin i) (li_appLink i)
    (li_email i) (li_phone i) (classified (li_companyType i)) (li_likelyToAttend i) true None now.

Section scripts.
Context `{Entropy, CsvFiles}.

Definition insert (i : lead_input) : M unit :=
  id ← random_uuid; now ← date_now; _ ← db_create T_leads id (lead_of i id now); mret tt.
(** [prisma.lead.createMany]: the client refuses a value that is no
    [CompanyType] before it sends the one statement. *)
Definition createMany (data : list lead_input) : M unit :=
  if existsb (λ i, bool_decide (li_companyType i = Inherited)) data
  then throw (JsError "PrismaClientValidationError")
  else transaction (for_each data insert).
Definition importBatches (records : list lead_input) : M unit :=
  for_each (chunks BATCH_SIZE records) createMany.
(** [rows.map(f)] of a function that can throw. *)
Fixpoint map_each {A B} (f : A → M B) (l : list A) : M (list B) :=
  match l with
  | [] => mret []
  | x :: l => y ← f x; ys ← map_each f l; mret (y :: ys)
  end.
(** [rows.filter(p)]. *)
Fixpoint filter_each {A} (p : A → M bool) (l : list A) : M (list A) :=
  match l with
  | [] => mret []
  | x :: l => b ← p x; ys ← filter_each p l; mret (if (b : bool) then x :: ys else ys)
  end.
(** [rows.find(p)]. *)
Fixpoint find_each {A} (p : A → M bool) (l : list A) : M (option A) :=
  match l with
  | [] => mret None
  | x :: l => b ← p x; if (b : bool) then mret (Some x) else find_each p l
  end.
Definition load (file encoding : string) : M (list row) := λ w,
  match readFileSync file encoding with
  | Ok raw => (csv_parse raw, w)
  | Err e => (Err e, w)
  end.

(** *** import-leads.ts: truncate and reload *)
Definition FILES : list (string * company_type) :=
  [("Advertiser.csv", ADVERTISER); ("Ad Network.csv", AD_NETWORK); ("Affiliate.csv", AFFILIATE);
   ("Affiliate Network.csv", AFFILIATE_NETWORK); ("Agency.csv", AGENCY);
   ("Solution Provider.csv", SOLUTION_PROVIDER)].
Definition DATA_DIR : string := "../data/leads/".
(** The columns every layout with "Name" shares. *)
Definition common (r : row) (name likelyToAttend : string) (appLink : option string) (t : type_value) : lead_input :=
  LeadInput name (orNull (r !! "Title")) (orNull (r !! "Company")) (orNull (r !! "Website"))
    (orNull (r !! "LinkedIn")) appLink (email_of (r !! "Email")) (orNull (r !! "Phone")) t likelyToAttend.
Definition reloadRow (t : company_type) (r : row) : M lead_input :=
  name ← trimmed "Name" r; event ← trimmed "Likely to Attend" r;
  mret (common r name event (orNull (r !! "App Link")) (Known t)).
Definition deleteAll : M unit := modify (put_rows T_leads ∅).
Definition reloadFile (entry : string * company_type) : M Z :=
  rows ← load (DATA_DIR +:+ entry.1) "utf-8";
  records ← map_each (reloadRow entry.2) rows;
  _ ← importBatches records;
  mret (len records).
(** The number of leads imported. *)
Definition importLeads : M Z :=
  _ ← deleteAll;
  fold_each FILES (λ total entry, n ← reloadFile entry; mret (total + n)) 0.

(** *** One event at a time, never twice *)
(** What the script reports: [None] when it refuses to run again. *)
Definition report : Type := option (Z * Z * Z).
Definition of_event (event : string) (l : lead) : bool := seq_b (l_likelyToAttend l) event.

(** import-leads-barcelona-2026.ts *)
Definition BARCELONA : string := "Affiliate Takeover Barcelona 2026".
Definition person (r : row) : M bool :=
  name ← trimmed "Full name" r; mret (negb (seq_b (Str.toLowerCase name) "name")).
Definition type_of (column : string) (r : row) : M type_value :=
  t ← trimmed column r;
  let typeRaw := Str.toLowerCase t in
  mret (if Str.nonempty typeRaw then TYPE_MAP typeRaw else Unknown).
Definition barcelonaRow (r : row) : M lead_input :=
  t ← type_of "Type" r; name ← trimmed "Full name" r; event ← trimmed "Likely to Attend" r;
  mret (LeadInput name (orNull (r !! "Title")) (orNull (r !! "company")) (orNull (r !! "website"))
          (orNull (r !! "LinkedIn")) None (email_of (r !! "Email")) (orNull (r !! "Phone")) t event).
Definition importBarcelona : M report :=
  existing ← db_count T_leads (of_event BARCELONA);
  if 0 <? existing then mret None else
  rows ← load (DATA_DIR +:+ BARCELONA +:+ ".csv") "latin1";
  people ← filter_each person rows;
  records ← map_each barcelonaRow people;
  _ ← importBatches records;
  mret (Some (len records, len rows - len people, len (List.filter unclassified records))).

(** import-leads-contact-io-2026.ts *)
Definition CONTACT_IO : string := "Contact.io 2026".
Definition contactIoRow (r : row) : M lead_input :=
  t ← type_of "Type of Company" r; name ← trimmed "Name" r; event ← trimmed "Likely to Attend" r;
  mret (common r name event None t).
Definition importContactIo : M report :=
  existing ← db_count T_leads (of_event CONTACT_IO);
  if 0 <? existing then mret None else
  rows ← load (DATA_DIR +:+ CONTACT_IO +:+ ".csv") "latin1";
  records ← map_each contactIoRow rows;
  _ ← importBatches records;
  mret (Some (len records, 0, len (List.filter unclassified records))).

(** import-leads-2026-events.ts *)
Definition EVENT_FILES : list (string * string) :=
  [("Affiliate Summit West 2026.csv", "Affiliate Summit West 2026");
   ("Affiliate takeover Miami 2026.csv", "Affiliate takeover Miami 2026");
   ("Affiliate World Bangkok 2026 (source file misnamed 2025).csv", "Affiliate World Bangkok 2026");
   ("Leadscon 2026.csv", "Leadscon 2026");
   ("MAU Vegas 2026.csv", "MAU Vegas 2026");
   ("Mass Torts Made Perfect 2026.csv", "Mass Torts Made Perfect 2026");
   ("Medicarians 2026.csv", "Medicarians 2026");
   ("Affiliate Summit East 2026.csv", "Affiliate Summit East 2026")].
Definition named (r : row) : M bool := name ← trimmed "Name" r; mret (Str.nonempty name).
(** [{ name, likelyToAttend, email }], a null e-mail meaning [IS NULL]. *)
Definition same_person (name event : string) (email : option string) (l : lead) : bool :=
  seq_b (l_name l) name && seq_b (l_likelyToAttend l) event && bool_decide (l_email l = email).
Definition eventRow (event : string) (r : row) : M lead_input :=
  t ← trimmed "Type of Company" r;
  let typeRaw := Str.toLowerCase t in
  let companyType := if Str.nonempty typeRaw && negb (seq_b typeRaw "--") then TYPE_MAP typeRaw else Unknown in
  name ← trimmed "Name" r;
  mret (common r name event (orNull (r !! "App Link")) companyType).
Definition alreadyImported (event : string) (rows : list row) : M bool :=
  firstRow ← find_each named rows;
  match firstRow with
  | Some r =>
      name ← trimmed "Name" r;
      found ← db_find_by T_leads (same_person name event (email_of (r !! "Email")));
      mret (bool_decide (is_Some found))
  | None => mret false
  end.
Definition importRows (event : string) (rows : list row) : M report :=
  people ← filter_each named rows;
  records ← map_each (eventRow event) people;
  _ ← importBatches records;
  mret (Some (len records, len rows - len people, len (List.filter unclassified records))).
Definition importFile (file event : string) : M report :=
  rows ← load (DATA_DIR +:+ file) "utf-8";
  again ← alreadyImported event rows;
  if (again : bool) then mret None else importRows event rows.
Definition importEvents : M unit :=
  for_each EVENT_FILES (λ fe, _ ← importFile fe.1 fe.2; mret tt).
End scripts.
End Import_.

(** ** Seeds *)
Module Seed.
(** [upsert({ where: { slug }, create, update })] *)
Definition upsert {R} (T : table R) (slug_of id_of : R → string) (slug : string)
    (create : string → R) (update : R → R) `{Entropy} : M R :=
  found ← db_find_by T (λ r, seq_b (slug_of r) slug);
  match found with
  | Some r => db_update_indexed T (id_of r) update
  | None => id ← random_uuid; db_create T id (create id)
  end.

Section seeds.
Context `{Entropy, Env}.
Definition env_or (name default : string) : string :=
  match process_env name with Some v => v | None => default end.

(** seed-plans.ts *)
Definition plan_price : string := env_or "STRIPE_PRICE_FULL_ACCESS" "price_1U2UpICdtcz0ii9wLh7NVEiP".
Definition update_plan (p : plan) : plan :=
  Mk_plan (pl_id p) (pl_name p) (pl_slug p) plan_price SIX_MONTHS 5000 (pl_currency p) (pl_isActive p).
Definition seedPlans : M plan :=
  upsert T_plans pl_slug pl_id "full-access"
    (λ id, Mk_plan id "Full Access" "full-access" plan_price SIX_MONTHS 5000 "usd" true) update_plan.

(** seed-credit-packs.ts *)
Definition pack_price : string := env_or "STRIPE_PRICE_CREDITS_500" "price_1U2aO4Cdtcz0ii9wNjuCngVN".
Definition update_pack (p : credit_pack) : credit_pack :=
  Mk_credit_pack (cp_id p) (cp_name p) (cp_slug p) 500 pack_price 5000 (cp_currency p) (cp_isActive p).
Definition seedCreditPacks : M credit_pack :=
  upsert T_creditPacks cp_slug cp_id "credits-500"
    (λ id, Mk_credit_pack id "500 Lead Finder credits" "credits-500" 500 pack_price 5000 "usd" true) update_pack.

(** seed-lead-finder-tiers.ts *)
Record tier := Tier {
  t_name : string; t_slug : string; t_credits : Z; t_stripePriceId : option string;
  t_amountCents : Z; t_recurring : bool
}.
Definition TIERS : list tier :=
  [Tier "Free" "free" 100 None 0 false;
   Tier "Starter" "starter" 100
     (Some (env_or "STRIPE_PRICE_LEAD_FINDER_STARTER" "price_1U2X2yCdtcz0ii9wDEAn5yfZ")) 2000 true;
   Tier "Growth" "growth" 500
     (Some (env_or "STRIPE_PRICE_LEAD_FINDER_GROWTH" "price_1U2X2zCdtcz0ii9wtOtsHlpH")) 5000 true;
   Tier "Scale" "scale" 1000
     (Some (env_or "STRIPE_PRICE_LEAD_FINDER_SCALE" "price_1U2X30Cdtcz0ii9wMo90J1eu")) 9000 true].
Definition create_tier (t : tier) (id : string) : lead_finder_tier :=
  Mk_lead_finder_tier id (t_name t) (t_slug t) (t_credits t) (t_stripePriceId t) (t_amountCents t)
    "usd" (t_recurring t) true.
Definition update_tier (t : tier) (r : lead_finder_tier) : lead_finder_tier :=
  Mk_lead_finder_tier (lt_id r) (lt_name r) (lt_slug r) (t_credits t) (t_stripePriceId t) (t_amountCents t)
    (lt_currency r) (t_recurring t) (lt_isActive r).
Definition seedTier (t : tier) : M lead_finder_tier :=
  upsert T_leadFinderTiers lt_slug lt_id (t_slug t) (create_tier t) (update_tier t).
Definition seedTiers : M unit := for_each TIERS (λ t, _ ← seedTier t; mret tt).
End seeds.
End Seed.

(** ** Imports happen once *)
Module ImportProps.
Import Import_.
(** A computation that neither reads nor writes the world. *)
Definition pure {A} (m : M A) : Prop := ∃ r, ∀ w, m w = (r, w).
Lemma pure_ret {A} (a : A) : pure (mret a).
Proof. by exists (Ok a). Qed.
Lemma pure_throw {A} e : pure (throw (A := A) e).
Proof. by exists (Err e). Qed.
Lemma pure_bind {A B} (m : M A) (k : A → M B) : pure m → (∀ a, pure (k a)) → pure (m ≫= k).
Proof.
  intros [[a|e] Hm] Hk.
  - destruct (Hk a) as [r Hr]. exists r. intros w. by rewrite run_bind, Hm.
  - exists (Err e). intros w. by rewrite run_bind, Hm.
Qed.
Lemma pure_trimmed c r : pure (trimmed c r).
Proof. unfold trimmed. destruct (r !! c); [apply pure_ret|apply pure_throw]. Qed.
Create HintDb pure.
#[local] Hint Resolve pure_ret pure_throw pure_trimmed : pure.
#[local] Hint Extern 2 (pure (_ ≫= _)) => apply pure_bind; [|intros ?] : pure.
Lemma pure_map {A B} (f : A → M B) l : (∀ a, pure (f a)) → pure (map_each f l).
Proof. intros Hf. induction l as [|x l IH]; cbn [map_each]; eauto with pure. Qed.
Lemma pure_filter {A} (p : A → M bool) l : (∀ a, pure (p a)) → pure (filter_each p l).
Proof. intros Hp. induction l as [|x l IH]; cbn [filter_each]; eauto with pure. Qed.
Lemma pure_find {A} (p : A → M bool) l : (∀ a, pure (p a)) → pure (find_each p l).
Proof.
  intros Hp. induction l as [|x l IH]; cbn [find_each]; [apply pure_ret|].
  apply pure_bind; [apply Hp|intros []; eauto with pure].
Qed.
Lemma pure_run {A} (m : M A) w1 r w2 : pure m → m w1 = (r, w2) → w2 = w1 ∧ ∀ w, m w = (r, w).
Proof. intros [r' Hm]. rewrite Hm. intros [= <- <-]. done. Qed.
Lemma pure_named r : pure (named r).
Proof. unfold named. eauto with pure. Qed.
Lemma pure_eventRow event r : pure (eventRow event r).
Proof. unfold eventRow. eauto with pure. Qed.
#[local] Hint Resolve pure_named pure_eventRow : pure.

(** [m'] is [m] with one row more, under a fresh id, for each record. *)
Inductive added (now : Z) : list lead_input → gmap string lead → gmap string lead → Prop :=
| added_none m : added now [] m m
| added_one i l id m m' :
    m !! id = None → added now l (<[id := lead_of i id now]> m) m' → added now (i :: l) m m'.
Lemma added_app now l1 l2 m1 m2 m3 : added now l1 m1 m2 → added now l2 m2 m3 → added now (l1 ++ l2) m1 m3.
Proof. induction 1; [done|]. intros H3. cbn. econstructor; eauto. Qed.
Lemma added_keeps now l m m' : added now l m m' → m ⊆ m'.
Proof. induction 1; [done|]. etrans; [by apply insert_subseteq|done]. Qed.
Lemma added_size now l m m' : added now l m m' → size m' = (size m + length l)%nat.
Proof. induction 1 as [|i l id m m' Hid _ IH]; [cbn; lia|]. rewrite IH, map_size_insert_None by done. cbn. lia. Qed.
Lemma added_head now i l m m' : added now (i :: l) m m' → ∃ id, m' !! id = Some (lead_of i id now).
Proof.
  inversion 1 as [|? ? id ? ? Hid Hl]; subst. exists id. apply added_keeps in Hl.
  eapply lookup_weaken; [|exact Hl]. by rewrite lookup_insert_eq.
Qed.

Section imports.
Context `{Entropy, CsvFiles}.
(** The leads with some records more, and nothing else of the database. *)
Definition grown (l : list lead_input) (w w' : world) : Prop :=
  added (w_now w) l (db_leads (w_db w)) (db_leads (w_db w')) ∧
  w_db w' = set_db_leads (db_leads (w_db w')) (w_db w) ∧ w_now w' = w_now w.
Lemma grown_refl w w' : w_db w' = w_db w → w_now w' = w_now w → grown [] w w'.
Proof. intros Hd Hn. unfold grown. rewrite Hd. split_and!; [constructor|by destruct (w_db w)|done]. Qed.
Lemma grown_app l1 l2 w1 w2 w3 : grown l1 w1 w2 → grown l2 w2 w3 → grown (l1 ++ l2) w1 w3.
Proof.
  intros (A1 & D1 & N1) (A2 & D2 & N2). unfold grown. rewrite N2, N1. rewrite N1 in A2. split_and!; [by eapply added_app| |done].
  rewrite D2. cbn. rewrite D1. by destruct (w_db w1).
Qed.
Lemma insert_now i : respects (same w_now) (insert i).
Proof. unfold insert. frame_tac. Qed.
Lemma insert_grows i w w' : insert i w = (Ok tt, w') → grown [i] w w'.
Proof.
  unfold insert. intros (id & w1 & Hid & Hrun)%run_bind_inv. unfold date_now, gets in Hrun. rewrite run_bind in Hrun.
  apply run_bind_inv in Hrun as (x & w2 & (_ & Hk & _ & _ & ->)%db_create_inv & [= <-]).
  injection Hid as <- <-. split_and!; cbn; [|done|done]. eapply added_one; [exact Hk|constructor].
Qed.
Lemma inserts_grow l w w' : for_each l insert w = (Ok tt, w') → grown l w w'.
Proof.
  revert w. induction l as [|i l IH]; intros w; cbn [for_each]; [intros [= <-]; by apply grown_refl|].
  intros ([] & w1 & Hi & Hl)%run_bind_inv. apply (grown_app [i] l w w1); [by apply insert_grows|by apply IH].
Qed.
Lemma createMany_now l w : w_now (createMany l w).2 = w_now w.
Proof.
  unfold createMany. destruct (existsb _ l); [done|]. unfold transaction.
  assert (Hn : w_now (for_each l insert w).2 = w_now w).
  { apply respects_for_each; [apply _|]. intros i. apply insert_now. }
  by destruct (for_each l insert w) as [[[]|e] w'].
Qed.
(** One batch is inserted whole or not at all. *)
Lemma createMany_run l w :
  (∃ w', createMany l w = (Ok tt, w') ∧ grown l w w') ∨ (∃ e w', createMany l w = (Err e, w') ∧ grown [] w w').
Proof.
  pose proof (createMany_now l w) as Hn. unfold createMany in *.
  destruct (existsb _ l); [right; do 2 eexists; split; [done|by apply grown_refl]|]. unfold transaction in *.
  destruct (for_each l insert w) as [[[]|e] w'] eqn:E; cbn in Hn.
  - left. exists w'. split; [done|by apply inserts_grow].
  - right. do 2 eexists. split; [done|by apply grown_refl].
Qed.
(** The batches up to the first that fails. *)
Lemma batches_run cs w r w' :
  for_each cs createMany w = (r, w') → ∃ k, grown (concat (take k cs)) w w' ∧ (r = Ok tt → take k cs = cs).
Proof.
  revert w. induction cs as [|c cs IH]; intros w; cbn [for_each].
  - intros [= <- <-]. exists 0%nat. split; [by apply grown_refl|done].
  - rewrite run_bind. destruct (createMany_run c w) as [(w1 & -> & H1)|(e & w1 & -> & H1)].
    + intros Hr. destruct (IH w1 Hr) as (k & Hk & Hok). exists (S k). split; [by apply (grown_app c _ w w1)|].
      intros Hr'. cbn. by rewrite (Hok Hr').
    + intros [= <- <-]. by exists 0%nat.
Qed.

(** The first row with a name, among the rows to insert. *)
Lemma first_named rows w r w' people w1 w2 :
  find_each named rows w = (Ok (Some r), w') → filter_each named rows w1 = (Ok people, w2) → ∃ rest, people = r :: rest.
Proof.
  revert w people w1 w2. induction rows as [|x rows IH]; intros w people w1 w2; cbn [find_each filter_each]; [done|].
  intros (b & v1 & Hb & Hf)%run_bind_inv (b' & v2 & Hb' & Hg)%run_bind_inv.
  pose proof (pure_run _ _ _ _ (pure_named x) Hb) as [_ Hx]. rewrite (Hx w1) in Hb'. injection Hb' as -> ->.
  apply run_bind_inv in Hg as (ys & v3 & Hys & [= <- <-]). destruct b'.
  - injection Hf as -> ->. by eexists.
  - by eapply IH.
Qed.
Lemma none_named rows w w' people w1 w2 :
  find_each named rows w = (Ok None, w') → filter_each named rows w1 = (Ok people, w2) → people = [].
Proof.
  revert w people w1 w2. induction rows as [|x rows IH]; intros w people w1 w2; cbn [find_each filter_each]; [by intros _ [= <- _]|].
  intros (b & v1 & Hb & Hf)%run_bind_inv (b' & v2 & Hb' & Hg)%run_bind_inv.
  pose proof (pure_run _ _ _ _ (pure_named x) Hb) as [_ Hx]. rewrite (Hx w1) in Hb'. injection Hb' as -> ->.
  apply run_bind_inv in Hg as (ys & v3 & Hys & [= <- <-]). destruct b'; [done|]. by eapply IH.
Qed.
(** What a row becomes. *)
Definition from_row (event : string) (r : row) (i : lead_input) : Prop :=
  ∃ name, r !! "Name" = Some name ∧ li_name i = Str.trim name ∧ li_likelyToAttend i = event ∧
    li_email i = email_of (r !! "Email").
Lemma trimmed_Some c r w t w' : trimmed c r w = (Ok t, w') → ∃ s, r !! c = Some s ∧ t = Str.trim s ∧ w' = w.
Proof. unfold trimmed. destruct (r !! c) as [s|]; [|done]. intros [= <- <-]. eauto. Qed.
Lemma eventRow_from event r w i w' : eventRow event r w = (Ok i, w') → from_row event r i.
Proof.
  unfold eventRow. intros (t & w1 & _ & (name & w2 & (s & Hs & -> & _)%trimmed_Some & [= <- _])%run_bind_inv)%run_bind_inv.
  exists s. done.
Qed.
Lemma map_from event people w records w' :
  map_each (eventRow event) people w = (Ok records, w') → Forall2 (from_row event) people records.
Proof.
  revert w w' records. induction people as [|r people IH]; intros w w' records; cbn [map_each]; [by intros [= <- _]|].
  intros (i & w1 & Hi & (is_ & w2 & His & [= <- _])%run_bind_inv)%run_bind_inv.
  constructor; [by eapply eventRow_from|by eapply IH].
Qed.
Lemma filter_named rows w people w' :
  filter_each named rows w = (Ok people, w') →
  (length people ≤ length rows)%nat ∧
  Forall (λ r, ∃ name, r !! "Name" = Some name ∧ Str.nonempty (Str.trim name) = true) people.
Proof.
  revert w w' people. induction rows as [|x rows IH]; intros w w' people; cbn [filter_each]; [by intros [= <- _]|].
  intros (b & w1 & Hb & (ys & w2 & [Hl Hys]%IH & [= <- _])%run_bind_inv)%run_bind_inv.
  unfold named in Hb. apply run_bind_inv in Hb as (t & w3 & (s & Hs & -> & _)%trimmed_Some & [= <- _]).
  destruct (Str.nonempty (Str.trim s)) eqn:E; cbn; [|by split; [lia|]].
  split; [lia|]. constructor; [by exists s|done].
Qed.
(** Once the record of the first row is in, the file is not imported again. *)
Lemma guard_fires event rows w r now i id w1 w2 :
  find_each named rows w1 = (Ok (Some r), w2) → from_row event r i →
  db_leads (w_db w) !! id = Some (lead_of i id now) → alreadyImported event rows w = (Ok true, w).
Proof.
  intros Hf (name & Hn & Hin & Hie & Hiem) Hid. unfold alreadyImported.
  pose proof (pure_run _ _ _ _ (pure_find named rows pure_named) Hf) as [_ Hfind].
  rewrite run_bind, Hfind, run_bind. unfold trimmed. rewrite Hn. cbn [mret M_ret]. rewrite run_bind.
  unfold db_find_by, gets. destruct (find_row _ _) as [l|] eqn:Hfr; [done|].
  pose proof (proj1 (find_row_None _ _) Hfr id _ Hid) as Hno. unfold same_person, seq_b in Hno. cbn in Hno.
  by rewrite Hin, Hie, Hiem, !bool_decide_eq_true_2 in Hno by done.
Qed.

Lemma take_chunks_head {A} n k (x : A) l :
  (0 < n)%nat → (0 < k)%nat → ∃ l', concat (take k (chunks n (x :: l))) = x :: l'.
Proof. intros Hn Hk. destruct n as [|n]; [lia|]. destruct k as [|k]; [lia|]. by eexists. Qed.

Lemma take_chunks n k {A} (l : list A) :
  (0 < n)%nat → l = concat (take k (chunks n l)) ++ concat (drop k (chunks n l)).
Proof. intros Hn. by rewrite <- concat_app, take_drop, chunks_concat. Qed.
Lemma importRows_run event rows w r w' :
  importRows event rows w = (r, w') →
  (w' = w ∧ ∃ e, r = Err e) ∨
  ∃ people records k, filter_each named rows w = (Ok people, w) ∧ Forall2 (from_row event) people records ∧
    grown (concat (take k (chunks BATCH_SIZE records))) w w' ∧
    match r with
    | Ok (Some (n, skipped, _)) =>
        concat (take k (chunks BATCH_SIZE records)) = records ∧ n = len records ∧ n + skipped = len rows
    | Ok None => False
    | Err _ => True
    end.
Proof.
  unfold importRows. rewrite run_bind. destruct (pure_filter named rows pure_named) as [[people|e] Hp]; rewrite Hp;
    [|intros [= <- <-]; left; eauto].
  rewrite run_bind. destruct (pure_map (eventRow event) people (pure_eventRow event)) as [[records|e] Hm]; rewrite Hm;
    [|intros [= <- <-]; left; eauto].
  rewrite run_bind. destruct (importBatches records w) as [o w1] eqn:Hb. unfold importBatches in Hb.
  apply batches_run in Hb as (k & Hk & Hall). intros Hr. right. exists people, records, k.
  pose proof (map_from _ _ _ _ _ (Hm w)) as Hfrom. destruct o as [[]|e].
  - injection Hr as <- <-. apply Forall2_length in Hfrom as Hlen.
    split_and!; try done; [|unfold len; lia].
    rewrite (Hall eq_refl). apply chunks_concat. unfold BATCH_SIZE. lia.
  - injection Hr as <- <-. split_and!; done.
Qed.

(** The directory as it was. *)
Lemma grown_nothing w : added (w_now w) [] (db_leads (w_db w)) (db_leads (w_db w)) ∧
  w_db w = set_db_leads (db_leads (w_db w)) (w_db w).
Proof. split; [constructor|by destruct (w_db w)]. Qed.
Lemma records_of_event event people records rows w w' :
  filter_each named rows w = (Ok people, w') → Forall2 (from_row event) people records →
  Forall (λ i, Str.nonempty (li_name i) = true ∧ li_likelyToAttend i = event) records.
Proof.
  intros [_ Hp]%filter_named Hf. induction Hf as [|r i people records (name & Hn & Hi & He & _) _ IH]; [done|].
  apply Forall_cons in Hp as [(s & Hs & Hne) Hp]. constructor; [|by apply IH].
  rewrite Hn in Hs. injection Hs as ->. by rewrite Hi.
Qed.
(** The directory changed, so the first record is in. *)
Lemma changed_then_refused event rows r people rest records k w1 w2 w w' :
  find_each named rows w1 = (Ok (Some r), w2) → people = r :: rest → Forall2 (from_row event) people records →
  grown (concat (take k (chunks BATCH_SIZE records))) w w' → db_leads (w_db w') ≠ db_leads (w_db w) →
  alreadyImported event rows w' = (Ok true, w').
Proof.
  intros Hfind -> Hfrom (Ha & _ & _) Hne. inversion Hfrom as [|? i ? records' Hi _]; subst.
  destruct k as [|k]; [cbn in Ha; by inversion Ha; subst|].
  destruct (take_chunks_head BATCH_SIZE (S k) i records') as [l' Hl]; [unfold BATCH_SIZE; lia|lia|].
  rewrite Hl in Ha. apply added_head in Ha as [id Hid]. by eapply guard_fires.
Qed.

(** The guard only reads. *)
Lemma checked event rows w b w' : alreadyImported event rows w = (b, w') → w' = w.
Proof.
  intros Ha. assert (Hr : respects (same id) (alreadyImported event rows)).
  { unfold alreadyImported, trimmed. apply respects_bind; [apply _| |intros [r|]; frame_tac].
    intros v. destruct (pure_find named rows pure_named) as [o Ho]. by rewrite Ho. }
  specialize (Hr w). rewrite Ha in Hr. exact Hr.
Qed.

(** C38. An attendee list enters the directory at most once. A run that succeeds
    adds one approved lead, under a fresh id, for every row with a name - trimmed,
    for the event, with the e-mail in lower case - and touches nothing else. A
    run that finds its first named row already there changes nothing. After any
    run that changed the directory, a run that failed half-way included, the file
    is refused for good: nothing is imported twice, and the batches a failed run
    did not reach are never imported. *)
Theorem import_at_most_once file event rows w r w' :
  load (DATA_DIR +:+ file) "utf-8" w = (Ok rows, w) → importFile file event w = (r, w') →
  (∃ records, added (w_now w) records (db_leads (w_db w)) (db_leads (w_db w')) ∧
     w_db w' = set_db_leads (db_leads (w_db w')) (w_db w) ∧
     Forall (λ i, Str.nonempty (li_name i) = true ∧ li_likelyToAttend i = event) records ∧
     match r with
     | Ok (Some (n, skipped, _)) => n = len records ∧ n + skipped = len rows
     | Ok None => records = []
     | Err _ => True
     end) ∧
  (db_leads (w_db w') ≠ db_leads (w_db w) → importFile file event w' = (Ok None, w')).
Proof.
  intros Hload Hrun.
  assert (Hload' : ∀ v, load (DATA_DIR +:+ file) "utf-8" v = (Ok rows, v)).
  { intros v. unfold load in *. destruct (readFileSync _ _); [|done]. by injection Hload as ->. }
  unfold importFile in *. rewrite run_bind, Hload' in Hrun. rewrite run_bind, Hload'.
  rewrite run_bind in Hrun. rewrite run_bind.
  destruct (alreadyImported event rows w) as [[[|]|e] w1] eqn:Ha; pose proof (checked event rows w _ _ Ha) as ->.
  - injection Hrun as <- <-. split; [|done]. exists []. split_and!; [apply grown_nothing..|constructor|done].
  - destruct (importRows_run event rows w r w' Hrun) as [[-> [e ->]]|(people & records & k & Hp & Hf & Hg & Hr)].
    { split; [|done]. exists []. split_and!; [apply grown_nothing..|constructor|done]. }
    split.
    + eexists. split_and!; [apply Hg..| |].
      * apply (Forall_app _ _ (concat (drop k (chunks BATCH_SIZE records)))).
        rewrite <- take_chunks by (unfold BATCH_SIZE; lia). by eapply records_of_event.
      * destruct r as [[[[n s] u]|]|e]; [destruct Hr as (-> & -> & <-); done|done..].
    + intros Hne. destruct (pure_find named rows pure_named) as [[[r1|]|e] Hfind].
      * destruct (first_named _ _ _ _ _ _ _ (Hfind w) Hp) as [rest Hrest].
        by rewrite (changed_then_refused event rows r1 people rest records k w w w w').
      * rewrite (none_named _ _ _ _ _ _ (Hfind w) Hp) in Hf. inversion Hf; subst. destruct Hg as (Hg & _).
        destruct Hne. by destruct k; inversion Hg.
      * unfold alreadyImported in Ha. rewrite run_bind, Hfind in Ha. done.
  - injection Hrun as <- <-. split; [|done]. exists []. split_and!; [apply grown_nothing..|constructor|done].
Qed.

End imports.

(** ** Witness: a list of two people and a blank line *)
Section witness.
#[local] Existing Instance counter_entropy.
Definition cells (name email type : string) : row :=
  list_to_map [("Name", name); ("Email", email); ("Company", "Acme "); ("Type of Company", type)].
Definition two_people : list row :=
  [cells " Jane Doe " "Jane@Example.com" "Affiliate Network"; cells "  " "" ""; cells "Joe" "" "--"].
Definition disk : CsvFiles := {| readFileSync path enc := Ok "two people"; csv_parse raw := Ok two_people |}.
#[local] Existing Instance disk.
Definition first_run : res report * world :=
  Eval vm_compute in importFile "Leadscon 2026.csv" "Leadscon 2026" (initial_world 0).
Lemma import_at_most_once_witness :
  first_run.1 = Ok (Some (2, 1, 1)) ∧
  (λ l : lead, (l_name l, l_email l, l_companyType l)) <$> values (db_leads (w_db first_run.2)) =
    [("Joe", None, None); ("Jane Doe", Some "jane@example.com", Some AFFILIATE_NETWORK)] ∧
  importFile "Leadscon 2026.csv" "Leadscon 2026" first_run.2 = (Ok None, first_run.2).
Proof.
  split; [reflexivity|]. split; [vm_compute; reflexivity|].
  refine (proj2 (import_at_most_once "Leadscon 2026.csv" "Leadscon 2026" two_people (initial_world 0) first_run.1
    first_run.2 _ _) _).
  - reflexivity.
  - vm_compute. reflexivity.
  - intros E%(f_equal size). vm_compute in E. discriminate E.
Defined.
End witness.
End ImportProps.

(** ** A reload that fails *)
Module ReloadProps.
Import Import_.
(** import-leads.ts deletes before it reads: when its first file cannot be read,
    or does not parse, the directory is empty. *)
Lemma reload_loses_directory `{Entropy, CsvFiles} e w w' :
  load (DATA_DIR +:+ "Advertiser.csv") "utf-8" (put_rows T_leads ∅ w) = (Err e, w') →
  (importLeads w).1 = Err e ∧ db_leads (w_db (importLeads w).2) = ∅.
Proof.
  intros Hl. assert (w' = put_rows T_leads ∅ w) as ->.
  { unfold load in Hl. destruct (readFileSync _ _); by injection Hl. }
  unfold importLeads, FILES. cbn [fold_each]. unfold deleteAll, modify. rewrite run_bind, run_bind, run_bind.
  unfold reloadFile. cbn [fst]. rewrite run_bind, Hl. done.
Qed.
End ReloadProps.

(** ** Seeding settles *)
Module SeedProps.
Import Seed.
(** What a credit of the pack costs: as much as with Growth, half of Starter's
    price, and more than with Scale. *)
Lemma pack_price_per_credit `{Env} p t :
  t ∈ TIERS →
  let pack := cp_amountCents (update_pack p) * t_credits t in
  let tier := t_amountCents t * cp_credits (update_pack p) in
  (t_slug t = "growth" → pack = tier) ∧ (t_slug t = "starter" → 2 * pack = tier) ∧ (t_slug t = "scale" → tier < pack).
Proof.
  unfold TIERS. rewrite !elem_of_cons, elem_of_nil.
  intros [->|[->|[->|[->|[]]]]]; cbn; split_and!; intros ?; first [done | lia].
Qed.
Section tiers.
Context `{Entropy, Env}.
Abbreviation tiers w := (db_leadFinderTiers (w_db w)).
(** The catalogue carries the tier as the script states it. *)
Definition carries (t : tier) (m : gmap string lead_finder_tier) : Prop :=
  ∃ k r, m !! k = Some r ∧ lt_slug r = t_slug t ∧ lt_credits r = t_credits t ∧
    lt_stripePriceId r = t_stripePriceId t ∧ lt_amountCents r = t_amountCents t ∧ lt_recurring r = t_recurring t.
Definition well_kept (m : gmap string lead_finder_tier) : Prop := keyed lt_id m ∧ unique_ok T_leadFinderTiers m.
Lemma one_slug m i j a b :
  well_kept m → m !! i = Some a → m !! j = Some b → lt_slug a = lt_slug b → i = j ∧ a = b.
Proof.
  intros [_ Hu] Ha Hb Hab. destruct (decide (i = j)) as [->|Hne]; [split; congruence|].
  specialize (Hu i j a b Ha Hb Hne). cbn in Hu. unfold seq_b in Hu. by rewrite (bool_decide_eq_true_2 _ Hab) in Hu.
Qed.
Lemma put_tiers_same w : put_rows T_leadFinderTiers (tiers w) w = w.
Proof. by destruct w as [[]]. Qed.
Lemma tier_conflict_sym a b : t_conflict T_leadFinderTiers a b = t_conflict T_leadFinderTiers b a.
Proof.
  cbn. unfold seq_b. f_equal; [apply bool_decide_ext; done|].
  destruct (lt_stripePriceId a), (lt_stripePriceId b); cbn; try done. apply bool_decide_ext. done.
Qed.
(** What one upsert leaves. *)
Lemma seedTier_run t w r w' :
  seedTier t w = (Ok r, w') → well_kept (tiers w) →
  well_kept (tiers w') ∧ carries t (tiers w') ∧
  (∀ k x, lt_slug x ≠ t_slug t → tiers w !! k = Some x ↔ tiers w' !! k = Some x) ∧
  w_db w' = set_db_leadFinderTiers (tiers w') (w_db w).
Proof.
  intros Hrun [Hk Hu]. unfold seedTier, upsert, db_find_by, gets in Hrun. rewrite run_bind in Hrun. cbn [t_get T_leadFinderTiers] in Hrun.
  destruct (find_row _ _) as [x|] eqn:Hf.
  - apply find_row_Some in Hf as [Hs [k Hx]]. rewrite (Hk k x Hx) in Hrun.
    apply db_update_indexed_inv in Hrun as (x' & Hx' & -> & Hc & ->). cbn in Hx'. assert (x' = x) as -> by congruence.
    unfold seq_b in Hs. unbool. split_and!; [split| | |done]; cbn.
    + apply keyed_insert; [apply (Hk k x Hx)|done].
    + by apply (unique_ok_insert _ tier_conflict_sym).
    + exists k, (update_tier t x). rewrite lookup_insert_eq. done.
    + intros j y Hy. destruct (decide (j = k)) as [->|]; [|by rewrite lookup_insert_ne].
      rewrite lookup_insert_eq, Hx. split; intros [= <-]; cbn in Hy; congruence.
  - rewrite run_bind in Hrun. cbn [random_uuid] in Hrun. 
    destruct (random_uuid w) as [[id|e] w1] eqn:Hid; [|done].
    apply db_create_inv in Hrun as (-> & Hn & Hc & _ & ->). injection Hid as <- <-. cbn in *.
    split_and!; [split| | |done].
    + by apply keyed_insert.
    + by apply (unique_ok_insert _ tier_conflict_sym).
    + eexists _, _. rewrite lookup_insert_eq. done.
    + intros j y Hy. destruct (decide (j = rand_uuid (w_tick w))) as [->|]; [|by rewrite lookup_insert_ne].
      rewrite lookup_insert_eq, Hn. split; [done|]. intros [= <-]. by destruct Hy.
Qed.
Lemma carries_kept t t' m m' :
  carries t m → t_slug t ≠ t_slug t' → (∀ k x, lt_slug x ≠ t_slug t' → m !! k = Some x ↔ m' !! k = Some x) → carries t m'.
Proof.
  intros (k & r & Hr & Hs & Hall) Hne Hm. exists k, r. split; [|done]. apply Hm; [congruence|done].
Qed.
(** A second upsert of what is there writes what is there. *)
Lemma seedTier_again t w : well_kept (tiers w) → carries t (tiers w) → ∃ r, seedTier t w = (Ok r, w).
Proof.
  intros [Hk Hu] (k & r & Hr & Hs & Hc & Hp & Ha & Hrec).
  unfold seedTier, upsert, db_find_by, gets. rewrite run_bind. cbn [t_get T_leadFinderTiers].
  rewrite (find_row_unique _ _ k r Hr).
  - rewrite (Hk k r Hr). exists r. assert (update_tier t r = r) as E.
    { unfold update_tier. rewrite <- Hc, <- Hp, <- Ha, <- Hrec. by destruct r. }
    rewrite (db_update_indexed_run _ _ _ _ r); [|exact Hr|].
    + rewrite E. cbn [t_get T_leadFinderTiers]. rewrite insert_id by exact Hr. by rewrite put_tiers_same.
    + rewrite E. by apply (has_conflict_update _ _ k r r).
  - unfold seq_b. by apply bool_decide_eq_true_2.
  - intros k' r' Hr' Hs'. unfold seq_b in Hs'. unbool. by eapply (one_slug _ k' k); [split| | |congruence].
Qed.
Lemma seed_all ts w w' :
  NoDup (t_slug <$> ts) → for_each ts (λ t, _ ← seedTier t; mret tt) w = (Ok tt, w') → well_kept (tiers w) →
  well_kept (tiers w') ∧ Forall (λ t, carries t (tiers w')) ts ∧
  (∀ k x, lt_slug x ∉ t_slug <$> ts → tiers w !! k = Some x ↔ tiers w' !! k = Some x) ∧
  w_db w' = set_db_leadFinderTiers (tiers w') (w_db w).
Proof.
  revert w. induction ts as [|t ts IH]; intros w; cbn [for_each fmap list_fmap].
  - intros _ [= <-] Hw. split_and!; try done. by destruct (w_db w).
  - intros [Hnew Hnd]%NoDup_cons ([] & w1 & (r & w2 & Ht & [= <-])%run_bind_inv & Hts)%run_bind_inv Hw.
    destruct (seedTier_run _ _ _ _ Ht Hw) as (Hw2 & Hc & Hm & Hd).
    destruct (IH w2 Hnd Hts Hw2) as (Hw' & Hall & Hm' & Hd'). split_and!; [done| | |].
    + constructor; [|done]. destruct Hc as (k & x & Hx & Hs & Hrest). exists k, x. split; [|done].
      apply Hm'; [by rewrite Hs|done].
    + intros k x Hx. apply not_elem_of_cons in Hx as [Hx1 Hx2]. by rewrite (Hm k x Hx1), (Hm' k x Hx2).
    + rewrite Hd'. cbn. rewrite Hd. by destruct (w_db w).
Qed.
Lemma again_all ts w :
  well_kept (tiers w) → Forall (λ t, carries t (tiers w)) ts → for_each ts (λ t, _ ← seedTier t; mret tt) w = (Ok tt, w).
Proof.
  intros Hw. induction 1 as [|t ts Ht _ IH]; cbn [for_each]; [done|].
  destruct (seedTier_again t w Hw Ht) as [r Hr]. by rewrite run_bind, run_bind, Hr.
Qed.

(** Seeding the Lead Finder tiers settles: after a run that succeeds the
    catalogue carries each of the four tiers with the credits, price and Stripe
    price of the script, under one row each; no other tier changed, nor any other
    table; and a further run succeeds and changes nothing at all. *)
Lemma seeding_settles w w' :
  seedTiers w = (Ok tt, w') → well_kept (tiers w) →
  Forall (λ t, carries t (tiers w')) TIERS ∧ well_kept (tiers w') ∧
  (∀ k x, lt_slug x ∉ t_slug <$> TIERS → tiers w !! k = Some x ↔ tiers w' !! k = Some x) ∧
  w_db w' = set_db_leadFinderTiers (tiers w') (w_db w) ∧
  seedTiers w' = (Ok tt, w').
Proof.
  intros Hrun Hw. destruct (seed_all TIERS w w') as (Hw' & Hall & Hm & Hd); [|done..|].
  - repeat constructor; set_solver.
  - split_and!; try done. by apply again_all.
Qed.
End tiers.

(** ** Witness: an empty catalogue, no environment *)
Section witness.
#[local] Existing Instance counter_entropy.
Definition bare_env : Env := λ _, None.
#[local] Existing Instance bare_env.
Definition seeded : world := Eval vm_compute in (seedTiers (initial_world 0)).2.
Lemma seeding_settles_witness :
  size (db_leadFinderTiers (w_db seeded)) = 4%nat ∧ seedTiers seeded = (Ok tt, seeded).
Proof.
  split; [vm_compute; reflexivity|].
  refine (proj2 (proj2 (proj2 (proj2 (seeding_settles (initial_world 0) seeded _ _))))).
  - vm_compute. reflexivity.
  - split; [apply keyed_check|apply unique_check]; vm_compute; reflexivity.
Defined.
End witness.
End SeedProps.
