(* ===== verification/Tools.v ===== *)
(** The operators' scripts that look, that create products at Stripe, and the
    smoke test of the schema ([scripts/check-*.ts], [scripts/create-*.ts],
    [scripts/smoke-test.ts]). The connection, the environment and Stripe are
    outside the program; what a script prints as JSON is its result. *)
From S2P Require Import Prelude JsLib Schema Effects Platform Messaging Tokens Users Billing Webhooks Apollo Taxonomy Leads MailTemplate MailWorkers Integrity Fixtures Scripts.
Import Integrity.

(** ** Looking *)
Module Checks.
(** [process.exit(1)] after a message, or what is printed. *)
Inductive outcome (A : Type) := Exit (message : string) | Printed (a : A).
Arguments Exit {A} message.
Arguments Printed {A} a.
(** [if (!email)] on [process.argv\[2\]]. *)
Definition given (argv : option string) : option string :=
  match argv with Some e => if Str.nonempty e then Some e else None | None => None end.

(** check-audit.ts *)
Definition audit_line : Type := string * option json * Z.
Definition checkAudit (argv : option string) : M (list audit_line) :=
  let prefix := argv ifnull "" in
  logs ← gets (λ w, db_auditLogs (w_db w));
  mret ((λ a, (a_action a, a_metadata a, a_createdAt a)) <$>
    take 50 (order_desc a_createdAt (filter (λ a, Str.includes prefix (a_action a) = true) logs))).

(** check-leads.ts: a lead, the rows per company type, those without a
    company, and all. *)
Definition count_type (t : option company_type) (leads : list lead) : option company_type * nat :=
  (t, length (filter (λ l, l_companyType l = t) leads)).
Definition checkLeads (argv : option string) : M (option (option lead) * list (option company_type * nat) * Z * Z) :=
  found ← match given argv with
          | Some search => o ← db_find_by T_leads (λ l, Leads.contains search (Some (l_name l))); mret (Some o)
          | None => mret None
          end;
  rows ← db_find_many T_leads (λ _, true);
  emptyCompany ← db_count T_leads (λ l, bool_decide (l_company l = None));
  total ← db_count T_leads (λ _, true);
  mret (found, (λ t, count_type t rows) <$> remove_dups (l_companyType <$> rows), emptyCompany, total).

(** check-sessions.ts *)
Record session_line := SessionLine {
  sl_ip : option string; sl_country : option string; sl_city : option string; sl_timezone : option string;
  sl_riskScore : Z; sl_riskSignals : option json; sl_createdAt : Z
}.
Definition session_line_of (s : session) : session_line :=
  SessionLine (s_ipAddress s) (s_country s) (s_city s) (s_timezone s) (s_riskScore s) (s_riskSignals s) (s_createdAt s).
Definition checkSessions (argv : option string) : M (outcome (list session_line)) :=
  match given argv with
  | None => mret (Exit "Usage: check-sessions.ts <email>")
  | Some email =>
      o ← db_find_by T_users (λ u, seq_b (u_email u) email);
      match o with
      | None => mret (Exit "No user with that email")
      | Some user =>
          sessions ← db_find_many T_sessions (λ s, seq_b (s_userId s) (u_id user));
          mret (Printed (session_line_of <$> order_asc s_createdAt sessions))
      end
  end.

(** check-subscription.ts *)
Definition checkSubscription (argv : option string) : M (outcome (list (subscription * option plan * list invoice))) :=
  match given argv with
  | None => mret (Exit "Usage: check-subscription.ts <email>")
  | Some email =>
      users ← db_all T_users; plans ← db_all T_plans; invoices ← db_all T_invoices;
      subscriptions ← db_find_many T_subscriptions
        (λ s, match users !! sub_userId s with Some u => seq_b (u_email u) email | None => false end);
      mret (Printed ((λ s, (s, plans !! sub_planId s,
                            find_many (λ i, seq_b (inv_subscriptionId i) (sub_id s)) invoices)) <$>
                     order_desc sub_createdAt subscriptions))
  end.

(** Looking changes nothing. *)
Lemma checks_look argv w :
  (checkAudit argv w).2 = w ∧ (checkLeads argv w).2 = w ∧ (checkSessions argv w).2 = w ∧ (checkSubscription argv w).2 = w.
Proof.
  assert (respects (same id) (checkAudit argv)) as H1 by (unfold checkAudit; frame_tac).
  assert (respects (same id) (checkLeads argv)) as H2 by (unfold checkLeads; frame_tac).
  assert (respects (same id) (checkSessions argv)) as H3 by (unfold checkSessions; frame_tac).
  assert (respects (same id) (checkSubscription argv)) as H4 by (unfold checkSubscription; frame_tac).
  split_and!; [apply (H1 w)|apply (H2 w)|apply (H3 w)|apply (H4 w)].
Qed.
(** The groups of check-leads count every lead once. *)
Lemma count_once {A} `{EqDecision A} (ts : list A) (f : A → nat) x :
  NoDup ts → x ∈ ts →
  sum_list ((λ t, (if decide (x = t) then 1 else 0) + f t)%nat <$> ts) = S (sum_list (f <$> ts)).
Proof.
  assert (∀ l, x ∉ l → sum_list ((λ t, (if decide (x = t) then 1 else 0) + f t)%nat <$> l) = sum_list (f <$> l)) as Hout.
  { induction l as [|y l IH]; [done|]. intros [Hne Hl]%not_elem_of_cons. cbn. rewrite IH by done.
    by rewrite decide_False. }
  induction 1 as [|y l Hy Hl IH]; [by intros ?%not_elem_of_nil|]. intros [->|Hx]%elem_of_cons; cbn.
  - rewrite decide_True, Hout by done. lia.
  - rewrite IH by done. destruct (decide (x = y)) as [->|]; [done|]. lia.
Qed.
Lemma groups_sum rows :
  sum_list (snd <$> ((λ t, count_type t rows) <$> remove_dups (l_companyType <$> rows))) = length rows.
Proof.
  rewrite <- list_fmap_compose. set (ts := remove_dups _).
  assert (NoDup ts) as Hnd by apply NoDup_remove_dups.
  assert (∀ l, l ∈ rows → l_companyType l ∈ ts) as Hin.
  { intros l Hl. apply elem_of_remove_dups, list_elem_of_fmap. by exists l. }
  clearbody ts. induction rows as [|l rows IH].
  { clear. induction ts as [|t ts IH]; [done|exact IH]. }
  cbn [length]. rewrite <- IH by (intros x Hx; apply Hin; by right).
  rewrite <- (count_once ts _ (l_companyType l)); [|done|apply Hin; by left].
  f_equal. apply list_fmap_ext. intros _ t _. unfold count_type. cbn [compose snd]. rewrite filter_cons.
  by destruct (decide (l_companyType l = t)).
Qed.
End Checks.

(** ** Creating products at Stripe *)
Module Create.
Inductive catalogue_call :=
| ProductCreate (name description tax_code : string)
| PriceCreate (product : string) (unit_amount : Z) (currency : string) (recurring : option string).
(** The id Stripe gives the object of the last call. *)
Class StripeCatalogue := catalogue_id : list catalogue_call → res string.
(** The calls made so far, and what is printed. *)
Definition S (A : Type) : Type := list catalogue_call → res A * list catalogue_call.
#[export] Instance S_ret : MRet S := λ A a l, (Ok a, l).
#[export] Instance S_bind : MBind S := λ A B k m l,
  match m l with
  | (Ok a, l') => k a l'
  | (Err e, l') => (Err e, l')
  end.
Section create.
Context `{StripeCatalogue}.
Definition catalogue_do (c : catalogue_call) : S string := λ l, (catalogue_id (l ++ [c]), l ++ [c]).
Definition SAAS_BUSINESS : string := "txcd_10103001".
(** [(cents / 100).toFixed(2)] *)
Definition dollars (cents : Z) : string := pretty (cents / 100) +:+ "." +:+ Date.pad 2 (cents mod 100).
Definition line (l : list string) : string := Str.join "" l.

(** create-stripe-plan.ts *)
Definition createPlan : S (list string) :=
  product ← catalogue_do (ProductCreate "Full Access"
    "Unlimited directory searches, full verified contact records, unlimited CSV export." SAAS_BUSINESS);
  price ← catalogue_do (PriceCreate product 20000 "usd" (Some "month"));
  mret [line ["Created product: "; product]; line ["Created price: "; price]; line [Claude.newline; "STRIPE_PRICE_ID="; price]].

(** create-credit-pack.ts *)
Definition createCreditPack : S (list string) :=
  product ← catalogue_do (ProductCreate "Lead Finder credit pack"
    "500 additional Lead Finder credits — never expire, used after your free balance runs out." SAAS_BUSINESS);
  price ← catalogue_do (PriceCreate product 3900 "usd" None);
  mret [line ["Created product: "; product]; line ["Created price: "; price];
        line [Claude.newline; "STRIPE_CREDIT_PACK_PRICE_ID="; price]].

(** create-lead-finder-tiers.ts *)
Record tier := Tier { name : string; credits : Z; unitAmount : Z }.
Definition TIERS : list tier := [Tier "Starter" 100 2000; Tier "Growth" 500 5000; Tier "Scale" 1000 9000].
Definition createTier (t : tier) : S string :=
  product ← catalogue_do (ProductCreate (line ["Lead Finder — "; name t])
    (line [pretty (credits t); " Lead Finder leads per month."]) SAAS_BUSINESS);
  price ← catalogue_do (PriceCreate product (unitAmount t) "usd" (Some "month"));
  mret (line [name t; ": product="; product; " price="; price; " ($"; dollars (unitAmount t); "/mo, ";
              pretty (credits t); " credits)"]).
Fixpoint createAll (ts : list tier) : S (list string) :=
  match ts with
  | [] => mret []
  | t :: ts => l ← createTier t; ls ← createAll ts; mret (l :: ls)
  end.
Definition createTiers : S (list string) := createAll TIERS.

(** The tiers are created at the prices and with the credits that the seed
    shows. *)
Lemma tiers_as_seeded `{Env} :
  Forall (λ t, Exists (λ s, Seed.t_name s = name t ∧ Seed.t_credits s = credits t ∧ Seed.t_amountCents s = unitAmount t)
    Seed.TIERS) TIERS.
Proof.
  unfold TIERS, Seed.TIERS. rewrite !Forall_cons. split_and!; [..|by apply Forall_nil];
    repeat first [apply Exists_cons_hd; by split_and!|apply Exists_cons_tl].
Qed.
(** The plan and the pack are not: the price created for the plan is 200 dollars
    a month, the one the seed shows is 50 dollars for six months; the pack's
    is 39 dollars against 50. *)
Lemma plan_not_as_seeded `{Env} l ls l' p :
  createPlan l = (Ok ls, l') →
  ∃ product, l' = l ++ [ProductCreate "Full Access"
      "Unlimited directory searches, full verified contact records, unlimited CSV export." SAAS_BUSINESS;
      PriceCreate product 20000 "usd" (Some "month")] ∧
    pl_amountCents (Seed.update_plan p) = 5000 ∧ pl_interval (Seed.update_plan p) = SIX_MONTHS.
Proof.
  unfold createPlan, catalogue_do, mbind, S_bind. destruct (catalogue_id (l ++ _)) as [product|]; [|done].
  destruct (catalogue_id _) as [price|]; [|done]. intros [= _ <-]. exists product. by rewrite <- app_assoc.
Qed.
Lemma pack_not_as_seeded `{Env} l ls l' p :
  createCreditPack l = (Ok ls, l') →
  ∃ product, last l' = Some (PriceCreate product 3900 "usd" None) ∧ cp_amountCents (Seed.update_pack p) = 5000.
Proof.
  unfold createCreditPack, catalogue_do, mbind, S_bind. destruct (catalogue_id (l ++ _)) as [product|]; [|done].
  destruct (catalogue_id _) as [price|]; [|done]. intros [= _ <-]. exists product. by rewrite last_snoc.
Qed.
End create.
End Create.

(** ** The smoke test of the schema *)
Module SmokeTest.
Definition without {R} (P : R → bool) (m : gmap string R) : gmap string R := filter (λ kv, P kv.2 = false) m.
Definition orphan_lead (l : lead) : lead :=
  Mk_lead (l_id l) (l_name l) (l_title l) (l_company l) (l_website l) (l_linkedin l) (l_appLink l) (l_email l)
    (l_phone l) (l_companyType l) (l_likelyToAttend l) (l_approved l) None (l_createdAt l).
Definition orphan_prospect (q : prospect) : prospect :=
  Mk_prospect (pq_id q) (pq_email q) (pq_status q) None (pq_createdAt q) (pq_sentAt q).
Definition anonymous_entry (k : string) (a : audit_log) : audit_log :=
  if bool_decide (a_actorUserId a = Some k)
  then Mk_audit_log None (a_action a) (a_targetType a) (a_targetId a) (a_metadata a) (a_ipAddress a) (a_createdAt a)
  else a.
(** [onDelete: Restrict]: billing history keeps a user, a subscription a plan,
    an invoice its subscription. *)
Definition billed (d : db) (k : string) : bool :=
  existsb (λ s, seq_b (sub_userId s) k) (values (db_subscriptions d)) ||
  existsb (λ s, seq_b (lfs_userId s) k) (values (db_leadFinderSubscriptions d)).
(** [onDelete: Cascade] and [SetNull] of the relations to a user. *)
Definition cascade (k : string) (d : db) : db :=
  let own {R} (f : R → string) (r : R) := seq_b (f r) k in
  let lost := λ s, match s_deviceId s with
                   | Some id => match db_devices d !! id with Some v => seq_b (d_userId v) k | None => false end
                   | None => false
                   end in
  let gone := λ r, match db_leadSearchJobs d !! r_jobId r with Some j => seq_b (j_userId j) k | None => false end in
  Mk_db (delete k (db_users d)) (without (λ v, seq_b (d_userId v) k) (db_devices d))
    (update_where lost (set_s_deviceId None) (without (λ s, seq_b (s_userId s) k) (db_sessions d)))
    (without (λ v, seq_b (vt_userId v) k) (db_verificationTokens d))
    (without (λ c, seq_b (cr_userId c) k) (db_consentRecords d))
    (without (λ i, seq_b (i_inviterId i) k) (db_invites d))
    (without (λ i, seq_b (ai_invitedByUserId i) k) (db_adminAccessInvites d))
    (db_plans d) (db_creditPacks d) (db_leadFinderTiers d) (db_subscriptions d) (db_leadFinderSubscriptions d)
    (db_invoices d) (without (λ g, seq_b (g_userId g) k) (db_creditGrants d))
    (update_where (λ l, bool_decide (l_submittedByUserId l = Some k)) orphan_lead (db_leads d))
    (without (λ j, seq_b (j_userId j) k) (db_leadSearchJobs d)) (without gone (db_leadSearchResults d))
    (db_contactMessages d) (db_emailSuppressions d)
    (update_where (λ q, bool_decide (pq_uploadedByUserId q = Some k)) orphan_prospect (db_prospectInviteQueue d))
    (db_campaignSettings d) (anonymous_entry k <$> db_auditLogs d).
Definition user_delete (k : string) : M unit := λ w,
  match db_users (w_db w) !! k with
  | None => (Err (PrismaKnown "P2025"), w)
  | Some _ => if billed (w_db w) k then (Err (PrismaKnown "P2003"), w) else (Ok tt, put_db (cascade k (w_db w)) w)
  end.
Definition subscription_delete (k : string) : M subscription := λ w,
  if existsb (λ i, seq_b (inv_subscriptionId i) k) (values (db_invoices (w_db w)))
  then (Err (PrismaKnown "P2003"), w) else db_delete T_subscriptions k w.
Definition plan_delete (k : string) : M plan := λ w,
  if existsb (λ s, seq_b (sub_planId s) k) (values (db_subscriptions (w_db w)))
  then (Err (PrismaKnown "P2003"), w) else db_delete T_plans k w.

Section smoke.
Context `{Entropy}.
Definition smoke_plan (id : string) : plan := Mk_plan id "Full Access" "full-access" "price_test_123" MONTH 20000 "usd" true.
Definition smoke_user (id : string) (now : Z) : user :=
  Users.new_user id "smoke-test@example.com" "Smoke Test" "not-a-real-hash" None USER false false now.
Definition smoke_subscription (id userId planId : string) (now : Z) : subscription :=
  Mk_subscription id userId planId "cus_test_123" "sub_test_123" ACTIVE now (now + 30 * 24 * 60 * 60 * 1000)
    false None None None now.
(** [main]: the exit code. *)
Definition main : M Z :=
  planId ← random_uuid; plan ← db_create T_plans planId (smoke_plan planId);
  userId ← random_uuid; now ← date_now; user ← db_create T_users userId (smoke_user userId now);
  subId ← random_uuid;
  subscription ← db_create T_subscriptions subId (smoke_subscription subId (u_id user) (pl_id plan) now);
  _ ← db_find_by T_subscriptions (λ s, seq_b (sub_userId s) (u_id user) && bool_decide (sub_status s = ACTIVE));
  exitCode ← try_catch (_ ← user_delete (u_id user); mret 1) (λ _, mret 0);
  _ ← subscription_delete (sub_id subscription); _ ← user_delete (u_id user); _ ← plan_delete (pl_id plan);
  mret exitCode.
Definition run : M Z := try_catch main (λ _, mret 1).

(** Nothing points to an account that does not exist. *)
Lemma without_none {R} (P : R → bool) m : (∀ k r, m !! k = Some r → P r = false) → without P m = m.
Proof. intros Hm. apply map_filter_id. intros k r Hr. by eapply Hm. Qed.
Lemma update_none {R} (P : R → bool) f (m : gmap string R) :
  (∀ k r, m !! k = Some r → P r = false) → update_where P f m = m.
Proof.
  intros Hm. apply map_eq. intros k. rewrite lookup_update_where. destruct (m !! k) as [r|] eqn:Hr; [|done].
  cbn. by rewrite (Hm k r Hr).
Qed.
Lemma points_elsewhere d u k : db_users d !! u = None → user_exists d k = true → seq_b k u = false.
Proof.
  unfold user_exists, exists_in. intros Hu Hk%bool_decide_eq_true_1. apply bool_decide_eq_false. intros ->.
  rewrite Hu in Hk. by destruct Hk.
Qed.
Lemma without_own {R} (T : table R) id f d u :
  intact T id d → db_users d !! u = None → (∀ r, t_fk T d r = true → user_exists d (f r) = true) →
  without (λ r, seq_b (f r) u) (t_get T d) = t_get T d.
Proof.
  intros (_ & _ & Hfk) Hu Hf. apply without_none. intros k r Hr. by eapply points_elsewhere, Hf, Hfk.
Qed.
Lemma update_own {R} (T : table R) id (f : R → option string) d u :
  intact T id d → db_users d !! u = None → (∀ r k, t_fk T d r = true → f r = Some k → user_exists d k = true) →
  ∀ g, update_where (λ r, bool_decide (f r = Some u)) g (t_get T d) = t_get T d.
Proof.
  intros (_ & _ & Hfk) Hu Hf g. apply update_none. intros k r Hr. apply bool_decide_eq_false. intros Heq.
  specialize (Hf r u (Hfk _ _ Hr) Heq). pose proof (points_elsewhere d u u Hu Hf) as Hne.
  unfold seq_b in Hne. by rewrite bool_decide_eq_true_2 in Hne.
Qed.
Ltac none_of law f H Hu :=
  let E := fresh in
  pose proof (λ h, law _ _ _ f _ _ H Hu h) as E; cbn in E; rewrite E;
  [clear E|clear; cbn; intros; rewrite ?andb_true_iff in *; destruct_and?; by simplify_option_eq].
(** So erasing a new account takes its row and nothing else. *)
Lemma cascade_new (d : db) u x :
  sound d → db_users d !! u = None → cascade u (set_db_users (<[u := x]> (db_users d)) d) = d.
Proof.
  intros [? Hde Hse Hto Hco Hin Hai ? ? ? ? ? ? Hgr Hle Hjo Hre ? ? Hqu ? Hau] Hu.
  unfold cascade. cbn -[delete insert]. rewrite delete_insert_id by done.
  none_of @without_own d_userId Hde Hu. none_of @without_own s_userId Hse Hu.
  none_of @without_own vt_userId Hto Hu. none_of @without_own cr_userId Hco Hu.
  none_of @without_own i_inviterId Hin Hu. none_of @without_own ai_invitedByUserId Hai Hu.
  none_of @without_own g_userId Hgr Hu. none_of @without_own j_userId Hjo Hu.
  none_of @update_own l_submittedByUserId Hle Hu. none_of @update_own pq_uploadedByUserId Hqu Hu.
  rewrite (update_none _ _ (db_sessions d)), without_none.
  - assert (anonymous_entry u <$> db_auditLogs d = db_auditLogs d) as ->; [|by destruct d].
    unfold actors_exist in Hau. induction Hau as [|e l He Hl IH]; [done|]. cbn. rewrite IH. f_equal.
    unfold anonymous_entry. case_bool_decide as Ha; [|done]. specialize (He u Ha). unfold user_exists, exists_in in He.
    rewrite Hu, bool_decide_eq_true in He. by destruct He.
  - intros k r _. destruct (db_leadSearchJobs d !! r_jobId r) as [j|] eqn:Hj; [|done].
    eapply points_elsewhere; [exact Hu|]. by apply (proj2 (proj2 Hjo)) in Hj.
  - intros k s _. destruct (s_deviceId s) as [v|]; [|done]. destruct (db_devices d !! v) as [dv|] eqn:Hv; [|done].
    eapply points_elsewhere; [exact Hu|]. by apply (proj2 (proj2 Hde)) in Hv.
Qed.
Lemma existsb_values {R} (f : R → string) m k :
  existsb (λ r, seq_b (f r) k) (values m) = true ↔ ∃ i r, m !! i = Some r ∧ f r = k.
Proof.
  rewrite existsb_exists. unfold values. split.
  - intros (r & Hr & Heq). apply list_elem_of_In, list_elem_of_fmap in Hr as ([i r'] & -> & Hi).
    apply elem_of_map_to_list in Hi. unfold seq_b in Heq. unbool. by exists i, r'.
  - intros (i & r & Hi & <-). exists r. split; [|unfold seq_b; by apply bool_decide_eq_true].
    apply list_elem_of_In, list_elem_of_fmap. exists (i, r). split; [done|]. by apply elem_of_map_to_list.
Qed.
Lemma existsb_no_value {R} (f : R → string) m k :
  (∀ i r, m !! i = Some r → f r ≠ k) → existsb (λ r, seq_b (f r) k) (values m) = false.
Proof. intros Hm. apply not_true_iff_false. intros (i & r & Hr & Hk)%existsb_values. by apply (Hm i r). Qed.
Lemma user_delete_run k w : is_Some (db_users (w_db w) !! k) →
  user_delete k w =
    if billed (w_db w) k then (Err (PrismaKnown "P2003"), w) else (Ok tt, put_db (cascade k (w_db w)) w).
Proof. intros [x Hx]. unfold user_delete. by rewrite Hx. Qed.

#[export] Instance st_plans : SoundTable T_plans pl_id.
Proof. sound_table. Qed.
(** On a sound database with room for its rows the test passes, and leaves the
    database as it found it. *)
(** A plan that already has the slug, such as the one the seed keeps, stops the
    test at its first row. *)
Lemma smoke_stops w k r :
  db_plans (w_db w) !! k = Some r → k ≠ rand_uuid (w_tick w) → pl_slug r = "full-access" →
  run w = (Ok 1, put_tick (S (w_tick w)) w).
Proof.
  intros Hr Hk Hslug. unfold run, try_catch, main.
  rewrite (run_bind_ok _ _ _ (rand_uuid (w_tick w)) (put_tick (S (w_tick w)) w)) by done.
  erewrite run_bind_err; [done|]. unfold db_create. cbv zeta.
  destruct (has_conflict _ _ _ _) eqn:Hc; [by rewrite orb_true_r|].
  rewrite has_conflict_false in Hc. specialize (Hc k r Hr Hk). cbn in Hc. unfold seq_b in Hc.
  by rewrite Hslug in Hc.
Qed.
(** An account with the test's address stops it at its second: the plan stays. *)
Lemma smoke_leaves_a_plan w :
  let p := rand_uuid (w_tick w) in let u := rand_uuid (S (w_tick w)) in
  db_plans (w_db w) !! p = None →
  has_conflict T_plans (db_plans (w_db w)) p (smoke_plan p) = false →
  has_conflict T_users (db_users (w_db w)) u (smoke_user u (w_now w)) = true →
  ∃ w', run w = (Ok 1, w') ∧ db_plans (w_db w') !! p = Some (smoke_plan p).
Proof.
  intros p u Hp Hpc Huc. unfold run, try_catch, main.
  rewrite (run_bind_ok _ _ _ p (put_tick (S (w_tick w)) w)) by done.
  set (w1 := put_db (set_db_plans (<[p := smoke_plan p]> (db_plans (w_db w))) (w_db w)) (put_tick (S (w_tick w)) w)).
  rewrite (run_bind_ok _ _ _ (smoke_plan p) w1) by (etrans; [by apply db_create_run|done]).
  rewrite (run_bind_ok _ _ _ u (put_tick (S (S (w_tick w))) w1)) by done.
  rewrite (run_bind_ok _ _ _ (w_now w) (put_tick (S (S (w_tick w))) w1)) by done.
  erewrite (run_bind_err _ _ _ _ (put_tick (S (S (w_tick w))) w1));
    [eexists; split; [done|]; cbn; by rewrite lookup_insert_eq|].
  unfold db_create. cbv zeta. change (has_conflict T_users (t_get T_users _) _ _) with
    (has_conflict T_users (db_users (w_db w)) u (smoke_user u (w_now w))). by rewrite Huc, orb_true_r.
Qed.
Section passing.
Context (w : world).
Let d := w_db w.
Let t := w_tick w.
Let p := rand_uuid t.
Let u := rand_uuid (S t).
Let s := rand_uuid (S (S t)).
Let d1 := set_db_plans (<[p := smoke_plan p]> (db_plans d)) d.
Let d2 := set_db_users (<[u := smoke_user u (w_now w)]> (db_users d1)) d1.
Let d3 := set_db_subscriptions (<[s := smoke_subscription s u p (w_now w)]> (db_subscriptions d2)) d2.
Let w1 := put_db d1 (put_tick (S t) w).
Let w2 := put_db d2 (put_tick (S (S t)) w).
Let w3 := put_db d3 (put_tick (S (S (S t))) w).
Hypothesis Hs : sound d.
Hypothesis Hp : db_plans d !! p = None.
Hypothesis Hpc : has_conflict T_plans (db_plans d) p (smoke_plan p) = false.
Hypothesis Hu : db_users d !! u = None.
Hypothesis Huc : has_conflict T_users (db_users d) u (smoke_user u (w_now w)) = false.
Hypothesis Hsub : db_subscriptions d !! s = None.
Hypothesis Hsubc : ∀ k r, db_subscriptions d !! k = Some r → sub_stripeSubscriptionId r ≠ "sub_test_123".

Lemma no_earlier_subscription k r : db_subscriptions d !! k = Some r → sub_userId r ≠ u ∧ sub_planId r ≠ p.
Proof using All.
  intros Hr. destruct (so_subscriptions d Hs) as (_ & _ & Hfk). apply Hfk in Hr. cbn in Hr.
  unfold user_exists, exists_in in Hr. apply andb_true_iff in Hr as [H1 H2]. apply bool_decide_eq_true in H1, H2.
  split; intros Heq; rewrite Heq in *; [rewrite Hu in H1; by destruct H1|rewrite Hp in H2; by destruct H2].
Qed.
Lemma restricted : user_delete u w3 = (Err (PrismaKnown "P2003"), w3).
Proof using Type.
  rewrite user_delete_run by (cbn; rewrite lookup_insert_eq; by eexists). change (w_db w3) with d3.
  assert (billed d3 u = true) as ->; [|done]. unfold billed. apply orb_true_iff. left. apply existsb_values.
  exists s, (smoke_subscription s u p (w_now w)). split; [|done]. cbn. by rewrite lookup_insert_eq.
Qed.
Lemma subscription_erased : subscription_delete s w3 = (Ok (smoke_subscription s u p (w_now w)), put_db d2 w3).
Proof using All.
  unfold subscription_delete. rewrite existsb_no_value.
  - unfold db_delete. cbn -[insert delete]. rewrite lookup_insert_eq, delete_insert_id by done. by destruct w as [[] ].
  - intros k r Hr Heq. destruct (so_invoices d Hs) as (_ & _ & Hfk). apply Hfk in Hr. cbn in Hr.
    unfold exists_in in Hr. rewrite bool_decide_eq_true in Hr. cbn in Heq. rewrite Heq, Hsub in Hr. by destruct Hr.
Qed.
Lemma user_erased : user_delete u (put_db d2 w3) = (Ok tt, put_db d1 w3).
Proof using All.
  rewrite user_delete_run by (cbn; rewrite lookup_insert_eq; by eexists).
  change (w_db (put_db d2 w3)) with d2. assert (billed d2 u = false) as ->.
  { unfold billed. apply orb_false_iff. split; apply existsb_no_value; intros k r Hr.
    - by apply (no_earlier_subscription k r).
    - destruct (so_lfSubscriptions d Hs) as (_ & _ & Hfk). apply Hfk in Hr. cbn in Hr. apply andb_true_iff in Hr as [Hr _].
      pose proof (points_elsewhere d u _ Hu Hr) as Hne. unfold seq_b in Hne. by unbool. }
  unfold d2. rewrite cascade_new; [done| |done].
  apply (insert_sound T_plans pl_id p (smoke_plan p) w Hs); [done|exact Hpc|done].
Qed.
Lemma plan_erased : plan_delete p (put_db d1 w3) = (Ok (smoke_plan p), put_db d w3).
Proof using All.
  unfold plan_delete. rewrite existsb_no_value.
  - unfold db_delete. cbn -[insert delete]. rewrite lookup_insert_eq, delete_insert_id by done. by destruct w as [[] ].
  - intros k r Hr. by apply (no_earlier_subscription k r).
Qed.
Lemma smoke_passes : ∃ w', run w = (Ok 0, w') ∧ w_db w' = w_db w.
Proof using All.
  assert (main w = (Ok 0, put_db d w3)) as Hmain; [|unfold run, try_catch; rewrite Hmain; by eexists].
  unfold main.
  rewrite (run_bind_ok _ _ _ p (put_tick (S t) w)) by done.
  rewrite (run_bind_ok _ _ _ (smoke_plan p) w1) by (etrans; [by apply db_create_run|done]).
  rewrite (run_bind_ok _ _ _ u (put_tick (S (S t)) w1)) by done.
  rewrite (run_bind_ok _ _ _ (w_now w) (put_tick (S (S t)) w1)) by done.
  rewrite (run_bind_ok _ _ _ (smoke_user u (w_now w)) w2) by (etrans; [by apply db_create_run|done]).
  rewrite (run_bind_ok _ _ _ s (put_tick (S (S (S t))) w2)) by done.
  rewrite (run_bind_ok _ _ _ (smoke_subscription s u p (w_now w)) w3).
  2: { etrans; [apply db_create_run|done]; [done| |].
    - apply has_conflict_false. intros k r Hr _. cbn in Hr. destruct (no_earlier_subscription k r Hr) as [Hne _].
      cbn. unfold seq_b. rewrite !bool_decide_eq_false_2; [done|congruence|]. intros Heq. by apply (Hsubc k r).
    - cbn. unfold user_exists, exists_in. cbn. by rewrite !lookup_insert_eq. }
  etrans; [apply run_bind_ok; reflexivity|]. cbn beta.
  rewrite (run_bind_ok _ _ _ 0 w3).
  2: { unfold try_catch. rewrite run_bind. change (u_id _) with u. by rewrite restricted. }
  rewrite (run_bind_ok _ _ _ _ _ subscription_erased), (run_bind_ok _ _ _ _ _ user_erased).
  by rewrite (run_bind_ok _ _ _ _ _ plan_erased).
Qed.
End passing.
End smoke.
End SmokeTest.
