(* ===== verification/Bootstrap.v ===== *)
(** main.ts: what stands in front of the routes - the maintenance response, the
    body parsers, CORS - and how the process ends on a signal; and how a flag of a
    query string is read. *)
From S2P Require Import Prelude JsLib Schema Config.

(** ** Flags in query strings *)
Module QueryFlag.
(** [ParseQueryBoolean]: the two literals become booleans, the rest is left for
    [@IsBoolean] to refuse. *)
Definition ParseQueryBoolean (value : json) : json :=
  match value with
  | JStr s =>
      if bool_decide (s = "true") then JBool true
      else if bool_decide (s = "false") then JBool false
      else value
  | _ => value
  end.
Definition isBoolean (value : json) : bool := match value with JBool _ => true | _ => false end.
(** [?flag=false] is false; nothing but the two literals passes as a flag. *)
Lemma flags_read s b :
  ParseQueryBoolean (JStr s) = JBool b ↔ s = (if b then "true" else "false").
Proof.
  unfold ParseQueryBoolean. repeat case_bool_decide; subst; destruct b; split; intros E; try done; by simplify_eq.
Qed.
Lemma other_text_refused s : s ≠ "true" → s ≠ "false" → isBoolean (ParseQueryBoolean (JStr s)) = false.
Proof. intros Ht Hf. unfold ParseQueryBoolean. by rewrite !bool_decide_eq_false_2. Qed.
End QueryFlag.

(** ** Middleware *)
Module Middleware.
(** What the parsers look at. *)
Inductive content := JsonType | FormType | OtherType.
Record incoming := Incoming { in_path : string; in_content : content; in_length : Z }.
(** How the body reaches the route. *)
Inductive seen := Unread | Raw_ | Json_ | Form_.
Inductive middleware :=
| Paused
| Helmet
| CookieParser
| Raw (path : string)
| Json (limit : Z)
| Urlencoded (limit : Z).
Inductive passage :=
| Reaches (body : seen)
| Short (status : Z) (error message : string).

(** Express mounts on whole path segments, whatever their case. *)
Definition mounted (prefix path : string) : bool :=
  let p := Str.toLowerCase path in
  bool_decide (p = prefix) || Str.startsWith (prefix +:+ "/") p.
(** 100kb, the default of body-parser, and 10mb. *)
Definition DEFAULT_LIMIT : Z := 102400.
Definition LIMIT : Z := 10 * 1024 * 1024.
Definition parse (limit : Z) (as_ : seen) (rq : incoming) : passage :=
  if limit <? in_length rq then Short 413 "Payload Too Large" "request entity too large" else Reaches as_.
Definition json_type (rq : incoming) : bool := match in_content rq with JsonType => true | _ => false end.
Definition form_type (rq : incoming) : bool := match in_content rq with FormType => true | _ => false end.
(** A parser leaves a body alone that an earlier one has read. *)
Definition pass (m : middleware) (b : seen) (rq : incoming) : passage :=
  match m, b with
  | Paused, _ => Short 503 "Service Unavailable" "conference.contact is temporarily unavailable."
  | Raw path, Unread => if mounted path (in_path rq) && json_type rq then parse DEFAULT_LIMIT Raw_ rq else Reaches b
  | Json limit, Unread => if json_type rq then parse limit Json_ rq else Reaches b
  | Urlencoded limit, Unread => if form_type rq then parse limit Form_ rq else Reaches b
  | _, _ => Reaches b
  end.
Fixpoint through (ms : list middleware) (b : seen) (rq : incoming) : passage :=
  match ms with
  | [] => Reaches b
  | m :: ms => match pass m b rq with Reaches b => through ms b rq | s => s end
  end.
(** Behind the maintenance block. *)
Definition parsers : list middleware :=
  [Helmet; CookieParser; Raw "/api/v1/webhooks/stripe"; Raw "/api/v1/webhooks/resend"; Json LIMIT; Urlencoded LIMIT].
Definition bootstrap : list middleware := Paused :: parsers.

(** [enableCors]: the one origin of production, any origin elsewhere. *)
Definition origin_allowed {cfg : config} (origin : string) : bool :=
  if bool_decide (NODE_ENV cfg = "production") then bool_decide (origin = FRONTEND_URL cfg) else true.
(** Swagger's pages under api/docs. *)
Definition docs_served {cfg : config} : bool := negb (bool_decide (NODE_ENV cfg = "production")).

(** While the maintenance block stands no request reaches a route. *)
Lemma everything_is_paused rq :
  through bootstrap Unread rq = Short 503 "Service Unavailable" "conference.contact is temporarily unavailable.".
Proof. reflexivity. Qed.
(** Behind it a signed webhook body reaches its route as the bytes sent, if it is
    no larger than the default limit; any other JSON body is parsed. *)
Lemma webhooks_raw rq :
  (mounted "/api/v1/webhooks/stripe" (in_path rq) = true ∨ mounted "/api/v1/webhooks/resend" (in_path rq) = true) →
  in_content rq = JsonType →
  through parsers Unread rq =
    if DEFAULT_LIMIT <? in_length rq then Short 413 "Payload Too Large" "request entity too large" else Reaches Raw_.
Proof.
  intros Hm Ht. unfold parsers. cbn [through pass]. unfold json_type. rewrite Ht.
  destruct (mounted "/api/v1/webhooks/stripe" (in_path rq)); cbn [andb].
  - unfold parse. destruct (DEFAULT_LIMIT <? in_length rq); reflexivity.
  - destruct Hm as [|E2]; [done|]. rewrite E2. cbn [andb]. unfold parse.
    destruct (DEFAULT_LIMIT <? in_length rq); reflexivity.
Qed.
End Middleware.

(** ** Shutdown *)
Module Shutdown.
Definition HARD_SHUTDOWN_TIMEOUT_MS : Z := 10000.
(** [Drained]: nothing is left to run, so the process ends by itself (the timer
    is [unref]'d). *)
Inductive event := SIGTERM | SIGINT | CloseResolves | CloseRejects | Drained.
(** [deadline] is when the forced exit fires, once [shuttingDown]. *)
Record process := Process { deadline : option Z; closes : nat; exited : option (Z * Z) }.
Definition running : process := Process None 0 None.
Definition exit_ (t code : Z) (p : process) : process := Process (deadline p) (closes p) (Some (t, code)).
Definition shutdown (t : Z) (p : process) : process :=
  match deadline p with
  | Some _ => p
  | None => Process (Some (t + HARD_SHUTDOWN_TIMEOUT_MS)) (S (closes p)) (exited p)
  end.
(** The promise of [app.close()] settles only after it was called. *)
Definition handle (t : Z) (e : event) (p : process) : process :=
  match e with
  | SIGTERM | SIGINT => shutdown t p
  | CloseResolves => match deadline p with Some _ => exit_ t 0 p | None => p end
  | CloseRejects => match deadline p with Some _ => exit_ t 1 p | None => p end
  | Drained => exit_ t 0 p
  end.
(** Up to time [t] the timer may fire. *)
Definition elapse (t : Z) (p : process) : process :=
  match exited p, deadline p with
  | None, Some d => if d <=? t then exit_ d 1 p else p
  | _, _ => p
  end.
Definition step (p : process) (te : Z * event) : process :=
  let p := elapse te.1 p in
  match exited p with Some _ => p | None => handle te.1 te.2 p end.
(** Everything that happens up to [horizon]. *)
Definition run (events : list (Z * event)) (horizon : Z) (p : process) : process :=
  elapse horizon (foldl step p events).

(** Where a process that got its signal at [t0] stands at a time. *)
Definition ending (t0 : Z) (p : process) : Prop :=
  closes p = 1%nat ∧ deadline p = Some (t0 + HARD_SHUTDOWN_TIMEOUT_MS) ∧
  match exited p with
  | Some (t, code) => t0 ≤ t ≤ t0 + HARD_SHUTDOWN_TIMEOUT_MS ∧ (code = 0 ∨ code = 1)
  | None => True
  end.
Lemma elapse_ending t0 t p : ending t0 p → ending t0 (elapse t p).
Proof.
  unfold ending, elapse. intros (Hc & Hd & He). rewrite Hd. destruct (exited p) as [[t' c]|] eqn:E; [by rewrite E|].
  destruct (_ <=? t); [|by rewrite E]. cbn. split_and!; [done|done| |lia|by right]. unfold HARD_SHUTDOWN_TIMEOUT_MS. lia.
Qed.
Lemma elapse_open t p : exited (elapse t p) = None → ∀ d, deadline p = Some d → t < d.
Proof.
  unfold elapse. intros H d Hd. rewrite Hd in H. destruct (exited p) as [[t' c]|] eqn:E; [congruence|].
  destruct (d <=? t) eqn:Hle; [done|lia].
Qed.
Lemma step_ending t0 p te : t0 ≤ te.1 → ending t0 p → ending t0 (step p te).
Proof.
  intros Ht Hp. unfold step. pose proof (elapse_ending t0 te.1 p Hp) as He.
  destruct (exited (elapse te.1 p)) as [x|] eqn:E; [done|].
  assert (te.1 < t0 + HARD_SHUTDOWN_TIMEOUT_MS) by (eapply elapse_open; [exact E|apply Hp]).
  destruct He as (Hc & Hd & _). destruct te as [t e]. cbn [fst snd] in *.
  destruct e; cbn [handle]; unfold shutdown; rewrite ?Hd; unfold ending; cbn; rewrite ?E; split_and!; try done; try lia; auto.
Qed.

(** A signal ends the process within ten seconds, whatever happens: from the
    first SIGTERM or SIGINT on, whether [app.close()] resolves, rejects or hangs
    and however many signals follow, the process exits once, no later than ten
    seconds after that signal, having called [app.close()] once; and it exits with
    code 1 exactly at the deadline when the close neither settles nor lets the
    event loop drain. *)
Lemma shutdown_terminates t0 sig events horizon :
  (sig = SIGTERM ∨ sig = SIGINT) → Forall (λ te, t0 ≤ te.1) events → t0 + HARD_SHUTDOWN_TIMEOUT_MS ≤ horizon →
  let p := run ((t0, sig) :: events) horizon running in
  (∃ t code, exited p = Some (t, code) ∧ t0 ≤ t ≤ t0 + HARD_SHUTDOWN_TIMEOUT_MS ∧ (code = 0 ∨ code = 1)) ∧
  closes p = 1%nat ∧
  (Forall (λ te, te.2 = SIGTERM ∨ te.2 = SIGINT) events → exited p = Some (t0 + HARD_SHUTDOWN_TIMEOUT_MS, 1)).
Proof.
  intros Hsig Hev Hh p. set (p0 := Process (Some (t0 + HARD_SHUTDOWN_TIMEOUT_MS)) 1 None).
  assert (Hp : p = elapse horizon (foldl step p0 events)) by (by destruct Hsig as [->| ->]).
  assert (Hend : ending t0 (foldl step p0 events)).
  { assert (ending t0 p0) as H0 by done. revert H0. clear Hp p. generalize p0 as q. clear p0.
    induction Hev as [|te events Ht _ IH]; intros q Hq; cbn [foldl]; [done|]. by apply IH, step_ending. }
  pose proof (elapse_ending t0 horizon _ Hend) as Hend'. rewrite <- Hp in Hend'. destruct Hend' as (Hc & Hd & He).
  split_and!; [|done|].
  - destruct (exited p) as [[t code]|] eqn:E; [exists t, code; split_and!; tauto|].
    rewrite Hp in E. destruct Hend as (_ & Hd0 & _). pose proof (elapse_open _ _ E _ Hd0). lia.
  - intros Hsigs. rewrite Hp. clear Hp He Hc Hd Hend p.
    assert (Hq : ∀ q, (q = p0 ∨ q = exit_ (t0 + HARD_SHUTDOWN_TIMEOUT_MS) 1 p0) →
      foldl step q events = p0 ∨ foldl step q events = exit_ (t0 + HARD_SHUTDOWN_TIMEOUT_MS) 1 p0).
    { induction Hsigs as [|[t e] events He _ IH]; intros q Hq; cbn [foldl]; [done|]. inversion Hev; subst.
      apply IH; [done|]. destruct Hq as [->| ->]; [|by right]. unfold step, elapse. cbn [fst snd exited deadline p0].
      destruct (_ <=? t); [by right|left]. cbn in He. by destruct He as [-> | ->]. }
    destruct (Hq p0 (or_introl eq_refl)) as [-> | ->]; [|done]. unfold elapse. cbn [exited deadline p0].
    by rewrite (proj2 (Z.leb_le _ _) Hh).
Qed.
(** Two signals, and Redis never lets go. *)
Lemma shutdown_terminates_witness :
  exited (run [(100, SIGTERM); (5000, SIGINT)] 60000 running) = Some (10100, 1).
Proof.
  refine (proj2 (proj2 (shutdown_terminates 100 SIGTERM [(5000, SIGINT)] 60000 _ _ _)) _).
  - by left.
  - repeat constructor; cbn; lia.
  - unfold HARD_SHUTDOWN_TIMEOUT_MS. lia.
  - constructor; [by right|constructor].
Defined.
End Shutdown.
