(* ===== verification/Workers.v ===== *)
(** Queues at work: BullMQ's attempts and delays as it documents them, with the
    options of queue/queue.module.ts and leads/leads.module.ts, and what they
    make of the Stripe webhooks. *)
From S2P Require Import Prelude JsLib Crypto Schema Effects Platform Config Messaging Tokens Users Sessions Access Billing Auth AuthController Instances Guards Subscriptions LeadFinderBilling Webhooks BillingInvariants Apollo Taxonomy Leads ApolloSearch Dto MailTemplate MailWorkers Campaign ResendWebhook Outreach Admin AdminController Controllers Api Service Fixtures.

(** ** A queue and its one worker *)
Module Worker.
(** [defaultJobOptions.attempts] of the queues, and of the searches' queue. *)
Definition ATTEMPTS : nat := 3.
Definition APOLLO_ATTEMPTS : nat := 1.
(** A job with the attempts made on it. *)
Record job (J : Type) := Job { jb_data : J; jb_made : nat }.
Arguments Job {J} jb_data jb_made.
Arguments jb_data {J} _.
Arguments jb_made {J} _.
(** Jobs wait in order; a failed one waits apart until its backoff is over. *)
Record queue (J : Type) := Queue {
  waiting : list (job J); delayed : list (job J); completed : list J; failed : list J
}.
Arguments Queue {J} waiting delayed completed failed.
Arguments waiting {J} _.
Arguments delayed {J} _.
Arguments completed {J} _.
Arguments failed {J} _.

Section worker.
Context {J : Type} (attempts : nat) (process : J → M unit) (onFailed : J → nat → exn → M unit).
(** What the rest of the service does to the world in between. *)
Context (other : world → world → Prop).

(** One attempt on the first waiting job; [onFailed] hears of every failure. *)
Definition attempt (j : job J) (l d : list (job J)) (c f : list J) (w : world) : queue J * world :=
  match process (jb_data j) w with
  | (Ok _, w') => (Queue l d (c ++ [jb_data j]) f, w')
  | (Err e, w') =>
      let made := S (jb_made j) in
      let w'' := (onFailed (jb_data j) made e w').2 in
      if decide (made < attempts)%nat then (Queue l (d ++ [Job (jb_data j) made]) c f, w'')
      else (Queue l d c (f ++ [jb_data j]), w'')
  end.
(** [works n es s s']: from [s] to [s'] with [n] attempts, the jobs [es] arriving. *)
Inductive works : nat → list J → queue J * world → queue J * world → Prop :=
| works_here s : works 0 [] s s
| works_attempt n es j l d c f w s :
    works n es (attempt j l d c f w) s → works (S n) es (Queue (j :: l) d c f, w) s
| works_promote n es l d1 j d2 c f w s :
    works n es (Queue (l ++ [j]) (d1 ++ d2) c f, w) s → works n es (Queue l (d1 ++ j :: d2) c f, w) s
| works_arrival n es x l d c f w s :
    works n es (Queue (l ++ [Job x 0]) d c f, w) s → works n (x :: es) (Queue l d c f, w) s
| works_other n es q w w' s : other w w' → works n es (q, w') s → works n es (q, w) s.

Definition empty : queue J := Queue [] [] [] [].
Definition contents (q : queue J) : list J :=
  (jb_data <$> waiting q) ++ (jb_data <$> delayed q) ++ completed q ++ failed q.
Definition settled (q : queue J) : bool :=
  match waiting q, delayed q with [], [] => true | _, _ => false end.
(** The attempts left to the jobs of the queue. *)
Definition left_ (l : list (job J)) : nat := sum_list_with (λ j, attempts - jb_made j)%nat l.
Definition remaining (q : queue J) : nat := (left_ (waiting q) + left_ (delayed q))%nat.
Definition within (q : queue J) : Prop := Forall (λ j, jb_made j < attempts)%nat (waiting q ++ delayed q).

Lemma left_app l1 l2 : left_ (l1 ++ l2) = (left_ l1 + left_ l2)%nat.
Proof. apply sum_list_with_app. Qed.
(** An attempt uses one up, and loses no job. *)
Lemma attempt_run j l d c f w :
  within (Queue (j :: l) d c f) →
  let q := Queue (j :: l) d c f in let q' := (attempt j l d c f w).1 in
  within q' ∧ (S (remaining q') ≤ remaining q)%nat ∧ contents q' ≡ₚ contents q.
Proof.
  unfold within. cbn. rewrite Forall_cons. intros [Hj Hl]. unfold attempt.
  destruct (process (jb_data j) w) as [[u|e] w']; cbn; [|destruct (decide (S (jb_made j) < attempts)%nat) as [E|E]; cbn];
    unfold remaining, contents; cbn; rewrite ?left_app, ?fmap_app; unfold left_; cbn; split_and!;
    first [done | lia | solve_Permutation | idtac].
  rewrite app_assoc, Forall_app. split; [done|by constructor].
Qed.
Lemma promote_run l d1 (j : job J) d2 c f :
  let q := Queue l (d1 ++ j :: d2) c f in let q' := Queue (l ++ [j]) (d1 ++ d2) c f in
  (within q → within q') ∧ remaining q' = remaining q ∧ contents q' ≡ₚ contents q.
Proof.
  cbn. split_and!.
  - unfold within. cbn. rewrite !Forall_app, !Forall_cons. intros (Hl & Hd1 & Hj & Hd2). by split_and!.
  - unfold remaining. cbn. rewrite !left_app. unfold left_. cbn. lia.
  - unfold contents. cbn. rewrite !fmap_app. cbn. solve_Permutation.
Qed.
Lemma works_run n es s s' :
  (0 < attempts)%nat → works n es s s' → within s.1 →
  within s'.1 ∧ (n + remaining s'.1 ≤ remaining s.1 + attempts * length es)%nat ∧
  contents s'.1 ≡ₚ contents s.1 ++ es.
Proof.
  intros Ha. induction 1 as [s|n es j l d c f w s _ IH|n es l d1 j d2 c f w s _ IH|n es x l d c f w s _ IH|n es q w w' s _ _ IH];
    intros Hq; cbn [fst] in *.
  - rewrite app_nil_r. split_and!; [done|lia|done].
  - destruct (attempt_run j l d c f w Hq) as (Hw & Hr & Hc). destruct (IH Hw) as (Hw' & Hr' & Hc').
    split_and!; [done|lia|]. by rewrite Hc', Hc.
  - destruct (promote_run l d1 j d2 c f) as (Hw & Hr & Hc). destruct (IH (Hw Hq)) as (Hw' & Hr' & Hc').
    split_and!; [done|lia|]. by rewrite Hc', Hc.
  - destruct IH as (Hw' & Hr' & Hc').
    { unfold within in *. cbn in *. rewrite !Forall_app in *. split_and!; [tauto| |tauto]. by constructor. }
    split_and!; [done| |].
    + cbn [length]. unfold remaining in *. cbn in *. rewrite left_app in Hr'. unfold left_ in *. cbn in *. lia.
    + rewrite Hc'. unfold contents. cbn. rewrite fmap_app. cbn. solve_Permutation.
  - by apply IH.
Qed.
Lemma works_trans n1 n2 es1 es2 s1 s2 s3 : works n1 es1 s1 s2 → works n2 es2 s2 s3 → works (n1 + n2) (es1 ++ es2) s1 s3.
Proof. induction 1; cbn; eauto using works. Qed.
(** Left alone, the worker empties its queue. *)
Lemma works_off q w : within q → ∃ n q' w', works n [] (q, w) (q', w') ∧ settled q' = true.
Proof.
  remember (2 * remaining q + length (delayed q))%nat as k eqn:Ek. revert q w Ek.
  induction (lt_wf k) as [k _ IH]. intros [l d c f] w -> Hq. destruct l as [|j l].
  - destruct d as [|j d]; [exists 0%nat, (Queue [] [] c f), w; split; [constructor|done]|].
    destruct (promote_run [] [] j d c f) as (Hw & Hr & _).
    assert (Hlt : (2 * remaining (Queue [j] d c f) + length (delayed (Queue [j] d c f)) <
      2 * remaining (Queue [] (j :: d) c f) + length (delayed (Queue [] (j :: d) c f)))%nat).
    { cbn [app] in Hr. rewrite Hr. cbn. lia. }
    destruct (IH _ Hlt (Queue [j] d c f) w eq_refl (Hw Hq)) as (n & q' & w' & Hn & Hs).
    exists n, q', w'. split; [|done]. by apply (works_promote n [] [] [] j d).
  - destruct (attempt_run j l d c f w Hq) as (Hw & Hr & _). destruct (attempt j l d c f w) as [q1 w1] eqn:E. cbn [fst] in Hw, Hr.
    assert (length (delayed q1) ≤ S (length d))%nat.
    { unfold attempt in E. destruct (process _ w) as [[u|e] w2]; [injection E as <- <-; cbn; lia|].
      destruct (decide _); injection E as <- <-; cbn; rewrite ?length_app; cbn; lia. }
    assert (Hlt : (2 * remaining q1 + length (delayed q1) <
      2 * remaining (Queue (j :: l) d c f) + length (delayed (Queue (j :: l) d c f)))%nat) by (cbn [delayed]; lia).
    destruct (IH _ Hlt q1 w1 eq_refl Hw) as (n & q' & w' & Hn & Hs).
    exists (S n), q', w'. split; [|done]. apply works_attempt. by rewrite E.
Qed.
End worker.
End Worker.

(** ** The webhooks' queue *)
Module WebhookQueue.
Import Worker.
Section webhooks.
Context {cfg : config} `{Entropy, StripeApi}.
(** [err.message] of what an attempt threw. *)
Context (message_of : exn → string).
Definition onFailed (e : stripe_event) (made : nat) (err : exn) : M unit :=
  Webhooks.onFailed e (Z.of_nat made) (Some (Z.of_nat ATTEMPTS)) (message_of err).
(** The queue between the endpoint and [StripeWebhookProcessor], while the rest
    of the service does what it does; the audit log is never cut. *)
Definition runs : nat → list stripe_event → queue stripe_event * world → queue stripe_event * world → Prop :=
  works ATTEMPTS Webhooks.process onFailed audit_grows.
(** Someone is told that the event was given up. *)
Definition reported (w : world) (e : stripe_event) : Prop :=
  ∃ a, a ∈ db_auditLogs (w_db w) ∧ a_action a = "billing.webhook_processing_failed" ∧ a_targetId a = Some (se_id e).

Lemma reported_grows w w' e : audit_grows w w' → reported w e → reported w' e.
Proof.
  intros [l Hl] (a & Ha & Hact). exists a. split; [|done]. rewrite Hl. apply elem_of_app. by left.
Qed.
Lemma rollback_grows w w' : audit_grows w w' → audit_grows w (put_db (w_db w) w').
Proof. intros _. unfold audit_grows. done. Qed.
#[local] Hint Resolve rollback_grows : presh.
Lemma process_grows e : respects audit_grows (Webhooks.process e).
Proof. frame_op. Qed.
Lemma onFailed_grows e made err : respects audit_grows (onFailed e made err).
Proof. unfold onFailed, Webhooks.onFailed. frame_op. Qed.
Lemma onFailed_reports e made err w : (ATTEMPTS ≤ made)%nat → reported (onFailed e made err w).2 e.
Proof.
  intros Hm. unfold onFailed, Webhooks.onFailed, when. cbn [from_option].
  rewrite (proj2 (Z.leb_le _ _)) by (cbn; unfold ATTEMPTS in *; lia). rewrite Audit.record_run by done.
  eexists. cbn. split; [apply elem_of_app; right; by apply list_elem_of_singleton|]. done.
Qed.
Lemma attempt_reports j l d c f w :
  Forall (reported w) f → (jb_made j < ATTEMPTS)%nat →
  Forall (reported (attempt ATTEMPTS Webhooks.process onFailed j l d c f w).2)
    (failed (attempt ATTEMPTS Webhooks.process onFailed j l d c f w).1).
Proof.
  intros Hf Hj. unfold attempt. pose proof (process_grows (jb_data j) w) as Hg.
  destruct (Webhooks.process (jb_data j) w) as [[u|e] w1]; cbn in *.
  { eapply Forall_impl; [exact Hf|]. intros x. by apply reported_grows. }
  pose proof (onFailed_grows (jb_data j) (S (jb_made j)) e w1) as Hg2.
  assert (Hf2 : Forall (reported (onFailed (jb_data j) (S (jb_made j)) e w1).2) f).
  { eapply Forall_impl; [exact Hf|]. intros x Hx. eapply reported_grows; [exact Hg2|]. by eapply reported_grows. }
  destruct (decide _) as [Hlt|Hge]; cbn; [done|]. apply Forall_app. split; [done|]. apply Forall_singleton.
  apply onFailed_reports. lia.
Qed.
Lemma runs_report n es s s' :
  runs n es s s' → within ATTEMPTS s.1 → Forall (reported s.2) (failed s.1) → Forall (reported s'.2) (failed s'.1).
Proof.
  unfold runs. induction 1 as [s|n es j l d c f w s _ IH|n es l d1 j d2 c f w s _ IH|n es x l d c f w s _ IH|n es q w w' s Ho _ IH];
    intros Hq Hf; cbn [fst snd failed] in *; [done|..].
  - apply IH; [by apply (attempt_run ATTEMPTS Webhooks.process onFailed j l d c f w)|].
    apply attempt_reports; [done|]. unfold within in Hq. cbn in Hq. by apply Forall_cons in Hq as [? _].
  - apply IH; [by apply (promote_run ATTEMPTS l d1 j d2 c f)|done].
  - apply IH; [|done]. unfold within in *. cbn in *. rewrite !Forall_app in *. split_and!; [tauto| |tauto].
    constructor; [cbn; unfold ATTEMPTS; lia|done].
  - apply IH; [done|]. eapply Forall_impl; [exact Hf|]. intros y. by apply reported_grows.
Qed.

End webhooks.

(** ** Witnesses: events of a plan that is not in the catalogue *)
Section witness.
#[local] Existing Instance default_config.
#[local] Existing Instances counter_entropy counting_stripe.
Definition text_of (e : exn) : string := match e with Http _ m | JsError m => m | PrismaKnown c => c | NeverSettles => "" end.
Definition created : stripe_event := StripeEvent "evt_1" (ev_subscription_created active_event).
Definition deleted : stripe_event := StripeEvent "evt_2" (ev_subscription_deleted active_event).
Definition no_catalogue : world :=
  put_db (set_db_plans ∅ (w_db (billed ∅ 0))) (initial_world 0).
Abbreviation try := (attempt ATTEMPTS Webhooks.process (onFailed text_of)).
Definition tried_once : queue stripe_event * world :=
  Eval vm_compute in try (Job created 0) [] [] [] [] no_catalogue.
Definition tried_twice : queue stripe_event * world :=
  Eval vm_compute in try (Job created 1) [] [] [] [] tried_once.2.
Definition given_up : queue stripe_event * world :=
  Eval vm_compute in try (Job created 2) [] [] [] [] tried_twice.2.
Lemma given_up_run : runs text_of 3 [created] (empty, no_catalogue) given_up.
Proof.
  unfold runs, empty. apply works_arrival, works_attempt.
  assert (try (Job created 0) [] [] [] [] no_catalogue = (Queue [] [Job created 1] [] [], tried_once.2)) as ->
    by (vm_compute; reflexivity).
  apply (works_promote _ _ _ _ 2 [] [] [] (Job created 1) []). cbn [app]. apply works_attempt.
  assert (try (Job created 1) [] [] [] [] tried_once.2 = (Queue [] [Job created 2] [] [], tried_twice.2)) as ->
    by (vm_compute; reflexivity).
  apply (works_promote _ _ _ _ 1 [] [] [] (Job created 2) []). cbn [app]. apply works_attempt.
  assert (try (Job created 2) [] [] [] [] tried_twice.2 = given_up) as -> by (vm_compute; reflexivity).
  apply works_here.
Qed.

(** One worker does not keep the order of events: the creation of a subscription
    fails, its deletion is processed, and the retry of the creation - the plan is
    in the catalogue by now - leaves an ACTIVE row of a subscription that Stripe
    deleted. *)
Definition overtaken : queue stripe_event * world :=
  Eval vm_compute in try (Job deleted 0) [] [Job created 1] [] [] tried_once.2.
Definition catalogue_there : world :=
  Eval vm_compute in put_db (set_db_plans {[ "p1" := plan1 ]} (w_db overtaken.2)) overtaken.2.
Definition revived : queue stripe_event * world :=
  Eval vm_compute in try (Job created 1) [] [] [deleted] [] catalogue_there.
Lemma retry_overtaken :
  runs text_of 3 [created; deleted] (empty, no_catalogue) revived ∧
  completed revived.1 = [deleted; created] ∧ sub_status <$> values (db_subscriptions (w_db revived.2)) = [ACTIVE].
Proof.
  split_and!; [|reflexivity|vm_compute; reflexivity].
  unfold runs, empty. apply works_arrival, works_arrival. cbn [app]. apply works_attempt.
  assert (try (Job created 0) [Job deleted 0] [] [] [] no_catalogue =
    (Queue [Job deleted 0] [Job created 1] [] [], tried_once.2)) as -> by (vm_compute; reflexivity).
  apply works_attempt.
  assert (try (Job deleted 0) [] [Job created 1] [] [] tried_once.2 = (Queue [] [Job created 1] [deleted] [], overtaken.2))
    as -> by (vm_compute; reflexivity).
  apply works_other with catalogue_there; [apply audit_grows_eq; reflexivity|].
  apply (works_promote _ _ _ _ 1 [] [] [] (Job created 1) []). cbn [app]. apply works_attempt.
  assert (try (Job created 1) [] [] [deleted] [] catalogue_there = revived) as -> by (vm_compute; reflexivity).
  apply works_here.
Qed.
End witness.
End WebhookQueue.
