(* ===== verification/SessionCap.v ===== *)
(** The cap on sessions, over everything the service does: every route, job,
    outage and passing of time keeps each account within
    MAX_TRUSTED_DEVICES live sessions. *)
From S2P Require Import Prelude JsLib Crypto Schema Effects Platform Config Messaging Tokens Revocation Users Sessions Access Billing Auth AuthController Instances AuthSessions Guards Subscriptions LeadFinderBilling Webhooks Apollo Taxonomy Leads ApolloSearch Dto MailTemplate MailWorkers Campaign ResendWebhook Outreach Admin AdminController Controllers Api Service Fixtures Lockout.
Import Guards Lockout.

Module SessionCap.
Section cap.
Context {cfg : config} `{Entropy, Argon2, Jwt, Totp, Aead, UAParser, GeoipLite, StripeApi, StripeSignature}.
Context `{ApolloApi, ClaudeApi, LocalTime, Collation, CsvStringify, IsEmail, IsUrl, IsUUID, Resend}.
(** Sessions are stored under their ids, and no account has more of them that
    can still be refreshed than the cap. *)
Definition within_cap (w : world) : Prop :=
  keyed s_id (Sessions.table_of w) ∧ ∀ u, Sessions.live_count w u ≤ MAX_TRUSTED_DEVICES cfg.
Abbreviation R := (keeps cap_ok).
Lemma within_cap_ok w : within_cap w ↔ cap_ok w.
Proof. split; [intros [Hk Hc]|intros (Hk & Hc & _)]; by split_and?. Qed.
Lemma cap_eq w w' : Sessions.table_of w' = Sessions.table_of w → w_now w' = w_now w → R w w'.
Proof. intros Ht Hn. unfold keeps. apply view_cap. unfold session_view. by rewrite Ht, Hn. Qed.
Lemma cap_quiet w w' : quiet w w' → R w w'.
Proof. intros (_ & Hs & _ & Hn). by apply cap_eq. Qed.
#[local] Hint Extern 1 (keeps cap_ok _ _) => apply cap_eq; reflexivity : presh.
#[local] Hint Extern 1 (respects _ (db_update_many T_sessions _ _)) => apply update_many_cap, shrinking_revoke : steph.
#[local] Hint Extern 1 (respects _ (db_update T_sessions _ _)) => apply update_cap, shrinking_revoke : steph.
#[local] Hint Resolve revokeAll_cap login_cap verifyLogin_cap refresh_cap remove_cap deleteAccount_cap : steph.

#[local] Hint Extern 1 (respects (same session_view) (transaction _)) =>
  apply transaction_view; frame_tac : steph.
Lemma register_cap email fullName password phone meta : respects R (Auth.register email fullName password phone meta).
Proof. apply view_keeps. unfold Auth.register, Users.findByEmail, Conflict. frame_tac. Qed.
Lemma invite_cap admin email r d l : respects R (Admin.inviteUser admin email r d l).
Proof. apply view_keeps. unfold Admin.inviteUser. frame_op. Qed.
#[local] Hint Resolve register_cap invite_cap : steph.

Lemma loud_cap key req user r :
  envValidation cfg = true → loud r = true → respectsC R (Api.handle key req user r).
Proof.
  intros Hcfg Hl. route_cases r; try discriminate Hl; open_handler.
  all: autounfold with loud; frame_op.
Qed.

(** C10. The cap holds for good. Whatever routes are called, by whom and in
    whatever order, whatever jobs run, however time passes and Redis comes and
    goes, no account ever has more than MAX_TRUSTED_DEVICES sessions that can
    still be refreshed: a login at the cap signs the oldest sessions out, a
    refresh replaces its session, a replayed grace token adds none, and
    nothing that staff, webhooks or workers do opens one. *)
Theorem cap_for_good key w0 w :
  envValidation cfg = true → within_cap w0 →
  service_run key (λ _ _, True) w0 w → within_cap w.
Proof.
  intros Hcfg Hw Hrun. rewrite within_cap_ok in *. revert Hw.
  eapply (run_R R); [..|exact Hrun].
  - apply cap_quiet.
  - intros t up w1 Ht Hw. by apply time_cap.
  - intros req user r w1 Hl _ ck w2 _. by apply loud_cap.
Qed.
End cap.

(** ** Witness: Ann logs in five times *)
Section witness.
#[local] Existing Instance default_config.
#[local] Existing Instances counter_entropy plain_argon2 plain_jwt echo_totp toy_gcm plain_ua empty_geoip counting_stripe no_signature.
#[local] Existing Instances silent_apollo silent_claude length_order joined_csv at_email any_url any_uuid willing_resend.
Definition logs_in : Api.route := Api.AuthRoute (AuthRoutes.Login "ann@example.com" "secret123").
(** Her browser is registered by the first login, which is challenged. *)
Definition first_login : world := Eval vm_compute in Api.served key0 anonymous logs_in two_accounts.
Definition second_login : world := Eval vm_compute in Api.served key0 anonymous logs_in first_login.
Definition third_login : world := Eval vm_compute in Api.served key0 anonymous logs_in second_login.
Definition fourth_login : world := Eval vm_compute in Api.served key0 anonymous logs_in third_login.
Definition fifth_login : world := Eval vm_compute in Api.served key0 anonymous logs_in fourth_login.
Lemma logs_in_step w w' :
  Api.served key0 anonymous logs_in w = w' → service_step key0 (λ _ _, True) w w'.
Proof. intros <-. by constructor. Qed.
Lemma five_logins : service_run key0 (λ _ _, True) two_accounts fifth_login.
Proof.
  apply rtc_l with first_login; [apply logs_in_step; vm_compute; reflexivity|].
  apply rtc_l with second_login; [apply logs_in_step; vm_compute; reflexivity|].
  apply rtc_l with third_login; [apply logs_in_step; vm_compute; reflexivity|].
  apply rtc_l with fourth_login; [apply logs_in_step; vm_compute; reflexivity|].
  apply rtc_once, logs_in_step. vm_compute. reflexivity.
Qed.
Lemma cap_for_good_witness :
  size (Sessions.table_of fifth_login) = 4%nat ∧ Sessions.live_count fifth_login "ann" = 3 ∧
  within_cap fifth_login.
Proof.
  split_and!; [vm_compute; reflexivity..|].
  apply (cap_for_good key0 two_accounts fifth_login default_config_valid); [|exact five_logins].
  split; [apply keyed_check; vm_compute; reflexivity|].
  intros u. apply Z.leb_le. vm_compute. reflexivity.
Defined.
End witness.
End SessionCap.
